(* ===== verification/_CoqProject ===== *)
-Q . S2P
Prelude.v
JsStr.v
JsNum.v
JsVal.v
Ints.v
Floats.v
React.v
Effects.v
Logic.v
Storage.v
Api.v
Orderly.v
Typed.v
RouterMachine.v
Promises.v
Work.v
Forms.v
Users.v
UsersView.v
UsersSpec.v
UsersRender.v
UsersTyped.v
Groups.v
Templates.v
Nodes.v
ResponseRules.v
Catalog.v
GroupsSpec.v
Settings.v
ConfigProfiles.v
HWIDInspector.v
ConnectionLogs.v
PagesSpec.v
Home.v
DashboardSpec.v
Login.v
AdminApp.v
Safety.v
Shell.v
Token.v
PanelViews.v
PanelTyped.v
Cards.v
SplashScreen.v
OnboardingScreen.v
HomeScreen.v
ServerListScreen.v
SettingsScreen.v
SplitTunnelingScreen.v
ClientApp.v
ClientKey.v
ClientMachine.v
ClientViews.v
Quiescence.v
PanelScreens.v
PanelMachine.v
PanelRuns.v
PanelSession.v
PanelLoads.v
BackendData.v
Backend.v
Signed.v
BackendSpec.v
BackendTables.v
BackendRequests.v
FullStack.v
WriteThrough.v
PagesStored.v
PanelTables.v
PanelRest.v
Ui.v
UiBasics.v
UiOverlays.v
UiMenus.v
UiSidebar.v
UiSpec.v
UiSidebarSpec.v
UiForm.v
UiCarousel.v
UiChart.v
