(* ===== verification/Prelude.v ===== *)
(** * A verified model of the ShadeVPN web front ends

    The repository holds a VPN system in several languages.  This development
    covers its TypeScript: the administrators' panel
    ([figmadesighn/src/app]) and the prototype of the client application
    ([shadevpn_android figma/app]), two React programs, and the part of the
    Python backend the panel talks to ([shadevpn-admin-backend]).

    The panel's own theorems assume nothing about the backend: they hold for
    any answers, in any order, or none, but for those that say that rendering
    never breaks, which name what the backend promises ([Promises]).  The
    backend is then modelled by itself and shown to keep that promise, and the
    two are put together: what a click does to the tables, and what the page
    shows afterwards.

    ** How a React program is modelled

    - [JsStr], [JsNum], [JsVal]: the part of JavaScript the pages use.  Values
      ([val]), property access that throws on [null] and [undefined], the
      operators the source uses, [===], template literals, [JSON.stringify];
      numbers are binary64 ([SpecFloat]) with exact decimal conversion
      ([num_to_string], [toFixed], [parseFloat], [parseInt]); strings are
      UTF-8.  An expression is a [res val]: it may throw.
    - [Ints], [Floats], [Forms]: lemmas the pages share.  Small
      integers are exact; the sign of a difference of doubles is the order of
      the exact values; products and quotients of non-negative numbers stay
      non-negative; [toFixed] rounds to the nearest; selections kept as arrays;
      forms read through refs.
    - [React]: elements as data.  A view is a function from the state to
      [res (list node)]; a handler is not a closure but an [action], so that
      "this button calls this handler with these arguments" can be stated.
      [finds] reads a tree.
    - [Effects]: handlers as programs ([prog]: state updates, browser calls,
      awaited promises, spawned chains, timers), components ([component]:
      initial state, mount effect, handlers, effects that follow a commit), and
      their run-time configurations ([conf]) with the step relation [step]: a
      user event, a settling promise (with any outcome) or an expiring timer,
      in any order.  [reachable] is its closure.
    - [Storage]: the local storage is the replay of the log, so what a page can
      do to it is read off the calls of its handlers.  [Typed]: [keeps], the
      invariants of a machine whose server and user keep stated promises.
      [Orderly]: what makes a program harmless once its page is gone: it sets
      no interval and lets the wrapper handle every 401.
      [Work]: [bounded], how many promises and timers a handler leaves behind,
      and [comes_to_rest], what a page does once the user stops.
    - [RouterMachine]: any table of screens behind a router ([Screens], against
      the interface [Router], [RouterLaws] of its history and [Matcher],
      [MatcherLaws] of the test of a location against a route): one screen on
      display, the others left with what they had pending, one history, one
      storage.  [tame] lists what the screens must promise for an invariant of
      the whole.  [stack] and [path_matcher] are instances the witnesses run on;
      [path_matcher] ignores case, trailing slashes, queries and hashes.
    - [Logic]: the judgments the theorems are proved with.  [within] and
      [behaves] (an invariant of the state and a property of every observable
      call, lifted to all reachable configurations by [reachable_within]);
      [debt] (a flag raised by a handler is lowered before the handler's last
      step, [settled_down]); [path] (the observations of one finished run of a
      handler, whatever the answers) and [play], which computes such a run and
      is how the witnesses are obtained.

    ** The programs

    Admin panel, [figmadesighn/src/app]:
    - [Api]: [config.ts], the API prefix and the wrapper around
      [window.fetch]; the refresh pattern all pages share.
    - [Users], [UsersView]: [pages/Users.tsx], its state and handlers, its
      view.  [UsersSpec] (with the answers that overtake each other),
      [UsersRender] and [UsersTyped] hold the theorems.
    - [Groups], [Templates], [Nodes], [ResponseRules]: the pages of those
      names.  Theorems in [Catalog] (creation), [GroupsSpec] (groups,
      assignment, confirmed deletions of all four pages, and the edit form,
      which two handlers share through the document).
    - [Settings], [ConfigProfiles], [ConnectionLogs]: those pages; theorems in
      [PagesSpec].  [HWIDInspector]: that page.
    - [Home]: the dashboard; theorems in [DashboardSpec].
    - [Login], [AdminApp]: [pages/Login.tsx], against the interface
      ([LoginHost]) its parent implements; [App.tsx] and [routes.tsx], with the
      theorems about them.
    - [Shell]: [Layout.tsx], [Header.tsx], [Sidebar.tsx], [GlobalSearch.tsx],
      with their theorems.  [Cards]: the card components and
      [ImageWithFallback].
    - [Safety]: what all pages together can send and where they can lead.
      [Token]: the admin token across login, start, requests and 401.
    - [Promises]: the shapes of the answers the panel reads, and the interface
      ([Page]) of a page that renders as long as the server keeps to them;
      [PanelViews] (what each page shows) and [PanelTyped] (its instances).
    - [PanelScreens], [PanelMachine]: the panel as one machine: the entry, the
      frame, the ten pages behind the router, reloads.  Theorems in
      [PanelRuns] and [PanelRest].  [PanelSession]: the session the panel
      implements, a specification without pages.
    - [PanelLoads]: lists that are read in any order, and what each page has
      loaded.

    Admin backend, [shadevpn-admin-backend]:
    - [BackendData]: the tables and constraints of [database.py], the request
      bodies of [main.py], the clients of the VPN core in [clients.json]
      ([sync.py]), and the monad of the handlers: a handler returns, raises an
      [HTTPException] or raises something else, and a commit stores all or
      nothing.  What the libraries, the clock and the VPN core answer is an
      interface, [Platform] with its laws [PlatformLaws], and the record
      [moment].
    - [Backend]: one definition per handler (the QR image and the subscription
      of the mobile applications among them), the route table and [serve], the
      application with its middleware.
    - [BackendSpec]: which handler serves which request, and that its answers
      have the promised shapes.  [BackendTables]: what each handler does to the
      tables, what is told without the password, the subscription.
      [BackendRequests]: what every request leaves as it was, from one lemma per
      handler on the one transaction it makes.

    Panel and backend together: [Signed] (every request of a page carries the
    stored token), [FullStack] (a whole session against the backend),
    [WriteThrough] (the [system] of one page and the backend, whose [turn] is a
    request served, at one of a given set of moments, or a body that arrives), [PagesStored] (the rules applied to
    each form and button) and [PanelTables] (the theorems about them).

    Client prototype, [shadevpn_android figma/app]: [SplashScreen],
    [OnboardingScreen], [HomeScreen], [ServerListScreen], [SettingsScreen],
    [SplitTunnelingScreen], one file each with its theorems, and [ClientApp]
    ([App.tsx], the route table).  [ClientViews]: what the screens show.
    [ClientKey]: the stored key across onboarding, start and settings.
    [ClientMachine]: the whole prototype as one machine of [RouterMachine]:
    which screen is mounted, which were left with what pending, the history,
    the storage.

    [Quiescence]: both programs come to rest.

    UI kit, [figmadesighn/src/app/components/ui] (the prototype has the same
    files): [Ui] (the vocabulary and [cn]), [UiBasics], [UiOverlays], [UiMenus]
    (its components as functions of their props), [UiSidebar] (the collapsible
    sidebar with its provider, against the interface [SidebarHost] of the
    parent).  Theorems in [UiSpec] and [UiSidebarSpec].  [UiForm] (with the
    calendar), [UiCarousel] and [UiChart] are the adapters of react-hook-form,
    react-day-picker, embla and recharts.

    ** What the theorems show

    - Requests: each mutation of the panel sends exactly the requests the code
      means to send, with the exact method, address and body, on every branch
      (blank fields, refused confirmations, failed requests), and refreshes what
      it must ([handleBulkDelete_requests], [handleCreate_requests],
      [handleUpdate_requests], [group_save], [group_assign],
      [deletions_confirmed], [catalog_creations], [rule_toggle],
      [settings_saved], [login_submit]); every request of every
      page goes through the wrapper, which sets the token and handles a 401
      ([fetch_wraps], [panel_stays_in_panel]).
    - Invariants over all interleavings: the loading flag ([loading_settles]),
      the connection state machine with its timers ([home_machine]), the splash
      timer, what onboarding stores, the list of apps, the language, the
      sidebar's cookie under any parent ([cookie_tracks_open]), the carousel's listeners
      ([carousel_listeners]), navigation of both programs.
    - Composition: the prototype as a whole ([app_composes]) and the panel as a
      whole ([panel_composes]): what is mounted is the screen of the location;
      what was left is harmless in the panel ([left_pages_harmless]), while in
      the prototype it may go home ([stray_navigation]); the storage changes in one item only.  A session
      starts at the page it was opened on ([login_opens_page]) and ends with
      any 401 ([session_expires]); a group leads to its clients
      ([group_opens]).
    - The backend: without the password nothing is changed, and nothing learned
      but the subscription of a token one knows ([password_required]), whose
      keys are exactly those of the nodes on offer ([subscription_served]); what
      a client was issued with never changes, groups stay resolved, and what
      fails has changed no row ([requests_keep]); names and tokens stay unique
      and rows under their own keys ([tables_sound], which SQLite, the model's
      [commit], enforces).
    - The full stack: a session with the password stored is never interrupted
      and sees only answers of the promised shapes ([session_uninterrupted]);
      a page that rests shows what the server answered ([pages_load]); from
      the click to the tables and back, the deletion of a group
      ([group_deletion_detaches]), its creation ([group_creation]), the other
      forms and buttons ([forms_stored]) and the settings
      ([settings_roundtrip]).
    - Refinement: every run of the panel is a run of an abstract session of
      submissions, answers, expiries, turns of the history and reloads, in which
      the status of an answer decides ([panel_implements_session]); the home screen implements an abstract
      connection ([session_refined]).  Termination: [everything_rests] for each
      screen, [panel_rests] for the panel with everything it has left behind.  Round trips: the
      token ([token_lifecycle]), the key ([key_lifecycle]), the edit form
      ([group_edit_roundtrip]).  Type soundness: against a server whose
      answers have the promised shapes no page ([panel_type_sound]) and no
      configuration of the panel ([panel_never_breaks]) fails to render.
    - Views: what the pages and the screens of the prototype render and what
      each of their clickable elements does ([view_clicks], [pages_render],
      [screens_render]), the menu against the route table, the search dialog,
      the parts of a form field ([form_fields_wired]) and the wrappers of the
      UI kit ([wrappers_transparent]).
    - Numbers: the dashboard's ranking is a stable sort by exact traffic, its
      bars stay between 0 and 100, its byte counts are correctly rounded.
    - Defects that the model exhibits: [edit_drops_group],
      [untouched_edit_loses], [rename_diverges], the taken name of
      [group_creation],
      [error_body_breaks_page], [stale_answer_wins], [stray_navigation],
      [server_choice], [key_copied], [tooltip_zero],
      [carousel_listeners], and the branch of [login_submit] a wrong password
      takes.

    ** Bounds and fuel

    The only fuel is in [JsNum]: [neg_scale] and [shortest] search for a decimal
    exponent and a digit count; a binary64 value needs at most 324 and 17 steps
    and they are given 400 and 800.  The bounds of [Work] are numerals found by
    computation, and the length of the selection for the bulk deletion; the turns
    of [WriteThrough] are bounded by two for the request that writes and three
    for each list that is read again.  Programs ([prog]) are finite trees, so
    every handler's run is total; [resolve] follows one redirect, the most the
    route table of the client has.

    ** What is not modelled

    Rendering is a function of the state: React's batching and memoisation do
    not appear, and an event runs against the state of the last render, as a
    closure does.  A configuration is a mounted component; unmounting
    appears where a router does it (in [RouterMachine], where a screen that was
    left keeps its promises and timers and loses its display) and for the
    carousel.  A reload takes effect at some later moment: until then the
    document goes on, then it starts over from the storage and the history, and
    nothing of the old document is left.  The frame keeps its search state
    across pages and shares nothing with them.  Objects of the program
    are compared by value only where the source compares primitives; array
    identity is not kept.  Objects have no prototype properties.  The
    animation library, icons, charts and the router are third-party: their
    elements appear in the trees with their attributes, their behaviour does
    not, but for what [RouterLaws] states of the router.  Locale formatting of dates, the Unicode tables beyond ASCII, [clsx],
    [tailwind-merge] and [class-variance-authority] are parameters.  The
    prototype's copy of the UI kit is the same text as the panel's and is not
    modelled twice; the bundle under [dist] is generated.

    Of the backend every route is modelled; [serve] is [None] only for an
    address that is not the backend's.  An image is an answer whose body is no
    JSON.  The background task that collects the traffic of
    the clients and the seed and migration of the database are left out: the
    usage, the snapshots and who is online are whatever the tables and the
    [moment] hold, and no theorem lets the collector write between two requests.
    A request is served as a whole, as a session of SQLAlchemy commits; a
    row's time of creation, which only clients show, is kept for them alone.
    An address the backend does not have is answered by the framework
    ([unrouted]); redirections of trailing slashes, CORS and the content type of
    a body are the framework's and the browser's, as is the resolution of dots
    in an address, so the theorems about the tables ask for identifiers of
    letters, digits, dashes and underscores, as the backend makes them.
    Restarting the VPN core is counted, not run.  The Rust, Kotlin and Swift parts of
    the repository and its operational scripts are outside this development. *)
From stdpp Require Export base tactics list strings gmap.
From Stdlib Require Export ZArith Lia.

#[export] Set Default Goal Selector "!".

Declare Scope js_scope.
Delimit Scope js_scope with js.

(** ** Results of JavaScript evaluation *)

(** What a JavaScript expression can throw in this program: the errors the
    language raises itself, the rejection of [fetch] (no HTTP answer), the
    rejection of [r.json()], and errors built with [new Error(msg)]. *)
Inductive exn : Type :=
| TypeError (msg : string)
| RangeError (msg : string)
| NetworkError
| SyntaxError
| NotAllowedError
| UserError (msg : string).

#[export] Instance exn_eq_dec : EqDecision exn.
Proof. solve_decision. Defined.

Inductive res (A : Type) : Type :=
| Ok (a : A)
| Err (e : exn).
Arguments Ok {A} a.
Arguments Err {A} e.

#[export] Instance res_ret : MRet res := fun A a => Ok a.
#[export] Instance res_bind : MBind res := fun A B f r =>
  match r with Ok a => f a | Err e => Err e end.
#[export] Instance res_fmap : FMap res := fun A B f r =>
  match r with Ok a => Ok (f a) | Err e => Err e end.

Definition is_ok {A} (r : res A) : bool :=
  match r with Ok _ => true | Err _ => false end.

(** Left-to-right evaluation of a list of expressions, as a call or an array
    literal evaluates its operands: the first that throws wins. *)
Fixpoint sequence {A} (l : list (res A)) : res (list A) :=
  match l with
  | [] => Ok []
  | r :: l' => a ← r; k ← sequence l'; Ok (a :: k)
  end.

(** [Array.prototype.map] with a callback that takes the index. *)
Fixpoint imapM_from {A B} (n : nat) (f : nat -> A -> res B) (l : list A) : res (list B) :=
  match l with
  | [] => Ok []
  | a :: l' => b ← f n a; k ← imapM_from (S n) f l'; Ok (b :: k)
  end.
Definition imapM {A B} := @imapM_from A B 0.

(** [Array.prototype.filter] with a callback that may throw. *)
Fixpoint filterM {A} (p : A -> res bool) (l : list A) : res (list A) :=
  match l with
  | [] => Ok []
  | a :: l' => b ← p a; k ← filterM p l'; Ok (if (b : bool) then a :: k else k)
  end.

(** [Array.prototype.find]: stops at the first hit. *)
Fixpoint findM {A} (p : A -> res bool) (l : list A) : res (option A) :=
  match l with
  | [] => Ok None
  | a :: l' => b ← p a; if (b : bool) then Ok (Some a) else findM p l'
  end.

(** ** Automation *)

Create HintDb js discriminated.

(** Split hypotheses about [res] binds into their two successful halves. *)
Ltac res_inv :=
  repeat match goal with
  | H : mbind _ ?r = Ok _ |- _ =>
      let E := fresh "E" in destruct r eqn:E; cbn in H; [|discriminate H]
  | H : Ok _ = Ok _ |- _ => injection H as H; subst
  | H : Err _ = Ok _ |- _ => discriminate H
  | H : Ok _ = Err _ |- _ => discriminate H
  end.

(** Case analysis on every boolean or option a goal is stuck on. *)
Ltac case_goal :=
  repeat match goal with
  | |- context [match ?x with _ => _ end] => destruct x eqn:?
  end.

(** ** Generic lemmas *)

Section ResLemmas.
Context {A B : Type}.

Lemma sequence_Ok (l : list (res A)) k :
  sequence l = Ok k <-> Forall2 (fun r a => r = Ok a) l k.
Proof.
  revert k; induction l as [|r l IH]; intros k; cbn; split.
  - intros [= <-]. constructor.
  - intros H. inversion H. done.
  - intros H. res_inv. constructor; [done|]. by apply IH.
  - intros H. inversion H as [|? a ? k' Hr Hk]; subst. cbn.
    apply IH in Hk. by rewrite Hk.
Qed.

Lemma imapM_from_eq n (f : nat -> A -> res B) (g : nat -> A -> B) l :
  (forall i a, l !! i = Some a -> f (n + i) a = Ok (g (n + i) a)) ->
  imapM_from n f l = Ok (imap (fun i => g (n + i)) l).
Proof.
  revert n; induction l as [|x l IH]; intros n H; cbn; [done|].
  pose proof (H 0 x eq_refl) as H0. rewrite Nat.add_0_r in *. rewrite H0. cbn.
  rewrite IH.
  - cbn. f_equal. f_equal. apply imap_ext. intros i y _. cbn. by rewrite Nat.add_succ_r.
  - intros i a Ha. pose proof (H (S i) a Ha) as HS.
    by rewrite Nat.add_succ_r in HS.
Qed.

(** A callback that never throws on the elements maps the whole array. *)
Lemma imapM_eq (f : nat -> A -> res B) (g : nat -> A -> B) l :
  (forall i a, l !! i = Some a -> f i a = Ok (g i a)) -> imapM f l = Ok (imap g l).
Proof. apply (imapM_from_eq 0). Qed.

End ResLemmas.

Section FilterLemmas.
Context {A : Type}.

(** A filter whose test never throws is the pure filter. *)
Lemma filterM_eq (p : A -> res bool) (q : A -> bool) l :
  Forall (fun a => p a = Ok (q a)) l -> filterM p l = Ok (List.filter q l).
Proof.
  induction 1 as [|a l Ha Hl IH]; cbn; [done|]. rewrite Ha. cbn. rewrite IH. cbn.
  by destruct (q a).
Qed.

Lemma findM_eq (p : A -> res bool) (q : A -> bool) l :
  Forall (fun a => p a = Ok (q a)) l -> findM p l = Ok (List.find q l).
Proof.
  induction 1 as [|a l Ha Hl IH]; cbn; [done|]. rewrite Ha. cbn. by destruct (q a).
Qed.

End FilterLemmas.
