(* ===== verification/JsStr.v ===== *)
(** * JavaScript strings

    A JavaScript string is represented by its UTF-8 encoding ([String.string],
    one byte per character).  The operations below are those the front ends
    call: [trim], [startsWith], [includes], [split]/[join] on literals and the
    UTF-16 [length].  Each works on whole UTF-8 sequences, so on well-formed
    text it agrees with the language's definition on code units. *)
From S2P Require Import Prelude.
Local Open Scope string_scope.
#[local] Arguments String.append !_ _ / : simpl nomatch.

Definition str_drop (n : nat) (s : string) : string :=
  String.substring n (String.length s - n) s.

(** UTF-8 sequence from byte values. *)
Definition bytes (l : list nat) : string :=
  foldr (fun n s => String (Ascii.ascii_of_nat n) s) EmptyString l.

Definition srev (s : string) : string :=
  String.string_of_list_ascii (List.rev (String.list_ascii_of_string s)).

(** Every character satisfies [P]; letters, digits, hyphens and underscores,
    which need no escaping in an address. *)
Fixpoint all_chars (P : Ascii.ascii -> bool) (s : string) : bool :=
  match s with EmptyString => true | String c s' => P c && all_chars P s' end.
Definition plain (v : string) : bool :=
  all_chars (fun c => let n := Ascii.nat_of_ascii c in
    ((48 <=? n) && (n <=? 57)) || ((65 <=? n) && (n <=? 90)) || ((97 <=? n) && (n <=? 122))
    || (n =? 45) || (n =? 95))%nat v.

(** ** [String.prototype.trim] *)

(** The encodings of the language's WhiteSpace and LineTerminator code
    points: TAB LF VT FF CR SP, U+00A0, U+1680, U+2000..U+200A, U+2028,
    U+2029, U+202F, U+205F, U+3000, U+FEFF. *)
Definition white_space : list string :=
  map bytes
    ([[9]; [10]; [11]; [12]; [13]; [32]; [194; 160]; [225; 154; 128]]
     ++ map (fun k => [226; 128; 128 + k]) (seq 0 11)
     ++ [[226; 128; 168]; [226; 128; 169]; [226; 128; 175]; [226; 129; 159];
         [227; 128; 128]; [239; 187; 191]])%list.

Definition leading_in (ws : list string) (s : string) : option string :=
  List.find (fun w => String.prefix w s) ws.

Fixpoint strip (fuel : nat) (ws : list string) (s : string) : string :=
  match fuel with
  | O => s
  | S f => match leading_in ws s with
           | Some w => strip f ws (str_drop (String.length w) s)
           | None => s
           end
  end.

Definition trimStart (s : string) : string := strip (String.length s) white_space s.
Definition trimEnd (s : string) : string :=
  srev (strip (String.length s) (map srev white_space) (srev s)).
Definition trim (s : string) : string := trimEnd (trimStart s).

(** ** Searching *)

Definition startsWith (s p : string) : bool := String.prefix p s.

Fixpoint includes (s sub : string) : bool :=
  String.prefix sub s ||
  match s with EmptyString => false | String _ s' => includes s' sub end.

(** [Array.prototype.join] on strings. *)
Definition join (sep : string) (l : list string) : string := String.concat sep l.

(** Truthiness of a string. *)
Definition str_truthy (s : string) : bool := match s with EmptyString => false | _ => true end.

(** ** UTF-16 length *)

Definition byte_units (c : Ascii.ascii) : nat :=
  let n := Ascii.nat_of_ascii c in
  if (n <? 128)%nat then 1 else if (n <? 192)%nat then 0 else if (n <? 240)%nat then 1 else 2.

Fixpoint utf16_length (s : string) : nat :=
  match s with EmptyString => 0 | String c s' => byte_units c + utf16_length s' end.

(** ** Lower case on ASCII *)

Definition ascii_lower (c : Ascii.ascii) : Ascii.ascii :=
  let n := Ascii.nat_of_ascii c in
  if (65 <=? n)%nat && (n <=? 90)%nat then Ascii.ascii_of_nat (n + 32) else c.

Fixpoint lower_ascii (s : string) : string :=
  match s with EmptyString => "" | String c s' => String (ascii_lower c) (lower_ascii s') end.

Fixpoint is_ascii (s : string) : bool :=
  match s with
  | EmptyString => true
  | String c s' => (Ascii.nat_of_ascii c <? 128)%nat && is_ascii s'
  end.

(** [toLowerCase] follows the Unicode character database, which the development
    takes as a parameter; of its tables only the ASCII range is relied upon. *)
Class Unicode := {
  toLowerCase : string -> string;
  toLowerCase_ascii : forall s, is_ascii s = true -> toLowerCase s = lower_ascii s;
}.

(** ** Lemmas *)

Lemma str_truthy_iff s : str_truthy s = true <-> s <> "".
Proof. destruct s; cbn; split; congruence. Qed.

Lemma str_app_assoc (a b c : string) : (a +:+ b) +:+ c = a +:+ (b +:+ c).
Proof. induction a; cbn; congruence. Qed.

Lemma str_app_length (a b : string) :
  String.length (a +:+ b) = String.length a + String.length b.
Proof. induction a; cbn; congruence. Qed.

Lemma prefix_app_iff (p s : string) : String.prefix p s = true <-> exists t, s = p +:+ t.
Proof.
  revert s; induction p as [|c p IH]; intros s; cbn.
  - split; [by exists s|by destruct s].
  - destruct s as [|d s]; [split; [done|by intros [t [=]]]|].
    change (String.prefix (String c p) (String d s))
      with (if Ascii.ascii_dec c d then String.prefix p s else false).
    destruct (Ascii.ascii_dec c d) as [->|Hne].
    + rewrite IH. split; intros [t Ht]; exists t; [by rewrite Ht|by injection Ht].
    + split; [done|]. intros [t [= Hcd _]]. by destruct Hne.
Qed.

Lemma substring_all (s : string) : String.substring 0 (String.length s) s = s.
Proof. induction s; cbn; congruence. Qed.

Lemma str_drop_app (a b : string) : str_drop (String.length a) (a +:+ b) = b.
Proof.
  unfold str_drop. rewrite str_app_length.
  replace (String.length a + String.length b - String.length a)
    with (String.length b) by lia.
  induction a as [|c a IH]; cbn; [apply substring_all|exact IH].
Qed.

Lemma list_ascii_app (a b : string) :
  String.list_ascii_of_string (a +:+ b) = (String.list_ascii_of_string a ++ String.list_ascii_of_string b)%list.
Proof. induction a; cbn; congruence. Qed.

Lemma string_of_list_app (a b : list Ascii.ascii) :
  String.string_of_list_ascii (a ++ b)%list = String.string_of_list_ascii a +:+ String.string_of_list_ascii b.
Proof. induction a; cbn; congruence. Qed.

Lemma srev_app (a b : string) : srev (a +:+ b) = srev b +:+ srev a.
Proof. unfold srev. by rewrite list_ascii_app, List.rev_app_distr, string_of_list_app. Qed.

Lemma srev_involutive (s : string) : srev (srev s) = s.
Proof.
  unfold srev. by rewrite String.list_ascii_of_string_of_list_ascii, List.rev_involutive,
    String.string_of_list_ascii_of_string.
Qed.

Lemma srev_length (s : string) : String.length (srev s) = String.length s.
Proof.
  unfold srev. transitivity (length (String.list_ascii_of_string s)).
  - rewrite <-List.length_rev. generalize (List.rev (String.list_ascii_of_string s)).
    induction l; cbn; congruence.
  - induction s; cbn; congruence.
Qed.

Section StripLemmas.
Variable ws : list string.
Hypothesis ws_nonempty : Forall (fun w => w <> "") ws.

Lemma leading_in_Some s w :
  leading_in ws s = Some w -> w ∈ ws /\ exists t, s = w +:+ t.
Proof.
  intros H. apply List.find_some in H as [Hin Hp].
  split; [by apply list_elem_of_In|by apply prefix_app_iff].
Qed.

(** Stripping stops only where nothing of [ws] leads. *)
Lemma strip_done fuel s :
  String.length s <= fuel -> leading_in ws (strip fuel ws s) = None.
Proof.
  revert s; induction fuel as [|f IH]; intros s Hlen; cbn.
  - destruct s; [|cbn in Hlen; lia]. destruct (leading_in ws "") as [w|] eqn:E; [|done].
    apply leading_in_Some in E as [Hin [t Ht]].
    rewrite Forall_forall in ws_nonempty. specialize (ws_nonempty w Hin).
    by destruct w.
  - destruct (leading_in ws s) as [w|] eqn:E; [|done].
    apply IH. apply leading_in_Some in E as [Hin [t ->]].
    rewrite str_drop_app. rewrite str_app_length in Hlen.
    rewrite Forall_forall in ws_nonempty. specialize (ws_nonempty w Hin).
    destruct w; [done|cbn in Hlen; lia].
Qed.

Lemma strip_fix fuel s : leading_in ws s = None -> strip fuel ws s = s.
Proof. intros H. destruct fuel; cbn; [done|]. by rewrite H. Qed.

(** What is stripped is a suffix of the input. *)
Lemma strip_suffix fuel s : exists t, s = t +:+ strip fuel ws s.
Proof.
  revert s; induction fuel as [|f IH]; intros s; cbn; [by exists ""|].
  destruct (leading_in ws s) as [w|] eqn:E; [|by exists ""].
  apply leading_in_Some in E as [Hin [t ->]]. rewrite str_drop_app.
  destruct (IH t) as [t' Ht']. exists (w +:+ t'). by rewrite str_app_assoc, <-Ht'.
Qed.
End StripLemmas.

Lemma white_space_nonempty : Forall (fun w => w <> "") white_space.
Proof. by repeat constructor. Qed.

Lemma white_space_rev_nonempty : Forall (fun w => w <> "") (map srev white_space).
Proof. by repeat constructor. Qed.

Lemma trimStart_done s : leading_in white_space (trimStart s) = None.
Proof. by apply strip_done, le_n; apply white_space_nonempty. Qed.

Lemma trimEnd_prefix s : exists t, s = trimEnd s +:+ t.
Proof.
  destruct (strip_suffix (map srev white_space) (String.length s) (srev s)) as [t Ht].
  exists (srev t). unfold trimEnd.
  by rewrite <-srev_app, <-Ht, srev_involutive.
Qed.

(** A prefix of a string that starts with no white space starts with none. *)
Lemma leading_in_prefix ws s t : leading_in ws (s +:+ t) = None -> leading_in ws s = None.
Proof.
  intros H. destruct (leading_in ws s) as [w|] eqn:E; [|done].
  apply leading_in_Some in E as [Hin [u ->]].
  pose proof (List.find_none _ _ H w) as Hf. cbn in Hf.
  rewrite str_app_assoc in Hf. rewrite (proj2 (prefix_app_iff _ _)) in Hf; [|by eexists].
  discriminate Hf. by apply list_elem_of_In.
Qed.

Lemma trim_leading s : leading_in white_space (trim s) = None.
Proof.
  unfold trim. destruct (trimEnd_prefix (trimStart s)) as [t Ht].
  apply (leading_in_prefix _ _ t). rewrite <-Ht. apply trimStart_done.
Qed.

Lemma trim_trailing s : leading_in (map srev white_space) (srev (trim s)) = None.
Proof.
  unfold trim, trimEnd. rewrite srev_involutive.
  apply strip_done; [apply white_space_rev_nonempty|by rewrite srev_length].
Qed.

Lemma trim_idempotent s : trim (trim s) = trim s.
Proof.
  unfold trim at 1. unfold trimStart at 1.
  rewrite strip_fix by apply trim_leading.
  unfold trimEnd. rewrite strip_fix by apply trim_trailing. apply srev_involutive.
Qed.

(** ** Lower case and search *)

Lemma lower_app (a b : string) : lower_ascii (a +:+ b) = lower_ascii a +:+ lower_ascii b.
Proof. induction a as [|c a IH]; cbn; [done|by rewrite IH]. Qed.

Lemma is_ascii_app (a b : string) : is_ascii (a +:+ b) = is_ascii a && is_ascii b.
Proof. induction a as [|c a IH]; cbn [is_ascii String.append]; [done|]. by rewrite IH, andb_assoc. Qed.

Lemma ascii_lower_idempotent c : ascii_lower (ascii_lower c) = ascii_lower c.
Proof. destruct c as [[] [] [] [] [] [] [] []]; reflexivity. Qed.

Lemma lower_idempotent s : lower_ascii (lower_ascii s) = lower_ascii s.
Proof. induction s as [|c s IH]; cbn [lower_ascii]; [done|]. by rewrite IH, ascii_lower_idempotent. Qed.

Lemma ascii_lower_small c :
  (Ascii.nat_of_ascii (ascii_lower c) <? 128)%nat = (Ascii.nat_of_ascii c <? 128)%nat.
Proof. destruct c as [[] [] [] [] [] [] [] []]; reflexivity. Qed.

Lemma is_ascii_lower s : is_ascii (lower_ascii s) = is_ascii s.
Proof. induction s as [|c s IH]; cbn [lower_ascii is_ascii]; [done|]. by rewrite IH, ascii_lower_small. Qed.

Lemma includes_empty s : includes s "" = true.
Proof. by destruct s. Qed.

Lemma includes_app s a b : includes s (a +:+ b) = true -> includes s a = true.
Proof.
  induction s as [|c s IH]; cbn [includes]; rewrite !orb_true_iff; intros [Hp|Hs]; try done.
  - left. apply prefix_app_iff in Hp as [t ->]. apply prefix_app_iff. exists (b +:+ t).
    apply str_app_assoc.
  - left. apply prefix_app_iff in Hp as [t Ht]. apply prefix_app_iff. exists (b +:+ t).
    by rewrite Ht, str_app_assoc.
  - right. by apply IH.
Qed.
