(* ===== verification/JsNum.v ===== *)
(** * JavaScript numbers

    IEEE-754 binary64 values as [SpecFloat]'s [spec_float], and the numeric
    part of the language's library the front ends use: comparison,
    [Math.floor], [Math.min], [Number.prototype.toFixed], Number-to-string,
    [parseFloat], [parseInt], [String.prototype.padStart].  Everything is
    executable and exact: decimal digits are computed over [Z], never through
    a lossy intermediate. *)
From S2P Require Import Prelude JsStr.
From Stdlib Require Export SpecFloat.
From Stdlib Require Import Ascii DecimalString DecimalN.
Local Open Scope string_scope.
Local Open Scope Z_scope.

Abbreviation num := spec_float.

Definition num_of_Z (z : Z) : num := binary_normalize 53 1024 z 0 false.
Definition nan : num := S754_nan.
Definition num_lt (a b : num) : bool := SFltb a b.
Definition num_le (a b : num) : bool := SFleb a b.
Definition num_eq (a b : num) : bool := SFeqb a b.
Definition num_add (a b : num) : num := SFadd 53 1024 a b.
Definition num_sub (a b : num) : num := SFsub 53 1024 a b.
Definition num_mul (a b : num) : num := SFmul 53 1024 a b.
Definition num_div (a b : num) : num := SFdiv 53 1024 a b.
Definition num_is_nan (a : num) : bool := match a with S754_nan => true | _ => false end.
Definition num_is_zero (a : num) : bool := match a with S754_zero _ => true | _ => false end.

(** A finite number as the exact fraction [p / q], [q] a power of two. *)
Definition num_frac (x : num) : option (Z * positive) :=
  match x with
  | S754_zero _ => Some (0, 1%positive)
  | S754_finite s m e =>
      let v := if s then Zneg m else Zpos m in
      Some (match e with
            | Zneg k => (v, Pos.pow 2 k)
            | _ => (v * 2 ^ e, 1%positive)
            end)
  | _ => None
  end.

(** The integer part of a number that is known to be finite. *)
Definition num_floor_Z (x : num) : Z :=
  match num_frac x with Some (p, q) => p / Zpos q | None => 0 end.

(** ** Decimal digit strings *)

Definition digits_of (n : Z) : string := NilZero.string_of_uint (N.to_uint (Z.to_N n)).

(** [String(z)] for an integer. *)
Definition string_of_Z (z : Z) : string :=
  if z <? 0 then ("-" +:+ digits_of (- z)) else digits_of z.

Fixpoint str_repeat (n : nat) (s : string) : string :=
  match n with O => "" | S n' => (s +:+ str_repeat n' s) end.

(** [s.padStart(n, c)] for a one-character filler. *)
Definition padStart (s : string) (n : nat) (c : string) : string :=
  (str_repeat (n - String.length s) c +:+ s).

(** ** [Math.floor] and [Math.min] *)

Definition math_floor (x : num) : num :=
  match x with
  | S754_finite s m e =>
      match e with
      | Zneg k =>
          let v := (if s then Zneg m else Zpos m) / 2 ^ Zpos k in
          binary_normalize 53 1024 v 0 s
      | _ => x
      end
  | _ => x
  end.

Definition math_min (a b : num) : num :=
  if num_is_nan a || num_is_nan b then nan
  else if num_lt a b then a
  else if num_lt b a then b
  else match a with S754_zero true => a | _ => b end.

(** ** Number to string (ECMA-262 6.1.6.1.20) *)

(** The double nearest to [n * 10^e]. *)
Definition dec_to_num (n e : Z) : num :=
  match n with
  | Zpos p =>
      if 0 <=? e then binary_normalize 53 1024 (n * 10 ^ e) 0 false
      else num_div (S754_finite false p 0) (S754_finite false (Z.to_pos (10 ^ (- e))) 0)
  | _ => S754_zero false
  end.

(** Number of decimal digits of [n > 0]. *)
Definition ndigits (n : Z) : Z := Z.of_nat (String.length (digits_of n)).

(** The [k] of [10^(k-1) <= p/q < 10^k], for [p/q > 0]. *)
Fixpoint neg_scale (fuel : nat) (p q : Z) : Z :=
  match fuel with
  | O => 0
  | S f => if q <=? p then 0 else neg_scale f (p * 10) q - 1
  end.
Definition dec_scale (p q : Z) : Z :=
  if q <=? p then ndigits (p / q) else neg_scale 400 (p * 10) q.

(** The [k]-digit decimals [s * 10^(n-k)] that read back as [x], nearest
    first; [None] when neither neighbour of [x] does. *)
Definition shortest_at (x : num) (p q : Z) (n k : Z) : option (Z * Z) :=
  let sh := k - n in
  let '(a, b) := if 0 <=? sh then (p * 10 ^ sh, q) else (p, q * 10 ^ (- sh)) in
  let lo := a / b in
  let hi := lo + 1 in
  let ok s := num_eq (dec_to_num s (n - k)) x in
  let pick s := if s =? 10 ^ k then (10 ^ (k - 1), n + 1) else (s, n) in
  let r2 := 2 * (a - lo * b) in
  let lo_first := if r2 =? b then Z.even lo else r2 <? b in
  let '(c1, c2) := if lo_first then (lo, hi) else (hi, lo) in
  if ok c1 then Some (pick c1) else if ok c2 then Some (pick c2) else None.

Fixpoint shortest (fuel : nat) (x : num) (p q n k : Z) : Z * Z * Z :=
  match shortest_at x p q n k with
  | Some (s, n') => (s, k, n')
  | None => match fuel with
            | O => (0, k, n)
            | S f => shortest f x p q n (k + 1)
            end
  end.

Definition substr (i j : nat) (s : string) : string := String.substring i (j - i) s.

(** Digits [s] ([k] of them) with the decimal point after position [n]. *)
Definition layout (s k n : Z) : string :=
  let d := digits_of s in
  let kn := Z.to_nat k in
  (if (k <=? n) && (n <=? 21) then d +:+ str_repeat (Z.to_nat (n - k)) "0"
   else if (0 <? n) && (n <=? 21) then
     substr 0 (Z.to_nat n) d +:+ "." +:+ substr (Z.to_nat n) kn d
   else if (-6 <? n) && (n <=? 0) then "0." +:+ str_repeat (Z.to_nat (- n)) "0" +:+ d
   else
     let e := n - 1 in
     let es := (if e <? 0 then "-" else "+") +:+ digits_of (Z.abs e) in
     if k =? 1 then d +:+ "e" +:+ es
     else substr 0 1 d +:+ "." +:+ substr 1 kn d +:+ "e" +:+ es).

(** Seventeen digits always suffice for a double; the fuel leaves room. *)
Definition num_abs_to_string (x : num) : string :=
  match num_frac x with
  | Some (Zpos p, q) =>
      let n := dec_scale (Zpos p) (Zpos q) in
      let '(s, k, n') := shortest 800 x (Zpos p) (Zpos q) n 1 in
      layout s k n'
  | Some _ => "0"
  | None => match x with S754_nan => "NaN" | _ => "Infinity" end
  end.

Definition num_to_string (x : num) : string :=
  if num_lt x (S754_zero false) then ("-" +:+ num_abs_to_string (SFopp x))
  else num_abs_to_string x.

(** ** [Number.prototype.toFixed] (ECMA-262 21.1.3.3) *)

(** The integer [n] with [n / 10^f] nearest to [p / q], the larger on a tie. *)
Definition fixed_int (p q : Z) (f : nat) : Z :=
  (2 * (p * 10 ^ Z.of_nat f) + q) / (2 * q).

(** Its digits with [f] decimals. *)
Definition fixed_layout (n : Z) (f : nat) : string :=
  let m := padStart (digits_of n) (S f) "0" in
  let k := (String.length m - f)%nat in
  match f with
  | O => m
  | _ => (substr 0 k m +:+ "." +:+ substr k (String.length m) m)
  end.

Definition toFixed_abs (x : num) (f : nat) : string :=
  match num_frac x with
  | Some (p, q) =>
      if 10 ^ 21 * Zpos q <=? p then num_to_string x
      else fixed_layout (fixed_int p (Zpos q) f) f
  | None => num_to_string x
  end.

Definition toFixed (x : num) (f : nat) : string :=
  if num_lt x (S754_zero false) then
    match x with
    | S754_infinity _ => num_to_string x
    | _ => ("-" +:+ toFixed_abs (SFopp x) f)
    end
  else toFixed_abs x f.


(** ** [parseInt] and [parseFloat] *)

Definition digit_val (c : Ascii.ascii) : option Z :=
  let n := Z.of_nat (Ascii.nat_of_ascii c) in
  if (48 <=? n) && (n <=? 57) then Some (n - 48) else None.

(** The longest run of decimal digits: its value, its length, the rest. *)
Fixpoint read_digits (acc : Z) (len : nat) (s : string) : Z * nat * string :=
  match s with
  | String c s' =>
      match digit_val c with
      | Some d => read_digits (10 * acc + d) (S len) s'
      | None => (acc, len, s)
      end
  | EmptyString => (acc, len, s)
  end.

Definition read_sign (s : string) : bool * string :=
  match s with
  | String c s' =>
      if Ascii.eqb c "-"%char then (true, s')
      else if Ascii.eqb c "+"%char then (false, s') else (false, s)
  | EmptyString => (false, s)
  end.

Definition num_opp_if (b : bool) (x : num) : num := if b then SFopp x else x.

Definition hex_val (c : Ascii.ascii) : option Z :=
  let n := Z.of_nat (Ascii.nat_of_ascii c) in
  if (48 <=? n) && (n <=? 57) then Some (n - 48)
  else if (65 <=? n) && (n <=? 70) then Some (n - 55)
  else if (97 <=? n) && (n <=? 102) then Some (n - 87) else None.

Fixpoint read_hex (acc : Z) (len : nat) (s : string) : Z * nat :=
  match s with
  | String c s' =>
      match hex_val c with
      | Some d => read_hex (16 * acc + d) (S len) s'
      | None => (acc, len)
      end
  | EmptyString => (acc, len)
  end.

(** [parseInt(s)] without a radix: decimal, hexadecimal after [0x]. *)
Definition parseInt (s : string) : num :=
  let '(neg, t) := read_sign (trimStart s) in
  if startsWith t "0x" || startsWith t "0X" then
    let '(v, len) := read_hex 0 0 (str_drop 2 t) in
    match len with O => nan | _ => num_opp_if neg (num_of_Z v) end
  else
    let '(v, len, _) := read_digits 0 0 t in
    match len with O => nan | _ => num_opp_if neg (num_of_Z v) end.

(** An exponent part, when the text continues with a complete one. *)
Definition read_exponent (s : string) : Z * string :=
  match s with
  | String c s' =>
      if Ascii.eqb c "e"%char || Ascii.eqb c "E"%char then
        let '(neg, t) := read_sign s' in
        let '(v, len, rest) := read_digits 0 0 t in
        match len with O => (0, s) | _ => (if neg then - v else v, rest) end
      else (0, s)
  | EmptyString => (0, s)
  end.

(** The longest prefix that is an unsigned decimal literal, with the rest. *)
Definition read_decimal (t : string) : option (num * string) :=
  let '(ip, il, r) := read_digits 0 0 t in
  let '(v, fl, r') :=
    match r with
    | String c r1 =>
        if Ascii.eqb c "."%char then
          let '(v, fl, r2) := read_digits ip 0 r1 in
          match il, fl with O, O => (ip, O, r) | _, _ => (v, fl, r2) end
        else (ip, O, r)
    | EmptyString => (ip, O, r)
    end in
  match (il + fl)%nat with
  | O => None
  | _ => let '(e, r3) := read_exponent r' in
         Some (dec_to_num v (e - Z.of_nat fl), r3)
  end.

Definition parseFloat (s : string) : num :=
  let '(neg, t) := read_sign (trimStart s) in
  if startsWith t "Infinity" then S754_infinity neg
  else match read_decimal t with
       | Some (x, _) => num_opp_if neg x
       | None => nan
       end.

(** ToNumber on a string: white space around one complete literal. *)
Definition string_to_num (s : string) : num :=
  let t := trim s in
  if negb (str_truthy t) then S754_zero false
  else if startsWith t "0x" || startsWith t "0X" then
    let '(v, len) := read_hex 0 0 (str_drop 2 t) in
    if (Nat.eqb (len + 2) (String.length t)) && negb (Nat.eqb len 0) then num_of_Z v else nan
  else
    let '(neg, u) := read_sign t in
    if String.eqb u "Infinity" then S754_infinity neg
    else match read_decimal u with
         | Some (x, EmptyString) => num_opp_if neg x
         | _ => nan
         end.
