(* ===== verification/JsVal.v ===== *)
(** * JavaScript values and expressions

    The front ends type the server's data as [any] and read it with property
    accesses, truthiness tests and template literals.  [val] is the universe
    of those values; an expression is a [res val], because reading a property
    of [undefined] or calling a method a value lacks throws [TypeError].  The
    combinators keep the source's shape: [e ~> "f"] is [e.f], [e ?> "f"] is
    [e?.f], [a ||| b] is [a || b], [tpl [..]] is a template literal. *)
From S2P Require Import Prelude JsStr JsNum.
Local Open Scope string_scope.

#[local] Set Warnings "-register-all".
Inductive val : Type :=
| VUndef
| VNull
| VBool (b : bool)
| VNum (n : num)
| VStr (s : string)
| VArr (l : list val)
| VObj (fs : list (string * val))
| VComp (name : string).   (* a function or component reference *)

Definition expr := res val.
Definition lit (v : val) : expr := Ok v.
Coercion VStr : string >-> val.
Coercion VBool : bool >-> val.
Coercion lit : val >-> expr.
(** Elements of a list or pair literal are checked against the expected type,
    so that string literals coerce inside [tpl [..]]. *)
#[global] Arguments cons {A}%_type_scope & a l.
#[global] Arguments pair {A B}%_type_scope & a b.

Definition int (z : Z) : val := VNum (num_of_Z z).

(** A decimal literal. *)
Definition dec (s : string) : val := VNum (parseFloat s).

(** ** Conversions *)

Definition truthy (v : val) : bool :=
  match v with
  | VUndef | VNull => false
  | VBool b => b
  | VNum n => negb (num_is_nan n || num_is_zero n)
  | VStr s => str_truthy s
  | VArr _ | VObj _ | VComp _ => true
  end.

Definition nullish (v : val) : bool :=
  match v with VUndef | VNull => true | _ => false end.

Definition typeof (v : val) : string :=
  match v with
  | VUndef => "undefined"
  | VNull => "object"
  | VBool _ => "boolean"
  | VNum _ => "number"
  | VStr _ => "string"
  | VArr _ | VObj _ => "object"
  | VComp _ => "function"
  end.

(** ToString; an array joins its elements, [null] and [undefined] as "". *)
Fixpoint to_string (v : val) : string :=
  match v with
  | VUndef => "undefined"
  | VNull => "null"
  | VBool b => if b then "true" else "false"
  | VNum n => num_to_string n
  | VStr s => s
  | VArr l => join "," (map (fun w => match w with
                                      | VUndef | VNull => ""
                                      | _ => to_string w
                                      end) l)
  | VObj _ => "[object Object]"
  | VComp name => name
  end.

Definition to_number (v : val) : num :=
  match v with
  | VUndef => nan
  | VNull => S754_zero false
  | VBool b => num_of_Z (if b then 1 else 0)
  | VNum n => n
  | VStr s => string_to_num s
  | VArr _ => string_to_num (to_string v)
  | VObj _ | VComp _ => nan
  end.

(** [===].  Two arrays or two objects are equal only when they are the same
    reference; the program compares values with strings and numbers only, so
    the model keeps no identity and answers [false] there. *)
Definition strict_eq (a b : val) : bool :=
  match a, b with
  | VUndef, VUndef | VNull, VNull => true
  | VBool x, VBool y => Bool.eqb x y
  | VNum x, VNum y => num_eq x y
  | VStr x, VStr y => String.eqb x y
  | VComp x, VComp y => String.eqb x y
  | _, _ => false
  end.

(** The comparison of [Array.prototype.includes]: like [===], but [NaN]
    equals itself. *)
Definition same_value_zero (a b : val) : bool :=
  match a, b with
  | VNum x, VNum y => (num_is_nan x && num_is_nan y) || num_eq x y
  | _, _ => strict_eq a b
  end.

(** ** Property access *)

Fixpoint assoc {A} (k : string) (fs : list (string * A)) : option A :=
  match fs with
  | [] => None
  | (k', v) :: fs' => if String.eqb k k' then Some v else assoc k fs'
  end.

Definition has_key {A} (k : string) (fs : list (string * A)) : bool :=
  match assoc k fs with Some _ => true | None => false end.

Definition get (v : val) (k : string) : res val :=
  match v with
  | VUndef => Err (TypeError "Cannot read properties of undefined")
  | VNull => Err (TypeError "Cannot read properties of null")
  | VObj fs => Ok (default VUndef (assoc k fs))
  | VArr l => Ok (if String.eqb k "length" then int (Z.of_nat (length l)) else VUndef)
  | VStr s => Ok (if String.eqb k "length" then int (Z.of_nat (utf16_length s)) else VUndef)
  | _ => Ok VUndef
  end.

Definition jget (e : expr) (k : string) : expr := v ← e; get v k.

Definition joget (e : expr) (k : string) : expr :=
  v ← e; if nullish v then Ok VUndef else get v k.

(** ** Operators *)

Definition jtruthy (e : expr) : res bool := truthy <$> e.
Definition jor (a b : expr) : expr := v ← a; if truthy v then Ok v else b.
Definition jand (a b : expr) : expr := v ← a; if truthy v then b else Ok v.
Definition jnullish (a b : expr) : expr := v ← a; if nullish v then b else Ok v.
Definition jnot (a : expr) : expr := v ← a; Ok (VBool (negb (truthy v))).
Definition jif {A} (c : expr) (a b : res A) : res A := v ← c; if truthy v then a else b.
Definition jcond (c a b : expr) : expr := jif c a b.
Definition jincludes (l x : expr) : expr :=
  vs ← l; v ← x;
  match vs with
  | VArr xs => Ok (VBool (existsb (fun y => same_value_zero y v) xs))
  | VUndef | VNull => Err (TypeError "Cannot read properties of undefined")
  | _ => Err (TypeError "includes is not a function")
  end.
Definition jeq (a b : expr) : expr := v ← a; w ← b; Ok (VBool (strict_eq v w)).
Definition jneq (a b : expr) : expr := v ← a; w ← b; Ok (VBool (negb (strict_eq v w))).

Definition jnum2 {A} (f : num -> num -> A) (k : A -> val) (a b : expr) : expr :=
  v ← a; w ← b; Ok (k (f (to_number v) (to_number w))).

(** The comparisons below are numeric: each has a number on one side. *)
Definition jge := jnum2 (fun x y => num_le y x) VBool.
Definition jgt := jnum2 (fun x y => num_lt y x) VBool.
Definition jlt := jnum2 num_lt VBool.
Definition jmul := jnum2 num_mul VNum.
Definition jdiv := jnum2 num_div VNum.
Definition jsub := jnum2 num_sub VNum.
Definition jmin := jnum2 math_min VNum.

(** A template literal (and [String(e)]): operands evaluated left to right,
    converted to strings and concatenated. *)
Definition tpl (l : list expr) : expr :=
  vs ← sequence l; Ok (VStr (join "" (map to_string vs))).

(** [e.toFixed(d)]: only numbers have the method. *)
Definition jtoFixed (e : expr) (d : nat) : expr :=
  v ← e;
  match v with
  | VNum n => Ok (VStr (toFixed n d))
  | VUndef | VNull => Err (TypeError "Cannot read properties of undefined")
  | _ => Err (TypeError "toFixed is not a function")
  end.

(** Receiver of an array method. *)
Definition jarr (e : expr) : res (list val) :=
  v ← e;
  match v with
  | VArr l => Ok l
  | VUndef | VNull => Err (TypeError "Cannot read properties of undefined")
  | _ => Err (TypeError "is not a function")
  end.

Definition jfilter (e : expr) (p : val -> expr) : expr :=
  l ← jarr e; k ← filterM (fun v => jtruthy (p v)) l; Ok (VArr k).

Definition jfind (e : expr) (p : val -> expr) : expr :=
  l ← jarr e; o ← findM (fun v => jtruthy (p v)) l; Ok (default VUndef o).

Definition jmap {B} (e : expr) (f : nat -> val -> res B) : res (list B) :=
  l ← jarr e; imapM f l.

(** The DOM's [e.value = v]. *)
Definition dom_string (v : val) : string := match v with VNull => "" | _ => to_string v end.

(** [s.trim()] after [?.]: [undefined] stays [undefined]. *)
Definition jtrim (v : val) : val := match v with VStr s => VStr (trim s) | _ => VUndef end.

(** [parseFloat(v)], [parseInt(v)]. *)
Definition jparseFloat (e : expr) : expr := v ← e; Ok (VNum (parseFloat (to_string v))).
Definition jparseInt (e : expr) : expr := v ← e; Ok (VNum (parseInt (to_string v))).

(** [l.includes(x)] on an array built by the program. *)
Definition includes_val (l : list val) (x : val) : bool :=
  existsb (fun y => same_value_zero y x) l.

(** An object literal. *)
Definition jobj (fs : list (string * expr)) : expr :=
  vs ← sequence (map snd fs); Ok (VObj (zip (map fst fs) vs)).

Definition jarray (l : list expr) : expr := vs ← sequence l; Ok (VArr vs).

(** [fs] with [k] set to [v]: an existing property keeps its place. *)
Fixpoint set_key {A} (k : string) (v : A) (fs : list (string * A)) : list (string * A) :=
  match fs with
  | [] => [(k, v)]
  | (k', v') :: fs' => if String.eqb k k' then (k, v) :: fs' else (k', v') :: set_key k v fs'
  end.

(** [{...a, ...b}]: the later definition of a key wins. *)
Definition merge {A} (a b : list (string * A)) : list (string * A) :=
  foldl (fun acc kv => set_key (fst kv) (snd kv) acc) a b.

(** ** JSON *)

Definition num_finite (n : num) : bool :=
  match n with S754_zero _ | S754_finite _ _ _ => true | _ => false end.

(** The value [JSON.stringify] writes for [v], as its reader sees it:
    [undefined] and functions vanish from objects and are [null] in arrays,
    [NaN] and the infinities are [null]. *)
Fixpoint json (v : val) : option val :=
  match v with
  | VUndef | VComp _ => None
  | VNum n => Some (if num_finite n then VNum n else VNull)
  | VArr l => Some (VArr (map (fun w => default VNull (json w)) l))
  | VObj fs =>
      Some (VObj ((fix go (fs : list (string * val)) : list (string * val) :=
                     match fs with
                     | [] => []
                     | (k, w) :: fs' => match json w with
                                        | Some w' => (k, w') :: go fs'
                                        | None => go fs'
                                        end
                     end) fs))
  | _ => Some v
  end.

Notation "e ~> k" := (jget e k) (at level 8, left associativity) : js_scope.
Notation "e ?> k" := (joget e k) (at level 8, left associativity) : js_scope.
Notation "a ||| b" := (jor a b) (at level 50, left associativity) : js_scope.
Notation "a &&& b" := (jand a b) (at level 40, left associativity) : js_scope.
Notation "a ??? b" := (jnullish a b) (at level 50, left associativity) : js_scope.
Notation "a === b" := (jeq a b) (at level 38, no associativity) : js_scope.
Notation "a !== b" := (jneq a b) (at level 38, no associativity) : js_scope.
Notation "a .>= b" := (jge a b) (at level 36, no associativity) : js_scope.
Notation "a .> b" := (jgt a b) (at level 36, no associativity) : js_scope.
Notation "a .< b" := (jlt a b) (at level 36, no associativity) : js_scope.
Notation "a .* b" := (jmul a b) (at level 34, left associativity) : js_scope.
Notation "a ./ b" := (jdiv a b) (at level 34, left associativity) : js_scope.
Notation "? c 'THEN' a 'ELSE' b" := (jif c a b)
  (at level 60, c at level 59, a at level 60, b at level 60) : js_scope.

(** ** Lemmas *)

Lemma assoc_set_key {A} k k' (v : A) fs :
  assoc k (set_key k' v fs) = if String.eqb k k' then Some v else assoc k fs.
Proof.
  induction fs as [|[k0 v0] fs IH]; cbn; [done|].
  destruct (String.eqb_spec k' k0) as [->|Hne]; cbn.
  - by destruct (String.eqb k k0).
  - rewrite IH. destruct (String.eqb_spec k k0) as [->|]; [|done].
    by rewrite (proj2 (String.eqb_neq k0 k')) by done.
Qed.

Lemma assoc_merge {A} k (a b : list (string * A)) :
  NoDup (map fst b) ->
  assoc k (merge a b) = match assoc k b with Some v => Some v | None => assoc k a end.
Proof.
  unfold merge. revert a; induction b as [|[k0 v0] b IH]; intros a Hnd; cbn; [done|].
  apply NoDup_cons in Hnd as [Hni Hnd]. rewrite IH by done. rewrite assoc_set_key.
  destruct (String.eqb_spec k k0) as [->|]; [|done].
  assert (assoc k0 b = None) as ->; [|done].
  clear -Hni. induction b as [|[k1 v1] b IH]; cbn in *; [done|].
  apply not_elem_of_cons in Hni as [Hne Hni].
  rewrite (proj2 (String.eqb_neq k0 k1)) by done. by apply IH.
Qed.

Lemma strict_eq_str v s : strict_eq v (VStr s) = true <-> v = VStr s.
Proof.
  destruct v; cbn; split; intros H; try discriminate; try done.
  - apply String.eqb_eq in H. congruence.
  - injection H as ->. apply String.eqb_refl.
Qed.

Lemma same_value_zero_str v s : same_value_zero v (VStr s) = true <-> v = VStr s.
Proof. destruct v; apply strict_eq_str. Qed.

(** The property [k] of an object, without the failure. *)
Definition field (k : string) (v : val) : val :=
  match v with VObj fs => default VUndef (assoc k fs) | _ => VUndef end.
Definition is_obj (v : val) : bool := match v with VObj _ => true | _ => false end.
Definition is_num (v : val) : bool := match v with VNum _ => true | _ => false end.

Lemma jget_field v k : is_obj v = true -> jget (lit v) k = Ok (field k v).
Proof. by destruct v. Qed.

Lemma jfilter_eq (l : list val) (p : val -> expr) (q : val -> bool) :
  Forall (fun v => jtruthy (p v) = Ok (q v)) l ->
  jfilter (VArr l) p = Ok (VArr (List.filter q l)).
Proof. intros H. unfold jfilter. cbn. by rewrite (filterM_eq _ q). Qed.

Lemma jfind_eq (l : list val) (p : val -> expr) (q : val -> bool) :
  Forall (fun v => jtruthy (p v) = Ok (q v)) l ->
  jfind (VArr l) p = Ok (default VUndef (List.find q l)).
Proof. intros H. unfold jfind. cbn. by rewrite (findM_eq _ q). Qed.
