(* ===== verification/Ints.v ===== *)
(** * Small integers are exact numbers

    Lengths, counters and indices of the program are JavaScript numbers.
    Below [2^53] their representation is exact, so comparing them as numbers is
    comparing them as integers. *)
From S2P Require Import Prelude JsStr JsNum JsVal.
From Stdlib Require Import DecimalString DecimalN.
Local Open Scope Z_scope.

Definition max_safe : Z := 2 ^ 53.

Lemma digits2_bounds p :
  2 ^ (Zpos (digits2_pos p) - 1) <= Zpos p < 2 ^ Zpos (digits2_pos p).
Proof.
  induction p as [p IH|p IH|]; cbn [digits2_pos]; [| |done].
  all: rewrite Pos2Z.inj_succ.
  all: replace (Z.succ (Zpos (digits2_pos p)) - 1) with (Zpos (digits2_pos p) - 1 + 1) by lia.
  all: rewrite Z.pow_add_r, Z.pow_succ_r by lia; lia.
Qed.

Lemma iter_xO_val m d : Zpos (Pos.iter xO m d) = Zpos m * 2 ^ Zpos d.
Proof.
  induction d as [|d IH] using Pos.peano_ind; [cbn; lia|].
  rewrite Pos.iter_succ, Pos2Z.inj_succ, Z.pow_succ_r by lia.
  rewrite Pos2Z.inj_xO, IH. lia.
Qed.

Lemma iter_xO_digits m d :
  Zpos (digits2_pos (Pos.iter xO m d)) = Zpos (digits2_pos m) + Zpos d.
Proof.
  induction d as [|d IH] using Pos.peano_ind; [cbn; lia|].
  rewrite Pos.iter_succ. cbn [digits2_pos]. lia.
Qed.

(** A significand of exactly 53 digits is not rounded. *)
Lemma round_aux_full m e :
  Zpos (digits2_pos m) = 53 -> -1074 <= e <= 971 ->
  binary_round_aux 53 1024 false (Zpos m) e loc_Exact = S754_finite false m e.
Proof.
  intros Hd He. unfold binary_round_aux, shr_fexp. cbn [Zdigits2]. rewrite Hd.
  assert (fexp 53 1024 (53 + e) - e = 0) as Hf by (unfold fexp, emin; lia).
  rewrite Hf. cbn [shr shr_record_of_loc shr_m loc_of_shr_record round_nearest_even Zdigits2].
  rewrite Hd, Hf. cbn [shr shr_m shr_record_of_loc].
  by rewrite (proj2 (Z.leb_le e (1024 - 53))) by lia.
Qed.

Lemma num_of_pos p :
  Zpos p < max_safe ->
  exists m, num_of_Z (Zpos p) = S754_finite false m (Zpos (digits2_pos p) - 53) /\
            Zpos m = Zpos p * 2 ^ (53 - Zpos (digits2_pos p)).
Proof.
  intros Hp. pose proof (digits2_bounds p) as Hb. unfold max_safe in Hp.
  assert (Zpos (digits2_pos p) <= 53) as Hd.
  { destruct (Z.le_gt_cases (Zpos (digits2_pos p)) 53) as [|Hgt]; [done|].
    assert (2 ^ 53 <= 2 ^ (Zpos (digits2_pos p) - 1)) by (apply Z.pow_le_mono_r; lia). lia. }
  unfold num_of_Z, binary_normalize, binary_round, shl_align.
  assert (fexp 53 1024 (Zpos (digits2_pos p) + 0) = Zpos (digits2_pos p) - 53) as ->
    by (unfold fexp, emin; lia).
  rewrite Z.sub_0_r.
  destruct (Zpos (digits2_pos p) - 53) as [|k|k] eqn:E; [| lia |].
  - exists p. rewrite round_aux_full by lia. split; [done|].
    replace (53 - Zpos (digits2_pos p)) with 0 by lia. lia.
  - exists (Pos.iter xO p k). rewrite round_aux_full; [| |lia].
    + split; [done|]. rewrite iter_xO_val. f_equal. f_equal. lia.
    + rewrite iter_xO_digits. lia.
Qed.

Lemma num_compare_Z a b :
  0 <= a < max_safe -> 0 <= b < max_safe ->
  SFcompare (num_of_Z a) (num_of_Z b) = Some (a ?= b).
Proof.
  intros Ha Hb. destruct a as [|p|], b as [|q|]; try lia; try done.
  - destruct (num_of_pos q) as (m & -> & _); [lia|done].
  - destruct (num_of_pos p) as (m & -> & _); [lia|done].
  - destruct (num_of_pos p) as (m & -> & Hm); [lia|].
    destruct (num_of_pos q) as (n & -> & Hn); [lia|].
    cbn [SFcompare]. f_equal.
    pose proof (digits2_bounds p) as Bp. pose proof (digits2_bounds q) as Bq.
    destruct (Z.compare_spec (Zpos (digits2_pos p) - 53) (Zpos (digits2_pos q) - 53)) as [E|L|G].
    + assert (Zpos (digits2_pos p) = Zpos (digits2_pos q)) as Ed by lia.
      change (Pos.compare_cont Eq m n) with (Zpos m ?= Zpos n). rewrite Hm, Hn, Ed.
      destruct (Z.le_gt_cases (Zpos (digits2_pos q)) 53) as [Hle|Hgt].
      * symmetry. apply Zmult_compare_compat_r. apply Z.lt_gt, Z.pow_pos_nonneg; lia.
      * rewrite !(Z.pow_neg_r 2 (53 - _)) in * by lia. lia.
    + symmetry. apply Z.compare_lt_iff.
      assert (2 ^ Zpos (digits2_pos p) <= 2 ^ (Zpos (digits2_pos q) - 1))
        by (apply Z.pow_le_mono_r; lia). lia.
    + symmetry. apply Z.compare_gt_iff.
      assert (2 ^ Zpos (digits2_pos q) <= 2 ^ (Zpos (digits2_pos p) - 1))
        by (apply Z.pow_le_mono_r; lia). lia.
Qed.

Section Compare.
Context (a b : Z) (Ha : 0 <= a < max_safe) (Hb : 0 <= b < max_safe).

Lemma num_eq_Z : num_eq (num_of_Z a) (num_of_Z b) = (a =? b).
Proof.
  unfold num_eq, SFeqb. rewrite num_compare_Z by done.
  destruct (Z.compare_spec a b); symmetry; [apply Z.eqb_eq|apply Z.eqb_neq|apply Z.eqb_neq]; lia.
Qed.

Lemma num_lt_Z : num_lt (num_of_Z a) (num_of_Z b) = (a <? b).
Proof.
  unfold num_lt, SFltb. rewrite num_compare_Z by done.
  destruct (Z.compare_spec a b); symmetry; [apply Z.ltb_ge|apply Z.ltb_lt|apply Z.ltb_ge]; lia.
Qed.

End Compare.

(** The length of an array, as the program reads it. *)
Definition jlen {A} (l : list A) : val := int (Z.of_nat (length l)).
Definition small {A} (l : list A) : Prop := Z.of_nat (length l) < max_safe.

Lemma jlen_eq {A B} (l : list A) (k : list B) :
  small l -> small k -> strict_eq (jlen l) (jlen k) = Nat.eqb (length l) (length k).
Proof.
  unfold small. intros Hl Hk. unfold jlen, int. cbn [strict_eq]. rewrite num_eq_Z by lia.
  destruct (Nat.eqb_spec (length l) (length k)); [apply Z.eqb_eq|apply Z.eqb_neq]; lia.
Qed.

(** ** Decimal strings of integers determine them *)

Lemma digits_of_inj a b : 0 <= a -> 0 <= b -> digits_of a = digits_of b -> a = b.
Proof.
  intros Ha Hb H.
  assert (forall n, NilZero.uint_of_string (NilZero.string_of_uint (N.to_uint n)) = Some (N.to_uint n)) as Hr.
  { intros n. apply NilZero.usu. intros Hn. pose proof (DecimalN.Unsigned.of_to n) as Ho.
    rewrite Hn in Ho. cbn in Ho. subst n. discriminate Hn. }
  pose proof (f_equal NilZero.uint_of_string H) as H1. unfold digits_of in H1. rewrite !Hr in H1.
  injection H1 as H1. apply DecimalN.Unsigned.to_uint_inj in H1. lia.
Qed.

Lemma string_of_nat_inj i j :
  string_of_Z (Z.of_nat i) = string_of_Z (Z.of_nat j) -> i = j.
Proof.
  unfold string_of_Z. rewrite !(proj2 (Z.ltb_ge _ _)) by lia. intros H.
  apply digits_of_inj in H; lia.
Qed.
