(* ===== verification/Floats.v ===== *)
(** * The sign of a difference of doubles

    Sorting with a comparator [(a, b) => b.f - a.f] looks at the sign of a
    rounded difference.  Gradual underflow makes that sign exact: every finite
    double is an integer number of units of [2^-1074], and the difference of
    two of them is positive iff the units say so. *)
From S2P Require Import Prelude JsStr JsNum JsVal Ints.
Local Open Scope Z_scope.

(** A finite double, as the language represents it. *)
Definition finite_double (x : num) : bool :=
  match x with
  | S754_zero _ => true
  | S754_finite _ _ _ => valid_binary 53 1024 x
  | _ => false
  end.

(** Its exact value, in units of [2^-1074]. *)
Definition units (x : num) : Z :=
  match x with
  | S754_finite s m e => cond_Zopp s (Zpos m) * 2 ^ (e + 1074)
  | _ => 0
  end.

Lemma emin_eq : emin 53 1024 = -1074.
Proof. done. Qed.

Lemma valid_exponent s m e : finite_double (S754_finite s m e) = true -> -1074 <= e.
Proof.
  cbn. unfold bounded, canonical_mantissa, fexp. rewrite andb_true_iff, Z.eqb_eq, emin_eq. lia.
Qed.

Lemma shr_1_half r : 0 <= shr_m r -> shr_m (shr_1 r) = shr_m r / 2.
Proof.
  destruct r as [[|[p|p|]|p] r s]; cbn [shr_1 shr_m]; intros H; try done; try lia.
  - apply (Z.div_unique _ _ _ 1); lia.
  - apply (Z.div_unique _ _ _ 0); lia.
Qed.

Lemma shr_iter p : forall r, 0 <= shr_m r -> shr_m (iter_pos shr_1 p r) = shr_m r / 2 ^ Zpos p.
Proof.
  assert (forall a b m, 0 <= a -> 0 <= b -> m / 2 ^ a / 2 ^ b = m / 2 ^ (a + b)) as Hpow.
  { intros a b m Ha Hb. rewrite Z.div_div by lia. by rewrite Z.pow_add_r. }
  assert (forall m a, 0 <= m -> 0 <= m / 2 ^ a) as Hpos.
  { intros m a Hm. destruct (Z.le_gt_cases 0 a); [apply Z.div_pos; lia|].
    by rewrite Z.pow_neg_r, Z.div_0_r by lia. }
  induction p as [p IH|p IH|]; intros r Hr; cbn [iter_pos].
  - pose proof (shr_1_half r Hr) as H1.
    assert (0 <= shr_m (shr_1 r)) by (rewrite H1; apply Z.div_pos; lia).
    rewrite IH by (rewrite IH by done; by apply Hpos). rewrite IH, H1 by done.
    rewrite <- (Z.pow_1_r 2) at 1. rewrite !Hpow by lia. f_equal. f_equal. lia.
  - rewrite IH by (rewrite IH by done; by apply Hpos). rewrite IH, !Hpow by (done || lia).
    f_equal. f_equal. lia.
  - by rewrite shr_1_half.
Qed.

(** Truncating to 53 bits never loses a number at or above the least exponent. *)
Lemma shr_fexp_pos m e :
  -1074 <= e ->
  exists p e' r s, shr_fexp 53 1024 (Zpos m) e loc_Exact = (Build_shr_record (Zpos p) r s, e') /\ -1074 <= e'.
Proof.
  intros He. unfold shr_fexp, fexp. rewrite emin_eq. cbn [Zdigits2 shr_record_of_loc].
  set (d := Zpos (digits2_pos m)). pose proof (digits2_bounds m) as Hb. fold d in Hb.
  destruct (Z.max (d + e - 53) (-1074) - e) as [|n|n] eqn:En; cbn [shr]; try by eexists _, _, _, _.
  assert (Zpos n = d - 53) as Hn by lia.
  pose proof (shr_iter n (Build_shr_record (Zpos m) false false)) as Hm. cbn [shr_m] in Hm.
  specialize (Hm ltac:(lia)).
  destruct (iter_pos shr_1 n (Build_shr_record (Zpos m) false false)) as [m' r s]. cbn [shr_m] in Hm.
  assert (1 <= m') as Hpos.
  { rewrite Hm. apply Z.div_le_lower_bound; [lia|]. rewrite Z.mul_1_r.
    transitivity (2 ^ (d - 1)); [apply Z.pow_le_mono_r; lia|lia]. }
  destruct m' as [|p|p]; try lia. eexists p, _, r, s. split; [done|lia].
Qed.

(** Rounding keeps the sign, strictly. *)
Definition signed (s : bool) (x : num) : Prop :=
  match x with S754_finite s' _ _ | S754_infinity s' => s' = s | _ => False end.

Lemma round_signed s m e :
  -1074 <= e -> signed s (binary_round_aux 53 1024 s (Zpos m) e loc_Exact).
Proof.
  intros He. unfold binary_round_aux.
  destruct (shr_fexp_pos m e He) as (p & e' & r & t & -> & He'). cbn [shr_m].
  assert (exists q, round_nearest_even (Zpos p) (loc_of_shr_record (Build_shr_record (Zpos p) r t)) = Zpos q)
    as [q ->].
  { destruct r, t; cbn [loc_of_shr_record round_nearest_even]; try (case_match); eauto. }
  destruct (shr_fexp_pos q e' He') as (p2 & e2 & r2 & t2 & -> & _). cbn [shr_m].
  by destruct (e2 <=? 1024 - 53).
Qed.

Lemma shl_align_exponent m e e' : -1074 <= e -> -1074 <= e' -> -1074 <= snd (shl_align m e e').
Proof. unfold shl_align. destruct (e' - e); cbn; lia. Qed.

Lemma binary_round_signed s m e : -1074 <= e -> signed s (binary_round 53 1024 s m e).
Proof.
  intros He. unfold binary_round.
  pose proof (shl_align_exponent m e (fexp 53 1024 (Zpos (digits2_pos m) + e)) He) as Hz.
  destruct (shl_align m e _) as [m' e']. apply round_signed, Hz.
  unfold fexp. rewrite emin_eq. lia.
Qed.

Lemma positive_signed s x : signed s x -> num_lt (S754_zero false) x = negb s.
Proof. destruct x as [|s'| |s' m e]; cbn; try done; intros <-; by destruct s'. Qed.

Lemma normalize_positive z e :
  -1074 <= e -> num_lt (S754_zero false) (binary_normalize 53 1024 z e false) = (0 <? z).
Proof.
  intros He. destruct z as [|p|p]; [done| |]; cbn [binary_normalize];
    by rewrite (positive_signed _ _ (binary_round_signed _ _ _ He)).
Qed.

Lemma aligned m e e' : e' <= e -> Zpos (fst (shl_align m e e')) = Zpos m * 2 ^ (e - e').
Proof.
  intros He. unfold shl_align. destruct (e' - e) as [|d|d] eqn:E; [| lia |]; cbn [fst].
  - replace (e - e') with 0 by lia. lia.
  - rewrite iter_xO_val. f_equal. f_equal. lia.
Qed.

Lemma units_sign s m e :
  -1074 <= e -> (0 <? units (S754_finite s m e)) = negb s /\ (units (S754_finite s m e) <? 0) = s.
Proof.
  intros He. unfold units. assert (0 < 2 ^ (e + 1074)) by (apply Z.pow_pos_nonneg; lia).
  destruct s; cbn [cond_Zopp negb]; split; first [apply Z.ltb_lt; nia|apply Z.ltb_ge; nia].
Qed.

(** The sign of a rounded difference is the order of the exact values. *)
Theorem sub_positive x y :
  finite_double x = true -> finite_double y = true ->
  num_lt (S754_zero false) (num_sub x y) = (units y <? units x).
Proof.
  intros Hx Hy. destruct x as [sx| | |sx mx ex]; try done; destruct y as [sy| | |sy my ey]; try done.
  - by destruct sx, sy.
  - apply valid_exponent in Hy. change (num_sub _ _) with (S754_finite (negb sy) my ey).
    rewrite (positive_signed (negb sy)) by done. rewrite negb_involutive. symmetry. by apply units_sign.
  - apply valid_exponent in Hx. change (num_sub _ _) with (S754_finite sx mx ex).
    rewrite (positive_signed sx) by done. symmetry. by apply units_sign.
  - apply valid_exponent in Hx, Hy. unfold num_sub, SFsub.
    rewrite normalize_positive by lia. rewrite !aligned by (apply Z.le_min_l || apply Z.le_min_r). unfold units.
    assert (exists ez, Z.min ex ey = ez /\ ez <= ex /\ ez <= ey /\ -1074 <= ez) as (ez & -> & H1 & H2 & H3)
      by (eexists; split; [done|lia]).
    assert (0 < 2 ^ (ez + 1074)) by (apply Z.pow_pos_nonneg; lia).
    replace (ex + 1074) with ((ex - ez) + (ez + 1074)) by lia.
    replace (ey + 1074) with ((ey - ez) + (ez + 1074)) by lia.
    rewrite (Z.pow_add_r 2 (ex - ez)), (Z.pow_add_r 2 (ey - ez)) by lia.
    apply eq_true_iff_eq. rewrite !Z.ltb_lt, !Z.mul_assoc, <- Z.mul_lt_mono_pos_r by done.
    destruct sx, sy; cbn [cond_Zopp]; lia.
Qed.

(** ** Non-negative arithmetic *)

(** Not [NaN], and not negative unless it is the negative zero. *)
Definition non_negative (x : num) : Prop :=
  match x with
  | S754_zero _ | S754_infinity false | S754_finite false _ _ => True
  | _ => False
  end.

Lemma shr_fexp_nonneg m e l : 0 <= m -> 0 <= shr_m (fst (shr_fexp 53 1024 m e l)).
Proof.
  intros Hm. assert (0 <= shr_m (shr_record_of_loc m l)) as Hr by (by destruct l as [|[]]).
  unfold shr_fexp, shr. destruct (_ - e); cbn [fst]; try done.
  rewrite shr_iter by done. apply Z.div_pos; [done|]. apply Z.pow_pos_nonneg; lia.
Qed.

Lemma round_non_negative m e l : 0 <= m -> non_negative (binary_round_aux 53 1024 false m e l).
Proof.
  intros Hm. unfold binary_round_aux. pose proof (shr_fexp_nonneg m e l Hm) as H1.
  destruct (shr_fexp 53 1024 m e l) as [r1 e1]. cbn [fst] in H1.
  set (m1 := round_nearest_even _ _).
  assert (0 <= m1) as H2.
  { unfold m1, round_nearest_even. destruct (loc_of_shr_record r1) as [|[]]; try case_match; lia. }
  pose proof (shr_fexp_nonneg m1 e1 loc_Exact H2) as H3.
  destruct (shr_fexp 53 1024 m1 e1 loc_Exact) as [r2 e2]. cbn [fst] in H3.
  destruct (shr_m r2); [done| |lia]. by destruct (e2 <=? 1024 - 53).
Qed.

Lemma mul_non_negative x m e : non_negative x -> non_negative (num_mul x (S754_finite false m e)).
Proof.
  destruct x as [sx|[]| |[] mx ex]; try done. intros _. unfold num_mul, SFmul. cbn [xorb].
  by apply round_non_negative.
Qed.

Lemma div_non_negative x m e :
  non_negative x -> non_negative (num_div x (S754_finite false m e)).
Proof.
  destruct x as [sx|[]| |[] mx ex]; try done. intros _. unfold num_div, SFdiv, SFdiv_core_binary.
  cbn [xorb].
  set (m' := match _ with Z0 => _ | Zpos _ => _ | Zneg _ => _ end).
  assert (0 <= m') as Hm by (unfold m'; case_match; try lia; by apply Z.shiftl_nonneg).
  pose proof (Z.div_pos m' (Zpos m) Hm ltac:(lia)) as Hq. unfold Z.div in Hq.
  destruct (Z.div_eucl m' (Zpos m)) as [q r]. by apply round_non_negative.
Qed.

Lemma units_non_negative x : finite_double x = true -> 0 <= units x -> non_negative x.
Proof.
  destruct x as [| | |[] m e]; try done. intros Hx Hu. apply valid_exponent in Hx.
  pose proof (proj2 (units_sign true m e Hx)) as Hn. apply Z.ltb_lt in Hn. lia.
Qed.

Lemma non_negative_le x : non_negative x -> num_le (S754_zero false) x = true.
Proof. by destruct x as [|[]| |[]]. Qed.

(** Cutting a non-negative number at a positive bound. *)
Lemma min_bounds x m e :
  non_negative x ->
  let b := S754_finite false m e in
  num_le (S754_zero false) (math_min x b) = true /\ num_le (math_min x b) b = true.
Proof.
  intros Hx b. unfold math_min.
  assert (num_is_nan x || num_is_nan b = false) as -> by (by destruct x as [| | |]).
  assert (num_lt x b = true -> num_le x b = true) as Hlt.
  { unfold num_lt, num_le, SFltb, SFleb. destruct (SFcompare x b) as [[]|]; done. }
  assert (num_lt x b = false -> num_lt b x = false -> num_le x b = true) as Heq.
  { destruct x as [|[]| |[] mx ex]; try done. unfold b, num_lt, num_le, SFltb, SFleb, SFcompare.
    rewrite (Z.compare_antisym ex e). destruct (ex ?= e); cbn [CompOpp]; try done.
    change (Pos.compare_cont Eq mx m) with (mx ?= m)%positive.
    change (Pos.compare_cont Eq m mx) with (m ?= mx)%positive.
    rewrite (Pos.compare_antisym mx m). by destruct (mx ?= m)%positive. }
  assert (num_le b b = true) as Hbb.
  { unfold num_le, SFleb, SFcompare, b. rewrite Z.compare_refl.
    change (Pos.compare_cont Eq m m) with (m ?= m)%positive. by rewrite Pos.compare_refl. }
  pose proof (non_negative_le x Hx).
  destruct (num_lt x b) eqn:E1; [auto|]. destruct (num_lt b x) eqn:E2; [by split|].
  specialize (Heq eq_refl eq_refl). by destruct x as [[]| | |].
Qed.

Lemma valid_significand s m e : finite_double (S754_finite s m e) = true -> Zpos m < 2 ^ 53.
Proof.
  cbn [finite_double valid_binary]. unfold bounded, canonical_mantissa, fexp.
  rewrite andb_true_iff, Z.eqb_eq. intros [Hc _].
  pose proof (digits2_bounds m). eapply Z.lt_le_trans; [apply H|].
  apply Z.pow_le_mono_r; lia.
Qed.

Lemma lt_not_le m1 e1 m2 e2 :
  let x := S754_finite false m1 e1 in let y := S754_finite false m2 e2 in
  num_lt x y = true -> num_le y x = false.
Proof.
  unfold num_lt, num_le, SFltb, SFleb, SFcompare. rewrite (Z.compare_antisym e1 e2).
  destruct (e1 ?= e2); cbn [CompOpp]; try done.
  change (Pos.compare_cont Eq m1 m2) with (m1 ?= m2)%positive.
  change (Pos.compare_cont Eq m2 m1) with (m2 ?= m1)%positive.
  rewrite (Pos.compare_antisym m1 m2). by destruct (m1 ?= m2)%positive.
Qed.

(** ** [toFixed] rounds to the nearest decimal *)

Lemma fixed_nearest p q f :
  0 <= p -> 0 < q -> 2 * Z.abs (p * 10 ^ Z.of_nat f - fixed_int p q f * q) <= q.
Proof.
  intros Hp Hq. unfold fixed_int. set (a := p * 10 ^ Z.of_nat f).
  pose proof (Z.div_mod (2 * a + q) (2 * q) ltac:(lia)) as Hd.
  pose proof (Z.mod_pos_bound (2 * a + q) (2 * q) ltac:(lia)).
  set (n := (2 * a + q) / (2 * q)) in *. nia.
Qed.

(** A double below 1024 is written with its nearest decimals. *)
Lemma toFixed_small m e f :
  let x := S754_finite false m e in
  finite_double x = true -> num_lt x (num_of_Z 1024) = true ->
  exists q, num_frac x = Some (Zpos m, q) /\
    toFixed x f = fixed_layout (fixed_int (Zpos m) (Zpos q) f) f.
Proof.
  intros x Hx Hlt. pose proof (valid_significand _ _ _ Hx) as Hm.
  change (num_of_Z 1024) with (S754_finite false 4503599627370496 (-42)) in Hlt.
  assert (e <= -42) as He.
  { unfold num_lt, SFltb, SFcompare, x in Hlt.
    destruct (Z.compare_spec e (-42)); [lia|lia|done]. }
  destruct e as [|k|k]; try lia. exists (Pos.pow 2 k). split; [done|].
  unfold toFixed. change (num_lt x (S754_zero false)) with false. cbn iota.
  unfold toFixed_abs. cbn [x num_frac].
  rewrite (proj2 (Z.leb_gt _ _)); [done|].
  rewrite Pos2Z.inj_pow. assert (1 <= 2 ^ Zpos k) by (pose proof (Z.pow_pos_nonneg 2 (Zpos k)); lia).
  assert (2 ^ 53 < 10 ^ 21) by done. nia.
Qed.
