(* ===== verification/React.v ===== *)
(** * React elements

    The value a component returns: a tree of elements whose handlers carry
    the page's own actions (type [A]) instead of closures, so that "this
    button calls that handler with this argument" is data.  A view is a
    [jsx A]: evaluating JSX may throw, and an expression in child position may
    stand for any number of children. *)
From S2P Require Import Prelude JsStr JsNum JsVal.
Local Open Scope string_scope.

(** The part of a DOM event the handlers read. *)
Record event := Event {
  ev_value : string;      (* e.target.value *)
  ev_key : string;        (* e.key *)
  ev_meta : bool;         (* e.metaKey *)
  ev_ctrl : bool;         (* e.ctrlKey *)
}.

#[local] Set Warnings "-register-all".
Inductive node (A : Type) : Type :=
| Text (s : string)
| Elem (tag : string) (attrs : list (string * attr A)) (kids : list (node A))
with attr (A : Type) : Type :=
| AVal (v : val)                 (* a plain value *)
| AOn (h : event -> A)           (* an event handler *)
| AFn (f : val -> res val)       (* a function-valued prop *)
| ACall (h : val -> A)           (* a callback the child calls with a value *)
| AElem (ns : list (node A)).    (* an element-valued prop *)
Arguments Text {A} s.
Arguments Elem {A} tag attrs kids.
Arguments AVal {A} v.
Arguments AOn {A} h.
Arguments AFn {A} f.
Arguments ACall {A} h.
Arguments AElem {A} ns.

Abbreviation jsx A := (res (list (node A))).


(** An attribute of a JSX tag: [k={e}] or [{...e}]. *)
Inductive item (A : Type) : Type :=
| At (k : string) (e : res (attr A))
| Spread (e : res (list (string * attr A))).
Arguments At {A} k e.
Arguments Spread {A} e.

Section Jsx.
Context {A : Type}.

(** [createElement] collects the props from left to right, a later definition
    of a name replacing an earlier one. *)
Fixpoint props_from (acc : list (string * attr A)) (l : list (item A))
  : res (list (string * attr A)) :=
  match l with
  | [] => Ok acc
  | At k e :: l' => a ← e; props_from (set_key k a acc) l'
  | Spread e :: l' => fs ← e; props_from (merge acc fs) l'
  end.

Definition el (tag : string) (items : list (item A)) (kids : list (jsx A)) : jsx A :=
  ps ← props_from [] items; ks ← sequence kids; Ok [Elem tag ps (concat ks)].

(** [<card.icon .../>]: the element type is itself a value. *)
Definition elV (tag : expr) (items : list (item A)) (kids : list (jsx A)) : jsx A :=
  t ← tag;
  match t with
  | VComp name | VStr name => el name items kids
  | _ => Err (UserError "Element type is invalid")
  end.

Definition frag (kids : list (jsx A)) : jsx A := ks ← sequence kids; Ok (concat ks).

Definition nothing : jsx A := Ok [].
Definition txt (s : string) : jsx A := Ok [Text s].

(** A value in child position. *)
Fixpoint child_of (v : val) : jsx A :=
  match v with
  | VUndef | VNull | VBool _ | VComp _ => Ok []
  | VNum n => Ok [Text (num_to_string n)]
  | VStr s => Ok [Text s]
  | VArr l =>
      (fix go (l : list val) : jsx A :=
         match l with
         | [] => Ok []
         | w :: l' => k ← child_of w; r ← go l'; Ok (k ++ r)%list
         end) l
  | VObj _ => Err (UserError "Objects are not valid as a React child")
  end.

(** [{e}] in child position. *)
Definition put (e : expr) : jsx A := v ← e; child_of v.

(** [{c && <jsx/>}]: a falsy [c] is itself the child. *)
Definition show (c : expr) (j : jsx A) : jsx A :=
  v ← c; if truthy v then j else child_of v.

(** [{e.map((x, i) => <jsx/>)}], on a value and on an array of the program. *)
Definition each (e : expr) (f : nat -> val -> jsx A) : jsx A :=
  ks ← jmap e f; Ok (concat ks).
Definition each_in {B} (l : list B) (f : nat -> B -> jsx A) : jsx A :=
  ks ← imapM f l; Ok (concat ks).

Definition prop (k : string) (e : expr) : item A := At k (AVal <$> e).
Definition on (k : string) (a : A) : item A := At k (Ok (AOn (fun _ => a))).
Definition onE (k : string) (f : event -> A) : item A := At k (Ok (AOn f)).
Definition onV (k : string) (f : val -> A) : item A := At k (Ok (ACall f)).
Definition fn (k : string) (f : val -> res val) : item A := At k (Ok (AFn f)).
Definition pelem (k : string) (j : jsx A) : item A := At k (AElem <$> j).
(** [ref={nameRef}]: the element is registered under the ref's name. *)
Definition ref (r : string) : item A := At "ref" (Ok (AVal (VComp r))).
(** A bare attribute name. *)
Definition flag (k : string) : item A := prop k true.

(** ** Reading a tree *)

Definition attrs_of (n : node A) : list (string * attr A) :=
  match n with Text _ => [] | Elem _ l _ => l end.
Definition tag_of (n : node A) : string :=
  match n with Text _ => "" | Elem t _ _ => t end.
Definition kids_of (n : node A) : list (node A) :=
  match n with Text _ => [] | Elem _ _ k => k end.
Definition attr_val (k : string) (n : node A) : option val :=
  match assoc k (attrs_of n) with Some (AVal v) => Some v | _ => None end.
Definition has_tag (t : string) (n : node A) : bool := String.eqb t (tag_of n).

(** Every element of a tree that satisfies [p], in document order. *)
Fixpoint find_in (p : node A -> bool) (n : node A) : list (node A) :=
  ((if p n then [n] else []) ++
   match n with
   | Text _ => []
   | Elem _ _ kids =>
       (fix go (l : list (node A)) : list (node A) :=
          match l with [] => [] | m :: l' => find_in p m ++ go l' end) kids
   end)%list.
Definition find_all (p : node A -> bool) (ns : list (node A)) : list (node A) :=
  flat_map (find_in p) ns.

(** The text a reader sees. *)
Fixpoint text_in (n : node A) : string :=
  match n with
  | Text s => s
  | Elem _ _ kids =>
      (fix go (l : list (node A)) : string :=
         match l with [] => "" | m :: l' => text_in m +:+ go l' end) kids
  end.
Definition text_all (ns : list (node A)) : string := join "" (map text_in ns).

(** What firing event [k] on an element does: nothing while it is disabled. *)
Definition is_disabled (n : node A) : bool :=
  match attr_val "disabled" n with Some v => truthy v | None => false end.
Definition fire (k : string) (e : event) (n : node A) : option A :=
  if is_disabled n then None
  else match assoc k (attrs_of n) with Some (AOn h) => Some (h e) | _ => None end.

(** The (title, action) pairs of the elements that react to a click. *)
Definition clickable (n : node A) : bool :=
  match assoc "onClick" (attrs_of n) with Some (AOn _) => true | _ => false end.
Definition clicks (e : event) (ns : list (node A)) : list (option val * option A) :=
  map (fun n => (attr_val "title" n, fire "onClick" e n)) (find_all clickable ns).
End Jsx.

(** [{cond ? <a/> : <b/>}] is [jif].  Embedding a child component's view under
    the parent's actions: *)
Section Embed.
Context {A B : Type} (f : A -> B).
Fixpoint node_map (n : node A) : node B :=
  match n with
  | Text s => Text s
  | Elem t l kids =>
      Elem t
        ((fix go (l : list (string * attr A)) : list (string * attr B) :=
            match l with [] => [] | (k, a) :: l' => (k, attr_map a) :: go l' end) l)
        ((fix go (l : list (node A)) : list (node B) :=
            match l with [] => [] | m :: l' => node_map m :: go l' end) kids)
  end
with attr_map (a : attr A) : attr B :=
  match a with
  | AVal v => AVal v
  | AOn h => AOn (fun e => f (h e))
  | AFn g => AFn g
  | ACall h => ACall (fun v => f (h v))
  | AElem ns =>
      AElem ((fix go (l : list (node A)) : list (node B) :=
                match l with [] => [] | m :: l' => node_map m :: go l' end) ns)
  end.
Definition embed (j : jsx A) : jsx B := ns ← j; Ok (map node_map ns).
End Embed.

Notation "k =: e" := (prop k e) (at level 70, no associativity) : js_scope.
Notation "k =! a" := (on k a) (at level 70, no associativity) : js_scope.

(** ** Lemmas *)

Section JsxLemmas.
Context {A : Type}.
Implicit Types (n : node A) (ns : list (node A)).

Lemma find_in_Elem (p : node A -> bool) t l kids :
  find_in p (Elem t l kids) =
  ((if p (Elem t l kids) then [Elem t l kids] else []) ++ find_all p kids)%list.
Proof. done. Qed.

Lemma find_all_app (p : node A -> bool) ns ms :
  find_all p (ns ++ ms) = (find_all p ns ++ find_all p ms)%list.
Proof. unfold find_all. by rewrite flat_map_app. Qed.

Lemma el_eq tag (items : list (item A)) kids ps ks :
  props_from [] items = Ok ps -> sequence kids = Ok ks ->
  el tag items kids = Ok [Elem tag ps (concat ks)].
Proof. intros H1 H2. unfold el. by rewrite H1, H2. Qed.

(** A rendered element has rendered children. *)
Lemma el_kid tag (items : list (item A)) kids ns i k :
  el tag items kids = Ok ns -> kids !! i = Some k -> exists ms, k = Ok ms.
Proof.
  unfold el. intros H Hi. res_inv. apply sequence_Ok in E0.
  destruct (Forall2_lookup_l _ _ _ _ _ E0 Hi) as (ms & _ & ->). eauto.
Qed.

End JsxLemmas.

(** ** What a view shows: [finds p f j l] says that [j] renders, and that the
    elements of its tree that satisfy [p] are, in document order, [l] (each
    seen through [f]) *)

Definition finds {A B} (p : node A -> bool) (f : node A -> B) (j : jsx A) (l : list B) : Prop :=
  exists ns, j = Ok ns /\ map f (find_all p ns) = l.

(** [p] and [f] look at the element itself, not below it, nor at text. *)
Class Shallow {A B} (p : node A -> bool) (f : node A -> B) : Prop := {
  shallow_p : forall t ps ks, p (Elem t ps ks) = p (Elem t ps []);
  shallow_f : forall t ps ks, f (Elem t ps ks) = f (Elem t ps []);
  shallow_text : forall s, p (Text s) = false;
}.

Section Finds.
Context {A B : Type} (p : node A -> bool) (f : node A -> B) `{!Shallow p f}.

Definition own (t : string) (ps : list (string * attr A)) : list B :=
  if p (Elem t ps []) then [f (Elem t ps [])] else [].

Lemma finds_kids kids ls :
  Forall2 (finds p f) kids ls ->
  exists ks, sequence kids = Ok ks /\ map f (find_all p (concat ks)) = concat ls.
Proof.
  induction 1 as [|k l kids ls (ns & -> & <-) _ (ks & Hk & IH)]; [by exists []|].
  exists (ns :: ks). split; [cbn; by rewrite Hk|]. cbn [concat].
  by rewrite find_all_app, map_app, IH.
Qed.

Lemma finds_el tag items ps kids ls :
  props_from [] items = Ok ps -> Forall2 (finds p f) kids ls ->
  finds p f (el tag items kids) (own tag ps ++ concat ls).
Proof.
  intros Hps Hks. destruct (finds_kids _ _ Hks) as (ks & Hk & Hl).
  exists [Elem tag ps (concat ks)]. split; [by apply el_eq|].
  unfold find_all at 1. cbn [flat_map]. rewrite find_in_Elem, app_nil_r, map_app, Hl.
  f_equal. unfold own. rewrite shallow_p. case_match; [|done]. cbn. by rewrite shallow_f.
Qed.

Lemma finds_frag kids ls :
  Forall2 (finds p f) kids ls -> finds p f (frag kids) (concat ls).
Proof.
  intros Hks. destruct (finds_kids _ _ Hks) as (ks & Hk & Hl).
  exists (concat ks). split; [unfold frag; by rewrite Hk|done].
Qed.

Lemma finds_txt s : finds p f (txt s) [].
Proof. exists [Text s]. split; [done|]. cbn. by rewrite shallow_text. Qed.

Lemma finds_nothing : finds p f nothing [].
Proof. by exists []. Qed.

(** A scalar child is text, or nothing. *)
Definition scalar (v : val) : bool :=
  match v with VArr _ | VObj _ => false | _ => true end.

Lemma finds_put v : scalar v = true -> finds p f (put (Ok v)) [].
Proof.
  intros Hv. destruct v; try done; cbn; first [by exists []|apply finds_txt].
Qed.

Lemma finds_show v j l :
  (truthy v = false -> scalar v = true) -> (truthy v = true -> finds p f j l) ->
  finds p f (show (Ok v) j) (if truthy v then l else []).
Proof.
  intros Hs Hj. unfold show. cbn. destruct (truthy v) eqn:E; [by apply Hj|].
  by apply (finds_put v), Hs.
Qed.

Lemma finds_jif v j1 j2 l1 l2 :
  (truthy v = true -> finds p f j1 l1) -> (truthy v = false -> finds p f j2 l2) ->
  finds p f (jif (Ok v) j1 j2) (if truthy v then l1 else l2).
Proof. unfold jif. cbn. destruct (truthy v); auto. Qed.

Lemma finds_each (l : list val) body (g : val -> list B) :
  (forall i v, l !! i = Some v -> finds p f (body i v) (g v)) ->
  finds p f (each (Ok (VArr l)) body) (concat (map g l)).
Proof.
  intros Hb.
  assert (forall n, (forall i v, l !! i = Some v -> finds p f (body (n + i) v) (g v)) ->
            exists ks, imapM_from n body l = Ok ks /\
              map f (find_all p (concat ks)) = concat (map g l)) as Hgen.
  { clear Hb. induction l as [|v l IH]; intros n Hb; [by exists []|].
    destruct (Hb 0 v eq_refl) as (ns & Hn & Hg). rewrite Nat.add_0_r in Hn.
    destruct (IH (S n)) as (ks & Hk & Hl).
    { intros i w Hw. replace (S n + i) with (n + S i) by lia. by apply Hb. }
    exists (ns :: ks). split; [cbn; rewrite Hn; cbn; by rewrite Hk|]. cbn [concat map].
    by rewrite find_all_app, map_app, Hl, Hg. }
  destruct (Hgen 0 Hb) as (ks & Hk & Hl). exists (concat ks). split; [|done].
  unfold each, jmap, imapM. cbn. by rewrite Hk.
Qed.

Lemma finds_eq j l l' : finds p f j l -> l = l' -> finds p f j l'.
Proof. by intros H <-. Qed.
End Finds.

(** The elements that react to a click, by title. *)
#[export] Instance clicks_shallow {A} (e : event) :
  Shallow (A:=A) clickable (fun n => (attr_val "title" n, fire "onClick" e n)).
Proof. by split. Qed.

Lemma finds_clicks {A} (e : event) (j : jsx A) l :
  finds clickable (fun n => (attr_val "title" n, fire "onClick" e n)) j l ->
  exists ns, j = Ok ns /\ clicks e ns = l.
Proof. done. Qed.

(** *** Rendering, rule by rule *)

Section Render.
Context {A B : Type} (p : node A -> bool) (f : node A -> B) `{!Shallow p f}.

(** An element that is not itself looked for. *)
Lemma finds_plain tag items kids ls :
  (exists ps, props_from [] items = Ok ps /\ p (Elem tag ps []) = false) ->
  Forall2 (finds p f) kids ls -> finds p f (el tag items kids) (concat ls).
Proof.
  intros (ps & Hps & Hp) Hks. replace (concat ls) with (own p f tag ps ++ concat ls)%list;
    [by apply finds_el|]. unfold own. by rewrite Hp.
Qed.

(** An element that is looked for. *)
Lemma finds_hit tag items kids b ls :
  (exists ps, props_from [] items = Ok ps /\ p (Elem tag ps []) = true /\ f (Elem tag ps []) = b) ->
  Forall2 (finds p f) kids ls -> finds p f (el tag items kids) (b :: concat ls).
Proof.
  intros (ps & Hps & Hp & <-) Hks.
  replace (f (Elem tag ps []) :: concat ls) with (own p f tag ps ++ concat ls)%list;
    [by apply finds_el|]. unfold own. by rewrite Hp.
Qed.

Lemma finds_value e : (exists v, e = Ok v /\ scalar v = true) -> finds p f (put e) [].
Proof. intros (v & -> & Hv). by apply finds_put. Qed.

Lemma finds_guard e v j l :
  e = Ok v -> (truthy v = false -> scalar v = true) -> (truthy v = true -> finds p f j l) ->
  finds p f (show e j) (if truthy v then l else []).
Proof. intros ->. by apply finds_show. Qed.

Lemma finds_branch e v j1 j2 l1 l2 :
  e = Ok v -> (truthy v = true -> finds p f j1 l1) -> (truthy v = false -> finds p f j2 l2) ->
  finds p f (jif e j1 j2) (if truthy v then l1 else l2).
Proof. intros ->. by apply finds_jif. Qed.

Lemma finds_list e (l : list val) body (g : val -> list B) :
  e = Ok (VArr l) ->
  (forall i v, l !! i = Some v -> finds p f (body i v) (g v)) ->
  finds p f (each e body) (concat (map g l)).
Proof. intros ->. by apply finds_each. Qed.

(** A list of the program's own. *)
Lemma finds_each_in {X} (l : list X) (body : nat -> X -> jsx A) (g : X -> list B) :
  (forall i x, finds p f (body i x) (g x)) -> finds p f (each_in l body) (concat (map g l)).
Proof.
  intros Hb. unfold each_in, imapM.
  assert (forall n, exists ks, imapM_from n body l = Ok ks /\
            map f (find_all p (concat ks)) = concat (map g l)) as Hgen.
  { induction l as [|x l IH]; intros n; [by exists []|].
    destruct (Hb n x) as (ns & Hn & Hg). destruct (IH (S n)) as (ks & Hk & Hl).
    exists (ns :: ks). split; [cbn; rewrite Hn; cbn; by rewrite Hk|]. cbn [concat map].
    by rewrite find_all_app, map_app, Hl, Hg. }
  destruct (Hgen 0) as (ks & Hk & Hl). exists (concat ks). by rewrite Hk.
Qed.

(** A list all of whose items have a shape. *)
Lemma finds_rows e (l : list val) (ok : val -> bool) body (g : val -> list B) :
  e = Ok (VArr l) -> forallb ok l = true ->
  (forall i v, ok v = true -> finds p f (body i v) (g v)) ->
  finds p f (each e body) (concat (map g l)).
Proof.
  intros He Hl Hb. apply finds_list; [done|]. intros i v Hi. apply Hb.
  rewrite forallb_forall in Hl. apply Hl, list_elem_of_In. by eapply list_elem_of_lookup_2.
Qed.

(** A list whose items hold nothing that is looked for. *)
Lemma finds_options e (l : list val) (ok : val -> bool) body :
  e = Ok (VArr l) -> forallb ok l = true ->
  (forall i v, ok v = true -> finds p f (body i v) []) ->
  finds p f (each e body) [].
Proof.
  intros He Hl Hb. eapply finds_eq; [by apply (finds_rows e l ok body (fun _ => []))|].
  clear. induction l; [done|]. by cbn.
Qed.
End Render.

(** Expressions evaluate by unfolding their combinators, branch by branch. *)
Ltac js_red :=
  cbv beta iota zeta delta
    [props_from prop on onE fn pelem flag ref tpl sequence jcond jif jeq jneq jget joget get
     lit jor jand jnullish jnot jge jgt jlt jmul jdiv jsub jmin jnum2 jincludes jtoFixed jobj jarray
     mbind res_bind fmap res_fmap set_key merge foldl fst snd map
     String.eqb Ascii.eqb Bool.eqb];
  cbn [truthy nullish].

(** Case analysis on an innermost condition. *)
Ltac js_case :=
  match goal with
  | |- context [match ?x with _ => _ end] =>
      lazymatch x with
      | context [match _ with _ => _ end] => fail
      | _ => destruct x eqn:?
      end
  end.
Ltac js_value := js_red; repeat (js_case; js_red); eexists; split; (reflexivity || eassumption).

(** One rule, chosen by the head of the view; [render] leaves what it cannot
    evaluate. *)
Ltac render_step :=
  lazymatch goal with
  | |- finds _ _ (el _ _ _) _ =>
      first [ apply finds_plain; [exact _ | by js_value | ]
            | eapply finds_hit; [exact _ | by (js_red; eexists; repeat split; reflexivity) | ]
            | eapply finds_hit; [exact _ | by (js_red; repeat (js_case; js_red); eexists; repeat split; reflexivity) | ]
            | apply finds_plain; [exact _ | | ] ]
  | |- finds _ _ (each_in _ _) _ => eapply finds_each_in; intros ? ?
  | |- finds _ _ (frag _) _ => apply finds_frag; try exact _
  | |- finds _ _ (txt _) _ => apply finds_txt; exact _
  | |- finds _ _ nothing _ => apply finds_nothing
  | |- finds _ _ (put _) _ => apply finds_value; [exact _ | try by js_value]
  | |- finds _ _ (show _ _) _ =>
      eapply finds_guard; [exact _ | js_red; reflexivity | try (intros; done) | intros _]
  | |- finds _ _ (jif _ _ _) _ => eapply finds_branch; [reflexivity | intros _ | intros _]
  | |- Forall2 _ [] _ => constructor
  | |- Forall2 _ (_ :: _) _ => constructor
  end.
Ltac render :=
  repeat lazymatch goal with
  | |- finds _ _ _ _ => first [eassumption | render_step]
  | |- _ => render_step
  end.

(** The list [render] computes against the expected one. *)
Ltac found_eq := cbn [concat app truthy negb];
  repeat match goal with |- context [if ?b then _ else _] => destruct b eqn:? end; done.
