(* ===== verification/Effects.v ===== *)
(** * Handlers as effectful programs, pages as machines

    An event handler is a [prog S A] over the component's state type [S]: a
    tree of state updates ([setX]), synchronous browser calls, awaited
    promises, spawned promise chains and timers.  Handlers read the state they
    closed over when the page rendered (an ordinary argument), and write it
    through functional updates, exactly as React's setters do.  A page is a
    [component]; [conf] is its run-time configuration and [step] lets user
    events, settling promises and timers interleave in any order. *)
From S2P Require Import Prelude JsStr JsNum JsVal React.
Local Open Scope string_scope.

(** ** The browser interface *)

Record request := Request {
  rq_method : string;
  rq_url : string;
  rq_headers : list (string * string);
  rq_body : option val;
}.

(** [r.status] and what [r.json()] settles to. *)
Record response := Response { r_status : Z; r_json : res val }.
Definition r_ok (r : response) : bool := (200 <=? r_status r)%Z && (r_status r <=? 299)%Z.

(** What a handler can await, and what it gets. *)
Inductive query : Type :=
| QFetch (r : request)
| QTick                    (* a promise that is already settled *)
| QClipboardRead.
Definition reply (q : query) : Type :=
  match q with QFetch _ => response | QTick => unit | QClipboardRead => string end.

(** Synchronous calls. *)
Inductive cmd : Type :=
| CAlert (s : string)
| CConfirm (s : string)
| CConsoleError (s : string)
| CRefValue (r : string)             (* r.current?.value *)
| CRefChecked (r : string)           (* r.current?.checked *)
| CSetRefValue (r s : string)        (* r.current.value = s *)
| CGetItem (k : string)
| CSetItem (k v : string)
| CRemoveItem (k : string)
| CHref                              (* window.location.href *)
| CReload
| CNavigate (path : string) (replace : bool)
| CSecureClipboard                   (* navigator.clipboard && window.isSecureContext *)
| CWriteText (s : string)
| CExecCopy (s : string)             (* copy through a temporary textarea *)
| CPreventDefault
| CStopPropagation
| CNow                               (* Date.now(), in milliseconds *)
| CRandom (site : string)            (* Math.random() *)
| CSetCookie (s : string)
| CInnerWidth                        (* window.innerWidth *)
| CApi (m : string)                  (* a call of a library object, [api.m()] *)
| CAddClass (s : string).

(** What the browser and the user answer during one synchronous stretch. *)
Record inputs := Inputs {
  in_ref : string -> option string;      (* None: no element is mounted *)
  in_checked : string -> option bool;
  in_confirm : string -> bool;
  in_href : string;
  in_secure : bool;
  in_copy : res unit;                    (* document.execCommand may throw *)
  in_now : Z;
  in_random : string -> num;
  in_width : Z;
  in_api : string -> bool;
}.

Definition opt_str (o : option string) : val :=
  match o with Some s => VStr s | None => VUndef end.

(** Each call against the inputs and the local storage. *)
Definition exec (io : inputs) (store : gmap string string) (c : cmd)
  : res val * gmap string string :=
  match c with
  | CConfirm s => (Ok (VBool (in_confirm io s)), store)
  | CRefValue r => (Ok (opt_str (in_ref io r)), store)
  | CRefChecked r =>
      (Ok (match in_checked io r with Some b => VBool b | None => VUndef end), store)
  | CGetItem k => (Ok (match store !! k with Some v => VStr v | None => VNull end), store)
  | CSetItem k v => (Ok VUndef, <[k:=v]> store)
  | CRemoveItem k => (Ok VUndef, delete k store)
  | CHref => (Ok (VStr (in_href io)), store)
  | CSecureClipboard => (Ok (VBool (in_secure io)), store)
  | CExecCopy _ => ((_ ← in_copy io; Ok VUndef), store)
  | CNow => (Ok (int (in_now io)), store)
  | CRandom site => (Ok (VNum (in_random io site)), store)
  | CInnerWidth => (Ok (int (in_width io)), store)
  | CApi m => (Ok (VBool (in_api io m)), store)
  | _ => (Ok VUndef, store)
  end.

(** ** Programs *)

Inductive prog (S A : Type) : Type :=
| Ret (a : A)
| Throw (e : exn)
| Upd (f : S -> S) (k : prog S A)
| Call (c : cmd) (k : res val -> prog S A)
| Await (q : query) (k : res (reply q) -> prog S A)
| Spawn (p : prog S unit) (k : prog S A)
| SetTimer (repeat : bool) (ms : Z) (p : prog S unit) (k : nat -> prog S A)
| ClearTimer (id : nat) (k : prog S A).
Arguments Ret {S A} a.
Arguments Throw {S A} e.
Arguments Upd {S A} f k.
Arguments Call {S A} c k.
Arguments Await {S A} q k.
Arguments Spawn {S A} p k.
Arguments SetTimer {S A} repeat ms p k.
Arguments ClearTimer {S A} id k.

(** [await]-style sequencing: [let! x := p in q] and [do! p in q]. *)
Fixpoint bind {S A B : Type} (p : prog S A) (f : A -> prog S B) : prog S B :=
  match p with
  | Ret a => f a
  | Throw e => Throw e
  | Upd g k => Upd g (bind k f)
  | Call c k => Call c (fun r => bind (k r) f)
  | Await q k => Await q (fun r => bind (k r) f)
  | Spawn p k => Spawn p (bind k f)
  | SetTimer b ms p k => SetTimer b ms p (fun id => bind (k id) f)
  | ClearTimer id k => ClearTimer id (bind k f)
  end.

Notation "'let!' x ':=' p 'in' q" := (bind p (fun x => q))
  (at level 10, x name, p at level 100, q at level 200) : js_scope.
Notation "'do!' p 'in' q" := (bind p (fun _ => q))
  (at level 10, p at level 100, q at level 200) : js_scope.
Local Open Scope js_scope.

(** [try { p } catch (e) { h(e) }]. *)
Fixpoint try_catch {S A : Type} (p : prog S A) (h : exn -> prog S A) : prog S A :=
  match p with
  | Ret a => Ret a
  | Throw e => h e
  | Upd g k => Upd g (try_catch k h)
  | Call c k => Call c (fun r => try_catch (k r) h)
  | Await q k => Await q (fun r => try_catch (k r) h)
  | Spawn p k => Spawn p (try_catch k h)
  | SetTimer b ms p k => SetTimer b ms p (fun id => try_catch (k id) h)
  | ClearTimer id k => ClearTimer id (try_catch k h)
  end.

(** [try { p } finally { f }]: [f] runs on every way out of [p]. *)
Fixpoint try_finally {S A : Type} (p : prog S A) (f : prog S unit) : prog S A :=
  match p with
  | Ret a => do! f in Ret a
  | Throw e => do! f in Throw e
  | Upd g k => Upd g (try_finally k f)
  | Call c k => Call c (fun r => try_finally (k r) f)
  | Await q k => Await q (fun r => try_finally (k r) f)
  | Spawn p k => Spawn p (try_finally k f)
  | SetTimer b ms p k => SetTimer b ms p (fun id => try_finally (k id) f)
  | ClearTimer id k => ClearTimer id (try_finally k f)
  end.

Section Ops.
Context {S : Type}.

Definition lift {A} (r : res A) : prog S A :=
  match r with Ok a => Ret a | Err e => Throw e end.
Definition upd (f : S -> S) : prog S unit := Upd f (Ret tt).
Definition call (c : cmd) : prog S val := Call c lift.
Definition do_ (c : cmd) : prog S unit := Call c (fun r => match r with Ok _ => Ret tt | Err e => Throw e end).
Definition await (q : query) : prog S (reply q) := Await q lift.
Definition spawn (p : prog S unit) : prog S unit := Spawn p (Ret tt).
Definition setTimeout (p : prog S unit) (ms : Z) : prog S nat := SetTimer false ms p Ret.
Definition setInterval (p : prog S unit) (ms : Z) : prog S nat := SetTimer true ms p Ret.
Definition clearTimer (id : nat) : prog S unit := ClearTimer id (Ret tt).
Definition skip : prog S unit := Ret tt.
(** [r.current?.value]. *)
Definition ref_value (r : string) : prog S val := call (CRefValue r).
(** [confirm(msg)]. *)
Definition confirm (msg : string) : prog S bool :=
  let! ok := call (CConfirm msg) in Ret (truthy ok).
Definition alert (msg : string) : prog S unit := do_ (CAlert msg).
Definition navigate (path : string) : prog S unit := do_ (CNavigate path false).
(** [if (c) { p }]. *)
Definition when (c : bool) (p : prog S unit) : prog S unit := if c then p else skip.
(** [p.catch(() => {})] on a promise nobody awaits. *)
Definition forget (p : prog S unit) : prog S unit := spawn (try_catch p (fun _ => skip)).
(** [await r.json()]. *)
Definition response_json (r : response) : prog S val := do! await QTick in lift (r_json r).
End Ops.

(** [for (const x of l) { await body(x) }]. *)
Fixpoint for_each {S A : Type} (l : list A) (body : A -> prog S unit) : prog S unit :=
  match l with
  | [] => skip
  | a :: l' => do! body a in for_each l' body
  end.

(** ** Machines *)

(** What an observer of the browser sees. *)
Inductive obs : Type :=
| OCall (c : cmd)
| OSend (r : request)
| OUncaught (e : exn).

Inductive task (S : Type) : Type :=
| Waiting (q : query) (k : res (reply q) -> prog S unit)
| Timer (repeat : bool) (ms : Z) (p : prog S unit).
Arguments Waiting {S} q k.
Arguments Timer {S} repeat ms p.

Record conf (S : Type) := Conf {
  st : S;
  store : gmap string string;
  pend : list (nat * task S);
  next : nat;
  log : list obs;
}.
Arguments Conf {S} st store pend next log.
Arguments st {S} c.
Arguments store {S} c.
Arguments pend {S} c.
Arguments next {S} c.
Arguments log {S} c.

Section Run.
Context {S : Type}.
Implicit Types (c : conf S).

Definition set_st (f : S -> S) c := Conf (f (st c)) (store c) (pend c) (next c) (log c).
Definition emit (o : obs) c := Conf (st c) (store c) (pend c) (next c) (log c ++ [o]).
Definition push (t : task S) c :=
  Conf (st c) (store c) (pend c ++ [(next c, t)]) (Datatypes.S (next c)) (log c).
Definition set_store (s : gmap string string) c := Conf (st c) s (pend c) (next c) (log c).
(** [clearTimeout] / [clearInterval]: promises cannot be cancelled. *)
Definition is_timer (id : nat) (t : nat * task S) : bool :=
  match snd t with Timer _ _ _ => Nat.eqb (fst t) id | Waiting _ _ => false end.
Definition drop_timer (id : nat) c :=
  Conf (st c) (store c) (List.filter (fun t => negb (is_timer id t)) (pend c)) (next c) (log c).
Definition take_task (i : nat) c :=
  Conf (st c) (store c) (delete i (pend c)) (next c) (log c).

(** One synchronous stretch: until the program ends or awaits. *)
Fixpoint run (io : inputs) (p : prog S unit) (c : conf S) : conf S :=
  match p with
  | Ret _ => c
  | Throw e => emit (OUncaught e) c
  | Upd f k => run io k (set_st f c)
  | Call cm k =>
      let '(r, s) := exec io (store c) cm in
      run io (k r) (set_store s (emit (OCall cm) c))
  | Await q k =>
      push (Waiting q k) (match q with QFetch r => emit (OSend r) c | _ => c end)
  | Spawn q k => run io k (run io q c)
  | SetTimer b ms q k => run io (k (next c)) (push (Timer b ms q) c)
  | ClearTimer id k => run io k (drop_timer id c)
  end.
End Run.

(** A component: its initial state, what its mount effects run, its handlers
    (given the state of the render they belong to), and the effects that
    depend on state, run after a step that went from one state to another. *)
Record component (S A : Type) := Component {
  c_init : S;
  c_mount : prog S unit;
  c_handle : S -> A -> prog S unit;
  c_commit : S -> S -> prog S unit;
}.
Arguments Component {S A} c_init c_mount c_handle c_commit.
Arguments c_init {S A} c.
Arguments c_mount {S A} c.
Arguments c_handle {S A} c.
Arguments c_commit {S A} c.

Section Machine.
Context {S A : Type} (C : component S A).

Definition commit_after (io : inputs) (old : S) (c : conf S) : conf S :=
  run io (c_commit C old (st c)) c.

Definition boot (io : inputs) (s0 : gmap string string) : conf S :=
  run io (c_mount C) (Conf (c_init C) s0 [] 0 []).

(** Firing a handler. *)
Definition event_step (io : inputs) (a : A) (c : conf S) : conf S :=
  commit_after io (st c) (run io (c_handle C (st c) a) c).

(** The [i]-th pending promise settles, or the [i]-th timer expires. *)
Definition settle_step (io : inputs) (i : nat) {q : query}
    (k : res (reply q) -> prog S unit) (o : res (reply q)) (c : conf S) : conf S :=
  commit_after io (st c) (run io (k o) (take_task i c)).
Definition timer_step (io : inputs) (i : nat) (repeat : bool) (p : prog S unit)
    (c : conf S) : conf S :=
  commit_after io (st c) (run io p (if repeat then c else take_task i c)).

Inductive step : conf S -> conf S -> Prop :=
| step_event io a c : step c (event_step io a c)
| step_settle io i id q k o c :
    pend c !! i = Some (id, Waiting q k) -> step c (settle_step io i k o c)
| step_timer io i id b ms p c :
    pend c !! i = Some (id, Timer b ms p) -> step c (timer_step io i b p c).

Inductive reachable : conf S -> Prop :=
| reach_boot io s0 : reachable (boot io s0)
| reach_step c c' : reachable c -> step c c' -> reachable c'.

(** A pending request is answered; a settled promise goes on. *)
Lemma reach_reply io i id rq k r c :
  reachable c -> pend c !! i = Some (id, Waiting (QFetch rq) k) ->
  reachable (settle_step io i k (Ok r) c).
Proof. intros Hc Hi. eapply reach_step; [done|]. by eapply step_settle. Qed.
Lemma reach_failure io i id rq k e c :
  reachable c -> pend c !! i = Some (id, Waiting (QFetch rq) k) ->
  reachable (settle_step io i k (Err e) c).
Proof. intros Hc Hi. eapply reach_step; [done|]. by eapply step_settle. Qed.
Lemma reach_tick io i id k c :
  reachable c -> pend c !! i = Some (id, Waiting QTick k) ->
  reachable (settle_step io i k (Ok tt) c).
Proof. intros Hc Hi. eapply reach_step; [done|]. by eapply step_settle. Qed.
End Machine.

(** The requests of a log. *)
Definition sent (l : list obs) : list request :=
  omap (fun o => match o with OSend r => Some r | _ => None end) l.
Definition calls (l : list obs) : list cmd :=
  omap (fun o => match o with OCall c => Some c | _ => None end) l.
