(* ===== verification/Logic.v ===== *)
(** * Reasoning about handlers and machines

    Three judgments on programs, each with its consequence for every reachable
    configuration of every interleaving:
    - [within I R p]: each state update of [p], and of everything it spawns or
      schedules, keeps [I], and each call and request it makes satisfies [R];
      then [I] holds in every reachable state and [R] of everything observed;
    - [debt]: a boolean flag raised by a handler is lowered on every way out of
      it; then the flag is down whenever no promise is pending;
    - [path P p t r]: a complete run of [p], with browser inputs in [P],
      whatever its promises settle to, with the calls and requests it makes. *)
From S2P Require Import Prelude JsStr JsNum JsVal React Effects.
Local Open Scope string_scope.

(** Induction on the programs a machine runs. *)
Lemma prog_unit_ind {S : Type} (P : prog S unit -> Prop) :
  (forall a, P (Ret a)) -> (forall e, P (Throw e)) ->
  (forall f k, P k -> P (Upd f k)) ->
  (forall c k, (forall r, P (k r)) -> P (Call c k)) ->
  (forall q k, (forall r, P (k r)) -> P (Await q k)) ->
  (forall q k, P q -> P k -> P (Spawn q k)) ->
  (forall b ms q k, P q -> (forall id, P (k id)) -> P (SetTimer b ms q k)) ->
  (forall id k, P k -> P (ClearTimer id k)) ->
  forall p, P p.
Proof. intros H1 H2 H3 H4 H5 H6 H7 H8.
  fix IH 1. intros [a|e|f k|c k|q k|q k|b ms q k|id k].
  - apply H1.
  - apply H2.
  - apply H3, IH.
  - apply H4. intros r. apply IH.
  - apply H5. intros r. apply IH.
  - apply H6; apply IH.
  - apply H7; [apply IH|]. intros r. apply IH.
  - apply H8, IH.
Qed.

Lemma Forall_list_filter {A} (P : A -> Prop) (q : A -> bool) l :
  Forall P l -> Forall P (List.filter q l).
Proof. induction 1; cbn; [done|]. case_match; auto. Qed.

(** The answers a call can get while the browser's inputs satisfy [P]. *)
Definition answers (P : inputs -> Prop) (c : cmd) (v : res val) : Prop :=
  exists io store, P io /\ v = fst (exec io store c).
Definition any_inputs : inputs -> Prop := fun _ => True.
Definition sends (q : query) : list obs :=
  match q with QFetch r => [OSend r] | _ => [] end.

(** ** Invariants *)

Fixpoint within {S A : Type} (I : S -> Prop) (R : obs -> Prop) (p : prog S A) : Prop :=
  match p with
  | Ret _ | Throw _ => True
  | Upd f k => (forall s, I s -> I (f s)) /\ within I R k
  | Call c k => R (OCall c) /\ forall v, answers any_inputs c v -> within I R (k v)
  | Await q k =>
      match q with QFetch r => R (OSend r) | _ => True end /\ forall v, within I R (k v)
  | Spawn q k => within I R q /\ within I R k
  | SetTimer _ _ q k => within I R q /\ forall id, within I R (k id)
  | ClearTimer _ k => within I R k
  end.

Section Within.
Context {S : Type} (I : S -> Prop) (R : obs -> Prop).

Lemma within_bind {A B} (p : prog S A) (f : A -> prog S B) :
  within I R p -> (forall a, within I R (f a)) -> within I R (bind p f).
Proof. intros Hp Hf. induction p; cbn in *; intuition eauto. Qed.

Lemma within_try_catch {A} (p : prog S A) h :
  within I R p -> (forall e, within I R (h e)) -> within I R (try_catch p h).
Proof. intros Hp Hh. induction p; cbn in *; intuition eauto. Qed.

Lemma within_try_finally {A} (p : prog S A) f :
  within I R p -> within I R f -> within I R (try_finally p f).
Proof.
  intros Hp Hf. induction p; cbn in *; intuition eauto;
    apply within_bind; cbn; eauto.
Qed.

Lemma within_lift {A} (r : res A) : within I R (lift (S:=S) r).
Proof. by destruct r. Qed.

Lemma within_do c : R (OCall c) -> within I R (do_ (S:=S) c).
Proof. intros Hc. split; [done|]. intros [?|?] _; done. Qed.

Lemma within_call c : R (OCall c) -> within I R (call (S:=S) c).
Proof. intros Hc. split; [done|]. intros v _. apply within_lift. Qed.

Lemma within_ref_value r : R (OCall (CRefValue r)) -> within I R (ref_value (S:=S) r).
Proof. apply within_call. Qed.

Lemma within_tick : within I R (await (S:=S) QTick).
Proof. split; [done|]. intros v. apply within_lift. Qed.

Lemma within_clipboard : within I R (await (S:=S) QClipboardRead).
Proof. split; [done|]. intros v. apply within_lift. Qed.

Lemma within_json r : within I R (response_json (S:=S) r).
Proof. apply within_bind; [apply within_tick|]. intros _. apply within_lift. Qed.

Lemma within_confirm m : R (OCall (CConfirm m)) -> within I R (confirm (S:=S) m).
Proof. intros Hc. apply within_bind; [by apply within_call|]. done. Qed.

Lemma within_alert m : R (OCall (CAlert m)) -> within I R (alert (S:=S) m).
Proof. apply within_do. Qed.

Lemma within_navigate p : R (OCall (CNavigate p false)) -> within I R (navigate (S:=S) p).
Proof. apply within_do. Qed.

Lemma within_spawn p : within I R p -> within I R (spawn p).
Proof. done. Qed.

Lemma within_forget p : within I R p -> within I R (forget p).
Proof. intros Hp. split; [|done]. by apply within_try_catch. Qed.

Lemma within_upd f : (forall s, I s -> I (f s)) -> within I R (upd f).
Proof. done. Qed.

Lemma within_timeout p ms : within I R p -> within I R (setTimeout p ms).
Proof. done. Qed.

Lemma within_interval p ms : within I R p -> within I R (setInterval p ms).
Proof. done. Qed.

Lemma within_clear id : within I R (clearTimer (S:=S) id).
Proof. done. Qed.

Lemma within_when b p : within I R p -> within I R (when b p).
Proof. by destruct b. Qed.

Lemma within_for_each {A} (l : list A) body :
  (forall a, within I R (body a)) -> within I R (for_each l body).
Proof. intros Hb. induction l; cbn; [done|]. apply within_bind; auto. Qed.

Lemma within_weaken (R' : obs -> Prop) {A} (p : prog S A) :
  (forall o, R o -> R' o) -> within I R p -> within I R' p.
Proof.
  intros HR. induction p; cbn in *; try done; intros [H1 H2]; split; try done; auto.
  by destruct q; auto.
Qed.

Definition task_within (t : nat * task S) : Prop :=
  match snd t with
  | Waiting _ k => forall v, within I R (k v)
  | Timer _ _ p => within I R p
  end.

(** [R] speaks of calls and requests; an uncaught rejection is not one. *)
Definition observed (o : obs) : Prop := match o with OUncaught _ => True | _ => R o end.

Record conf_within (c : conf S) : Prop := ConfWithin {
  within_state : I (st c);
  within_tasks : Forall task_within (pend c);
  within_log : Forall observed (log c);
}.

Lemma run_within io p c : within I R p -> conf_within c -> conf_within (run io p c).
Proof.
  revert c. induction p as [a|e|f k IH|cm k IH|q k IH|q k IHq IH|b ms q k IHq IH|id k IH]
    using prog_unit_ind; cbn [within run]; intros c Hp [Hst Hpend Hlog].
  - done.
  - split; [done|done|]. cbn. apply Forall_app; auto.
  - apply IH; [apply Hp|]. split; [apply Hp, Hst|done|done].
  - destruct (exec io (store c) cm) as [r s] eqn:E. apply IH.
    + apply Hp. exists io, (store c). split; [done|by rewrite E].
    + split; [done|done|]. cbn. apply Forall_app. split; [done|]. apply Forall_singleton, Hp.
  - destruct Hp as [Hq Hk]. destruct q; split; cbn; try done; apply Forall_app; auto.
  - apply IH; [apply Hp|]. apply IHq; [apply Hp|done].
  - apply IH; [apply Hp|]. split; cbn; [done| |done].
    apply Forall_app; split; [done|]. apply Forall_singleton, Hp.
  - apply IH; [done|]. split; cbn; [done| |done].
    by apply Forall_list_filter.
Qed.

(** What is pending, whatever the state. *)
Lemma run_tasks_within io p c :
  within I R p -> Forall task_within (pend c) -> Forall task_within (pend (run io p c)).
Proof.
  revert c. induction p as [a|e|f k IH|cm k IH|q k IH|q k IHq IH|b ms q k IHq IH|id k IH]
    using prog_unit_ind; cbn [within run]; intros c Hp Hc; try done.
  - apply IH; [apply Hp|done].
  - destruct (exec io (store c) cm) as [r s] eqn:E. apply IH; [|done].
    apply Hp. exists io, (store c). split; [done|by rewrite E].
  - destruct q; (apply Forall_app_2; [exact Hc|apply Forall_singleton; exact (proj2 Hp)]).
  - apply IH; [apply Hp|]. apply IHq; [apply Hp|done].
  - apply IH; [apply Hp|]. apply Forall_app_2; [done|]. apply Forall_singleton, Hp.
  - apply IH; [done|]. by apply Forall_list_filter.
Qed.

Lemma take_task_within i c : conf_within c -> conf_within (take_task i c).
Proof. intros [Hst Hp Hs]. split; [done| |done]. by apply Forall_delete. Qed.
End Within.

(** The structural rules, chosen by the head of the program. *)
Ltac within_step :=
  lazymatch goal with
  | |- within _ _ (bind _ _) => apply within_bind; [|intros]
  | |- within _ _ (try_catch _ _) => apply within_try_catch; [|intros]
  | |- within _ _ (try_finally _ _) => apply within_try_finally
  | |- within _ _ (lift _) => apply within_lift
  | |- within _ _ (upd _) => apply within_upd
  | |- within _ _ (do_ _) => apply within_do; try exact I
  | |- within _ _ (call _) => apply within_call; try exact I
  | |- within _ _ (ref_value _) => apply within_ref_value; try exact I
  | |- within _ _ (confirm _) => apply within_confirm; try exact I
  | |- within _ _ (alert _) => apply within_alert; try exact I
  | |- within _ _ (navigate _) => apply within_navigate; try exact I
  | |- within _ _ (response_json _) => apply within_json
  | |- within _ _ (await QTick) => apply within_tick
  | |- within _ _ (await QClipboardRead) => apply within_clipboard
  | |- within _ _ (spawn _) => apply within_spawn
  | |- within _ _ (forget _) => apply within_forget
  | |- within _ _ (setTimeout _ _) => apply within_timeout
  | |- within _ _ (setInterval _ _) => apply within_interval
  | |- within _ _ (clearTimer _) => apply within_clear
  | |- within _ _ (when _ _) => apply within_when
  | |- within _ _ (for_each _ _) => apply within_for_each; intros
  | |- within _ _ skip => exact I
  | |- within _ _ (Ret _) => exact I
  | |- within _ _ (Throw _) => exact I
  | |- within _ _ (if ?b then _ else _) => destruct b
  | |- within _ _ (match ?x with _ => _ end) => destruct x
  end.

(** A component whose handlers keep [I] and make calls and requests in [R]
    only. *)
Record behaves {S A : Type} (C : component S A) (I : S -> Prop) (R : obs -> Prop)
  : Prop := Behaves {
  behaves_init : I (c_init C);
  behaves_mount : within I R (c_mount C);
  behaves_handle : forall s a, I s -> within I R (c_handle C s a);
  behaves_commit : forall s s', I s -> I s' -> within I R (c_commit C s s');
}.

Lemma behaves_weaken {S A} (C : component S A) I (R R' : obs -> Prop) :
  (forall o, R o -> R' o) -> behaves C I R -> behaves C I R'.
Proof. intros HR []. split; eauto using within_weaken. Qed.

Lemma within_both {S A} I (R1 R2 : obs -> Prop) (p : prog S A) :
  within I R1 p -> within I R2 p -> within I (fun o => R1 o /\ R2 o) p.
Proof.
  induction p as [A a|A e|A f k IH|A c k IH|A q k IH|A q IHq k IH|A b ms q IHq k IH|A id k IH];
    cbn; try done; intros H1 H2; intuition.
  destruct q; auto.
Qed.
Lemma behaves_both {S A} (C : component S A) I (R1 R2 : obs -> Prop) :
  behaves C I R1 -> behaves C I R2 -> behaves C I (fun o => R1 o /\ R2 o).
Proof. intros [] []. split; auto using within_both. Qed.

Section Reachable.
Context {S A : Type} (C : component S A) (I : S -> Prop) (R : obs -> Prop).
Hypothesis HC : behaves C I R.

Lemma commit_after_within io old c :
  I old -> conf_within I R c -> conf_within I R (commit_after C io old c).
Proof. intros Ho Hc. apply run_within; [|done]. by apply HC; [|apply Hc]. Qed.

Lemma step_within c c' : conf_within I R c -> step C c c' -> conf_within I R c'.
Proof.
  intros Hc Hstep. pose proof Hc as [Hst Hp Hs].
  assert (forall i t, pend c !! i = Some t -> task_within I R t) as Ht.
  { intros i t Hi. rewrite Forall_lookup in Hp. by apply (Hp i). }
  destruct Hstep as [io a c|io i id q k o c Hi|io i id b ms p c Hi];
    apply commit_after_within; try done; apply run_within.
  - by apply HC.
  - done.
  - apply (Ht _ _ Hi).
  - by apply take_task_within.
  - apply (Ht _ _ Hi).
  - destruct b; [done|by apply take_task_within].
Qed.

(** The invariant holds, and only such calls and requests were made, in every
    reachable configuration. *)
Lemma reachable_within c : reachable C c -> conf_within I R c.
Proof.
  induction 1 as [io s0|c c' _ IH Hs]; [|by eapply step_within].
  apply run_within; [apply HC|]. split; [apply HC|done|done].
Qed.
End Reachable.

(** ** Flags that must be lowered *)

Section Flag.
Context {S : Type} (fl : S -> bool).

(** [f] does not raise the flag / lowers it. *)
Definition keeps (f : S -> S) : Prop := forall s, fl s = false -> fl (f s) = false.
Definition lowers (f : S -> S) : Prop := forall s, fl (f s) = false.

(** [debt true p]: on every way out of [p] the flag is lowered and not raised
    again; [debt false p]: whenever [p] raises the flag it owes that. *)
Fixpoint debt {A : Type} (owed : bool) (p : prog S A) : Prop :=
  match p with
  | Ret _ | Throw _ => owed = false
  | Upd f k =>
      ((if owed then lowers f else keeps f) /\ debt false k) \/ debt true k
  | Call c k => forall r, answers any_inputs c r -> debt owed (k r)
  | Await _ k => forall r, debt owed (k r)
  | Spawn q k => debt false q /\ debt owed k
  | SetTimer _ _ q k => debt false q /\ forall id, debt owed (k id)
  | ClearTimer _ k => debt owed k
  end.

(** A program none of whose updates raises the flag. *)
Lemma within_debt {A} R (p : prog S A) :
  within (fun s => fl s = false) R p -> debt false p.
Proof. induction p; cbn; intuition eauto. Qed.

Lemma debt_bind {A B} owed (p : prog S A) (f : A -> prog S B) :
  debt owed p -> (forall a, debt false (f a)) -> debt owed (bind p f).
Proof.
  intros Hp Hf. revert owed Hp. induction p; cbn; intros owed Hp;
    try (by subst; auto); try (destruct Hp; eauto); try (intros; eauto).
  - left. intuition eauto.
Qed.

(** A flag lowered in a [finally] block is lowered. *)
Lemma debt_finally {A} owed (p : prog S A) f :
  lowers f -> debt owed p -> debt true (try_finally p (upd f)).
Proof.
  intros Hf. revert owed. induction p; cbn; intros owed Hp.
  - by left.
  - by left.
  - right. destruct Hp as [[_ Hp]|Hp]; eauto.
  - eauto.
  - eauto.
  - destruct Hp; eauto.
  - destruct Hp; eauto.
  - eauto.
Qed.

Definition payer (t : nat * task S) : Prop :=
  match snd t with
  | Waiting _ k => forall r, debt true (k r)
  | Timer _ _ _ => False
  end.
Definition task_debt (t : nat * task S) : Prop :=
  match snd t with
  | Waiting _ k => (forall r, debt false (k r)) \/ forall r, debt true (k r)
  | Timer _ _ p => debt false p
  end.
Definition covered (c : conf S) : Prop :=
  fl (st c) = true -> exists t, t ∈ pend c /\ payer t.
Definition solvent (c : conf S) : Prop := covered c /\ Forall task_debt (pend c).

Lemma run_task_debt io p owed c :
  debt owed p -> Forall task_debt (pend c) -> Forall task_debt (pend (run io p c)).
Proof.
  revert owed c.
  induction p as [a|e|f k IH|cm k IH|q k IH|q k IHq IH|b ms q k IHq IH|id k IH]
    using prog_unit_ind; cbn [debt run]; intros owed c Hp Hpend; try done.
  - destruct Hp as [[_ Hk]|Hk]; by eapply IH.
  - destruct (exec io (store c) cm) as [r s] eqn:E. apply (IH _ owed); [|done].
    apply Hp. exists io, (store c). split; [done|by rewrite E].
  - assert (task_debt (next c, Waiting q k)) as Ht by (destruct owed; [by right|by left]).
    destruct q; cbn; apply Forall_app; auto.
  - destruct Hp as [Hq Hk]. eapply IH, IHq; eauto.
  - destruct Hp as [Hq Hk]. apply (IH _ owed); [done|]. cbn. apply Forall_app; auto.
  - apply (IH owed); [done|]. by apply Forall_list_filter.
Qed.

Lemma covered_mono (c c' : conf S) :
  (fl (st c') = true -> fl (st c) = true) ->
  (forall t, t ∈ pend c -> payer t -> t ∈ pend c') -> covered c -> covered c'.
Proof. intros Hf Hin Hc Hup. destruct (Hc (Hf Hup)) as (t & Ht & Hpay). eauto. Qed.

Lemma run_covered io p owed c :
  debt owed p -> Forall task_debt (pend c) -> (owed = false -> covered c) ->
  covered (run io p c).
Proof.
  revert owed c.
  induction p as [a|e|f k IH|cm k IH|q k IH|q k IHq IH|b ms q k IHq IH|id k IH]
    using prog_unit_ind; cbn [debt run]; intros owed c Hp Hpend Hcov.
  - auto.
  - intros Hf. by apply Hcov.
  - destruct Hp as [[Hf Hk]|Hk]; [|by apply (IH true)].
    apply (IH false); [done|done|]. intros _ Hup. cbn in Hup. destruct owed.
    + by rewrite Hf in Hup.
    + destruct (fl (st c)) eqn:E; [by apply Hcov|]. by rewrite Hf in Hup.
  - destruct (exec io (store c) cm) as [r s] eqn:E. apply (IH _ owed); [|done|done].
    apply Hp. exists io, (store c). split; [done|by rewrite E].
  - assert (covered (push (Waiting q k) c)) as Hc.
    { destruct owed.
      - intros _. exists (next c, Waiting q k). cbn. split; [set_solver|done].
      - revert Hcov. intros Hcov. specialize (Hcov eq_refl). revert Hcov.
        apply covered_mono; cbn; set_solver. }
    by destruct q.
  - destruct Hp as [Hq Hk]. pose proof (run_task_debt io _ _ _ Hq Hpend).
    apply (IH owed); [done|done|]. intros ->. by apply (IHq false), Hcov.
  - destruct Hp as [Hq Hk]. apply (IH _ owed); [done| |].
    + cbn. apply Forall_app; auto.
    + intros Ho. specialize (Hcov Ho). revert Hcov. apply covered_mono; cbn; set_solver.
  - apply (IH owed); [done|by apply Forall_list_filter|].
    intros Ho. specialize (Hcov Ho). revert Hcov. apply covered_mono; cbn; [done|].
    intros t Hin Hpay. apply list_elem_of_In, List.filter_In.
    split; [by apply list_elem_of_In|]. by destruct t as [? []].
Qed.

Lemma run_solvent io p owed c :
  debt owed p -> Forall task_debt (pend c) -> (owed = false -> covered c) ->
  solvent (run io p c).
Proof. split; [by eapply run_covered|by eapply run_task_debt]. Qed.
End Flag.

Section Settled.
Context {S A : Type} (C : component S A) (fl : S -> bool).
Hypothesis init_ok : fl (c_init C) = false.
Hypothesis mount_ok : debt fl false (c_mount C).
Hypothesis handle_ok : forall s a, debt fl false (c_handle C s a).
Hypothesis commit_ok : forall s s', debt fl false (c_commit C s s').

Lemma list_take_out {B} (l : list B) i x y :
  l !! i = Some x -> y ∈ l -> y = x \/ y ∈ delete i l.
Proof.
  revert i; induction l as [|z l IH]; intros i Hi Hy; [done|].
  destruct i as [|i]; cbn in *.
  - injection Hi as ->. apply elem_of_cons in Hy as [->|Hy]; auto.
  - apply elem_of_cons in Hy as [->|Hy]; [right; by left|].
    destruct (IH i Hi Hy) as [->|Hin]; [by left|right; by right].
Qed.

Lemma waiting_solvent io i id q (k : res (reply q) -> prog S unit) o c :
  solvent fl c -> pend c !! i = Some (id, Waiting q k) ->
  solvent fl (run io (k o) (take_task i c)).
Proof.
  intros [Hcov Hpend] Ht.
  assert (Forall (task_debt fl) (pend (take_task i c))) as Hrest by (by apply Forall_delete).
  assert (forall owed, debt fl owed (k o) -> (owed = false -> covered fl (take_task i c)) ->
            solvent fl (run io (k o) (take_task i c))) as Hrun.
  { intros owed Hd Hc. by apply (run_solvent fl io _ owed). }
  rewrite Forall_lookup in Hpend. pose proof (Hpend _ _ Ht) as Hk. cbn in Hk.
  destruct (fl (st c)) eqn:E.
  - destruct (Hcov E) as (t & Hin & Hpay).
    destruct (list_take_out _ _ _ _ Ht Hin) as [->|Hin'].
    + by apply (Hrun true).
    + destruct Hk as [Hk|Hk]; [|by apply (Hrun true)].
      apply (Hrun false); [done|]. intros _ _. eauto.
  - destruct Hk as [Hk|Hk]; [|by apply (Hrun true)].
    apply (Hrun false); [done|]. intros _ Hup. cbn in Hup. congruence.
Qed.

Lemma timer_solvent io i id b ms p c :
  solvent fl c -> pend c !! i = Some (id, Timer b ms p) ->
  solvent fl (run io p (if b then c else take_task i c)).
Proof.
  intros [Hcov Hpend] Ht. pose proof Hpend as Hall.
  rewrite Forall_lookup in Hall. pose proof (Hall _ _ Ht) as Hp. cbn in Hp.
  apply (run_solvent fl io p false); [done| |].
  - destruct b; [done|by apply Forall_delete].
  - intros _. destruct b; [done|]. revert Hcov. apply covered_mono; cbn; [done|].
    intros t Hin Hpay. by destruct (list_take_out _ _ _ _ Ht Hin) as [->|].
Qed.

Lemma step_solvent c c' : solvent fl c -> step C c c' -> solvent fl c'.
Proof.
  intros Hc Hstep.
  assert (forall io old d, solvent fl d -> solvent fl (commit_after C io old d)) as Hcommit.
  { intros io old d [Hd1 Hd2]. by apply (run_solvent fl io _ false). }
  destruct Hstep as [io a c|io i id q k o c Ht|io i id b ms p c Ht]; apply Hcommit.
  - destruct Hc as [H1 H2]. by apply (run_solvent fl io _ false).
  - by eapply waiting_solvent.
  - by eapply timer_solvent.
Qed.

Lemma reachable_solvent c : reachable C c -> solvent fl c.
Proof.
  induction 1 as [io s0|c c' _ IH Hs]; [|by eapply step_solvent].
  apply (run_solvent fl io _ false); [done|by constructor|].
  intros _ Hup. cbn in Hup. congruence.
Qed.

(** With no promise in flight, the flag is down. *)
Lemma settled_down c :
  reachable C c -> (forall t, t ∈ pend c -> exists b ms p, snd t = Timer b ms p) ->
  fl (st c) = false.
Proof.
  intros Hr Hnone. destruct (reachable_solvent c Hr) as [Hcov _].
  destruct (fl (st c)) eqn:E; [|done].
  destruct (Hcov E) as (t & Hin & Hpay). destruct (Hnone t Hin) as (b & ms & p & Ht).
  unfold payer in Hpay. by rewrite Ht in Hpay.
Qed.
End Settled.

(** ** Complete runs of a handler *)

(** [stretch P p t]: [t] is observed until [p] ends or first awaits. *)
Fixpoint stretch {S A : Type} (P : inputs -> Prop) (p : prog S A) (t : list obs) : Prop :=
  match p with
  | Ret _ | Throw _ => t = []
  | Upd _ k => stretch P k t
  | Call c k => exists v t', answers P c v /\ t = OCall c :: t' /\ stretch P (k v) t'
  | Await q k => t = sends q
  | Spawn q k => exists t1 t2, t = (t1 ++ t2)%list /\ stretch P q t1 /\ stretch P k t2
  | SetTimer _ _ _ k => exists id, stretch P (k id) t
  | ClearTimer _ k => stretch P k t
  end.

(** [path P p t r]: [p] ends with [r] after observations [t]. *)
Fixpoint path {S A : Type} (P : inputs -> Prop) (p : prog S A) (t : list obs) (r : res A) : Prop :=
  match p with
  | Ret a => t = [] /\ r = Ok a
  | Throw e => t = [] /\ r = Err e
  | Upd _ k => path P k t r
  | Call c k => exists v t', answers P c v /\ t = OCall c :: t' /\ path P (k v) t' r
  | Await q k => exists v t', t = (sends q ++ t')%list /\ path P (k v) t' r
  | Spawn q k => exists t1 t2, t = (t1 ++ t2)%list /\ stretch P q t1 /\ path P k t2 r
  | SetTimer _ _ _ k => exists id, path P (k id) t r
  | ClearTimer _ k => path P k t r
  end.

Section Paths.
Context {S : Type} (P : inputs -> Prop).

Lemma sent_app (t1 t2 : list obs) : sent (t1 ++ t2) = (sent t1 ++ sent t2)%list.
Proof. apply omap_app. Qed.
Lemma path_bind {A B} (p : prog S A) (f : A -> prog S B) t r :
  path P (bind p f) t r ->
  (exists a t1 t2, t = (t1 ++ t2)%list /\ path P p t1 (Ok a) /\ path P (f a) t2 r) \/
  (exists e, path P p t (Err e) /\ r = Err e).
Proof.
  revert t; induction p as [A a|A e|A g k IH|A c k IH|A q k IH|A q _ k IH|A b ms q _ k IH|A id k IH];
    intros t; cbn.
  - intros H. left. exists a, [], t. done.
  - intros [-> ->]. right. by exists e.
  - apply IH.
  - intros (v & t' & Hv & -> & H). apply IH in H as [(a & t1 & t2 & -> & H1 & H2)|(e & H & ->)].
    + left. exists a, (OCall c :: t1), t2. split; [done|]. split; [|done]. by exists v, t1.
    + right. exists e. split; [|done]. by exists v, t'.
  - intros (v & t' & -> & H). apply IH in H as [(a & t1 & t2 & -> & H1 & H2)|(e & H & ->)].
    + left. exists a, (sends q ++ t1)%list, t2. split; [by rewrite app_assoc|].
      split; [|done]. by exists v, t1.
    + right. exists e. split; [|done]. by exists v, t'.
  - intros (t1 & t2 & -> & Hs & H). apply IH in H as [(a & t3 & t4 & -> & H1 & H2)|(e & H & ->)].
    + left. exists a, (t1 ++ t3)%list, t4. split; [by rewrite app_assoc|].
      split; [|done]. by exists t1, t3.
    + right. exists e. split; [|done]. by exists t1, t2.
  - intros [id H]. apply IH in H as [(a & t3 & t4 & -> & H1 & H2)|(e & H & ->)].
    + left. exists a, t3, t4. split; [done|]. split; [|done]. by exists id.
    + right. exists e. split; [|done]. by exists id.
  - apply IH.
Qed.

Lemma path_bind_assoc {A B C} (p : prog S A) (f : A -> prog S B) (g : B -> prog S C) t r :
  path P (bind (bind p f) g) t r -> path P (bind p (fun a => bind (f a) g)) t r.
Proof.
  revert t; induction p as [A a|A e|A h k IH|A c k IH|A q k IH|A q _ k IH|A b ms q _ k IH|A id k IH];
    intros t; cbn; try done.
  - apply IH.
  - intros (v & t' & Hv & -> & Hk). exists v, t'. auto.
  - intros (v & t' & -> & Hk). exists v, t'. auto.
  - intros (t1 & t2 & -> & Hs & Hk). exists t1, t2. auto.
  - intros [id Hk]. exists id. auto.
  - apply IH.
Qed.

(** A handler that is caught ends, either as itself or through its handler. *)
Lemma path_try_catch {A} (p : prog S A) h t r :
  path P (try_catch p h) t r ->
  (exists a, path P p t (Ok a) /\ r = Ok a) \/
  (exists e t1 t2, t = (t1 ++ t2)%list /\ path P p t1 (Err e) /\ path P (h e) t2 r).
Proof.
  revert t; induction p as [A a|A e|A g k IH|A c k IH|A q k IH|A q _ k IH|A b ms q _ k IH|A id k IH];
    intros t; cbn.
  - intros [-> ->]. left. by exists a.
  - intros H. right. by exists e, [], t.
  - apply IH.
  - intros (v & t' & Hv & -> & H). apply IH in H as [(a & H & ->)|(e & t1 & t2 & -> & H1 & H2)].
    + left. exists a. split; [|done]. by exists v, t'.
    + right. exists e, (OCall c :: t1), t2. split; [done|]. split; [|done]. by exists v, t1.
  - intros (v & t' & -> & H). apply IH in H as [(a & H & ->)|(e & t1 & t2 & -> & H1 & H2)].
    + left. exists a. split; [|done]. by exists v, t'.
    + right. exists e, (sends q ++ t1)%list, t2. split; [by rewrite app_assoc|].
      split; [|done]. by exists v, t1.
  - intros (t1 & t2 & -> & Hs & H).
    apply IH in H as [(a & H & ->)|(e & t3 & t4 & -> & H1 & H2)].
    + left. exists a. split; [|done]. by exists t1, t2.
    + right. exists e, (t1 ++ t3)%list, t4. split; [by rewrite app_assoc|].
      split; [|done]. by exists t1, t3.
  - intros [id H]. apply IH in H as [(a & H & ->)|(e & t3 & t4 & -> & H1 & H2)].
    + left. exists a. split; [|done]. by exists id.
    + right. exists e, t3, t4. split; [done|]. split; [|done]. by exists id.
  - apply IH.
Qed.

Lemma stretch_within {A} I R (p : prog S A) t :
  within I R p -> stretch P p t -> Forall R t.
Proof.
  revert t; induction p as [A a|A e|A f k IH|A c k IH|A q k IH|A q IHq k IH|A b ms q _ k IH|A id k IH];
    intros t; cbn.
  - by intros _ ->.
  - by intros _ ->.
  - intros [_ Hk]. by apply IH.
  - intros [Hc Hk] (v & t' & (io & st & _ & ->) & -> & Ht). constructor; [done|].
    apply (IH _ t') in Ht; [done|]. apply Hk. by exists io, st.
  - intros [Hq _] ->. destruct q; [by constructor|done|done].
  - intros [Hq Hk] (t1 & t2 & -> & H1 & H2). apply Forall_app. eauto.
  - intros [_ Hk] [id Ht]. by eapply IH.
  - apply IH.
Qed.

Lemma path_within {A} I R (p : prog S A) t r :
  within I R p -> path P p t r -> Forall R t.
Proof.
  revert t; induction p as [A a|A e|A f k IH|A c k IH|A q k IH|A q _ k IH|A b ms q _ k IH|A id k IH];
    intros t; cbn.
  - by intros _ [-> _].
  - by intros _ [-> _].
  - intros [_ Hk]. by apply IH.
  - intros [Hc Hk] (v & t' & (io & st & _ & ->) & -> & Ht). constructor; [done|].
    apply (IH _ r t') in Ht; [done|]. apply Hk. by exists io, st.
  - intros [Hq Hk] (v & t' & -> & Ht). apply (IH v r t') in Ht; [|done].
    apply Forall_app. split; [|done]. destruct q; [by constructor|done|done].
  - intros [Hq Hk] (t1 & t2 & -> & H1 & H2). apply Forall_app.
    split; [exact (stretch_within I R _ _ Hq H1)|by apply (IH r)].
  - intros [_ Hk] [id Ht]. by eapply IH.
  - apply IH.
Qed.

(** A program that sends nothing on any run. *)
Definition no_send (o : obs) : Prop := match o with OSend _ => False | _ => True end.
Definition silent {A} (p : prog S A) : Prop := within (fun _ => True) no_send p.
Lemma path_silent {A} (p : prog S A) t r : silent p -> path P p t r -> sent t = [].
Proof.
  intros Hs Hp. pose proof (path_within _ _ _ _ _ Hs Hp) as Hall. clear Hs Hp.
  induction Hall as [|o t Ho _ IH]; [done|]. by destruct o.
Qed.

(** Lowering a flag in a [finally] block changes nothing an observer sees. *)
Lemma path_finally {A} (p : prog S A) f t r :
  path P (try_finally p (upd f)) t r -> path P p t r.
Proof.
  revert t; induction p as [A a|A e|A g k IH|A c k IH|A q k IH|A q _ k IH|A b ms q _ k IH|A id k IH];
    intros t; cbn; try done.
  - apply IH.
  - intros (v & t' & Hv & -> & Hk). exists v, t'. auto.
  - intros (v & t' & -> & Hk). exists v, t'. auto.
  - intros (t1 & t2 & -> & Hs & Hk). exists t1, t2. auto.
  - intros [id Hk]. exists id. auto.
  - apply IH.
Qed.

Lemma path_upd {A} f (k : unit -> prog S A) t r :
  path P (bind (upd f) k) t r -> path P (k tt) t r.
Proof. done. Qed.

(** What a caught program sends is what the program sends, when its handler
    only talks to the user. *)
Lemma path_caught (p : prog S unit) h (Q : list request -> Prop) t r :
  (forall e t2 r2, path P (h e) t2 r2 -> sent t2 = [] /\ r2 = Ok tt) ->
  (forall t1 (r1 : res unit), path P p t1 r1 -> Q (sent t1)) ->
  path P (try_catch p h) t r -> r = Ok tt /\ Q (sent t).
Proof.
  intros Hh Hp Hrun. apply path_try_catch in Hrun as [([] & Hrun & ->)|(e & t1 & t2 & -> & Hrun & He)].
  - split; [done|]. by eapply Hp.
  - apply Hh in He as [He ->]. split; [done|]. rewrite sent_app, He, app_nil_r. by eapply Hp.
Qed.

End Paths.

(** ** Playing a handler: the run one browser and one list of answers give *)

Inductive answer : Type :=
| Replied (r : response)
| Pasted (s : string)
| Settled
| Failed (e : exn).

Definition to_reply (q : query) (a : answer) : option (res (reply q)) :=
  match a, q with
  | Failed e, _ => Some (Err e)
  | Replied r, QFetch _ => Some (Ok r)
  | Pasted s, QClipboardRead => Some (Ok s)
  | Settled, QTick => Some (Ok tt)
  | _, _ => None
  end.

Fixpoint play_stretch {S A : Type} (io : inputs) (store : gmap string string) (p : prog S A)
  : list obs * gmap string string :=
  match p with
  | Ret _ | Throw _ => ([], store)
  | Upd _ k => play_stretch io store k
  | Call c k =>
      let '(v, store) := exec io store c in
      let '(t, store) := play_stretch io store (k v) in (OCall c :: t, store)
  | Await q _ => (sends q, store)
  | Spawn q k =>
      let '(t1, store) := play_stretch io store q in
      let '(t2, store) := play_stretch io store k in ((t1 ++ t2)%list, store)
  | SetTimer _ _ _ k => play_stretch io store (k 0)
  | ClearTimer _ k => play_stretch io store k
  end.

Fixpoint play {S A : Type} (io : inputs) (store : gmap string string) (answers : list answer)
    (p : prog S A) : option (list obs * res A) :=
  match p with
  | Ret a => Some ([], Ok a)
  | Throw e => Some ([], Err e)
  | Upd _ k => play io store answers k
  | Call c k =>
      let '(v, store) := exec io store c in
      '(t, r) ← play io store answers (k v); Some (OCall c :: t, r)
  | Await q k =>
      match answers with
      | [] => None
      | a :: answers =>
          v ← to_reply q a;
          '(t, r) ← play io store answers (k v); Some ((sends q ++ t)%list, r)
      end
  | Spawn q k =>
      let '(t1, store) := play_stretch io store q in
      '(t2, r) ← play io store answers k; Some ((t1 ++ t2)%list, r)
  | SetTimer _ _ _ k => play io store answers (k 0)
  | ClearTimer _ k => play io store answers k
  end.

Section Play.
Context {S : Type} (P : inputs -> Prop) (io : inputs).
Hypothesis Hio : P io.

Lemma play_stretch_ok {A} store (p : prog S A) :
  stretch P p (fst (play_stretch io store p)).
Proof.
  revert store; induction p as [A a|A e|A f k IH|A c k IH|A q k IH|A q IHq k IH|A b ms q _ k IH|A id k IH];
    intros store; cbn; try done.
  - destruct (exec io store c) as [v store'] eqn:E. specialize (IH v store').
    destruct (play_stretch io store' (k v)) as [t store'']. cbn. exists v, t.
    split; [|done]. exists io, store. by rewrite E.
  - specialize (IHq store). destruct (play_stretch io store q) as [t1 store1].
    specialize (IH store1). destruct (play_stretch io store1 k) as [t2 store2]. cbn.
    by exists t1, t2.
  - by exists 0.
Qed.

Lemma play_path {A} store l (p : prog S A) t r :
  play io store l p = Some (t, r) -> path P p t r.
Proof.
  revert store l t r;
    induction p as [A a|A e|A f k IH|A c k IH|A q k IH|A q IHq k IH|A b ms q _ k IH|A id k IH];
    intros store l t r; cbn.
  - by intros [= <- <-].
  - by intros [= <- <-].
  - apply IH.
  - destruct (exec io store c) as [v store'] eqn:E.
    destruct (play io store' l (k v)) as [[t' r']|] eqn:Ek; cbn; [|done].
    intros [= <- <-]. exists v, t'. split; [|split; [done|by eapply IH]].
    exists io, store. by rewrite E.
  - destruct l as [|a l]; [done|]. destruct (to_reply q a) as [v|]; cbn; [|done].
    destruct (play io store l (k v)) as [[t' r']|] eqn:Ek; cbn; [|done].
    intros [= <- <-]. exists v, t'. split; [done|by eapply IH].
  - pose proof (play_stretch_ok store q) as Hs.
    destruct (play_stretch io store q) as [t1 store1].
    destruct (play io store1 l k) as [[t2 r']|] eqn:Ek; cbn; [|done].
    intros [= <- <-]. exists t1, t2. split; [done|]. split; [done|by eapply IH].
  - intros Hk. exists 0. by eapply IH.
  - apply IH.
Qed.
End Play.

(** A browser for examples. *)
Definition quiet_browser : inputs :=
  Inputs (fun _ => None) (fun _ => None) (fun _ => true) "https://panel/users" true (Ok tt) 0
         (fun _ => num_of_Z 0) 1280 (fun _ => false).
Definition with_refs (refs : string -> option string) : inputs :=
  Inputs refs (fun _ => None) (fun _ => true) "https://panel/users" true (Ok tt) 0
         (fun _ => num_of_Z 0) 1280 (fun _ => false).
