(* ===== verification/Storage.v ===== *)
(** * The local storage of a page is what its log says

    The storage changes through [setItem] and [removeItem] only, both of which
    are observable: replaying the log over the initial storage gives the
    current one.  What a page can do to the storage is then read off the calls
    its handlers are able to make. *)
From S2P Require Import Prelude JsStr JsNum JsVal React Effects Logic.
Local Open Scope string_scope.

Definition store_after (o : obs) (s : gmap string string) : gmap string string :=
  match o with
  | OCall (CSetItem k v) => <[k:=v]> s
  | OCall (CRemoveItem k) => delete k s
  | _ => s
  end.
Definition replay (t : list obs) (s : gmap string string) : gmap string string :=
  foldl (fun s o => store_after o s) s t.

Lemma replay_app t1 t2 s : replay (t1 ++ t2) s = replay t2 (replay t1 s).
Proof. apply foldl_app. Qed.

(** A property of the storage that every observation keeps. *)
Lemma replay_kept (P : gmap string string -> Prop) R l s :
  (forall o s, R o -> P s -> P (store_after o s)) -> Forall R l -> P s -> P (replay l s).
Proof.
  intros HR Hl. revert s. induction Hl as [|o l Ho _ IH]; intros s Hs; [done|]. by apply IH, HR.
Qed.

Lemma exec_store io s c : snd (exec io s c) = store_after (OCall c) s.
Proof. by destruct c. Qed.

(** A configuration whose storage is [s0] as changed by its log. *)
Definition replayed {S} (s0 : gmap string string) (c : conf S) : Prop := store c = replay (log c) s0.

Lemma replayed_emit {S} s0 o (c : conf S) :
  replayed s0 c -> replayed s0 (set_store (store_after o (store c)) (emit o c)).
Proof. unfold replayed. cbn [store log set_store emit]. rewrite replay_app. by intros ->. Qed.

Lemma replayed_quiet {S} s0 o (c : conf S) :
  (forall s, store_after o s = s) -> replayed s0 c -> replayed s0 (emit o c).
Proof. unfold replayed. cbn [store log emit]. rewrite replay_app. intros Ho ->. symmetry. apply Ho. Qed.

Lemma run_replayed {S} io s0 (p : prog S unit) (c : conf S) :
  replayed s0 c -> replayed s0 (run io p c).
Proof.
  revert c. induction p as [a|e|f k IH|cm k IH|q k IH|q k IHq IH|b ms q k IHq IH|id k IH]
    using prog_unit_ind; cbn [run]; intros c Hc.
  - done.
  - by apply replayed_quiet.
  - by apply IH.
  - pose proof (exec_store io (store c) cm) as Hs.
    destruct (exec io (store c) cm) as [r s]. cbn [snd] in Hs. rewrite Hs.
    by apply IH, replayed_emit.
  - destruct q; [by apply (replayed_quiet s0 (OSend r))|done|done].
  - by apply IH, IHq.
  - by apply IH.
  - by apply IH.
Qed.

Section Machine.
Context {S A : Type} (C : component S A).

Lemma step_replayed s0 c c' : replayed s0 c -> step C c c' -> replayed s0 c'.
Proof.
  intros Hc Hs. destruct Hs as [io a c|io i id q k o c Hi|io i id [] ms p c Hi];
    apply run_replayed, run_replayed; done.
Qed.

Lemma boot_reachable io s0 c : rtc (step C) (boot C io s0) c -> reachable C c.
Proof.
  intros Hs. assert (reachable C (boot C io s0)) as Hr by apply reach_boot. revert Hr.
  induction Hs as [|c1 c2 c3 H12 _ IH]; [done|]. intros H1. apply IH. by eapply reach_step.
Qed.

Lemma store_replay io s0 c : rtc (step C) (boot C io s0) c -> store c = replay (log c) s0.
Proof.
  intros Hs. assert (replayed s0 (boot C io s0)) as Hr by by apply run_replayed.
  change (replayed s0 c). revert Hr.
  induction Hs as [|c1 c2 c3 H12 _ IH]; [done|]. intros H1. apply IH. by eapply step_replayed.
Qed.

(** A page whose calls keep a property of the storage. *)
Lemma store_invariant (P : gmap string string -> Prop) (R : obs -> Prop) io s0 c :
  behaves C (fun _ => True) R ->
  (forall o s, observed R o -> P s -> P (store_after o s)) ->
  P s0 -> rtc (step C) (boot C io s0) c -> P (store c).
Proof.
  intros HC HR H0 Hs. rewrite (store_replay _ _ _ Hs).
  destruct (reachable_within C _ _ HC c (boot_reachable _ _ _ Hs)) as [_ _ Hlog].
  by eapply (replay_kept P (observed R)); [exact HR| |].
Qed.
End Machine.
