(* ===== verification/Api.v ===== *)
(** * The API gateway of the admin panel ([config.ts])

    [config.ts] picks the API prefix and replaces [window.fetch] by a wrapper
    that adds the admin token to every request and, on a 401 answer outside
    the login address, forgets the token and reloads. *)
From S2P Require Import Prelude JsStr JsNum JsVal React Effects Logic.
Local Open Scope string_scope.
Local Open Scope js_scope.

(** [import.meta.env.DEV], fixed when the bundle is built. *)
Class BuildEnv := build_dev : bool.

Definition API `{BuildEnv} : string :=
  if build_dev then "http://185.204.52.135:8000/api" else "/api".

(** The second argument of [fetch]. *)
Record init := Init {
  i_method : string;
  i_headers : list (string * string);
  i_body : option val;     (* JSON.stringify(..) of this value *)
}.

Definition GET : init := Init "GET" [] None.
Definition DELETE : init := Init "DELETE" [] None.
(** [{ method, headers: {"Content-Type": "application/json"}, body: JSON.stringify(v) }]. *)
Definition JSON (method : string) (v : val) : init :=
  Init method [("Content-Type", "application/json")] (json v).

Definition token_key : string := "adminToken".
Definition token_header : string := "X-Admin-Token".

Definition on_response {S} (r : response) : prog S unit :=
  if (r_status r =? 401)%Z then
    let! href := call CHref in
    if includes (to_string href) "login" then skip
    else
      do! do_ (CRemoveItem token_key) in
      do_ CReload
  else skip.

(** The request as it leaves: [{...init.headers, "X-Admin-Token": token}]. *)
Definition wrapped (token url : string) (i : init) : request :=
  Request (i_method i) url (merge (i_headers i) [(token_header, token)]) (i_body i).

(** [window.fetch]. *)
Definition fetch {S} (url : string) (i : init) : prog S response :=
  let! tok := call (CGetItem token_key) in
  let! token := lift (tok ||| "") in
  let! r := await (QFetch (wrapped (to_string token) url i)) in
  do! on_response r in
  Ret r.

(** [fetch(url).then(r => r.json()).then(set).catch(() => {})]. *)
Definition fetch_into {S} (url : string) (set : val -> S -> S) : prog S unit :=
  forget (let! r := fetch url GET in
          let! v := response_json r in
          upd (set v)).

(** The token the wrapper sends under a local storage. *)
Definition stored_token (store : gmap string string) : string :=
  default "" (store !! token_key).

(** ** What the admin panel sends *)

(** A request the wrapper made: to the API, with exactly one token header,
    whose value can be read off the local storage. *)
Definition api_request `{BuildEnv} (r : request) : Prop :=
  startsWith (rq_url r) API = true /\
  exists hs token, rq_headers r = merge hs [(token_header, token)].

(** What the panel may do: send such requests, and navigate to paths in [nav]. *)
Definition panel_obs `{BuildEnv} (nav : string -> Prop) (o : obs) : Prop :=
  match o with
  | OSend r => api_request r
  | OCall (CNavigate p _) => nav p
  | _ => True
  end.
Abbreviation api_obs := (panel_obs (fun _ => True)).

Lemma within_on_response `{BuildEnv} {S} (I : S -> Prop) nav r : within I (panel_obs nav) (on_response r).
Proof. unfold on_response. repeat within_step. Qed.

Lemma within_fetch `{BuildEnv} {S} (I : S -> Prop) nav path i :
  within I (panel_obs nav) (fetch (API +:+ path) i).
Proof.
  unfold fetch. do 2 (within_step; [within_step|]).
  apply within_bind; [|intros r; apply within_bind; [apply within_on_response|done]].
  split; [|intros v; apply within_lift]. split; [|cbn; eauto].
  apply prefix_app_iff. cbn. eauto.
Qed.

Lemma within_fetch_into `{BuildEnv} {S} (I : S -> Prop) nav path set :
  (forall v s, I s -> I (set v s)) -> within I (panel_obs nav) (fetch_into (API +:+ path) set).
Proof.
  intros Hset. unfold fetch_into. within_step. within_step; [apply within_fetch|].
  within_step; [within_step|]. apply within_upd, Hset.
Qed.

Ltac head_of p := lazymatch p with ?f _ => head_of f | _ => p end.

(** The rules for a handler of the admin panel, unfolding the operations it
    calls; what is left are the updates.  Endpoints are unfolded by [js]. *)
Ltac within_api :=
  repeat
    (cbv beta;
     lazymatch goal with
     | |- within _ _ (fetch _ _) =>
         autounfold with js; rewrite ?str_app_assoc; apply within_fetch
     | |- within _ _ (fetch_into _ _) => apply within_fetch_into
     | |- within _ _ ?p =>
         first [within_step | let h := head_of p in unfold h]
     end).

(** ** Complete runs of the wrapper: one request, and no other effect the
    observer sees than reading the token and handling a 401 *)

Definition route (r : request) : string * string := (rq_method r, rq_url r).
Definition routes (t : list obs) : list (string * string) := map route (sent t).

Lemma routes_app t1 t2 : routes (t1 ++ t2) = (routes t1 ++ routes t2)%list.
Proof. unfold routes. by rewrite sent_app, map_app. Qed.

Lemma sent_call c t : sent (OCall c :: t) = sent t.
Proof. done. Qed.
Lemma sent_send r t : sent (OSend r :: t) = r :: sent t.
Proof. done. Qed.

Section Paths.
Context {S : Type} (P : inputs -> Prop).

Lemma path_on_response (r : response) t (x : res unit) :
  path P (on_response (S:=S) r) t x -> sent t = [] /\ x = Ok tt.
Proof.
  unfold on_response. destruct (_ =? _)%Z; cbn; [|by intros [-> ->]].
  intros (v & t' & (io & st & _ & ->) & -> & H). cbn in H.
  destruct (includes _ _); cbn in H; [by destruct H as [-> ->]|].
  destruct H as (v2 & t2 & (io2 & st2 & _ & ->) & -> & H). cbn in H.
  destruct H as (v3 & t3 & (io3 & st3 & _ & ->) & -> & H). cbn in H.
  by destruct H as [-> ->].
Qed.

Lemma path_fetch url i t (x : res response) :
  path P (fetch (S:=S) url i) t x -> exists token, sent t = [wrapped token url i].
Proof.
  unfold fetch. cbn. intros (v & t' & (io & st & _ & ->) & -> & H). cbn in H.
  destruct (st !! token_key) as [tok|]; cbn in H.
  all: repeat (destruct (str_truthy _); cbn in H).
  all: destruct H as (v2 & t2 & -> & H); destruct v2 as [r|e]; cbn in H.
  all: try by destruct H as [-> ->]; eexists.
  all: apply path_bind in H as [(a & t3 & t4 & -> & H1 & H2)|(e & H1 & ->)].
  all: apply path_on_response in H1 as [Hr ?]; try discriminate.
  all: cbn in H2; destruct H2 as [-> ->]; cbn [sends app]; eexists.
  all: by rewrite sent_call, app_nil_r, sent_send, Hr.
Qed.

Lemma stretch_fetch_bind {A} url i (f : response -> prog S A) t :
  stretch P (let! r := fetch url i in f r) t ->
  exists token, sent t = [wrapped token url i].
Proof.
  cbn. intros (v & t' & (io & st & _ & ->) & -> & H). cbn in H.
  destruct (st !! token_key) as [tok|]; cbn in H.
  all: repeat (destruct (str_truthy _); cbn in H); subst; by eexists.
Qed.

(** Up to its first pause a caught program behaves as the program. *)
Lemma stretch_catch {A} (p : prog S A) h t :
  (forall e t', stretch P (h e) t' -> sent t' = []) ->
  stretch P (try_catch p h) t -> exists t', stretch P p t' /\ sent t = sent t'.
Proof.
  intros Hh. revert t. induction p as [A a|A e|A f k IH|A c k IH|A q k IH|A q _ k IH|A b ms q _ k IH|A id k IH];
    intros t; cbn; try by (intros; subst; eauto).
  - intros (v & t' & Hv & -> & H0). apply IH in H0 as (t2 & H2 & E); [|done].
    exists (OCall c :: t2). split; [exists v, t2; auto|]. by rewrite !sent_call.
  - intros (t1 & t2 & -> & H1 & H2). apply IH in H2 as (t3 & H3 & E); [|done].
    exists (t1 ++ t3)%list. split; [eauto 6|]. by rewrite !sent_app, E.
  - intros [id H0]. apply IH in H0 as (t3 & H3 & E); [|done]. eauto.
Qed.

(** A refresh is one GET, spawned; the caller goes on. *)
Lemma path_fetch_into_bind {A} url set (k : unit -> prog S A) t x :
  path P (bind (fetch_into url set) k) t x ->
  exists token t1 t2, t = (t1 ++ t2)%list /\ sent t1 = [wrapped token url GET] /\
    path P (k tt) t2 x.
Proof.
  intros (t1 & t2 & -> & H1 & H2). apply stretch_catch in H1 as (t3 & H3 & E).
  - apply stretch_fetch_bind in H3 as [token Ht]. exists token, t1, t2.
    by rewrite E.
  - intros e t' Ht; cbn in Ht; by subst.
Qed.

Lemma path_fetch_into url set t x :
  path P (fetch_into (S:=S) url set) t x ->
  x = Ok tt /\ exists token, sent t = [wrapped token url GET].
Proof.
  intros (t1 & t2 & -> & H1 & [-> ->]). split; [done|].
  apply stretch_catch in H1 as (t3 & H3 & E).
  - apply stretch_fetch_bind in H3 as [token Ht]. exists token.
    by rewrite app_nil_r, E.
  - intros e t' Ht; cbn in Ht; by subst.
Qed.

(** An alert, the usual last word of an error branch. *)
Lemma path_alert m t x :
  path P (alert (S:=S) m) t x -> t = [OCall (CAlert m)] /\ x = Ok tt.
Proof. intros (v & t' & (io & st & _ & ->) & -> & H). cbn in H. by destruct H as [-> ->]. Qed.
End Paths.

(** ** A refresh, step by step *)

Section Refresh.
Context {S : Type} (set : val -> S -> S).

(** What the promise of the request continues with, and what that of the body
    does when the body is [v]. *)
Definition after_response (x : res response) : prog S unit :=
  try_catch
    (let! r := (let! r := lift x in do! on_response r in Ret r) in
     let! v := response_json r in upd (set v))
    (fun _ => skip).
Definition after_body (v : res val) (x : res unit) : prog S unit :=
  try_catch (let! v := (do! lift x in lift v) in upd (set v)) (fun _ => skip).

Lemma run_fetch_into io url (c : conf S) :
  run io (fetch_into url set) c =
  push (Waiting (QFetch (wrapped (stored_token (store c)) url GET)) after_response)
    (emit (OSend (wrapped (stored_token (store c)) url GET)) (emit (OCall (CGetItem token_key)) c)).
Proof.
  unfold stored_token. cbn. destruct (store c !! token_key) as [[|a tok]|]; reflexivity.
Qed.

(** The answer: a 401 outside the login page first forgets the token and
    reloads; then the body is awaited. *)
Lemma run_after_response io r (c : conf S) :
  r_status r <> 401%Z ->
  run io (after_response (Ok r)) c = push (Waiting QTick (after_body (r_json r))) c.
Proof.
  intros Hst. unfold after_response, on_response. cbn.
  by rewrite (proj2 (Z.eqb_neq _ _) Hst).
Qed.

End Refresh.

Lemma run_fetch_into_bind {S} set io url (k : unit -> prog S unit) (c : conf S) :
  run io (bind (fetch_into url set) k) c = run io (k tt) (run io (fetch_into url set) c).
Proof. done. Qed.

(** A component without dependent effects. *)
Section Settle.
Context {S A : Type} (C : component S A) (set : val -> S -> S).
Hypothesis no_effects : forall s s', c_commit C s s' = skip.

(** A refresh that gets no answer changes nothing. *)
Lemma refresh_fails (io : inputs) i id rq (e : exn) c l :
  reachable C c -> pend c = l -> l !! i = Some (id, Waiting (QFetch rq) (after_response set)) ->
  exists c', reachable C c' /\ st c' = st c /\ pend c' = delete i l.
Proof.
  intros Hr <- Hi. eapply (reach_failure _ io i _ _ _ e) in Hr; [|exact Hi].
  eexists. split; [exact Hr|]. unfold settle_step, commit_after. by rewrite no_effects.
Qed.
End Settle.

(** ** The wrapper, exactly *)

(** What an answer does before the caller sees it. *)
Definition after_401 {S} (io : inputs) (r : response) (c : conf S) : conf S :=
  if (r_status r =? 401)%Z then
    if includes (in_href io) "login" then emit (OCall CHref) c
    else set_store (delete token_key (store c))
           (emit (OCall CReload) (emit (OCall (CRemoveItem token_key)) (emit (OCall CHref) c)))
  else c.

Lemma run_on_response {S} io r (k : unit -> prog S unit) (c : conf S) :
  run io (bind (on_response r) k) c = run io (k tt) (after_401 io r c).
Proof.
  unfold on_response, after_401. destruct (r_status r =? 401)%Z; [|done].
  cbn. destruct (includes (in_href io) "login"); [by destruct c|]. cbn. by destruct c.
Qed.

(** What the promise of a request made with [fetch] continues with. *)
Definition after_fetch {S A} (k : response -> prog S A) (x : res response) : prog S A :=
  let! r := (let! r := lift x in do! on_response r in Ret r) in k r.

Lemma run_fetch_bind {S} (url : string) (i : init) (k : response -> prog S unit) io (c : conf S) :
  let rq := wrapped (stored_token (store c)) url i in
  run io (let! r := fetch url i in k r) c =
    push (Waiting (QFetch rq) (after_fetch k)) (emit (OSend rq) (emit (OCall (CGetItem token_key)) c)).
Proof. unfold stored_token. cbn. destruct (store c !! token_key) as [[|a tok]|]; reflexivity. Qed.

Lemma run_after_fetch {S} (k : response -> prog S unit) io r (c : conf S) :
  run io (after_fetch k (Ok r)) c = run io (k r) (after_401 io r c).
Proof.
  unfold after_fetch. cbn [lift bind]. rewrite <- (run_on_response io r (fun _ => k r) c).
  unfold on_response. destruct (_ =? _)%Z; [|done]. cbn. by destruct (includes _ _).
Qed.

(** C17. [window.fetch], exactly: a call reads the token from the local storage
    and sends one request, the caller's with the token header set to it (empty
    when there is none) over any header of that name; the answer reaches the
    caller after, on a 401 outside the login address, the token has been
    removed from the storage and the page reloaded; a network failure reaches
    the caller as it is. *)
Theorem fetch_wraps {S} (url : string) (i : init) (k : response -> prog S unit) io (c : conf S) :
  let rq := wrapped (stored_token (store c)) url i in
  exists K,
    run io (let! r := fetch url i in k r) c =
      push (Waiting (QFetch rq) K) (emit (OSend rq) (emit (OCall (CGetItem token_key)) c)) /\
    assoc token_header (rq_headers rq) = Some (stored_token (store c)) /\
    (forall io' r c', run io' (K (Ok r)) c' = run io' (k r) (after_401 io' r c')) /\
    (forall io' e c', run io' (K (Err e)) c' = emit (OUncaught e) c').
Proof.
  cbn zeta. exists (after_fetch k).
  split; [apply run_fetch_bind|split; [|split; [intros; apply run_after_fetch|done]]].
  cbn [wrapped rq_headers]. rewrite assoc_merge by apply NoDup_singleton.
  by rewrite (eq_refl : assoc token_header [(token_header, _)] = Some _).
Qed.
