(* ===== verification/Orderly.v ===== *)
(** * Programs that stay harmless when their page is gone

    A program is [orderly] when every request it awaits goes through the
    wrapper's handling of a 401, and neither it nor anything it leaves pending
    ever sets an interval.  A component whose handlers are orderly has no
    interval but those of its mount effect; a page that clears those when it is
    unmounted leaves nothing behind that repeats. *)
From S2P Require Import Prelude JsStr JsNum JsVal React Effects Logic Storage Api.
Local Open Scope string_scope.
Local Open Scope js_scope.

(** What the wrapper does first with a 401 outside a login address. *)
Definition forgets {S A : Type} (p : prog S A) : Prop :=
  match p with
  | Call CHref k => forall href, includes href "login" = false ->
      match k (Ok (VStr href)) with
      | Call (CRemoveItem i) k2 => i = token_key /\
          match k2 (Ok VUndef) with Call CReload _ => True | _ => False end
      | _ => False
      end
  | _ => False
  end.
Definition gate {S A : Type} (q : query) (k : res (reply q) -> prog S A) : Prop :=
  match q return (res (reply q) -> prog S A) -> Prop with
  | QFetch _ => fun k => forall r, r_status r = 401%Z -> forgets (k (Ok r))
  | _ => fun _ => True
  end k.

Fixpoint orderly {S A : Type} (p : prog S A) : Prop :=
  match p with
  | Ret _ | Throw _ => True
  | Upd _ k => orderly k
  | Call _ k => forall v, orderly (k v)
  | Await q k => gate q k /\ forall v, orderly (k v)
  | Spawn q k => orderly q /\ orderly k
  | SetTimer b _ q k => b = false /\ orderly q /\ forall id, orderly (k id)
  | ClearTimer _ k => orderly k
  end.

(** A task that is orderly, but for the interval [poll]. *)
Definition polls {S : Type} (poll : option nat) (t : nat * task S) : Prop :=
  match snd t with
  | Waiting q k => gate q k /\ forall v, orderly (k v)
  | Timer b _ p => orderly p /\ (b = true -> poll = Some (fst t))
  end.

Section Rules.
Context {S : Type}.

Lemma forgets_bind {A B} (p : prog S A) (f : A -> prog S B) : forgets p -> forgets (bind p f).
Proof.
  destruct p as [| | |[] k| | | |]; try done. cbn. intros H href E. specialize (H href E).
  destruct (k (Ok (VStr href))) as [| | |[] k2| | | |]; try done. destruct H as [-> H]. split; [done|].
  by destruct (k2 (Ok VUndef)) as [| | |[] k3| | | |].
Qed.
Lemma forgets_try_catch {A} (p : prog S A) h : forgets p -> forgets (try_catch p h).
Proof.
  destruct p as [| | |[] k| | | |]; try done. cbn. intros H href E. specialize (H href E).
  destruct (k (Ok (VStr href))) as [| | |[] k2| | | |]; try done. destruct H as [-> H]. split; [done|].
  by destruct (k2 (Ok VUndef)) as [| | |[] k3| | | |].
Qed.
Lemma forgets_try_finally {A} (p : prog S A) f : forgets p -> forgets (try_finally p f).
Proof.
  destruct p as [| | |[] k| | | |]; try done. cbn. intros H href E. specialize (H href E).
  destruct (k (Ok (VStr href))) as [| | |[] k2| | | |]; try done. destruct H as [-> H]. split; [done|].
  by destruct (k2 (Ok VUndef)) as [| | |[] k3| | | |].
Qed.
Lemma gate_weaken {A B} q (k : res (reply q) -> prog S A) (k' : res (reply q) -> prog S B) :
  (forall v, forgets (k v) -> forgets (k' v)) -> gate q k -> gate q k'.
Proof. destruct q; cbn; auto. Qed.

Lemma orderly_bind {A B} (p : prog S A) (f : A -> prog S B) :
  orderly p -> (forall a, orderly (f a)) -> orderly (bind p f).
Proof.
  intros Hp Hf. induction p; cbn in *; intuition eauto.
  eapply gate_weaken; [|done]. intros v. apply forgets_bind.
Qed.
Lemma orderly_try_catch {A} (p : prog S A) h :
  orderly p -> (forall e, orderly (h e)) -> orderly (try_catch p h).
Proof.
  intros Hp Hh. induction p; cbn in *; intuition eauto.
  eapply gate_weaken; [|done]. intros v. apply forgets_try_catch.
Qed.
Lemma orderly_try_finally {A} (p : prog S A) f :
  orderly p -> orderly f -> orderly (try_finally p f).
Proof.
  intros Hp Hf. induction p; cbn in *; intuition eauto; try (apply orderly_bind; cbn; eauto).
  eapply gate_weaken; [|done]. intros v. apply forgets_try_finally.
Qed.
Lemma orderly_for_each {A} (l : list A) body :
  (forall a, orderly (body a)) -> orderly (S:=S) (for_each l body).
Proof. intros Hb. induction l; cbn; [done|]. by apply orderly_bind. Qed.
Lemma orderly_lift {A} (r : res A) : orderly (lift (S:=S) r).
Proof. by destruct r. Qed.
Lemma orderly_call c : orderly (call (S:=S) c).
Proof. intros v. apply orderly_lift. Qed.
Lemma orderly_do c : orderly (do_ (S:=S) c).
Proof. by intros [?|?]. Qed.
Lemma orderly_tick : orderly (await (S:=S) QTick).
Proof. split; [done|]. intros v. apply orderly_lift. Qed.
Lemma orderly_confirm m : orderly (confirm (S:=S) m).
Proof. by intros [?|?]. Qed.
Lemma orderly_json r : orderly (response_json (S:=S) r).
Proof. apply orderly_bind; [apply orderly_tick|]. intros _. apply orderly_lift. Qed.
Lemma orderly_fetch url i : orderly (fetch (S:=S) url i).
Proof.
  unfold fetch. apply orderly_bind; [apply orderly_call|intros tok].
  apply orderly_bind; [apply orderly_lift|intros token]. split.
  - intros r Hr. cbn. unfold on_response. rewrite Hr. cbn. intros href E. by rewrite E.
  - intros v. apply orderly_bind; [apply orderly_lift|intros r].
    apply orderly_bind; [|done]. unfold on_response. case_match; [|done].
    apply orderly_bind; [apply orderly_call|intros href]. case_match; [done|].
    apply orderly_bind; [apply orderly_do|intros _]. apply orderly_do.
Qed.
Lemma orderly_forget p : orderly p -> orderly (forget (S:=S) p).
Proof. intros Hp. split; [|done]. by apply orderly_try_catch. Qed.
Lemma orderly_fetch_into url set : orderly (fetch_into (S:=S) url set).
Proof.
  apply orderly_forget, orderly_bind; [apply orderly_fetch|intros r].
  apply orderly_bind; [apply orderly_json|done].
Qed.
Lemma orderly_timeout p ms : orderly p -> orderly (setTimeout (S:=S) p ms).
Proof. by intros Hp. Qed.

(** *** Runs *)

Lemma run_polls poll io p (c : conf S) :
  orderly p -> Forall (polls poll) (pend c) -> Forall (polls poll) (pend (run io p c)).
Proof.
  revert c. induction p as [a|e|f k IH|cm k IH|q k IH|q k IHq IH|b ms q k IHq IH|id k IH]
    using prog_unit_ind; cbn [orderly run]; intros c Hp Hc.
  - done.
  - done.
  - by apply IH.
  - destruct (exec io (store c) cm) as [r s]. by apply IH.
  - destruct q; (apply Forall_app_2; [exact Hc|apply Forall_singleton; exact Hp]).
  - apply IH; [apply Hp|]. apply IHq; [apply Hp|done].
  - apply IH; [apply Hp|]. cbn. apply Forall_app_2; [done|]. apply Forall_singleton.
    destruct Hp as (-> & Hq & _). by split.
  - apply IH; [done|]. by apply Forall_list_filter.
Qed.

(** A run adds to the log what the program is allowed to do, and changes the
    storage as that says. *)
Lemma run_observes I R io p (c : conf S) : within I R p ->
  exists l, log (run io p c) = (log c ++ l)%list /\ Forall (observed R) l /\
    store (run io p c) = replay l (store c).
Proof.
  revert c. induction p as [a|e|f k IH|cm k IH|q k IH|q k IHq IH|b ms q k IHq IH|id k IH]
    using prog_unit_ind; cbn [within run]; intros c Hp.
  - exists []. by rewrite app_nil_r.
  - exists [OUncaught e]. split; [done|]. split; [by constructor|done].
  - apply (IH (set_st f c)), Hp.
  - pose proof (exec_store io (store c) cm) as Hs. destruct (exec io (store c) cm) as [r s] eqn:E.
    cbn [snd] in Hs. destruct (IH r (set_store s (emit (OCall cm) c))) as (l & Hl & Hobs & Hst).
    { apply Hp. exists io, (store c). split; [done|by rewrite E]. }
    exists (OCall cm :: l). rewrite Hl, Hst. cbn. rewrite <- app_assoc, Hs. split; [done|].
    split; [|done]. constructor; [apply Hp|done].
  - destruct q as [r| |]; cbn; [|exists []; by rewrite app_nil_r..].
    exists [OSend r]. split; [done|]. split; [|done]. constructor; [apply Hp|done].
  - destruct (IHq c (proj1 Hp)) as (l1 & H1 & O1 & S1).
    destruct (IH (run io q c) (proj2 Hp)) as (l2 & H2 & O2 & S2). exists (l1 ++ l2)%list.
    split; [by rewrite H2, H1, app_assoc|]. split; [by apply Forall_app|by rewrite S2, S1, replay_app].
  - apply (IH _ (push _ c)), Hp.
  - by apply (IH (drop_timer id c)).
Qed.

(** A property of the storage that what the program does keeps. *)
Lemma run_store_kept (P : gmap string string -> Prop) I R io p (c : conf S) :
  (forall o s, R o -> P s -> P (store_after o s)) ->
  within I R p -> P (store c) -> P (store (run io p c)).
Proof.
  intros HR Hp Hc. destruct (run_observes I R io p c Hp) as (l & _ & Hl & ->).
  eapply (replay_kept P (observed R)); [|exact Hl|exact Hc]. by intros [cm|r|e] s; [apply HR..|].
Qed.

(** A 401 is handled: the token is gone for good, and a reload was asked for. *)
Lemma run_forgets I R io p (c : conf S) :
  (forall o s, R o -> s !! token_key = None -> store_after o s !! token_key = None) ->
  within I R p -> forgets p -> includes (in_href io) "login" = false ->
  store (run io p c) !! token_key = None /\
  exists l, log (run io p c) = (log c ++ l)%list /\ OCall CReload ∈ l.
Proof.
  intros HR Hp Hf Hl. destruct p as [| | |[] k| | | |]; try done. cbn [forgets] in Hf.
  specialize (Hf (in_href io) Hl). destruct Hp as [_ Hp].
  assert (within I R (k (Ok (VStr (in_href io))))) as Hk.
  { apply Hp. by exists io, ∅. }
  cbn [run exec]. clear Hp. revert Hf Hk. generalize (k (Ok (VStr (in_href io)))) as p. clear k. intros p.
  destruct p as [| | |[] k| | | |]; try done. intros [-> Hf] [_ Hk].
  assert (within I R (k (Ok VUndef))) as Hk2 by (apply Hk; by exists io, ∅).
  cbn [run exec]. clear Hk. revert Hf Hk2. generalize (k (Ok VUndef)) as p. clear k. intros p.
  destruct p as [| | |[] k| | | |]; try done. intros _ [_ Hk].
  assert (within I R (k (Ok VUndef))) as Hk2 by (apply Hk; by exists io, ∅).
  cbn [run exec]. set (c' := set_store _ (emit (OCall CReload) _)). split.
  - eapply (run_store_kept (fun s => s !! token_key = None)); [exact HR|exact Hk2|].
    apply lookup_delete_eq.
  - destruct (run_observes _ _ io (k (Ok VUndef)) c' Hk2) as (l & E & _ & _).
    eexists. rewrite E. split.
    + subst c'. cbn [set_store emit log]. rewrite <- !app_assoc. reflexivity.
    + cbn [app]. right. right. by left.
Qed.

(** Setting the interval itself. *)
Lemma run_interval poll io p ms (c : conf S) :
  orderly p -> next c = poll -> Forall (polls (Some poll)) (pend c) ->
  Forall (polls (Some poll)) (pend (run io (let! _ := setInterval p ms in skip) c)).
Proof.
  intros Hp Hn Hc. cbn. apply Forall_app_2; [done|]. apply Forall_singleton. split; [done|].
  intros _. cbn. by rewrite Hn.
Qed.

(** Clearing it leaves nothing that repeats. *)
Lemma cleared_polls io poll (c : conf S) :
  Forall (polls (Some poll)) (pend c) -> Forall (polls None) (pend (run io (clearTimer poll) c)).
Proof.
  intros Hc. cbn. apply Forall_forall. intros [id t] Hin.
  apply list_elem_of_In, List.filter_In in Hin as [Hin Hf].
  rewrite Forall_forall in Hc. specialize (Hc _ (proj2 (list_elem_of_In _ _) Hin)).
  destruct t as [q k|b ms p]; [done|]. destruct Hc as [Hp Hb]. split; [done|].
  intros ->. specialize (Hb eq_refl) as [= E]. cbn in Hf, E. subst id. by rewrite Nat.eqb_refl in Hf.
Qed.

End Rules.

(** The structural rules; an operation of the code is unfolded. *)
Ltac orderly_step :=
  cbv beta;
  lazymatch goal with
  | |- orderly (bind _ _) => apply orderly_bind; [|intros]
  | |- orderly (try_catch _ _) => apply orderly_try_catch; [|intros]
  | |- orderly (try_finally _ _) => apply orderly_try_finally
  | |- orderly (for_each _ _) => apply orderly_for_each; intros
  | |- orderly (lift _) => apply orderly_lift
  | |- orderly (call _) => apply orderly_call
  | |- orderly (ref_value _) => apply orderly_call
  | |- orderly (do_ _) => apply orderly_do
  | |- orderly (alert _) => apply orderly_do
  | |- orderly (navigate _) => apply orderly_do
  | |- orderly (await QTick) => apply orderly_tick
  | |- orderly (confirm _) => apply orderly_confirm
  | |- orderly (response_json _) => apply orderly_json
  | |- orderly (fetch _ _) => apply orderly_fetch
  | |- orderly (fetch_into _ _) => apply orderly_fetch_into
  | |- orderly (forget _) => apply orderly_forget
  | |- orderly (spawn _) => split; [|exact I]
  | |- orderly (setTimeout _ _) => apply orderly_timeout
  | |- orderly (upd _) => exact I
  | |- orderly skip => exact I
  | |- orderly (Ret _) => exact I
  | |- orderly (Throw _) => exact I
  | |- orderly (clearTimer _) => exact I
  | |- orderly (when ?b _) => destruct b; cbn [when]
  | |- orderly (if ?b then _ else _) => destruct b
  | |- orderly (match ?x with _ => _ end) => destruct x
  | |- orderly ?p => let h := head_of p in progress unfold h
  end.
Ltac orderly_tac := repeat orderly_step.
