(* ===== verification/Typed.v ===== *)
(** * Machines whose environment keeps its promises

    The step relation lets the server answer anything and the user fire any
    action.  Here both are restricted: a request is answered as [Q] says or
    not at all, and the user fires only actions [P] offers in the current
    state.  [keeps I p]: under such answers every state update of [p] keeps
    [I].  A component whose handlers keep [I] satisfies it in every state such
    an environment can reach. *)
From S2P Require Import Prelude JsStr JsNum JsVal React Effects Logic Api.
Local Open Scope string_scope.

Section Keeps.
Context (Q : request -> response -> Prop).

Definition outcome_ok (q : query) : res (reply q) -> Prop :=
  match q with
  | QFetch r => fun o => match o with Ok resp => Q r resp | Err _ => True end
  | _ => fun _ => True
  end.

Fixpoint keeps {S A : Type} (I : S -> Prop) (p : prog S A) : Prop :=
  match p with
  | Ret _ | Throw _ => True
  | Upd f k => (forall s, I s -> I (f s)) /\ keeps I k
  | Call c k => forall v, answers any_inputs c v -> keeps I (k v)
  | Await q k => forall v, outcome_ok q v -> keeps I (k v)
  | Spawn q k => keeps I q /\ keeps I k
  | SetTimer _ _ q k => keeps I q /\ forall id, keeps I (k id)
  | ClearTimer _ k => keeps I k
  end.

Section Rules.
Context {S : Type} (I : S -> Prop).

Lemma keeps_bind {A B} (p : prog S A) (f : A -> prog S B) :
  keeps I p -> (forall a, keeps I (f a)) -> keeps I (bind p f).
Proof. intros Hp Hf. induction p; cbn in *; intuition eauto. Qed.

Lemma keeps_try_catch {A} (p : prog S A) h :
  keeps I p -> (forall e, keeps I (h e)) -> keeps I (try_catch p h).
Proof. intros Hp Hh. induction p; cbn in *; intuition eauto. Qed.

Lemma keeps_try_finally {A} (p : prog S A) f :
  keeps I p -> keeps I f -> keeps I (try_finally p f).
Proof.
  intros Hp Hf. induction p; cbn in *; intuition eauto; apply keeps_bind; cbn; eauto.
Qed.

Lemma keeps_for_each {A} (l : list A) body :
  (forall a, keeps I (body a)) -> keeps I (for_each l body).
Proof. intros Hb. induction l; cbn; [done|]. apply keeps_bind; auto. Qed.

(** What keeps [I] whatever is answered does. *)
Lemma keeps_within {A} R (p : prog S A) : within I R p -> keeps I p.
Proof. induction p as [A a|A e|A f k IH|A c k IH|A q k IH|A q IHq k IH|A b ms q IHq k IH|A id k IH]; cbn; intuition eauto. Qed.

Lemma keeps_assoc {A B D} (p : prog S A) (f : A -> prog S B) (g : B -> prog S D) :
  keeps I (bind p (fun x => bind (f x) g)) -> keeps I (bind (bind p f) g).
Proof. induction p; cbn in *; intuition eauto. Qed.

Lemma keeps_on_response r : keeps I (on_response (S:=S) r).
Proof. apply (keeps_within (fun _ => True)). unfold on_response. by repeat within_step. Qed.

(** The answer of a request is one the server promises. *)
Lemma keeps_fetch_bind {A} url i (f : response -> prog S A) :
  (forall token r, Q (wrapped token url i) r -> keeps I (f r)) -> keeps I (bind (fetch url i) f).
Proof.
  intros Hf. unfold fetch. apply keeps_assoc, keeps_bind.
  { by apply (keeps_within (fun _ => True)), within_call. }
  intros tok. apply keeps_assoc, keeps_bind; [apply (keeps_within (fun _ => True)), within_lift|].
  intros token. apply keeps_assoc. intros [r|e] Hr; [|done]. cbn [lift bind].
  apply keeps_assoc, keeps_bind; [apply keeps_on_response|]. intros _. cbn [bind]. by eapply Hf.
Qed.

Lemma keeps_fetch url i : keeps I (fetch url i).
Proof.
  unfold fetch. apply keeps_bind; [by apply (keeps_within (fun _ => True)), within_call|intros tok].
  apply keeps_bind; [apply (keeps_within (fun _ => True)), within_lift|intros token].
  apply keeps_bind; [by intros [r|e] _|intros r]. apply keeps_bind; [apply keeps_on_response|done].
Qed.

(** A refresh stores what the server promises for its address. *)
Lemma keeps_fetch_into url set :
  (forall token r v s, Q (wrapped token url GET) r -> r_json r = Ok v -> I s -> I (set v s)) ->
  keeps I (fetch_into url set).
Proof.
  intros Hset. split; [|done]. apply keeps_try_catch; [|done].
  apply keeps_fetch_bind. intros token r Hr. intros [[]|e] _; [|done].
  cbn. destruct (r_json r) as [v|e] eqn:E; [|done]. cbn. split; [|done].
  intros s. by eapply Hset.
Qed.
End Rules.

(** ** The machine *)

Section Machine.
Context {S A : Type} (C : component S A) (P : S -> A -> Prop).

Inductive kept_step : conf S -> conf S -> Prop :=
| kept_event io a c : P (st c) a -> kept_step c (event_step C io a c)
| kept_settle io i id q k o c :
    pend c !! i = Some (id, Waiting q k) -> outcome_ok q o -> kept_step c (settle_step C io i k o c)
| kept_timer io i id b ms p c :
    pend c !! i = Some (id, Timer b ms p) -> kept_step c (timer_step C io i b p c).

Inductive kept_reachable : conf S -> Prop :=
| kept_boot io s0 : kept_reachable (boot C io s0)
| kept_more c c' : kept_reachable c -> kept_step c c' -> kept_reachable c'.

Lemma kept_reply io i id rq k r c :
  kept_reachable c -> pend c !! i = Some (id, Waiting (QFetch rq) k) -> Q rq r ->
  kept_reachable (settle_step C io i k (Ok r) c).
Proof. intros Hc Hi Hr. eapply kept_more; [done|]. by eapply kept_settle. Qed.
Lemma kept_tick io i id k c :
  kept_reachable c -> pend c !! i = Some (id, Waiting QTick k) ->
  kept_reachable (settle_step C io i k (Ok tt) c).
Proof. intros Hc Hi. eapply kept_more; [done|]. by eapply kept_settle. Qed.

(** A refresh answered as promised stores the answer. *)
Lemma kept_refresh (io : inputs) i id rq r v set c :
  (forall s s', c_commit C s s' = skip) ->
  kept_reachable c -> pend c !! i = Some (id, Waiting (QFetch rq) (after_response set)) ->
  Q rq r -> r_status r <> 401%Z -> r_json r = Ok v ->
  exists c', kept_reachable c' /\ st c' = set v (st c).
Proof.
  intros Hno Hc Hi HQ Hst Hv. eapply (kept_reply io i _ _ _ r) in Hc; [|done..].
  unfold settle_step, commit_after in Hc. rewrite Hno in Hc.
  rewrite run_after_response, Hv in Hc by done. cbn [run skip] in Hc.
  eapply (kept_tick io (length (pend (take_task i c)))) in Hc;
    [|cbn; apply list_lookup_middle; done].
  eexists. split; [exact Hc|]. unfold settle_step, commit_after. by rewrite Hno.
Qed.

Context (I : S -> Prop).

Record kept_component : Prop := KeptComponent {
  kept_init : I (c_init C);
  kept_mount : keeps I (c_mount C);
  kept_handle : forall s a, I s -> P s a -> keeps I (c_handle C s a);
  kept_commit : forall s s', I s -> I s' -> keeps I (c_commit C s s');
}.
Hypothesis HC : kept_component.

Definition task_keeps (t : nat * task S) : Prop :=
  match snd t with
  | Waiting q k => forall v, outcome_ok q v -> keeps I (k v)
  | Timer _ _ p => keeps I p
  end.
Definition conf_keeps (c : conf S) : Prop := I (st c) /\ Forall task_keeps (pend c).

Lemma run_keeps io p c : keeps I p -> conf_keeps c -> conf_keeps (run io p c).
Proof.
  revert c. induction p as [a|e|f k IH|cm k IH|q k IH|q k IHq IH|b ms q k IHq IH|id k IH]
    using prog_unit_ind; cbn [keeps run]; intros c Hp [Hst Hpend].
  - done.
  - done.
  - apply IH; [apply Hp|]. split; [apply Hp, Hst|done].
  - destruct (exec io (store c) cm) as [r s] eqn:E. apply IH; [|done].
    apply Hp. exists io, (store c). split; [done|by rewrite E].
  - split; cbn; [by destruct q|]. destruct q; cbn; by apply Forall_app_2; [|apply Forall_singleton].
  - apply IH; [apply Hp|]. apply IHq; [apply Hp|done].
  - apply IH; [apply Hp|]. split; cbn; [done|].
    apply Forall_app_2; [done|]. apply Forall_singleton, Hp.
  - apply IH; [done|]. split; cbn; [done|]. by apply Forall_list_filter.
Qed.

Lemma take_keeps i c : conf_keeps c -> conf_keeps (take_task i c).
Proof. intros [H1 H2]. split; [done|]. by apply Forall_delete. Qed.

Lemma kept_step_keeps c c' : conf_keeps c -> kept_step c c' -> conf_keeps c'.
Proof.
  intros Hc Hs. pose proof Hc as [Hst Hp].
  assert (forall io old d, I old -> conf_keeps d -> conf_keeps (commit_after C io old d)) as Hcommit.
  { intros io old d Ho Hd. apply run_keeps; [|done]. apply HC; [done|apply Hd]. }
  assert (forall i t, pend c !! i = Some t -> task_keeps t) as Ht.
  { intros i t Hi. rewrite Forall_lookup in Hp. by apply (Hp i). }
  destruct Hs as [io a c Ha|io i id q k o c Hi Ho|io i id b ms p c Hi];
    apply Hcommit; try done; apply run_keeps.
  - by apply HC.
  - done.
  - by apply (Ht _ _ Hi).
  - by apply take_keeps.
  - apply (Ht _ _ Hi).
  - destruct b; [done|by apply take_keeps].
Qed.

Lemma kept_invariant c : kept_reachable c -> I (st c).
Proof.
  intros Hr. assert (conf_keeps c) as [H _]; [|exact H].
  induction Hr as [io s0|c c' _ IH Hs]; [|by eapply kept_step_keeps].
  apply run_keeps; [apply HC|]. split; [apply HC|done].
Qed.
End Machine.
End Keeps.

(** The structural rules; the updates and refreshes are left. *)
Ltac keeps_step :=
  lazymatch goal with
  | |- keeps _ _ (bind _ _) => apply keeps_bind; [|intros]
  | |- keeps _ _ (try_catch _ _) => apply keeps_try_catch; [|intros]
  | |- keeps _ _ (try_finally _ _) => apply keeps_try_finally
  | |- keeps _ _ (for_each _ _) => apply keeps_for_each; intros
  | |- keeps _ _ (fetch _ _) => apply keeps_fetch
  | |- keeps _ _ (fetch_into _ _) => apply keeps_fetch_into
  | |- keeps _ _ (upd _) => split; [|exact I]
  | |- keeps _ _ (setInterval _ _) => split; [|intros; exact I]
  | |- keeps _ _ (setTimeout _ _) => split; [|intros; exact I]
  | |- keeps _ _ (when ?b _) => destruct b; cbn [when]
  | |- keeps _ _ (if ?b then _ else _) => destruct b
  | |- keeps _ _ ?p =>
      first [apply (keeps_within _ _ (fun _ => True)); solve [repeat within_step]
            |let h := head_of p in progress unfold h]
  end.
Ltac keeps_tac := repeat (cbv beta; keeps_step).
