(* ===== verification/RouterMachine.v ===== *)
(** * Screens behind a router

    Both programs show one screen at a time, the one of the current location.
    A move is a move of the screen on display, a promise or timer of a screen
    that was left, or the user going back and forth in the history; each
    navigation unmounts one screen and mounts another on the same storage.
    The router is a library: the programs are proved against what it promises.
    The machine is that of any table of screens, under any promise [Q] of the
    server and any restriction [offers] of what the user fires. *)
From Stdlib Require Import Ascii.
From S2P Require Import Prelude JsStr JsNum JsVal React Effects Logic Storage Api Typed.
Local Open Scope string_scope.

(** ** The router

    [fresh p] is the history of a document opened at [p], [here] its current
    location, [go replace p] what [navigate(p, {replace})] makes of it, [travel]
    the moves of the back and forward buttons, [trail] the paths it holds,
    [query] the parameters of the current location ([searchParams.get]). *)
Class Router (H : Type) := {
  fresh : string -> H;
  here : H -> string;
  go : bool -> string -> H -> H;
  travel : H -> H -> Prop;
  trail : H -> list string;
  query : H -> string -> val;
}.
(** Paths without a query. *)
Definition no_query (p : string) : bool :=
  all_chars (fun c => negb (Ascii.eqb c "?"%char || Ascii.eqb c "#"%char)) p.

Class RouterLaws (H : Type) `{Router H} := {
  here_fresh p : here (fresh p) = p;
  here_go b p h : here (go b p h) = p;
  here_trail h : here h ∈ trail h;
  trail_fresh p : trail (fresh p) = [p];
  (* a replaced location is gone, what was ahead may be dropped *)
  trail_go b p h q : q ∈ trail (go b p h) -> q = p \/ q ∈ trail h;
  trail_replace p q : trail (go true p (fresh q)) = [p];
  trail_travel h h' : travel h h' -> trail h' = trail h;
  query_string h k : query h k = VNull \/ exists v, query h k = VStr v;
  query_go b p k v h : no_query p = true -> plain k = true -> plain v = true ->
    query (go b (p +:+ "?" +:+ k +:+ "=" +:+ v) h) k = VStr v;
}.

(** ** Which route a location is

    [matches pattern location] is the library's test of a location, with its
    query and hash, against the path of a route.  What the programs rely on: a
    path of plain segments matches itself, whatever the query, and no location
    matches two such paths that differ by more than the case of their letters.
    (The library also ignores case and trailing slashes, which nothing here
    depends on.) *)
Class Matcher := matches : string -> string -> bool.

(** Plain segments, without a slash at the end. *)
Definition literal (p : string) : bool :=
  all_chars (fun c => plain (String c "") || Ascii.eqb c "/"%char) p && startsWith p "/" &&
  (String.eqb p "/" || negb (startsWith (srev p) "/")).

Class MatcherLaws `{Matcher} := {
  matches_same p : literal p = true -> matches p p = true;
  matches_query p q : literal p = true -> matches p (p +:+ "?" +:+ q) = true;
  matches_one p p' l : literal p = true -> literal p' = true ->
    matches p l = true -> matches p' l = true -> lower_ascii p = lower_ascii p';
}.

(** The first route of a table whose path matches.  When the paths are plain and
    differ by more than case, it is the one that matches. *)
Definition first_match `{Matcher} {A} (path : A -> string) (rs : list A) (l : string) : option A :=
  List.find (fun r => matches (path r) l) rs.
Definition distinct_paths (ps : list string) : Prop :=
  Forall (fun p => literal p = true) ps /\ NoDup (lower_ascii <$> ps).
#[export] Instance distinct_paths_dec ps : Decision (distinct_paths ps).
Proof. unfold distinct_paths. apply _. Defined.

Lemma first_match_is `{MatcherLaws} {A} (path : A -> string) rs r l :
  distinct_paths (path <$> rs) -> r ∈ rs -> matches (path r) l = true -> first_match path rs l = Some r.
Proof.
  unfold first_match. induction rs as [|r0 rs IH]; intros [Hl Hd]; [by rewrite elem_of_nil|].
  cbn [fmap list_fmap] in Hl, Hd. apply Forall_cons in Hl as [Hl0 Hl]. apply NoDup_cons in Hd as [Hd0 Hd].
  intros [->|Hin]%elem_of_cons Hm; cbn [List.find]; [by rewrite Hm|].
  destruct (matches (path r0) l) eqn:E; [|by apply IH]. exfalso. apply Hd0.
  rewrite Forall_fmap, Forall_forall in Hl.
  rewrite (matches_one _ (path r) l Hl0 (Hl _ Hin) E Hm). by do 2 apply list_elem_of_fmap_2.
Qed.
Lemma first_match_in `{Matcher} {A} (path : A -> string) rs r l :
  first_match path rs l = Some r -> r ∈ rs /\ matches (path r) l = true.
Proof. intros [Hin Hm]%List.find_some. split; [by apply list_elem_of_In|done]. Qed.

(** ** A table of screens

    [K] names the screens.  A component may read the location; what unmounting
    it runs are the cleanups of its effects. *)
Inductive route_element (K : Type) : Type :=
| Screen (s : K)
| NavigateTo (path : string) (replace : bool).
Arguments Screen {K} s.
Arguments NavigateTo {K} path replace.

Class Screens (H K : Type) := {
  screen_dec :: EqDecision K;
  screen_state : K -> Type;
  screen_action : K -> Type;
  screen_component : H -> forall s : K, component (screen_state s) (screen_action s);
  screen_unmount : forall s : K, screen_state s -> prog (screen_state s) unit;
  screen_route : string -> option (route_element K);
}.

(** A screen that was left: its timers and promises go on, its state is on
    display no more. *)
Record gone H K `{Screens H K} := Gone {
  gone_screen : K;
  gone_conf : conf (screen_state gone_screen);
}.
Arguments Gone {H K _} gone_screen gone_conf.
Arguments gone_screen {H K _} g.
Arguments gone_conf {H K _} g.

(** The history, the screen on display, and those that were left. *)
Record app H K `{Screens H K} := App {
  hist : H;
  cur : K;
  live : conf (screen_state cur);
  left : list (gone H K);
}.
Arguments App {H K _} hist cur live left.
Arguments hist {H K _} a.
Arguments cur {H K _} a.
Arguments live {H K _} a.
Arguments left {H K _} a.

(** Navigations among observations. *)
Definition nav_of (o : obs) : option (string * bool) :=
  match o with OCall (CNavigate p b) => Some (p, b) | _ => None end.
Definition since {S} (c c' : conf S) : list obs := drop (length (log c)) (log c').

Lemma since_app {S} (c c' : conf S) l : log c' = (log c ++ l)%list -> since c c' = l.
Proof. intros E. unfold since. by rewrite E, drop_app_length. Qed.

Section Machine.
Context {H K : Type} `{Router H} `{!Screens H K}.
Local Abbreviation app := (app H K).

(** What the routes make of a history: a screen, after following redirects,
    at most [fuel] of them; and whether any was followed. *)
Fixpoint settle (fuel : nat) (h : H) : option (K * H * bool) :=
  match screen_route (here h) with
  | Some (Screen s) => Some (s, h, false)
  | Some (NavigateTo p replace) =>
      match fuel with
      | O => None
      | Datatypes.S n => option_map (fun x => (fst x, true)) (settle n (go replace p h))
      end
  | None => None
  end.

(** Mounting the router on a history. *)
Definition open_at (io : inputs) (h : H) (s0 : gmap string string) : option app :=
  option_map (fun x =>
      App (snd (fst x)) (fst (fst x)) (boot (screen_component (snd (fst x)) (fst (fst x))) io s0) [])
    (settle 1 h).
(** Opening the document at a path. *)
Definition start (io : inputs) (path : string) (s0 : gmap string string) : option app :=
  open_at io (fresh path) s0.

(** The location is now [h]: the screen stays if it is still the one of the
    route, otherwise it is unmounted and the other one mounted. *)
Definition arrive (io : inputs) (h : H) (a : app) : app :=
  match settle 1 h with
  | Some (s, h', redirected) =>
      if bool_decide (s = cur a) && negb redirected then App h' (cur a) (live a) (left a)
      else
        let c := run io (screen_unmount (cur a) (st (live a))) (live a) in
        App h' s (boot (screen_component h' s) io (store c)) (Gone (cur a) c :: left a)
  | None => a
  end.

(** The navigations among new observations, followed in turn. *)
Definition follow (l : list obs) (h : H) : H :=
  foldl (fun h n => go (snd n) (fst n) h) h (omap nav_of l).
Definition react (io : inputs) (l : list obs) (a : app) : app :=
  match omap nav_of l with [] => a | _ => arrive io (follow l (hist a)) a end.

(** The screen on display moved to [c']. *)
Definition live_move (io : inputs) (a : app) (c' : conf (screen_state (cur a))) : app :=
  react io (since (live a) c') (App (hist a) (cur a) c' (left a)).

(** A task [p] of the [j]-th left screen [c] runs, without the [i]-th entry of
    what it has pending unless it repeats: the storage is shared. *)
Definition left_run (io : inputs) {s : K} (c : conf (screen_state s)) (i : nat)
    (repeat : bool) (p : prog (screen_state s) unit) (a : app) : conf (screen_state s) :=
  let c0 := set_store (store (live a)) c in
  run io p (if repeat then c0 else take_task i c0).
Definition left_move (io : inputs) (j : nat) {s : K} (c : conf (screen_state s)) (i : nat)
    (repeat : bool) (p : prog (screen_state s) unit) (a : app) : app :=
  let c' := left_run io c i repeat p a in
  react io (since c c')
    (App (hist a) (cur a) (set_store (store c') (live a)) (<[j := Gone s c']> (left a))).

Context (Q : request -> response -> Prop) (offers : forall s : K, screen_state s -> screen_action s -> Prop).

(** A move, with what it did: the application after it, and what was observed
    meanwhile. *)
Inductive moves (a : app) : app -> list obs -> Prop :=
| moves_live io c' :
    kept_step Q (screen_component (hist a) (cur a)) (offers (cur a)) (live a) c' ->
    moves a (live_move io a c') (since (live a) c')
| moves_timer io j s c i id b ms p :
    left a !! j = Some (Gone s c) -> pend c !! i = Some (id, Timer b ms p) ->
    moves a (left_move io j c i b p a) (since c (left_run io c i b p a))
| moves_settle io j s c i id q (k : res (reply q) -> prog (screen_state s) unit) o :
    left a !! j = Some (Gone s c) -> pend c !! i = Some (id, Waiting q k) -> outcome_ok Q q o ->
    moves a (left_move io j c i false (k o) a) (since c (left_run io c i false (k o) a))
| moves_travel io h : travel (hist a) h -> moves a (arrive io h a) [].

Inductive move (a : app) : app -> Prop :=
| move_does a' l : moves a a' l -> move a a'.

(** The configurations of the application opened at [path] on [s0]. *)
Inductive ran (path : string) (s0 : gmap string string) : app -> Prop :=
| ran_start io a : start io path s0 = Some a -> ran path s0 a
| ran_move a a' : ran path s0 a -> move a a' -> ran path s0 a'.

(** ** Invariants

    [Live] of the screen on display, [Left] of the screens that were left, [P]
    of the storage, [R] of what is observed, [named] of the locations. *)
Section Invariant.
Context (Live Left : forall s : K, conf (screen_state s) -> Prop).
Context (P : gmap string string -> Prop) (R : obs -> Prop) (named : string -> Prop).

(** What a leftover may do: it stays harmless, and so does the storage it
    leaves for the screen [s0] on display. *)
Definition leftover_runs {s0 s : K} (c0 : conf (screen_state s0)) (c c' : conf (screen_state s)) : Prop :=
  Left s c' /\ Live s0 (set_store (store c') c0) /\ Forall R (since c c').

Record tame : Prop := Tame {
  tame_named p : named p -> exists s, screen_route p = Some (Screen s);
  tame_nav p b : R (OCall (CNavigate p b)) -> named p;
  tame_boot s h io s0 : P s0 -> Live s (boot (screen_component h s) io s0);
  tame_step s h c c' : Live s c -> kept_step Q (screen_component h s) (offers s) c c' ->
    Live s c' /\ Forall R (since c c');
  tame_unmount s io c : Live s c ->
    Left s (run io (screen_unmount s (st c)) c) /\ P (store (run io (screen_unmount s (st c)) c));
  tame_timer s0 s io c0 (c : conf (screen_state s)) i id b ms p :
    Live s0 c0 -> Left s c -> pend c !! i = Some (id, Timer b ms p) ->
    let c1 := set_store (store c0) c in
    leftover_runs c0 c (run io p (if b then c1 else take_task i c1));
  tame_settle s0 s io c0 (c : conf (screen_state s)) i id q k o :
    Live s0 c0 -> Left s c -> pend c !! i = Some (id, Waiting q k) -> outcome_ok Q q o ->
    leftover_runs c0 c (run io (k o) (take_task i (set_store (store c0) c)));
}.
Hypothesis HT : tame.
Context `{!RouterLaws H}.

Record well (a : app) : Prop := Well {
  well_route : screen_route (here (hist a)) = Some (Screen (cur a));
  well_live : Live (cur a) (live a);
  well_left : Forall (fun g => Left (gone_screen g) (gone_conf g)) (left a);
  well_trail : Forall named (trail (hist a));
}.

Lemma follow_trail l h : Forall R l -> Forall named (trail h) -> Forall named (trail (follow l h)).
Proof.
  unfold follow. intros Hl. revert h. induction Hl as [|o l Ho _ IH]; intros h Hh; [done|].
  destruct o as [[]| |]; cbn; try by apply IH. apply IH, Forall_forall. intros q Hq.
  apply trail_go in Hq as [->|Hq]; [by eapply HT|]. rewrite Forall_forall in Hh. by apply Hh.
Qed.

Lemma arrive_well io h a : well a -> Forall named (trail h) -> well (arrive io h a).
Proof.
  intros Ha Hh. unfold arrive, settle.
  assert (named (here h)) as Hn by (rewrite Forall_forall in Hh; apply Hh, here_trail).
  destruct (tame_named HT _ Hn) as [s Hs]. rewrite Hs. cbn [negb]. rewrite andb_true_r.
  destruct (tame_unmount HT _ io _ (well_live _ Ha)) as [Hl Hst]. case_bool_decide as E.
  - subst s. destruct Ha. by split.
  - split; cbn [hist cur live left]; [done|by apply (tame_boot HT)|by constructor; [|apply Ha]|done].
Qed.

Lemma react_well io l a : well a -> Forall R l -> well (react io l a).
Proof.
  intros Ha Hl. unfold react. destruct (omap nav_of l); [done|].
  apply arrive_well; [done|]. apply follow_trail; [done|apply Ha].
Qed.

Lemma left_well io j s (c c' : conf (screen_state s)) a :
  well a -> left a !! j = Some (Gone s c) -> leftover_runs (live a) c c' ->
  well (react io (since c c')
    (App (hist a) (cur a) (set_store (store c') (live a)) (<[j := Gone s c']> (left a)))).
Proof.
  intros Ha Hj (Hc' & Hs & Hobs). apply react_well; [|done].
  destruct Ha as [W1 W2 W3 W4]. split; cbn [hist cur live left]; try done.
  by apply Forall_insert.
Qed.

Lemma moves_well a a' l : well a -> moves a a' l -> well a' /\ Forall R l.
Proof.
  intros Ha Hm. pose proof (well_left _ Ha) as Hleft.
  destruct Hm as [io c' Hs|io j s c i id b ms p Hj Hi|io j s c i id q k o Hj Hi Ho|io h Ht].
  - destruct (tame_step HT _ _ _ _ (well_live _ Ha) Hs) as [Hc' Hobs]. split; [|done].
    apply react_well; [|done]. destruct Ha. by split.
  - pose proof (Forall_lookup_1 _ _ _ _ Hleft Hj) as Hc.
    pose proof (tame_timer HT _ _ io _ _ _ _ _ _ _ (well_live _ Ha) Hc Hi) as Hr.
    split; [by apply left_well|apply Hr].
  - pose proof (Forall_lookup_1 _ _ _ _ Hleft Hj) as Hc.
    pose proof (tame_settle HT _ _ io _ _ _ _ _ _ _ (well_live _ Ha) Hc Hi Ho) as Hr.
    split; [by apply left_well|apply Hr].
  - split; [|done]. apply arrive_well; [done|]. rewrite (trail_travel _ _ Ht). apply Ha.
Qed.
End Invariant.

(** ** Single moves *)

(** An action [x] fired on the screen [s] that is on display; the [i]-th
    pending timer of the screen on display, and of the [j]-th one that was left,
    expires. *)
Definition tap (io : inputs) (s : K) (x : screen_action s) (a a' : app) : Prop :=
  exists h c lf, a = App h s c lf /\
    a' = live_move io (App h s c lf) (event_step (screen_component h s) io x c).
Definition expires (io : inputs) (i : nat) (a a' : app) : Prop :=
  exists id b ms p, pend (live a) !! i = Some (id, Timer b ms p) /\
    a' = live_move io a (timer_step (screen_component (hist a) (cur a)) io i b p (live a)).
Definition left_expires (io : inputs) (j i : nat) (a a' : app) : Prop :=
  exists s c id b ms p, left a !! j = Some (Gone s c) /\ pend c !! i = Some (id, Timer b ms p) /\
    a' = left_move io j c i b p a.

Lemma tap_move io s x a a' :
  (forall h c lf, a = App h s c lf -> offers s (st c) x) -> tap io s x a a' -> move a a'.
Proof. intros Hx (h & c & lf & -> & ->). econstructor. constructor. constructor. by eapply Hx. Qed.
Lemma expires_move io i a a' : expires io i a a' -> move a a'.
Proof. intros (id & b & ms & p & Hp & ->). econstructor. constructor. by econstructor. Qed.
Lemma left_expires_move io j i a a' : left_expires io j i a a' -> move a a'.
Proof. intros (s & c & id & b & ms & p & Hj & Hp & ->). econstructor. by eapply moves_timer. Qed.

Lemma arrive_mounts io h (a : app) s :
  screen_route (here h) = Some (Screen s) -> s <> cur a ->
  let c := run io (screen_unmount (cur a) (st (live a))) (live a) in
  arrive io h a = App h s (boot (screen_component h s) io (store c)) (Gone (cur a) c :: left a).
Proof.
  intros Hs Hne. unfold arrive, settle. rewrite Hs. by rewrite bool_decide_false.
Qed.

(** A step of the screen on display that makes no call, and one that does
    nothing but navigate to another screen. *)
Lemma live_move_quiet io h s (c c' : conf (screen_state s)) lf :
  log c' = log c -> live_move io (App h s c lf) c' = App h s c' lf.
Proof. intros E. unfold live_move, since. cbn [live cur hist left]. by rewrite E, drop_all. Qed.

(** A step of the screen on display, or a task of a left one, that does not
    navigate. *)
Lemma live_move_silent io (a : app) (c' : conf (screen_state (cur a))) :
  omap nav_of (since (live a) c') = [] -> live_move io a c' = App (hist a) (cur a) c' (left a).
Proof. intros E. unfold live_move, react. by rewrite E. Qed.
Lemma left_move_silent io j s (c : conf (screen_state s)) i b q (a : app) :
  let c' := left_run io c i b q a in
  omap nav_of (since c c') = [] ->
  left_move io j c i b q a =
  App (hist a) (cur a) (set_store (store c') (live a)) (<[j := Gone s c']> (left a)).
Proof. intros c' E. unfold left_move, react. fold c'. by rewrite E. Qed.

Context `{!RouterLaws H}.

Lemma live_move_navigates io h s (c c' : conf (screen_state s)) lf p b s' :
  log c' = (log c ++ [OCall (CNavigate p b)])%list ->
  screen_route p = Some (Screen s') -> s' <> s ->
  let cu := run io (screen_unmount s (st c')) c' in
  live_move io (App h s c lf) c' =
  App (go b p h) s' (boot (screen_component (go b p h) s') io (store cu)) (Gone s cu :: lf).
Proof.
  intros E Hs Hne. unfold live_move, since. cbn [live cur hist left]. rewrite E, drop_app_length.
  unfold react. cbn [omap list_omap nav_of follow foldl hist].
  rewrite (arrive_mounts io _ _ s'); [done| |done]. cbn. by rewrite here_go.
Qed.

Lemma left_move_navigates io j s (c : conf (screen_state s)) i q (a : app) p b s' :
  log (left_run io c i false q a) = (log c ++ [OCall (CNavigate p b)])%list ->
  screen_route p = Some (Screen s') -> s' <> cur a ->
  cur (left_move io j c i false q a) = s' /\ hist (left_move io j c i false q a) = go b p (hist a).
Proof.
  intros E Hs Hne. unfold left_move, since. rewrite E, drop_app_length.
  unfold react. cbn [omap list_omap nav_of follow foldl hist].
  rewrite (arrive_mounts io _ _ s'); [done| |done]. cbn. by rewrite here_go.
Qed.
End Machine.

(** ** A router: the entries behind, the current one, those ahead *)

(** The value of the parameter [k] in the query of a location. *)
Fixpoint query_part (s : string) : string :=
  match s with
  | EmptyString => ""
  | String c s' => if Ascii.eqb c "?"%char then s' else query_part s'
  end.
Definition param_of (k s : string) : val :=
  if String.prefix (k +:+ "=") s then VStr (str_drop (String.length (k +:+ "=")) s) else VNull.
Definition search_param (location k : string) : val := param_of k (query_part location).

Lemma query_part_app p s : no_query p = true -> query_part (p +:+ "?" +:+ s) = s.
Proof.
  induction p as [|c p IH]; [done|].
  change (no_query (String c p)) with (negb (Ascii.eqb c "?"%char || Ascii.eqb c "#"%char) && no_query p).
  change (query_part (String c p +:+ "?" +:+ s)) with
    (if Ascii.eqb c "?"%char then p +:+ "?" +:+ s else query_part (p +:+ "?" +:+ s)).
  rewrite andb_true_iff, negb_true_iff, orb_false_iff. intros [[-> _] Hp]. by apply IH.
Qed.

Record stack := Stack { behind : list string; now : string; ahead : list string }.
#[export] Instance stack_router : Router stack := {
  fresh p := Stack [] p [];
  here := now;
  go replace p h := Stack (if replace then behind h else now h :: behind h) p
                          (if replace then ahead h else []);
  travel h h' := (rev (behind h') ++ now h' :: ahead h' = rev (behind h) ++ now h :: ahead h)%list;
  trail h := (rev (behind h) ++ now h :: ahead h)%list;
  query h k := search_param (now h) k;
}.
#[export] Instance stack_laws : RouterLaws stack.
Proof.
  split; cbn; try done.
  - intros h. apply elem_of_app. right. by left.
  - intros [] p h q; cbn; rewrite ?elem_of_app, ?elem_of_cons; [tauto|].
    rewrite elem_of_nil. tauto.
  - intros h k. unfold search_param, param_of. case_match; [by right; eexists|by left].
  - intros b p k v h Hp _ _. unfold search_param. rewrite query_part_app by done. unfold param_of.
    rewrite <- str_app_assoc, str_drop_app. by rewrite (proj2 (prefix_app_iff _ _)) by by eexists.
Qed.

(** ** A matcher: case and trailing slashes ignored, up to the query or hash *)

Fixpoint pathname (s : string) : string :=
  match s with
  | EmptyString => ""
  | String c s' => if Ascii.eqb c "?"%char || Ascii.eqb c "#"%char then "" else String c (pathname s')
  end.
Fixpoint drop_slashes (s : string) : string :=
  match s with
  | EmptyString => ""
  | String c s' => if Ascii.eqb c "/"%char then drop_slashes s' else s
  end.
Definition normal_path (s : string) : string := lower_ascii (srev (drop_slashes (srev (pathname s)))).
Definition path_matcher : Matcher := fun p l => String.eqb (normal_path p) (normal_path l).

Lemma pathname_literal p t : literal p = true -> pathname p = p /\ pathname (p +:+ "?" +:+ t) = p.
Proof.
  unfold literal. rewrite !andb_true_iff. intros [[Hp _] _]. revert Hp. induction p as [|c p IH]; [done|].
  cbn [all_chars]. rewrite andb_true_iff. intros [Hc Hp]. destruct (IH Hp) as [E1 E2].
  change (String c p +:+ "?" +:+ t) with (String c (p +:+ "?" +:+ t)). cbn [pathname].
  assert (Ascii.eqb c "?"%char || Ascii.eqb c "#"%char = false) as ->; [|by rewrite E1, E2].
  apply orb_false_iff. split; apply Ascii.eqb_neq; intros ->; by vm_compute in Hc.
Qed.
Lemma drop_slashes_none s : startsWith s "/" = false -> drop_slashes s = s.
Proof.
  destruct s as [|c s]; [done|]. unfold startsWith. cbn. destruct (Ascii.eqb_spec c "/"%char) as [->|]; [|done].
  by destruct s.
Qed.
Lemma normal_literal p : literal p = true -> p <> "/" -> normal_path p = lower_ascii p.
Proof.
  intros Hp Hne. unfold normal_path. rewrite (proj1 (pathname_literal p "" Hp)).
  unfold literal in Hp. rewrite !andb_true_iff, orb_true_iff, negb_true_iff in Hp.
  destruct Hp as [_ [->%String.eqb_eq|Hs]]; [done|]. by rewrite drop_slashes_none, srev_involutive.
Qed.
#[local] Existing Instance path_matcher.
Lemma path_laws : MatcherLaws.
Proof.
  split; unfold matches, path_matcher.
  - intros p _. apply String.eqb_refl.
  - intros p q Hp. unfold normal_path. destruct (pathname_literal p q Hp) as [-> ->]. apply String.eqb_refl.
  - intros p p' l Hp Hp' H1%String.eqb_eq H2%String.eqb_eq. rewrite <- H2 in H1. clear H2.
    assert (forall q, literal q = true -> lower_ascii q <> "") as Hn by by intros [|c q].
    destruct (decide (p = "/")) as [->|Hne], (decide (p' = "/")) as [->|Hne']; [done| | |].
    + rewrite (normal_literal p') in H1 by done. by destruct (Hn p' Hp').
    + rewrite (normal_literal p) in H1 by done. by destruct (Hn p Hp).
    + by rewrite !normal_literal in H1.
Qed.
