(* ===== verification/Promises.v ===== *)
(** * What the server promises

    The shapes of the lists and records the panel reads, as the pages need
    them: nothing of the pages' theorems depends on more.  The values of the
    fields are not restricted beyond what rendering them takes. *)
From S2P Require Import Prelude JsStr JsNum JsVal React Effects Logic Api Typed.
Local Open Scope string_scope.

(** ** Shapes *)

Definition fields_scalar (fs : list string) (v : val) : bool := forallb (fun f => scalar (field f v)) fs.
Definition fields_num (fs : list string) (v : val) : bool := forallb (fun f => is_num (field f v)) fs.
Definition list_of (ok : val -> bool) (v : val) : bool :=
  match v with VArr l => forallb ok l | _ => false end.

Definition client_ok (u : val) : bool :=
  is_obj u && fields_num ["dataUsage"] u &&
  fields_scalar ["username"; "telegramId"; "protocol"; "groupName"; "subscriptionEnd"; "shadeLink"; "vpnIp"] u.
Definition group_ok (g : val) : bool :=
  is_obj g && fields_scalar ["name"; "description"; "members"; "dataLimit"] g.
Definition tariff_ok (t : val) : bool := is_obj t && fields_scalar ["name"; "price"] t.
Definition node_ok (n : val) : bool :=
  is_obj n && fields_scalar ["name"; "location"; "ipAddress"; "port"] n.
Definition rule_ok (r : val) : bool := is_obj r && fields_scalar ["name"; "trigger"; "action"] r.
Definition dash_ok (d : val) : bool :=
  is_obj d && fields_num ["downloadGB"; "uploadGB"] d &&
  fields_scalar ["totalClients"; "enabledClients"; "disabledClients"; "onlineClients"; "offlineClients";
                 "active24h"; "inactive24h"] d.
Definition sys_ok (y : val) : bool := is_obj y && fields_scalar ["uptime_human"] y.
Definition summary_ok (t : val) : bool :=
  is_obj t && fields_num ["todayGB"; "last7daysGB"; "last30daysGB"; "currentMonthGB"; "currentYearGB"] t.

Lemma list_of_inv ok v : list_of ok v = true -> exists l, v = VArr l /\ forallb ok l = true.
Proof. destruct v as [| | | | |l| |]; try done. by exists l. Qed.

(** The fields a shape speaks of, one hypothesis each. *)
Ltac shape H :=
  unfold client_ok, group_ok, tariff_ok, node_ok, rule_ok, dash_ok, sys_ok, summary_ok,
    fields_scalar, fields_num in H;
  cbn [forallb] in H; rewrite ?andb_true_iff in H; destruct_and? H.

(** ** Promises *)

(** The addresses the panel reads, with what their bodies look like, when they
    can be read at all. *)
Definition promises : list (string * (val -> bool)) :=
  [("/clients", list_of client_ok); ("/groups", list_of group_ok); ("/templates", list_of tariff_ok);
   ("/nodes", list_of node_ok); ("/rules", list_of rule_ok); ("/settings", is_obj);
   ("/dashboard", dash_ok); ("/system", sys_ok); ("/traffic/summary", summary_ok);
   ("/traffic/chart24h", list_of (fun _ => true))].

(** An answer as promised.  The status is free, and so are the answers to
    everything that is not a GET of one of the addresses. *)
Definition documented `{BuildEnv} (rq : request) (r : response) : Prop :=
  rq_method rq = "GET" ->
  Forall (fun p => rq_url rq = API +:+ fst p -> forall v, r_json r = Ok v -> snd p v = true) promises.

Section Documented.
Context `{BuildEnv}.

Lemma documented_get token path ok r v :
  (path, ok) ∈ promises -> documented (wrapped token (API +:+ path) GET) r -> r_json r = Ok v -> ok v = true.
Proof.
  intros Hin Hd Hv. specialize (Hd eq_refl). rewrite Forall_forall in Hd. by apply (Hd _ Hin).
Qed.

End Documented.

(** An update by an answer as promised. *)
Ltac promised :=
  let Hd := fresh "Hd" in let Hv := fresh "Hv" in
  lazymatch goal with
  | |- forall token r v s, documented (wrapped token (API +:+ ?p) GET) r -> _ =>
      intros ? ? ? ? Hd Hv; eapply (documented_get _ p) in Hd;
      [|unfold promises; repeat first [apply list_elem_of_here|apply list_elem_of_further]|exact Hv]
  end.

(** ** What a click may do *)

(** The argument a handler reads at click time is there to be read. *)
Definition evaluates (x : expr) : Prop := exists v, x = Ok v.

(** Every action among the reactions [l] to clicks satisfies [P]. *)
Definition all_fire {A} (P : A -> Prop) (l : list (option val * option A)) : Prop :=
  Forall (fun p => match snd p with Some a => P a | None => True end) l.

Lemma shows_found {A} (e : event) (j : jsx A) l (P : A -> Prop) :
  finds clickable (fun n => (attr_val "title" n, fire "onClick" e n)) j l -> all_fire P l ->
  exists ns, j = Ok ns /\ forall t a, (t, Some a) ∈ clicks e ns -> P a.
Proof.
  intros Hf Hl. destruct (finds_clicks e _ _ Hf) as (ns & Hj & Hc). exists ns. split; [done|].
  intros t a Hin. rewrite Hc in Hin. unfold all_fire in Hl. rewrite Forall_forall in Hl. apply (Hl _ Hin).
Qed.
Lemma all_fire_rows {A} (P : A -> Prop) (ok : val -> bool) (g : val -> list (option val * option A)) l :
  forallb ok l = true -> (forall v, ok v = true -> all_fire P (g v)) -> all_fire P (concat (map g l)).
Proof.
  intros Hl Hg. apply Forall_concat, Forall_map, Forall_forall. intros v Hin. apply Hg.
  rewrite forallb_forall in Hl. by apply Hl, list_elem_of_In.
Qed.

(** ** Pages that keep their word in turn

    A page under that environment: an invariant of its state under which its
    view renders, and what its elements offer to the user; the step relation
    of [Typed] then fires nothing else. *)
Class Page `{BuildEnv} {S A : Type} (C : component S A) (view : S -> jsx A) := {
  page_typed : S -> Prop;
  page_offers : S -> A -> Prop;
  page_kept : kept_component documented C page_offers page_typed;
  page_shows : forall s e, page_typed s ->
    exists ns, view s = Ok ns /\ forall t a, (t, Some a) ∈ clicks e ns -> page_offers s a;
}.

(** A page is sound: every state it can reach with such a server and such
    clicks renders, and its clicks are such. *)
Definition sound `{BuildEnv} {S A} (C : component S A) (view : S -> jsx A) `{!Page C view} : Prop :=
  forall c, kept_reachable documented C page_offers c ->
    page_typed (st c) /\
    forall e, exists ns, view (st c) = Ok ns /\
      forall t a, (t, Some a) ∈ clicks e ns -> page_offers (st c) a.

Lemma page_sound `{BuildEnv} {S A} (C : component S A) view `{!Page C view} : sound C view.
Proof.
  intros c Hc. pose proof (kept_invariant _ _ _ _ page_kept c Hc) as Ht. split; [done|].
  intros e. by apply page_shows.
Qed.
