(* ===== verification/Work.v ===== *)
(** * How much work a handler leaves behind

    [bounded n p]: [p] settles at most [n] promises and one-shot timers, in it
    and in everything it spawns or schedules, whatever the answers.  Repeating
    timers are not counted, but what one expiration does must be bounded too.
    A component whose handlers are bounded comes to rest once the user stops:
    every chain of settling promises and expiring one-shot timers is finite,
    with a bound known beforehand. *)
From S2P Require Import Prelude JsStr JsNum JsVal React Effects Logic Api.
Local Open Scope string_scope.
Local Open Scope nat_scope.

Fixpoint bounded {S A : Type} (n : nat) (p : prog S A) : Prop :=
  match p with
  | Ret _ | Throw _ => True
  | Upd _ k => bounded n k
  | Call _ k => forall v, bounded n (k v)
  | Await _ k => match n with O => False | Datatypes.S m => forall v, bounded m (k v) end
  | Spawn q k => exists a b, a + b <= n /\ bounded a q /\ bounded b k
  | SetTimer repeat _ q k =>
      if repeat then (exists m, bounded m q) /\ forall id, bounded n (k id)
      else exists a b, Datatypes.S (a + b) <= n /\ bounded a q /\ forall id, bounded b (k id)
  | ClearTimer _ k => bounded n k
  end.

Definition Bounded {S A : Type} (p : prog S A) : Prop := exists n, bounded n p.

Section Bounded.
Context {S : Type}.

Lemma bounded_mono {A} (p : prog S A) n m : n <= m -> bounded n p -> bounded m p.
Proof.
  revert n m; induction p as [A a|A e|A f k IH|A c k IH|A q k IH|A q IHq k IH|A b ms q IHq k IH|A id k IH];
    intros n m Hnm; cbn; try done.
  - by apply IH.
  - intros H v. by apply (IH v n).
  - destruct n as [|n], m as [|m]; try done; [lia|]. intros H v. apply (IH v n); [lia|done].
  - intros (x & y & Hle & Hx & Hy). exists x, y. split; [lia|done].
  - destruct b.
    + intros [Hq Hk]. split; [done|]. intros id. by apply (IH id n).
    + intros (x & y & Hle & Hx & Hy). exists x, y. split; [lia|done].
  - by apply IH.
Qed.

Lemma bounded_bind {A B} a b (p : prog S A) (f : A -> prog S B) :
  bounded a p -> (forall x, bounded b (f x)) -> bounded (a + b) (bind p f).
Proof.
  intros Hp Hf. revert a Hp.
  induction p as [A y|A e|A g k IH|A c k IH|A q k IH|A q _ k IH|A r ms q _ k IH|A id k IH];
    intros a; cbn; auto.
  - intros _. apply (bounded_mono _ b); [lia|done].
  - destruct a as [|a]; [done|]. cbn. auto.
  - intros (x & y & Hle & Hx & Hy). exists x, (y + b). split; [lia|]. auto.
  - destruct r.
    + intros [Hq Hk]. auto.
    + intros (x & y & Hle & Hx & Hy). exists x, (y + b). split; [lia|]. auto.
Qed.

Lemma bounded_assoc {A B D} n (p : prog S A) (f : A -> prog S B) (g : B -> prog S D) :
  bounded n (bind p (fun x => bind (f x) g)) -> bounded n (bind (bind p f) g).
Proof.
  revert n; induction p as [A a|A e|A h k IH|A c k IH|A q k IH|A q _ k IH|A r ms q _ k IH|A id k IH];
    intros n; cbn; auto.
  - destruct n; auto.
  - intros (x & y & Hle & Hx & Hy). exists x, y. auto.
  - destruct r.
    + intros [Hq Hk]. auto.
    + intros (x & y & Hle & Hx & Hy). exists x, y. auto.
Qed.

Lemma bounded_try_catch {A} a b (p : prog S A) h :
  bounded a p -> (forall e, bounded b (h e)) -> bounded (a + b) (try_catch p h).
Proof.
  intros Hp Hh. revert a Hp.
  induction p as [A y|A e|A g k IH|A c k IH|A q k IH|A q _ k IH|A r ms q _ k IH|A id k IH];
    intros a; cbn; auto.
  - intros _. apply (bounded_mono _ b); [lia|done].
  - destruct a as [|a]; [done|]. cbn. auto.
  - intros (x & y & Hle & Hx & Hy). exists x, (y + b). split; [lia|]. auto.
  - destruct r.
    + intros [Hq Hk]. auto.
    + intros (x & y & Hle & Hx & Hy). exists x, (y + b). split; [lia|]. auto.
Qed.

Lemma bounded_try_finally {A} a b (p : prog S A) f :
  bounded a p -> bounded b f -> bounded (a + b) (try_finally p f).
Proof.
  intros Hp Hf. assert (forall q : prog S A, bounded 0 q -> bounded b (bind f (fun _ => q))) as Hend.
  { intros q Hq. rewrite <- (Nat.add_0_r b). by apply bounded_bind. }
  revert a Hp.
  induction p as [A y|A e|A g k IH|A c k IH|A q k IH|A q _ k IH|A r ms q _ k IH|A id k IH];
    intros a; cbn; auto.
  - intros _. apply (bounded_mono _ b); [lia|by apply Hend].
  - intros _. apply (bounded_mono _ b); [lia|by apply Hend].
  - destruct a as [|a]; [done|]. cbn. auto.
  - intros (x & y & Hle & Hx & Hy). exists x, (y + b). split; [lia|]. auto.
  - destruct r.
    + intros [Hq Hk]. auto.
    + intros (x & y & Hle & Hx & Hy). exists x, (y + b). split; [lia|]. auto.
Qed.

(** The rules the proofs of handlers use: a step that costs nothing, one, two. *)
Lemma bounded_free {A B} n (p : prog S A) (f : A -> prog S B) :
  bounded 0 p -> (forall x, bounded n (f x)) -> bounded n (bind p f).
Proof. apply (bounded_bind 0 n). Qed.
Lemma bounded_one {A B} n (p : prog S A) (f : A -> prog S B) :
  bounded 1 p -> (forall x, bounded n (f x)) -> bounded (Datatypes.S n) (bind p f).
Proof. apply (bounded_bind 1 n). Qed.
Lemma bounded_two {A B} n (p : prog S A) (f : A -> prog S B) :
  bounded 2 p -> (forall x, bounded n (f x)) -> bounded (Datatypes.S (Datatypes.S n)) (bind p f).
Proof. apply (bounded_bind 2 n). Qed.
Lemma bounded_caught {A} n (p : prog S A) h :
  bounded n p -> (forall e, bounded 0 (h e)) -> bounded n (try_catch p h).
Proof. intros Hp Hh. rewrite <- (Nat.add_0_r n). by apply bounded_try_catch. Qed.
Lemma bounded_finally {A} n (p : prog S A) f :
  bounded n p -> bounded 0 f -> bounded n (try_finally p f).
Proof. intros Hp Hf. rewrite <- (Nat.add_0_r n). by apply bounded_try_finally. Qed.

Lemma bounded_lift {A} n (r : res A) : bounded n (lift (S:=S) r).
Proof. by destruct r. Qed.
Lemma bounded_do n c : bounded n (do_ (S:=S) c).
Proof. by intros [?|?]. Qed.
Lemma bounded_call n c : bounded n (call (S:=S) c).
Proof. intros v. apply bounded_lift. Qed.
Lemma bounded_confirm n m : bounded n (confirm (S:=S) m).
Proof. by intros [?|?]. Qed.
Lemma bounded_await n q : bounded (Datatypes.S n) (await (S:=S) q).
Proof. intros v. apply bounded_lift. Qed.
Lemma bounded_json n r : bounded (Datatypes.S n) (response_json (S:=S) r).
Proof. intros v. destruct v; [apply bounded_lift|done]. Qed.
Lemma bounded_on_response n r : bounded n (on_response (S:=S) r).
Proof.
  unfold on_response. case_match; [|done]. apply bounded_free; [apply bounded_call|].
  intros v. case_match; [done|]. apply bounded_free; [apply bounded_do|]. intros _. apply bounded_do.
Qed.
Lemma bounded_fetch n url i : bounded (Datatypes.S n) (fetch (S:=S) url i).
Proof.
  unfold fetch. apply bounded_free; [apply bounded_call|]. intros v.
  apply bounded_free; [apply bounded_lift|]. intros w. apply bounded_one; [apply bounded_await|].
  intros r. apply bounded_free; [apply bounded_on_response|done].
Qed.
Lemma bounded_forget n p : bounded n p -> bounded n (forget (S:=S) p).
Proof. intros Hp. exists n, 0. split; [lia|]. split; [by apply bounded_caught|done]. Qed.
Lemma bounded_spawn n p : bounded n p -> bounded n (spawn (S:=S) p).
Proof. intros Hp. exists n, 0. split; [lia|done]. Qed.
Lemma bounded_fetch_into n url set : bounded (Datatypes.S (Datatypes.S n)) (fetch_into (S:=S) url set).
Proof.
  apply bounded_forget. apply bounded_one; [apply bounded_fetch|]. intros r.
  apply bounded_one; [apply bounded_json|done].
Qed.
Lemma bounded_timeout n p ms : bounded n p -> bounded (Datatypes.S n) (setTimeout (S:=S) p ms).
Proof. intros Hp. exists n, 0. split; [lia|done]. Qed.
Lemma bounded_interval n p ms : Bounded p -> bounded n (setInterval (S:=S) p ms).
Proof. done. Qed.
Lemma bounded_for_each {A} n (l : list A) body :
  (forall a, bounded n (body a)) -> bounded (length l * n) (for_each (S:=S) l body).
Proof. intros Hb. induction l as [|a l IH]; [done|]. by apply bounded_bind. Qed.
End Bounded.

(** The structural rules, chosen by the head of the program; the bound is a
    numeral. *)
Ltac bounded_leaf :=
  lazymatch goal with
  | |- bounded _ (lift _) => apply bounded_lift
  | |- bounded _ (upd _) => exact I || done
  | |- bounded _ (do_ _) => apply bounded_do
  | |- bounded _ (alert _) => apply bounded_do
  | |- bounded _ (navigate _) => apply bounded_do
  | |- bounded _ (call _) => apply bounded_call
  | |- bounded _ (ref_value _) => apply bounded_call
  | |- bounded _ (confirm _) => apply bounded_confirm
  | |- bounded _ (clearTimer _) => exact I
  | |- bounded _ skip => exact I
  | |- bounded _ (Ret _) => exact I
  | |- bounded _ (Throw _) => exact I
  | |- bounded (Datatypes.S _) (await _) => apply bounded_await
  | |- bounded (Datatypes.S _) (response_json _) => apply bounded_json
  | |- bounded (Datatypes.S _) (fetch _ _) => apply bounded_fetch
  | |- bounded (Datatypes.S _) (fetch_into _ _) => apply bounded_fetch_into
  end.
Ltac bounded_step :=
  cbv beta;
  lazymatch goal with
  | |- Bounded _ => exists 16
  | |- bounded _ (bind (bind _ _) _) => apply bounded_assoc
  | |- bounded _ (bind (if ?b then _ else _) _) => destruct b
  | |- bounded _ (bind (match ?x with _ => _ end) _) => destruct x
  | |- bounded _ (bind ?p _) =>
      first [apply bounded_free; [bounded_leaf|intros]
            |apply bounded_one; [bounded_leaf|intros]
            |apply bounded_two; [bounded_leaf|intros]
            |lazymatch p with
             | setTimeout _ _ => apply bounded_one; [apply bounded_timeout|intros]
             | try_catch _ _ => apply bounded_free; [apply bounded_caught; [|intros]|intros]
             | setInterval _ _ => apply bounded_free; [apply bounded_interval|intros]
             | _ => let h := head_of p in progress unfold h
             end]
  | |- bounded _ (try_catch _ _) => apply bounded_caught; [|intros]
  | |- bounded _ (try_finally _ _) => apply bounded_finally
  | |- bounded _ (forget _) => apply bounded_forget
  | |- bounded _ (spawn _) => apply bounded_spawn
  | |- bounded (Datatypes.S _) (setTimeout _ _) => apply bounded_timeout
  | |- bounded _ (setInterval _ _) => apply bounded_interval
  | |- bounded _ (when ?b _) => destruct b; cbn [when]
  | |- bounded _ (if ?b then _ else _) => destruct b
  | |- bounded _ (match ?x with _ => _ end) => destruct x
  | |- bounded _ ?p => first [bounded_leaf | let h := head_of p in progress unfold h]
  end.
Ltac bounded_tac := repeat bounded_step.

(** ** Components that come to rest *)

Section Rest.
Context {S A : Type} (C : component S A).

(** A step nobody asks for: a promise settles or a one-shot timer expires. *)
Inductive settles : conf S -> conf S -> Prop :=
| settles_promise io i id q k o c :
    pend c !! i = Some (id, Waiting q k) -> settles c (settle_step C io i k o c)
| settles_timer io i id ms p c :
    pend c !! i = Some (id, Timer false ms p) -> settles c (timer_step C io i false p c).

Lemma settles_step c c' : settles c c' -> step C c c'.
Proof. destruct 1; by econstructor. Qed.

Definition is_repeating (t : task S) : bool :=
  match t with Timer true _ _ => true | _ => false end.

(** Nothing pending but repeating timers. *)
Definition at_rest (c : conf S) : Prop :=
  Forall (fun t => exists ms p, snd t = Timer true ms p) (pend c).

Record bounded_work : Prop := BoundedWork {
  work_mount : Bounded (c_mount C);
  work_handle : forall s a, Bounded (c_handle C s a);
  work_commit : forall s s', bounded 0 (c_commit C s s');
}.

(** The work a task of the queue may still do. *)
Definition task_work (t : nat * task S) (n : nat) : Prop :=
  match snd t with
  | Waiting _ k => exists m, n = Datatypes.S m /\ forall v, bounded m (k v)
  | Timer false _ p => exists m, n = Datatypes.S m /\ bounded m p
  | Timer true _ p => n = 0 /\ Bounded p
  end.
Definition work (c : conf S) (n : nat) : Prop :=
  exists ws, Forall2 task_work (pend c) ws /\ sum_list ws <= n.

Lemma work_push t n w c : task_work (next c, t) n -> work c w -> work (push t c) (w + n).
Proof.
  intros Ht (ws & Hws & Hle). exists (ws ++ [n])%list. split.
  - cbn. by apply Forall2_app; [|constructor].
  - rewrite sum_list_with_app. cbn. lia.
Qed.

Lemma work_take c i t w :
  pend c !! i = Some t -> work c w ->
  exists n, task_work t n /\ n <= w /\ work (take_task i c) (w - n).
Proof.
  intros Hi (ws & Hws & Hle). destruct (Forall2_lookup_l _ _ _ _ _ Hws Hi) as (n & Hn & Ht).
  exists n. split; [done|].
  assert (sum_list ws = n + sum_list (delete i ws)) as Hsum
    by exact (sum_list_with_Permutation_proper id _ _ (delete_Permutation _ _ _ Hn)).
  split; [lia|]. exists (delete i ws). split; [by apply Forall2_delete|lia].
Qed.

Lemma work_drop id c w : work c w -> work (drop_timer id c) w.
Proof.
  intros (ws & Hws & Hle). unfold work, drop_timer. cbn.
  assert (exists ws', Forall2 task_work (List.filter (fun t => negb (is_timer id t)) (pend c)) ws' /\
                      sum_list ws' <= sum_list ws) as (ws' & H1 & H2); [|exists ws'; split; [done|lia]].
  clear Hle. induction Hws as [|t n l ws Ht _ (ws' & H1 & H2)]; cbn; [by exists []|].
  destruct (negb _); [exists (n :: ws')|exists ws']; (split; [by try constructor|cbn; lia]).
Qed.

Lemma work_run io p n w c : bounded n p -> work c w -> work (run io p c) (w + n).
Proof.
  revert n w c. induction p as [a|e|f k IH|cm k IH|q k IH|q k IHq IH|b ms q k IHq IH|id k IH]
    using prog_unit_ind; cbn [bounded run]; intros n w c Hp Hc.
  - destruct Hc as (ws & H & Hle). exists ws. split; [done|lia].
  - destruct Hc as (ws & H & Hle). exists ws. split; [done|lia].
  - by apply IH.
  - destruct (exec io (store c) cm) as [r s]. by apply IH.
  - destruct n as [|n]; [done|].
    apply work_push; [by exists n|]. by destruct q.
  - destruct Hp as (x & y & Hle & Hq & Hk).
    assert (work (run io k (run io q c)) (w + x + y)) as (ws & H & Hw) by auto.
    exists ws. split; [done|lia].
  - destruct b.
    + destruct Hp as [Hq Hk]. apply IH; [done|]. rewrite <- (Nat.add_0_r w). by apply work_push.
    + destruct Hp as (x & y & Hle & Hq & Hk).
      assert (work (run io (k (next c)) (push (Timer false ms q) c)) (w + Datatypes.S x + y)) as (ws & H & Hw).
      { apply IH; [done|]. apply work_push; [by exists x|done]. }
      exists ws. split; [done|lia].
  - apply IH; [done|]. by apply work_drop.
Qed.

Hypothesis HC : bounded_work.

Lemma work_commit_after io old c w : work c w -> work (commit_after C io old c) w.
Proof. intros Hc. rewrite <- (Nat.add_0_r w). apply work_run; [apply HC|done]. Qed.

(** Each such step does one piece of the work. *)
Lemma settles_work c c' w : settles c c' -> work c w -> exists w', w = Datatypes.S w' /\ work c' w'.
Proof.
  intros Hs Hc. destruct Hs as [io i id q k o c Hi|io i id ms p c Hi];
    destruct (work_take _ _ _ _ Hi Hc) as (n & (m & -> & Hm) & Hle & Ht);
    (exists (w - 1); split; [lia|]); apply work_commit_after;
    replace (w - 1) with (w - Datatypes.S m + m) by lia; by apply work_run.
Qed.

Lemma reachable_work c : reachable C c -> exists w, work c w.
Proof.
  induction 1 as [io s0|c c' _ [w IH] Hs].
  - destruct (work_mount HC) as [n Hn]. exists (0 + n). apply work_run; [done|]. by exists [].
  - destruct Hs as [io a c|io i id q k o c Hi|io i id b ms p c Hi].
    + destruct (work_handle HC (st c) a) as [n Hn]. exists (w + n).
      by apply work_commit_after, work_run.
    + destruct (settles_work c (settle_step C io i k o c) w) as (w' & _ & H); [|done|by exists w'].
      by eapply settles_promise.
    + destruct b.
      * destruct (work_take _ _ _ _ Hi IH) as (n & (-> & m & Hm) & _). exists (w + m).
        by apply work_commit_after, work_run.
      * destruct (settles_work c (timer_step C io i false p c) w) as (w' & _ & H); [|done|by exists w'].
        by eapply settles_timer.
Qed.

(** While anything but repeating timers is pending, something can settle. *)
Lemma rest_or_settles c : at_rest c \/ exists c', settles c c'.
Proof.
  unfold at_rest. destruct (decide (Forall (fun t => is_repeating (snd t) = true) (pend c))) as [H|H].
  - left. eapply Forall_impl; [exact H|]. intros [id [q k|[] ms p]]; cbn; [done|eauto|done].
  - right. apply not_Forall_Exists in H; [|intros ?; apply _].
    apply Exists_exists in H as (t & Hin & Ht). apply list_elem_of_lookup in Hin as [i Hi].
    destruct t as [id [q k|[] ms p]]; cbn in Ht; [|done|].
    + exists (settle_step C quiet_browser i k (Err (UserError "")) c). by eapply settles_promise.
    + exists (timer_step C quiet_browser i false p c). by eapply settles_timer.
Qed.
End Rest.

(** Once the user stops, the component comes to rest: from every reachable
    state at most [n] promises and one-shot timers settle, and when none is
    left to settle, only repeating timers are pending. *)
Definition comes_to_rest {S A} (C : component S A) : Prop :=
  forall c, reachable C c ->
    exists n, forall k c', nsteps (settles C) k c c' ->
      k <= n /\ (k = n -> at_rest c') /\ (at_rest c' \/ exists c'', settles C c' c'').

Lemma work_rests {S A} (C : component S A) : bounded_work C -> comes_to_rest C.
Proof.
  intros HC c Hr. destruct (reachable_work C HC c Hr) as [w Hw]. exists w. clear Hr.
  assert (forall k c', nsteps (settles C) k c c' -> exists w', w = k + w' /\ work c' w') as Hsteps.
  { intros k c' Hk. revert w Hw. induction Hk as [c|k c1 c2 c3 H12 _ IH]; intros w Hw; [by exists w|].
    destruct (settles_work C HC _ _ _ H12 Hw) as (w1 & -> & H2).
    destruct (IH w1 H2) as (w2 & -> & H3). by exists w2. }
  intros k c' Hk. destruct (Hsteps k c' Hk) as (w' & -> & Hw'). split; [lia|].
  split; [|apply (rest_or_settles C)].
  intros Heq. destruct (rest_or_settles C c') as [|[c'' Hs]]; [done|].
  destruct (settles_work C HC _ _ _ Hs Hw') as (w'' & -> & _). lia.
Qed.
