(* ===== verification/Forms.v ===== *)
(** * Forms read through refs, selections kept as arrays

    Every form of the admin panel reads its inputs with [r.current?.value] when
    it is submitted, falls back to a default with [||], posts the result and
    refreshes a list.  The lemmas all of them share; and what
    clicking the check boxes of rows does to the array of the selected. *)
From S2P Require Import Prelude JsStr JsNum JsVal React Effects Logic Api.
Local Open Scope string_scope.
Local Open Scope js_scope.

(** The inputs hold [refs] (an unmounted one holds nothing) while a handler
    runs. *)
Definition fields_are (refs : string -> option string) : inputs -> Prop :=
  fun io => forall r, in_ref io r = refs r.

(** [r.current?.value || d]. *)
Definition field_or (refs : string -> option string) (r : string) (d : val) : val :=
  match refs r with Some v => if str_truthy v then VStr v else d | None => d end.
(** [r.current?.value?.trim()], when it is not blank. *)
Definition trimmed (refs : string -> option string) (r : string) : option string :=
  match refs r with
  | Some v => if str_truthy (trim v) then Some (trim v) else None
  | None => None
  end.
(** A number as JSON carries it. *)
Definition json_num (n : num) : val := if num_finite n then VNum n else VNull.

Section Forms.
Context (refs : string -> option string).

Lemma json_field_or r d : json d = Some d -> json (field_or refs r d) = Some (field_or refs r d).
Proof. intros Hd. unfold field_or. by repeat case_match; subst. Qed.

Lemma or_field r d : jor (lit (opt_str (refs r))) (lit d) = Ok (field_or refs r d).
Proof. unfold jor, field_or. cbn. destruct (refs r); cbn; [by destruct (str_truthy _)|done]. Qed.

Lemma field_or_cases r d :
  field_or refs r d = d \/ exists v, refs r = Some v /\ str_truthy v = true /\ field_or refs r d = VStr v.
Proof.
  unfold field_or. destruct (refs r) as [v|]; [|by left].
  destruct (str_truthy v) eqn:E; [|by left]. right. by exists v.
Qed.

(** The validation every form starts with. *)
Lemma trimmed_field r :
  match trimmed refs r with
  | Some v => jtrim (opt_str (refs r)) = VStr v /\ truthy (VStr v) = true
  | None => truthy (jtrim (opt_str (refs r))) = false
  end.
Proof.
  unfold trimmed. destruct (refs r) as [v|]; [|done].
  destruct (str_truthy (trim v)) eqn:E; [by split|done].
Qed.

Section Paths.
Context {S : Type}.

(** Reading an input whose text is known, under any knowledge of the rest. *)
Lemma path_ref_known (K : inputs -> Prop) r v {A} (f : val -> prog S A) t x :
  (forall io, K io -> in_ref io r = v) ->
  path K (bind (ref_value r) f) t x ->
  exists t', t = OCall (CRefValue r) :: t' /\ path K (f (opt_str v)) t' x.
Proof.
  intros HK (w & t' & (io & st & Hio & ->) & -> & H1). exists t'. split; [done|].
  cbn in H1. by rewrite (HK io Hio) in H1.
Qed.

Local Abbreviation P := (fields_are refs).

Lemma path_ref_bind {A} r (f : val -> prog S A) t x :
  path P (bind (ref_value r) f) t x ->
  exists t', t = OCall (CRefValue r) :: t' /\ path P (f (opt_str (refs r))) t' x.
Proof.
  apply path_ref_known. by intros io Hio.
Qed.
End Paths.
End Forms.

(** ** Post, then refresh *)

Section Submit.
Context {S : Type} (P : inputs -> Prop).

(** What such a handler sends, and how it ends: with the refresh, or rejected
    with nothing more sent when the request fails. *)
Definition submits (url : string) (i : init) (refreshes : list string)
    (rqs : list request) (x : res unit) : Prop :=
  exists token rest,
    rqs = wrapped token url i :: rest /\
    ((x = Ok tt /\ map route rest = map (fun u => ("GET", u)) refreshes) \/
     (exists e, x = Err e /\ rest = [])).

Lemma path_submit url i (k : response -> prog S unit) refreshes t x :
  (forall r t' x', path P (k r) t' x' ->
     x' = Ok tt /\ map route (sent t') = map (fun u => ("GET", u)) refreshes) ->
  path P (let! r := fetch url i in k r) t x -> submits url i refreshes (sent t) x.
Proof.
  intros Hk Hrun.
  apply path_bind in Hrun as [(r & t1 & t2 & -> & H1 & H2)|(e & H1 & ->)];
    apply path_fetch in H1 as [token Ht]; unfold submits.
  - rewrite sent_app, Ht. apply Hk in H2. eexists token, _. split; [reflexivity|]. by left.
  - rewrite Ht. exists token, []. split; [done|]. right. by exists e.
Qed.

Lemma path_refresh url set t (x : res unit) :
  path P (fetch_into (S:=S) url set) t x -> x = Ok tt /\ map route (sent t) = [("GET", url)].
Proof. intros H1. apply path_fetch_into in H1 as [-> [token ->]]. done. Qed.

Lemma path_refresh_both url1 set1 url2 set2 t (x : res unit) :
  path P (do! fetch_into (S:=S) url1 set1 in fetch_into url2 set2) t x ->
  x = Ok tt /\ map route (sent t) = [("GET", url1); ("GET", url2)].
Proof.
  intros H1. apply path_fetch_into_bind in H1 as (token & t1 & t2 & -> & Ht & H2).
  apply path_refresh in H2 as [-> H2]. by rewrite sent_app, map_app, Ht, H2.
Qed.
End Submit.

(** A refused form: one alert, nothing sent. *)
Definition refused (reads : list string) (message : string) (t : list obs) : Prop :=
  t = (map (fun r => OCall (CRefValue r)) reads ++ [OCall (CAlert message)])%list.

(** ** Selections kept as arrays *)

(** What both pages do with [prev] when [id] is clicked. *)
Definition toggled (id : val) (prev : list val) : list val :=
  if includes_val prev id
  then List.filter (fun x => negb (strict_eq x id)) prev
  else (prev ++ [id])%list.

Lemma includes_val_str l s : includes_val l (VStr s) = true <-> VStr s ∈ l.
Proof.
  unfold includes_val. rewrite existsb_exists. split.
  - intros (v & Hin & Hv). apply same_value_zero_str in Hv as ->. by apply list_elem_of_In.
  - intros Hin. exists (VStr s). split; [by apply list_elem_of_In|by apply same_value_zero_str].
Qed.

Lemma elem_of_drop l s x :
  x ∈ List.filter (fun v => negb (strict_eq v (VStr s))) l <-> x ∈ l /\ x <> VStr s.
Proof.
  rewrite list_elem_of_In, List.filter_In, <- list_elem_of_In.
  rewrite negb_true_iff, <- not_true_iff_false, strict_eq_str. done.
Qed.

Lemma toggled_elem s prev x :
  x ∈ toggled (VStr s) prev <->
  (x <> VStr s /\ x ∈ prev) \/ (x = VStr s /\ VStr s ∉ prev).
Proof.
  unfold toggled. destruct (includes_val prev (VStr s)) eqn:E.
  - apply includes_val_str in E. rewrite elem_of_drop. split; [tauto|].
    intros [H|[-> H]]; [tauto|done].
  - assert (VStr s ∉ prev) as Hni by (rewrite <- includes_val_str; congruence).
    rewrite elem_of_app, list_elem_of_singleton. split; [|tauto].
    intros [H| ->]; [left; split; [by intros ->|done]|by right].
Qed.

Lemma NoDup_list_filter {A} (p : A -> bool) l : NoDup l -> NoDup (List.filter p l).
Proof.
  induction 1 as [|x l Hx _ IH]; cbn; [constructor|]. case_match; [|done].
  constructor; [|done]. rewrite list_elem_of_In, List.filter_In, <- list_elem_of_In. tauto.
Qed.

Lemma toggled_NoDup s prev : NoDup prev -> NoDup (toggled (VStr s) prev).
Proof.
  intros Hnd. unfold toggled. destruct (includes_val prev (VStr s)) eqn:E.
  - by apply NoDup_list_filter.
  - assert (VStr s ∉ prev) as Hni by (rewrite <- includes_val_str; congruence).
    apply NoDup_app. split; [done|]. split; [|apply NoDup_singleton].
    intros x Hx Hx'. apply list_elem_of_singleton in Hx' as ->. done.
Qed.

(** Clicking twice restores the selection, up to its order. *)
Lemma toggled_twice s prev : NoDup prev -> toggled (VStr s) (toggled (VStr s) prev) ≡ₚ prev.
Proof.
  intros Hnd. apply NoDup_Permutation; [by do 2 apply toggled_NoDup|done|].
  intros x. rewrite !toggled_elem.
  destruct (includes_val prev (VStr s)) eqn:E.
  - apply includes_val_str in E. split; [|destruct (strict_eq x (VStr s)) eqn:Ex].
    + intros [[Hne [H|H]]|[-> _]]; tauto.
    + apply strict_eq_str in Ex as ->. right. tauto.
    + intros H. left. assert (x <> VStr s) by (intros ->; by rewrite (proj2 (strict_eq_str _ _) eq_refl) in Ex).
      tauto.
  - assert (VStr s ∉ prev) as Hni by (rewrite <- includes_val_str; congruence).
    split; [intros [[Hne [H|H]]|[-> H]]; tauto|].
    intros H. left. assert (x <> VStr s) by by intros ->. tauto.
Qed.

(** Membership after one click, and after a sequence of clicks: an id is in the
    selection iff its membership at the start was flipped an odd number of
    times. *)
Lemma toggled_includes i j l :
  includes_val (toggled (VStr j) l) (VStr i) = xorb (includes_val l (VStr i)) (String.eqb i j).
Proof.
  apply eq_true_iff_eq. rewrite includes_val_str, toggled_elem.
  destruct (String.eqb_spec i j) as [->|Hne].
  - rewrite xorb_true_r, negb_true_iff, <- not_true_iff_false, includes_val_str.
    split; [intros [[]|[]]; done|by right].
  - rewrite xorb_false_r, includes_val_str. split; [intros [[]|[[= ->]]]; done|].
    left. split; [|done]. by intros [= ->].
Qed.

Definition clicked (clicks : list string) (l : list val) : list val :=
  foldl (fun l i => toggled (VStr i) l) l clicks.

Lemma clicked_NoDup clicks : forall l, NoDup l -> NoDup (clicked clicks l).
Proof.
  induction clicks as [|j clicks IH]; intros l Hl; [done|].
  apply IH. by apply toggled_NoDup.
Qed.

Lemma clicked_includes clicks i : forall l,
  includes_val (clicked clicks l) (VStr i) =
  xorb (includes_val l (VStr i)) (Nat.odd (count_occ String.string_dec clicks i)).
Proof.
  induction clicks as [|j clicks IH]; intros l; cbn [clicked foldl count_occ].
  - by rewrite xorb_false_r.
  - change (foldl _ _ clicks) with (clicked clicks (toggled (VStr j) l)).
    rewrite IH, toggled_includes. destruct (String.string_dec j i) as [->|Hne].
    + rewrite String.eqb_refl, Nat.odd_succ, <- Nat.negb_odd.
      by destruct (includes_val _ _), (Nat.odd _).
    + rewrite (proj2 (String.eqb_neq i j)) by congruence. by rewrite xorb_false_r.
Qed.

Lemma clicked_elem clicks i :
  VStr i ∈ clicked clicks [] <-> Nat.odd (count_occ String.string_dec clicks i) = true.
Proof. rewrite <- includes_val_str, clicked_includes. by rewrite xorb_false_l. Qed.
