(* ===== verification/Users.v ===== *)
(** * The clients page ([pages/Users.tsx]): state and handlers *)
From S2P Require Import Prelude JsStr JsNum JsVal React Effects Logic Api.
Local Open Scope string_scope.
Local Open Scope js_scope.

(** ** State: one field per [useState] *)

Record state := State {
  users : val;
  groups : val;
  templates : val;
  selectedUsers : list val;
  sidebarOpen : bool;
  selectedUser : val;
  loading : bool;
  selectedGroupId : string;
  qrModal : val;
}.
Definition set_users (v : val) (s : state) : state :=
  State v (groups s) (templates s) (selectedUsers s) (sidebarOpen s) (selectedUser s) (loading s) (selectedGroupId s) (qrModal s).
Definition set_groups (v : val) (s : state) : state :=
  State (users s) v (templates s) (selectedUsers s) (sidebarOpen s) (selectedUser s) (loading s) (selectedGroupId s) (qrModal s).
Definition set_templates (v : val) (s : state) : state :=
  State (users s) (groups s) v (selectedUsers s) (sidebarOpen s) (selectedUser s) (loading s) (selectedGroupId s) (qrModal s).
Definition set_selectedUsers (v : list val) (s : state) : state :=
  State (users s) (groups s) (templates s) v (sidebarOpen s) (selectedUser s) (loading s) (selectedGroupId s) (qrModal s).
Definition set_sidebarOpen (v : bool) (s : state) : state :=
  State (users s) (groups s) (templates s) (selectedUsers s) v (selectedUser s) (loading s) (selectedGroupId s) (qrModal s).
Definition set_selectedUser (v : val) (s : state) : state :=
  State (users s) (groups s) (templates s) (selectedUsers s) (sidebarOpen s) v (loading s) (selectedGroupId s) (qrModal s).
Definition set_loading (v : bool) (s : state) : state :=
  State (users s) (groups s) (templates s) (selectedUsers s) (sidebarOpen s) (selectedUser s) v (selectedGroupId s) (qrModal s).
Definition set_selectedGroupId (v : string) (s : state) : state :=
  State (users s) (groups s) (templates s) (selectedUsers s) (sidebarOpen s) (selectedUser s) (loading s) v (qrModal s).
Definition set_qrModal (v : val) (s : state) : state :=
  State (users s) (groups s) (templates s) (selectedUsers s) (sidebarOpen s) (selectedUser s) (loading s) (selectedGroupId s) v.

Definition init_state : state :=
  State (VArr []) (VArr []) (VArr []) [] false VNull false "" VNull.

(** [formatBytes(gb)]. *)
Definition formatBytes (gb : expr) : expr :=
  jcond (gb .>= int 1024) (tpl [jtoFixed (gb ./ int 1024) 1; " TB"])
  (jcond (gb .>= int 1) (tpl [jtoFixed gb 2; " GB"])
  (jcond (gb .> int 0) (tpl [jtoFixed (gb .* int 1024) 1; " MB"])
  "0 MB")).

(** What the elements of the page call.  An argument the source reads from an
    object inside the closure, at click time, is an [expr]. *)
Inductive action : Type :=
| GoGroups
| NewClient
| HandleBulkDelete
| ToggleSelectAll
| ToggleUserSelection (userId : expr)
| OpenUserDetails (user : val)
| ShowQr (user : val)
| CopyKey (link : expr)
| HandleToggle (clientId currentStatus : expr)
| HandleDelete (clientId : expr)
| CloseSidebar
| HandleTemplateChange (value : string)
| SetSelectedGroupId (value : string)
| HandleCreate
| HandleUpdate
| CloseQr
| CopyAndCloseQr (link : expr).

Section Users.
Context `{BuildEnv}.
(** [searchParams.get("group")]: a string or [null]. *)
Variable groupFilterId : val.

Definition displayedUsers (s : state) : expr :=
  jcond groupFilterId
    (jfilter (users s) (fun u => (u ~> "groupId") === groupFilterId))
    (users s).

Definition fetchUsers : prog state unit := fetch_into (API +:+ "/clients") set_users.
Definition fetchGroups : prog state unit := fetch_into (API +:+ "/groups") set_groups.
Definition fetchTemplates : prog state unit := fetch_into (API +:+ "/templates") set_templates.

(** The body of the polling effect. *)
Definition fetchData : prog state unit :=
  do! fetchUsers in do! fetchGroups in fetchTemplates.

Definition mount : prog state unit :=
  do! fetchData in
  let! _ := setInterval fetchData 5000 in skip.

(** What unmounting runs: [setInterval] returned 3, the three requests before
    it having taken the numbers below. *)
Definition interval : nat := 3.
Definition cleanup : prog state unit := clearTimer interval.

(** ** Selection *)

Definition toggle_id (userId : val) (prev : list val) : list val :=
  if includes_val prev userId
  then List.filter (fun id => negb (strict_eq id userId)) prev
  else (prev ++ [userId])%list.

Definition toggleUserSelection (userId : val) : prog state unit :=
  upd (fun s => set_selectedUsers (toggle_id userId (selectedUsers s)) s).

Definition toggleSelectAll (s : state) : prog state unit :=
  let! n := lift ((displayedUsers s) ~> "length") in
  if strict_eq (int (Z.of_nat (length (selectedUsers s)))) n
  then upd (set_selectedUsers [])
  else
    let! ids := lift (jmap (displayedUsers s) (fun _ u => u ~> "id")) in
    upd (set_selectedUsers ids).

Definition openUserDetails (user : val) : prog state unit :=
  do! upd (set_selectedUser user) in
  upd (set_sidebarOpen true).

(** ** Requests *)

Definition client_url (clientId : val) : string := API +:+ "/clients/" +:+ to_string clientId.

Definition handleToggle (clientId currentStatus : val) : prog state unit :=
  let enabled := negb (strict_eq currentStatus "online") in
  let! _ := fetch (client_url clientId +:+ "/toggle")
              (JSON "PATCH" (VObj [("enabled", VBool enabled)])) in
  fetchUsers.

Definition handleTemplateChange (s : state) (value : string) : prog state unit :=
  let! t := lift (jfind (templates s) (fun t => (t ~> "id") === value)) in
  let! limit := ref_value "limitRef" in
  when (truthy t && negb (nullish limit))
    (let! v := lift (tpl [t ~> "dataLimitGb"]) in
     do_ (CSetRefValue "limitRef" (to_string v))).

Definition handleCreate (s : state) : prog state unit :=
  let! name := ref_value "nameRef" in
  let username := jtrim name in
  if negb (truthy username) then alert "Введите имя клиента!"
  else
    do! upd (set_loading true) in
    try_finally
      (try_catch
        (let! tg := ref_value "tgRef" in
         let! limit := ref_value "limitRef" in
         let! body := lift (jobj [("username", username : expr);
                                  ("telegram_id", tg ||| VNull);
                                  ("data_limit", jparseFloat (limit ||| "100"));
                                  ("group_id", selectedGroupId s ||| VNull)]) in
         let! res := fetch (API +:+ "/clients") (JSON "POST" body) in
         if negb (r_ok res) then
           let! err := response_json res in
           let! msg := lift (tpl ["Ошибка: "; (err ~> "detail") ||| "Не удалось создать клиента"]) in
           alert (to_string msg)
         else
           do! fetchUsers in
           upd (set_sidebarOpen false))
        (fun _ => alert "Сервер API недоступен. Убедитесь, что бэкенд запущен."))
      (upd (set_loading false)).

Definition handleUpdate (s : state) : prog state unit :=
  if negb (truthy (selectedUser s)) then skip
  else
    do! upd (set_loading true) in
    try_finally
      (try_catch
        (let! name := ref_value "nameRef" in
         let! tg := ref_value "tgRef" in
         let! limit := ref_value "limitRef" in
         let! date := ref_value "dateRef" in
         let! body := lift (jobj [("username", name ||| VUndef);
                                  ("telegram_id", tg ||| VUndef);
                                  ("data_limit", jcond limit (jparseFloat limit) VUndef);
                                  ("subscription_end", date ||| "");
                                  ("group_id", selectedGroupId s ||| "")]) in
         let! id := lift ((selectedUser s) ~> "id") in
         let! res := fetch (client_url id) (JSON "PATCH" body) in
         if r_ok res then
           do! fetchUsers in
           alert "✅ Изменения сохранены"
         else alert "Ошибка при сохранении")
        (fun _ => alert "Ошибка при вызове API"))
      (upd (set_loading false)).

Definition handleDelete (clientId : val) : prog state unit :=
  let! ok := confirm "Удалить этого клиента? Его VPN-ключ будет деактивирован." in
  if negb ok then skip
  else
    try_catch
      (let! _ := fetch (client_url clientId) DELETE in
       do! fetchUsers in
       upd (fun s => set_selectedUsers
              (List.filter (fun id => negb (strict_eq id clientId)) (selectedUsers s)) s))
      (fun _ => alert "Ошибка удаления").

(** [await fetch(..).catch(() => {})]. *)
Definition delete_quietly (id : val) : prog state unit :=
  try_catch (let! _ := fetch (client_url id) DELETE in skip) (fun _ => skip).

Definition handleBulkDelete (s : state) : prog state unit :=
  let! ok := confirm ("Удалить " +:+ string_of_Z (Z.of_nat (length (selectedUsers s)))
                      +:+ " клиент(ов)? Это необратимо.") in
  if negb ok then skip
  else
    do! for_each (selectedUsers s) delete_quietly in
    do! upd (set_selectedUsers []) in
    fetchUsers.

(** ** Copying a key *)

Definition copyKey (shadeLink : val) : prog state unit :=
  let! secure := call CSecureClipboard in
  if truthy secure then
    do! do_ (CWriteText (to_string shadeLink)) in
    alert "✅ Ключ shade:// скопирован в буфер обмена!"
  else
    try_catch
      (do! do_ (CExecCopy (to_string shadeLink)) in
       alert "✅ Ключ shade:// скопирован в буфер обмена (fallback грязным хаком)!")
      (fun _ => alert "Не удалось скопировать ключ. Пожалуйста, выделите его вручную.").

(** ** Dispatch *)

Definition handle (s : state) (a : action) : prog state unit :=
  match a with
  | GoGroups => navigate "/groups"
  | NewClient => do! upd (set_selectedUser VNull) in upd (set_sidebarOpen true)
  | HandleBulkDelete => handleBulkDelete s
  | ToggleSelectAll => toggleSelectAll s
  | ToggleUserSelection e => let! id := lift e in toggleUserSelection id
  | OpenUserDetails u => openUserDetails u
  | ShowQr u =>
      let! m := lift (jobj [("isOpen", VBool true : expr); ("link", u ~> "shadeLink");
                            ("username", u ~> "username")]) in
      upd (set_qrModal m)
  | CopyKey e => let! link := lift e in copyKey link
  | HandleToggle e1 e2 =>
      let! id := lift e1 in let! status := lift e2 in handleToggle id status
  | HandleDelete e => let! id := lift e in handleDelete id
  | CloseSidebar => upd (set_sidebarOpen false)
  | HandleTemplateChange v => handleTemplateChange s v
  | SetSelectedGroupId v => upd (set_selectedGroupId v)
  | HandleCreate => handleCreate s
  | HandleUpdate => handleUpdate s
  | CloseQr => upd (set_qrModal VNull)
  | CopyAndCloseQr e =>
      let! link := lift e in do! copyKey link in upd (set_qrModal VNull)
  end.

Definition page : component state action :=
  Component init_state mount handle (fun _ _ => skip).
End Users.

#[export] Hint Unfold client_url : js.

(** ** The form is never stuck in its loading state *)

Lemma submit_debt {A} R (p : prog state A) :
  within (fun s => loading s = false) R p ->
  debt loading false
    (do! upd (set_loading true) in try_finally p (upd (set_loading false))).
Proof.
  intros Hp. right. apply (debt_finally loading false); [done|]. by eapply within_debt.
Qed.

Lemma handle_debt `{BuildEnv} group s a : debt loading false (handle group s a).
Proof.
  assert (forall p : prog state unit, within (fun s => loading s = false) api_obs p ->
            debt loading false p) as Hfree by (intros p; apply within_debt).
  destruct a; try (apply Hfree; within_api; done).
  - cbn [handle]. unfold handleCreate. apply debt_bind.
    { apply (within_debt _ api_obs). within_api. }
    intros name. case_match; [apply Hfree; within_api|].
    apply (submit_debt api_obs). within_api; done.
  - cbn [handle]. unfold handleUpdate. case_match; [apply Hfree; within_api|].
    apply (submit_debt api_obs). within_api; done.
Qed.
