(* ===== verification/UsersView.v ===== *)
(** * The clients page ([pages/Users.tsx]): what it renders *)
From S2P Require Import Prelude JsStr JsNum JsVal React Effects Users.
Local Open Scope string_scope.
Local Open Scope js_scope.

Section View.
(** [searchParams.get("group")]. *)
Variable groupFilterId : val.
Local Abbreviation displayedUsers := (displayedUsers groupFilterId).

Definition users_header (s : state) : jsx action :=
  el "div" ["className" =: "flex items-center justify-between"] [
    el "div" ["className" =: "flex items-center gap-4"] [
      show groupFilterId
        (el "button" ["onClick" =! GoGroups;
           "className" =: "p-2 bg-muted hover:bg-primary/20 rounded-lg transition-colors group";
           "title" =: "Назад к группам"] [
          el "ArrowLeft" ["className" =: "w-5 h-5 group-hover:-translate-x-0.5 transition-transform"] []]);
      el "div" [] [
        el "h1" ["className" =: "text-3xl font-bold"] [
          put (jcond groupFilterId (tpl ["Клиенты ("; ((jfind (groups s) (fun g => (g ~> "id") === groupFilterId)) ?> "name") ||| "Группа"; ")"]) "Клиенты")];
        el "p" ["className" =: "text-muted-foreground mt-1"] [
          txt "Управление клиентами VPN и их подписками"]]];
    el "button" ["onClick" =! NewClient;
       "className" =: "flex items-center gap-2 px-4 py-2 bg-primary text-primary-foreground rounded-lg hover:bg-primary/90 transition-colors"] [
      el "Plus" ["className" =: "w-4 h-4"] [];
      txt "Добавить клиента"]].

Definition bulk_bar (s : state) : jsx action :=
  el "div" ["className" =: "flex items-center gap-3 p-4 rounded-lg bg-primary/10 border border-primary/30"] [
    el "p" ["className" =: "text-sm"] [
      el "span" ["className" =: "font-bold"] [put ((VArr (selectedUsers s)) ~> "length")];
      txt " клиент(ов) выбрано"];
    el "button" ["onClick" =! HandleBulkDelete;
       "className" =: "flex items-center gap-2 px-3 py-1.5 bg-destructive text-destructive-foreground rounded hover:bg-destructive/90 transition-colors text-sm"] [
      el "Trash2" ["className" =: "w-3.5 h-3.5"] [];
      txt "Удалить"];
    el "button" ["className" =: "flex items-center gap-2 px-3 py-1.5 bg-primary text-primary-foreground rounded hover:bg-primary/90 transition-colors text-sm"] [
      el "RefreshCw" ["className" =: "w-3.5 h-3.5"] [];
      txt "Сбросить трафик"]].

Definition table_head (s : state) : jsx action :=
  el "thead" ["className" =: "bg-muted/50 border-b border-border"] [
    el "tr" [] [
      el "th" ["className" =: "p-4 text-left"] [
        el "input" ["type" =: "checkbox";
           "checked" =: ((((VArr (selectedUsers s)) ~> "length") === ((displayedUsers s) ~> "length")) &&& (((displayedUsers s) ~> "length") .> (int 0)));
           "onChange" =! ToggleSelectAll;
           "className" =: "rounded border-border"] []];
      el "th" ["className" =: "p-4 text-left text-xs font-semibold text-muted-foreground"] [
        txt "ПОДПИСКА"];
      el "th" ["className" =: "p-4 text-left text-xs font-semibold text-muted-foreground"] [
        txt "СЕТЬ"];
      el "th" ["className" =: "p-4 text-left text-xs font-semibold text-muted-foreground"] [
        txt "ИМЯ КЛИЕНТА"];
      el "th" ["className" =: "p-4 text-left text-xs font-semibold text-muted-foreground"] [
        txt "TELEGRAM ID"];
      el "th" ["className" =: "p-4 text-left text-xs font-semibold text-muted-foreground"] [
        txt "ПРОТОКОЛ"];
      el "th" ["className" =: "p-4 text-left text-xs font-semibold text-muted-foreground"] [
        txt "ТРАФИК"];
      el "th" ["className" =: "p-4 text-left text-xs font-semibold text-muted-foreground"] [
        txt "ГРУППА"];
      el "th" ["className" =: "p-4 text-left text-xs font-semibold text-muted-foreground"] [
        txt "ОКОНЧАНИЕ ПОДПИСКИ"];
      el "th" ["className" =: "p-4 text-left text-xs font-semibold text-muted-foreground"] [
        txt "ДЕЙСТВИЯ"]]].

Definition traffic_cell (user : val) : jsx action :=
  el "div" ["className" =: "space-y-1"] [
    el "div" ["className" =: "flex items-center gap-2 text-sm"] [
      el "span" [] [
        put (formatBytes (user ~> "dataUsage"));
        txt " / ";
        put (jcond ((user ~> "dataLimit") .>= (int 999)) "Безлимит" (tpl [user ~> "dataLimit"; " GB"]))]];
    el "div" ["className" =: "w-32 h-1.5 bg-muted rounded-full overflow-hidden"] [
      el "div" ["className" =: "h-full bg-primary rounded-full";
         "style" =: jobj [("width", tpl [jmin (((user ~> "dataUsage") ./ (user ~> "dataLimit")) .* (int 100)) (int 100); "%"])]] []]].

Definition row_actions (user : val) : jsx action :=
  el "div" ["className" =: "flex items-center gap-1"] [
    el "button" ["onClick" =! OpenUserDetails user;
       "className" =: "p-1.5 hover:bg-primary/20 rounded transition-colors";
       "title" =: "Подробнее"] [
      el "Eye" ["className" =: "w-4 h-4"] []];
    el "button" ["onClick" =! ShowQr user;
       "className" =: "p-1.5 hover:bg-primary/20 rounded transition-colors";
       "title" =: "Показать QR-код"] [
      el "QrCode" ["className" =: "w-4 h-4"] []];
    el "button" ["onClick" =! CopyKey (user ~> "shadeLink");
       "className" =: "p-1.5 hover:bg-primary/20 rounded transition-colors";
       "title" =: "Скопировать ключ"] [
      el "Copy" ["className" =: "w-4 h-4"] []];
    el "button" ["onClick" =! HandleToggle (user ~> "id") (user ~> "status");
       "className" =: tpl ["p-1.5 rounded transition-colors "; jcond ((user ~> "status") === "online") "text-primary hover:bg-primary/20" "text-muted-foreground hover:bg-muted"];
       "title" =: (jcond ((user ~> "status") === "online") "Заблокировать" "Разблокировать")] [
      jif ((user ~> "status") === "online")
        (el "ToggleRight" ["className" =: "w-5 h-5"] [])
        (el "ToggleLeft" ["className" =: "w-5 h-5"] [])];
    el "button" ["onClick" =! HandleDelete (user ~> "id");
       "className" =: "p-1.5 hover:bg-destructive/20 text-destructive rounded transition-colors";
       "title" =: "Удалить"] [
      el "Trash2" ["className" =: "w-4 h-4"] []]].

Definition user_row (s : state) (user : val) : jsx action :=
  el "tr" ["key" =: user ~> "id";
     "className" =: "border-b border-border hover:bg-muted/30 transition-colors"] [
    el "td" ["className" =: "p-4"] [
      el "input" ["type" =: "checkbox";
         "checked" =: jincludes (VArr (selectedUsers s)) (user ~> "id");
         "onChange" =! ToggleUserSelection (user ~> "id");
         "className" =: "rounded border-border"] []];
    el "td" ["className" =: "p-4"] [
      el "div" ["className" =: "flex items-center gap-2"] [
        el "div" ["className" =: tpl ["w-2 h-2 rounded-full "; jcond ((user ~> "status") === "online") "bg-[#10B981]" "bg-red-500"]] [];
        el "span" ["className" =: tpl ["text-sm "; jcond ((user ~> "status") === "online") "text-gray-300" "text-red-400"]] [
          put (jcond ((user ~> "status") === "online") "Активна" "Заблокирована")]]];
    el "td" ["className" =: "p-4"] [
      jif (user ~> "isOnline")
        (el "span" ["className" =: "inline-flex items-center space-x-1 text-[#10B981] bg-[#10B981]/10 px-2 py-1 rounded-full text-xs font-medium"] [
          el "span" ["className" =: "w-1.5 h-1.5 rounded-full bg-[#10B981] animate-pulse"] [];
          el "span" [] [txt "В сети"]])
        (el "span" ["className" =: "inline-flex items-center space-x-1 text-gray-500 bg-gray-800/50 px-2 py-1 rounded-full text-xs font-medium border border-gray-700/50"] [
          el "span" ["className" =: "w-1.5 h-1.5 rounded-full bg-gray-500"] [];
          el "span" [] [txt "Офлайн"]])];
    el "td" ["className" =: "p-4 font-medium"] [put (user ~> "username")];
    el "td" ["className" =: "p-4 text-muted-foreground"] [put (user ~> "telegramId")];
    el "td" ["className" =: "p-4"] [
      el "span" ["className" =: "px-2 py-1 rounded bg-primary/20 text-primary text-xs"] [
        put (user ~> "protocol")]];
    el "td" ["className" =: "p-4"] [traffic_cell user];
    el "td" ["className" =: "p-4"] [
      el "span" ["className" =: "px-2 py-0.5 rounded bg-muted text-xs"] [
        put ((user ~> "groupName") ||| "—")]];
    el "td" ["className" =: "p-4 text-sm"] [put (user ~> "subscriptionEnd")];
    el "td" ["className" =: "p-4"] [row_actions user]].

Definition sidebar_fields (s : state) : jsx action :=
  el "div" ["className" =: "space-y-4"] [
    el "div" [] [
      el "label" ["className" =: "block text-sm font-medium mb-2"] [txt "Имя клиента"];
      el "input" [ref "nameRef";
         "type" =: "text";
         "defaultValue" =: (((selectedUser s) ?> "username") ||| "");
         "className" =: "w-full px-3 py-2 bg-input rounded-lg border border-border focus:border-primary outline-none";
         "placeholder" =: "Меружан"] []];
    el "div" [] [
      el "label" ["className" =: "block text-sm font-medium mb-2"] [txt "Telegram ID"];
      el "input" [ref "tgRef";
         "type" =: "text";
         "defaultValue" =: (((selectedUser s) ?> "telegramId") ||| "");
         "className" =: "w-full px-3 py-2 bg-input rounded-lg border border-border focus:border-primary outline-none";
         "placeholder" =: "@username"] []];
    el "div" [] [
      el "label" ["className" =: "block text-sm font-medium mb-2"] [
        txt "Шаблон тарифа (Применить и перезаписать лимиты)"];
      el "select" [onE "onChange" (fun e => HandleTemplateChange (ev_value e));
         "className" =: "w-full px-3 py-2 bg-input rounded-lg border border-border focus:border-primary outline-none"] [
        el "option" ["value" =: ""] [txt "Свой тариф"];
        each (templates s) (fun _ t =>
          el "option" ["key" =: t ~> "id"; "value" =: t ~> "id"] [
            put (t ~> "name");
            txt " — ";
            put (jcond ((t ~> "dataLimitGb") .>= (int 999)) "Безлимит" (tpl [t ~> "dataLimitGb"; " ГБ"]));
            txt " — ";
            put (t ~> "price")])]];
    el "div" [] [
      el "label" ["className" =: "block text-sm font-medium mb-2"] [txt "Группа"];
      el "select" ["value" =: (selectedGroupId s);
         onE "onChange" (fun e => SetSelectedGroupId (ev_value e));
         "className" =: "w-full px-3 py-2 bg-input rounded-lg border border-border focus:border-primary outline-none"] [
        el "option" ["value" =: ""] [txt "Без группы"];
        each (groups s) (fun _ g =>
          el "option" ["key" =: g ~> "id"; "value" =: g ~> "id"] [put (g ~> "name")])]];
    el "div" [] [
      el "label" ["className" =: "block text-sm font-medium mb-2"] [txt "Протокол"];
      el "select" ["defaultValue" =: "ShadeVPN";
         "className" =: "w-full px-3 py-2 bg-input rounded-lg border border-border focus:border-primary outline-none"] [
        el "option" ["value" =: "ShadeVPN"] [txt "ShadeVPN (Native)"]]];
    el "div" [] [
      el "label" ["className" =: "block text-sm font-medium mb-2"] [txt "Лимит Трафика (ГБ)"];
      el "input" [ref "limitRef";
         "type" =: "number";
         "defaultValue" =: (((selectedUser s) ?> "dataLimit") ||| (int 100));
         "className" =: "w-full px-3 py-2 bg-input rounded-lg border border-border focus:border-primary outline-none";
         "placeholder" =: "100"] []];
    el "div" [] [
      el "label" ["className" =: "block text-sm font-medium mb-2"] [txt "Дата окончания"];
      el "input" [ref "dateRef";
         "type" =: "date";
         "defaultValue" =: (((selectedUser s) ?> "subscriptionEnd") ||| "");
         "className" =: "w-full px-3 py-2 bg-input rounded-lg border border-border focus:border-primary outline-none"] []]].

Definition sidebar_key (s : state) : jsx action :=
  el "div" ["className" =: "pt-4 border-t border-border"] [
    el "label" ["className" =: "block text-sm font-semibold text-muted-foreground mb-2"] [
      txt "КЛЮЧ ПОДКЛЮЧЕНИЯ"];
    el "div" ["className" =: "p-3 rounded bg-muted/50 text-xs font-mono break-all"] [
      put ((selectedUser s) ~> "shadeLink")];
    el "button" ["onClick" =! CopyKey ((selectedUser s) ~> "shadeLink");
       "className" =: "mt-2 flex items-center gap-2 px-3 py-1.5 bg-primary text-primary-foreground rounded hover:bg-primary/90 transition-colors text-sm w-full justify-center"] [
      el "Copy" ["className" =: "w-3.5 h-3.5"] [];
      txt "Скопировать ключ"]].

Definition sidebar_buttons (s : state) : jsx action :=
  el "div" ["className" =: "flex gap-3 pt-4 border-t border-border"] [
    jif (jnot (selectedUser s))
      (el "button" ["onClick" =! HandleCreate;
         "disabled" =: (loading s);
         "className" =: "flex-1 px-4 py-2 bg-primary text-primary-foreground rounded-lg hover:bg-primary/90 transition-colors disabled:opacity-50"] [
        put (jcond (loading s) "Создание..." "Создать клиента")])
      (frag [
        el "button" ["onClick" =! HandleUpdate;
           "disabled" =: (loading s);
           "className" =: "flex-1 px-4 py-2 bg-primary text-primary-foreground rounded-lg hover:bg-primary/90 transition-colors disabled:opacity-50"] [
          put (jcond (loading s) "..." "💾 Сохранить изменения")];
        el "button" ["onClick" =! HandleDelete ((selectedUser s) ~> "id");
           "className" =: "px-4 py-2 bg-destructive/10 text-destructive rounded-lg hover:bg-destructive hover:text-white transition-colors";
           "title" =: "Удалить клиента"] [
          txt "🗑️"]]);
    el "button" ["onClick" =! CloseSidebar;
       "className" =: "px-4 py-2 bg-muted text-foreground rounded-lg hover:bg-muted/80 transition-colors"] [
      txt "Закрыть"]].

Definition sidebar_panel (s : state) : jsx action :=
  el "div" ["className" =: "fixed right-0 top-0 bottom-0 w-96 bg-card border-l border-border z-50 overflow-y-auto"] [
    el "div" ["className" =: "p-6 space-y-6"] [
      el "div" ["className" =: "flex items-center justify-between"] [
        el "h2" ["className" =: "text-xl font-bold"] [
          put (jcond (selectedUser s) "Информация о клиенте" "Добавить клиента")];
        el "button" ["onClick" =! CloseSidebar;
           "className" =: "text-muted-foreground hover:text-foreground"] [
          txt "✕"]];
      sidebar_fields s;
      show ((selectedUser s) &&& ((selectedUser s) ~> "shadeLink"))
        (sidebar_key s);
      sidebar_buttons s]].

Definition qr_modal (s : state) : jsx action :=
  el "div" ["className" =: "fixed inset-0 z-[100] flex items-center justify-center bg-background/80 backdrop-blur-sm"] [
    el "div" ["className" =: "w-full max-w-sm bg-[#1A1F2E] border border-border rounded-xl shadow-2xl p-6 relative"] [
      el "button" ["onClick" =! CloseQr;
         "className" =: "absolute top-4 right-4 p-1.5 text-muted-foreground hover:bg-muted hover:text-white rounded-md transition-colors"] [
        el "X" ["className" =: "w-5 h-5"] []];
      el "h3" ["className" =: "text-xl font-bold mb-6 pr-8"] [
        txt "QR-Код для ";
        put ((qrModal s) ~> "username")];
      el "div" ["className" =: "flex flex-col items-center gap-4 bg-white p-4 rounded-xl"] [
        el "QRCodeSVG" ["value" =: (qrModal s) ~> "link";
           "size" =: (int 280);
           "level" =: "L";
           "includeMargin" =: true;
           "className" =: "rounded-lg"] []];
      el "div" ["className" =: "mt-6 flex justify-center"] [
        el "button" ["onClick" =! CopyAndCloseQr ((qrModal s) ~> "link");
           "className" =: "flex items-center gap-2 bg-primary hover:bg-primary/90 text-white px-4 py-2 rounded-md font-medium transition-colors";
           "title" =: "Скопировать ключ и закрыть"] [
          el "Copy" ["className" =: "w-4 h-4"] [];
          txt " Скопировать ключ"]]]].

Definition view (s : state) : jsx action :=
  el "div" ["className" =: "space-y-6"] [
    users_header s;
    show (((VArr (selectedUsers s)) ~> "length") .> (int 0))
      (bulk_bar s);
    el "div" ["className" =: "rounded-lg border border-primary/30 bg-card overflow-hidden"] [
      el "div" ["className" =: "overflow-x-auto"] [
        el "table" ["className" =: "w-full"] [
          table_head s;
          el "tbody" [] [
            show (((displayedUsers s) ~> "length") === (int 0))
              (el "tr" [] [
                el "td" ["colSpan" =: (int 10);
                   "className" =: "p-8 text-center text-muted-foreground"] [
                  txt "Нет клиентов. Нажмите «Добавить клиента» для регистрации."]]);
            each (displayedUsers s) (fun _ user =>
              user_row s user)]]]];
    show (sidebarOpen s)
      (frag [
        el "div" ["className" =: "fixed inset-0 bg-black/50 z-40"; "onClick" =! CloseSidebar] [];
        sidebar_panel s]);
    show ((qrModal s) ?> "isOpen")
      (qr_modal s)].

End View.
