(* ===== verification/UsersSpec.v ===== *)
(** * The clients page: what its handlers do *)
From S2P Require Import Prelude JsStr JsNum JsVal Ints Forms React Effects Logic Api Users.
Local Open Scope string_scope.
Local Open Scope js_scope.

Section Deletion.
Context `{BuildEnv} (P : inputs -> Prop).

Lemma path_delete_quietly id t r :
  path P (delete_quietly id) t r ->
  r = Ok tt /\ routes t = [("DELETE", client_url id)].
Proof.
  intros H1. apply path_try_catch in H1 as [([] & H1 & ->)|(e & t1 & t2 & -> & H1 & [-> ->])].
  - apply path_bind in H1 as [(a & t1 & t2 & -> & H1 & [-> _])|(e & _ & [=])].
    apply path_fetch in H1 as [token Ht]. by rewrite app_nil_r; unfold routes; rewrite Ht.
  - apply path_bind in H1 as [(a & t3 & t4 & -> & _ & [_ [=]])|(e' & H1 & _)].
    apply path_fetch in H1 as [token Ht]. by rewrite app_nil_r; unfold routes; rewrite Ht.
Qed.

Lemma path_delete_all l t r :
  path P (for_each l delete_quietly) t r ->
  r = Ok tt /\ routes t = map (fun id => ("DELETE", client_url id)) l.
Proof.
  revert t; induction l as [|id l IH]; intros t; cbn [for_each map].
  - by intros [-> ->].
  - intros H1. apply path_bind in H1 as [(a & t1 & t2 & -> & H1 & H2)|(e & H1 & ->)].
    + apply path_delete_quietly in H1 as [_ H1]. apply IH in H2 as [-> H2].
      by rewrite routes_app, H1, H2.
    + by apply path_delete_quietly in H1 as [[=] _].
Qed.

Lemma path_fetchUsers t x :
  path P fetchUsers t x -> x = Ok tt /\ routes t = [("GET", API +:+ "/clients")].
Proof.
  intros H1. apply path_fetch_into in H1 as [-> [token Ht]]. split; [done|].
  unfold routes. by rewrite Ht.
Qed.
End Deletion.

(** The question the page asks before a bulk deletion. *)
Definition bulk_question (s : state) : string :=
  "Удалить " +:+ string_of_Z (Z.of_nat (length (selectedUsers s)))
  +:+ " клиент(ов)? Это необратимо.".

(** C13. Bulk deletion, run to its end under any server: nothing is sent unless
    the question is confirmed; then each selected client gets exactly one
    DELETE, in the order of selection, whatever the earlier ones answered, and
    the list is fetched again once.  The handler never rejects. *)
Theorem handleBulkDelete_requests `{BuildEnv} (s : state) (ok : bool) t r
  (Hrun : path (fun io => in_confirm io (bulk_question s) = ok) (handleBulkDelete s) t r) :
  r = Ok tt /\
  routes t = if ok
             then (map (fun id => ("DELETE", client_url id)) (selectedUsers s) ++
                   [("GET", API +:+ "/clients")])%list
             else [].
Proof.
  unfold handleBulkDelete, confirm in Hrun. fold (bulk_question s) in Hrun. cbn in Hrun.
  destruct Hrun as (v & t' & (io & st & Hio & ->) & -> & Hrun). cbn in Hrun.
  rewrite Hio in Hrun. destruct ok; cbn in Hrun; [|by destruct Hrun as [-> ->]].
  apply path_bind in Hrun as [(a & t1 & t2 & -> & H1 & H2)|(e & H1 & _)].
  - apply path_delete_all in H1 as [_ H1]. apply path_fetchUsers in H2 as [-> H2].
    split; [done|]. unfold routes in *. rewrite sent_call, sent_app, map_app. by rewrite H1, H2.
  - by apply path_delete_all in H1 as [[=] _].
Qed.

(** ** The form *)

Section Create.
Context `{BuildEnv} (refs : string -> option string).
Local Abbreviation P := (fields_are refs).

(** The body [handleCreate] posts for a trimmed name. *)
Definition create_body (s : state) (username : string) : val :=
  VObj [("username", VStr username);
        ("telegram_id", field_or refs "tgRef" VNull);
        ("data_limit", json_num (parseFloat (to_string (field_or refs "limitRef" "100"))));
        ("group_id", if str_truthy (selectedGroupId s) then VStr (selectedGroupId s) else VNull)].

Lemma created s name :
  jobj [("username", lit (VStr (trim name)));
        ("telegram_id", lit (opt_str (refs "tgRef")) ||| lit VNull);
        ("data_limit", jparseFloat (lit (opt_str (refs "limitRef")) ||| lit "100"));
        ("group_id", lit (VStr (selectedGroupId s)) ||| lit VNull)] = 
  Ok (VObj [("username", VStr (trim name));
        ("telegram_id", field_or refs "tgRef" VNull);
        ("data_limit", VNum (parseFloat (to_string (field_or refs "limitRef" "100"))));
        ("group_id", if str_truthy (selectedGroupId s) then VStr (selectedGroupId s) else VNull)]).
Proof.
  unfold jparseFloat. rewrite !or_field. unfold jor. cbn. by destruct (str_truthy _).
Qed.

(** What [handleCreate] sends once the name is accepted. *)
Definition create_sends (s : state) (username : string) (rqs : list request) : Prop :=
  exists token rest,
    rqs = wrapped token (API +:+ "/clients")
            (Init "POST" [("Content-Type", "application/json")] (Some (create_body s username)))
          :: rest /\
    (rest = [] \/ exists token', rest = [wrapped token' (API +:+ "/clients") GET]).

Lemma json_body s name :
  json (VObj [("username", VStr (trim name));
        ("telegram_id", field_or refs "tgRef" VNull);
        ("data_limit", VNum (parseFloat (to_string (field_or refs "limitRef" "100"))));
        ("group_id", if str_truthy (selectedGroupId s) then VStr (selectedGroupId s) else VNull)]) =
  Some (create_body s (trim name)).
Proof.
  cbn -[trim parseFloat]. rewrite json_field_or by done. unfold create_body, json_num.
  by destruct (str_truthy _).
Qed.

Lemma create_posts s name t x :
  trim name <> "" -> refs "nameRef" = Some name -> path P (handleCreate s) t x ->
  x = Ok tt /\ create_sends s (trim name) (sent t).
Proof.
  intros Hne Hname Hrun. unfold handleCreate in Hrun.
  apply path_ref_bind in Hrun as (t' & -> & Hrun). rewrite Hname in Hrun.
  cbn [opt_str jtrim truthy] in Hrun.
  rewrite (proj2 (str_truthy_iff _) Hne) in Hrun. cbn [negb] in Hrun.
  apply path_upd, path_finally in Hrun. rewrite sent_call. revert Hrun. apply path_caught.
  { intros e t2 r2 Ha. by apply path_alert in Ha as [-> ->]. }
  intros t1 r1 Hrun.
  apply path_ref_bind in Hrun as (t2 & -> & Hrun).
  apply path_ref_bind in Hrun as (t3 & -> & Hrun). rewrite created in Hrun.
  rewrite !sent_call. cbn [lift bind] in Hrun.
  apply path_bind in Hrun as [(res & t4 & t5 & -> & H1 & H2)|(e & H1 & _)];
    apply path_fetch in H1 as [token Ht]; rewrite ?sent_app, Ht; unfold JSON; rewrite json_body.
  - eexists token, _. split; [done|].
    destruct (negb (r_ok res)).
    + left. apply path_silent in H2; [done|]. unfold silent. within_api.
    + right. apply path_fetch_into_bind in H2 as (token' & t6 & t7 & -> & H6 & [-> _]).
      exists token'. by rewrite sent_app, H6.
  - exists token, []. auto.
Qed.
End Create.

Definition no_name : list obs := [OCall (CRefValue "nameRef"); OCall (CAlert "Введите имя клиента!")].

(** C14. Creating a client, run to its end whatever the fields hold and the
    server answers: a missing or blank name is reported and nothing is sent;
    otherwise exactly one POST carries the trimmed name, the Telegram id or
    [null], the limit parsed as a number (100 when empty) and the chosen group
    or [null], followed by at most one refresh.  The handler never rejects. *)
Theorem handleCreate_requests `{BuildEnv} (refs : string -> option string) s t x
  (Hrun : path (fields_are refs) (handleCreate s) t x) :
  x = Ok tt /\
  match refs "nameRef" with
  | Some name =>
      if str_truthy (trim name) then create_sends refs s (trim name) (sent t) else t = no_name
  | None => t = no_name
  end.
Proof.
  destruct (refs "nameRef") as [name|] eqn:Hname.
  - destruct (str_truthy (trim name)) eqn:E.
    + apply str_truthy_iff in E. by eapply create_posts.
    + apply path_ref_bind in Hrun as (t' & -> & Hrun). rewrite Hname in Hrun.
      cbn [opt_str jtrim truthy] in Hrun. rewrite E in Hrun.
      by apply path_alert in Hrun as [-> ->].
  - apply path_ref_bind in Hrun as (t' & -> & Hrun). rewrite Hname in Hrun.
    by apply path_alert in Hrun as [-> ->].
Qed.

(** ** Saving an edited client *)

Section Update.
Context `{BuildEnv} (refs : string -> option string).
Local Abbreviation P := (fields_are refs).

(** [{ f: r.current?.value || undefined }] after [JSON.stringify]. *)
Definition given (f r : string) : list (string * val) :=
  match field_or refs r VUndef with VUndef => [] | v => [(f, v)] end.

(** The body [handleUpdate] patches with. *)
Definition update_body (s : state) : val :=
  VObj (given "username" "nameRef" ++ given "telegram_id" "tgRef" ++
        match field_or refs "limitRef" VUndef with
        | VUndef => []
        | v => [("data_limit", json_num (parseFloat (to_string v)))]
        end ++
        [("subscription_end", field_or refs "dateRef" ""); ("group_id", VStr (selectedGroupId s))])%list.

Lemma updated s :
  exists v, jobj [("username", lit (opt_str (refs "nameRef")) ||| lit VUndef);
                  ("telegram_id", lit (opt_str (refs "tgRef")) ||| lit VUndef);
                  ("data_limit", jcond (lit (opt_str (refs "limitRef")))
                                   (jparseFloat (lit (opt_str (refs "limitRef")))) (lit VUndef));
                  ("subscription_end", lit (opt_str (refs "dateRef")) ||| lit "");
                  ("group_id", lit (VStr (selectedGroupId s)) ||| lit "")] = Ok v /\
            json v = Some (update_body s).
Proof.
  rewrite !or_field.
  assert (jcond (lit (opt_str (refs "limitRef"))) (jparseFloat (lit (opt_str (refs "limitRef")))) (lit VUndef) =
          Ok match field_or refs "limitRef" VUndef with
             | VUndef => VUndef | v => VNum (parseFloat (to_string v)) end) as ->.
  { unfold jcond, jif, field_or. destruct (refs "limitRef") as [v|]; cbn -[parseFloat]; [|done].
    by destruct (str_truthy v). }
  assert ((lit (VStr (selectedGroupId s)) ||| lit "") = Ok (VStr (selectedGroupId s))) as ->.
  { unfold jor. cbn. by destruct (selectedGroupId s). }
  eexists. split; [done|]. unfold update_body, given, json_num.
  destruct (field_or_cases refs "nameRef" VUndef) as [->|(n & _ & _ & ->)],
    (field_or_cases refs "tgRef" VUndef) as [->|(tg & _ & _ & ->)],
    (field_or_cases refs "limitRef" VUndef) as [->|(l & _ & _ & ->)],
    (field_or_cases refs "dateRef" "") as [->|(d & _ & _ & ->)]; cbn -[parseFloat]; done.
Qed.

(** The requests of a save: one PATCH, then at most one refresh. *)
Definition update_sends (s : state) (rqs : list request) : Prop :=
  exists token id rest,
    get (selectedUser s) "id" = Ok id /\
    rqs = wrapped token (client_url id)
            (Init "PATCH" [("Content-Type", "application/json")] (Some (update_body s))) :: rest /\
    (rest = [] \/ exists token', rest = [wrapped token' (API +:+ "/clients") GET]).

Lemma update_patches s t x :
  truthy (selectedUser s) = true -> path P (handleUpdate s) t x ->
  x = Ok tt /\ update_sends s (sent t).
Proof.
  intros Ht Hrun. unfold handleUpdate in Hrun. rewrite Ht in Hrun. cbn [negb] in Hrun.
  assert (exists id, get (selectedUser s) "id" = Ok id) as [id Hid].
  { destruct (selectedUser s); try done; cbn; eauto. }
  apply path_upd, path_finally in Hrun. revert Hrun. apply path_caught.
  { intros e t2 r2 Ha. by apply path_alert in Ha as [-> ->]. }
  intros t1 r1 Hrun.
  do 4 (apply path_ref_bind in Hrun as (? & -> & Hrun)). rewrite !sent_call.
  destruct (updated s) as (v & Hv & Hj). rewrite Hv in Hrun. cbn [lift bind] in Hrun.
  unfold jget in Hrun. cbn [lit mbind res_bind] in Hrun. rewrite Hid in Hrun.
  cbn [lift bind] in Hrun.
  apply path_bind in Hrun as [(res & t4 & t5 & -> & H1 & H2)|(e & H1 & _)];
    apply path_fetch in H1 as [token Htok]; rewrite ?sent_app, Htok; unfold JSON; rewrite Hj.
  - eexists token, id, _. split; [done|]. split; [done|]. destruct (r_ok res).
    + right. apply path_fetch_into_bind in H2 as (token' & t6 & t7 & -> & H6 & H7).
      apply path_alert in H7 as [-> _]. exists token'. by rewrite sent_app, H6.
    + left. by apply path_alert in H2 as [-> _].
  - exists token, id, []. auto.
Qed.
End Update.

(** C32. Saving an edited client, run to its end: with no client selected
    nothing happens; otherwise exactly one PATCH goes to that client's address
    with the non-empty fields, the expiry date (or "") and the group chosen in
    the form (or "", which clears it), followed by at most one refresh.  The
    handler never rejects. *)
Theorem handleUpdate_requests `{BuildEnv} (refs : string -> option string) s t x
  (Hrun : path (fields_are refs) (handleUpdate s) t x) :
  x = Ok tt /\ if truthy (selectedUser s) then update_sends refs s (sent t) else t = [].
Proof.
  destruct (truthy (selectedUser s)) eqn:Ht; [by apply update_patches|].
  unfold handleUpdate in Hrun. rewrite Ht in Hrun. by destruct Hrun as [-> ->].
Qed.

(** The group select is not filled from the client being edited: opening
    any client and saving it without touching the select sends the group the
    select was last left at, [""] on a fresh page, so the client loses its
    group whatever it was. *)
Theorem edit_drops_group `{BuildEnv} filter io c user refs t x
  (Hfresh : selectedGroupId (st c) = "") (Huser : truthy user = true)
  (Hrun : path (fields_are refs)
            (handleUpdate (st (event_step (page filter) io (OpenUserDetails user) c))) t x) :
  exists rq rest fs,
    sent t = rq :: rest /\ rq_method rq = "PATCH" /\ rq_body rq = Some (VObj fs) /\
    assoc "group_id" fs = Some (VStr "").
Proof.
  apply update_patches in Hrun as [_ (token & id & rest & _ & -> & _)]; [|done].
  eexists _, rest, _. split; [done|]. split; [done|]. split; [done|].
  unfold given. cbn in Hfresh |- *. rewrite Hfresh.
  destruct (field_or_cases refs "nameRef" VUndef) as [->|(n & _ & _ & ->)],
    (field_or_cases refs "tgRef" VUndef) as [->|(tg & _ & _ & ->)],
    (field_or_cases refs "limitRef" VUndef) as [->|(l & _ & _ & ->)]; done.
Qed.

(** ** Selection *)

(** Clicking a row's box flips that client in the selection and nothing
    else, keeps the selection free of duplicates, sends nothing, and clicking
    it again restores the selection (up to order). *)
Theorem toggleUserSelection_flips `{BuildEnv} filter io c id
  (Hnd : NoDup (selectedUsers (st c))) :
  let click := event_step (page filter) io (ToggleUserSelection (Ok (VStr id))) in
  NoDup (selectedUsers (st (click c))) /\
  (forall x, x ∈ selectedUsers (st (click c)) <->
     (x <> VStr id /\ x ∈ selectedUsers (st c)) \/
     (x = VStr id /\ VStr id ∉ selectedUsers (st c))) /\
  selectedUsers (st (click (click c))) ≡ₚ selectedUsers (st c) /\
  log (click c) = log c /\ pend (click c) = pend c.
Proof.
  cbn -[toggle_id]. change toggle_id with toggled. split; [by apply toggled_NoDup|].
  split; [intros x; apply toggled_elem|]. split; [by apply toggled_twice|done].
Qed.

Lemma toggleUserSelection_flips_witness :
  selectedUsers (st (event_step (page (H:=false) VNull) quiet_browser
    (ToggleUserSelection (Ok (VStr "b"))) (Conf (set_selectedUsers [VStr "a"] init_state) ∅ [] 0 []))) =
    [VStr "a"; VStr "b"] /\
  NoDup [VStr "a"; VStr "b"].
Proof.
  split; [reflexivity|].
  apply (toggleUserSelection_flips (H:=false) VNull quiet_browser
           (Conf (set_selectedUsers [VStr "a"] init_state) ∅ [] 0 []) "b").
  apply NoDup_singleton.
Defined.

(** The clients the page displays, when the server sent a list of objects. *)
Definition displayed (group : val) (us : list val) : list val :=
  if truthy group then List.filter (fun u => strict_eq (field "groupId" u) group) us else us.

Lemma displayedUsers_eq group s us :
  users s = VArr us -> forallb is_obj us = true ->
  displayedUsers group s = Ok (VArr (displayed group us)).
Proof.
  intros Hu Ho. unfold displayedUsers, displayed. rewrite Hu.
  unfold jcond, jif. cbn [mbind res_bind lit]. destruct (truthy group); [|done].
  apply jfilter_eq, Forall_forall. intros u Hin.
  rewrite forallb_forall in Ho. unfold jeq. rewrite jget_field; [done|].
  apply Ho. by apply list_elem_of_In.
Qed.

Lemma displayed_objects group us u :
  forallb is_obj us = true -> u ∈ displayed group us -> is_obj u = true.
Proof.
  rewrite forallb_forall, list_elem_of_In. unfold displayed. intros Ho.
  destruct (truthy group); [rewrite List.filter_In; intros [Hin _]|intros Hin]; auto.
Qed.

Lemma displayed_small group us : small us -> small (displayed group us).
Proof.
  unfold small, displayed. intros Hs. destruct (truthy group); [|done].
  pose proof (List.filter_length_le (fun u => strict_eq (field "groupId" u) group) us). lia.
Qed.

(** The header box compares numbers of clients, not sets: when as many
    clients are selected as are displayed, whichever they are, it clears the
    selection; otherwise the selection becomes exactly the displayed clients,
    in their order. *)
Theorem toggleSelectAll_selects `{BuildEnv} group io c us
  (Hu : users (st c) = VArr us) (Ho : forallb is_obj us = true)
  (Hsmall : small us) (Hsel : small (selectedUsers (st c))) :
  let c' := event_step (page group) io ToggleSelectAll c in
  selectedUsers (st c') =
    (if Nat.eqb (length (selectedUsers (st c))) (length (displayed group us))
     then [] else map (field "id") (displayed group us)) /\
  log c' = log c.
Proof.
  cbn zeta. unfold event_step, commit_after. cbn [page c_handle c_commit handle].
  unfold toggleSelectAll. rewrite (displayedUsers_eq _ _ us) by done.
  cbn [jget mbind res_bind get lift bind String.eqb Ascii.eqb Bool.eqb].
  change (int (Z.of_nat (length (selectedUsers (st c))))) with (jlen (selectedUsers (st c))).
  change (int (Z.of_nat (length (displayed group us)))) with (jlen (displayed group us)).
  rewrite jlen_eq by (done || by apply displayed_small).
  destruct (Nat.eqb _ _); [done|].
  assert (jmap (Ok (VArr (displayed group us))) (fun _ u => u ~> "id") =
          Ok (map (field "id") (displayed group us))) as ->; [|done].
  unfold jmap. cbn [jarr mbind res_bind]. rewrite (imapM_eq _ (fun _ => field "id")).
  - f_equal. exact (imap_const (field "id") _).
  - intros i u Hi. apply jget_field. eapply displayed_objects; [done|].
    by eapply list_elem_of_lookup_2.
Qed.

(** ** The loading flag *)

(** C19. Whatever the order in which events, answers and polling ticks
    interleave, and whichever promises reject: when no request is in flight the
    form is not in its loading state, so its buttons are enabled. *)
Theorem loading_settles `{BuildEnv} group c
  (Hr : reachable (page group) c)
  (Hidle : forall t, t ∈ pend c -> exists b ms p, snd t = Timer b ms p) :
  loading (st c) = false.
Proof.
  apply (settled_down (page group) loading); try done.
  - apply (within_debt loading api_obs). cbn [c_mount page]. within_api; done.
  - intros s a. apply handle_debt.
Qed.

(** The three refreshes and the polling timer of a mounted page. *)
Lemma boot_pend `{BuildEnv} group io :
  pend (boot (page group) io ∅) =
  [(0, Waiting (QFetch (wrapped "" (API +:+ "/clients") GET)) (after_response set_users));
   (1, Waiting (QFetch (wrapped "" (API +:+ "/groups") GET)) (after_response set_groups));
   (2, Waiting (QFetch (wrapped "" (API +:+ "/templates") GET)) (after_response set_templates));
   (3, Timer true 5000 fetchData)].
Proof. reflexivity. Qed.

(** The server is down from the start. *)
Lemma offline_page :
  exists c, reachable (page (H:=false) VNull) c /\
    pend c = [(3, Timer true 5000 (fetchData (H:=false)))].
Proof.
  pose proof (reach_boot (page (H:=false) VNull) quiet_browser ∅) as R.
  destruct (refresh_fails (page (H:=false) VNull) set_users (fun _ _ => eq_refl) quiet_browser
    0 _ _ NetworkError _ _ R (boot_pend _ _) eq_refl) as (c1 & R1 & _ & P1).
  destruct (refresh_fails (page (H:=false) VNull) set_groups (fun _ _ => eq_refl) quiet_browser
    0 _ _ NetworkError _ _ R1 P1 eq_refl) as (c2 & R2 & _ & P2).
  destruct (refresh_fails (page (H:=false) VNull) set_templates (fun _ _ => eq_refl) quiet_browser
    0 _ _ NetworkError _ _ R2 P2 eq_refl) as (c3 & R3 & _ & P3).
  by exists c3.
Qed.

Lemma loading_settles_witness :
  exists c, reachable (page (H:=false) VNull) c /\ loading (st c) = false.
Proof.
  destruct offline_page as (c & R & P). exists c. split; [exact R|].
  apply (loading_settles (H:=false) VNull c R). rewrite P. intros t Ht.
  apply list_elem_of_singleton in Ht as ->. eauto.
Defined.

(** ** Witnesses of the request theorems *)

Definition two_selected : state := set_selectedUsers [VStr "a"; VStr "b"] init_state.
Definition ok_empty : answer := Replied (Response 200 (Ok (VObj []))).

Lemma handleBulkDelete_requests_witness :
  exists t, path (fun io => in_confirm io (bulk_question two_selected) = true)
              (handleBulkDelete (H:=false) two_selected) t (Ok tt) /\
    routes t = [("DELETE", "/api/clients/a"); ("DELETE", "/api/clients/b"); ("GET", "/api/clients")].
Proof.
  eexists. eassert (path (fun io => in_confirm io (bulk_question two_selected) = true)
    (handleBulkDelete (H:=false) two_selected) _ (Ok tt)) as Hp.
  { by eapply (play_path _ quiet_browser) with (store := ∅) (l := [ok_empty; Failed NetworkError]). }
  split; [exact Hp|]. apply (handleBulkDelete_requests (H:=false) two_selected true _ _ Hp).
Defined.

Definition form_refs : string -> option string :=
  fun r => if String.eqb r "nameRef" then Some "  Bob " else
           if String.eqb r "limitRef" then Some "12.5" else Some "".

Lemma handleCreate_requests_witness :
  exists t, path (fields_are form_refs)
              (handleCreate (H:=false) init_state) t (Ok tt) /\
    create_sends (H:=false) form_refs init_state "Bob" (sent t).
Proof.
  eexists. eassert (path (fields_are form_refs)
    (handleCreate (H:=false) init_state) _ (Ok tt)) as Hp.
  { by eapply (play_path _ (with_refs form_refs)) with (store := ∅) (l := [ok_empty]). }
  split; [exact Hp|]. apply (handleCreate_requests (H:=false) form_refs init_state _ _ Hp).
Defined.

Definition editing : state := set_selectedUser (VObj [("id", VStr "7"); ("groupId", VStr "g1")]) init_state.

Lemma handleUpdate_requests_witness :
  exists t, path (fields_are form_refs)
              (handleUpdate (H:=false) editing) t (Ok tt) /\
    update_sends (H:=false) form_refs editing (sent t).
Proof.
  eexists. eassert (path (fields_are form_refs)
    (handleUpdate (H:=false) editing) _ (Ok tt)) as Hp.
  { by eapply (play_path _ (with_refs form_refs)) with (store := ∅) (l := [ok_empty]). }
  split; [exact Hp|]. apply (handleUpdate_requests (H:=false) form_refs editing _ _ Hp).
Defined.

Lemma edit_drops_group_witness :
  exists t rq rest fs, sent t = rq :: rest /\ rq_method rq = "PATCH" /\
    rq_body rq = Some (VObj fs) /\ assoc "group_id" fs = Some (VStr "").
Proof.
  eexists.
  eapply (edit_drops_group (H:=false) VNull quiet_browser (Conf init_state ∅ [] 0 [])
    (VObj [("id", VStr "7"); ("groupId", VStr "g1")]) form_refs _ (Ok tt) eq_refl eq_refl).
  by eapply (play_path _ (with_refs form_refs)) with (store := ∅) (l := [ok_empty]).
Defined.

Lemma toggleSelectAll_selects_witness :
  selectedUsers (st (event_step (page (H:=false) VNull) quiet_browser ToggleSelectAll
    (Conf (set_users (VArr [VObj [("id", VStr "1")]; VObj [("id", VStr "2")]]) init_state) ∅ [] 0 [])))
  = [VStr "1"; VStr "2"].
Proof.
  apply (toggleSelectAll_selects (H:=false) VNull quiet_browser
    (Conf (set_users (VArr [VObj [("id", VStr "1")]; VObj [("id", VStr "2")]]) init_state) ∅ [] 0 [])
    [VObj [("id", VStr "1")]; VObj [("id", VStr "2")]]); done.
Defined.

(** ** Answers that overtake each other

    The page fetches its list on mount, every five seconds and after every
    change, and stores each answer when it arrives.  Nothing ties an answer to
    its request, so an older one can replace a newer one. *)

Section Answered.
Context {S A : Type} (C : component S A) (set : val -> S -> S).
Hypothesis no_effects : forall s s', c_commit C s s' = skip.

(** A pending refresh answered with [v]: the request is gone, [v] is stored,
    and nothing else is pending that was not before. *)
Lemma refresh_answered (io : inputs) i id rq r v (c : conf S) :
  pend c !! i = Some (id, Waiting (QFetch rq) (after_response set)) ->
  r_status r <> 401%Z -> r_json r = Ok v ->
  exists c', rtc (step C) c c' /\ st c' = set v (st c) /\ pend c' = delete i (pend c).
Proof.
  intros Hi Hst Hv.
  assert (step C c (settle_step C io i (q:=QFetch rq) (after_response set) (Ok r) c)) as H1
    by by eapply step_settle.
  assert (settle_step C io i (q:=QFetch rq) (after_response set) (Ok r) c =
          push (Waiting QTick (after_body set (Ok v))) (take_task i c)) as E1.
  { unfold settle_step, commit_after. rewrite no_effects, run_after_response, Hv by done. done. }
  rewrite E1 in H1. set (c1 := push _ _) in H1.
  assert (pend c1 !! length (delete i (pend c)) = Some (next c, Waiting QTick (after_body set (Ok v)))) as Hl
    by (cbn; by apply list_lookup_middle).
  exists (settle_step C io (length (delete i (pend c))) (q:=QTick) (after_body set (Ok v)) (Ok tt) c1).
  split; [|split].
  - eapply rtc_l; [exact H1|]. apply rtc_once. by eapply step_settle.
  - unfold settle_step, commit_after. by rewrite no_effects.
  - unfold settle_step, commit_after. rewrite no_effects. cbn.
    by rewrite delete_middle, app_nil_r.
Qed.
End Answered.

Section Race.
Context `{BuildEnv}.

Definition clients_request (token : string) : request := wrapped token (API +:+ "/clients") GET.

(** The page after its mount and one tick of the polling interval, before any
    answer. *)
Definition polled_twice (io : inputs) (s0 : gmap string string) : conf state :=
  timer_step (page VNull) io 3 true fetchData (boot (page VNull) io s0).

Lemma run_fetchData io (c : conf state) :
  pend (run io fetchData c) =
  (pend c ++ [(next c, Waiting (QFetch (clients_request (stored_token (store c)))) (after_response set_users));
              (S (next c), Waiting (QFetch (wrapped (stored_token (store c)) (API +:+ "/groups") GET)) (after_response set_groups));
              (S (S (next c)), Waiting (QFetch (wrapped (stored_token (store c)) (API +:+ "/templates") GET)) (after_response set_templates))])%list /\
  next (run io fetchData c) = S (S (S (next c))) /\ store (run io fetchData c) = store c /\
  st (run io fetchData c) = st c.
Proof.
  unfold fetchData, fetchUsers, fetchGroups, fetchTemplates.
  rewrite !run_fetch_into_bind, !run_fetch_into. cbn. by rewrite <- !app_assoc.
Qed.

Lemma run_mount io (c : conf state) :
  run io mount c = push (Timer true 5000 fetchData) (run io fetchData c).
Proof. done. Qed.

(** What is under way after the mount and one tick: three requests of the
    mount, the interval, and the same three requests again. *)
Lemma polled_twice_pends (io : inputs) (s0 : gmap string string) :
  let asked url set id := (id, Waiting (QFetch (wrapped (stored_token s0) (API +:+ url) GET)) (after_response set)) in
  pend (polled_twice io s0) =
  [asked "/clients" set_users 0; asked "/groups" set_groups 1; asked "/templates" set_templates 2;
   (3, Timer true 5000 fetchData);
   asked "/clients" set_users 4; asked "/groups" set_groups 5; asked "/templates" set_templates 6].
Proof.
  intros asked. unfold polled_twice, timer_step, commit_after. cbn [page c_commit c_init run skip].
  rewrite (proj1 (run_fetchData io _)). unfold boot. cbn [page c_mount c_init]. rewrite run_mount.
  cbn [pend store next push].
  set (b := Conf init_state s0 [] 0 []).
  destruct (run_fetchData io b) as (-> & -> & -> & _). reflexivity.
Qed.

Lemma polled_twice_reachable io s0 : reachable (page VNull) (polled_twice io s0).
Proof.
  eapply reach_step; [apply reach_boot|]. eapply (step_timer (page VNull) io 3).
  unfold boot. cbn [page c_mount c_init]. rewrite run_mount. cbn [pend push].
  by rewrite (proj1 (run_fetchData io _)).
Qed.

(** C34. An answer is not tied to its request: after the mount and one tick of
    the polling interval two [GET /clients] are under way, the first and the
    fifth pending promise; when the second request is answered with [newer]
    and only then the first with [older], the page ends up showing [older],
    with neither request pending any more, until the next poll. *)
Theorem stale_answer_wins (io : inputs) (s0 : gmap string string) :
  let c0 := polled_twice io s0 in
  let rq := clients_request (stored_token s0) in
  reachable (page VNull) c0 /\
  pend c0 !! 0 = Some (0, Waiting (QFetch rq) (after_response set_users)) /\
  pend c0 !! 4 = Some (4, Waiting (QFetch rq) (after_response set_users)) /\
  forall older newer : val, exists c1 c2,
    rtc (step (page VNull)) c0 c1 /\ users (st c1) = newer /\ (4 ∉ map fst (pend c1)) /\
    rtc (step (page VNull)) c1 c2 /\ users (st c2) = older /\ (0 ∉ map fst (pend c2)) /\
    (4 ∉ map fst (pend c2)).
Proof.
  intros c0 rq. pose proof (polled_twice_pends io s0) as Ep.
  split; [apply polled_twice_reachable|].
  assert (pend c0 !! 0 = Some (0, Waiting (QFetch rq) (after_response set_users))) as H0
    by (unfold c0; by rewrite Ep).
  assert (pend c0 !! 4 = Some (4, Waiting (QFetch rq) (after_response set_users))) as H4
    by (unfold c0; by rewrite Ep).
  split; [exact H0|]. split; [exact H4|]. intros older newer.
  destruct (refresh_answered (page VNull) set_users (fun _ _ => eq_refl) io 4 _ _
              (Response 200 (Ok newer)) newer c0 H4) as (c1 & R1 & S1 & P1); [done..|].
  destruct (refresh_answered (page VNull) set_users (fun _ _ => eq_refl) io 0 0 rq
              (Response 200 (Ok older)) older c1) as (c2 & R2 & S2 & P2); [|done..|].
  { rewrite P1. unfold c0. by rewrite Ep. }
  unfold c0 in P1. rewrite Ep in P1. rewrite P1 in P2.
  assert (map fst (pend c1) = [0; 1; 2; 3; 5; 6]) as M1 by (rewrite P1; reflexivity).
  assert (map fst (pend c2) = [1; 2; 3; 5; 6]) as M2 by (rewrite P2; reflexivity).
  clear H0 H4 P1 P2 Ep.
  exists c1, c2. rewrite M1, M2, S2, S1. generalize (st c0). intros s.
  split; [exact R1|]. split; [reflexivity|]. split; [by apply (bool_decide_unpack _)|].
  split; [exact R2|]. split; [reflexivity|]. split; by apply (bool_decide_unpack _).
Qed.
End Race.
