(* ===== verification/UsersRender.v ===== *)
(** * The clients page: what its view wires to which handler *)
From S2P Require Import Prelude JsStr JsNum JsVal Ints React Effects Logic Api Users UsersView UsersSpec.
Local Open Scope string_scope.
Local Open Scope js_scope.

(** A client as the server describes it: the cells are scalars and the usage is
    a number. *)
Definition well_formed (u : val) : bool :=
  is_obj u && is_num (field "dataUsage" u) && scalar (field "username" u) &&
  scalar (field "telegramId" u) && scalar (field "protocol" u) &&
  scalar (field "groupName" u) && scalar (field "subscriptionEnd" u).

Section Row.
Context (u : val) (Hw : well_formed u = true) (e : event).

Local Abbreviation found :=
  (finds clickable (fun n => (attr_val "title" n, fire "onClick" e n))).

(** The buttons of a client's row. *)
Definition row_clicks : list (option val * option action) :=
  [(Some (VStr "Подробнее"), Some (OpenUserDetails u));
   (Some (VStr "Показать QR-код"), Some (ShowQr u));
   (Some (VStr "Скопировать ключ"), Some (CopyKey (u ~> "shadeLink")));
   (Some (VStr (if strict_eq (field "status" u) "online" then "Заблокировать"
                else "Разблокировать")),
    Some (HandleToggle (u ~> "id") (u ~> "status")));
   (Some (VStr "Удалить"), Some (HandleDelete (u ~> "id")))].

Lemma row_actions_found : found (row_actions u) row_clicks.
Proof.
  unfold well_formed in Hw. rewrite !andb_true_iff in Hw.
  unfold row_actions, row_clicks, finds.
  destruct u as [| | | | | |fs|]; try (exfalso; intuition discriminate). cbn [field].
  destruct (strict_eq (default VUndef (assoc "status" fs)) "online") eqn:E;
    cbn; rewrite E; cbn; (eexists; split; reflexivity).
Qed.

Lemma traffic_cell_found : found (traffic_cell u) [].
Proof.
  unfold well_formed in Hw. rewrite !andb_true_iff in Hw. destruct Hw as [[[[[[Ho H1] _] _] _] _] _].
  unfold traffic_cell. destruct u as [| | | | | |fs|]; try done. eapply finds_eq; [render|].
  - unfold formatBytes. js_red. cbn [field] in H1.
    destruct (default VUndef (assoc "dataUsage" fs)); try done.
    repeat js_case; eexists; split; reflexivity.
  - done.
Qed.

Lemma user_row_found s : found (user_row s u) row_clicks.
Proof.
  pose proof row_actions_found as Ha. pose proof traffic_cell_found as Ht.
  unfold well_formed in Hw. rewrite !andb_true_iff in Hw.
  destruct Hw as [[[[[[Ho H1] H2] H3] H4] H5] H6].
  destruct u as [| | | | | |fs|]; try done. cbn [field] in *. unfold user_row.
  eapply finds_eq; [render|found_eq].
Qed.
End Row.

(** ** The whole page *)

Section View.
Context (group : val) (s : state) (us gs ts : list val) (e : event).

Local Abbreviation found :=
  (finds clickable (fun n => (attr_val "title" n, fire "onClick" e n))).

Local Abbreviation shown := (displayed group).

Record good_state : Prop := {
  good_group : group = VNull \/ exists g, group = VStr g;
  good_users : users s = VArr us;
  good_clients : forallb well_formed us = true;
  good_groups : groups s = VArr gs;
  good_group_names : forallb (fun g => is_obj g && scalar (field "name" g)) gs = true;
  good_templates : templates s = VArr ts;
  good_tariffs : forallb (fun t => is_obj t && scalar (field "name" t) && scalar (field "price" t)) ts = true;
  good_selected : selectedUser s = VNull \/
                  exists fs, selectedUser s = VObj fs /\ scalar (field "shadeLink" (VObj fs)) = true;
  good_qr : qrModal s = VNull \/
            exists link name, qrModal s = VObj [("isOpen", VBool true); ("link", link); ("username", name)] /\
                              scalar name = true;
}.
Hypothesis Hs : good_state.

Lemma good_objects : forallb is_obj us = true.
Proof.
  destruct Hs as [_ _ Hw _ _ _ _ _ _]. rewrite !forallb_forall in *. intros u Hu.
  specialize (Hw u Hu). unfold well_formed in Hw. rewrite !andb_true_iff in Hw. tauto.
Qed.

Lemma displayed_ok : displayedUsers group s = Ok (VArr (shown us)).
Proof. apply displayedUsers_eq; [apply Hs|apply good_objects]. Qed.

Lemma header_found :
  found (users_header group s)
    ((if truthy group then [(Some (VStr "Назад к группам"), Some GoGroups)] else []) ++
     [(None, Some NewClient)])%list.
Proof.
  destruct Hs as [Hg _ _ Hgs Hgn _ _ _ _]. unfold users_header. eapply finds_eq; [render|].
  - intros _. by destruct Hg as [->|[g ->]].
  - unfold jcond, jif. cbn [mbind res_bind lit]. destruct (truthy group); [|by js_value].
    rewrite Hgs. rewrite (jfind_eq _ _ (fun g => strict_eq (field "id" g) group)); [destruct (default _ _); js_value|].
    apply Forall_forall. intros g Hin. rewrite forallb_forall in Hgn.
    specialize (Hgn g (proj1 (list_elem_of_In _ _) Hin)). rewrite andb_true_iff in Hgn.
    unfold jeq. by rewrite jget_field by tauto.
  - by destruct (truthy group).
Qed.

Lemma table_head_found : found (table_head group s) [].
Proof.
  pose proof displayed_ok as Hd.
  unfold table_head. eapply finds_eq; [render|done]. rewrite Hd. js_value.
Qed.

Lemma bulk_found : found (bulk_bar s) [(None, Some HandleBulkDelete)].
Proof. unfold bulk_bar. eapply finds_eq; [render|done]. Qed.

Lemma fields_found : found (sidebar_fields s) [].
Proof.
  destruct Hs as [_ _ _ Hgs Hgn Hts Htn Hsel _].
  unfold sidebar_fields. eapply finds_eq; [render|].
  all: try by (destruct Hsel as [->|(fs & -> & _)]; js_value).
  - eapply finds_options; [by rewrite Hts|exact Htn|].
    intros i t Ht. rewrite !andb_true_iff in Ht. destruct Ht as [[Ho Hn] Hp].
    destruct t; try done. cbn [field] in *. eapply finds_eq; [render|done].
  - eapply finds_options; [by rewrite Hgs|exact Hgn|].
    intros i t Ht. rewrite !andb_true_iff in Ht. destruct Ht as [Ho Hn].
    destruct t; try done. cbn [field] in *. eapply finds_eq; [render|done].
  - done.
Qed.

(** The buttons under the form. *)
Definition form_clicks : list (option val * option action) :=
  ((if truthy (selectedUser s)
    then [(None, if loading s then None else Some HandleUpdate);
          (Some (VStr "Удалить клиента"), Some (HandleDelete ((selectedUser s) ~> "id")))]
    else [(None, if loading s then None else Some HandleCreate)]) ++
   [(None, Some CloseSidebar)])%list.

Lemma buttons_found : found (sidebar_buttons s) form_clicks.
Proof.
  unfold sidebar_buttons, form_clicks. eapply finds_eq; [render|found_eq].
Qed.

Lemma key_found :
  truthy (selectedUser s) = true ->
  found (sidebar_key s) [(None, Some (CopyKey ((selectedUser s) ~> "shadeLink")))].
Proof.
  unfold sidebar_key.
  destruct Hs as [_ _ _ _ _ _ _ [->|(fs & -> & Hl)] _]; [done|]. intros _. cbn [field] in Hl.
  eapply finds_eq; [render|done].
Qed.

(** The sidebar, when it is open. *)
Definition sidebar_clicks : list (option val * option action) :=
  ([(None, Some CloseSidebar); (None, Some CloseSidebar)] ++
   (if truthy (field "shadeLink" (selectedUser s))
    then [(None, Some (CopyKey ((selectedUser s) ~> "shadeLink")))] else []) ++
   form_clicks)%list.

Definition qr_clicks : list (option val * option action) :=
  [(None, Some CloseQr);
   (Some (VStr "Скопировать ключ и закрыть"), Some (CopyAndCloseQr ((qrModal s) ~> "link")))].

Lemma qr_found : truthy (qrModal s) = true -> found (qr_modal s) qr_clicks.
Proof.
  unfold qr_clicks, qr_modal.
  destruct Hs as [_ _ _ _ _ _ _ _ [->|(link & name & -> & Hn)]]; [done|]. intros _.
  eapply finds_eq; [render|done].
Qed.

Lemma key_part_found :
  found (show ((selectedUser s) &&& ((selectedUser s) ~> "shadeLink")) (sidebar_key s))
    (if truthy (field "shadeLink" (selectedUser s))
     then [(None, Some (CopyKey ((selectedUser s) ~> "shadeLink")))] else []).
Proof.
  pose proof key_found as Hk.
  destruct Hs as [_ _ _ _ _ _ _ [E|(fs & E & Hl)] _]; rewrite E in *.
  - eapply finds_eq; [eapply finds_guard; [exact _|js_red; reflexivity|done|done]|done].
  - eapply finds_guard; [exact _|js_red; reflexivity|done|auto].
Qed.

Lemma panel_found :
  found (frag [el "div" ["className" =: "fixed inset-0 bg-black/50 z-40"; "onClick" =! CloseSidebar] [];
               sidebar_panel s]) sidebar_clicks.
Proof.
  pose proof fields_found as Hf. pose proof buttons_found as Hb. pose proof key_part_found as Hk.
  unfold sidebar_panel, sidebar_clicks. eapply finds_eq; [render|].
  cbn [concat app]. by rewrite !app_nil_r.
Qed.

(** Every element of the page that reacts to a click, in document order, with
    the bulk bar or without it. *)
Definition page_clicks_with (bulk : bool) : list (option val * option action) :=
  ((if truthy group then [(Some (VStr "Назад к группам"), Some GoGroups)] else []) ++
   [(None, Some NewClient)] ++
   (if bulk then [(None, Some HandleBulkDelete)] else []) ++
   concat (map row_clicks (shown us)) ++
   (if sidebarOpen s then sidebar_clicks else []) ++
   (if truthy (qrModal s) then qr_clicks else []))%list.
Definition page_clicks : list (option val * option action) :=
  page_clicks_with (match selectedUsers s with [] => false | _ => true end).

Lemma shown_good u : u ∈ shown us -> well_formed u = true.
Proof.
  destruct Hs as [_ _ Hw _ _ _ _ _ _]. rewrite forallb_forall in Hw. unfold displayed.
  rewrite !list_elem_of_In. destruct (truthy group); [|by apply Hw].
  rewrite List.filter_In. intros [Hin _]. by apply Hw.
Qed.

Lemma rows_found :
  found (each (displayedUsers group s) (fun _ user => user_row s user))
        (concat (map row_clicks (shown us))).
Proof.
  apply finds_list; [apply displayed_ok|]. intros i u Hi.
  apply user_row_found, shown_good. by eapply list_elem_of_lookup_2.
Qed.

Lemma empty_row_found :
  found (show ((displayedUsers group s) ~> "length" === int 0)
      (el (A:=action) "tr" []
         [el "td" ["colSpan" =: int 10; "className" =: "p-8 text-center text-muted-foreground"]
            [txt "Нет клиентов. Нажмите «Добавить клиента» для регистрации."]])) [].
Proof. rewrite displayed_ok. eapply finds_eq; [render|found_eq]. Qed.

Lemma qr_part_found :
  found (show ((qrModal s) ?> "isOpen") (qr_modal s)) (if truthy (qrModal s) then qr_clicks else []).
Proof.
  pose proof qr_found as Hq.
  destruct Hs as [_ _ _ _ _ _ _ _ [E|(link & name & E & _)]]; rewrite E in *.
  - eapply finds_eq; [eapply finds_guard; [exact _|js_red; reflexivity|done|done]|done].
  - eapply finds_eq; [eapply finds_guard; [exact _|js_red; reflexivity|done|auto]|done].
Qed.

(** The bar's condition, as the page computes it. *)
Definition bulk_shown : bool :=
  num_lt (to_number (int 0)) (to_number (int (Z.of_nat (length (selectedUsers s))))).

Lemma bulk_shown_small :
  small (selectedUsers s) ->
  bulk_shown = match selectedUsers s with [] => false | _ => true end.
Proof.
  unfold small, bulk_shown. intros Hsm. cbn [to_number int]. rewrite num_lt_Z by (done || lia).
  by destruct (selectedUsers s).
Qed.

Lemma view_found_with : found (view group s) (page_clicks_with bulk_shown).
Proof.
  pose proof header_found as Hh. pose proof table_head_found as Ht. pose proof bulk_found as Hb.
  pose proof panel_found as Hp. pose proof qr_part_found as Hq. pose proof rows_found as Hr.
  pose proof empty_row_found as He.
  unfold view, page_clicks_with. eapply finds_eq; [render|]. change (truthy (VBool (num_lt _ _))) with bulk_shown.
  cbn [concat app truthy]. by rewrite !app_nil_r, <- !app_assoc.
Qed.

Lemma view_found : small (selectedUsers s) -> found (view group s) page_clicks.
Proof. intros Hsm. unfold page_clicks. rewrite <- bulk_shown_small by done. apply view_found_with. Qed.
End View.

(** C18. The clients page renders whenever the server's lists have the
    documented shape, and its clickable elements are exactly these, in document
    order: each displayed client's row offers details, QR, copy, block or
    unblock (by status) and delete for that very client; the bulk button
    exists exactly when something is selected; the form offers save and delete
    for a selected client and create otherwise, disabled while a request
    runs. *)
Theorem view_clicks (group : val) (s : state) (us gs ts : list val) (e : event)
  (Hs : good_state group s us gs ts) (Hsel : small (selectedUsers s)) :
  exists ns, view group s = Ok ns /\ clicks e ns = page_clicks group s us.
Proof. by apply finds_clicks, (view_found group s us gs ts). Qed.

Lemma object_list_breaks (s : state) (fs : list (string * val)) :
  users s = VObj fs -> exists x, view VNull s = Err x.
Proof.
  intros Hu. destruct (view VNull s) as [ns|x] eqn:E; [|by eexists]. exfalso.
  unfold view in E.
  eapply (el_kid _ _ _ _ 2) in E as [? E]; [|reflexivity].
  do 2 (eapply (el_kid _ _ _ _ 0) in E as [? E]; [|reflexivity]).
  do 2 (eapply (el_kid _ _ _ _ 1) in E as [? E]; [|reflexivity]).
  revert E. unfold displayedUsers, jcond, jif. rewrite Hu. discriminate.
Qed.

(** C40. The page never tells an error body from a list.  Whatever the browser
    and its storage, mounting the page leaves the request for the clients
    pending; answered by any status but 401 with any JSON object (a 500 with its
    [detail], say), it waits for the body, and once that is read the object is
    the page's list of clients and its render throws. *)
Theorem error_body_breaks_page `{BuildEnv} (io0 : inputs) (sto : gmap string string) :
  let c0 := boot (page VNull) io0 sto in
  exists id rq k, pend c0 !! 0 = Some (id, Waiting (QFetch rq) k) /\
    rq_method rq = "GET" /\ rq_url rq = API +:+ "/clients" /\
    forall io (status : Z) (fs : list (string * val)), status <> 401%Z ->
      let c1 := settle_step (page VNull) io 0 k (Ok (Response status (Ok (VObj fs)))) c0 in
      exists j id' k', pend c1 !! j = Some (id', Waiting QTick k') /\
        forall io', let c2 := settle_step (page VNull) io' j k' (Ok tt) c1 in
          reachable (page VNull) c2 /\ users (st c2) = VObj fs /\ exists x, view VNull (st c2) = Err x.
Proof.
  cbv zeta. set (c0 := boot (page VNull) io0 sto).
  assert (exists rq, pend c0 !! 0 = Some (0, Waiting (QFetch rq) (after_response set_users)) /\
            rq_method rq = "GET" /\ rq_url rq = API +:+ "/clients") as (rq & Hp & Hm & Hu).
  { eexists (wrapped (stored_token sto) (API +:+ "/clients") GET). split; [|done].
    change c0 with (run io0 (let! _ := setInterval fetchData 5000 in skip)
      (run io0 fetchTemplates (run io0 fetchGroups (run io0 fetchUsers (Conf init_state sto [] 0 []))))).
    unfold fetchUsers, fetchGroups, fetchTemplates. by rewrite !run_fetch_into. }
  exists 0, rq, (after_response set_users). split; [done|]. split; [done|]. split; [done|]. intros io status fs Hst.
  pose proof (reach_boot (page VNull) io0 sto) as Hr. fold c0 in Hr.
  eapply (reach_reply _ io 0 _ _ _ (Response status (Ok (VObj fs)))) in Hr; [|exact Hp].
  unfold settle_step in Hr |- *. rewrite run_after_response in Hr |- * by done. cbn [r_json] in *.
  eexists (length (pend (take_task 0 c0))), _, (after_body set_users (Ok (VObj fs))).
  assert (pend (commit_after (page VNull) io (st c0) (push (Waiting QTick (after_body set_users (Ok (VObj fs)))) (take_task 0 c0)))
    !! length (pend (take_task 0 c0)) = Some (next (take_task 0 c0), Waiting QTick (after_body set_users (Ok (VObj fs))))) as Hj
    by (cbn; apply list_lookup_middle; done).
  split; [exact Hj|]. intros io'. split; [by eapply reach_tick|].
  assert (forall s : state, users s = VObj fs -> users s = VObj fs /\ exists x, view VNull s = Err x) as Hv
    by (intros s Es; split; [done|by eapply object_list_breaks]).
  apply Hv. reflexivity.
Qed.

(** A page with one blocked client, for the witness of [view_clicks]. *)
Definition demo_client : val :=
  VObj [("id", VStr "7"); ("username", VStr "bob"); ("status", VStr "offline");
        ("dataUsage", int 3); ("dataLimit", int 10)].
Definition demo_state : state := set_users (VArr [demo_client]) init_state.
Definition a_click : event := Event "" "" false false.

Lemma view_clicks_witness :
  exists ns, view VNull demo_state = Ok ns /\
    clicks a_click ns =
    [(None, Some NewClient);
     (Some (VStr "Подробнее"), Some (OpenUserDetails demo_client));
     (Some (VStr "Показать QR-код"), Some (ShowQr demo_client));
     (Some (VStr "Скопировать ключ"), Some (CopyKey (demo_client ~> "shadeLink")));
     (Some (VStr "Разблокировать"), Some (HandleToggle (demo_client ~> "id") (demo_client ~> "status")));
     (Some (VStr "Удалить"), Some (HandleDelete (demo_client ~> "id")))].
Proof.
  apply (view_clicks VNull demo_state [demo_client] [] [] a_click).
  - split; first [by left | done].
  - done.
Defined.
