(* ===== verification/UsersTyped.v ===== *)
(** * The clients page never breaks on a server that keeps its word

    If the three lists the page polls come back with the documented shapes (or
    not at all), no sequence of answers, failures, timers and clicks leads to a
    state the page cannot render. *)
From S2P Require Import Prelude JsStr JsNum JsVal Ints React Effects Logic Api Typed Promises Users UsersView UsersSpec UsersRender.
Local Open Scope string_scope.
Local Open Scope js_scope.

(** The actions that carry a client carry one of the page's, and those that
    read a property when they are clicked find it. *)
Definition offered (s : state) (a : action) : Prop :=
  match a with
  | CopyKey e | HandleDelete e | CopyAndCloseQr e => evaluates e
  | HandleToggle e1 e2 => evaluates e1 /\ evaluates e2
  | OpenUserDetails u | ShowQr u => exists us, users s = VArr us /\ u ∈ us
  | _ => True
  end.

(** ** The invariant *)

Record typed (s : state) : Prop := IsTyped {
  typed_users : list_of client_ok (users s) = true;
  typed_groups : list_of group_ok (groups s) = true;
  typed_templates : list_of tariff_ok (templates s) = true;
  typed_selected : selectedUser s = VNull \/
    exists fs, selectedUser s = VObj fs /\ scalar (field "shadeLink" (VObj fs)) = true;
  typed_qr : qrModal s = VNull \/
    exists link name, qrModal s = VObj [("isOpen", VBool true); ("link", link); ("username", name)] /\
                      scalar name = true;
}.

Lemma forallb_weaken {A} (p q : A -> bool) l :
  (forall x, p x = true -> q x = true) -> forallb p l = true -> forallb q l = true.
Proof. intros Hpq. rewrite !forallb_forall. auto. Qed.
Lemma client_well_formed u : client_ok u = true -> well_formed u = true.
Proof. intros H. shape H. unfold well_formed. rewrite !andb_true_iff. tauto. Qed.

Section Page.
Context `{BuildEnv} (group : val).
Hypothesis Hgroup : group = VNull \/ exists g, group = VStr g.

Lemma typed_good s : typed s -> exists us gs ts, users s = VArr us /\ good_state group s us gs ts.
Proof.
  intros [Hus Hgs Hts Hsel Hqr].
  apply list_of_inv in Hus as (us & Hu & Hus). apply list_of_inv in Hgs as (gs & Hg & Hgs).
  apply list_of_inv in Hts as (ts & Ht & Hts).
  exists us, gs, ts. split; [done|]. split; try done.
  - eapply forallb_weaken; [apply client_well_formed|done].
  - eapply forallb_weaken; [|exact Hgs]. intros g H1. shape H1. rewrite andb_true_iff. auto.
  - eapply forallb_weaken; [|exact Hts]. intros g H1. shape H1. rewrite !andb_true_iff. auto.
Qed.

(** Updates of the other fields. *)
Lemma typed_same s s' :
  users s' = users s -> groups s' = groups s -> templates s' = templates s ->
  selectedUser s' = selectedUser s -> qrModal s' = qrModal s -> typed s -> typed s'.
Proof. intros E1 E2 E3 E4 E5 [H1 H2 H3 H4 H5]. split; by rewrite ?E1, ?E2, ?E3, ?E4, ?E5. Qed.

Lemma offered_client s u :
  typed s -> (exists us, users s = VArr us /\ u ∈ us) ->
  exists fs, u = VObj fs /\ scalar (field "shadeLink" u) = true /\ scalar (field "username" u) = true.
Proof.
  intros [Hus _ _ _ _] (us & Hu & Hin). rewrite Hu in Hus. cbn [list_of] in Hus.
  rewrite forallb_forall in Hus. specialize (Hus u (proj1 (list_elem_of_In _ _) Hin)). shape Hus.
  destruct u as [| | | | | |fs|]; try done. by exists fs.
Qed.

(** Updates of the other fields, and of the lists by what the server promised. *)
Ltac other_field :=
  let s0 := fresh in let H0 := fresh in intros s0 H0; apply (typed_same s0); done.

Lemma closed_user s : typed s -> typed (set_selectedUser VNull s).
Proof. intros [H1 H2 H3 H4 H5]. split; try done. by left. Qed.
Lemma closed_qr s : typed s -> typed (set_qrModal VNull s).
Proof. intros [H1 H2 H3 H4 H5]. split; try done. by left. Qed.

Ltac page_keeps :=
  keeps_tac; try done;
  first [solve [promised; let W := fresh in intros W; destruct W; by split]
        |exact closed_user|exact closed_qr|other_field].

Lemma mount_keeps : keeps documented (typed) mount.
Proof. page_keeps. Qed.

Lemma handle_keeps s a : typed s -> offered s a -> keeps documented (typed) (handle group s a).
Proof.
  intros Hs Ha. destruct a; cbn [handle]; try by page_keeps.
  - (* OpenUserDetails *)
    destruct (offered_client s user Hs Ha) as (fs & -> & Hl & _). unfold openUserDetails.
    apply keeps_bind; [split; [|exact I]|intros; split; [other_field|exact I]].
    intros s' [H1 H2 H3 H4 H5]. split; try done. right. by exists fs.
  - (* ShowQr *)
    destruct (offered_client s user Hs Ha) as (fs & -> & Hl & Hn).
    cbn [field] in Hl, Hn. cbn. split; [|exact I].
    intros s' [H1 H2 H3 H4 H5]. split; try done. right. by eexists _, _.
Qed.

Lemma page_kept : kept_component documented (page group) offered (typed).
Proof.
  unfold page. split.
  - split; cbn; eauto.
  - apply mount_keeps.
  - apply handle_keeps.
  - done.
Qed.

Lemma displayed_in us u : u ∈ displayed group us -> u ∈ us.
Proof.
  unfold displayed. destruct (truthy group); [|done].
  rewrite !list_elem_of_In, List.filter_In. by intros [? _].
Qed.

Lemma clicks_offered s us bulk :
  typed s -> users s = VArr us -> all_fire (offered s) (page_clicks_with group s us bulk).
Proof.
  intros Ht Hu. pose proof Ht as [_ _ _ Hsel Hqr].
  assert (forall k, truthy (selectedUser s) = true -> evaluates ((lit (selectedUser s)) ~> k)) as He.
  { intros k Htr. destruct Hsel as [E|(fs & E & _)]; rewrite E in *; [done|by eexists]. }
  assert (truthy (field "shadeLink" (selectedUser s)) = true ->
    evaluates ((lit (selectedUser s)) ~> "shadeLink")) as Hk.
  { intros Htr. destruct Hsel as [E|(fs & E & _)]; rewrite E in *; [done|by eexists]. }
  assert (truthy (qrModal s) = true -> evaluates ((lit (qrModal s)) ~> "link")) as Hl.
  { intros Htr. destruct Hqr as [E|(l & n & E & _)]; rewrite E in *; [done|by eexists]. }
  unfold page_clicks_with, sidebar_clicks, form_clicks, qr_clicks.
  repeat apply Forall_app_2; repeat case_match; repeat apply Forall_app_2;
    try solve [repeat apply Forall_cons_2; cbn [snd offered]; auto using Forall_nil_2].
  apply Forall_concat, Forall_map, Forall_forall. intros u Hin. apply displayed_in in Hin.
  destruct (offered_client s u Ht (ex_intro _ us (conj Hu Hin))) as (fs & -> & _).
  unfold row_clicks. repeat apply Forall_cons_2; cbn; try split; eauto using Forall_nil_2; by eexists.
Qed.

#[export] Instance users_page : Page (page group) (view group).
Proof.
  refine (Build_Page _ _ _ _ _ typed offered page_kept _). intros s e Ht.
  destruct (typed_good s Ht) as (us & gs & ts & Hu & Hg).
  eapply shows_found; [exact (view_found_with group s us gs ts e Hg)|]. by apply clicks_offered.
Defined.
End Page.

(** Type soundness of the clients page.  Against a server whose lists have
    the documented shapes (a request may also fail, or its body not parse), and
    with clicks on what is displayed, every reachable state is well typed and
    renders; what it renders offers no click outside those assumed, so the
    loop is closed. *)
Theorem users_type_sound `{BuildEnv} (group : val) (c : conf state)
  (Hgroup : group = VNull \/ exists g, group = VStr g)
  (Hc : kept_reachable documented (page group) offered c) :
  typed (st c) /\
  forall e, exists ns, view group (st c) = Ok ns /\
    forall t a, (t, Some a) ∈ clicks e ns -> offered (st c) a.
Proof. exact (page_sound (page group) (view group) (Page0:=users_page group Hgroup) c Hc). Qed.

Definition ann : val :=
  VObj [("id", VStr "u1"); ("username", VStr "ann"); ("telegramId", VStr ""); ("protocol", VStr "shade");
        ("groupName", VStr "—"); ("subscriptionEnd", VStr ""); ("dataUsage", int 2);
        ("status", VStr "online"); ("shadeLink", VStr "shade://k"); ("vpnIp", VStr "10.0.0.2")].
Definition one_client : response := Response 200 (Ok (VArr [ann])).

Lemma one_client_documented token :
  documented (H:=false) (wrapped token "/api/clients" GET) one_client.
Proof.
  intros _. repeat apply Forall_cons_2; try (cbn; intros Hu; discriminate Hu); [|apply Forall_nil_2].
  intros _ v [= <-]. reflexivity.
Qed.

Lemma ann_reachable :
  exists c, kept_reachable (documented (H:=false)) (page (H:=false) VNull) offered c /\
    users (st c) = VArr [ann].
Proof.
  destruct (kept_refresh (documented (H:=false)) (page (H:=false) VNull) offered quiet_browser 0 0
    (wrapped "" "/api/clients" GET) one_client (VArr [ann]) set_users
    (boot (page (H:=false) VNull) quiet_browser ∅)) as (c & Hc & Hs);
    [done|apply kept_boot| |apply one_client_documented|done|done|].
  - unfold boot. cbn [page c_mount c_init]. unfold mount, fetchData, fetchUsers. reflexivity.
  - exists c. split; [exact Hc|]. by rewrite Hs.
Qed.

Lemma users_type_sound_witness :
  exists c ns, users (st c) = VArr [ann] /\ view VNull (st c) = Ok ns.
Proof.
  destruct ann_reachable as (c & Hc & Hu).
  destruct (users_type_sound (H:=false) VNull c (or_introl eq_refl) Hc) as [_ Hv].
  destruct (Hv (Event "" "" false false)) as (ns & Hn & _). by exists c, ns.
Defined.
