(* ===== verification/Groups.v ===== *)
(** * The groups page ([pages/Groups.tsx]) *)
From S2P Require Import Prelude JsStr JsNum JsVal React Effects Logic Api.
Local Open Scope string_scope.
Local Open Scope js_scope.

Record state := State {
  groups : val;
  clients : val;
  showForm : bool;
  editId : val;
  assignGroupId : val;
  selectedClients : list val;
}.
Definition set_groups (v : val) (s : state) : state :=
  State v (clients s) (showForm s) (editId s) (assignGroupId s) (selectedClients s).
Definition set_clients (v : val) (s : state) : state :=
  State (groups s) v (showForm s) (editId s) (assignGroupId s) (selectedClients s).
Definition set_showForm (v : bool) (s : state) : state :=
  State (groups s) (clients s) v (editId s) (assignGroupId s) (selectedClients s).
Definition set_editId (v : val) (s : state) : state :=
  State (groups s) (clients s) (showForm s) v (assignGroupId s) (selectedClients s).
Definition set_assignGroupId (v : val) (s : state) : state :=
  State (groups s) (clients s) (showForm s) (editId s) v (selectedClients s).
Definition set_selectedClients (v : list val) (s : state) : state :=
  State (groups s) (clients s) (showForm s) (editId s) (assignGroupId s) v.

Definition init_state : state := State (VArr []) (VArr []) false VNull VNull [].

Inductive action : Type :=
| NewGroup
| HandleCreate
| CancelForm
| CloseAssign
| ToggleClientSelection (clientId : expr)
| HandleAssign
| OpenGroup (groupId : expr)
| StopPropagation
| OpenAssignPanel (groupId : expr)
| StartEdit (g : val)
| HandleDelete (id : expr).

Section Groups.
Context `{BuildEnv}.

Definition loadGroups : prog state unit := fetch_into (API +:+ "/groups") set_groups.
Definition loadClients : prog state unit := fetch_into (API +:+ "/clients") set_clients.
Definition mount : prog state unit := do! loadGroups in loadClients.

Definition group_url (id : val) : string := API +:+ "/groups/" +:+ to_string id.

(** The body both branches of [handleCreate] send. *)
Definition group_body (name : val) : prog state val :=
  let! desc := ref_value "descRef" in
  let! limit := ref_value "limitRef" in
  lift (jobj [("name", name : expr); ("description", desc ||| "");
              ("data_limit", limit ||| "100 ГБ/юзер")]).

Definition handleCreate (s : state) : prog state unit :=
  let! v := ref_value "nameRef" in
  let name := jtrim v in
  if negb (truthy name) then alert "Введите название группы"
  else
    let! _ := (if truthy (editId s)
               then let! body := group_body name in
                    fetch (group_url (editId s)) (JSON "PATCH" body)
               else let! body := group_body name in
                    fetch (API +:+ "/groups") (JSON "POST" body)) in
    do! upd (set_showForm false) in
    do! upd (set_editId VNull) in
    loadGroups.

Definition handleDelete (id : val) : prog state unit :=
  let! ok := confirm "Удалить группу? Клиенты будут отвязаны от неё." in
  if negb ok then skip
  else
    let! _ := fetch (group_url id) DELETE in
    do! loadGroups in loadClients.

(** [if (r.current) r.current.value = g.f]. *)
Definition fill (r : string) (e : expr) : prog state unit :=
  let! cur := ref_value r in
  if nullish cur then skip
  else let! v := lift e in do_ (CSetRefValue r (dom_string v)).

Definition startEdit (g : val) : prog state unit :=
  let! id := lift (g ~> "id") in
  do! upd (set_editId id) in
  do! upd (set_showForm true) in
  let! _ := setTimeout
    (do! fill "nameRef" (g ~> "name") in
     do! fill "descRef" (g ~> "description") in
     fill "limitRef" (g ~> "dataLimit")) 50 in
  skip.

Definition openAssignPanel (groupId : val) : prog state unit :=
  do! upd (set_assignGroupId groupId) in
  upd (set_selectedClients []).

Definition toggle_client (clientId : val) (prev : list val) : list val :=
  if includes_val prev clientId
  then List.filter (fun id => negb (strict_eq id clientId)) prev
  else (prev ++ [clientId])%list.

Definition toggleClientSelection (clientId : val) : prog state unit :=
  upd (fun s => set_selectedClients (toggle_client clientId (selectedClients s)) s).

Definition handleAssign (s : state) : prog state unit :=
  if negb (truthy (assignGroupId s)) || Nat.eqb (length (selectedClients s)) 0 then skip
  else
    let! _ := fetch (group_url (assignGroupId s) +:+ "/assign")
                (JSON "POST" (VObj [("client_ids", VArr (selectedClients s));
                                    ("group_id", assignGroupId s)])) in
    do! upd (set_assignGroupId VNull) in
    do! upd (set_selectedClients []) in
    do! loadGroups in loadClients.

Definition groupMembers (s : state) (groupId : val) : expr :=
  jfilter (clients s) (fun c => (c ~> "groupId") === groupId).

Definition handle (s : state) (a : action) : prog state unit :=
  match a with
  | NewGroup => do! upd (set_editId VNull) in upd (set_showForm true)
  | HandleCreate => handleCreate s
  | CancelForm => do! upd (set_showForm false) in upd (set_editId VNull)
  | CloseAssign => upd (set_assignGroupId VNull)
  | ToggleClientSelection e => let! id := lift e in toggleClientSelection id
  | HandleAssign => handleAssign s
  | OpenGroup e =>
      let! id := lift e in navigate ("/users?group=" +:+ to_string id)
  | StopPropagation => do_ CStopPropagation
  | OpenAssignPanel e => let! id := lift e in openAssignPanel id
  | StartEdit g => startEdit g
  | HandleDelete e => let! id := lift e in handleDelete id
  end.

Definition page : component state action :=
  Component init_state mount handle (fun _ _ => skip).
End Groups.

(** ** The view *)

Definition group_form (s : state) : jsx action :=
  el "div" ["className" =: "p-6 rounded-lg border border-primary/30 bg-card space-y-4"] [
    el "h3" ["className" =: "font-bold text-lg"] [
      put (jcond (editId s) "Редактировать группу" "Новая группа")];
    el "input" [ref "nameRef";
       "className" =: "w-full px-3 py-2 bg-input rounded-lg border border-border focus:border-primary outline-none";
       "placeholder" =: "Название группы (напр. VIP)"] [];
    el "input" [ref "descRef";
       "className" =: "w-full px-3 py-2 bg-input rounded-lg border border-border focus:border-primary outline-none";
       "placeholder" =: "Описание (напр. Премиум безлимитный доступ)"] [];
    el "input" [ref "limitRef";
       "className" =: "w-full px-3 py-2 bg-input rounded-lg border border-border focus:border-primary outline-none";
       "placeholder" =: "Лимит трафика (напр. Безлимит)";
       "defaultValue" =: "100 ГБ/юзер"] [];
    el "div" ["className" =: "flex gap-3"] [
      el "button" ["onClick" =! HandleCreate;
         "className" =: "px-4 py-2 bg-primary text-primary-foreground rounded-lg hover:bg-primary/90"] [
        put (jcond (editId s) "Сохранить" "Создать")];
      el "button" ["onClick" =! CancelForm; "className" =: "px-4 py-2 bg-muted rounded-lg"] [
        txt "Отмена"]]].

Definition client_option (s : state) (c : val) : jsx action :=
  el "label" ["key" =: c ~> "id";
     "className" =: tpl ["flex items-center gap-3 p-2 rounded hover:bg-muted/50 cursor-pointer transition-colors "; jcond (jincludes (VArr (selectedClients s)) (c ~> "id")) "bg-primary/10" ""]] [
    el "input" ["type" =: "checkbox";
       "checked" =: jincludes (VArr (selectedClients s)) (c ~> "id");
       "onChange" =! ToggleClientSelection (c ~> "id");
       "className" =: "w-4 h-4 rounded"] [];
    el "span" ["className" =: "font-medium"] [put (c ~> "username")];
    el "span" ["className" =: "text-xs text-muted-foreground ml-auto"] [
      put (jcond ((c ~> "groupName") !== "—") (tpl ["Группа: "; c ~> "groupName"]) "Без группы")]].

Definition assign_panel (s : state) : jsx action :=
  el "div" ["className" =: "p-6 rounded-lg border-2 border-primary bg-card space-y-4"] [
    el "div" ["className" =: "flex items-center justify-between"] [
      el "h3" ["className" =: "font-bold text-lg"] [
        txt "Добавить клиентов в группу «";
        put ((jfind (groups s) (fun g => (g ~> "id") === (assignGroupId s))) ?> "name");
        txt "»"];
      el "button" ["onClick" =! CloseAssign;
         "className" =: "text-muted-foreground hover:text-foreground"] [
        txt "✕"]];
    jif (((clients s) ~> "length") === (int 0))
      (el "p" ["className" =: "text-muted-foreground text-sm"] [
        txt "Нет клиентов. Сначала создайте клиента на вкладке «Клиенты»."])
      (frag [
        el "p" ["className" =: "text-sm text-muted-foreground"] [
          txt "Выберите клиентов для добавления в группу:"];
        el "div" ["className" =: "max-h-60 overflow-y-auto space-y-1 border border-border rounded-lg p-2"] [
          each (clients s) (fun _ c =>
            client_option s c)];
        el "div" ["className" =: "flex gap-3"] [
          el "button" ["onClick" =! HandleAssign;
             "disabled" =: (((VArr (selectedClients s)) ~> "length") === (int 0));
             "className" =: "px-4 py-2 bg-primary text-primary-foreground rounded-lg hover:bg-primary/90 disabled:opacity-50"] [
            txt "Добавить ";
            put (jcond (((VArr (selectedClients s)) ~> "length") .> (int 0)) (tpl ["("; (VArr (selectedClients s)) ~> "length"; ")"]) "");
            txt " в группу"];
          el "button" ["onClick" =! CloseAssign; "className" =: "px-4 py-2 bg-muted rounded-lg"] [
            txt "Отмена"]]])].

Definition group_card (group : val) : jsx action :=
  el "div" ["key" =: group ~> "id";
     "onClick" =! OpenGroup (group ~> "id");
     "className" =: "p-5 rounded-lg border border-primary/30 bg-gradient-to-br from-card to-card/50 backdrop-blur-sm hover:border-primary cursor-pointer transition-all shadow-sm hover:shadow-md"] [
    el "div" ["className" =: "flex items-start justify-between mb-3"] [
      el "div" ["className" =: "p-2.5 rounded-lg bg-primary/10"] [
        el "UsersIcon" ["className" =: "w-5 h-5 text-primary"] []];
      el "div" ["className" =: "flex gap-1"; "onClick" =! StopPropagation] [
        el "button" ["onClick" =! OpenAssignPanel (group ~> "id");
           "className" =: "p-1.5 hover:bg-primary/20 rounded transition-colors";
           "title" =: "Добавить клиентов"] [
          el "UserPlus" ["className" =: "w-4 h-4"] []];
        el "button" ["onClick" =! StartEdit group;
           "className" =: "p-1.5 hover:bg-primary/20 rounded transition-colors";
           "title" =: "Редактировать"] [
          el "Edit" ["className" =: "w-4 h-4"] []];
        el "button" ["onClick" =! HandleDelete (group ~> "id");
           "className" =: "p-1.5 hover:bg-destructive/20 text-destructive rounded transition-colors";
           "title" =: "Удалить"] [
          el "Trash2" ["className" =: "w-4 h-4"] []]]];
    el "h3" ["className" =: "text-lg font-bold mb-1 truncate"] [put (group ~> "name")];
    el "p" ["className" =: "text-sm text-muted-foreground mb-4"] [
      put ((group ~> "description") ||| "Без описания")];
    el "div" ["className" =: "space-y-1.5 text-xs"] [
      el "div" ["className" =: "flex justify-between"] [
        el "span" ["className" =: "text-muted-foreground"] [txt "Участников"];
        el "span" ["className" =: "font-semibold"] [put (group ~> "members")]];
      el "div" ["className" =: "flex justify-between"] [
        el "span" ["className" =: "text-muted-foreground"] [txt "Лимит"];
        el "span" ["className" =: "font-semibold"] [put (group ~> "dataLimit")]]]].

Definition view (s : state) : jsx action :=
  el "div" ["className" =: "space-y-6"] [
    el "div" ["className" =: "flex items-center justify-between"] [
      el "div" [] [
        el "h1" ["className" =: "text-3xl font-bold"] [txt "Группы"];
        el "p" ["className" =: "text-muted-foreground mt-1"] [
          txt "Организация клиентов по категориям"]];
      el "button" ["onClick" =! NewGroup;
         "className" =: "flex items-center gap-2 px-4 py-2 bg-primary text-primary-foreground rounded-lg hover:bg-primary/90 transition-colors"] [
        el "Plus" ["className" =: "w-4 h-4"] [];
        txt " Создать группу"]];
    show (showForm s)
      (group_form s);
    show (assignGroupId s)
      (assign_panel s);
    show ((((groups s) ~> "length") === (int 0)) &&& (jnot (showForm s)))
      (el "div" ["className" =: "p-8 text-center text-muted-foreground rounded-lg border border-dashed border-border"] [
        txt "Нет групп. Нажмите «Создать группу» чтобы начать."]);
    el "div" ["className" =: "grid grid-cols-1 md:grid-cols-2 xl:grid-cols-4 2xl:grid-cols-5 gap-4"] [
      each (groups s) (fun _ group =>
        group_card group)]].
