(* ===== verification/Templates.v ===== *)
(** * The tariff page ([pages/Templates.tsx]) *)
From S2P Require Import Prelude JsStr JsNum JsVal React Effects Logic Api.
Local Open Scope string_scope.
Local Open Scope js_scope.

Record state := State {
  templates : val;
  showForm : bool;
}.
Definition set_templates (v : val) (s : state) : state :=
  State v (showForm s).
Definition set_showForm (v : bool) (s : state) : state :=
  State (templates s) v.

Definition init_state : state := State (VArr []) false.

Inductive action : Type :=
| OpenForm
| CloseForm
| HandleCreate
| HandleDelete (id : expr).

(** [durationLabel(days)]: years, months or days. *)
Definition jfloor_div (e : expr) (n : Z) : expr :=
  v ← e; Ok (VNum (math_floor (num_div (to_number v) (num_of_Z n)))).
Definition durationLabel (days : expr) : expr :=
  jcond (days .>= int 365) (tpl [jfloor_div days 365; " год"])
  (jcond (days .>= int 30) (tpl [jfloor_div days 30; " мес."])
  (tpl [days; " дн."])).

Section Templates.
Context `{BuildEnv}.

Definition load : prog state unit := fetch_into (API +:+ "/templates") set_templates.
Definition mount : prog state unit := load.

Definition handleCreate : prog state unit :=
  let! v := ref_value "nameRef" in
  let name := jtrim v in
  if negb (truthy name) then alert "Введите название тарифа"
  else
    let! days := ref_value "daysRef" in
    let! limit := ref_value "limitRef" in
    let! price := ref_value "priceRef" in
    let! body := lift (jobj [("name", name : expr);
                             ("duration_days", jparseInt (days ||| "30"));
                             ("data_limit_gb", jparseFloat (limit ||| "50"));
                             ("price", price ||| "0")]) in
    let! _ := fetch (API +:+ "/templates") (JSON "POST" body) in
    do! upd (set_showForm false) in
    load.

Definition template_url (id : val) : string := API +:+ "/templates/" +:+ to_string id.

Definition handleDelete (id : val) : prog state unit :=
  let! ok := confirm "Удалить этот тариф?" in
  if negb ok then skip
  else let! _ := fetch (template_url id) DELETE in load.

Definition handle (s : state) (a : action) : prog state unit :=
  match a with
  | OpenForm => upd (set_showForm true)
  | CloseForm => upd (set_showForm false)
  | HandleCreate => handleCreate
  | HandleDelete e => let! id := lift e in handleDelete id
  end.

Definition page : component state action :=
  Component init_state mount handle (fun _ _ => skip).
End Templates.

(** ** The view *)

Definition template_form : jsx action :=
  el "div" ["className" =: "p-6 rounded-lg border border-primary/30 bg-card space-y-4"] [
    el "h3" ["className" =: "font-bold text-lg"] [txt "Создать тариф"];
    el "input" [ref "nameRef";
       "className" =: "w-full px-3 py-2 bg-input rounded-lg border border-border focus:border-primary outline-none";
       "placeholder" =: "Название (напр. VIP Безлимит)"] [];
    el "div" ["className" =: "grid grid-cols-3 gap-3"] [
      el "div" [] [
        el "label" ["className" =: "text-xs text-muted-foreground"] [txt "Дней"];
        el "input" [ref "daysRef";
           "type" =: "number";
           "defaultValue" =: "30";
           "className" =: "w-full px-3 py-2 bg-input rounded-lg border border-border outline-none"] []];
      el "div" [] [
        el "label" ["className" =: "text-xs text-muted-foreground"] [txt "Лимит (ГБ)"];
        el "input" [ref "limitRef";
           "type" =: "number";
           "defaultValue" =: "50";
           "className" =: "w-full px-3 py-2 bg-input rounded-lg border border-border outline-none"] []];
      el "div" [] [
        el "label" ["className" =: "text-xs text-muted-foreground"] [txt "Цена"];
        el "input" [ref "priceRef";
           "defaultValue" =: "$9.99";
           "className" =: "w-full px-3 py-2 bg-input rounded-lg border border-border outline-none"] []]];
    el "div" ["className" =: "flex gap-3"] [
      el "button" ["onClick" =! HandleCreate;
         "className" =: "px-4 py-2 bg-primary text-primary-foreground rounded-lg hover:bg-primary/90"] [
        txt "Создать"];
      el "button" ["onClick" =! CloseForm; "className" =: "px-4 py-2 bg-muted rounded-lg"] [
        txt "Отмена"]]].

Definition template_card (t : val) : jsx action :=
  el "div" ["key" =: t ~> "id";
     "className" =: "p-6 rounded-lg border border-primary/30 bg-gradient-to-br from-card to-card/50 backdrop-blur-sm hover:border-primary/50 transition-colors"] [
    el "div" ["className" =: "flex items-start justify-between mb-4"] [
      el "div" ["className" =: "p-3 rounded-lg bg-primary/10"] [
        el "CreditCard" ["className" =: "w-6 h-6 text-primary"] []];
      el "button" ["onClick" =! HandleDelete (t ~> "id");
         "className" =: "p-1.5 hover:bg-destructive/20 text-destructive rounded transition-colors"] [
        el "Trash2" ["className" =: "w-3.5 h-3.5"] []]];
    el "h3" ["className" =: "text-lg font-bold mb-1"] [put (t ~> "name")];
    el "p" ["className" =: "text-2xl font-bold text-primary mb-4"] [
      put (jcond ((t ~> "price") === "0") "Бесплатно" (t ~> "price"))];
    el "div" ["className" =: "space-y-2 text-sm border-t border-border pt-4"] [
      el "div" ["className" =: "flex justify-between"] [
        el "span" ["className" =: "text-muted-foreground"] [txt "Длительность"];
        el "span" ["className" =: "font-semibold"] [put (durationLabel (t ~> "durationDays"))]];
      el "div" ["className" =: "flex justify-between"] [
        el "span" ["className" =: "text-muted-foreground"] [txt "Лимит трафика"];
        el "span" ["className" =: "font-semibold"] [
          put (jcond ((t ~> "dataLimitGb") .>= (int 999)) "Безлимит" (tpl [t ~> "dataLimitGb"; " ГБ"]))]]]].

Definition view (s : state) : jsx action :=
  el "div" ["className" =: "space-y-6"] [
    el "div" ["className" =: "flex items-center justify-between"] [
      el "div" [] [
        el "h1" ["className" =: "text-3xl font-bold"] [txt "Шаблоны Тарифов"];
        el "p" ["className" =: "text-muted-foreground mt-1"] [
          txt "Предустановленные тарифные планы"]];
      el "button" ["onClick" =! OpenForm;
         "className" =: "flex items-center gap-2 px-4 py-2 bg-primary text-primary-foreground rounded-lg hover:bg-primary/90 transition-colors"] [
        el "Plus" ["className" =: "w-4 h-4"] [];
        txt " Новый тариф"]];
    show (showForm s)
      (template_form);
    show ((((templates s) ~> "length") === (int 0)) &&& (jnot (showForm s)))
      (el "div" ["className" =: "p-8 text-center text-muted-foreground rounded-lg border border-dashed border-border"] [
        txt "Нет тарифов. Нажмите «Новый тариф» чтобы создать."]);
    el "div" ["className" =: "grid grid-cols-1 md:grid-cols-2 lg:grid-cols-4 gap-4"] [
      each (templates s) (fun _ t =>
        template_card t)]].
