(* ===== verification/Nodes.v ===== *)
(** * The servers page ([pages/Nodes.tsx]) *)
From S2P Require Import Prelude JsStr JsNum JsVal React Effects Logic Api.
Local Open Scope string_scope.
Local Open Scope js_scope.

Record state := State {
  nodes : val;
  showForm : bool;
}.
Definition set_nodes (v : val) (s : state) : state :=
  State v (showForm s).
Definition set_showForm (v : bool) (s : state) : state :=
  State (nodes s) v.

Definition init_state : state := State (VArr []) false.

Inductive action : Type :=
| OpenForm
| CloseForm
| HandleCreate
| HandleDelete (id : expr).

Section Nodes.
Context `{BuildEnv}.

Definition load : prog state unit := fetch_into (API +:+ "/nodes") set_nodes.
Definition mount : prog state unit := load.

Definition handleCreate : prog state unit :=
  let! v := ref_value "nameRef" in
  let name := jtrim v in
  if negb (truthy name) then alert "Введите название сервера"
  else
    let! loc := ref_value "locRef" in
    let! ip := ref_value "ipRef" in
    let! port := ref_value "portRef" in
    let! body := lift (jobj [("name", name : expr);
                             ("location", loc ||| "");
                             ("ip_address", ip ||| "");
                             ("port", jparseInt (port ||| "443"))]) in
    let! _ := fetch (API +:+ "/nodes") (JSON "POST" body) in
    do! upd (set_showForm false) in
    load.

Definition node_url (id : val) : string := API +:+ "/nodes/" +:+ to_string id.

Definition handleDelete (id : val) : prog state unit :=
  let! ok := confirm "Удалить этот сервер?" in
  if negb ok then skip
  else let! _ := fetch (node_url id) DELETE in load.

Definition handle (s : state) (a : action) : prog state unit :=
  match a with
  | OpenForm => upd (set_showForm true)
  | CloseForm => upd (set_showForm false)
  | HandleCreate => handleCreate
  | HandleDelete e => let! id := lift e in handleDelete id
  end.

Definition page : component state action :=
  Component init_state mount handle (fun _ _ => skip).
End Nodes.

(** ** The view *)

Definition node_form : jsx action :=
  el "div" ["className" =: "p-6 rounded-lg border border-primary/30 bg-card space-y-4"] [
    el "h3" ["className" =: "font-bold text-lg"] [txt "Новый сервер"];
    el "div" ["className" =: "grid grid-cols-2 gap-3"] [
      el "div" [] [
        el "label" ["className" =: "text-xs text-muted-foreground"] [txt "Название"];
        el "input" [ref "nameRef";
           "className" =: "w-full px-3 py-2 bg-input rounded-lg border border-border outline-none";
           "placeholder" =: "node-de-01"] []];
      el "div" [] [
        el "label" ["className" =: "text-xs text-muted-foreground"] [txt "Локация"];
        el "input" [ref "locRef";
           "className" =: "w-full px-3 py-2 bg-input rounded-lg border border-border outline-none";
           "placeholder" =: "Frankfurt, DE"] []];
      el "div" [] [
        el "label" ["className" =: "text-xs text-muted-foreground"] [txt "IP адрес"];
        el "input" [ref "ipRef";
           "className" =: "w-full px-3 py-2 bg-input rounded-lg border border-border outline-none";
           "placeholder" =: "185.204.52.135"] []];
      el "div" [] [
        el "label" ["className" =: "text-xs text-muted-foreground"] [txt "Порт"];
        el "input" [ref "portRef";
           "type" =: "number";
           "defaultValue" =: "443";
           "className" =: "w-full px-3 py-2 bg-input rounded-lg border border-border outline-none"] []]];
    el "div" ["className" =: "flex gap-3"] [
      el "button" ["onClick" =! HandleCreate;
         "className" =: "px-4 py-2 bg-primary text-primary-foreground rounded-lg hover:bg-primary/90"] [
        txt "Добавить"];
      el "button" ["onClick" =! CloseForm; "className" =: "px-4 py-2 bg-muted rounded-lg"] [
        txt "Отмена"]]].

Definition node_card (node : val) : jsx action :=
  el "div" ["key" =: node ~> "id";
     "className" =: "p-6 rounded-lg border border-primary/30 bg-gradient-to-br from-card to-card/50 backdrop-blur-sm"] [
    el "div" ["className" =: "flex items-start justify-between"] [
      el "div" ["className" =: "flex items-center gap-4"] [
        el "div" ["className" =: "p-3 rounded-lg bg-primary/10"] [
          el "Server" ["className" =: "w-6 h-6 text-primary"] []];
        el "div" [] [
          el "h3" ["className" =: "text-xl font-bold"] [put (node ~> "name")];
          el "p" ["className" =: "text-sm text-muted-foreground"] [
            put ((node ~> "location") ||| "Локация не указана")]]];
      el "div" ["className" =: "flex items-center gap-3"] [
        el "div" ["className" =: "flex items-center gap-2"] [
          el "div" ["className" =: tpl ["w-2 h-2 rounded-full "; jcond (node ~> "isOnline") "bg-[#10B981]" "bg-red-500"]] [];
          el "span" ["className" =: tpl ["text-sm "; jcond (node ~> "isOnline") "text-[#10B981]" "text-red-500"]] [
            put (jcond (node ~> "isOnline") "В сети" "Не в сети")]];
        el "button" ["onClick" =! HandleDelete (node ~> "id");
           "className" =: "p-2 hover:bg-destructive/20 text-destructive rounded transition-colors"] [
          el "Trash2" ["className" =: "w-4 h-4"] []]]];
    el "div" ["className" =: "mt-4 grid grid-cols-2 gap-4"] [
      el "div" ["className" =: "p-4 rounded-lg bg-muted/50"] [
        el "p" ["className" =: "text-xs text-muted-foreground mb-1"] [txt "IP Адрес"];
        el "p" ["className" =: "text-lg font-bold font-mono"] [put ((node ~> "ipAddress") ||| "—")]];
      el "div" ["className" =: "p-4 rounded-lg bg-muted/50"] [
        el "p" ["className" =: "text-xs text-muted-foreground mb-1"] [txt "Порт"];
        el "p" ["className" =: "text-lg font-bold"] [put (node ~> "port")]]]].

Definition view (s : state) : jsx action :=
  el "div" ["className" =: "space-y-6"] [
    el "div" ["className" =: "flex items-center justify-between"] [
      el "div" [] [
        el "h1" ["className" =: "text-3xl font-bold"] [txt "Серверы"];
        el "p" ["className" =: "text-muted-foreground mt-1"] [
          txt "Управление VPN-серверами и их инфраструктурой"]];
      el "button" ["onClick" =! OpenForm;
         "className" =: "flex items-center gap-2 px-4 py-2 bg-primary text-primary-foreground rounded-lg hover:bg-primary/90 transition-colors"] [
        el "Plus" ["className" =: "w-4 h-4"] [];
        txt " Добавить сервер"]];
    show (showForm s)
      (node_form);
    show ((((nodes s) ~> "length") === (int 0)) &&& (jnot (showForm s)))
      (el "div" ["className" =: "p-8 text-center text-muted-foreground rounded-lg border border-dashed border-border"] [
        txt "Нет серверов. Нажмите «Добавить сервер» для регистрации нового узла."]);
    el "div" ["className" =: "space-y-4"] [
      each (nodes s) (fun _ node =>
        node_card node)]].
