(* ===== verification/ResponseRules.v ===== *)
(** * The billing rules page ([pages/ResponseRules.tsx]) *)
From S2P Require Import Prelude JsStr JsNum JsVal React Effects Logic Api.
Local Open Scope string_scope.
Local Open Scope js_scope.

Record state := State {
  rules : val;
  showForm : bool;
}.
Definition set_rules (v : val) (s : state) : state :=
  State v (showForm s).
Definition set_showForm (v : bool) (s : state) : state :=
  State (rules s) v.

Definition init_state : state := State (VArr []) false.

Inductive action : Type :=
| OpenForm
| CloseForm
| HandleCreate
| ToggleRule (id current : expr)
| DeleteRule (id : expr).

Section ResponseRules.
Context `{BuildEnv}.

Definition load : prog state unit := fetch_into (API +:+ "/rules") set_rules.
Definition mount : prog state unit := load.

Definition handleCreate : prog state unit :=
  let! v1 := ref_value "nameRef" in
  let! v2 := ref_value "triggerRef" in
  let! v3 := ref_value "actionRef" in
  let name := jtrim v1 in
  let trigger := jtrim v2 in
  let act := jtrim v3 in
  if negb (truthy name) || negb (truthy trigger) || negb (truthy act)
  then alert "Заполните все поля"
  else
    let! _ := fetch (API +:+ "/rules")
                (JSON "POST" (VObj [("name", name); ("trigger", trigger);
                                    ("action", act); ("enabled", VBool true)])) in
    do! upd (set_showForm false) in
    load.

Definition rule_url (id : val) : string := API +:+ "/rules/" +:+ to_string id.

Definition toggleRule (id current : val) : prog state unit :=
  let! _ := fetch (rule_url id +:+ "/toggle")
              (JSON "PATCH" (VObj [("enabled", VBool (negb (truthy current)))])) in
  load.

Definition deleteRule (id : val) : prog state unit :=
  let! ok := confirm "Удалить это правило?" in
  if negb ok then skip
  else let! _ := fetch (rule_url id) DELETE in load.

Definition handle (s : state) (a : action) : prog state unit :=
  match a with
  | OpenForm => upd (set_showForm true)
  | CloseForm => upd (set_showForm false)
  | HandleCreate => handleCreate
  | ToggleRule e1 e2 => let! id := lift e1 in let! cur := lift e2 in toggleRule id cur
  | DeleteRule e => let! id := lift e in deleteRule id
  end.

Definition page : component state action :=
  Component init_state mount handle (fun _ _ => skip).
End ResponseRules.

(** ** The view *)

Definition rule_form : jsx action :=
  el "div" ["className" =: "p-6 rounded-lg border border-primary/30 bg-card space-y-4"] [
    el "h3" ["className" =: "font-bold text-lg"] [txt "Новое правило"];
    el "input" [ref "nameRef";
       "className" =: "w-full px-3 py-2 bg-input rounded-lg border border-border outline-none";
       "placeholder" =: "Название правила"] [];
    el "input" [ref "triggerRef";
       "className" =: "w-full px-3 py-2 bg-input rounded-lg border border-border outline-none";
       "placeholder" =: "Триггер (напр. Трафик достигает 90% лимита)"] [];
    el "input" [ref "actionRef";
       "className" =: "w-full px-3 py-2 bg-input rounded-lg border border-border outline-none";
       "placeholder" =: "Действие (напр. Отправить уведомление в Telegram)"] [];
    el "div" ["className" =: "flex gap-3"] [
      el "button" ["onClick" =! HandleCreate;
         "className" =: "px-4 py-2 bg-primary text-primary-foreground rounded-lg hover:bg-primary/90"] [
        txt "Создать"];
      el "button" ["onClick" =! CloseForm; "className" =: "px-4 py-2 bg-muted rounded-lg"] [
        txt "Отмена"]]].

Definition rule_card (rule : val) : jsx action :=
  el "div" ["key" =: rule ~> "id";
     "className" =: "p-5 rounded-lg border border-primary/30 bg-gradient-to-br from-card to-card/50 backdrop-blur-sm"] [
    el "div" ["className" =: "flex items-start justify-between"] [
      el "div" ["className" =: "flex items-start gap-4 flex-1"] [
        el "div" ["className" =: tpl ["p-3 rounded-lg "; jcond (rule ~> "enabled") "bg-primary/10" "bg-muted"]] [
          el "Zap" ["className" =: tpl ["w-5 h-5 "; jcond (rule ~> "enabled") "text-primary" "text-muted-foreground"]] []];
        el "div" ["className" =: "flex-1"] [
          el "h3" ["className" =: "text-lg font-bold mb-2"] [put (rule ~> "name")];
          el "div" ["className" =: "space-y-2 text-sm"] [
            el "div" ["className" =: "flex items-start gap-2"] [
              el "span" ["className" =: "text-muted-foreground min-w-20"] [txt "Событие:"];
              el "span" [] [put (rule ~> "trigger")]];
            el "div" ["className" =: "flex items-start gap-2"] [
              el "span" ["className" =: "text-muted-foreground min-w-20"] [txt "Действие:"];
              el "span" [] [put (rule ~> "action")]]]]];
      el "div" ["className" =: "flex items-center gap-2"] [
        el "button" ["onClick" =! ToggleRule (rule ~> "id") (rule ~> "enabled");
           "className" =: tpl ["p-2 rounded transition-colors "; jcond (rule ~> "enabled") "text-primary hover:bg-primary/20" "text-muted-foreground hover:bg-muted"]] [
          jif (rule ~> "enabled")
            (el "ToggleRight" ["className" =: "w-6 h-6"] [])
            (el "ToggleLeft" ["className" =: "w-6 h-6"] [])];
        el "button" ["onClick" =! DeleteRule (rule ~> "id");
           "className" =: "p-2 hover:bg-destructive/20 text-destructive rounded transition-colors"] [
          el "Trash2" ["className" =: "w-4 h-4"] []]]]].

Definition view (s : state) : jsx action :=
  el "div" ["className" =: "space-y-6"] [
    el "div" ["className" =: "flex items-center justify-between"] [
      el "div" [] [
        el "h1" ["className" =: "text-3xl font-bold"] [txt "Правила Биллинга"];
        el "p" ["className" =: "text-muted-foreground mt-1"] [
          txt "Автоматические действия на основе триггеров"]];
      el "button" ["onClick" =! OpenForm;
         "className" =: "flex items-center gap-2 px-4 py-2 bg-primary text-primary-foreground rounded-lg hover:bg-primary/90 transition-colors"] [
        el "Plus" ["className" =: "w-4 h-4"] [];
        txt " Создать правило"]];
    show (showForm s)
      (rule_form);
    show ((((rules s) ~> "length") === (int 0)) &&& (jnot (showForm s)))
      (el "div" ["className" =: "p-8 text-center text-muted-foreground rounded-lg border border-dashed border-border"] [
        txt "Нет правил. Нажмите «Создать правило» для добавления автоматизации."]);
    el "div" ["className" =: "space-y-3"] [
      each (rules s) (fun _ rule =>
        rule_card rule)]].
