(* ===== verification/Catalog.v ===== *)
(** * Tariffs, servers and billing rules: what their forms and rows send *)
From S2P Require Import Prelude JsStr JsNum JsVal React Effects Logic Api Forms.
From S2P Require Templates Nodes ResponseRules.
Local Open Scope string_scope.
Local Open Scope js_scope.

Section Bodies.
Context `{BuildEnv} (refs : string -> option string).

Definition tariff_body (name : string) : val :=
  VObj [("name", VStr name);
        ("duration_days", json_num (parseInt (to_string (field_or refs "daysRef" "30"))));
        ("data_limit_gb", json_num (parseFloat (to_string (field_or refs "limitRef" "50"))));
        ("price", field_or refs "priceRef" "0")].

Definition server_body (name : string) : val :=
  VObj [("name", VStr name);
        ("location", field_or refs "locRef" "");
        ("ip_address", field_or refs "ipRef" "");
        ("port", json_num (parseInt (to_string (field_or refs "portRef" "443"))))].

Definition rule_body (name trigger action : string) : val :=
  VObj [("name", VStr name); ("trigger", VStr trigger); ("action", VStr action);
        ("enabled", VBool true)].

Definition post (body : val) : init :=
  Init "POST" [("Content-Type", "application/json")] (Some body).
End Bodies.

(** Creating a tariff: a missing or blank name is reported and nothing is
    sent; otherwise exactly one POST carries the trimmed name, the duration as
    an integer (30 days when empty), the limit as a number (50 when empty) and
    the price ("0" when empty); when it is answered, whatever the answer, the
    list is fetched again; when it fails the handler rejects with nothing more
    sent. *)
Theorem tariff_create `{BuildEnv} refs t x
  (Hrun : path (fields_are refs) Templates.handleCreate t x) :
  match trimmed refs "nameRef" with
  | None => refused ["nameRef"] "Введите название тарифа" t /\ x = Ok tt
  | Some name =>
      submits (API +:+ "/templates") (post (tariff_body refs name)) [API +:+ "/templates"] (sent t) x
  end.
Proof.
  unfold Templates.handleCreate in Hrun. apply path_ref_bind in Hrun as (t' & -> & Hrun).
  pose proof (trimmed_field refs "nameRef") as Hn. destruct (trimmed refs "nameRef") as [name|].
  - destruct Hn as [Hn Ht]. rewrite Hn, Ht in Hrun. cbn [negb] in Hrun.
    do 3 (apply path_ref_bind in Hrun as (? & -> & Hrun)). rewrite !sent_call.
    unfold jparseInt, jparseFloat in Hrun. rewrite !or_field in Hrun.
    cbn [jobj map snd fst sequence mbind res_bind lift bind zip zip_with lit] in Hrun.
    apply path_submit with (refreshes := [API +:+ "/templates"]) in Hrun.
    + unfold JSON in Hrun. cbn -[parseInt parseFloat] in Hrun.
      rewrite json_field_or in Hrun by done. exact Hrun.
    + intros r t2 x2 H2. apply path_upd, path_refresh in H2. exact H2.
  - rewrite Hn in Hrun. by apply path_alert in Hrun as [-> ->].
Qed.

(** Creating a server, in the same way: the name is required, location and
    address default to "", the port to 443. *)
Theorem server_create `{BuildEnv} refs t x
  (Hrun : path (fields_are refs) Nodes.handleCreate t x) :
  match trimmed refs "nameRef" with
  | None => refused ["nameRef"] "Введите название сервера" t /\ x = Ok tt
  | Some name =>
      submits (API +:+ "/nodes") (post (server_body refs name)) [API +:+ "/nodes"] (sent t) x
  end.
Proof.
  unfold Nodes.handleCreate in Hrun. apply path_ref_bind in Hrun as (t' & -> & Hrun).
  pose proof (trimmed_field refs "nameRef") as Hn. destruct (trimmed refs "nameRef") as [name|].
  - destruct Hn as [Hn Ht]. rewrite Hn, Ht in Hrun. cbn [negb] in Hrun.
    do 3 (apply path_ref_bind in Hrun as (? & -> & Hrun)). rewrite !sent_call.
    unfold jparseInt in Hrun. rewrite !or_field in Hrun.
    cbn [jobj map snd fst sequence mbind res_bind lift bind zip zip_with lit] in Hrun.
    apply path_submit with (refreshes := [API +:+ "/nodes"]) in Hrun.
    + unfold JSON in Hrun. cbn -[parseInt] in Hrun.
      rewrite !json_field_or in Hrun by done. exact Hrun.
    + intros r t2 x2 H2. apply path_upd, path_refresh in H2. exact H2.
  - rewrite Hn in Hrun. by apply path_alert in Hrun as [-> ->].
Qed.

(** Creating a billing rule: all three texts are required; the rule is
    posted enabled, with the three texts trimmed. *)
Theorem rule_create `{BuildEnv} refs t x
  (Hrun : path (fields_are refs) ResponseRules.handleCreate t x) :
  match trimmed refs "nameRef", trimmed refs "triggerRef", trimmed refs "actionRef" with
  | Some name, Some trigger, Some action =>
      submits (API +:+ "/rules") (post (rule_body name trigger action)) [API +:+ "/rules"] (sent t) x
  | _, _, _ => refused ["nameRef"; "triggerRef"; "actionRef"] "Заполните все поля" t /\ x = Ok tt
  end.
Proof.
  unfold ResponseRules.handleCreate in Hrun.
  do 3 (apply path_ref_bind in Hrun as (? & -> & Hrun)).
  pose proof (trimmed_field refs "nameRef") as H1.
  pose proof (trimmed_field refs "triggerRef") as H2.
  pose proof (trimmed_field refs "actionRef") as H3.
  destruct (trimmed refs "nameRef") as [name|], (trimmed refs "triggerRef") as [trigger|],
    (trimmed refs "actionRef") as [action|];
    repeat match goal with H : _ /\ _ |- _ => destruct H end.
  1: {
    repeat match goal with E : jtrim _ = _ |- _ => rewrite E in Hrun; clear E
                      | E : truthy _ = _ |- _ => rewrite E in Hrun; clear E end.
    cbn [negb orb] in Hrun. rewrite !sent_call.
    apply path_submit with (refreshes := [API +:+ "/rules"]) in Hrun; [exact Hrun|].
    intros r t2 x2 Hr. apply path_upd, path_refresh in Hr. exact Hr. }
  all: repeat match goal with E : jtrim _ = _ |- _ => rewrite E in Hrun; clear E end.
  all: repeat match goal with E : truthy _ = _ |- _ => rewrite E in Hrun; clear E end.
  all: cbn [negb orb] in Hrun; apply path_alert in Hrun as [-> ->]; done.
Qed.

(** Clicking a rule's switch, whatever the rule's current value is (a
    boolean, 0/1 or missing): one PATCH asks for the opposite of its
    truthiness, then the list is fetched again; two opposite clicks ask for
    opposite values. *)
Theorem rule_toggle `{BuildEnv} id current t x
  (Hrun : path any_inputs (ResponseRules.toggleRule id current) t x) :
  exists body,
    submits (ResponseRules.rule_url id +:+ "/toggle")
      (Init "PATCH" [("Content-Type", "application/json")] (Some body)) [API +:+ "/rules"] (sent t) x /\
    body = VObj [("enabled", VBool (negb (truthy current)))].
Proof.
  eexists. split; [|reflexivity]. unfold ResponseRules.toggleRule in Hrun.
  apply path_submit with (refreshes := [API +:+ "/rules"]) in Hrun; [exact Hrun|].
  intros r t2 x2 Hr. apply path_refresh in Hr. exact Hr.
Qed.

(** Creating a tariff, a server, a billing rule.  A missing or blank name
    (for a rule, any of its three texts) is reported and nothing is sent;
    otherwise exactly one POST carries the trimmed name and the other fields:
    for a tariff the duration as an integer (30 days when empty), the limit as a
    number (50 when empty) and the price ("0" when empty); for a server location
    and address ("" by default) and the port (443 by default); for a rule its
    three texts, enabled.  When it is answered, whatever the answer, the list is
    fetched again; when it fails the handler rejects with nothing more sent. *)
Theorem catalog_creations `{BuildEnv} refs t x :
  (path (fields_are refs) Templates.handleCreate t x ->
   match trimmed refs "nameRef" with
   | None => refused ["nameRef"] "Введите название тарифа" t /\ x = Ok tt
   | Some name =>
       submits (API +:+ "/templates") (post (tariff_body refs name)) [API +:+ "/templates"] (sent t) x
   end) /\
  (path (fields_are refs) Nodes.handleCreate t x ->
   match trimmed refs "nameRef" with
   | None => refused ["nameRef"] "Введите название сервера" t /\ x = Ok tt
   | Some name =>
       submits (API +:+ "/nodes") (post (server_body refs name)) [API +:+ "/nodes"] (sent t) x
   end) /\
  (path (fields_are refs) ResponseRules.handleCreate t x ->
   match trimmed refs "nameRef", trimmed refs "triggerRef", trimmed refs "actionRef" with
   | Some name, Some trigger, Some action =>
       submits (API +:+ "/rules") (post (rule_body name trigger action)) [API +:+ "/rules"] (sent t) x
   | _, _, _ => refused ["nameRef"; "triggerRef"; "actionRef"] "Заполните все поля" t /\ x = Ok tt
   end).
Proof. split_and!; [apply tariff_create|apply server_create|apply rule_create]. Qed.

(** ** Witnesses *)

Definition some_fields : string -> option string :=
  fun r => if String.eqb r "nameRef" then Some " vip " else
           if String.eqb r "triggerRef" then Some "quota" else
           if String.eqb r "actionRef" then Some "block" else
           if String.eqb r "daysRef" then Some "90" else Some "".
Definition answered : list answer := [Replied (Response 200 (Ok VNull))].

Ltac play_fields := by eapply (play_path _ (with_refs some_fields)) with (store := ∅) (l := answered).

Lemma tariff_create_witness :
  exists t, submits "/api/templates" (post (tariff_body some_fields "vip")) ["/api/templates"] (sent t) (Ok tt).
Proof. eexists. eapply (tariff_create (H:=false) some_fields). play_fields. Defined.

Lemma server_create_witness :
  exists t, submits "/api/nodes" (post (server_body some_fields "vip")) ["/api/nodes"] (sent t) (Ok tt).
Proof. eexists. eapply (server_create (H:=false) some_fields). play_fields. Defined.

Lemma rule_create_witness :
  exists t, submits "/api/rules" (post (rule_body "vip" "quota" "block")) ["/api/rules"] (sent t) (Ok tt).
Proof. eexists. eapply (rule_create (H:=false) some_fields). play_fields. Defined.

Lemma catalog_creations_witness :
  exists t, submits "/api/nodes" (post (server_body some_fields "vip")) ["/api/nodes"] (sent t) (Ok tt).
Proof.
  eexists. eapply (proj1 (proj2 (catalog_creations (H:=false) some_fields _ (Ok tt)))). play_fields.
Defined.

Lemma rule_toggle_witness :
  exists t body,
    submits "/api/rules/3/toggle" (Init "PATCH" [("Content-Type", "application/json")] (Some body))
      ["/api/rules"] (sent t) (Ok tt) /\ body = VObj [("enabled", VBool false)].
Proof.
  eexists. eapply (rule_toggle (H:=false) (int 3) (int 1)).
  by eapply (play_path _ quiet_browser) with (store := ∅) (l := answered).
Defined.
