(* ===== verification/GroupsSpec.v ===== *)
(** * Groups: creating, editing, assigning; confirmed deletions of every page;
    the edit form *)
From S2P Require Import Prelude JsStr JsNum JsVal Ints Forms React Effects Logic Api Catalog.
From S2P Require Templates Nodes ResponseRules Groups.
Import Groups.
Local Open Scope string_scope.
Local Open Scope js_scope.

Definition group_payload (refs : string -> option string) (name : string) : val :=
  VObj [("name", VStr name); ("description", field_or refs "descRef" "");
        ("data_limit", field_or refs "limitRef" "100 ГБ/юзер")].

Lemma path_group_body refs name {A} (k : val -> prog state A) t x :
  path (fields_are refs) (let! b := group_body (VStr name) in k b) t x ->
  exists v t', jobj [("name", VStr name : expr); ("description", field_or refs "descRef" "" : expr);
                     ("data_limit", field_or refs "limitRef" "100 ГБ/юзер" : expr)] = Ok v /\
    t = (map (fun r => OCall (CRefValue r)) ["descRef"; "limitRef"] ++ t')%list /\
    path (fields_are refs) (k v) t' x.
Proof.
  unfold group_body. intros Hrun.
  apply path_bind_assoc, path_ref_bind in Hrun as (t1 & -> & Hrun).
  apply path_bind_assoc, path_ref_bind in Hrun as (t2 & -> & Hrun).
  rewrite !or_field in Hrun. eexists _, t2. split; [reflexivity|]. done.
Qed.

Lemma group_submits `{BuildEnv} refs s t x
  (Hrun : path (fields_are refs) (handleCreate s) t x) :
  match trimmed refs "nameRef" with
  | None => refused ["nameRef"] "Введите название группы" t /\ x = Ok tt
  | Some name =>
      let i method := Init method [("Content-Type", "application/json")]
                           (Some (group_payload refs name)) in
      if truthy (editId s)
      then submits (group_url (editId s)) (i "PATCH") [API +:+ "/groups"] (sent t) x
      else submits (API +:+ "/groups") (i "POST") [API +:+ "/groups"] (sent t) x
  end.
Proof.
  unfold handleCreate in Hrun. apply path_ref_bind in Hrun as (t' & -> & Hrun).
  pose proof (trimmed_field refs "nameRef") as Hn. destruct (trimmed refs "nameRef") as [name|];
    [|rewrite Hn in Hrun; by apply path_alert in Hrun as [-> ->]].
  destruct Hn as [Hn Ht]. rewrite Hn, Ht in Hrun. cbn [negb] in Hrun. rewrite sent_call.
  assert (forall url m t0, path (fields_are refs)
      (let! _ := (let! body := group_body (VStr name) in fetch url (JSON m body)) in
       do! upd (set_showForm false) in do! upd (set_editId VNull) in loadGroups) t0 x ->
    submits url (Init m [("Content-Type", "application/json")] (Some (group_payload refs name)))
      [API +:+ "/groups"] (sent t0) x) as Hsend.
  { intros url m t0 Hp.
    apply path_bind_assoc, path_group_body in Hp as (v & t1 & [= <-] & -> & Hq). rewrite sent_app.
    apply path_submit with (refreshes := [API +:+ "/groups"]) in Hq.
    - unfold JSON in Hq. cbn in Hq. rewrite !json_field_or in Hq by done. exact Hq.
    - intros r t2 x2 H2. apply path_upd, path_upd, path_refresh in H2. exact H2. }
  destruct (truthy (editId s)); by apply Hsend.
Qed.

(** Saving the group form: a missing or blank name is reported and nothing
    is sent; otherwise exactly one request carries the trimmed name, the
    description and the limit ("100 ГБ/юзер" when empty): a PATCH to the group
    being edited if there is one, else a POST; then the groups are fetched
    again. *)
Theorem group_save `{BuildEnv} refs s t x
  (Hrun : path (fields_are refs) (handleCreate s) t x) :
  match trimmed refs "nameRef" with
  | None => refused ["nameRef"] "Введите название группы" t /\ x = Ok tt
  | Some name =>
      let i method := Init method [("Content-Type", "application/json")]
                           (Some (group_payload refs name)) in
      if truthy (editId s)
      then submits (group_url (editId s)) (i "PATCH") [API +:+ "/groups"] (sent t) x
      else submits (API +:+ "/groups") (i "POST") [API +:+ "/groups"] (sent t) x
  end.
Proof. by apply group_submits. Qed.

(** Assigning clients to a group, run to its end: without a group or
    without a selected client nothing happens; otherwise exactly one POST to
    the group's assignment address carries the selected ids in order and the
    group, and when it is answered groups and clients are fetched again. *)
Theorem group_assign `{BuildEnv} s t x
  (Hrun : path any_inputs (handleAssign s) t x) :
  if truthy (assignGroupId s) && negb (Nat.eqb (length (selectedClients s)) 0)
  then exists body,
         json (VObj [("client_ids", VArr (selectedClients s)); ("group_id", assignGroupId s)]) = Some body /\
         submits (group_url (assignGroupId s) +:+ "/assign")
           (Init "POST" [("Content-Type", "application/json")] (Some body))
           [API +:+ "/groups"; API +:+ "/clients"] (sent t) x
  else t = [] /\ x = Ok tt.
Proof.
  unfold handleAssign in Hrun.
  destruct (truthy (assignGroupId s)); [|by destruct Hrun as [-> ->]].
  destruct (Nat.eqb (length (selectedClients s)) 0); [by destruct Hrun as [-> ->]|].
  cbn [negb andb orb] in *. eexists. split; [reflexivity|].
  eapply path_submit; [|exact Hrun].
  intros r t2 x2 H2. apply path_upd, path_upd, path_refresh_both in H2. exact H2.
Qed.

(** The assignment panel: opening it for a group starts from an empty
    selection, whatever was selected for another group; each click flips one
    client, so a client is selected iff it was clicked an odd number of times,
    at most once; and clicking sends nothing. *)
Theorem assign_selection `{BuildEnv} io c g (clicks : list string) :
  let c' := foldl (fun c i => event_step page io (ToggleClientSelection (Ok (VStr i))) c)
              (event_step page io (OpenAssignPanel (Ok g)) c) clicks in
  assignGroupId (st c') = g /\ NoDup (selectedClients (st c')) /\
  (forall i, VStr i ∈ selectedClients (st c') <->
     Nat.odd (count_occ String.string_dec clicks i) = true) /\
  log c' = log c /\ pend c' = pend c.
Proof.
  assert (forall l c1,
    let c' := foldl (fun c i => event_step page io (ToggleClientSelection (Ok (VStr i))) c) c1 l in
    assignGroupId (st c') = assignGroupId (st c1) /\
    selectedClients (st c') = clicked l (selectedClients (st c1)) /\
    log c' = log c1 /\ pend c' = pend c1) as Hgen.
  { induction l as [|j l IH]; intros c1; cbn [foldl]; [done|].
    destruct (IH (event_step page io (ToggleClientSelection (Ok (VStr j))) c1)) as (H1 & H2 & H3 & H4).
    by rewrite H1, H2, H3, H4. }
  cbn zeta in Hgen |- *. destruct (Hgen clicks (event_step page io (OpenAssignPanel (Ok g)) c)) as (-> & -> & -> & ->).
  split; [done|]. split; [apply clicked_NoDup; constructor|].
  split; [intros i; apply clicked_elem|done].
Qed.

(** ** Confirmed deletions *)

Definition confirms (msg : string) (ok : bool) : inputs -> Prop := fun io => in_confirm io msg = ok.

(** A handler that asks [msg] first: refused, the question is all that
    happens; accepted, one DELETE goes to [url] and, once it is answered,
    [refreshes] are fetched again in order. *)
Definition deletes {S} (p : prog S unit) (msg url : string) (refreshes : list string) : Prop :=
  forall ok t x, path (confirms msg ok) p t x ->
    exists t', t = OCall (CConfirm msg) :: t' /\
      if ok then submits url DELETE refreshes (sent t') x else t' = [] /\ x = Ok tt.

Lemma confirmed_deletes {S} (p : prog S unit) msg url refreshes :
  (forall t x, path (confirms msg true) p t x ->
     x = Ok tt /\ map route (sent t) = map (fun u => ("GET", u)) refreshes) ->
  deletes (let! ok := confirm msg in if negb ok then skip else let! _ := fetch url DELETE in p)
    msg url refreshes.
Proof.
  intros Hp ok t x Hrun.
  destruct Hrun as (v & t' & (io & store & Hio & ->) & -> & Hrun). exists t'. split; [done|].
  cbn in Hrun. rewrite Hio in Hrun. destruct ok; cbn in Hrun; [|by destruct Hrun].
  eapply path_submit; [|exact Hrun]. intros r. apply Hp.
Qed.

(** Deleting from the groups, tariffs, servers and rules pages: the
    question is always asked first and nothing is sent when it is refused;
    when accepted exactly one DELETE goes to the entity's own address, and
    after its answer the page's lists are fetched again (the groups page
    fetches its groups and then the clients). *)
Theorem deletions_confirmed `{BuildEnv} id :
  deletes (Groups.handleDelete id) "Удалить группу? Клиенты будут отвязаны от неё."
    (group_url id) [API +:+ "/groups"; API +:+ "/clients"] /\
  deletes (Templates.handleDelete id) "Удалить этот тариф?"
    (Templates.template_url id) [API +:+ "/templates"] /\
  deletes (Nodes.handleDelete id) "Удалить этот сервер?"
    (Nodes.node_url id) [API +:+ "/nodes"] /\
  deletes (ResponseRules.deleteRule id) "Удалить это правило?"
    (ResponseRules.rule_url id) [API +:+ "/rules"].
Proof.
  split; [|split; [|split]]; apply confirmed_deletes; intros t x Hrun;
    solve [by eapply path_refresh_both|by eapply path_refresh].
Qed.

(** ** Witnesses *)

Definition editing : state := set_editId (int 5) init_state.
Definition two_selected : state :=
  set_selectedClients [VStr "a"; VStr "b"] (set_assignGroupId (int 5) init_state).

Lemma group_save_witness :
  exists t, submits "/api/groups/5"
    (Init "PATCH" [("Content-Type", "application/json")] (Some (group_payload some_fields "vip")))
    ["/api/groups"] (sent t) (Ok tt).
Proof. eexists. eapply (group_save (H:=false) some_fields editing). play_fields. Defined.

Lemma group_assign_witness :
  exists t body,
    body = VObj [("client_ids", VArr [VStr "a"; VStr "b"]); ("group_id", int 5)] /\
    submits "/api/groups/5/assign" (Init "POST" [("Content-Type", "application/json")] (Some body))
      ["/api/groups"; "/api/clients"] (sent t) (Ok tt).
Proof.
  eexists. assert (path any_inputs (handleAssign (H:=false) two_selected) _ (Ok tt)) as Hrun
    by (by eapply (play_path _ quiet_browser) with (store := ∅) (l := answered)).
  destruct (group_assign (H:=false) two_selected _ _ Hrun) as (body & Hb & Hs).
  exists body. injection Hb as <-. by split.
Defined.

Lemma deletions_confirmed_witness :
  exists t, submits "/api/groups/5" DELETE ["/api/groups"; "/api/clients"] (sent t) (Ok tt).
Proof.
  destruct (deletions_confirmed (H:=false) (int 5)) as [Hg _].
  unshelve edestruct (Hg (in_confirm quiet_browser "Удалить группу? Клиенты будут отвязаны от неё."))
    as (t' & _ & Ht).
  3: by eapply (play_path _ quiet_browser) with (store := ∅) (l := answered).
  by exists t'.
Defined.

(** ** Editing a group: what the form is filled with is what saving sends

    Opening a group for editing arms a 50 ms timer that writes the group's
    fields into the mounted inputs; saving reads the inputs back.  The two
    handlers meet only through the document. *)

(** What the inputs hold after the writes of a trace. *)
Fixpoint written (t : list obs) (r : string) : option string :=
  match t with
  | [] => None
  | OCall (CSetRefValue r' s) :: t' =>
      match written t' r with
      | Some s' => Some s'
      | None => if String.eqb r r' then Some s else None
      end
  | _ :: t' => written t' r
  end.

(** The form is mounted. *)
Definition form_mounted (io : inputs) : Prop :=
  forall r, r ∈ ["nameRef"; "descRef"; "limitRef"] -> is_Some (in_ref io r).

(** What the timer of [startEdit] runs. *)
Definition fill_all (g : val) : prog state unit :=
  do! fill "nameRef" (g ~> "name") in
  do! fill "descRef" (g ~> "description") in
  fill "limitRef" (g ~> "dataLimit").

(** The text of a group's field in an input. *)
Definition shown (k : string) (g : val) : string := dom_string (field k g).

Lemma run_fill io r v (k : unit -> prog state unit) (c : conf state) :
  is_Some (in_ref io r) ->
  run io (bind (fill r (Ok v)) k) c =
  run io (k tt) (emit (OCall (CSetRefValue r (dom_string v))) (emit (OCall (CRefValue r)) c)).
Proof. intros [w Hw]. cbn. rewrite Hw. cbn. by destruct c. Qed.

(** What the three writes leave in the log. *)
Definition fill_trace (g : val) : list obs :=
  [OCall (CRefValue "nameRef"); OCall (CSetRefValue "nameRef" (shown "name" g));
   OCall (CRefValue "descRef"); OCall (CSetRefValue "descRef" (shown "description" g));
   OCall (CRefValue "limitRef"); OCall (CSetRefValue "limitRef" (shown "dataLimit" g))].

Lemma run_fill_all io g (c : conf state) :
  form_mounted io -> is_obj g = true ->
  run io (fill_all g) c = Conf (st c) (store c) (pend c) (next c) (log c ++ fill_trace g).
Proof.
  intros Hio Hg. unfold fill_all. rewrite !jget_field by done.
  assert (forall r, r ∈ ["nameRef"; "descRef"; "limitRef"] -> is_Some (in_ref io r)) as Hr by exact Hio.
  rewrite !run_fill by (apply Hr; set_solver).
  destruct (Hr "limitRef") as [w Hw]; [set_solver|]. unfold fill. cbn. rewrite Hw. cbn.
  unfold emit. cbn. by rewrite <- !app_assoc.
Qed.

Lemma field_or_text refs r s d :
  refs r = Some s -> field_or refs r d = if str_truthy s then VStr s else d.
Proof. unfold field_or. by intros ->. Qed.

(** The payload of a group whose fields are on display, untouched. *)
Definition untouched (g : val) : val :=
  VObj [("name", VStr (trim (shown "name" g)));
        ("description", VStr (shown "description" g));
        ("data_limit", VStr (if str_truthy (shown "dataLimit" g) then shown "dataLimit" g
                             else "100 ГБ/юзер"))].

Lemma payload_untouched g :
  group_payload (written (fill_trace g)) (trim (shown "name" g)) = untouched g.
Proof.
  unfold group_payload, untouched.
  rewrite (field_or_text _ "descRef" (shown "description" g)) by reflexivity.
  rewrite (field_or_text _ "limitRef" (shown "dataLimit" g)) by reflexivity.
  destruct (shown "description" g) eqn:E; cbn; by destruct (str_truthy (shown "dataLimit" g)).
Qed.

(** C26. Opening a group for editing and saving the untouched form gives the
    group back: the click selects the group's id, shows the form and arms one
    50 ms timer; its expiry writes the fields into the inputs and changes no
    state; saving what the inputs then hold sends exactly one PATCH to that
    group's address with its own name (trimmed), description and limit.  The
    exceptions: a group without a limit gets the form's default, and one with
    a blank name cannot be saved. *)
Theorem group_edit_roundtrip `{BuildEnv} io io' c (g : val) :
  is_obj g = true -> truthy (field "id" g) = true -> form_mounted io' ->
  let c1 := event_step page io (StartEdit g) c in
  let c2 := timer_step page io' (length (pend c)) false (fill_all g) c1 in
  pend c1 = (pend c ++ [(next c, Timer false 50 (fill_all g))])%list /\
  editId (st c2) = field "id" g /\ showForm (st c2) = true /\ pend c2 = pend c /\
  log c2 = (log c ++ fill_trace g)%list /\
  forall t x, path (fields_are (written (fill_trace g))) (handleCreate (st c2)) t x ->
    if str_truthy (trim (shown "name" g))
    then submits (group_url (field "id" g))
           (Init "PATCH" [("Content-Type", "application/json")] (Some (untouched g)))
           [API +:+ "/groups"] (sent t) x
    else refused ["nameRef"] "Введите название группы" t /\ x = Ok tt.
Proof.
  intros Hg Hid Hio. cbn zeta.
  assert (event_step page io (StartEdit g) c =
          push (Timer false 50 (fill_all g))
            (set_st (fun s => set_showForm true (set_editId (field "id" g) s)) c)) as ->.
  { unfold event_step, commit_after. cbn [page c_handle c_commit handle run skip].
    unfold startEdit. by rewrite jget_field. }
  split; [done|].
  unfold timer_step, commit_after. cbn [page c_commit run skip].
  rewrite run_fill_all by done. cbn [st log pend take_task push set_st].
  split; [done|]. split; [done|]. split.
  { by rewrite delete_middle, app_nil_r. }
  split; [done|]. intros t x Hrun.
  apply group_submits in Hrun. unfold trimmed in Hrun.
  change (written (fill_trace g) "nameRef") with (Some (shown "name" g)) in Hrun. cbv beta iota in Hrun.
  destruct (str_truthy (trim (shown "name" g))); [|done].
  change (editId _) with (field "id" g) in Hrun. rewrite Hid in Hrun.
  by rewrite payload_untouched in Hrun.
Qed.

(** A group as the server lists it. *)
Definition vip : val :=
  VObj [("id", int 7); ("name", VStr " VIP "); ("description", VNull); ("dataLimit", VStr "50 GB")].
Definition form_open : inputs := with_refs (fun _ => Some "").

Lemma group_edit_roundtrip_witness :
  exists t, submits "/api/groups/7"
    (Init "PATCH" [("Content-Type", "application/json")]
       (Some (VObj [("name", VStr "VIP"); ("description", VStr ""); ("data_limit", VStr "50 GB")])))
    ["/api/groups"] (sent t) (Ok tt).
Proof.
  assert (form_mounted form_open) as Hm by (intros r _; by eexists).
  destruct (group_edit_roundtrip (H:=false) quiet_browser form_open (boot (page (H:=false)) quiet_browser ∅)
              vip eq_refl eq_refl Hm) as (_ & _ & _ & _ & _ & Hsave).
  eexists. eapply Hsave.
  by eapply (play_path _ (with_refs (written (fill_trace vip)))) with (store := ∅) (l := answered).
Defined.
