(* ===== verification/Settings.v ===== *)
(** * The settings page ([pages/Settings.tsx]) *)
From S2P Require Import Prelude JsStr JsNum JsVal React Effects Logic Api.
Local Open Scope string_scope.
Local Open Scope js_scope.

Record state := State {
  settings : val;
  saved : string;
}.
Definition set_settings (v : val) (s : state) : state :=
  State v (saved s).
Definition set_saved (v : string) (s : state) : state :=
  State (settings s) v.

Definition init_state : state := State (VObj []) "".

Inductive action : Type :=
| SaveBot
| SaveServer.

Section Settings.
Context `{BuildEnv}.

Definition mount : prog state unit := fetch_into (API +:+ "/settings") set_settings.

(** [setSaved("✅ Сохранено!"); setTimeout(() => setSaved(""), 2000)]. *)
Definition flash_saved : prog state unit :=
  do! upd (set_saved "✅ Сохранено!") in
  let! _ := setTimeout (upd (set_saved "")) 2000 in
  skip.

Definition saveSection (data : val) : prog state unit :=
  let! _ := fetch (API +:+ "/settings") (JSON "POST" (VObj [("settings", data)])) in
  flash_saved.

Definition save_bot : prog state unit :=
  let! token := ref_value "botTokenRef" in
  let! chat := ref_value "chatIdRef" in
  let! data := lift (jobj [("telegram_bot_token", token ||| "");
                           ("telegram_admin_chat_id", chat ||| "")]) in
  saveSection data.

Definition save_server : prog state unit :=
  let! port := ref_value "portRef" in
  let! stealth := ref_value "stealthRef" in
  let! checked := call (CRefChecked "loggingRef") in
  let! data := lift (jobj [("server_port", port ||| "443");
                           ("stealth_domain", stealth ||| "");
                           ("logging_enabled", jcond checked "true" "false")]) in
  saveSection data.

Definition handle (s : state) (a : action) : prog state unit :=
  match a with SaveBot => save_bot | SaveServer => save_server end.

Definition page : component state action :=
  Component init_state mount handle (fun _ _ => skip).

(** ** The view *)

Definition backup_section : jsx action :=
  el "section" ["className" =: "p-6 rounded-lg border border-primary/30 bg-gradient-to-br from-card to-card/50 backdrop-blur-sm"] [
    el "div" ["className" =: "flex items-center gap-3 mb-6"] [
      el "div" ["className" =: "p-3 rounded-lg bg-primary/10"] [
        el "Database" ["className" =: "w-5 h-5 text-primary"] []];
      el "div" [] [
        el "h2" ["className" =: "text-lg font-bold"] [txt "Резервное копирование"];
        el "p" ["className" =: "text-sm text-muted-foreground"] [
          txt "Управление бекапами базы данных"]]];
    el "div" ["className" =: "space-y-3"] [
      el "div" ["className" =: "flex items-center justify-between p-4 rounded-lg bg-muted/50"] [
        el "div" [] [
          el "p" ["className" =: "font-medium"] [txt "Скачать бекап"];
          el "p" ["className" =: "text-sm text-muted-foreground"] [
            txt "Скачать текущую базу данных shadevpn.db"]];
        el "a" ["href" =: tpl [API; "/backup/download"];
           flag "download";
           "className" =: "flex items-center gap-2 px-4 py-2 bg-primary text-primary-foreground rounded-lg hover:bg-primary/90 transition-colors"] [
          el "Download" ["className" =: "w-4 h-4"] [];
          txt "Скачать бекап"]]]].

Definition bot_section (s : state) : jsx action :=
  el "section" ["className" =: "p-6 rounded-lg border border-primary/30 bg-gradient-to-br from-card to-card/50 backdrop-blur-sm"] [
    el "div" ["className" =: "flex items-center gap-3 mb-6"] [
      el "div" ["className" =: "p-3 rounded-lg bg-primary/10"] [
        el "Send" ["className" =: "w-5 h-5 text-primary"] []];
      el "div" [] [
        el "h2" ["className" =: "text-lg font-bold"] [txt "Интеграция Telegram Бота"];
        el "p" ["className" =: "text-sm text-muted-foreground"] [
          txt "Настройка бота для уведомлений и авто-продаж"]]];
    el "div" ["className" =: "space-y-4"] [
      el "div" [] [
        el "label" ["className" =: "block text-sm font-medium mb-2"] [txt "Токен Бота (Bot Token)"];
        el "input" [ref "botTokenRef";
           "type" =: "password";
           "className" =: "w-full px-4 py-2 bg-input rounded-lg border border-border focus:border-primary outline-none";
           "placeholder" =: "1234567890:ABCdefGHIjklMNOpqrsTUVwxyz";
           "defaultValue" =: (((settings s) ~> "telegram_bot_token") ||| "")] []];
      el "div" [] [
        el "label" ["className" =: "block text-sm font-medium mb-2"] [
          txt "Твой ID чата (Admin Chat ID)"];
        el "input" [ref "chatIdRef";
           "type" =: "text";
           "className" =: "w-full px-4 py-2 bg-input rounded-lg border border-border focus:border-primary outline-none";
           "placeholder" =: "123456789";
           "defaultValue" =: (((settings s) ~> "telegram_admin_chat_id") ||| "")] []];
      el "button" ["onClick" =! SaveBot;
         "className" =: "flex items-center gap-2 px-4 py-2 bg-primary text-primary-foreground rounded-lg hover:bg-primary/90 transition-colors"] [
        el "Save" ["className" =: "w-4 h-4"] [];
        txt "Сохранить настройки бота"]]].

Definition server_section (s : state) : jsx action :=
  el "section" ["className" =: "p-6 rounded-lg border border-primary/30 bg-gradient-to-br from-card to-card/50 backdrop-blur-sm"] [
    el "div" ["className" =: "flex items-center gap-3 mb-6"] [
      el "div" ["className" =: "p-3 rounded-lg bg-primary/10"] [
        el "Server" ["className" =: "w-5 h-5 text-primary"] []];
      el "div" [] [
        el "h2" ["className" =: "text-lg font-bold"] [txt "VPN Конфигуратор"];
        el "p" ["className" =: "text-sm text-muted-foreground"] [
          txt "Управление портами и маскировкой ShadeVPN сервера"]]];
    el "div" ["className" =: "space-y-4"] [
      el "div" [] [
        el "label" ["className" =: "block text-sm font-medium mb-2"] [
          txt "Порт сервера (Server Port)"];
        el "input" [ref "portRef";
           "type" =: "number";
           "className" =: "w-full px-4 py-2 bg-input rounded-lg border border-border focus:border-primary outline-none";
           "placeholder" =: "443";
           "defaultValue" =: (((settings s) ~> "server_port") ||| "443")] []];
      el "div" [] [
        el "label" ["className" =: "block text-sm font-medium mb-2"] [
          txt "Маскировка трафика (Stealth Domain)"];
        el "input" [ref "stealthRef";
           "type" =: "text";
           "className" =: "w-full px-4 py-2 bg-input rounded-lg border border-border focus:border-primary outline-none";
           "placeholder" =: "www.microsoft.com";
           "defaultValue" =: (((settings s) ~> "stealth_domain") ||| "www.apple.com")] [];
        el "p" ["className" =: "text-xs text-muted-foreground mt-1"] [
          txt "Внешний домен для обхода DPI (Deep Packet Inspection)"]];
      el "div" ["className" =: "flex items-center gap-3 py-2"] [
        el "input" [ref "loggingRef";
           "type" =: "checkbox";
           "id" =: "logging";
           "className" =: "w-4 h-4 rounded border-border";
           "defaultChecked" =: (((settings s) ~> "logging_enabled") !== "false")] [];
        el "label" ["htmlFor" =: "logging"; "className" =: "text-sm font-medium"] [
          txt "Включить продвинутое логирование подключений"]];
      el "button" ["onClick" =! SaveServer;
         "className" =: "flex items-center gap-2 px-4 py-2 bg-primary text-primary-foreground rounded-lg hover:bg-primary/90 transition-colors"] [
        el "Save" ["className" =: "w-4 h-4"] [];
        txt "Сохранить настройки сервера"]]].

Definition security_section : jsx action :=
  el "section" ["className" =: "p-6 rounded-lg border border-primary/30 bg-gradient-to-br from-card to-card/50 backdrop-blur-sm"] [
    el "div" ["className" =: "flex items-center gap-3 mb-6"] [
      el "div" ["className" =: "p-3 rounded-lg bg-primary/10"] [
        el "Lock" ["className" =: "w-5 h-5 text-primary"] []];
      el "div" [] [
        el "h2" ["className" =: "text-lg font-bold"] [txt "Безопасность"];
        el "p" ["className" =: "text-sm text-muted-foreground"] [
          txt "Настройки паролей и авторизации"]]];
    el "div" ["className" =: "space-y-4"] [
      el "div" [] [
        el "label" ["className" =: "block text-sm font-medium mb-2"] [txt "Текущий пароль"];
        el "input" ["type" =: "password";
           "className" =: "w-full px-4 py-2 bg-input rounded-lg border border-border focus:border-primary outline-none";
           "placeholder" =: "Введите текущий пароль"] []];
      el "div" [] [
        el "label" ["className" =: "block text-sm font-medium mb-2"] [txt "Новый пароль"];
        el "input" ["type" =: "password";
           "className" =: "w-full px-4 py-2 bg-input rounded-lg border border-border focus:border-primary outline-none";
           "placeholder" =: "Введите новый пароль"] []];
      el "div" [] [
        el "label" ["className" =: "block text-sm font-medium mb-2"] [txt "Подтверждение пароля"];
        el "input" ["type" =: "password";
           "className" =: "w-full px-4 py-2 bg-input rounded-lg border border-border focus:border-primary outline-none";
           "placeholder" =: "Подтвердите новый пароль"] []];
      el "button" ["className" =: "flex items-center gap-2 px-4 py-2 bg-primary text-primary-foreground rounded-lg hover:bg-primary/90 transition-colors"] [
        el "Lock" ["className" =: "w-4 h-4"] [];
        txt "Обновить пароль"]]].

Definition view (s : state) : jsx action :=
  el "div" ["className" =: "space-y-6 max-w-4xl"] [
    el "div" [] [
      el "h1" ["className" =: "text-3xl font-bold"] [txt "Настройки"];
      el "p" ["className" =: "text-muted-foreground mt-1"] [
        txt "Конфигурация системы и предпочтения"];
      show (saved s)
        (el "p" ["className" =: "text-sm text-green-400 mt-2 animate-pulse"] [put (saved s)])];
    backup_section;
    bot_section s;
    server_section s;
    security_section].

End Settings.
