(* ===== verification/ConfigProfiles.v ===== *)
(** * The connection keys page ([pages/ConfigProfiles.tsx]) *)
From S2P Require Import Prelude JsStr JsNum JsVal React Effects Logic Api.
Local Open Scope string_scope.
Local Open Scope js_scope.

Record state := State {
  clients : val;
  copied : val;
}.
Definition set_clients (v : val) (s : state) : state :=
  State v (copied s).
Definition set_copied (v : val) (s : state) : state :=
  State (clients s) v.

Definition init_state : state := State (VArr []) "".

Inductive action : Type :=
| Load
| CopyKey (link name : expr).

Section ConfigProfiles.
Context `{BuildEnv}.

Definition load : prog state unit := fetch_into (API +:+ "/clients") set_clients.
Definition mount : prog state unit := load.

(** [navigator.clipboard] is undefined outside secure contexts. *)
Definition copyKey (link name : val) : prog state unit :=
  let! secure := call CSecureClipboard in
  if negb (truthy secure)
  then Throw (TypeError "Cannot read properties of undefined")
  else
    do! do_ (CWriteText (to_string link)) in
    do! upd (set_copied name) in
    let! _ := setTimeout (upd (set_copied "")) 2000 in
    skip.

Definition handle (s : state) (a : action) : prog state unit :=
  match a with
  | Load => load
  | CopyKey e1 e2 => let! link := lift e1 in let! name := lift e2 in copyKey link name
  end.

Definition page : component state action :=
  Component init_state mount handle (fun _ _ => skip).
End ConfigProfiles.

(** ** The view *)

Definition key_head : jsx action :=
  el "thead" ["className" =: "bg-muted/50 border-b border-border"] [
    el "tr" [] [
      el "th" ["className" =: "p-4 text-left text-xs font-semibold text-muted-foreground"] [
        txt "КЛИЕНТ"];
      el "th" ["className" =: "p-4 text-left text-xs font-semibold text-muted-foreground"] [
        txt "ПРОТОКОЛ"];
      el "th" ["className" =: "p-4 text-left text-xs font-semibold text-muted-foreground"] [
        txt "VPN IP"];
      el "th" ["className" =: "p-4 text-left text-xs font-semibold text-muted-foreground"] [
        txt "СТАТУС"];
      el "th" ["className" =: "p-4 text-left text-xs font-semibold text-muted-foreground"] [
        txt "ДЕЙСТВИЯ"]]].

Definition key_row (s : state) (c : val) : jsx action :=
  el "tr" ["key" =: c ~> "id";
     "className" =: "border-b border-border hover:bg-muted/30 transition-colors"] [
    el "td" ["className" =: "p-4"] [
      el "div" ["className" =: "flex items-center gap-3"] [
        el "div" ["className" =: "p-2 rounded bg-primary/10"] [
          el "Shield" ["className" =: "w-4 h-4 text-primary"] []];
        el "span" ["className" =: "font-medium"] [put (c ~> "username")]]];
    el "td" ["className" =: "p-4"] [
      el "span" ["className" =: "px-2 py-1 rounded bg-primary/20 text-primary text-xs"] [
        put (c ~> "protocol")]];
    el "td" ["className" =: "p-4 font-mono text-sm"] [put (c ~> "vpnIp")];
    el "td" ["className" =: "p-4"] [
      el "span" ["className" =: tpl ["px-2 py-1 rounded text-xs font-semibold "; jcond ((c ~> "status") === "online") "bg-[#10B981]/20 text-[#10B981]" "bg-muted text-muted-foreground"]] [
        put (jcond ((c ~> "status") === "online") "Активен" "Заблокирован")]];
    el "td" ["className" =: "p-4"] [
      el "button" ["onClick" =! CopyKey (c ~> "shadeLink") (c ~> "username");
         "className" =: "flex items-center gap-2 px-3 py-1.5 bg-primary/10 text-primary rounded hover:bg-primary/20 transition-colors text-sm"] [
        el "Copy" ["className" =: "w-3.5 h-3.5"] [];
        put (jcond ((copied s) === (c ~> "username")) "✅ Скопировано!" "Скопировать ключ")]]].

Definition view (s : state) : jsx action :=
  el "div" ["className" =: "space-y-6"] [
    el "div" ["className" =: "flex items-center justify-between"] [
      el "div" [] [
        el "h1" ["className" =: "text-3xl font-bold"] [txt "Ключи подключений"];
        el "p" ["className" =: "text-muted-foreground mt-1"] [
          txt "Все сгенерированные shade:// ключи для быстрого копирования"]];
      el "button" ["onClick" =! Load;
         "className" =: "flex items-center gap-2 px-4 py-2 bg-muted text-foreground rounded-lg hover:bg-muted/80 transition-colors"] [
        el "RefreshCw" ["className" =: "w-4 h-4"] [];
        txt " Обновить"]];
    show (((clients s) ~> "length") === (int 0))
      (el "div" ["className" =: "p-8 text-center text-muted-foreground rounded-lg border border-dashed border-border"] [
        txt "Нет клиентов. Создайте клиента на вкладке «Клиенты»."]);
    el "div" ["className" =: "rounded-lg border border-primary/30 bg-card overflow-hidden"] [
      el "div" ["className" =: "overflow-x-auto"] [
        el "table" ["className" =: "w-full"] [
          key_head;
          el "tbody" [] [
            each (clients s) (fun _ c =>
              key_row s c)]]]]].
