(* ===== verification/HWIDInspector.v ===== *)
(** * The device control page ([pages/HWIDInspector.tsx]) *)
From S2P Require Import Prelude JsStr JsNum JsVal React Effects Logic Api.
Local Open Scope string_scope.
Local Open Scope js_scope.

Record state := State {
  clients : val;
}.
Definition set_clients (v : val) (s : state) : state :=
  State v.

Definition init_state : state := State (VArr []).

Inductive action : Type :=
| Load.

Section HWIDInspector.
Context `{BuildEnv}.
Definition load : prog state unit := fetch_into (API +:+ "/clients") set_clients.
Definition mount : prog state unit := load.
Definition handle (s : state) (a : action) : prog state unit :=
  match a with Load => load end.
Definition page : component state action :=
  Component init_state mount handle (fun _ _ => skip).
End HWIDInspector.

(** ** The counters of the header *)
Definition total (s : state) : expr := (clients s) ~> "length".
Definition safe (s : state) : expr :=
  (jfilter (clients s) (fun c => (c ~> "status") === "online")) ~> "length".
Definition suspicious (s : state) : expr := jsub (total s) (safe s).

(** ** The view *)

Definition counters (s : state) : jsx action :=
  el "div" ["className" =: "grid grid-cols-1 md:grid-cols-3 gap-4"] [
    el "div" ["className" =: "p-5 rounded-lg border border-primary/30 bg-gradient-to-br from-card to-card/50 backdrop-blur-sm"] [
      el "p" ["className" =: "text-xs text-muted-foreground mb-2"] [txt "Всего отслеживается"];
      el "p" ["className" =: "text-3xl font-bold"] [put (total s)]];
    el "div" ["className" =: "p-5 rounded-lg border border-[#10B981]/30 bg-gradient-to-br from-card to-[#10B981]/5"] [
      el "p" ["className" =: "text-xs text-muted-foreground mb-2"] [txt "Активные аккаунты"];
      el "p" ["className" =: "text-3xl font-bold text-[#10B981]"] [put (safe s)]];
    el "div" ["className" =: "p-5 rounded-lg border border-[#F43F5E]/30 bg-gradient-to-br from-card to-[#F43F5E]/5"] [
      el "p" ["className" =: "text-xs text-muted-foreground mb-2"] [txt "Заблокированные"];
      el "p" ["className" =: "text-3xl font-bold text-[#F43F5E]"] [put (suspicious s)]]].

Definition device_head : jsx action :=
  el "thead" ["className" =: "bg-muted/50 border-b border-border"] [
    el "tr" [] [
      el "th" ["className" =: "p-4 text-left text-xs font-semibold text-muted-foreground"] [
        txt "СТАТУС"];
      el "th" ["className" =: "p-4 text-left text-xs font-semibold text-muted-foreground"] [
        txt "ИМЯ КЛИЕНТА"];
      el "th" ["className" =: "p-4 text-left text-xs font-semibold text-muted-foreground"] [
        txt "TELEGRAM"];
      el "th" ["className" =: "p-4 text-left text-xs font-semibold text-muted-foreground"] [
        txt "VPN IP"];
      el "th" ["className" =: "p-4 text-left text-xs font-semibold text-muted-foreground"] [
        txt "ГРУППА"]]].

Definition device_row (c : val) : jsx action :=
  el "tr" ["key" =: c ~> "id";
     "className" =: tpl ["border-b border-border hover:bg-muted/30 transition-colors "; jcond ((c ~> "status") === "offline") "bg-[#F43F5E]/5" ""]] [
    el "td" ["className" =: "p-4"] [
      el "div" ["className" =: "flex items-center gap-2"] [
        jif ((c ~> "status") === "online")
          (el "Shield" ["className" =: "w-4 h-4 text-[#10B981]"] [])
          (el "AlertTriangle" ["className" =: "w-4 h-4 text-[#F43F5E]"] []);
        el "span" ["className" =: tpl ["text-xs font-semibold "; jcond ((c ~> "status") === "online") "text-[#10B981]" "text-[#F43F5E]"]] [
          put (jcond ((c ~> "status") === "online") "АКТИВЕН" "ЗАБЛОКИРОВАН")]]];
    el "td" ["className" =: "p-4 font-medium"] [put (c ~> "username")];
    el "td" ["className" =: "p-4 text-muted-foreground"] [put (c ~> "telegramId")];
    el "td" ["className" =: "p-4 font-mono text-sm"] [put (c ~> "vpnIp")];
    el "td" ["className" =: "p-4"] [
      el "span" ["className" =: "px-2 py-0.5 rounded bg-muted text-xs"] [
        put ((c ~> "groupName") ||| "—")]]].

Definition view (s : state) : jsx action :=
  el "div" ["className" =: "space-y-6"] [
    el "div" ["className" =: "flex items-center justify-between"] [
      el "div" [] [
        el "h1" ["className" =: "text-3xl font-bold"] [txt "Контроль Устройств"];
        el "p" ["className" =: "text-muted-foreground mt-1"] [
          txt "Отслеживание устройств и анти-шаринг"]];
      el "button" ["onClick" =! Load;
         "className" =: "flex items-center gap-2 px-4 py-2 bg-muted text-foreground rounded-lg hover:bg-muted/80 transition-colors"] [
        el "RefreshCw" ["className" =: "w-4 h-4"] [];
        txt " Обновить"]];
    counters s;
    el "div" ["className" =: "rounded-lg border border-primary/30 bg-card overflow-hidden"] [
      el "div" ["className" =: "overflow-x-auto"] [
        el "table" ["className" =: "w-full"] [
          device_head;
          el "tbody" [] [
            show (((clients s) ~> "length") === (int 0))
              (el "tr" [] [
                el "td" ["colSpan" =: (int 5);
                   "className" =: "p-8 text-center text-muted-foreground"] [
                  txt "Нет клиентов для отслеживания"]]);
            each (clients s) (fun _ c =>
              device_row c)]]]]].
