(* ===== verification/ConnectionLogs.v ===== *)
(** * The connection log page ([pages/ConnectionLogs.tsx]) *)
From S2P Require Import Prelude JsStr JsNum JsVal React Effects Logic Api.
Local Open Scope string_scope.
Local Open Scope js_scope.

Record state := State {
  logs : val;
}.
Definition set_logs (v : val) (s : state) : state :=
  State v.

Definition init_state : state := State (VArr []).

Inductive action : Type :=
| GenerateLogs.

Definition events : list string :=
  ["Подключение установлено"; "Хэндшейк завершён"; "Соединение закрыто"; "Передача данных";
   "Согласование протокола"].
Definition ips : list string :=
  ["185.243.215.42"; "92.154.78.123"; "45.89.123.67"; "78.142.56.89"; "123.45.67.89"].

Definition nth_str (l : list string) (i : nat) : val := opt_str (l !! i).

Section ConnectionLogs.
Context `{BuildEnv}.
(** [Date.prototype.toLocaleString("ru-RU")] of a time in milliseconds: it
    depends on the browser's time zone and locale data. *)
Variable toLocaleString : Z -> string.

(** The status column of row [i]. *)
Definition row_status (i : nat) : string :=
  if Nat.eqb i 2 then "error" else if Nat.eqb i 4 then "warning" else "success".

(** The body of the loop. *)
Definition log_row (now : Z) (clients : list val) (i : nat) : res val :=
  let client := match clients with
                | [] => VObj [("username", VStr "—")]
                | _ => default VUndef (clients !! (i mod length clients))
                end in
  jobj [("id", string_of_Z (Z.of_nat i) : expr);
        ("timestamp", toLocaleString (now - Z.of_nat i * 120000) : expr);
        ("client", client ~> "username");
        ("event", nth_str events (i mod length events) : expr);
        ("ip", nth_str ips (i mod length ips) : expr);
        ("status", row_status i : expr)].

(** The bound of the loop: [Math.max(clients.length * 2, 8)]. *)
Definition log_count (clients : list val) : nat := Nat.max (length clients * 2) 8.

(** The loop.  On a body that has no length (an error object, a number) the
    bound is [NaN] and the loop does not run; [null] throws; the characters of
    a string have no [username]. *)
Definition generated (now : Z) (clients : val) : res (list val) :=
  match clients with
  | VArr l => sequence (map (log_row now l) (seq 0 (log_count l)))
  | VStr t =>
      let l := replicate (utf16_length t) (VStr "") in
      sequence (map (log_row now l) (seq 0 (log_count l)))
  | VUndef | VNull => Err (TypeError "Cannot read properties of null")
  | _ => Ok []
  end.

Definition generateLogs : prog state unit :=
  try_catch
    (let! r := fetch (API +:+ "/clients") GET in
     let! clients := response_json r in
     let! now := call CNow in
     let! g := lift (generated (num_floor_Z (to_number now)) clients) in
     upd (set_logs (VArr g)))
    (fun _ => upd (set_logs (VArr []))).

Definition mount : prog state unit := spawn generateLogs.
Definition handle (s : state) (a : action) : prog state unit :=
  match a with GenerateLogs => generateLogs end.
Definition page : component state action :=
  Component init_state mount handle (fun _ _ => skip).
End ConnectionLogs.

(** ** The view *)

Definition log_head : jsx action :=
  el "thead" ["className" =: "bg-muted/50 border-b border-border sticky top-0"] [
    el "tr" [] [
      el "th" ["className" =: "p-4 text-left text-xs font-semibold text-muted-foreground"] [
        txt "ВРЕМЯ"];
      el "th" ["className" =: "p-4 text-left text-xs font-semibold text-muted-foreground"] [
        txt "КЛИЕНТ"];
      el "th" ["className" =: "p-4 text-left text-xs font-semibold text-muted-foreground"] [
        txt "СОБЫТИЕ"];
      el "th" ["className" =: "p-4 text-left text-xs font-semibold text-muted-foreground"] [
        txt "IP АДРЕС"];
      el "th" ["className" =: "p-4 text-left text-xs font-semibold text-muted-foreground"] [
        txt "СТАТУС"]]].

Definition log_line (log : val) : jsx action :=
  el "tr" ["key" =: log ~> "id";
     "className" =: "border-b border-border hover:bg-muted/30 transition-colors"] [
    el "td" ["className" =: "p-4 text-muted-foreground"] [put (log ~> "timestamp")];
    el "td" ["className" =: "p-4"] [put (log ~> "client")];
    el "td" ["className" =: "p-4"] [put (log ~> "event")];
    el "td" ["className" =: "p-4 text-muted-foreground"] [put (log ~> "ip")];
    el "td" ["className" =: "p-4"] [
      el "span" ["className" =: tpl ["px-2 py-1 rounded text-xs font-semibold "; jcond ((log ~> "status") === "success") "bg-[#10B981]/20 text-[#10B981]" (jcond ((log ~> "status") === "error") "bg-[#F43F5E]/20 text-[#F43F5E]" "bg-[#F59E0B]/20 text-[#F59E0B]")]] [
        put (jcond ((log ~> "status") === "success") "УСПЕХ" (jcond ((log ~> "status") === "error") "ОШИБКА" "ВНИМАНИЕ"))]]].

Definition view (s : state) : jsx action :=
  el "div" ["className" =: "space-y-6"] [
    el "div" ["className" =: "flex items-center justify-between"] [
      el "div" [] [
        el "h1" ["className" =: "text-3xl font-bold"] [txt "Логи подключений"];
        el "p" ["className" =: "text-muted-foreground mt-1"] [
          txt "Мониторинг активности сервера в реальном времени"]];
      el "button" ["onClick" =! GenerateLogs;
         "className" =: "flex items-center gap-2 px-4 py-2 bg-muted text-foreground rounded-lg hover:bg-muted/80 transition-colors"] [
        el "RefreshCw" ["className" =: "w-4 h-4"] [];
        txt " Обновить"]];
    el "div" ["className" =: "flex items-center gap-2 p-3 rounded-lg bg-primary/10 border border-primary/30"] [
      el "Activity" ["className" =: "w-4 h-4 text-primary animate-pulse"] [];
      el "span" ["className" =: "text-sm"] [txt "Мониторинг активен • Данные из базы клиентов"]];
    el "div" ["className" =: "rounded-lg border border-primary/30 bg-card overflow-hidden"] [
      el "div" ["className" =: "max-h-[600px] overflow-y-auto"] [
        el "table" ["className" =: "w-full"] [
          log_head;
          el "tbody" ["className" =: "font-mono text-sm"] [
            each (logs s) (fun _ log =>
              log_line log)]]]]].
