(* ===== verification/PagesSpec.v ===== *)
(** * The smaller pages: settings, connection keys, connection log *)
From S2P Require Import Prelude JsStr JsNum JsVal Ints React Effects Logic Api Forms.
From S2P Require Settings ConfigProfiles ConnectionLogs.
Local Open Scope string_scope.
Local Open Scope js_scope.

(** ** Settings *)

(** The settings form, its checkbox included. *)
Definition settings_are (refs : string -> option string) (checked : bool) : inputs -> Prop :=
  fun io => fields_are refs io /\ in_checked io "loggingRef" = Some checked.

Definition settings_post (data : list (string * val)) : init :=
  Init "POST" [("Content-Type", "application/json")] (Some (VObj [("settings", VObj data)])).

Definition bot_data (refs : string -> option string) : list (string * val) :=
  [("telegram_bot_token", field_or refs "botTokenRef" "");
   ("telegram_admin_chat_id", field_or refs "chatIdRef" "")].
Definition server_data (refs : string -> option string) (checked : bool) : list (string * val) :=
  [("server_port", field_or refs "portRef" "443");
   ("stealth_domain", field_or refs "stealthRef" "");
   ("logging_enabled", VStr (if checked then "true" else "false"))].

(** A body nested in another is itself. *)
Lemma json_nested k w : json w = Some w -> json (VObj [(k, w)]) = Some (VObj [(k, w)]).
Proof.
  intros Hw.
  change (Some (VObj (match json w with Some w' => [(k, w')] | None => [] end)) = Some (VObj [(k, w)])).
  by rewrite Hw.
Qed.

Lemma path_saved `{BuildEnv} P data t x :
  json (VObj data) = Some (VObj data) ->
  path P (Settings.saveSection (VObj data)) t x ->
  submits (API +:+ "/settings") (settings_post data) [] (sent t) x.
Proof.
  intros Hj Hp. eapply (path_submit P _ _ (fun _ => Settings.flash_saved)).
  - intros r t2 x2 [id [-> ->]]. done.
  - unfold Settings.saveSection, JSON in Hp. rewrite json_nested in Hp by done. exact Hp.
Qed.

(** Saving a section of the settings sends exactly one POST with the
    section's inputs (the port falls back to 443, the checkbox is sent as the
    text "true" or "false") and nothing is fetched again; a request that gets
    no answer rejects. *)
Theorem settings_saved `{BuildEnv} refs checked s a t x
  (Hrun : path (settings_are refs checked) (Settings.handle s a) t x) :
  submits (API +:+ "/settings")
    (settings_post (match a with
                    | Settings.SaveBot => bot_data refs
                    | Settings.SaveServer => server_data refs checked
                    end)) [] (sent t) x.
Proof.
  assert (forall r io, settings_are refs checked io -> in_ref io r = refs r) as Hr by (by intros r io []).
  destruct a; cbn [Settings.handle] in Hrun; unfold Settings.save_bot, Settings.save_server in Hrun;
    do 2 (eapply path_ref_known in Hrun as (? & -> & Hrun); [|by apply Hr]); rewrite !sent_call.
  - rewrite !or_field in Hrun. eapply path_saved; [|exact Hrun].
    cbn. by rewrite !json_field_or.
  - destruct Hrun as (v & t' & (io & sto & [_ Hio] & ->) & -> & Hrun). rewrite sent_call.
    cbn -[jor opt_str jcond Settings.saveSection jobj] in Hrun. rewrite Hio, !or_field in Hrun.
    eapply path_saved; [|by destruct checked].
    cbn. by rewrite !json_field_or.
Qed.

(** ** Connection keys *)

Section Keys.
Context `{BuildEnv}.
Import ConfigProfiles.

(** Copying a key: in a secure context the key reaches the clipboard, the
    client is marked and exactly one 2-second timer is armed to clear the mark;
    elsewhere the click does nothing but raise the error the browser throws on
    the missing clipboard.  The timers are never cancelled: when two keys are
    copied in a row, the timer of the first clears the mark of the second while
    the second's own timer is still pending. *)
Theorem key_copied io (c : conf state) (link name link' name' : val) :
  let copy l n c := event_step page io (CopyKey l n) c in
  if in_secure io then
    let c1 := copy (Ok link) (Ok name) c in
    let c2 := copy (Ok link') (Ok name') c1 in
    let mark_off := upd (set_copied "") in
    log c1 = (log c ++ [OCall CSecureClipboard; OCall (CWriteText (to_string link))])%list /\
    st c1 = set_copied name (st c) /\
    pend c1 = (pend c ++ [(next c, Timer false 2000 mark_off)])%list /\
    copied (st c2) = name' /\
    (let c3 := timer_step page io (length (pend c)) false mark_off c2 in
     pend c2 !! length (pend c) = Some (next c, Timer false 2000 mark_off) /\
     copied (st c3) = "" /\
     pend c3 = (pend c ++ [(S (next c), Timer false 2000 mark_off)])%list)
  else
    exists e, copy (Ok link) (Ok name) c = emit (OUncaught e) (emit (OCall CSecureClipboard) c).
Proof.
  cbn zeta. destruct c as [s sto pn nx lg]. unfold event_step, timer_step, commit_after.
  cbn [page c_handle c_commit handle lift bind copyKey].
  unfold copyKey. cbn. destruct (in_secure io); cbn; [|by eexists].
  rewrite <- !app_assoc. cbn. split; [done|]. split; [done|]. split; [done|]. split; [done|].
  split; [by apply list_lookup_middle|]. split; [done|]. by rewrite delete_middle.
Qed.
End Keys.

(** ** The connection log *)

Section Logs.
Context `{BuildEnv} (toLocaleString : Z -> string).
Import ConnectionLogs.

(** The row the page shows at position [i] for a list of clients. *)
Definition row (now : Z) (clients : list val) (i : nat) : val :=
  VObj [("id", VStr (string_of_Z (Z.of_nat i)));
        ("timestamp", VStr (toLocaleString (now - Z.of_nat i * 120000)%Z));
        ("client", match clients with
                   | [] => VStr "—"
                   | _ => field "username" (default VUndef (clients !! (i mod length clients)))
                   end);
        ("event", nth_str events (i mod 5)); ("ip", nth_str ips (i mod 5));
        ("status", VStr (row_status i))].

Lemma generated_rows now clients :
  Forall (fun c => is_obj c = true) clients ->
  generated toLocaleString now (VArr clients) =
    Ok (map (row now clients) (seq 0 (log_count clients))).
Proof.
  intros Hobj. unfold generated. apply sequence_Ok.
  rewrite Forall2_fmap_l, Forall2_fmap_r. apply Forall_Forall2_diag, Forall_forall. intros i _.
  unfold log_row, row. destruct clients as [|c l] eqn:E; [done|]. cbv iota. rewrite <- E in *.
  destruct (lookup_lt_is_Some_2 clients (i mod length clients)) as [d Hd].
  { apply Nat.mod_upper_bound. by rewrite E. }
  unfold compose. cbv beta. rewrite Hd. cbn [default]. unfold jobj. cbn [map sequence fst snd].
  rewrite jget_field by (rewrite Forall_lookup in Hobj; by eapply Hobj). done.
Qed.

Lemma row_client now clients i :
  clients <> [] ->
  field "client" (row now clients i) = field "username" (default VUndef (clients !! (i mod length clients))).
Proof. by destruct clients. Qed.

(** What the log page shows as the server's activity is computed from the
    list of clients alone: for [n] clients there are [max 2n 8] rows with
    distinct ids, the rows name the clients in turn (so every client appears at
    least twice), and whatever happened, exactly the third row is an error and
    the fifth a warning. *)
Theorem log_rows now clients :
  Forall (fun c => is_obj c = true) clients ->
  let n := length clients in
  exists rows,
    generated toLocaleString now (VArr clients) = Ok rows /\
    length rows = Nat.max (2 * n) 8 /\ NoDup (map (field "id") rows) /\
    (forall i c, clients !! (i mod n) = Some c -> i < length rows ->
       field "client" <$> rows !! i = Some (field "username" c)) /\
    (forall i r, rows !! i = Some r ->
       field "status" r = VStr (if decide (i = 2) then "error" else
                                if decide (i = 4) then "warning" else "success")).
Proof.
  intros Hobj n. exists (map (row now clients) (seq 0 (log_count clients))).
  assert (forall i r, map (row now clients) (seq 0 (log_count clients)) !! i = Some r -> r = row now clients i) as Hrow.
  { intros i r Hr. apply list_lookup_fmap_Some in Hr as (j & -> & Hj).
    by apply lookup_seq in Hj as [-> _]. }
  split; [by apply generated_rows|].
  assert (length (map (row now clients) (seq 0 (log_count clients))) = Nat.max (2 * n) 8) as Hlen.
  { rewrite length_map, length_seq. unfold log_count. by rewrite Nat.mul_comm. }
  split; [done|]. split; [|split].
  - rewrite map_map. apply NoDup_fmap_2; [|apply NoDup_seq].
    intros i j [= Hij]. by apply string_of_nat_inj.
  - intros i c Hc Hi. destruct (lookup_lt_is_Some_2 _ _ Hi) as [r Hr]. rewrite Hr.
    apply Hrow in Hr as ->. cbn [fmap option_fmap option_map].
    rewrite row_client by (intros ->; done). by fold n; rewrite Hc.
  - intros i r Hr. apply Hrow in Hr as ->. cbn. unfold row_status.
    repeat case_decide; subst; try done. by rewrite !(proj2 (Nat.eqb_neq _ _)) by done.
Qed.

End Logs.

(** ** Witnesses *)

Definition settings_browser : inputs :=
  Inputs (fun r => if String.eqb r "portRef" then Some "" else Some "cdn.example.org")
         (fun _ => Some true) (fun _ => true) "https://panel/settings" true (Ok tt) 0
         (fun _ => num_of_Z 0) 1280 (fun _ => false).

Lemma settings_saved_witness :
  exists t, submits "/api/settings"
    (settings_post [("server_port", VStr "443"); ("stealth_domain", VStr "cdn.example.org");
                    ("logging_enabled", VStr "true")]) [] (sent t) (Ok tt).
Proof.
  eexists. eapply (settings_saved (H:=false) (in_ref settings_browser) true Settings.init_state Settings.SaveServer).
  eapply (play_path _ settings_browser) with (store := ∅) (l := [Replied (Response 200 (Ok VNull))]).
  - by split.
  - reflexivity.
Defined.

Lemma log_rows_witness :
  exists rows, ConnectionLogs.generated (fun _ => "") 0 (VArr [VObj [("username", VStr "a")]]) = Ok rows /\
    length rows = 8 /\ NoDup (map (field "id") rows).
Proof.
  destruct (log_rows (fun _ => "") 0 [VObj [("username", VStr "a")]]) as (rows & H1 & H2 & H3 & _).
  - by repeat constructor.
  - by exists rows.
Defined.
