(* ===== verification/Home.v ===== *)
(** * The dashboard ([pages/Home.tsx]) *)
From S2P Require Import Prelude JsStr JsNum JsVal React Effects Logic Api.
Local Open Scope string_scope.
Local Open Scope js_scope.

Record state := State {
  dash : val;
  sys : val;
  clients : val;
  trafficSummary : val;
  chartData : val;
}.
Definition set_dash (v : val) (s : state) : state :=
  State v (sys s) (clients s) (trafficSummary s) (chartData s).
Definition set_sys (v : val) (s : state) : state :=
  State (dash s) v (clients s) (trafficSummary s) (chartData s).
Definition set_clients (v : val) (s : state) : state :=
  State (dash s) (sys s) v (trafficSummary s) (chartData s).
Definition set_trafficSummary (v : val) (s : state) : state :=
  State (dash s) (sys s) (clients s) v (chartData s).
Definition set_chartData (v : val) (s : state) : state :=
  State (dash s) (sys s) (clients s) (trafficSummary s) v.

Definition init_state : state := State VNull VNull (VArr []) VNull (VArr []).

(** The page has no handlers of its own. *)
Inductive action : Type := .

(** [formatBytes(gb)]: the fallback differs from the one of the clients page. *)
Definition formatBytes (gb : expr) : expr :=
  jcond (gb .>= int 1024) (tpl [jtoFixed (gb ./ int 1024) 1; " TB"])
  (jcond (gb .>= int 1) (tpl [jtoFixed gb 2; " GB"])
  (jcond (gb .> int 0) (tpl [jtoFixed (gb .* int 1024) 1; " MB"])
  "0")).

Section Home.
Context `{BuildEnv}.
Definition fetchData : prog state unit :=
  do! fetch_into (API +:+ "/dashboard") set_dash in
  do! fetch_into (API +:+ "/system") set_sys in
  do! fetch_into (API +:+ "/clients") set_clients in
  do! fetch_into (API +:+ "/traffic/summary") set_trafficSummary in
  fetch_into (API +:+ "/traffic/chart24h") set_chartData.

Definition mount : prog state unit :=
  do! fetchData in
  let! _ := setInterval fetchData 5000 in skip.

(** What unmounting runs, after five requests. *)
Definition interval : nat := 5.
Definition cleanup : prog state unit := clearTimer interval.

Definition page : component state action :=
  Component init_state mount (fun _ (a : action) => match a with end) (fun _ _ => skip).
End Home.

(** ** Derived values *)

(** [dash?.f || 0] and the like. *)
Definition count_of (d : val) (f : string) : expr := (d ?> f) ||| int 0.

Definition systemCards (s : state) : expr :=
  let sys := sys s in
  jarray [
    jobj [("icon", VComp "MemoryStick" : expr); ("label", "Оперативная память");
          ("value", jcond sys (tpl [sys ~> "memory_used_gb"; " / "; sys ~> "memory_total_gb"; " GB"]) "—");
          ("sub", jcond sys (tpl [sys ~> "memory_percent"; "%"]) "");
          ("color", "#06B6D4")];
    jobj [("icon", VComp "Cpu" : expr); ("label", "Загрузка ЦП");
          ("value", jcond sys (tpl [sys ~> "cpu_percent"; "%"]) "—");
          ("sub", ""); ("color", "#8B5CF6")];
    jobj [("icon", VComp "HardDrive" : expr); ("label", "Свободно на диске");
          ("value", jcond sys (tpl [sys ~> "disk_free_gb"; " GB"]) "—");
          ("sub", jcond sys (tpl ["из "; sys ~> "disk_total_gb"; " GB ("; sys ~> "disk_percent"; "%)"]) "");
          ("color", "#10B981")];
    jobj [("icon", VComp "Clock" : expr); ("label", "Аптайм сервера");
          ("value", (sys ?> "uptime_human") ||| "—");
          ("sub", ""); ("color", "#F59E0B")]].

Definition bandwidth_card (ts : val) (period field icon color : string) : expr :=
  jobj [("period", period : expr); ("value", formatBytes (count_of ts field));
        ("icon", VComp icon : expr); ("color", color : expr)].

Definition bandwidthCards (s : state) : expr :=
  let ts := trafficSummary s in
  jarray [
    bandwidth_card ts "За сегодня" "todayGB" "Timer" "#06B6D4";
    bandwidth_card ts "За 7 дней" "last7daysGB" "CalendarDays" "#10B981";
    bandwidth_card ts "За 30 дней" "last30daysGB" "CalendarRange" "#8B5CF6";
    bandwidth_card ts "Текущий месяц" "currentMonthGB" "Calendar" "#F59E0B";
    bandwidth_card ts "Текущий год" "currentYearGB" "CalendarCheck" "#10B981"].

Definition pie_slice (name : string) (value : expr) (color : string) : expr :=
  jobj [("name", name : expr); ("value", value); ("color", color : expr)].
Definition pie_chart (title : string) (data : list expr) : expr :=
  jobj [("title", title : expr); ("data", jarray data)].

Definition pieCharts (s : state) : expr :=
  let d := dash s in
  jarray [
    pie_chart "Статус подписок"
      [pie_slice "Активные" (count_of d "enabledClients") "#10B981";
       pie_slice "Отключены" (count_of d "disabledClients") "#F43F5E"];
    pie_chart "Текущий онлайн"
      [pie_slice "В сети" (count_of d "onlineClients") "#06B6D4";
       pie_slice "Офлайн" (count_of d "offlineClients") "#334155"];
    pie_chart "Трафик за 24 часа"
      [pie_slice "Был трафик" (count_of d "active24h") "#8B5CF6";
       pie_slice "Не было" (count_of d "inactive24h") "#475569"]].

(** [Array.prototype.sort] with the comparator [(a, b) => b.dataUsage -
    a.dataUsage]: a stable sort; a [NaN] difference counts as equal.  [x] goes
    after [y] when the comparator of [(x, y)] is positive. *)
Definition usage_after (x y : val) : res bool :=
  ux ← get x "dataUsage"; uy ← get y "dataUsage";
  Ok (num_lt (S754_zero false) (num_sub (to_number uy) (to_number ux))).

Fixpoint insert_by_usage (x : val) (l : list val) : res (list val) :=
  match l with
  | [] => Ok [x]
  | y :: l' =>
      after ← usage_after x y;
      if (after : bool) then k ← insert_by_usage x l'; Ok (y :: k) else Ok (x :: l)
  end.

Fixpoint sort_by_usage (l : list val) : res (list val) :=
  match l with
  | [] => Ok []
  | x :: l' => k ← sort_by_usage l'; insert_by_usage x k
  end.

Definition sortedClients (s : state) : expr :=
  l ← jarr (clients s); k ← sort_by_usage l; Ok (VArr k).

(** [pct] of a row: share of the limit used, in percent, at most 100. *)
Definition pct (c : val) : expr :=
  jcond ((c ~> "dataLimit") .> int 0)
    (jmin (((c ~> "dataUsage") ./ (c ~> "dataLimit")) .* int 100) (int 100))
    (int 0).

Definition barColor (p : expr) : expr :=
  jcond (p .> int 90) "#F43F5E" (jcond (p .> int 70) "#F59E0B" "#10B981").

(** ** The view *)

Definition dash_badges (s : state) : jsx action :=
  el "div" ["className" =: "mt-3 flex gap-3 text-sm flex-wrap"] [
    el "span" ["className" =: "px-3 py-1 rounded-full bg-primary/20 text-primary font-medium"] [
      txt "👥 Клиентов: ";
      put (count_of (dash s) "totalClients")];
    el "span" ["className" =: "px-3 py-1 rounded-full bg-green-500/20 text-green-400 font-medium"] [
      txt "✅ Активных: ";
      put (count_of (dash s) "enabledClients")];
    el "span" ["className" =: "px-3 py-1 rounded-full bg-muted text-muted-foreground font-medium"] [
      txt "⬇ ";
      put (formatBytes (count_of (dash s) "downloadGB"))];
    el "span" ["className" =: "px-3 py-1 rounded-full bg-muted text-muted-foreground font-medium"] [
      txt "⬆ ";
      put (formatBytes (count_of (dash s) "uploadGB"))]].

Definition system_card (i : nat) (card : val) : jsx action :=
  el "div" ["key" =: (int (Z.of_nat i));
     "className" =: "p-5 rounded-lg border border-primary/30 bg-gradient-to-br from-card to-card/50 backdrop-blur-sm"] [
    el "div" ["className" =: "flex items-start justify-between mb-3"] [
      el "p" ["className" =: "text-xs text-muted-foreground"] [put (card ~> "label")];
      el "div" ["className" =: "p-2 rounded-lg";
         "style" =: jobj [("backgroundColor", tpl [card ~> "color"; "20"])]] [
        elV (card ~> "icon") ["className" =: "w-4 h-4"; "style" =: jobj [("color", card ~> "color")]] []]];
    el "p" ["className" =: "text-2xl font-bold"] [put (card ~> "value")];
    show (card ~> "sub")
      (el "p" ["className" =: "text-xs text-muted-foreground mt-1"] [put (card ~> "sub")])].

Definition system_section (s : state) : jsx action :=
  el "section" [] [
    el "h2" ["className" =: "text-sm font-semibold text-muted-foreground mb-4"] [
      txt "НАГРУЗКА НА СИСТЕМУ"];
    el "div" ["className" =: "grid grid-cols-1 md:grid-cols-2 lg:grid-cols-4 gap-4"] [
      each (systemCards s) (fun i card =>
        system_card i card)]].

Definition bandwidth_tile (i : nat) (card : val) : jsx action :=
  el "div" ["key" =: (int (Z.of_nat i));
     "className" =: "p-5 rounded-lg border border-primary/30 bg-gradient-to-br from-card to-card/50 backdrop-blur-sm"] [
    el "div" ["className" =: "flex items-start justify-between mb-3"] [
      el "p" ["className" =: "text-sm text-muted-foreground"] [put (card ~> "period")];
      el "div" ["className" =: "p-2 rounded-full";
         "style" =: jobj [("backgroundColor", tpl [card ~> "color"; "20"])]] [
        elV (card ~> "icon") ["className" =: "w-4 h-4"; "style" =: jobj [("color", card ~> "color")]] []]];
    el "p" ["className" =: "text-3xl font-bold"] [put (card ~> "value")]].

Definition bandwidth_section (s : state) : jsx action :=
  el "section" [] [
    el "h2" ["className" =: "text-sm font-semibold text-muted-foreground mb-4"] [
      txt "ПОТРЕБЛЕНИЕ ТРАФИКА"];
    el "div" ["className" =: "grid grid-cols-1 md:grid-cols-2 lg:grid-cols-5 gap-4"] [
      each (bandwidthCards s) (fun i card =>
        bandwidth_tile i card)]].

Definition chart_section (s : state) : jsx action :=
  el "section" [] [
    el "h2" ["className" =: "text-sm font-semibold text-muted-foreground mb-4"] [
      txt "ТРАФИК (ЗА 24 ЧАСА)"];
    el "div" ["className" =: "p-6 rounded-lg border border-primary/30 bg-gradient-to-br from-card to-card/50 backdrop-blur-sm"] [
      el "ResponsiveContainer" ["width" =: "100%"; "height" =: (int 300)] [
        el "AreaChart" ["data" =: (jcond (((chartData s) ~> "length") .> (int 0)) (chartData s) (jarray [jobj [("time", "—"); ("traffic", (int 0))]]))] [
          el "defs" [] [
            el "linearGradient" ["id" =: "trafficGrad"; "x1" =: "0"; "y1" =: "0"; "x2" =: "0"; "y2" =: "1"] [
              el "stop" ["offset" =: "5%"; "stopColor" =: "#06B6D4"; "stopOpacity" =: (dec "0.4")] [];
              el "stop" ["offset" =: "95%"; "stopColor" =: "#06B6D4"; "stopOpacity" =: (int 0)] []]];
          el "CartesianGrid" ["strokeDasharray" =: "3 3"; "stroke" =: "#334155"] [];
          el "XAxis" ["dataKey" =: "time"; "stroke" =: "#94A3B8"; "fontSize" =: (int 12)] [];
          el "YAxis" ["stroke" =: "#94A3B8"; "fontSize" =: (int 12)] [];
          el "Tooltip" ["contentStyle" =: jobj [("backgroundColor", "#1E293B"); ("border", "1px solid #06B6D4"); ("borderRadius", "8px")];
             fn "formatter" (fun value => jarray [tpl [value : expr; " GB"]; "Трафик"])] [];
          el "Area" ["type" =: "monotone";
             "dataKey" =: "traffic";
             "stroke" =: "#06B6D4";
             "strokeWidth" =: (int 2);
             "fill" =: "url(#trafficGrad)";
             "dot" =: jobj [("fill", "#06B6D4"); ("r", (int 3))]] []]];
      show (((chartData s) ~> "length") === (int 0))
        (el "p" ["className" =: "text-center text-muted-foreground text-sm mt-2"] [
          txt "Нет данных — график заполнится после подключения к VPS"])]].

Definition pie_tile (chart : val) : jsx action :=
  el "div" ["key" =: chart ~> "title";
     "className" =: "p-6 rounded-lg border border-primary/30 bg-gradient-to-br from-card to-card/50 backdrop-blur-sm"] [
    el "h3" ["className" =: "text-sm text-muted-foreground mb-4"] [put (chart ~> "title")];
    el "div" ["className" =: "flex items-center gap-6"] [
      el "ResponsiveContainer" ["width" =: (int 120); "height" =: (int 120)] [
        el "PieChart" [] [
          el "Pie" ["data" =: chart ~> "data";
             "cx" =: "50%";
             "cy" =: "50%";
             "innerRadius" =: (int 35);
             "outerRadius" =: (int 60);
             "paddingAngle" =: (int 5);
             "dataKey" =: "value"] [
            each (chart ~> "data") (fun idx entry =>
              el "Cell" ["key" =: (int (Z.of_nat idx)); "fill" =: (entry ~> "color")] [])]]];
      el "div" ["className" =: "space-y-2"] [
        each (chart ~> "data") (fun _ item =>
          el "div" ["key" =: item ~> "name"; "className" =: "flex items-center gap-2"] [
            el "div" ["className" =: "w-3 h-3 rounded";
               "style" =: jobj [("backgroundColor", item ~> "color")]] [];
            el "span" ["className" =: "text-sm"] [put (item ~> "name")];
            el "span" ["className" =: "text-sm font-bold ml-auto"] [put (item ~> "value")]])]]].

Definition pie_section (s : state) : jsx action :=
  el "section" [] [
    el "h2" ["className" =: "text-sm font-semibold text-muted-foreground mb-4"] [
      txt "СТАТИСТИКА ОНЛАЙНА"];
    el "div" ["className" =: "grid grid-cols-1 md:grid-cols-3 gap-4"] [
      each (pieCharts s) (fun _ chart =>
        pie_tile chart)]].

Definition clients_head : jsx action :=
  el "thead" ["className" =: "bg-muted/50 border-b border-border"] [
    el "tr" [] [
      el "th" ["className" =: "p-4 text-left text-xs font-semibold text-muted-foreground"] [
        txt "КЛИЕНТ"];
      el "th" ["className" =: "p-4 text-left text-xs font-semibold text-muted-foreground"] [
        txt "СТАТУС"];
      el "th" ["className" =: "p-4 text-left text-xs font-semibold text-muted-foreground"] [
        txt "ГРУППА"];
      el "th" ["className" =: "p-4 text-left text-xs font-semibold text-muted-foreground"] [
        txt "ИСПОЛЬЗОВАНО"];
      el "th" ["className" =: "p-4 text-left text-xs font-semibold text-muted-foreground"] [
        txt "ЛИМИТ"];
      el "th" ["className" =: "p-4 text-left text-xs font-semibold text-muted-foreground"] [
        txt "ПРОГРЕСС"]]].

Definition client_row (c : val) : jsx action :=
  el "tr" ["key" =: c ~> "id";
     "className" =: "border-b border-border hover:bg-muted/30 transition-colors"] [
    el "td" ["className" =: "p-4 font-medium"] [put (c ~> "username")];
    el "td" ["className" =: "p-4"] [
      el "span" ["className" =: tpl ["px-2 py-0.5 rounded text-xs font-semibold "; jcond ((c ~> "status") === "online") "bg-[#10B981]/20 text-[#10B981]" "bg-muted text-muted-foreground"]] [
        put (jcond ((c ~> "status") === "online") "АКТИВЕН" "ЗАБЛОКИРОВАН")]];
    el "td" ["className" =: "p-4 text-sm text-muted-foreground"] [put ((c ~> "groupName") ||| "—")];
    el "td" ["className" =: "p-4 text-sm font-mono"] [put (formatBytes (c ~> "dataUsage"))];
    el "td" ["className" =: "p-4 text-sm font-mono"] [
      put (jcond ((c ~> "dataLimit") .>= (int 999)) "Безлимит" (tpl [c ~> "dataLimit"; " GB"]))];
    el "td" ["className" =: "p-4"] [
      el "div" ["className" =: "flex items-center gap-2"] [
        el "div" ["className" =: "w-24 h-2 bg-muted rounded-full overflow-hidden"] [
          el "div" ["className" =: "h-full rounded-full transition-all";
             "style" =: jobj [("width", tpl [(pct c); "%"]); ("backgroundColor", (barColor (pct c)))]] []];
        el "span" ["className" =: "text-xs text-muted-foreground w-8"] [
          put (jtoFixed (pct c) 0);
          txt "%"]]]].

Definition clients_section (s : state) : jsx action :=
  el "section" [] [
    el "h2" ["className" =: "text-sm font-semibold text-muted-foreground mb-4"] [
      txt "ТРАФИК ПО КЛИЕНТАМ"];
    el "div" ["className" =: "rounded-lg border border-primary/30 bg-card overflow-hidden"] [
      el "table" ["className" =: "w-full"] [
        clients_head;
        el "tbody" [] [
          each (sortedClients s) (fun _ c =>
            client_row c)]]]].

Definition body (s : state) : jsx action :=
  el "div" ["className" =: "space-y-6"] [
    el "div" [] [
      el "h1" ["className" =: "text-3xl font-bold text-primary"] [txt "Командный центр"];
      el "p" ["className" =: "text-muted-foreground mt-1"] [
        txt "Мониторинг инфраструктуры ShadeVPN в реальном времени"];
      show (dash s)
        (dash_badges s)];
    system_section s;
    bandwidth_section s;
    chart_section s;
    pie_section s;
    show (((clients s) ~> "length") .> (int 0))
      (clients_section s)].

(** The component sorts the clients before it builds any element, shown or not. *)
Definition view (s : state) : jsx action :=
  sorted ← sortedClients s; body s.
