(* ===== verification/DashboardSpec.v ===== *)
(** * The dashboard: ranking, bars, byte counts *)
From Stdlib Require Import Sorting.Sorted.
From S2P Require Import Prelude JsStr JsNum JsVal Ints Floats React Effects Logic Api.
From S2P Require Users Home.
Import Home.
Local Open Scope string_scope.
Local Open Scope js_scope.

(** ** The ranking *)

(** A client whose traffic is a number, and that number in exact units. *)
Definition measured (v : val) : Prop :=
  exists x, get v "dataUsage" = Ok (VNum x) /\ finite_double x = true.
Definition usage (v : val) : Z :=
  match get v "dataUsage" with Ok (VNum x) => units x | _ => 0 end.
Definition heavier (a b : val) : Prop := (usage b <= usage a)%Z.
Definition tied (u : Z) (l : list val) : list val := List.filter (fun v => (usage v =? u)%Z) l.

Lemma usage_after_eq x y :
  measured x -> measured y -> usage_after x y = Ok (usage x <? usage y)%Z.
Proof.
  intros (nx & Hx & Fx) (ny & Hy & Fy). unfold usage_after, usage. rewrite Hx, Hy. cbn.
  by rewrite sub_positive.
Qed.

Lemma insert_sorts x l :
  measured x -> Forall measured l -> StronglySorted heavier l ->
  exists k, insert_by_usage x l = Ok k /\ k ≡ₚ x :: l /\ StronglySorted heavier k /\
    forall u, tied u k = tied u (x :: l).
Proof.
  intros Hx Hl Hs. induction Hs as [|y l Hs IH Hy]; cbn [insert_by_usage].
  - exists [x]. split; [done|]. split; [done|]. split; [repeat constructor|done].
  - apply Forall_cons in Hl as [My Ml]. rewrite usage_after_eq by done. cbn.
    destruct (Z.ltb_spec (usage x) (usage y)) as [Hlt|Hge].
    + destruct (IH Ml) as (k & -> & Hp & Hk & Hst). exists (y :: k). split; [done|].
      split; [rewrite Hp; apply Permutation_swap|]. split.
      * constructor; [done|]. rewrite Hp. constructor; [unfold heavier; lia|done].
      * intros u. specialize (Hst u). unfold tied in *. cbn [List.filter] in *. rewrite Hst.
        destruct (Z.eqb_spec (usage y) u), (Z.eqb_spec (usage x) u); try done. lia.
    + exists (x :: y :: l). split; [done|]. split; [done|]. split; [|done].
      constructor; [by constructor|]. constructor; [done|].
      eapply Forall_impl; [exact Hy|]. unfold heavier. intros; lia.
Qed.

Lemma sort_sorts l :
  Forall measured l ->
  exists k, sort_by_usage l = Ok k /\ k ≡ₚ l /\ StronglySorted heavier k /\
    forall u, tied u k = tied u l.
Proof.
  induction 1 as [|x l Mx Ml IH]; cbn [sort_by_usage].
  - exists []. repeat split; try done; constructor.
  - destruct IH as (k & -> & Hp & Hk & Hst). cbn.
    destruct (insert_sorts x k) as (k' & -> & Hp' & Hk' & Hst'); [done|by rewrite Hp|done|].
    exists k'. split; [done|]. split; [by rewrite Hp', Hp|]. split; [done|].
    intros u. rewrite Hst'. unfold tied in *. cbn [List.filter]. by rewrite Hst.
Qed.

(** C31. The ranking of the dashboard never loses or repeats a client, puts the
    clients in descending order of their exact traffic although the comparator
    only sees the rounded difference, and keeps clients of equal traffic in
    the order the server listed them. *)
Theorem ranking_sorted (s : state) (l : list val) :
  clients s = VArr l -> Forall measured l ->
  exists k, sortedClients s = Ok (VArr k) /\ k ≡ₚ l /\ StronglySorted heavier k /\
    forall u, tied u k = tied u l.
Proof.
  intros Hc Hl. destruct (sort_sorts l Hl) as (k & Hk & Hspec). exists k. split; [|done].
  unfold sortedClients. rewrite Hc. cbn. by rewrite Hk.
Qed.

(** ** The usage bars *)

(** C38. The bar of a client with a non-negative usage is never outside 0 to
    100 percent, whatever the limit (zero and negative limits included, where
    it is empty) and whatever overflows on the way. *)
Theorem bar_bounded (c : val) (x y : num) :
  get c "dataUsage" = Ok (VNum x) -> get c "dataLimit" = Ok (VNum y) ->
  finite_double x = true -> finite_double y = true -> (0 <= units x)%Z ->
  exists p, pct c = Ok (VNum p) /\
    num_le (num_of_Z 0) p = true /\ num_le p (num_of_Z 100) = true /\
    ((units y <= 0)%Z -> p = num_of_Z 0).
Proof.
  intros Hx Hy Fx Fy Ux. unfold pct, jcond, jif, jgt, jmin, jmul, jdiv, jnum2, jget.
  cbn [mbind res_bind lit]. rewrite Hx, Hy. cbn -[num_lt num_mul num_div math_min num_of_Z].
  destruct y as [sy|[]| |[] my ey]; try done.
  - exists (num_of_Z 0). repeat split; vm_compute; reflexivity.
  - exists (num_of_Z 0). repeat split; vm_compute; reflexivity.
  - change (num_lt (num_of_Z 0) (S754_finite false my ey)) with true. cbn iota.
    eexists. split; [reflexivity|].
    destruct (min_bounds (num_mul (num_div x (S754_finite false my ey)) (num_of_Z 100))
                7036874417766400 (-46)) as [H1 H2].
    { apply mul_non_negative, div_non_negative. by apply units_non_negative. }
    split; [exact H1|]. split; [exact H2|].
    apply valid_exponent in Fy. pose proof (proj1 (units_sign false my ey Fy)) as Hu.
    apply Z.ltb_lt in Hu. lia.
Qed.

(** ** Byte counts *)

(** C37. Both pages write a positive amount of traffic in the same way and
    differ only on nothing ("0 MB" and "0"); between 1 and 1024 GB the text is
    the amount rounded to the nearest hundredth, computed exactly. *)
Theorem byte_counts (x : num) :
  finite_double x = true ->
  (num_lt (num_of_Z 0) x = true -> Users.formatBytes (VNum x) = Home.formatBytes (VNum x)) /\
  (num_lt (num_of_Z 0) x = false ->
     Users.formatBytes (VNum x) = Ok (VStr "0 MB") /\ Home.formatBytes (VNum x) = Ok (VStr "0")) /\
  (num_le (num_of_Z 1) x = true -> num_lt x (num_of_Z 1024) = true ->
     exists p q n, num_frac x = Some (p, q) /\ (2 * Z.abs (p * 100 - n * Zpos q) <= Zpos q)%Z /\
       Home.formatBytes (VNum x) = Ok (VStr (fixed_layout n 2 +:+ " GB"))).
Proof.
  intros Hx. destruct x as [s| | |[] m e]; try done.
  unfold Users.formatBytes, Home.formatBytes, jcond, jif, jge, jgt, jnum2.
  set (x := S754_finite false m e) in *.
  cbn -[num_lt num_le num_of_Z tpl x fixed_layout]. split; [|split; [done|]].
  - intros ->. by destruct (num_le (num_of_Z 1024) x), (num_le (num_of_Z 1) x).
  - intros -> Hlt.
    assert (num_le (num_of_Z 1024) x = false) as -> by by apply (lt_not_le m e 4503599627370496 (-42)).
    destruct (toFixed_small m e 2 Hx Hlt) as (q & Hq & Ht).
    exists (Zpos m), q, (fixed_int (Zpos m) (Zpos q) 2). split; [done|].
    split; [by apply (fixed_nearest (Zpos m) (Zpos q) 2)|].
    fold x in Ht. by rewrite <- Ht.
Qed.

(** ** Witnesses *)

Definition client_using (gb : string) : val :=
  VObj [("dataUsage", VNum (parseFloat gb)); ("dataLimit", VNum (num_of_Z 50))].
Definition ranked : list val := map client_using ["0.1"; "12.25"; "3"; "0.1"].

Lemma measured_demo gb : finite_double (parseFloat gb) = true -> measured (client_using gb).
Proof. intros H. by exists (parseFloat gb). Qed.

Lemma ranking_sorted_witness :
  sortedClients (set_clients (VArr ranked) init_state) =
    Ok (VArr (map client_using ["12.25"; "3"; "0.1"; "0.1"])) /\
  exists k, k ≡ₚ ranked /\ StronglySorted heavier k.
Proof.
  split; [vm_compute; reflexivity|].
  destruct (ranking_sorted (set_clients (VArr ranked) init_state) ranked) as (k & _ & Hp & Hs & _).
  - reflexivity.
  - repeat constructor; apply measured_demo; vm_compute; reflexivity.
  - by exists k.
Defined.

Lemma bar_bounded_witness :
  exists p, pct (client_using "120") = Ok (VNum p) /\ num_le p (num_of_Z 100) = true.
Proof.
  destruct (bar_bounded (client_using "120") (num_of_Z 120) (num_of_Z 50)) as (p & Hp & _ & H & _).
  1-4: vm_compute; reflexivity.
  - vm_compute. discriminate.
  - by exists p.
Defined.

Lemma byte_counts_witness : Users.formatBytes (dec "0.5") = Home.formatBytes (dec "0.5").
Proof.
  apply (byte_counts (parseFloat "0.5")); vm_compute; reflexivity.
Defined.
