(* ===== verification/Login.v ===== *)
(** * The login form ([pages/Login.tsx])

    [Login] takes [onLogin] from its parent; its handler is written against the
    parent's state type [S], given as the operations of the class [LoginHost]:
    the form's own state inside [S] and the callback. *)
From S2P Require Import Prelude JsStr JsNum JsVal React Effects Logic Api.
Local Open Scope string_scope.
Local Open Scope js_scope.

Record state := State {
  password : string;
  error : string;
  loading : bool;
}.
Definition set_password (v : string) (s : state) : state :=
  State v (error s) (loading s).
Definition set_error (v : string) (s : state) : state :=
  State (password s) v (loading s).
Definition set_loading (v : bool) (s : state) : state :=
  State (password s) (error s) v.

Definition init_state : state := State "" "" false.

Inductive action : Type :=
| HandleSubmit
| SetPassword (value : string).

(** What the login form needs from the component that mounts it: where its
    state lives, and [onLogin]. *)
Class LoginHost (S : Type) := {
  login_of : S -> state;
  modify_login : (state -> state) -> S -> S;
  onLogin : prog S unit;
  login_of_modify : forall f s, login_of (modify_login f s) = f (login_of s);
}.

Section Login.
Context `{BuildEnv} {S : Type} `{LoginHost S}.

Definition set (f : state -> state) : prog S unit := upd (modify_login f).

Definition handleSubmit (s : state) : prog S unit :=
  do! do_ CPreventDefault in
  do! set (set_loading true) in
  do! set (set_error "") in
  try_finally
    (try_catch
      (let! res := fetch (API +:+ "/login")
                     (JSON "POST" (VObj [("password", VStr (password s))])) in
       if r_ok res then
         do! do_ (CSetItem token_key (password s)) in
         onLogin
       else set (set_error "Неверный пароль"))
      (fun _ => set (set_error "Ошибка соединения с сервером")))
    (set (set_loading false)).

Definition handle (s : state) (a : action) : prog S unit :=
  match a with
  | HandleSubmit => handleSubmit s
  | SetPassword v => set (set_password v)
  end.
End Login.

(** ** The view *)

Definition login_form (s : state) : jsx action :=
  el "form" ["onSubmit" =! HandleSubmit; "className" =: "space-y-4"] [
    el "div" [] [
      el "label" ["className" =: "block text-sm font-medium text-muted-foreground mb-1"] [
        txt "Пароль администратора"];
      el "input" ["type" =: "password";
         "value" =: (password s);
         onE "onChange" (fun e => SetPassword (ev_value e));
         "className" =: "w-full bg-background border border-border rounded-md px-3 py-2 text-sm focus:outline-none focus:ring-2 focus:ring-primary";
         "placeholder" =: "Введите пароль...";
         flag "autoFocus"] []];
    show (error s)
      (el "p" ["className" =: "text-red-500 text-sm text-center font-medium animate-pulse"] [
        put (error s)]);
    el "button" ["type" =: "submit";
       "disabled" =: ((loading s) ||| (jnot (password s)));
       "className" =: "w-full bg-primary hover:bg-primary/90 text-white rounded-md py-2 px-4 font-medium transition-colors disabled:opacity-50"] [
      put (jcond (loading s) "Проверка..." "Войти")]].

Definition view (s : state) : jsx action :=
  el "div" ["className" =: "min-h-screen bg-background flex flex-col items-center justify-center p-4"] [
    el "div" ["className" =: "w-full max-w-sm bg-[#1A1F2E] border border-border rounded-xl shadow-2xl p-8 relative overflow-hidden"] [
      el "div" ["className" =: "absolute top-0 left-0 w-full h-1 bg-gradient-to-r from-primary via-blue-500 to-indigo-500"] [];
      el "h2" ["className" =: "text-2xl font-bold text-center text-white mb-6"] [
        txt "ShadeVPN Admin"];
      login_form s];
    el "p" ["className" =: "mt-8 text-sm text-muted-foreground/50"] [txt "Copyright © 2026"]].
