(* ===== verification/AdminApp.v ===== *)
(** * The admin panel's entry ([App.tsx], [routes.tsx]), and logging in *)
From Stdlib Require Import Ascii.
From S2P Require Import Prelude JsStr JsNum JsVal React Effects Logic Api RouterMachine Login.
Local Open Scope string_scope.
Local Open Scope js_scope.

Record state := State {
  isAuthenticated : bool;
  login : Login.state;
}.
Definition set_isAuthenticated (v : bool) (s : state) : state :=
  State v (login s).
Definition set_login (v : Login.state) (s : state) : state :=
  State (isAuthenticated s) v.

Definition init_state : state := State false Login.init_state.

Inductive action : Type :=
| LoginAction (a : Login.action).

Section AdminApp.
Context `{BuildEnv}.

(** [<Login onLogin={() => setIsAuthenticated(true)} />]. *)
Definition app_login_host : LoginHost state :=
  Build_LoginHost state login (fun f s => set_login (f (login s)) s)
    (upd (set_isAuthenticated true)) (fun _ _ => eq_refl).
#[local] Existing Instance app_login_host.

(** [useState(!!localStorage.getItem("adminToken"))] and the mount effect. *)
Definition mount : prog state unit :=
  let! tok := call (CGetItem token_key) in
  do! upd (set_isAuthenticated (truthy tok)) in
  do_ (CAddClass "dark").

Definition handle (s : state) (a : action) : prog state unit :=
  match a with LoginAction b => Login.handle (login s) b end.

Definition page : component state action :=
  Component init_state mount handle (fun _ _ => skip).
End AdminApp.

(** ** The route table *)

(** A route: its path under the parent ([None] for the index route) and the
    component it mounts. *)
Record route := Route { r_path : option string; r_component : string }.

Definition layout_path : string := "/".
Definition children : list route :=
  [Route None "Home";
   Route (Some "users") "Users";
   Route (Some "groups") "Groups";
   Route (Some "config-profiles") "ConfigProfiles";
   Route (Some "nodes") "Nodes";
   Route (Some "templates") "Templates";
   Route (Some "response-rules") "ResponseRules";
   Route (Some "hwid-inspector") "HWIDInspector";
   Route (Some "connection-logs") "ConnectionLogs";
   Route (Some "settings") "Settings"].

(** The absolute path of a child route. *)
Definition full_path (r : route) : string :=
  match r_path r with None => layout_path | Some p => layout_path +:+ p end.

(** The component of a location, if it has one. *)
Definition resolve `{Matcher} (location : string) : option string :=
  r_component <$> first_match full_path children location.

Lemma resolve_child `{MatcherLaws} r l : r ∈ children -> matches (full_path r) l = true ->
  resolve l = Some (r_component r).
Proof.
  intros Hr Hm. unfold resolve. rewrite (first_match_is full_path children r l); [done| |done|done].
  by apply (bool_decide_unpack _).
Qed.
Lemma resolve_path `{MatcherLaws} r : r ∈ children -> resolve (full_path r) = Some (r_component r).
Proof.
  intros Hr. apply resolve_child; [done|]. apply matches_same. unfold children in Hr.
  by repeat (apply elem_of_cons in Hr as [->|Hr]; [done|]); apply elem_of_nil in Hr.
Qed.

(** ** The view *)

Definition view (s : state) : jsx action :=
  if negb (isAuthenticated s)
  then embed LoginAction (Login.view (login s))
  else el "RouterProvider" ["router" =: VComp "router"] [].

(** ** Logging in *)

#[local] Existing Instance app_login_host.

(** The request of the form. *)
Definition login_request `{BuildEnv} (token pw : string) : request :=
  wrapped token (API +:+ "/login")
    (Init "POST" [("Content-Type", "application/json")] (Some (VObj [("password", VStr pw)]))).

(** How each answer leaves the application: the token is the password. *)
Definition logged_in (pw : string) (c : conf state) : conf state :=
  set_st (fun s => set_login (Login.set_loading false (login s)) (set_isAuthenticated true s))
    (set_store (<[token_key := pw]> (store c)) (emit (OCall (CSetItem token_key pw)) c)).
Definition refused (message : string) (c : conf state) : conf state :=
  set_st (fun s => set_login (Login.set_loading false (Login.set_error message (login s))) s) c.

(** The form waiting for an answer, and what it does with it. *)
Definition submitted `{BuildEnv} (c : conf state) : conf state :=
  emit (OSend (login_request (stored_token (store c)) (Login.password (login (st c)))))
    (emit (OCall (CGetItem token_key))
      (set_st (fun s => set_login (Login.set_error "" (Login.set_loading true (login s))) s)
        (emit (OCall CPreventDefault) c))).
Definition login_answer `{BuildEnv} (pw : string) (x : res response) : prog state unit :=
  try_finally
    (try_catch
      (let! res := (let! r := lift x in do! on_response r in Ret r) in
       if r_ok res then
         do! do_ (CSetItem token_key pw) in
         upd (set_isAuthenticated true)
       else Login.set (Login.set_error "Неверный пароль"))
      (fun _ => Login.set (Login.set_error "Ошибка соединения с сервером")))
    (Login.set (Login.set_loading false)).

Section Answers.
Context `{BuildEnv}.

Lemma submit_runs io (c : conf state) :
  let pw := Login.password (login (st c)) in
  event_step page io (LoginAction Login.HandleSubmit) c =
  push (Waiting (QFetch (login_request (stored_token (store c)) pw)) (login_answer pw)) (submitted c).
Proof.
  unfold event_step, commit_after, page, submitted, stored_token. cbn.
  destruct (store c !! token_key) as [[|a tok]|]; reflexivity.
Qed.
Lemma answer_accepted io pw r (c : conf state) : r_ok r = true ->
  run io (login_answer pw (Ok r)) c = logged_in pw c.
Proof.
  intros Hok. unfold r_ok in *. assert ((r_status r =? 401)%Z = false) as Hn by lia.
  cbn. unfold on_response. rewrite Hn. cbn. unfold r_ok. by rewrite Hok.
Qed.
Lemma answer_refused io pw r (c : conf state) : r_ok r = false ->
  run io (login_answer pw (Ok r)) c = refused "Неверный пароль" (after_401 io r c).
Proof.
  intros Hok. unfold after_401, on_response. cbn. unfold on_response.
  destruct (r_status r =? 401)%Z; cbn; [|unfold Login.set; by rewrite Hok].
  destruct (includes (in_href io) "login"); cbn; unfold Login.set; rewrite Hok; by destruct c.
Qed.
Lemma answer_lost io pw e (c : conf state) :
  run io (login_answer pw (Err e)) c = refused "Ошибка соединения с сервером" c.
Proof. done. Qed.

Lemma login_submits io (c : conf state) :
  let pw := Login.password (login (st c)) in
  let rq := login_request (stored_token (store c)) pw in
  exists K c1,
    event_step page io (LoginAction Login.HandleSubmit) c = push (Waiting (QFetch rq) K) c1 /\
    log c1 = (log c ++ [OCall CPreventDefault; OCall (CGetItem token_key); OSend rq])%list /\
    login (st c1) = Login.State pw "" true /\
    (forall io' r c', r_ok r = true -> run io' (K (Ok r)) c' = logged_in pw c') /\
    (forall io' r c', r_ok r = false ->
       run io' (K (Ok r)) c' = refused "Неверный пароль" (after_401 io' r c')) /\
    (forall io' e c', run io' (K (Err e)) c' = refused "Ошибка соединения с сервером" c').
Proof.
  cbn zeta. exists (login_answer (Login.password (login (st c)))), (submitted c).
  split; [apply submit_runs|]. split; [cbn; by rewrite <- !app_assoc|]. split; [done|].
  split; [|split]; intros; [by apply answer_accepted|by apply answer_refused|apply answer_lost].
Qed.
End Answers.

(** Submitting the login form: the button is disabled, the message cleared
    and the password posted; a 2xx answer stores the password as the token and
    opens the panel; any other answer shows the wrong-password message, but on
    a 401 (what the server answers to a wrong password) only after the
    wrapper has dropped the token and reloaded the page; without an answer
    the connection message is shown.  The loading flag is always lowered. *)
Theorem login_submit `{BuildEnv} io (c : conf state) :
  let pw := Login.password (login (st c)) in
  let rq := login_request (stored_token (store c)) pw in
  exists K c1,
    event_step page io (LoginAction Login.HandleSubmit) c = push (Waiting (QFetch rq) K) c1 /\
    log c1 = (log c ++ [OCall CPreventDefault; OCall (CGetItem token_key); OSend rq])%list /\
    login (st c1) = Login.State pw "" true /\
    (forall io' r c', r_ok r = true -> run io' (K (Ok r)) c' = logged_in pw c') /\
    (forall io' r c', r_ok r = false ->
       run io' (K (Ok r)) c' = refused "Неверный пароль" (after_401 io' r c')) /\
    (forall io' e c', run io' (K (Err e)) c' = refused "Ошибка соединения с сервером" c').
Proof. apply login_submits. Qed.
