(* ===== verification/Safety.v ===== *)
(** * What the admin panel as a whole sends

    Every page talks to the server through the wrapper of [config.ts] only. *)
From S2P Require Import Prelude JsStr JsNum JsVal React Effects Logic Api RouterMachine.
From S2P Require Users Groups Templates Nodes ResponseRules Settings ConfigProfiles HWIDInspector ConnectionLogs Home AdminApp.
Local Open Scope string_scope.

#[local] Hint Unfold Users.client_url Groups.group_url Templates.template_url Nodes.node_url
  ResponseRules.rule_url : js.

(** A location the route table mounts a page for. *)
Definition declared `{Matcher} (location : string) : Prop := is_Some (AdminApp.resolve location).

(** The locations the pages navigate to. *)
Section Declared.
Context `{MatcherLaws}.

Lemma declared_path r : r ∈ AdminApp.children -> declared (AdminApp.full_path r).
Proof. intros Hr. unfold declared. by rewrite AdminApp.resolve_path. Qed.
Lemma declared_groups : declared "/groups".
Proof.
  apply (declared_path (AdminApp.Route (Some "groups") "Groups")). unfold AdminApp.children.
  do 2 apply list_elem_of_further. apply list_elem_of_here.
Qed.
Lemma declared_group q : declared ("/users?group=" +:+ q).
Proof.
  unfold declared. rewrite (AdminApp.resolve_child (AdminApp.Route (Some "users") "Users")); [done| |].
  - unfold AdminApp.children. apply list_elem_of_further, list_elem_of_here.
  - by apply (matches_query "/users" ("group=" +:+ q)).
Qed.
End Declared.

Section Pages.
Context `{BuildEnv} `{MatcherLaws}.
Local Abbreviation only_api C := (behaves C (fun _ => True) (panel_obs declared)).

Ltac page_safe :=
  match goal with |- behaves ?C _ _ => let h := head_of C in unfold h end; split; [done
         |cbn [c_mount]; within_api; done
         |intros s a _; cbn [c_handle]; destruct a; within_api; first [done|apply declared_groups|apply declared_group]
         |done].

Lemma users_safe filter : only_api (Users.page filter).
Proof. page_safe. Qed.
Lemma groups_safe : only_api Groups.page.
Proof. page_safe. Qed.
Lemma templates_safe : only_api Templates.page.
Proof. page_safe. Qed.
Lemma nodes_safe : only_api Nodes.page.
Proof. page_safe. Qed.
Lemma rules_safe : only_api ResponseRules.page.
Proof. page_safe. Qed.
Lemma settings_safe : only_api Settings.page.
Proof. page_safe. Qed.
Lemma keys_safe : only_api ConfigProfiles.page.
Proof. page_safe. Qed.
Lemma devices_safe : only_api HWIDInspector.page.
Proof. page_safe. Qed.
Lemma logs_safe toLocaleString : only_api (ConnectionLogs.page toLocaleString).
Proof. page_safe. Qed.
Lemma home_safe : only_api Home.page.
Proof. page_safe. Qed.
Lemma login_safe : only_api AdminApp.page.
Proof.
  unfold AdminApp.page. split; [done|cbn [c_mount]; within_api; done| |done].
  intros s [[|v]] _; cbn [c_handle]; unfold AdminApp.handle, Login.handle, Login.handleSubmit, Login.set;
    cbv beta iota delta [Login.onLogin Login.modify_login AdminApp.app_login_host]; within_api; done.
Qed.
End Pages.

(** In every reachable configuration. *)
Definition stays_in_panel `{BuildEnv} `{Matcher} {S A} (C : component S A) : Prop :=
  forall c, reachable C c ->
    Forall api_request (sent (log c)) /\
    (forall p replace, OCall (CNavigate p replace) ∈ log c -> declared p).

Lemma safe_stays `{BuildEnv} `{Matcher} {S A} (C : component S A) :
  behaves C (fun _ => True) (panel_obs declared) -> stays_in_panel C.
Proof.
  intros HC c Hr. destruct (reachable_within C _ _ HC c Hr) as [_ _ Hlog].
  rewrite Forall_forall in Hlog. split.
  - apply Forall_forall. unfold sent. intros r Hin.
    apply list_elem_of_omap in Hin as ([cm|rq|e] & Hin & [= <-]). by apply Hlog in Hin.
  - intros p b Hin. by apply Hlog in Hin.
Qed.

(** In every reachable state of every page of the panel, whatever the
    user does and the server answers: each request sent so far went to an
    address under the API prefix and was made by the wrapper (its headers are
    the caller's with the one token header set over them), and each navigation
    went to a location the route table has a page for. *)
Theorem panel_stays_in_panel `{BuildEnv} `{MatcherLaws} (filter : val) (toLocaleString : Z -> string) :
  stays_in_panel (Users.page filter) /\ stays_in_panel Groups.page /\
  stays_in_panel Templates.page /\ stays_in_panel Nodes.page /\
  stays_in_panel ResponseRules.page /\ stays_in_panel Settings.page /\
  stays_in_panel ConfigProfiles.page /\ stays_in_panel HWIDInspector.page /\
  stays_in_panel (ConnectionLogs.page toLocaleString) /\ stays_in_panel Home.page /\
  stays_in_panel AdminApp.page.
Proof.
  pose proof (users_safe filter). pose proof (logs_safe toLocaleString).
  repeat match goal with |- _ /\ _ => split end; apply safe_stays;
    auto using groups_safe, templates_safe, nodes_safe, rules_safe, settings_safe,
      keys_safe, devices_safe, home_safe, login_safe.
Qed.
