(* ===== verification/Shell.v ===== *)
(** * The frame around the pages ([components/Layout.tsx], [Header.tsx],
    [Sidebar.tsx], [GlobalSearch.tsx]) *)
From S2P Require Import Prelude JsStr JsNum JsVal React Effects Logic Api RouterMachine.
From S2P Require AdminApp.
Local Open Scope string_scope.
Local Open Scope js_scope.

(** ** The header *)

Inductive header_action : Type :=
| OnSearchOpen.

Definition Header : jsx header_action :=
  el "header" ["className" =: "h-16 border-b border-border bg-card flex items-center justify-between px-6"] [
    el "button" ["onClick" =! OnSearchOpen;
       "className" =: "flex items-center gap-2 px-4 py-2 rounded-lg bg-input text-muted-foreground hover:bg-muted transition-colors"] [
      el "Search" ["className" =: "w-4 h-4"] [];
      el "span" ["className" =: "text-sm"] [txt "Search users, configs..."];
      el "kbd" ["className" =: "ml-auto text-xs bg-muted px-2 py-1 rounded"] [txt "⌘K"]];
    el "div" ["className" =: "flex items-center gap-2"] [
      el "button" ["className" =: "p-2 rounded-lg hover:bg-muted transition-colors relative"] [
        el "Bell" ["className" =: "w-5 h-5"] [];
        el "span" ["className" =: "absolute top-1 right-1 w-2 h-2 bg-destructive rounded-full"] []];
      el "button" ["className" =: "p-2 rounded-lg hover:bg-muted transition-colors"] [
        el "Globe" ["className" =: "w-5 h-5"] []];
      el "button" ["className" =: "p-2 rounded-lg hover:bg-destructive/20 text-destructive transition-colors"] [
        el "LogOut" ["className" =: "w-5 h-5"] []]]].

(** ** The sidebar *)

Record nav_item := NavItem { icon : string; label : string; to : string }.
Record nav_section := NavSection { title : string; items : list nav_item }.

Definition sections : list nav_section :=
  [NavSection "ОБЗОР" [NavItem "Home" "Главная" "/"];
   NavSection "УПРАВЛЕНИЕ"
     [NavItem "Users" "Клиенты" "/users";
      NavItem "Users2" "Группы" "/groups";
      NavItem "FileText" "Шаблоны конфигов" "/config-profiles";
      NavItem "Server" "Серверы (Узлы)" "/nodes"];
   NavSection "ПОДПИСКИ"
     [NavItem "CreditCard" "Тарифы" "/templates";
      NavItem "FileCheck" "Правила биллинга" "/response-rules"];
   NavSection "ИНСТРУМЕНТЫ"
     [NavItem "Shield" "Контроль устройств" "/hwid-inspector";
      NavItem "Activity" "Логи подключений" "/connection-logs"];
   NavSection "СИСТЕМА" [NavItem "Settings" "Настройки" "/settings"]].

(** [({ isActive }) => ...]. *)
Definition nav_class (props : val) : res val :=
  tpl ["flex items-center gap-3 px-3 py-2 rounded-lg transition-colors ";
       jcond (props ~> "isActive") "bg-primary text-primary-foreground"
             "text-sidebar-foreground hover:bg-sidebar-accent"].

Definition nav_link {A} (item : nav_item) : jsx A :=
  el "NavLink" ["key" =: (to item); "to" =: (to item); fn "className" nav_class] [
    elV ((VComp (icon item))) ["className" =: "w-4 h-4"] [];
    el "span" ["className" =: "text-sm"] [put (label item)]].

Definition Sidebar {A} : jsx A :=
  el "aside" ["className" =: "w-64 bg-sidebar border-r border-sidebar-border flex flex-col"] [
    el "div" ["className" =: "p-6 border-b border-sidebar-border"] [
      el "h1" ["className" =: "text-xl font-bold text-primary"] [txt "ShadeVPN"];
      el "p" ["className" =: "text-xs text-muted-foreground mt-1"] [txt "Админ Панель v2.0"]];
    el "nav" ["className" =: "flex-1 overflow-y-auto p-4 space-y-6"] [
      each_in sections (fun _ section =>
        el "div" ["key" =: (title section)] [
          el "h2" ["className" =: "text-xs font-semibold text-muted-foreground mb-2 px-3"] [
            put (title section)];
          el "div" ["className" =: "space-y-1"] [
            each_in (items section) (fun _ item =>
              nav_link item)]])]].

(** ** Global search *)

Inductive search_action : Type :=
| OnOpenChange (open : bool)
| KeyDown (e : event).

(** The [keydown] listener the search registers on the document. *)
Definition is_shortcut (e : event) : bool :=
  String.eqb (ev_key e) "k" && (ev_meta e || ev_ctrl e).

Section GlobalSearch.
Context {S : Type} (onOpenChange : bool -> prog S unit).
Definition down (open : bool) (e : event) : prog S unit :=
  if is_shortcut e then
    do! do_ CPreventDefault in
    onOpenChange (negb open)
  else skip.
Definition search_handle (open : bool) (a : search_action) : prog S unit :=
  match a with
  | OnOpenChange b => onOpenChange b
  | KeyDown e => down open e
  end.
End GlobalSearch.

Definition search_dialog : jsx search_action :=
  el "div" ["className" =: "fixed inset-0 bg-black/50 flex items-start justify-center pt-20 z-50"] [
    el "Command" ["className" =: "w-full max-w-2xl bg-card border border-border rounded-lg shadow-2xl"] [
      el "div" ["className" =: "flex items-center border-b border-border px-4"] [
        el "Search" ["className" =: "w-5 h-5 text-muted-foreground"] [];
        el "Command.Input" ["placeholder" =: "Search users, configs, nodes...";
           "className" =: "w-full px-4 py-4 bg-transparent outline-none text-foreground placeholder:text-muted-foreground"] [];
        el "button" ["onClick" =! OnOpenChange false; "className" =: "p-1 hover:bg-muted rounded"] [
          el "X" ["className" =: "w-5 h-5"] []]];
      el "Command.List" ["className" =: "max-h-96 overflow-y-auto p-2"] [
        el "Command.Empty" ["className" =: "py-6 text-center text-sm text-muted-foreground"] [
          txt "No results found."];
        el "Command.Group" ["heading" =: "Users"; "className" =: "text-muted-foreground text-xs px-2 py-1"] [
          el "Command.Item" ["className" =: "px-4 py-2 rounded hover:bg-muted cursor-pointer"] [
            txt "user_premium_001"];
          el "Command.Item" ["className" =: "px-4 py-2 rounded hover:bg-muted cursor-pointer"] [
            txt "user_family_vip"]];
        el "Command.Group" ["heading" =: "Nodes";
           "className" =: "text-muted-foreground text-xs px-2 py-1 mt-2"] [
          el "Command.Item" ["className" =: "px-4 py-2 rounded hover:bg-muted cursor-pointer"] [
            txt "node-eu-01 (Amsterdam)"];
          el "Command.Item" ["className" =: "px-4 py-2 rounded hover:bg-muted cursor-pointer"] [
            txt "node-us-02 (New York)"]]]]].

Definition GlobalSearch (open : bool) : jsx search_action :=
  if negb open then nothing else search_dialog.

(** ** The layout *)

Record state := State { searchOpen : bool }.
Definition init_state : state := State false.

Inductive action : Type :=
| HeaderAction (a : header_action)
| SearchAction (a : search_action).

Definition setSearchOpen (b : bool) : prog state unit := upd (fun _ => State b).

Definition handle (s : state) (a : action) : prog state unit :=
  match a with
  | HeaderAction OnSearchOpen => setSearchOpen true
  | SearchAction b => search_handle setSearchOpen (searchOpen s) b
  end.

Definition layout : component state action :=
  Component init_state skip handle (fun _ _ => skip).

Definition Layout (s : state) : jsx action :=
  el "div" ["className" =: "flex h-screen bg-background text-foreground overflow-hidden"] [
    Sidebar;
    el "div" ["className" =: "flex-1 flex flex-col overflow-hidden"] [
      embed HeaderAction Header;
      el "main" ["className" =: "flex-1 overflow-auto p-6"] [
        el "Outlet" [] []]];
    embed SearchAction (GlobalSearch (searchOpen s))].

(** ** The menu against the route table, the search dialog *)

(** Every link of the menu has a page. *)
Lemma link_resolved `{MatcherLaws} l : l ∈ map to (flat_map items sections) -> is_Some (AdminApp.resolve l).
Proof.
  intros Hl. assert (l ∈ map AdminApp.full_path AdminApp.children) as (r & -> & Hr)%list_elem_of_fmap
    by (revert Hl; rewrite !list_elem_of_In; cbn; tauto).
  by rewrite AdminApp.resolve_path.
Qed.

(** The menu and the route table agree: the menu links to every page of
    the table exactly once and to nothing else, so no page is out of reach and
    no link is dead. *)
Theorem menu_covers_routes `{MatcherLaws} :
  exists ns links,
    (Sidebar : jsx action) = Ok ns /\
    map (attr_val "to") (find_all (has_tag "NavLink") ns) = map (fun l => Some (VStr l)) links /\
    links ≡ₚ map AdminApp.full_path AdminApp.children /\ NoDup links /\
    Forall (fun l => is_Some (AdminApp.resolve l)) links.
Proof.
  eexists _, (map to (flat_map items sections)). split; [reflexivity|]. split; [reflexivity|].
  assert (NoDup (map to (flat_map items sections))) as Hnd
    by (apply (bool_decide_unpack _); vm_compute; exact I).
  split; [|split; [done|]].
  - apply NoDup_Permutation; [done|apply (bool_decide_unpack _); vm_compute; exact I|].
    intros x. rewrite !list_elem_of_In. cbn. tauto.
  - apply Forall_forall. intros l. apply link_resolved.
Qed.

(** What the search adds to the layout. *)
Definition dialog_open (s : state) : Prop :=
  exists ns, Layout s = Ok ns /\ length (find_all (has_tag "Command") ns) = 1.
Definition dialog_closed (s : state) : Prop :=
  exists ns, Layout s = Ok ns /\ find_all (has_tag "Command") ns = [].

(** The search dialog: the layout always renders and shows the dialog iff
    the search is open; Ctrl+K and Cmd+K toggle it and suppress the browser's
    own shortcut, any other key press changes nothing and is left to the
    browser; the search button of the header opens it and the dialog's cross,
    its only clickable element, closes it. *)
Theorem search_dialog_toggles io (c : conf state) :
  (if searchOpen (st c) then dialog_open (st c) else dialog_closed (st c)) /\
  (forall e,
    let c' := event_step layout io (SearchAction (KeyDown e)) c in
    if is_shortcut e
    then searchOpen (st c') = negb (searchOpen (st c)) /\ log c' = (log c ++ [OCall CPreventDefault])%list
    else c' = c) /\
  (forall e, exists ns, Layout (st c) = Ok ns /\
     clicks e ns =
       (None, Some (HeaderAction OnSearchOpen)) ::
       (if searchOpen (st c) then [(None, Some (SearchAction (OnOpenChange false)))] else [])) /\
  st (event_step layout io (HeaderAction OnSearchOpen) c) = State true /\
  st (event_step layout io (SearchAction (OnOpenChange false)) c) = State false.
Proof.
  destruct c as [[open] sto pn nx lg]. cbn [st searchOpen]. split; [|split; [|split; [|done]]].
  - destruct open; eexists; (split; [reflexivity|reflexivity]).
  - intros e. unfold event_step, commit_after. cbn. unfold down.
    destruct (is_shortcut e); done.
  - intros e. destruct open; eexists; (split; [reflexivity|reflexivity]).
Qed.
