(* ===== verification/Token.v ===== *)
(** * The admin token, from the login form to a 401

    The login form stores the password as the token, the entry of the panel
    reads it at every start, the wrapper sends it with every request and drops
    it on a 401; no page touches the rest of the storage. *)
From S2P Require Import Prelude JsStr JsNum JsVal React Effects Logic Storage Api.
From S2P Require Users Groups Templates Nodes ResponseRules Settings ConfigProfiles HWIDInspector ConnectionLogs Home Login AdminApp Shell.
Local Open Scope string_scope.

(** A page may forget the token; only the login form stores one. *)
Definition drops_token (o : obs) : Prop :=
  match o with OCall (CSetItem _ _) => False | OCall (CRemoveItem k) => k = token_key | _ => True end.
Definition token_only (o : obs) : Prop :=
  match o with OCall (CSetItem k _) | OCall (CRemoveItem k) => k = token_key | _ => True end.

(** The wrapper under any property of calls that allows what it does. *)
Class AllowsWrapper (R : obs -> Prop) : Prop := {
  allows_send : forall r, R (OSend r);
  allows_read : R (OCall (CGetItem token_key));
  allows_href : R (OCall CHref);
  allows_drop : R (OCall (CRemoveItem token_key));
  allows_reload : R (OCall CReload);
}.
#[export] Instance drops_token_wrapper : AllowsWrapper drops_token.
Proof. by split. Qed.
#[export] Instance token_only_wrapper : AllowsWrapper token_only.
Proof. by split. Qed.

Section Wrapper.
Context {S : Type} (I : S -> Prop) (R : obs -> Prop) `{!AllowsWrapper R}.

Lemma within_wrapper url i : within I R (fetch url i).
Proof.
  unfold fetch. apply within_bind; [apply within_call, allows_read|intros tok].
  apply within_bind; [apply within_lift|intros token].
  apply within_bind; [split; [apply allows_send|intros v; apply within_lift]|intros r].
  apply within_bind; [|done]. unfold on_response. case_match; [|done].
  apply within_bind; [apply within_call, allows_href|intros href]. case_match; [done|].
  apply within_bind; [apply within_do, allows_drop|intros _]. apply within_do, allows_reload.
Qed.

Lemma within_refresh url set : (forall v s, I s -> I (set v s)) -> within I R (fetch_into url set).
Proof.
  intros Hset. apply within_forget, within_bind; [apply within_wrapper|intros r].
  apply within_bind; [apply within_json|intros v]. by apply within_upd, Hset.
Qed.
End Wrapper.

Ltac token_step :=
  repeat
    (cbv beta;
     lazymatch goal with
     | |- within _ _ (fetch _ _) => apply within_wrapper; apply _
     | |- within _ _ (fetch_into _ _) => apply within_refresh; [apply _|done]
     | |- within _ _ ?p => first [within_step | let h := head_of p in unfold h]
     end); try done.
Ltac page_token :=
  match goal with |- behaves ?C _ _ => let h := head_of C in unfold h end; split;
  [done|cbn [c_mount]; token_step
  |intros s a _; cbn [c_handle]; destruct a; token_step
  |done].

Section Panel.
Context `{BuildEnv}.
Local Abbreviation drops C := (behaves C (fun _ => True) drops_token).

Lemma users_token filter : drops (Users.page filter).
Proof. page_token. Qed.
Lemma groups_token : drops Groups.page.
Proof. page_token. Qed.
Lemma templates_token : drops Templates.page.
Proof. page_token. Qed.
Lemma nodes_token : drops Nodes.page.
Proof. page_token. Qed.
Lemma rules_token : drops ResponseRules.page.
Proof. page_token. Qed.
Lemma settings_token : drops Settings.page.
Proof. page_token. Qed.
Lemma keys_token : drops ConfigProfiles.page.
Proof. page_token. Qed.
Lemma devices_token : drops HWIDInspector.page.
Proof. page_token. Qed.
Lemma logs_token toLocaleString : drops (ConnectionLogs.page toLocaleString).
Proof. page_token. Qed.
Lemma dashboard_token : drops Home.page.
Proof. page_token. Qed.
Lemma layout_token : drops Shell.layout.
Proof. page_token. Qed.
Lemma login_token : behaves AdminApp.page (fun _ => True) token_only.
Proof.
  unfold AdminApp.page. split; [done|cbn [c_mount]; token_step| |done].
  intros s [[|v]] _; cbn [c_handle]; unfold AdminApp.handle, Login.handle, Login.handleSubmit, Login.set;
    cbv beta iota delta [Login.onLogin Login.modify_login AdminApp.app_login_host]; token_step.
Qed.
End Panel.

(** ** The life of the token *)

(** The panel opens, or shows the login form, when it is started on a storage. *)
Definition opens `{BuildEnv} (s : gmap string string) (b : bool) : Prop :=
  forall io, AdminApp.isAuthenticated (st (boot AdminApp.page io s)) = b.

Lemma opens_token `{BuildEnv} s : opens s (str_truthy (stored_token s)).
Proof. intros io. unfold stored_token. cbn. by destruct (s !! token_key). Qed.

(** A page that leaves the storage alone but for forgetting the token. *)
Definition keeps_storage {S A} (C : component S A) : Prop :=
  forall io s0 c, rtc (step C) (boot C io s0) c -> store c = s0 \/ store c = delete token_key s0.

Lemma drops_keeps {S A} (C : component S A) :
  behaves C (fun _ => True) drops_token -> keeps_storage C.
Proof.
  intros HC io s0 c.
  apply (store_invariant C (fun s => s = s0 \/ s = delete token_key s0) drops_token); [done| |by left].
  intros [[]| |] sto Ho Hs; try done. cbn in Ho. subst k. right. cbn.
  destruct Hs as [->| ->]; [done|]. apply delete_delete_eq.
Qed.

(** C24. The life of the admin token.  A 2xx answer to the login form stores
    the password: every later request carries it, and the panel opens at the
    next start unless the password is empty.  A 401 answered outside the login
    address removes it, and the next start shows the login form.  No page
    touches the storage otherwise: it stays as it was at the start or loses
    the token, and even the login form changes no other item. *)
Theorem token_lifecycle `{BuildEnv} (filter : val) (toLocaleString : Z -> string) :
  (forall io c, exists K c1,
     let pw := Login.password (AdminApp.login (st c)) in
     event_step AdminApp.page io (AdminApp.LoginAction Login.HandleSubmit) c =
       push (Waiting (QFetch (AdminApp.login_request (stored_token (store c)) pw)) K) c1 /\
     forall io' r c', r_ok r = true ->
       let s := store (run io' (K (Ok r)) c') in
       (forall url i, assoc token_header (rq_headers (wrapped (stored_token s) url i)) = Some pw) /\
       opens s (str_truthy pw)) /\
  (forall {S} io r (c : conf S), r_status r = 401%Z -> includes (in_href io) "login" = false ->
     opens (store (after_401 io r c)) false) /\
  (keeps_storage (Users.page filter) /\ keeps_storage Groups.page /\ keeps_storage Templates.page /\
   keeps_storage Nodes.page /\ keeps_storage ResponseRules.page /\ keeps_storage Settings.page /\
   keeps_storage ConfigProfiles.page /\ keeps_storage HWIDInspector.page /\
   keeps_storage (ConnectionLogs.page toLocaleString) /\ keeps_storage Home.page /\
   keeps_storage Shell.layout) /\
  (forall io s0 c, rtc (step AdminApp.page) (boot AdminApp.page io s0) c ->
     delete token_key (store c) = delete token_key s0).
Proof.
  split; [|split; [|split]].
  - intros io c. destruct (AdminApp.login_submits io c) as (K & c1 & He & _ & _ & Hok & _).
    exists K, c1. cbn zeta. split; [exact He|]. intros io' r c' Hr. rewrite (Hok io' r c' Hr). split.
    + intros url i. cbn [wrapped rq_headers]. rewrite assoc_merge by apply NoDup_singleton.
      unfold stored_token. cbn. by rewrite lookup_insert_eq.
    + set (s := store _). pose proof (opens_token s) as Ho.
      replace (stored_token s) with (Login.password (AdminApp.login (st c))) in Ho; [done|].
      unfold stored_token, s. cbn. by rewrite lookup_insert_eq.
  - intros S io r c Hr Hl. set (s := store _). pose proof (opens_token s) as Ho.
    replace (stored_token s) with "" in Ho; [done|].
    unfold stored_token, s, after_401. rewrite Hr. cbn. rewrite Hl. cbn. by rewrite lookup_delete_eq.
  - pose proof (users_token filter). pose proof (logs_token toLocaleString).
    repeat match goal with |- _ /\ _ => split end; apply drops_keeps;
      auto using groups_token, templates_token, nodes_token, rules_token, settings_token,
        keys_token, devices_token, dashboard_token, layout_token.
  - intros io s0 c. apply (store_invariant AdminApp.page
      (fun s => delete token_key s = delete token_key s0) token_only); [apply login_token| |done].
    intros [[]| |] sto Ho Hs; try done; cbn in Ho |- *; subst k.
    + by rewrite delete_insert_eq.
    + by rewrite delete_delete_eq.
Qed.

Lemma token_lifecycle_witness :
  let c := boot (Users.page (H:=false) VNull) quiet_browser (<[token_key := "secret"]> ∅) in
  opens (H:=false) (store c) true /\
  opens (H:=false) (store (after_401 quiet_browser (Response 401 (Ok VNull)) c)) false.
Proof.
  cbn zeta. split; [apply (opens_token (H:=false))|].
  destruct (token_lifecycle (H:=false) VNull (fun _ => "")) as (_ & H401 & _).
  by apply H401.
Defined.
