(* ===== verification/PanelViews.v ===== *)
(** * What the pages of the panel show

    On records of the shapes in [Promises], each page renders, and its
    clickable elements are the listed ones, in document order, each wired to
    the listed handler.  [finds] composes: a lemma per row or card, one per
    page.  ([UsersRender] does the same for the clients page.) *)
From S2P Require Import Prelude JsStr JsNum JsVal Ints React Effects Logic Api Typed Promises.
From S2P Require Groups Templates Nodes ResponseRules Settings ConfigProfiles HWIDInspector ConnectionLogs Home.
Local Open Scope string_scope.
Local Open Scope js_scope.

(** Elements without a title that do [l]. *)
Definition untitled {A} (l : list A) : list (option val * option A) := map (fun a => (None, Some a)) l.
(** [l.length === 0], as the pages test it. *)
Definition no_items (l : list val) : bool := strict_eq (int (Z.of_nat (length l))) (int 0).

Section Clicks.
Context (e : event).
Local Abbreviation found := (finds clickable (fun n => (attr_val "title" n, fire "onClick" e n))).
Lemma falsy_scalar v : truthy v = false -> scalar v = true.
Proof. by destruct v. Qed.

(** A note that appears or not, and does nothing. *)
Lemma note_found {A} (c : expr) (j : jsx A) :
  (exists v, c = Ok v /\ scalar v = true) -> found j [] -> found (show c j) [].
Proof.
  intros (v & -> & Hv) Hj. eapply finds_eq; [by apply finds_show; [exact _|intros _|intros _; exact Hj]|].
  by destruct (truthy v).
Qed.
Lemma empty_note_found {A} (l : list val) (b : bool) (j : jsx A) :
  found j [] -> found (show (((lit (VArr l)) ~> "length" === int 0) &&& (jnot b)) j) [].
Proof. apply note_found. js_value. Qed.

Ltac view_found := eapply finds_eq; [render|cbn; repeat case_match; done].

(** ** Tariffs *)
Section Tariffs.
Import Templates.
Lemma durationLabel_value d : exists v, durationLabel (Ok d) = Ok v /\ scalar v = true.
Proof. unfold durationLabel, jfloor_div. js_value. Qed.

Definition tariff_clicks (t : val) : list (option val * option action) := untitled [HandleDelete (t ~> "id")].
Lemma tariff_found t : tariff_ok t = true -> found (template_card t) (tariff_clicks t).
Proof.
  intros H. shape H. destruct t as [| | | | | |fs|]; try done. cbn [field] in *. unfold template_card.
  eapply finds_eq; [render|done]. apply durationLabel_value.
Qed.

Definition tariffs_clicks (s : state) (ts : list val) : list (option val * option action) :=
  (untitled [OpenForm] ++ (if showForm s then untitled [HandleCreate; CloseForm] else []) ++
   concat (map tariff_clicks ts))%list.
Lemma tariffs_found s ts :
  templates s = VArr ts -> forallb tariff_ok ts = true -> found (view s) (tariffs_clicks s ts).
Proof.
  intros Hl Hts. unfold view, template_form, tariffs_clicks. rewrite Hl.
  pose proof (finds_rows _ _ (lit (VArr ts)) ts tariff_ok (fun _ => template_card) tariff_clicks
    eq_refl Hts (fun _ => tariff_found)) as Hr.
  eapply finds_eq; [render|].
  { apply empty_note_found. view_found. }
  cbn. by destruct (showForm s); rewrite ?app_nil_r.
Qed.
End Tariffs.

(** ** Servers *)
Section Servers.
Import Nodes.
Definition node_clicks (n : val) : list (option val * option action) := untitled [HandleDelete (n ~> "id")].
Lemma node_found n : node_ok n = true -> found (node_card n) (node_clicks n).
Proof.
  intros H. shape H. destruct n as [| | | | | |fs|]; try done. cbn [field] in *. unfold node_card.
  eapply finds_eq; [render|done].
Qed.

Definition nodes_clicks (s : state) (ns : list val) : list (option val * option action) :=
  (untitled [OpenForm] ++ (if showForm s then untitled [HandleCreate; CloseForm] else []) ++
   concat (map node_clicks ns))%list.
Lemma nodes_found s ns :
  nodes s = VArr ns -> forallb node_ok ns = true -> found (view s) (nodes_clicks s ns).
Proof.
  intros Hl Hns. unfold view, node_form, nodes_clicks. rewrite Hl.
  pose proof (finds_rows _ _ (lit (VArr ns)) ns node_ok (fun _ => node_card) node_clicks
    eq_refl Hns (fun _ => node_found)) as Hr.
  eapply finds_eq; [render|].
  { apply empty_note_found. view_found. }
  cbn. by destruct (showForm s); rewrite ?app_nil_r.
Qed.
End Servers.

(** ** Billing rules *)
Section Rules.
Import ResponseRules.
Definition rule_clicks (r : val) : list (option val * option action) :=
  untitled [ToggleRule (r ~> "id") (r ~> "enabled"); DeleteRule (r ~> "id")].
Lemma rule_found r : rule_ok r = true -> found (rule_card r) (rule_clicks r).
Proof.
  intros H. shape H. destruct r as [| | | | | |fs|]; try done. cbn [field] in *. unfold rule_card.
  eapply finds_eq; [render|]. cbn. by case_match.
Qed.

Definition rules_clicks (s : state) (rs : list val) : list (option val * option action) :=
  (untitled [OpenForm] ++ (if showForm s then untitled [HandleCreate; CloseForm] else []) ++
   concat (map rule_clicks rs))%list.
Lemma rules_found s rs :
  rules s = VArr rs -> forallb rule_ok rs = true -> found (view s) (rules_clicks s rs).
Proof.
  intros Hl Hrs. unfold view, rule_form, rules_clicks. rewrite Hl.
  pose proof (finds_rows _ _ (lit (VArr rs)) rs rule_ok (fun _ => rule_card) rule_clicks
    eq_refl Hrs (fun _ => rule_found)) as Hr.
  eapply finds_eq; [render|].
  { apply empty_note_found. view_found. }
  cbn. by destruct (showForm s); rewrite ?app_nil_r.
Qed.
End Rules.

(** ** Settings *)
Section Settings.
Context `{BuildEnv}.
Import Settings.
Lemma settings_found s :
  is_obj (settings s) = true -> found (view s) (untitled [SaveBot; SaveServer]).
Proof.
  intros Ho. unfold view, backup_section, bot_section, server_section, security_section.
  destruct s as [x sv]; cbn [settings saved] in *. destruct x as [| | | | | |fs|]; try done.
  eapply finds_eq; [render|]. cbn. by destruct sv.
Qed.
End Settings.

(** ** Connection keys *)
Section Keys.
Import ConfigProfiles.
Definition key_clicks (c : val) : list (option val * option action) :=
  untitled [CopyKey (c ~> "shadeLink") (c ~> "username")].
Lemma key_row_found s c : client_ok c = true -> found (key_row s c) (key_clicks c).
Proof.
  intros H. shape H. destruct c as [| | | | | |fs|]; try done. cbn [field] in *. unfold key_row.
  eapply finds_eq; [render|done].
Qed.
Lemma keys_found s cs :
  clients s = VArr cs -> forallb client_ok cs = true ->
  found (view s) (untitled [Load] ++ concat (map key_clicks cs))%list.
Proof.
  intros Hl Hcs. unfold view, key_head. rewrite Hl.
  pose proof (finds_rows _ _ (lit (VArr cs)) cs client_ok (fun _ => key_row s) key_clicks
    eq_refl Hcs (fun _ => key_row_found s)) as Hr.
  eapply finds_eq; [render|]. cbn [concat app]. by case_match; rewrite !app_nil_r.
Qed.
End Keys.

(** ** Devices *)
Section Devices.
Import HWIDInspector.
Lemma device_found c : client_ok c = true -> found (device_row c) [].
Proof.
  intros H. shape H. destruct c as [| | | | | |fs|]; try done. cbn [field] in *. unfold device_row.
  eapply finds_eq; [render|]. cbn. by case_match.
Qed.

(** The clients that are on line, as the page counts them. *)
Definition online (cs : list val) : list val :=
  List.filter (fun c => strict_eq (field "status" c) "online") cs.
Lemma safe_value s cs :
  clients s = VArr cs -> forallb client_ok cs = true -> safe s = Ok (int (Z.of_nat (length (online cs)))).
Proof.
  intros Hl Hcs. unfold safe. rewrite Hl.
  rewrite (jfilter_eq _ _ (fun c => strict_eq (field "status" c) "online")); [done|].
  apply Forall_forall. intros c Hc. rewrite forallb_forall in Hcs.
  specialize (Hcs c (proj1 (list_elem_of_In _ _) Hc)). shape Hcs. unfold jeq.
  by rewrite jget_field.
Qed.

Lemma devices_found s cs :
  clients s = VArr cs -> forallb client_ok cs = true -> found (view s) (untitled [Load]).
Proof.
  intros Hl Hcs. pose proof (safe_value s cs Hl Hcs) as Hsafe.
  unfold view, device_head, counters, suspicious, total. rewrite Hl, Hsafe.
  pose proof (finds_options _ _ (lit (VArr cs)) cs client_ok (fun _ => device_row)
    eq_refl Hcs (fun _ => device_found)) as Hr.
  eapply finds_eq; [render|]. cbn [concat app]. by case_match.
Qed.
End Devices.

(** ** Connection log *)
Section Logs.
Import ConnectionLogs.
Definition line_ok (l : val) : bool :=
  is_obj l && fields_scalar ["timestamp"; "client"; "event"; "ip"] l.
Lemma line_found l : line_ok l = true -> found (log_line l) [].
Proof.
  unfold line_ok. intros H. shape H. destruct l as [| | | | | |fs|]; try done. cbn [field] in *. unfold log_line.
  eapply finds_eq; [render|done].
Qed.
Lemma logs_found s ls :
  logs s = VArr ls -> forallb line_ok ls = true -> found (view s) (untitled [GenerateLogs]).
Proof.
  intros Hl Hls. unfold view, log_head. rewrite Hl.
  pose proof (finds_options _ _ (lit (VArr ls)) ls line_ok (fun _ => log_line)
    eq_refl Hls (fun _ => line_found)) as Hr.
  eapply finds_eq; [render|]. done.
Qed.
End Logs.

(** ** Groups *)
Section Groups.
Import Groups.
Definition group_clicks (g : val) : list (option val * option action) :=
  [(None, Some (OpenGroup (g ~> "id"))); (None, Some StopPropagation);
   (Some (VStr "Добавить клиентов"), Some (OpenAssignPanel (g ~> "id")));
   (Some (VStr "Редактировать"), Some (StartEdit g));
   (Some (VStr "Удалить"), Some (HandleDelete (g ~> "id")))].
Lemma group_found g : group_ok g = true -> found (group_card g) (group_clicks g).
Proof.
  intros H. shape H. destruct g as [| | | | | |fs|]; try done. cbn [field] in *. unfold group_card.
  eapply finds_eq; [render|done].
Qed.
Lemma option_found s c : client_ok c = true -> found (client_option s c) [].
Proof.
  intros H. shape H. destruct c as [| | | | | |fs|]; try done. cbn [field] in *. unfold client_option.
  eapply finds_eq; [render|done].
Qed.
Lemma group_form_found s : found (group_form s) (untitled [HandleCreate; CancelForm]).
Proof. unfold group_form. view_found. Qed.

Definition assign_clicks (s : state) (cs : list val) : list (option val * option action) :=
  (untitled [CloseAssign] ++
   if no_items cs then []
   else [(None, if no_items (selectedClients s) then None else Some HandleAssign); (None, Some CloseAssign)])%list.
Lemma assign_found s gs cs :
  groups s = VArr gs -> forallb group_ok gs = true -> clients s = VArr cs -> forallb client_ok cs = true ->
  found (assign_panel s) (assign_clicks s cs).
Proof.
  intros Hg Hgs Hc Hcs. unfold assign_panel, assign_clicks. rewrite Hg, Hc.
  rewrite (jfind_eq _ _ (fun g => strict_eq (field "id" g) (assignGroupId s))).
  2: { apply Forall_forall. intros g Hin. rewrite forallb_forall in Hgs.
       specialize (Hgs g (proj1 (list_elem_of_In _ _) Hin)). shape Hgs. unfold jeq. by rewrite jget_field. }
  pose proof (finds_options _ _ (lit (VArr cs)) cs client_ok (fun _ => client_option s)
    eq_refl Hcs (fun _ => option_found s)) as Hr.
  eapply finds_eq; [render|].
  { destruct (List.find _ gs) as [g|] eqn:E; [|by eexists].
    apply List.find_some in E as [Hin _]. rewrite forallb_forall in Hgs. specialize (Hgs g Hin).
    shape Hgs. destruct g as [| | | | | |fs|]; try done. cbn [field default] in *. by eexists. }
  unfold no_items. cbn. by repeat case_match.
Qed.

Definition groups_clicks (s : state) (gs cs : list val) : list (option val * option action) :=
  (untitled [NewGroup] ++ (if showForm s then untitled [HandleCreate; CancelForm] else []) ++
   (if truthy (assignGroupId s) then assign_clicks s cs else []) ++ concat (map group_clicks gs))%list.
Lemma groups_found s gs cs :
  groups s = VArr gs -> forallb group_ok gs = true -> clients s = VArr cs -> forallb client_ok cs = true ->
  found (view s) (groups_clicks s gs cs).
Proof.
  intros Hg Hgs Hc Hcs. pose proof (assign_found s gs cs Hg Hgs Hc Hcs) as Hp.
  pose proof (group_form_found s) as Hf. unfold view, groups_clicks. rewrite Hg.
  pose proof (finds_rows _ _ (lit (VArr gs)) gs group_ok (fun _ => group_card) group_clicks
    eq_refl Hgs (fun _ => group_found)) as Hr.
  eapply finds_eq; [render|].
  - apply falsy_scalar.
  - apply empty_note_found. view_found.
  - cbn [concat app]. rewrite !app_nil_r. cbn. by destruct (showForm s), (truthy (assignGroupId s)).
Qed.
End Groups.

(** ** Dashboard *)
Section Dashboard.
Import Home.
Definition known (ok : val -> bool) (v : val) : bool := match v with VNull => true | _ => ok v end.
Lemma count_value d f : known (fun d => is_obj d && scalar (field f d)) d = true ->
  exists v, count_of d f = Ok v /\ scalar v = true.
Proof.
  destruct d as [| | | | | |fs|]; try done; cbn [known field]; intros H.
  - unfold count_of. js_value.
  - apply andb_true_iff in H as [_ H]. unfold count_of. js_value.
Qed.
Lemma format_value n : exists v, formatBytes (Ok (VNum n)) = Ok v /\ scalar v = true.
Proof. unfold formatBytes. js_value. Qed.
Lemma bytes_value d f : known (fun d => is_obj d && is_num (field f d)) d = true ->
  exists v, formatBytes (count_of d f) = Ok v /\ scalar v = true.
Proof.
  intros H. assert (exists n, count_of d f = Ok (VNum n)) as [n ->]; [|apply format_value].
  destruct d as [| | | | | |fs|]; try done; cbn [known field] in H; [by eexists|].
  apply andb_true_iff in H as [_ H]. unfold count_of. cbn.
  destruct (default VUndef (assoc f fs)) as [| | |n| | | |]; try done. cbn. destruct (negb _); by eexists.
Qed.

(** The cards the page builds: objects with a component for an icon. *)
Definition card_ok (texts : list string) (c : val) : bool :=
  is_obj c && fields_scalar texts c && match field "icon" c with VComp _ => true | _ => false end.

Lemma system_cards s : known sys_ok (sys s) = true ->
  exists l, systemCards s = Ok (VArr l) /\ forallb (card_ok ["label"; "value"; "sub"]) l = true.
Proof.
  intros H. unfold systemCards. destruct (sys s) as [| | | | | |fs|]; try done; [by eexists|].
  cbn [known] in H. shape H. cbn [field] in *.
  assert (exists v, ((lit (VObj fs)) ?> "uptime_human") ||| "—" = Ok v /\ scalar v = true) as (v & -> & Hv).
  { by js_value. }
  eexists. split; [reflexivity|]. unfold card_ok, fields_scalar. cbn -[scalar]. cbn. by rewrite Hv.
Qed.
Lemma system_card_found i c : card_ok ["label"; "value"; "sub"] c = true -> found (system_card i c) [].
Proof.
  unfold card_ok. intros H. shape H. destruct c as [| | | | | |fs|]; try done. cbn [field] in *.
  destruct (default VUndef (assoc "icon" fs)) eqn:E; try done.
  unfold system_card, elV. cbn [jget mbind res_bind get lit]. rewrite E.
  eapply finds_eq; [render|]. cbn. by case_match.
Qed.
Lemma tile_found i c : card_ok ["period"; "value"] c = true -> found (bandwidth_tile i c) [].
Proof.
  unfold card_ok. intros H. shape H. destruct c as [| | | | | |fs|]; try done. cbn [field] in *.
  destruct (default VUndef (assoc "icon" fs)) eqn:E; try done.
  unfold bandwidth_tile, elV. cbn [jget mbind res_bind get lit]. rewrite E.
  eapply finds_eq; [render|done].
Qed.
Lemma bandwidth_cards s : known summary_ok (trafficSummary s) = true ->
  exists l, bandwidthCards s = Ok (VArr l) /\ forallb (card_ok ["period"; "value"]) l = true.
Proof.
  intros H. unfold bandwidthCards, bandwidth_card.
  assert (forall f, f ∈ ["todayGB"; "last7daysGB"; "last30daysGB"; "currentMonthGB"; "currentYearGB"] ->
    exists v, formatBytes (count_of (trafficSummary s) f) = Ok v /\ scalar v = true) as Hf.
  { intros f Hin. apply bytes_value. destruct (trafficSummary s) as [| | | | | |fs|]; try done.
    cbn [known] in *. shape H. rewrite !elem_of_cons, elem_of_nil in Hin. cbn [is_obj].
    destruct Hin as [->|[->|[->|[->|[->|[]]]]]]; done. }
  destruct (Hf "todayGB") as (v1 & -> & H1); [by apply (bool_decide_unpack _)|].
  destruct (Hf "last7daysGB") as (v2 & -> & H2); [by apply (bool_decide_unpack _)|].
  destruct (Hf "last30daysGB") as (v3 & -> & H3); [by apply (bool_decide_unpack _)|].
  destruct (Hf "currentMonthGB") as (v4 & -> & H4); [by apply (bool_decide_unpack _)|].
  destruct (Hf "currentYearGB") as (v5 & -> & H5); [by apply (bool_decide_unpack _)|].
  eexists. split; [reflexivity|]. unfold card_ok, fields_scalar. cbn -[scalar]. by rewrite H1, H2, H3, H4, H5.
Qed.
Lemma sorted_clients l : forallb client_ok l = true -> exists k, sort_by_usage l = Ok k /\ k ≡ₚ l.
Proof.
  induction l as [|x l IH]; cbn [forallb sort_by_usage]; [by exists []|].
  rewrite andb_true_iff. intros [Hx Hl]. destruct (IH Hl) as (k & -> & Hp). cbn.
  assert (forallb client_ok k = true) as Hk.
  { rewrite forallb_forall in *. intros y Hy. apply Hl. apply list_elem_of_In. rewrite <- Hp. by apply list_elem_of_In. }
  assert (exists k', insert_by_usage x k = Ok k' /\ k' ≡ₚ x :: k) as (k' & Hk' & Hp').
  { clear Hp IH Hl. induction k as [|y k IHk]; cbn [insert_by_usage]; [by exists [x]|].
    cbn [forallb] in Hk. apply andb_true_iff in Hk as [Hy Hk].
    assert (exists b, usage_after x y = Ok b) as [b Hb].
    { shape Hx. shape Hy. destruct x, y; try done. by eexists. }
    rewrite Hb. cbn. destruct b; [|by eexists].
    destruct (IHk Hk) as (k' & -> & Hp'). exists (y :: k'). split; [done|]. rewrite Hp'. apply Permutation_swap. }
  exists k'. split; [done|]. by rewrite Hp', Hp.
Qed.

Lemma pct_value fs : exists n, pct (VObj fs) = Ok (VNum n).
Proof. unfold pct. js_red. case_match; by eexists. Qed.

Lemma ranked_found c : client_ok c = true -> found (client_row c) [].
Proof.
  intros H. shape H. destruct c as [| | | | | |fs|]; try done. cbn [field] in *. unfold client_row.
  destruct (default VUndef (assoc "dataUsage" fs)) as [| | |n| | | |] eqn:E; try done.
  destruct (pct_value fs) as [p Hp]. rewrite Hp.
  eapply finds_eq; [render|].
  - cbn [jget mbind res_bind get lit]. rewrite E. apply format_value.
  - unfold barColor. by js_value.
  - done.
Qed.

(** The pies: a title and slices with a name and a value. *)
Definition slice_ok (d : val) : bool := is_obj d && fields_scalar ["name"; "value"] d.
Definition pie_ok (p : val) : bool :=
  is_obj p && fields_scalar ["title"] p &&
  list_of slice_ok (field "data" p).
Lemma pies s : known dash_ok (dash s) = true ->
  exists l, pieCharts s = Ok (VArr l) /\ forallb pie_ok l = true.
Proof.
  intros H. unfold pieCharts, pie_chart, pie_slice.
  assert (forall f, f ∈ ["enabledClients"; "disabledClients"; "onlineClients"; "offlineClients"; "active24h"; "inactive24h"] ->
    exists v, count_of (dash s) f = Ok v /\ scalar v = true) as Hf.
  { intros f Hin. apply count_value. destruct (dash s) as [| | | | | |fs|]; try done.
    cbn [known] in *. shape H. rewrite !elem_of_cons, elem_of_nil in Hin. cbn [is_obj].
    destruct Hin as [->|[->|[->|[->|[->|[->|[]]]]]]]; done. }
  destruct (Hf "enabledClients") as (v1 & -> & H1); [by apply (bool_decide_unpack _)|].
  destruct (Hf "disabledClients") as (v2 & -> & H2); [by apply (bool_decide_unpack _)|].
  destruct (Hf "onlineClients") as (v3 & -> & H3); [by apply (bool_decide_unpack _)|].
  destruct (Hf "offlineClients") as (v4 & -> & H4); [by apply (bool_decide_unpack _)|].
  destruct (Hf "active24h") as (v5 & -> & H5); [by apply (bool_decide_unpack _)|].
  destruct (Hf "inactive24h") as (v6 & -> & H6); [by apply (bool_decide_unpack _)|].
  eexists. split; [reflexivity|]. unfold pie_ok, list_of, slice_ok, fields_scalar. cbn -[scalar].
  by rewrite H1, H2, H3, H4, H5, H6.
Qed.
Lemma pie_found p : pie_ok p = true -> found (pie_tile p) [].
Proof.
  unfold pie_ok. intros H. shape H. destruct p as [| | | | | |fs|]; try done. cbn [field] in *.
  destruct (list_of_inv _ _ H1) as (ds & Ed & Hds). unfold pie_tile.
  cbn [jget mbind res_bind get lit]. rewrite Ed.
  assert (forall body, (forall i d, slice_ok d = true -> found (body i d) []) ->
    found (each (A:=action) (Ok (VArr ds)) body) []) as Hrows by (intros body; by eapply finds_options).
  eapply finds_eq; [render|].
  - apply Hrows. intros i d Hd. unfold slice_ok in Hd. shape Hd. destruct d as [| | | | | |gs|]; try done.
    eapply finds_eq; [render|done].
  - apply Hrows. intros i d Hd. unfold slice_ok in Hd. shape Hd. destruct d as [| | | | | |gs|]; try done.
    cbn [field get] in *. eapply finds_eq; [render|done].
  - done.
Qed.

Lemma badges_found s : dash_ok (dash s) = true -> found (dash_badges s) [].
Proof.
  intros H. unfold dash_badges. shape H. destruct (dash s) as [| | | | | |fs|]; try done. cbn [field] in *.
  assert (forall f, scalar (default VUndef (assoc f fs)) = true -> exists v, count_of (VObj fs) f = Ok v /\ scalar v = true) as Hc.
  { intros f Hf. apply count_value. by cbn [known is_obj field]. }
  assert (forall f, is_num (default VUndef (assoc f fs)) = true -> exists v, formatBytes (count_of (VObj fs) f) = Ok v /\ scalar v = true) as Hb.
  { intros f Hf. apply bytes_value. by cbn [known is_obj field]. }
  eapply finds_eq; [render|]; auto.
Qed.

Lemma chart_found s l : chartData s = VArr l -> found (chart_section s) [].
Proof.
  intros Hl. unfold chart_section. rewrite Hl. eapply finds_eq; [render|]. cbn. by case_match.
Qed.

(** Cards, tiles, pies and rows hold nothing to click. *)
Lemma silent_rows (c : expr) l ok (body : nat -> val -> jsx action) :
  c = Ok (VArr l) -> forallb ok l = true -> (forall i v, ok v = true -> found (body i v) []) ->
  found (each c body) [].
Proof. by apply finds_options. Qed.

Record dashboard_ok (s : state) : Prop := DashboardOk {
  ok_dash : known dash_ok (dash s) = true;
  ok_sys : known sys_ok (sys s) = true;
  ok_clients : list_of client_ok (clients s) = true;
  ok_summary : known summary_ok (trafficSummary s) = true;
  ok_chart : list_of (fun _ => true) (chartData s) = true;
}.

Lemma dashboard_found s : dashboard_ok s -> found (view s) [].
Proof.
  intros [Hd Hy Hc Ht Hch].
  apply list_of_inv in Hc as (cs & Hc & Hcs). apply list_of_inv in Hch as (ch & Hch & _).
  destruct (sorted_clients cs Hcs) as (ranked & Hsort & Hperm).
  assert (sortedClients s = Ok (VArr ranked)) as Hsorted by (unfold sortedClients; rewrite Hc; cbn; by rewrite Hsort).
  assert (forallb client_ok ranked = true) as Hranked.
  { rewrite forallb_forall in *. intros y Hin. apply Hcs, list_elem_of_In. rewrite <- Hperm. by apply list_elem_of_In. }
  destruct (system_cards s Hy) as (ys & Eys & Hys). destruct (bandwidth_cards s Ht) as (bs & Ebs & Hbs).
  destruct (pies s Hd) as (ps & Eps & Hps).
  pose proof (silent_rows _ _ _ _ Eys Hys system_card_found) as R1.
  pose proof (silent_rows _ _ _ _ Ebs Hbs tile_found) as R2.
  pose proof (silent_rows _ _ _ _ Eps Hps (fun _ => pie_found)) as R3.
  pose proof (silent_rows _ _ _ _ Hsorted Hranked (fun _ => ranked_found)) as R4.
  pose proof (chart_found s ch Hch) as R5.
  assert (found (show (dash s) (dash_badges s)) []) as R6.
  { eapply finds_eq; [apply (finds_show _ _ (dash s)); [apply falsy_scalar|]|].
    - intros Htr. apply badges_found. by destruct (dash s).
    - by destruct (truthy (dash s)). }
  unfold view. rewrite Hsorted. cbn [mbind res_bind]. unfold body, system_section, bandwidth_section, pie_section, clients_section.
  eapply finds_eq; [render|].
  - apply note_found; [rewrite Hc; by js_value|]. unfold clients_head. eapply finds_eq; [render|done].
  - done.
Qed.
End Dashboard.
End Clicks.

(** A view renders, and its clicks are [l]. *)
Definition renders {A} (e : event) (j : jsx A) (l : list (option val * option A)) : Prop :=
  exists ns, j = Ok ns /\ clicks e ns = l.

(** C23. What the pages other than the clients' show.  On lists of the documented
    shapes each page renders, and its clickable elements are exactly the listed
    ones, in document order, each wired to the listed handler for the very
    record of its row or card: a group opens, takes clients, is edited or
    deleted, and the assignment panel, when open, offers its button only while
    clients are selected; tariffs, servers and rules are deleted, rules also
    switched, and the form of each page offers save and cancel while it is
    open; keys are copied; the other pages offer a refresh, two savings, or
    nothing. *)
Theorem pages_render `{BuildEnv} (e : event) (gs cs ts ns rs ls : list val) :
  forallb group_ok gs = true -> forallb client_ok cs = true -> forallb tariff_ok ts = true ->
  forallb node_ok ns = true -> forallb rule_ok rs = true -> forallb line_ok ls = true ->
  (forall s, Groups.groups s = VArr gs -> Groups.clients s = VArr cs ->
     renders e (Groups.view s) (groups_clicks s gs cs)) /\
  (forall s, Templates.templates s = VArr ts -> renders e (Templates.view s) (tariffs_clicks s ts)) /\
  (forall s, Nodes.nodes s = VArr ns -> renders e (Nodes.view s) (nodes_clicks s ns)) /\
  (forall s, ResponseRules.rules s = VArr rs -> renders e (ResponseRules.view s) (rules_clicks s rs)) /\
  (forall s, is_obj (Settings.settings s) = true ->
     renders e (Settings.view s) (untitled [Settings.SaveBot; Settings.SaveServer])) /\
  (forall s, ConfigProfiles.clients s = VArr cs ->
     renders e (ConfigProfiles.view s) (untitled [ConfigProfiles.Load] ++ concat (map key_clicks cs))%list) /\
  (forall s, HWIDInspector.clients s = VArr cs ->
     renders e (HWIDInspector.view s) (untitled [HWIDInspector.Load]) /\
     HWIDInspector.total s = Ok (int (Z.of_nat (length cs))) /\
     HWIDInspector.safe s = Ok (int (Z.of_nat (length (online cs))))) /\
  (forall s, ConnectionLogs.logs s = VArr ls ->
     renders e (ConnectionLogs.view s) (untitled [ConnectionLogs.GenerateLogs])) /\
  (forall s, dashboard_ok s -> renders e (Home.view s) []).
Proof.
  intros Hgs Hcs Hts Hns Hrs Hls. split_and!; intros s.
  - intros Hg Hc. by apply finds_clicks, groups_found.
  - intros Ht. by apply finds_clicks, tariffs_found.
  - intros Hn. by apply finds_clicks, nodes_found.
  - intros Hr. by apply finds_clicks, rules_found.
  - intros Ho. by apply finds_clicks, settings_found.
  - intros Hc. by apply finds_clicks, keys_found.
  - intros Hc. split; [by eapply finds_clicks, devices_found|].
    split; [unfold HWIDInspector.total; by rewrite Hc|by apply safe_value].
  - intros Hl. by eapply finds_clicks, logs_found.
  - intros Hs. by apply finds_clicks, dashboard_found.
Qed.

Definition vip : val :=
  VObj [("id", VStr "g1"); ("name", VStr "VIP"); ("description", VStr ""); ("members", int 1);
        ("dataLimit", VStr "100")].

(** A page with one group, its assignment panel open and nobody selected. *)
Lemma pages_render_witness :
  let e := Event "" "" false false in
  let s := Groups.State (VArr [vip]) (VArr []) true VNull (VStr "g1") [] in
  renders e (Groups.view s)
    (untitled [Groups.NewGroup; Groups.HandleCreate; Groups.CancelForm; Groups.CloseAssign] ++ group_clicks vip)%list.
Proof.
  cbn zeta. destruct (pages_render (H:=false) (Event "" "" false false) [vip] [] [] [] [] []
    eq_refl eq_refl eq_refl eq_refl eq_refl eq_refl) as (Hg & _).
  apply (Hg (Groups.State (VArr [vip]) (VArr []) true VNull (VStr "g1") []) eq_refl eq_refl).
Defined.
