(* ===== verification/PanelTyped.v ===== *)
(** * No page of the panel breaks on a server that keeps its word

    Each page, with its view, is an instance of [Page]: a well-formedness of
    its state that the answers the server promises keep, under which the view
    renders and its clickable elements carry arguments that are there to be
    read.  ([UsersTyped] does the clients page.) *)
From S2P Require Import Prelude JsStr JsNum JsVal Ints React Effects Logic Api Typed Promises PanelViews.
From S2P Require Users UsersView UsersTyped Groups Templates Nodes ResponseRules Settings ConfigProfiles HWIDInspector ConnectionLogs Home Login AdminApp Token PagesSpec.
Local Open Scope string_scope.
Local Open Scope js_scope.

(** *** What the user may fire: a handler that reads a property when it is
    clicked finds it; everything else is free *)
Definition tariffs_offer (_ : Templates.state) (a : Templates.action) : Prop :=
  match a with Templates.HandleDelete x => evaluates x | _ => True end.
Definition nodes_offer (_ : Nodes.state) (a : Nodes.action) : Prop :=
  match a with Nodes.HandleDelete x => evaluates x | _ => True end.
Definition rules_offer (_ : ResponseRules.state) (a : ResponseRules.action) : Prop :=
  match a with
  | ResponseRules.DeleteRule x => evaluates x
  | ResponseRules.ToggleRule x y => evaluates x /\ evaluates y
  | _ => True
  end.
Definition keys_offer (_ : ConfigProfiles.state) (a : ConfigProfiles.action) : Prop :=
  match a with ConfigProfiles.CopyKey x y => evaluates x /\ evaluates y | _ => True end.
Definition groups_offer (_ : Groups.state) (a : Groups.action) : Prop :=
  match a with
  | Groups.OpenGroup x | Groups.OpenAssignPanel x | Groups.HandleDelete x => evaluates x
  | Groups.StartEdit g => evaluates ((lit g) ~> "id")
  | _ => True
  end.
Definition anything {S A : Type} (_ : S) (_ : A) : Prop := True.

Section Pages.
Context `{BuildEnv}.

(** Handlers and effects under the promises: what is left are the refreshes of
    promised addresses and updates of other fields. *)
Ltac page_keeps :=
  keeps_tac; try done;
  first [solve [promised; let W := fresh in intros W; repeat destruct W; repeat split; done]
        |solve [let W := fresh in intros ? W; repeat destruct W; repeat split; done]].

(** A page whose state is well formed when the record it shows is. *)
Ltac fires := repeat first [apply Forall_nil_2 | apply Forall_cons_2; [try split; try done|]].
Ltac row_fires := let Hv := fresh in intros [] Hv; shape Hv; try done; fires; by eexists.

#[export] Instance tariffs_page : Page Templates.page Templates.view.
Proof.
  refine (Build_Page _ _ _ _ _ (fun s => list_of tariff_ok (Templates.templates s) = true)
    tariffs_offer _ _).
  - unfold Templates.page. split; [done|cbn [c_mount]; page_keeps| |done].
    intros s a _ Ha. clear Ha. cbn [c_handle]. destruct a; page_keeps.
  - intros s e Hs. apply list_of_inv in Hs as (ts & Hl & Hts).
    eapply shows_found; [by apply (tariffs_found e s ts)|]. unfold tariffs_clicks.
    repeat apply Forall_app_2; [fires|destruct (Templates.showForm s); fires|].
    eapply all_fire_rows; [exact Hts|]. row_fires.
Defined.

#[export] Instance nodes_page : Page Nodes.page Nodes.view.
Proof.
  refine (Build_Page _ _ _ _ _ (fun s => list_of node_ok (Nodes.nodes s) = true)
    nodes_offer _ _).
  - unfold Nodes.page. split; [done|cbn [c_mount]; page_keeps| |done].
    intros s a _ Ha. clear Ha. cbn [c_handle]. destruct a; page_keeps.
  - intros s e Hs. apply list_of_inv in Hs as (ns & Hl & Hns).
    eapply shows_found; [by apply (nodes_found e s ns)|]. unfold nodes_clicks.
    repeat apply Forall_app_2; [fires|destruct (Nodes.showForm s); fires|].
    eapply all_fire_rows; [exact Hns|]. row_fires.
Defined.

#[export] Instance rules_page : Page ResponseRules.page ResponseRules.view.
Proof.
  refine (Build_Page _ _ _ _ _ (fun s => list_of rule_ok (ResponseRules.rules s) = true)
    rules_offer _ _).
  - unfold ResponseRules.page. split; [done|cbn [c_mount]; page_keeps| |done].
    intros s a _ Ha. clear Ha. cbn [c_handle]. destruct a; page_keeps.
  - intros s e Hs. apply list_of_inv in Hs as (rs & Hl & Hrs).
    eapply shows_found; [by apply (rules_found e s rs)|]. unfold rules_clicks.
    repeat apply Forall_app_2; [fires|destruct (ResponseRules.showForm s); fires|].
    eapply all_fire_rows; [exact Hrs|]. row_fires.
Defined.

#[export] Instance settings_page : Page Settings.page Settings.view.
Proof.
  refine (Build_Page _ _ _ _ _ (fun s => is_obj (Settings.settings s) = true) anything _ _).
  - unfold Settings.page. split; [done|cbn [c_mount]; page_keeps| |done].
    intros s a _ Ha. clear Ha. cbn [c_handle]. destruct a; page_keeps.
  - intros s e Hs. eapply shows_found; [by apply (settings_found e s)|]. fires.
Defined.

#[export] Instance keys_page : Page ConfigProfiles.page ConfigProfiles.view.
Proof.
  refine (Build_Page _ _ _ _ _ (fun s => list_of client_ok (ConfigProfiles.clients s) = true)
    keys_offer _ _).
  - unfold ConfigProfiles.page. split; [done|cbn [c_mount]; page_keeps| |done].
    intros s a _ Ha. clear Ha. cbn [c_handle]. destruct a; page_keeps.
  - intros s e Hs. apply list_of_inv in Hs as (cs & Hl & Hcs).
    eapply shows_found; [by apply (keys_found e s cs)|].
    apply Forall_app_2; [fires|]. eapply all_fire_rows; [exact Hcs|]. row_fires.
Defined.

#[export] Instance devices_page : Page HWIDInspector.page HWIDInspector.view.
Proof.
  refine (Build_Page _ _ _ _ _ (fun s => list_of client_ok (HWIDInspector.clients s) = true)
    anything _ _).
  - unfold HWIDInspector.page. split; [done|cbn [c_mount]; page_keeps| |done].
    intros s a _ Ha. clear Ha. cbn [c_handle]. destruct a; page_keeps.
  - intros s e Hs. apply list_of_inv in Hs as (cs & Hl & Hcs).
    eapply shows_found; [by apply (devices_found e s cs)|]. fires.
Defined.

#[export] Instance groups_page : Page Groups.page Groups.view.
Proof.
  refine (Build_Page _ _ _ _ _
    (fun s => list_of group_ok (Groups.groups s) = true /\ list_of client_ok (Groups.clients s) = true)
    groups_offer _ _).
  - unfold Groups.page. split; [done|cbn [c_mount]; page_keeps| |done].
    intros s a _ Ha. clear Ha. cbn [c_handle]. destruct a; page_keeps.
  - intros s e [Hg Hc]. apply list_of_inv in Hg as (gs & Hg & Hgs). apply list_of_inv in Hc as (cs & Hc & Hcs).
    eapply shows_found; [by apply (groups_found e s gs cs)|]. unfold groups_clicks, assign_clicks.
    repeat apply Forall_app_2; [fires|destruct (Groups.showForm s); fires| |].
    + destruct (truthy _); [|fires]. apply Forall_app_2; [fires|]. destruct (no_items cs); fires.
      by destruct (no_items _).
    + eapply all_fire_rows; [exact Hgs|]. row_fires.
Defined.

Lemma known_ok ok v : ok v = true -> known ok v = true.
Proof. by destruct v. Qed.

#[export] Instance dashboard_page : Page Home.page Home.view.
Proof.
  refine (Build_Page _ _ _ _ _ dashboard_ok anything _ _).
  - unfold Home.page. split; [done| |by intros s []|done].
    cbn [c_mount]. keeps_tac; promised; intros []; split; cbn; auto using known_ok.
  - intros s e Hs. eapply shows_found; [by apply (dashboard_found e s)|]. fires.
Defined.

(** The log computes its lines from the clients. *)
Lemma generated_lines (toLocaleString : Z -> string) now v g :
  list_of client_ok v = true -> ConnectionLogs.generated toLocaleString now v = Ok g ->
  forallb line_ok g = true.
Proof.
  intros Hv Hg. apply list_of_inv in Hv as (cs & -> & Hcs).
  assert (Forall (fun c => client_ok c = true) cs) as Hall.
  { apply Forall_forall. intros c Hin. rewrite forallb_forall in Hcs. by apply Hcs, list_elem_of_In. }
  rewrite PagesSpec.generated_rows in Hg.
  2: { eapply Forall_impl; [exact Hall|]. intros c Hc. by shape Hc. }
  injection Hg as <-. apply forallb_forall. intros r Hr. apply in_map_iff in Hr as (i & <- & _).
  unfold line_ok, PagesSpec.row, ConnectionLogs.nth_str, opt_str. unfold fields_scalar. cbn -[scalar].
  assert (scalar (match cs with
      | [] => VStr "—"
      | _ => field "username" (default VUndef (cs !! (i mod length cs)))
      end) = true) as ->.
  { destruct cs as [|c cs']; [done|]. destruct (_ !! _) as [d|] eqn:E; [|done].
    pose proof (Forall_lookup_1 _ _ _ _ Hall E) as Hd. cbn [default]. cbv beta in Hd. by shape Hd. }
  by repeat case_match.
Qed.

#[export] Instance logs_page toLocaleString : Page (ConnectionLogs.page toLocaleString) ConnectionLogs.view.
Proof.
  refine (Build_Page _ _ _ _ _ (fun s => list_of line_ok (ConnectionLogs.logs s) = true) anything _ _).
  - assert (keeps documented (fun s => list_of line_ok (ConnectionLogs.logs s) = true)
      (ConnectionLogs.generateLogs toLocaleString)) as Hg.
    { unfold ConnectionLogs.generateLogs. apply keeps_try_catch; [|by intros x; split].
      apply keeps_fetch_bind. intros token r Hd. unfold response_json. apply keeps_assoc.
      intros [[]|x] _; [|done]. cbn [lift bind]. destruct (r_json r) as [v|x] eqn:Ev; [|done]. cbn [lift bind].
      eapply (documented_get _ "/clients") in Hd; [|by left|exact Ev].
      apply keeps_bind; [by apply (keeps_within _ _ (fun _ => True)), within_call|]. intros now.
      destruct (ConnectionLogs.generated _ _ _) as [g|x] eqn:Eg; [|done]. split; [|done].
      intros s _. by eapply generated_lines. }
    unfold ConnectionLogs.page. split; [done|by split|by intros s []|done].
  - intros s e Hs. apply list_of_inv in Hs as (ls & Hl & Hls).
    eapply shows_found; [by apply (logs_found e s ls)|]. fires.
Defined.

(** The entry shows the login form or hands over to the router. *)
#[export] Instance entry_page : Page AdminApp.page AdminApp.view.
Proof.
  refine (Build_Page _ _ _ _ _ (fun _ => True) anything _ _).
  - split; try done.
    + eapply keeps_within, (behaves_mount _ _ _ Token.login_token).
    + intros s a _ _. eapply keeps_within, (behaves_handle _ _ _ Token.login_token s a I).
  - intros s e _. assert (exists ns, AdminApp.view s = Ok ns) as (ns & ->); [|by exists ns].
    unfold AdminApp.view. destruct (negb _).
    + assert (finds clickable (fun n => (attr_val "title" n, fire "onClick" e n)) (Login.view (AdminApp.login s)) [])
        as (ns & -> & _); [|by eexists].
      unfold Login.view, Login.login_form. eapply finds_eq; [render|]. cbn. by case_match.
    + by eexists.
Defined.
End Pages.

(** ** Soundness *)

(** Against a server that keeps its promises and a user who fires what
    [offers] allows, the page renders in every state it reaches, and what it
    renders lets the user click nothing else. *)
Definition never_breaks `{BuildEnv} {S A} (C : component S A) (view : S -> jsx A) (offers : S -> A -> Prop) : Prop :=
  forall c, kept_reachable documented C offers c -> forall e,
    exists ns, view (st c) = Ok ns /\ forall t a, (t, Some a) ∈ clicks e ns -> offers (st c) a.

Lemma page_never_breaks `{BuildEnv} {S A} (C : component S A) view (P : Page C view) :
  never_breaks C view page_offers.
Proof. intros c Hc. by apply (page_sound C view c Hc). Qed.

(** Type soundness of the panel.  Against a server whose answers to the
    ten addresses the panel reads have the promised shapes (requests may also
    fail, and bodies not parse), no sequence of answers, failures, timers and
    clicks on what is displayed leads any page to a state it cannot render;
    and every click it then offers finds the property of the client, group,
    tariff, server or rule that its handler reads. *)
Theorem panel_type_sound `{BuildEnv} (group : val) (toLocaleString : Z -> string)
  (Hgroup : group = VNull \/ exists g, group = VStr g) :
  never_breaks (Users.page group) (UsersView.view group) UsersTyped.offered /\
  never_breaks Groups.page Groups.view groups_offer /\
  never_breaks Templates.page Templates.view tariffs_offer /\
  never_breaks Nodes.page Nodes.view nodes_offer /\
  never_breaks ResponseRules.page ResponseRules.view rules_offer /\
  never_breaks Settings.page Settings.view anything /\
  never_breaks ConfigProfiles.page ConfigProfiles.view keys_offer /\
  never_breaks HWIDInspector.page HWIDInspector.view anything /\
  never_breaks (ConnectionLogs.page toLocaleString) ConnectionLogs.view anything /\
  never_breaks Home.page Home.view anything /\
  never_breaks AdminApp.page AdminApp.view anything.
Proof.
  split_and!.
  - exact (page_never_breaks _ _ (UsersTyped.users_page group Hgroup)).
  - exact (page_never_breaks _ _ groups_page).
  - exact (page_never_breaks _ _ tariffs_page).
  - exact (page_never_breaks _ _ nodes_page).
  - exact (page_never_breaks _ _ rules_page).
  - exact (page_never_breaks _ _ settings_page).
  - exact (page_never_breaks _ _ keys_page).
  - exact (page_never_breaks _ _ devices_page).
  - exact (page_never_breaks _ _ (logs_page toLocaleString)).
  - exact (page_never_breaks _ _ dashboard_page).
  - exact (page_never_breaks _ _ entry_page).
Qed.

Lemma panel_type_sound_witness :
  exists c ns, Users.users (st c) = VArr [UsersTyped.ann] /\ UsersView.view VNull (st c) = Ok ns.
Proof.
  destruct UsersTyped.ann_reachable as (c & Hc & Hu).
  destruct (panel_type_sound (H:=false) VNull (fun _ => "") (or_introl eq_refl)) as (Hs & _).
  destruct (Hs c Hc (Event "" "" false false)) as (ns & Hn & _). by exists c, ns.
Defined.
