(* ===== verification/Cards.v ===== *)
(** * Cards ([components/MetricCard.tsx], [BandwidthCard.tsx],
    [figma/ImageWithFallback.tsx]) *)
From S2P Require Import Prelude JsStr JsNum JsVal React Effects Logic Api.
Local Open Scope string_scope.
Local Open Scope js_scope.

Inductive direction := Up | Down.
Definition direction_str (d : direction) : string := match d with Up => "up" | Down => "down" end.

Inductive variant := Default | Success | Destructive.

Definition variantColors (v : variant) : string :=
  match v with
  | Default => "border-primary/30 bg-gradient-to-br from-card to-card/50"
  | Success => "border-[#10B981]/30 bg-gradient-to-br from-card to-[#10B981]/5"
  | Destructive => "border-[#F43F5E]/30 bg-gradient-to-br from-card to-[#F43F5E]/5"
  end.

(** [trend?: { direction; value }]. *)
Definition trend_val (t : option (direction * string)) : val :=
  match t with
  | Some (d, v) => VObj [("direction", VStr (direction_str d)); ("value", VStr v)]
  | None => VUndef
  end.
Definition sparkline_val (l : option (list num)) : val :=
  match l with
  | Some l => VArr (map (fun n => VObj [("value", VNum n)]) l)
  | None => VUndef
  end.

Record metric_props := MetricProps {
  m_icon : string;
  m_label : string;
  m_value : string;
  m_trend : option (direction * string);
  m_sparkline : option (list num);
  m_variant : option variant;
}.

Definition sparkline {A} (m : metric_props) : jsx A :=
  el "div" ["className" =: "mt-4 h-12"] [
    el "ResponsiveContainer" ["width" =: "100%"; "height" =: "100%"] [
      el "AreaChart" ["data" =: (sparkline_val (m_sparkline m))] [
        el "defs" [] [
          el "linearGradient" ["id" =: "sparkline"; "x1" =: "0"; "y1" =: "0"; "x2" =: "0"; "y2" =: "1"] [
            el "stop" ["offset" =: "5%"; "stopColor" =: "#06B6D4"; "stopOpacity" =: (dec "0.3")] [];
            el "stop" ["offset" =: "95%"; "stopColor" =: "#06B6D4"; "stopOpacity" =: (int 0)] []]];
        el "Area" ["type" =: "monotone";
           "dataKey" =: "value";
           "stroke" =: "#06B6D4";
           "strokeWidth" =: (int 2);
           "fill" =: "url(#sparkline)"] []]]].

Definition MetricCard {A} (m : metric_props) : jsx A :=
  el "div" ["className" =: tpl ["p-5 rounded-lg border backdrop-blur-sm "; (variantColors (default Default (m_variant m)))]] [
    el "div" ["className" =: "flex items-start justify-between mb-3"] [
      el "div" ["className" =: "p-2 rounded-lg bg-primary/10"] [
        elV ((VComp (m_icon m))) ["className" =: "w-5 h-5 text-primary"] []];
      show (trend_val (m_trend m))
        (el "div" ["className" =: tpl ["flex items-center gap-1 text-xs "; jcond (((trend_val (m_trend m)) ~> "direction") === "up") "text-[#10B981]" "text-[#F43F5E]"]] [
          jif (((trend_val (m_trend m)) ~> "direction") === "up")
            (el "TrendingUp" ["className" =: "w-3 h-3"] [])
            (el "TrendingDown" ["className" =: "w-3 h-3"] []);
          el "span" [] [put ((trend_val (m_trend m)) ~> "value")]])];
    el "div" ["className" =: "space-y-1"] [
      el "p" ["className" =: "text-xs text-muted-foreground"] [put (m_label m)];
      el "p" ["className" =: "text-2xl font-bold"] [put (m_value m)]];
    show (sparkline_val (m_sparkline m))
      (sparkline m)].

Record bandwidth_props := BandwidthProps {
  b_period : string;
  b_value : string;
  b_direction : direction;
  b_percentage : string;
}.

Definition BandwidthCard {A} (b : bandwidth_props) : jsx A :=
  el "div" ["className" =: "p-5 rounded-lg border border-primary/30 bg-gradient-to-br from-card to-card/50 backdrop-blur-sm"] [
    el "p" ["className" =: "text-xs text-muted-foreground mb-2"] [put (b_period b)];
    el "div" ["className" =: "flex items-end justify-between"] [
      el "p" ["className" =: "text-3xl font-bold"] [put (b_value b)];
      el "div" ["className" =: tpl ["flex items-center gap-1 text-sm "; jcond ((direction_str (b_direction b)) === "up") "text-[#10B981]" "text-[#F43F5E]"]] [
        jif ((direction_str (b_direction b)) === "up")
          (el "TrendingUp" ["className" =: "w-4 h-4"] [])
          (el "TrendingDown" ["className" =: "w-4 h-4"] []);
        el "span" [] [put (b_percentage b)]]]].

(** ** [ImageWithFallback]: an image that renders a placeholder once its load
    has failed.  The props the component does not name are passed through. *)

Definition ERROR_IMG_SRC : string :=
  "data:image/svg+xml;base64,PHN2ZyB3aWR0aD0iODgiIGhlaWdodD0iODgiIHhtbG5zPSJodHRwOi8vd3d3LnczLm9yZy8yMDAwL3N2ZyIgc3Ryb2tlPSIjMDAwIiBzdHJva2UtbGluZWpvaW49InJvdW5kIiBvcGFjaXR5PSIuMyIgZmlsbD0ibm9uZSIgc3Ryb2tlLXdpZHRoPSIzLjciPjxyZWN0IHg9IjE2IiB5PSIxNiIgd2lkdGg9IjU2IiBoZWlnaHQ9IjU2IiByeD0iNiIvPjxwYXRoIGQ9Im0xNiA1OCAxNi0xOCAzMiAzMiIvPjxjaXJjbGUgY3g9IjUzIiBjeT0iMzUiIHI9IjciLz48L3N2Zz4KCg==".

Inductive image_action : Type :=
| HandleError.

Definition image_handle (a : image_action) : prog bool unit :=
  match a with HandleError => upd (fun _ => true) end.

Section Image.
(** The props: [src], [alt], [style], [className] and the rest. *)
Variables (src alt style className : val) (rest : list (string * attr image_action)).

Definition image_fallback : jsx image_action :=
  el "div" ["className" =: tpl ["inline-block bg-gray-100 text-center align-middle "; className ??? ""];
            "style" =: style] [
    el "div" ["className" =: "flex items-center justify-center w-full h-full"] [
      el "img" ["src" =: ERROR_IMG_SRC; "alt" =: "Error loading image"; Spread (Ok rest);
                "data-original-url" =: src] []]].

Definition image_normal : jsx image_action :=
  el "img" ["src" =: src; "alt" =: alt; "className" =: className; "style" =: style;
            Spread (Ok rest); "onError" =! HandleError] [].

Definition ImageWithFallback (didError : bool) : jsx image_action :=
  if didError then image_fallback else image_normal.
End Image.
