(* ===== verification/SplashScreen.v ===== *)
(** * The splash screen of the client prototype ([components/SplashScreen.tsx])

    Its mount effect arms a timer and remembers it, so that unmounting cancels
    it; the timer routes by the presence of a stored key. *)
From S2P Require Import Prelude JsStr JsNum JsVal React Effects Logic.
Local Open Scope string_scope.
Local Open Scope js_scope.

(** The key the prototype keeps in the local storage. *)
Definition key_item : string := "shadeVPN_key".

(** The timer the effect's cleanup will clear. *)
Definition state : Type := option nat.
Definition init_state : state := None.

Inductive action : Type :=
| Unmount.

Definition on_timer : prog state unit :=
  let! hasKey := call (CGetItem key_item) in
  do_ (CNavigate (if truthy hasKey then "/home" else "/onboarding") true).

Definition mount : prog state unit :=
  let! timer := setTimeout on_timer 2000 in
  upd (fun _ => Some timer).

(** The function the effect returns. *)
Definition cleanup (s : state) : prog state unit :=
  match s with Some timer => clearTimer timer | None => skip end.

Definition handle (s : state) (a : action) : prog state unit :=
  match a with Unmount => cleanup s end.

Definition page : component state action :=
  Component init_state mount handle (fun _ _ => skip).

(** ** The view *)

Definition view : jsx action :=
  el "div" ["className" =: "h-screen w-full flex flex-col items-center justify-center bg-[#0D0F14]"] [
    el "motion.div" ["initial" =: jobj [("opacity", (int 0)); ("scale", (dec "0.8"))];
       "animate" =: jobj [("opacity", (int 1)); ("scale", (int 1))];
       "transition" =: jobj [("duration", (dec "0.5"))];
       "className" =: "flex flex-col items-center"] [
      el "motion.div" ["initial" =: jobj [("opacity", (int 0))];
         "animate" =: jobj [("opacity", (int 1))];
         "transition" =: jobj [("delay", (dec "0.3")); ("duration", (dec "0.8"))];
         "className" =: "relative mb-6"] [
        el "div" ["className" =: "text-8xl font-bold text-[#F0F2F5] relative"] [
          el "span" ["className" =: "relative inline-block"] [
            txt "S";
            el "motion.div" ["initial" =: jobj [("opacity", (int 0)); ("height", (int 0))];
               "animate" =: jobj [("opacity", (int 1)); ("height", "100%")];
               "transition" =: jobj [("delay", (dec "0.5")); ("duration", (dec "0.8"))];
               "className" =: "absolute bottom-0 left-0 w-full bg-gradient-to-t from-[#00E5FF] to-transparent opacity-50 blur-xl";
               "style" =: jobj [("zIndex", (int (-1)))]] []]]];
      el "motion.div" ["initial" =: jobj [("opacity", (int 0))];
         "animate" =: jobj [("opacity", (int 1))];
         "transition" =: jobj [("delay", (dec "0.8")); ("duration", (dec "0.6"))];
         "className" =: "text-3xl font-semibold"] [
        el "span" ["className" =: "text-[#F0F2F5]"] [txt "Shade"];
        el "span" ["className" =: "text-[#00E5FF]"] [txt "VPN"]]];
    el "motion.div" ["initial" =: jobj [("opacity", (int 0))];
       "animate" =: jobj [("opacity", (int 1))];
       "transition" =: jobj [("delay", (dec "1.2")); ("duration", (dec "0.6"))];
       "className" =: "absolute bottom-8 text-[#8B8F9A] text-sm"] [
      txt "Powered by ShadeVPN"]].

(** ** The splash routes once, or not at all *)

Definition is_nav (o : obs) : bool := match o with OCall (CNavigate _ _) => true | _ => false end.
Definition navs (l : list obs) : list obs := List.filter is_nav l.

(** Where a local storage leads. *)
Definition destination (s : gmap string string) : string :=
  if str_truthy (default "" (s !! key_item)) then "/home" else "/onboarding".

Lemma run_on_timer io (c : conf state) :
  run io on_timer c =
  emit (OCall (CNavigate (destination (store c)) true)) (emit (OCall (CGetItem key_item)) c).
Proof.
  unfold on_timer, destination. cbn.
  destruct (store c !! key_item) as [[|a k]|]; cbn; by destruct c.
Qed.

Lemma navs_app l1 l2 : navs (l1 ++ l2) = (navs l1 ++ navs l2)%list.
Proof. apply List.filter_app. Qed.

(** Waiting, or done: with one navigation, or none after an unmount. *)
Definition splash_ok (s0 : gmap string string) (c : conf state) : Prop :=
  store c = s0 /\ st c = Some 0 /\
  ((pend c = [(0, Timer false 2000 on_timer)] /\ navs (log c) = []) \/
   (pend c = [] /\
    (navs (log c) = [] \/ navs (log c) = [OCall (CNavigate (destination s0) true)]))).

Lemma splash_step s0 c c' : splash_ok s0 c -> step page c c' -> splash_ok s0 c'.
Proof.
  intros (Hs & Hst & Hc) Hstep. destruct Hstep as [io [] c|io i id q k o c Hi|io i id b ms p c Hi].
  - unfold event_step, commit_after. cbn. rewrite Hst. cbn. split; [done|]. split; [done|].
    right. destruct Hc as [[Hp Hn]|[Hp Hn]]; unfold drop_timer; cbn; rewrite Hp; auto.
  - exfalso. by destruct Hc as [[Hp _]|[Hp _]]; rewrite Hp in Hi; destruct i.
  - destruct Hc as [[Hp Hn]|[Hp _]]; rewrite Hp in Hi; destruct i as [|i]; try done.
    injection Hi as <- <- <- <-. unfold timer_step, commit_after. cbn [page c_commit run skip].
    rewrite run_on_timer. split; [done|]. split; [done|]. right. cbn. rewrite Hp. split; [done|].
    right. by rewrite !navs_app, Hn, Hs.
Qed.

Lemma splash_reachable io s0 c : rtc (step page) (boot page io s0) c -> splash_ok s0 c.
Proof.
  intros Hsteps. assert (splash_ok s0 (boot page io s0)) as Hb by (split; [done|split; [done|by left]]).
  revert Hb. induction Hsteps as [|c1 c2 c3 H12 _ IH]; [done|].
  intros H1. apply IH. by eapply splash_step.
Qed.

(** C33. From any local storage, whatever happens, the splash screen has at most
    one timer and navigates at most once, by replacing the location: by [/home]
    if a non-empty key is stored and by [/onboarding] otherwise, and only once
    the timer is spent; unmounting leaves no timer that could navigate. *)
Theorem splash_navigates_once io s0 c :
  rtc (step page) (boot page io s0) c ->
  ((pend c = [(0, Timer false 2000 on_timer)] /\ navs (log c) = []) \/
   (pend c = [] /\
    (navs (log c) = [] \/ navs (log c) = [OCall (CNavigate (destination s0) true)]))) /\
  pend (event_step page io Unmount c) = [].
Proof.
  intros Hsteps. destruct (splash_reachable _ _ _ Hsteps) as (_ & Hst & Hc). split; [done|].
  unfold event_step, commit_after. cbn. rewrite Hst. cbn.
  destruct Hc as [[-> _]|[-> _]]; reflexivity.
Qed.

Lemma splash_navigates_once_witness :
  let s0 := <[key_item := "shade://k"]> ∅ in
  let c := timer_step page quiet_browser 0 false on_timer (boot page quiet_browser s0) in
  rtc (step page) (boot page quiet_browser s0) c /\
  pend (event_step page quiet_browser Unmount c) = [].
Proof.
  cbn zeta. split.
  - apply rtc_once. by eapply (step_timer page quiet_browser 0).
  - apply (splash_navigates_once quiet_browser (<[key_item := "shade://k"]> ∅)).
    apply rtc_once. by eapply (step_timer page quiet_browser 0).
Defined.
