(* ===== verification/OnboardingScreen.v ===== *)
(** * The onboarding screen of the client prototype
    ([components/OnboardingScreen.tsx]) *)
From S2P Require Import Prelude JsStr JsNum JsVal React Effects Logic SplashScreen.
Local Open Scope string_scope.
Local Open Scope js_scope.

Record state := State {
  keyInput : string;
  error : string;
  success : bool;
}.
Definition set_keyInput (v : string) (s : state) : state :=
  State v (error s) (success s).
Definition set_error (v : string) (s : state) : state :=
  State (keyInput s) v (success s).
Definition set_success (v : bool) (s : state) : state :=
  State (keyInput s) (error s) v.

Definition init_state : state := State "" "" false.

Inductive action : Type :=
| HandlePaste
| HandleActivate
| HandleScanQR
| HandleUploadQR
| ChangeKey (value : string).

Definition handlePaste : prog state unit :=
  try_catch
    (let! text := await QClipboardRead in
     do! upd (set_keyInput text) in
     upd (set_error ""))
    (fun _ => do_ (CConsoleError "Failed to read clipboard")).

Definition handleActivate (s : state) : prog state unit :=
  if negb (str_truthy (trim (keyInput s)))
  then upd (set_error "Введите ключ подключения")
  else if negb (startsWith (keyInput s) "shade://")
  then upd (set_error "Неверный формат ключа")
  else
    do! upd (set_success true) in
    do! do_ (CSetItem SplashScreen.key_item (keyInput s)) in
    let! _ := setTimeout (do_ (CNavigate "/home" true)) 600 in
    skip.

Definition handleScanQR : prog state unit :=
  alert "В реальном приложении откроется камера для сканирования QR-кода".
Definition handleUploadQR : prog state unit :=
  alert "В реальном приложении откроется галерея для выбора изображения с QR-кодом".

Definition changeKey (v : string) : prog state unit :=
  do! upd (set_keyInput v) in
  do! upd (set_error "") in
  upd (set_success false).

Definition handle (s : state) (a : action) : prog state unit :=
  match a with
  | HandlePaste => handlePaste
  | HandleActivate => handleActivate s
  | HandleScanQR => handleScanQR
  | HandleUploadQR => handleUploadQR
  | ChangeKey v => changeKey v
  end.

Definition page : component state action :=
  Component init_state skip handle (fun _ _ => skip).

(** ** The view *)

Definition key_field (s : state) : jsx action :=
  el "div" ["className" =: "relative"] [
    el "div" ["className" =: "absolute left-4 top-1/2 -translate-y-1/2 text-[#8B8F9A]"] [
      el "Key" ["size" =: (int 18)] []];
    el "input" ["type" =: "text";
       "value" =: (keyInput s);
       onE "onChange" (fun e => ChangeKey (ev_value e));
       "placeholder" =: "shade://eyJ...";
       "className" =: tpl ["w-full bg-[#252830] text-[#F0F2F5] pl-12 pr-24 py-4 rounded-xl border-2 transition-all outline-none "; jcond (error s) "border-[#FF3D57]" (jcond (success s) "border-[#00C853]" "border-transparent focus:border-[#00E5FF] focus:shadow-[0_0_20px_rgba(0,229,255,0.2)]")]] [];
    el "button" ["onClick" =! HandlePaste;
       "className" =: "absolute right-3 top-1/2 -translate-y-1/2 px-4 py-2 bg-[#1A1D26] hover:bg-[#252830] text-[#00E5FF] rounded-lg transition-colors text-sm font-medium flex items-center gap-2"] [
      el "Copy" ["size" =: (int 14)] [];
      txt "Вставить"]].

Definition qr_options : jsx action :=
  el "div" ["className" =: "space-y-3"] [
    el "button" ["onClick" =! HandleScanQR;
       "className" =: "w-full bg-[#00E5FF] hover:bg-[#00D4EE] text-[#0D0F14] py-4 rounded-xl font-semibold transition-all flex items-center justify-center gap-3 shadow-[0_0_20px_rgba(0,229,255,0.3)]"] [
      el "Camera" ["size" =: (int 20)] [];
      txt "Сканировать QR камерой"];
    el "button" ["onClick" =! HandleUploadQR;
       "className" =: "w-full bg-transparent hover:bg-[#1A1D26] text-[#00E5FF] py-4 rounded-xl font-semibold transition-all border-2 border-[#00E5FF] flex items-center justify-center gap-3"] [
      el "Image" ["size" =: (int 20)] [];
      txt "Загрузить QR из галереи"]].

Definition view (s : state) : jsx action :=
  el "div" ["className" =: "min-h-screen w-full bg-[#0D0F14] flex flex-col items-center justify-center p-6"] [
    el "motion.div" ["initial" =: jobj [("opacity", (int 0)); ("y", (int 20))];
       "animate" =: jobj [("opacity", (int 1)); ("y", (int 0))];
       "className" =: "w-full max-w-md space-y-8"] [
      el "div" ["className" =: "flex flex-col items-center mb-8"] [
        el "div" ["className" =: "text-4xl font-bold mb-2"] [
          el "span" ["className" =: "text-[#F0F2F5]"] [txt "Shade"];
          el "span" ["className" =: "text-[#00E5FF]"] [txt "VPN"]]];
      el "div" ["className" =: "text-center space-y-2"] [
        el "h1" ["className" =: "text-2xl font-semibold text-[#F0F2F5]"] [txt "Добро пожаловать"];
        el "p" ["className" =: "text-[#8B8F9A]"] [
          txt "Введите ваш ключ подключения или отсканируйте QR-код"]];
      el "div" ["className" =: "space-y-4"] [
        key_field s;
        show (error s)
          (el "motion.p" ["initial" =: jobj [("opacity", (int 0)); ("y", (int (-10)))];
             "animate" =: jobj [("opacity", (int 1)); ("y", (int 0))];
             "className" =: "text-[#FF3D57] text-sm"] [
            put (error s)]);
        el "button" ["onClick" =! HandleActivate;
           "className" =: "w-full bg-[#00E5FF] hover:bg-[#00D4EE] text-[#0D0F14] py-4 rounded-xl font-semibold transition-all shadow-[0_0_20px_rgba(0,229,255,0.3)] hover:shadow-[0_0_30px_rgba(0,229,255,0.5)]"] [
          txt "Активировать ключ"]];
      el "div" ["className" =: "flex items-center gap-4"] [
        el "div" ["className" =: "flex-1 h-px bg-[#252830]"] [];
        el "span" ["className" =: "text-[#8B8F9A] text-sm"] [txt "или"];
        el "div" ["className" =: "flex-1 h-px bg-[#252830]"] []];
      qr_options;
      el "div" ["className" =: "text-center"] [
        el "a" ["href" =: "#";
           "className" =: "text-[#00E5FF] hover:text-[#00D4EE] text-sm transition-colors"] [
          txt "Нет ключа? ";
          el "span" ["className" =: "underline"] [txt "Получить ключ"]]]]].

(** ** What gets stored *)

(** The form accepts a key that has the scheme of a key. *)
Definition acceptable (key : string) : bool :=
  str_truthy (trim key) && startsWith key "shade://".

(** Activation, on every branch: a blank key and a key without the
    [shade://] scheme are reported and change nothing else; an accepted key is
    stored unchanged, the form turns green and exactly one timer is armed,
    which replaces the location by [/home]. *)
Theorem handleActivate_branches io (c : conf state) :
  let c' := event_step page io HandleActivate c in
  let key := keyInput (st c) in
  if acceptable key then
    st c' = set_success true (st c) /\
    store c' = <[SplashScreen.key_item := key]> (store c) /\
    pend c' = (pend c ++ [(next c, Timer false 600 (do_ (CNavigate "/home" true)))])%list
  else
    st c' = set_error (if str_truthy (trim key) then "Неверный формат ключа"
                       else "Введите ключ подключения") (st c) /\
    store c' = store c /\ pend c' = pend c /\ log c' = log c.
Proof.
  unfold acceptable, event_step, commit_after. cbn [page c_handle c_commit handle].
  unfold handleActivate. destruct (str_truthy (trim (keyInput (st c)))); [|done].
  destruct (startsWith (keyInput (st c)) "shade://"); done.
Qed.

(** Only the screen's own item is written, and only with acceptable keys. *)
Definition stores_keys (o : obs) : Prop :=
  match o with
  | OCall (CSetItem k v) => k = SplashScreen.key_item /\ acceptable v = true
  | OSend _ => False
  | _ => True
  end.

(** In every reachable state, everything the onboarding screen ever wrote
    to the local storage is the key item with an acceptable key, and it never
    sent a request. *)
Theorem onboarding_stores_keys c :
  reachable page c -> Forall (observed stores_keys) (log c).
Proof.
  intros Hr. apply (reachable_within page (fun _ => True) stores_keys); [|done].
  split; [done|done| |done]. intros s a _. destruct a; cbn [page c_handle handle].
  - unfold handlePaste. repeat within_step; done.
  - unfold handleActivate. destruct (str_truthy (trim (keyInput s))) eqn:E1; [|done].
    destruct (startsWith (keyInput s) "shade://") eqn:E2; [|done].
    cbn [negb]. repeat within_step; try done. cbn. unfold acceptable. by rewrite E1, E2.
  - unfold handleScanQR. by repeat within_step.
  - unfold handleUploadQR. by repeat within_step.
  - unfold changeKey. by repeat within_step.
Qed.

Lemma onboarding_stores_keys_witness :
  let c := event_step page quiet_browser HandleActivate
             (event_step page quiet_browser (ChangeKey "shade://k") (boot page quiet_browser ∅)) in
  store c !! SplashScreen.key_item = Some "shade://k" /\ Forall (observed stores_keys) (log c).
Proof.
  cbn zeta. split; [reflexivity|]. apply onboarding_stores_keys.
  do 2 (eapply reach_step; [|apply step_event]). apply reach_boot.
Defined.
