(* ===== verification/HomeScreen.v ===== *)
(** * The home screen of the client prototype ([components/HomeScreen.tsx])

    The connection button drives a three-state machine; an effect that depends
    on [status] runs the session clock.  [seconds], the variable each run of
    the effect closes over, is a cell of the list [cells]; [interval] is the
    timer the pending cleanup will clear. *)
From S2P Require Import Prelude JsStr JsNum JsVal React Effects Logic.
Local Open Scope string_scope.
Local Open Scope js_scope.

Inductive status_t : Type := Disconnected | Connecting | Connected.
#[export] Instance status_eq_dec : EqDecision status_t.
Proof. solve_decision. Defined.
Definition status_str (x : status_t) : string :=
  match x with
  | Disconnected => "disconnected"
  | Connecting => "connecting"
  | Connected => "connected"
  end.

Record stats_t := Stats { duration : string; download : string; upload : string }.
Definition zero_stats : stats_t := Stats "00:00:00" "0.0 MB" "0.0 MB".

Record server := Server { flag : string; country : string; city : string; ping : Z }.
Definition currentServer : server := Server "🇳🇱" "Netherlands" "Amsterdam" 45.

Record state := State {
  status : status_t;
  stats : stats_t;
  cells : list Z;
  interval : option nat;
}.
Definition set_status (v : status_t) (s : state) : state :=
  State v (stats s) (cells s) (interval s).
Definition set_stats (v : stats_t) (s : state) : state :=
  State (status s) v (cells s) (interval s).
Definition set_cells (v : list Z) (s : state) : state :=
  State (status s) (stats s) v (interval s).
Definition set_interval (v : option nat) (s : state) : state :=
  State (status s) (stats s) (cells s) v.

Definition init_state : state := State Disconnected zero_stats [] None.

Inductive action : Type :=
| HandleConnect
| GoSettings
| GoServers.
#[export] Instance action_eq_dec : EqDecision action.
Proof. solve_decision. Defined.

Definition handleConnect (s : state) : prog state unit :=
  match status s with
  | Disconnected =>
      do! upd (set_status Connecting) in
      let! _ := setTimeout (upd (set_status Connected)) 2000 in
      skip
  | Connected =>
      do! upd (set_status Disconnected) in
      upd (set_stats zero_stats)
  | Connecting => skip
  end.

(** [String(n).padStart(2, "0")]. *)
Definition pad2 (n : Z) : string := padStart (string_of_Z n) 2 "0".

Definition clock (seconds : Z) : string :=
  let hours := (seconds / 3600)%Z in
  let minutes := (seconds mod 3600 / 60)%Z in
  let secs := (seconds mod 60)%Z in
  pad2 hours +:+ ":" +:+ pad2 minutes +:+ ":" +:+ pad2 secs.

(** [`${(Math.random() * a + b).toFixed(1)} MB`]. *)
Definition traffic (r : num) (a b : Z) : string :=
  toFixed (num_add (num_mul r (num_of_Z a)) (num_of_Z b)) 1 +:+ " MB".

(** One tick of the interval whose [seconds] is cell [i]. *)
Definition tick (i : nat) : prog state unit :=
  let! d := call (CRandom "download") in
  let! u := call (CRandom "upload") in
  do! upd (fun s => set_cells (alter (Z.add 1) i (cells s)) s) in
  upd (fun s =>
    set_stats (Stats (clock (default 0%Z (cells s !! i)))
                     (traffic (to_number d) 200 100)
                     (traffic (to_number u) 50 10)) s).

(** The effect on [status]: the previous run's cleanup, then the new run. *)
Definition cleanup (s : state) : prog state unit :=
  match interval s with
  | Some id => do! clearTimer id in upd (set_interval None)
  | None => skip
  end.
Definition start_clock (s : state) : prog state unit :=
  do! upd (fun s => set_cells (cells s ++ [0%Z])%list s) in
  let! id := setInterval (tick (length (cells s))) 1000 in
  upd (set_interval (Some id)).
Definition effect (old new : state) : prog state unit :=
  if String.eqb (status_str (status old)) (status_str (status new)) then skip
  else
    do! cleanup new in
    if String.eqb (status_str (status new)) "connected" then start_clock new else skip.

Definition handle (s : state) (a : action) : prog state unit :=
  match a with
  | HandleConnect => handleConnect s
  | GoSettings => navigate "/settings"
  | GoServers => navigate "/servers"
  end.

Definition page : component state action :=
  Component init_state skip handle effect.

Definition getPingColor (ping : Z) : string :=
  if (ping <? 80)%Z then "#00C853"
  else if (ping <? 150)%Z then "#FFB300"
  else "#FF3D57".

(** ** The view *)

Definition connection_button (s : state) : jsx action :=
  el "motion.div" ["className" =: "relative mb-8"; "whileTap" =: jobj [("scale", (dec "0.95"))]] [
    show ((status_str (status s)) === "connected")
      (el "motion.div" ["className" =: "absolute inset-0 rounded-full";
         "style" =: jobj [("background", "radial-gradient(circle, rgba(0,229,255,0.3) 0%, transparent 70%)"); ("filter", "blur(20px)")];
         "animate" =: jobj [("scale", jarray [(int 1); (dec "1.1"); (int 1)]); ("opacity", jarray [(dec "0.5"); (dec "0.8"); (dec "0.5")])];
         "transition" =: jobj [("duration", (int 2)); ("repeat", (VNum (S754_infinity false))); ("ease", "easeInOut")]] []);
    show ((status_str (status s)) === "connecting")
      (el "motion.div" ["className" =: "absolute inset-0 rounded-full border-4 border-transparent border-t-[#00E5FF]";
         "animate" =: jobj [("rotate", (int 360))];
         "transition" =: jobj [("duration", (int 1)); ("repeat", (VNum (S754_infinity false))); ("ease", "linear")];
         "style" =: jobj [("width", "140px"); ("height", "140px"); ("margin", "-10px")]] []);
    el "button" ["onClick" =! HandleConnect;
       "disabled" =: ((status_str (status s)) === "connecting");
       "className" =: tpl ["relative w-32 h-32 rounded-full flex items-center justify-center transition-all duration-300 "; jcond ((status_str (status s)) === "disconnected") "bg-[#252830]" (jcond ((status_str (status s)) === "connecting") "bg-[#1A1D26]" "bg-[#00E5FF] shadow-[0_0_40px_rgba(0,229,255,0.5)]")]] [
      el "Power" ["size" =: (int 48);
         "className" =: tpl [jcond ((status_str (status s)) === "connected") "text-[#0D0F14]" "text-[#00E5FF]"; " transition-colors"]] []]].

Definition stats_panel (s : state) : jsx action :=
  el "motion.div" ["initial" =: jobj [("opacity", (int 0)); ("y", (int 20))];
     "animate" =: jobj [("opacity", (int 1)); ("y", (int 0))];
     "className" =: "w-full max-w-xs space-y-3"] [
    el "div" ["className" =: "text-center"] [
      el "p" ["className" =: "text-[#8B8F9A] text-sm mb-1"] [txt "Время сессии"];
      el "p" ["className" =: "text-[#F0F2F5] text-2xl font-mono font-semibold"] [
        put (duration (stats s))]];
    el "div" ["className" =: "grid grid-cols-2 gap-4 text-center"] [
      el "div" [] [
        el "p" ["className" =: "text-[#8B8F9A] text-xs mb-1"] [txt "⬇ Загрузка"];
        el "p" ["className" =: "text-[#F0F2F5] font-mono"] [put (download (stats s))]];
      el "div" [] [
        el "p" ["className" =: "text-[#8B8F9A] text-xs mb-1"] [txt "⬆ Выгрузка"];
        el "p" ["className" =: "text-[#F0F2F5] font-mono"] [put (upload (stats s))]]]].

Definition server_card : jsx action :=
  el "div" ["className" =: "p-6"] [
    el "button" ["onClick" =! GoServers;
       "className" =: "w-full bg-[#1A1D26] hover:bg-[#252830] rounded-xl p-4 transition-all flex items-center justify-between"] [
      el "div" ["className" =: "flex items-center gap-3"] [
        el "span" ["className" =: "text-3xl"] [put (flag currentServer)];
        el "div" ["className" =: "text-left"] [
          el "p" ["className" =: "text-[#F0F2F5] font-semibold"] [
            put (country currentServer);
            txt ", ";
            put (city currentServer)];
          el "p" ["className" =: "text-sm font-mono";
             "style" =: jobj [("color", (getPingColor (ping currentServer)))]] [
            put (int (ping currentServer));
            txt "ms"]]];
      el "ChevronRight" ["className" =: "text-[#8B8F9A]"; "size" =: (int 20)] []]].

Definition view (s : state) : jsx action :=
  el "div" ["className" =: "min-h-screen w-full bg-[#0D0F14] flex flex-col"] [
    el "div" ["className" =: "flex items-center justify-between p-6"] [
      el "div" ["className" =: "text-2xl font-bold"] [
        el "span" ["className" =: "text-[#F0F2F5]"] [txt "S"]];
      el "button" ["onClick" =! GoSettings;
         "className" =: "p-2 hover:bg-[#1A1D26] rounded-lg transition-colors"] [
        el "Settings" ["className" =: "text-[#8B8F9A]"; "size" =: (int 24)] []]];
    el "div" ["className" =: "flex-1 flex flex-col items-center justify-center px-6 pb-32"] [
      connection_button s;
      el "motion.div" ["key" =: (status_str (status s));
         "initial" =: jobj [("opacity", (int 0)); ("y", (int 10))];
         "animate" =: jobj [("opacity", (int 1)); ("y", (int 0))];
         "className" =: "text-center mb-8"] [
        el "p" ["className" =: "text-[#F0F2F5] text-lg font-medium"] [
          put (((status_str (status s)) === "disconnected") &&& "Нажмите для подключения");
          put (((status_str (status s)) === "connecting") &&& "Подключение...");
          put (((status_str (status s)) === "connected") &&& "Защищено ✓")]];
      show ((status_str (status s)) === "connected")
        (stats_panel s)];
    server_card].

(** ** The connection machine *)

(** What is scheduled in each state: nothing when disconnected, the one
    connecting timer, or the one session clock, which the pending cleanup will
    clear; its cell counts the seconds on display. *)
Definition machine_ok (c : conf state) : Prop :=
  match status (st c) with
  | Disconnected => pend c = [] /\ interval (st c) = None /\ stats (st c) = zero_stats
  | Connecting =>
      (exists id, pend c = [(id, Timer false 2000 (upd (set_status Connected)))]) /\
      interval (st c) = None /\ stats (st c) = zero_stats
  | Connected =>
      exists id i seconds,
        pend c = [(id, Timer true 1000 (tick i))] /\ interval (st c) = Some id /\
        cells (st c) !! i = Some seconds /\ (0 <= seconds)%Z /\
        duration (stats (st c)) = clock seconds
  end.

(** The moves of [status]. *)
Definition status_move (a b : status_t) : Prop :=
  a = b \/ (a = Disconnected /\ b = Connecting) \/ (a = Connecting /\ b = Connected) \/
  (a = Connected /\ b = Disconnected).

(** *** The specification: a session

    [tap] is a tap on the button, [elapse] the passing of the time that is being
    waited for: two seconds of dialing, one second of a session. *)
Inductive session : Type :=
| Off
| Dialing
| Online (seconds : Z).
Definition tap (x : session) : session :=
  match x with Off => Dialing | Dialing => Dialing | Online _ => Off end.
Definition elapse (x : session) : session :=
  match x with Off => Off | Dialing => Online 0 | Online n => Online (1 + n) end.
(** What is waited for, in milliseconds. *)
Definition alarm (x : session) : list Z :=
  match x with Off => [] | Dialing => [2000%Z] | Online _ => [1000%Z] end.
Definition status_of (x : session) : status_t :=
  match x with Off => Disconnected | Dialing => Connecting | Online _ => Connected end.
Definition readout (x : session) : string :=
  match x with Online n => clock n | _ => "00:00:00" end.

(** The configuration that implements a session. *)
Definition represents (c : conf state) (x : session) : Prop :=
  status (st c) = status_of x /\ duration (stats (st c)) = readout x /\
  match x with
  | Off => pend c = [] /\ interval (st c) = None /\ stats (st c) = zero_stats
  | Dialing =>
      (exists id, pend c = [(id, Timer false 2000 (upd (set_status Connected)))]) /\
      interval (st c) = None /\ stats (st c) = zero_stats
  | Online n =>
      (0 <= n)%Z /\ exists id i,
        pend c = [(id, Timer true 1000 (tick i))] /\ interval (st c) = Some id /\
        cells (st c) !! i = Some n
  end.

Definition delay (t : nat * task state) : option Z :=
  match snd t with Timer _ ms _ => Some ms | Waiting _ _ => None end.

Lemma represents_alarm c x : represents c x -> map delay (pend c) = map Some (alarm x).
Proof.
  intros (_ & _ & H). destruct x as [| |n].
  - by destruct H as (-> & _).
  - by destruct H as ((id & ->) & _).
  - by destruct H as (_ & id & i & -> & _).
Qed.

Lemma machine_represents c : machine_ok c <-> exists x, represents c x.
Proof.
  unfold machine_ok, represents. split.
  - destruct (status (st c)) eqn:E.
    + intros (H1 & H2 & H3). exists Off. by rewrite H3.
    + intros (H1 & H2 & H3). exists Dialing. by rewrite H3.
    + intros (id & i & n & H1 & H2 & H3 & H4 & H5). exists (Online n). eauto 10.
  - intros ([| |n] & Hs & Hd & H); rewrite Hs; cbn; [done|done|].
    destruct H as (Hn & id & i & H1 & H2 & H3). exists id, i, n. auto.
Qed.

Lemma represents_tap io c x : represents c x -> represents (event_step page io HandleConnect c) (tap x).
Proof.
  destruct c as [[s xs cs iv] sto pn nx lg]. unfold represents. cbn.
  intros (-> & Hd & H). destruct x as [| |n]; cbn in *.
  - destruct H as (-> & -> & ->). cbn. split; [done|]. split; [done|]. split; [by eexists|done].
  - unfold event_step, commit_after. cbn. auto.
  - destruct H as (_ & id & i & -> & -> & _). unfold event_step, commit_after. cbn.
    unfold effect, is_timer. cbn. rewrite Nat.eqb_refl. cbn. auto 6.
Qed.

(** The other two buttons navigate. *)
Lemma represents_other io a c x :
  a <> HandleConnect -> represents c x -> represents (event_step page io a c) x.
Proof.
  intros Ha. destruct c as [[s xs cs iv] sto pn nx lg].
  destruct a; [done| |]; unfold event_step, commit_after; cbn; unfold effect; cbn;
    rewrite String.eqb_refl; done.
Qed.

#[local] Arguments tick : simpl never.

Lemma run_tick io i k c :
  cells (st c) !! i = Some k ->
  exists c', run io (tick i) c = c' /\ pend c' = pend c /\
    status (st c') = status (st c) /\ interval (st c') = interval (st c) /\
    cells (st c') !! i = Some (1 + k)%Z /\ duration (stats (st c')) = clock (1 + k).
Proof.
  intros Hk. eexists. split; [reflexivity|]. destruct c as [[s x cs iv] sto pn nx lg].
  cbn in Hk. unfold tick. cbn. rewrite list_lookup_alter_eq, Hk. done.
Qed.

Lemma represents_elapse io i id b ms p c x :
  represents c x -> pend c !! i = Some (id, Timer b ms p) ->
  represents (timer_step page io i b p c) (elapse x).
Proof.
  intros (Hs & Hd & H) Hi. destruct x as [| |n].
  - destruct H as (Hp & _). by rewrite Hp in Hi.
  - destruct H as ((id' & Hp) & Hiv & Hx). rewrite Hp in Hi. destruct i as [|i]; [|done].
    injection Hi as <- <- <- <-. destruct c as [[s xs cs iv] sto pn nx lg]. cbn in *. subst.
    unfold timer_step, commit_after. cbn. unfold effect. cbn. split; [done|]. split; [done|].
    split; [done|]. exists nx, (length cs). repeat split; try done. by apply list_lookup_middle.
  - destruct H as (Hn & id' & j & Hp & Hiv & Hk). rewrite Hp in Hi.
    destruct i as [|i]; [|done]. injection Hi as <- <- <- <-.
    unfold timer_step, commit_after.
    destruct (run_tick io j n c Hk) as (c' & -> & Hp' & Hs' & Hiv' & Hk' & Hd').
    cbn [page c_commit]. unfold effect. rewrite Hs', Hs. cbn. unfold represents.
    rewrite Hs', Hd', Hp', Hiv'. split; [done|]. split; [done|]. split; [lia|].
    exists id', j. auto.
Qed.

Lemma represents_no_promise c x i id q (k : res (reply q) -> prog state unit) :
  represents c x -> pend c !! i <> Some (id, Waiting q k).
Proof.
  intros Hx Hi. apply represents_alarm in Hx. apply (f_equal (lookup i)) in Hx.
  rewrite !list_lookup_fmap, Hi in Hx. cbn in Hx. destruct (alarm x !! i); discriminate.
Qed.

(** Every step is a tap, the alarm, or nothing. *)
Lemma represents_step c x c' :
  represents c x -> step page c c' ->
  exists x', represents c' x' /\ (x' = x \/ x' = tap x \/ (alarm x <> [] /\ x' = elapse x)).
Proof.
  intros Hx Hs. destruct Hs as [io a c|io i id q k o c Hi|io i id b ms p c Hi].
  - destruct (decide (a = HandleConnect)) as [->|Ha].
    + exists (tap x). split; [by apply represents_tap|auto].
    + exists x. split; [by apply represents_other|auto].
  - by apply (represents_no_promise _ _ _ _ _ _ Hx) in Hi.
  - exists (elapse x). split; [by eapply represents_elapse|]. right; right. split; [|done].
    apply represents_alarm in Hx. intros E. rewrite E in Hx.
    apply map_eq_nil in Hx. by rewrite Hx in Hi.
Qed.

Lemma session_move x x' :
  x' = x \/ x' = tap x \/ (alarm x <> [] /\ x' = elapse x) -> status_move (status_of x) (status_of x').
Proof. unfold status_move. intros [->|[->|[H ->]]]; destruct x; cbn in *; auto. Qed.

Lemma machine_step c c' :
  machine_ok c -> step page c c' ->
  machine_ok c' /\ status_move (status (st c)) (status (st c')).
Proof.
  rewrite !machine_represents. intros [x Hx] Hs.
  destruct (represents_step c x c' Hx Hs) as (x' & Hx' & Hm). split; [by exists x'|].
  destruct Hx as [-> _], Hx' as [-> _]. by apply session_move.
Qed.

Lemma machine_reachable c : reachable page c -> machine_ok c.
Proof.
  induction 1 as [io s0|c c' _ IH Hs]; [done|]. by apply (machine_step c c').
Qed.

(** The home screen, under every interleaving of taps and timers: when
    disconnected nothing is scheduled and the counters are zero; while
    connecting exactly the one 2-second timer is pending; when connected exactly
    one 1-second interval runs, it is the one the cleanup will clear, and the
    session time on display is the number of its ticks. *)
Theorem home_machine c : reachable page c -> machine_ok c.
Proof. apply machine_reachable. Qed.

(** [status] only moves disconnected, connecting, connected and back to
    disconnected. *)
Theorem home_status_cycle c c' :
  reachable page c -> step page c c' -> status_move (status (st c)) (status (st c')).
Proof.
  intros Hr Hs. apply machine_step; [by apply machine_reachable|done].
Qed.

(** C25. The screen implements the session.  It starts with none; tapping the
    button is [tap], an expiring timer is [elapse], the other buttons leave the
    session alone, and nothing else can happen: the timers pending are exactly
    what the session waits for, and the status and the clock on display are those of the
    session. *)
Theorem session_refined :
  (forall io s0, represents (boot page io s0) Off) /\
  forall c x, represents c x ->
    (forall io, represents (event_step page io HandleConnect c) (tap x)) /\
    (forall io a, a <> HandleConnect -> represents (event_step page io a c) x) /\
    (forall io i id b ms p, pend c !! i = Some (id, Timer b ms p) ->
       represents (timer_step page io i b p c) (elapse x)) /\
    (forall c', step page c c' ->
       exists x', represents c' x' /\ (x' = x \/ x' = tap x \/ (alarm x <> [] /\ x' = elapse x))) /\
    map delay (pend c) = map Some (alarm x) /\
    status (st c) = status_of x /\ duration (stats (st c)) = readout x.
Proof.
  split; [done|]. intros c x Hx. split; [intros io; by apply represents_tap|].
  split; [intros io a Ha; by apply represents_other|].
  split; [intros io i id b ms p Hi; by eapply represents_elapse|].
  split; [by intros c2 Hs; eapply represents_step|].
  split; [by apply represents_alarm|]. by destruct Hx as (? & ? & _).
Qed.

(** A tap, the connecting timer, a tick. *)
Lemma connected_example :
  exists c, reachable page c /\ status (st c) = Connected /\ duration (stats (st c)) = "00:00:01".
Proof.
  pose proof (reach_boot page quiet_browser ∅) as R.
  eapply reach_step in R; [|apply (step_event _ quiet_browser HandleConnect)].
  eapply reach_step in R; [|eapply (step_timer page quiet_browser 0); reflexivity].
  eapply reach_step in R; [|eapply (step_timer page quiet_browser 0); reflexivity].
  eexists. split; [exact R|]. split; vm_compute; reflexivity.
Qed.

Lemma home_machine_witness :
  exists c, reachable page c /\ status (st c) = Connected /\ machine_ok c.
Proof.
  destruct connected_example as (c & R & Hs & _). exists c. split; [exact R|]. split; [exact Hs|].
  apply (home_machine c R).
Defined.

Lemma home_status_cycle_witness :
  exists c c', reachable page c /\ step page c c' /\
    status_move (status (st c)) (status (st c')) /\ status (st c') = Connecting.
Proof.
  exists (boot page quiet_browser ∅),
    (event_step page quiet_browser HandleConnect (boot page quiet_browser ∅)).
  split; [apply reach_boot|]. split; [apply step_event|]. split; [|reflexivity].
  apply home_status_cycle; [apply reach_boot|apply step_event].
Defined.

Lemma session_refined_witness :
  let c1 := event_step page quiet_browser HandleConnect (boot page quiet_browser ∅) in
  let c2 := timer_step page quiet_browser 0 false (upd (set_status Connected)) c1 in
  represents c2 (Online 0) /\ duration (stats (st c2)) = "00:00:00".
Proof.
  cbn zeta. destruct session_refined as [Hb Hs].
  destruct (Hs (boot page quiet_browser ∅) Off (Hb quiet_browser ∅)) as [Htap _]. specialize (Htap quiet_browser).
  destruct (Hs (event_step page quiet_browser HandleConnect (boot page quiet_browser ∅)) Dialing Htap) as (_ & _ & Htime & _).
  split; [|reflexivity]. by eapply (Htime quiet_browser 0).
Defined.
