(* ===== verification/ServerListScreen.v ===== *)
(** * The server list of the client prototype ([components/ServerListScreen.tsx]) *)
From S2P Require Import Prelude JsStr JsNum JsVal React Effects Logic.
Local Open Scope string_scope.
Local Open Scope js_scope.

Record server := Server {
  id : string;
  flag : string;
  country : string;
  city : string;
  ping : Z;
}.

Definition servers : list server :=
  [Server "nl-ams" "🇳🇱" "Netherlands" "Amsterdam" 45;
   Server "de-fra" "🇩🇪" "Germany" "Frankfurt" 62;
   Server "us-ny" "🇺🇸" "United States" "New York" 128;
   Server "jp-tok" "🇯🇵" "Japan" "Tokyo" 210;
   Server "gb-lon" "🇬🇧" "United Kingdom" "London" 58;
   Server "fr-par" "🇫🇷" "France" "Paris" 52;
   Server "sg-sin" "🇸🇬" "Singapore" "Singapore" 185;
   Server "ca-tor" "🇨🇦" "Canada" "Toronto" 115].

Record state := State {
  searchQuery : string;
  selectedServer : string;
}.
Definition set_searchQuery (v : string) (s : state) : state :=
  State v (selectedServer s).
Definition set_selectedServer (v : string) (s : state) : state :=
  State (searchQuery s) v.

Definition init_state : state := State "" "nl-ams".

Inductive action : Type :=
| SetSearchQuery (value : string)
| HandleServerSelect (serverId : string)
| GoHome.

Definition handleServerSelect (serverId : string) : prog state unit :=
  do! upd (set_selectedServer serverId) in
  let! _ := setTimeout (navigate "/home") 300 in
  skip.

Definition handle (s : state) (a : action) : prog state unit :=
  match a with
  | SetSearchQuery v => upd (set_searchQuery v)
  | HandleServerSelect i => handleServerSelect i
  | GoHome => navigate "/home"
  end.

Definition page : component state action :=
  Component init_state skip handle (fun _ _ => skip).

Definition getPingColor (ping : Z) : string :=
  if (ping <? 80)%Z then "#00C853"
  else if (ping <? 150)%Z then "#FFB300"
  else "#FF3D57".

Section ServerListScreen.
Context `{Unicode}.

Definition filteredServers (s : state) : list server :=
  List.filter (fun server =>
    includes (toLowerCase (country server)) (toLowerCase (searchQuery s)) ||
    includes (toLowerCase (city server)) (toLowerCase (searchQuery s))) servers.

(** ** The view *)

Definition quick_connect : jsx action :=
  el "motion.button" ["whileHover" =: jobj [("scale", (dec "1.02"))];
     "whileTap" =: jobj [("scale", (dec "0.98"))];
     "onClick" =! HandleServerSelect (id (hd (Server "" "" "" "" 0) servers));
     "className" =: "w-full bg-gradient-to-r from-[#1A1D26] to-[#252830] hover:from-[#252830] hover:to-[#1A1D26] rounded-xl p-4 transition-all border border-[#00E5FF]/30"] [
    el "div" ["className" =: "flex items-center gap-3"] [
      el "div" ["className" =: "w-10 h-10 bg-[#00E5FF] rounded-full flex items-center justify-center"] [
        el "Zap" ["size" =: (int 20); "className" =: "text-[#0D0F14]"] []];
      el "div" ["className" =: "text-left flex-1"] [
        el "p" ["className" =: "text-[#F0F2F5] font-semibold"] [txt "Быстрое подключение"];
        el "p" ["className" =: "text-[#8B8F9A] text-sm"] [
          txt "Автоматический выбор лучшего сервера"]]]].

Definition server_row (s : state) (index : nat) (server : server) : jsx action :=
  el "motion.button" ["key" =: (id server);
     "initial" =: jobj [("opacity", (int 0)); ("y", (int 20))];
     "animate" =: jobj [("opacity", (int 1)); ("y", (int 0))];
     "transition" =: jobj [("delay", (int (Z.of_nat index)) .* (dec "0.05"))];
     "onClick" =! HandleServerSelect (id server);
     "className" =: tpl ["w-full rounded-xl p-4 transition-all flex items-center justify-between "; jcond ((selectedServer s) === (id server)) "bg-[#1A1D26] border-2 border-[#00E5FF]" "bg-[#1A1D26] hover:bg-[#252830] border-2 border-transparent"]] [
    el "div" ["className" =: "flex items-center gap-4"] [
      el "span" ["className" =: "text-4xl"] [put (flag server)];
      el "div" ["className" =: "text-left"] [
        el "p" ["className" =: "text-[#F0F2F5] font-semibold"] [put (country server)];
        el "p" ["className" =: "text-[#8B8F9A] text-sm"] [put (city server)]]];
    el "div" ["className" =: "flex items-center gap-3"] [
      el "div" ["className" =: "w-2 h-2 rounded-full";
         "style" =: jobj [("backgroundColor", (getPingColor (ping server)))]] [];
      el "span" ["className" =: "font-mono text-sm font-medium";
         "style" =: jobj [("color", (getPingColor (ping server)))]] [
        put (int (ping server));
        txt "ms"]]].

Definition view (s : state) : jsx action :=
  el "div" ["className" =: "min-h-screen w-full bg-[#0D0F14] flex flex-col"] [
    el "div" ["className" =: "p-6 space-y-4"] [
      el "div" ["className" =: "flex items-center gap-4"] [
        el "button" ["onClick" =! GoHome;
           "className" =: "p-2 hover:bg-[#1A1D26] rounded-lg transition-colors"] [
          el "ArrowLeft" ["className" =: "text-[#F0F2F5]"; "size" =: (int 24)] []];
        el "h1" ["className" =: "text-2xl font-semibold text-[#F0F2F5]"] [txt "Выберите сервер"]];
      el "div" ["className" =: "relative"] [
        el "Search" ["className" =: "absolute left-4 top-1/2 -translate-y-1/2 text-[#8B8F9A]";
           "size" =: (int 18)] [];
        el "input" ["type" =: "text";
           "value" =: (searchQuery s);
           onE "onChange" (fun e => SetSearchQuery (ev_value e));
           "placeholder" =: "Поиск по стране...";
           "className" =: "w-full bg-[#252830] text-[#F0F2F5] pl-12 pr-4 py-3 rounded-xl border-2 border-transparent focus:border-[#00E5FF] focus:shadow-[0_0_20px_rgba(0,229,255,0.2)] transition-all outline-none"] []]];
    el "div" ["className" =: "flex-1 overflow-y-auto px-6 pb-6 space-y-3"] [
      quick_connect;
      el "div" ["className" =: "space-y-2"] [
        each_in (filteredServers s) (fun index server =>
          server_row s index server)]]].

End ServerListScreen.

(** ** Search and selection *)

Section Search.
Context `{Unicode}.

Lemma filtered_in s x :
  x ∈ filteredServers s <->
  x ∈ servers /\
  (includes (toLowerCase (country x)) (toLowerCase (searchQuery s)) ||
   includes (toLowerCase (city x)) (toLowerCase (searchQuery s))) = true.
Proof. unfold filteredServers. rewrite !list_elem_of_In. apply List.filter_In. Qed.

(** Searching by an ASCII text: case does not matter, the empty text shows
    every server, and typing more only narrows the list, whatever the rest of
    the Unicode tables says. *)
Theorem search_narrows (s : state) (q r : string) :
  is_ascii (q +:+ r) = true ->
  filteredServers (set_searchQuery "" s) = servers /\
  filteredServers (set_searchQuery (lower_ascii q) s) = filteredServers (set_searchQuery q s) /\
  forall x, x ∈ filteredServers (set_searchQuery (q +:+ r) s) ->
            x ∈ filteredServers (set_searchQuery q s).
Proof.
  intros Ha. pose proof Ha as Ha'. rewrite is_ascii_app, andb_true_iff in Ha'. destruct Ha' as [Hq _].
  split; [|split].
  - unfold filteredServers. cbn [searchQuery set_searchQuery].
    rewrite (toLowerCase_ascii "") by done. cbn [lower_ascii].
    rewrite (List.filter_ext _ (fun _ => true)); [reflexivity|].
    intros x. by rewrite includes_empty.
  - unfold filteredServers. cbn [searchQuery set_searchQuery].
    rewrite !(toLowerCase_ascii (lower_ascii q)), !(toLowerCase_ascii q) by
      (done || by rewrite is_ascii_lower). by rewrite lower_idempotent.
  - intros x. rewrite !filtered_in. cbn [searchQuery set_searchQuery].
    rewrite (toLowerCase_ascii _ Ha), (toLowerCase_ascii _ Hq), lower_app, !orb_true_iff.
    intros [Hin [Hc|Hc]]; (split; [done|]); apply includes_app in Hc; auto.
Qed.
End Search.

(** The ASCII tables alone. *)
Definition ascii_unicode : Unicode := Build_Unicode lower_ascii (fun _ _ => eq_refl).

Lemma search_narrows_witness :
  map id (filteredServers (H:=ascii_unicode) (set_searchQuery "SiNg" init_state)) = ["sg-sin"] /\
  filteredServers (H:=ascii_unicode) (set_searchQuery "" init_state) = servers.
Proof.
  split; [reflexivity|].
  apply (search_narrows (H:=ascii_unicode) init_state "Si" "Ng"). reflexivity.
Defined.

(** The quick-connect row picks a server no other server beats in ping;
    selecting any server marks it and goes back to [/home] after one timer. *)
Theorem quick_connect_best :
  (exists ns best,
     quick_connect = Ok ns /\
     map (fun n => fire "onClick" (Event "" "" false false) n) (find_all clickable ns) =
       [Some (HandleServerSelect (id best))] /\
     best ∈ servers /\ Forall (fun x => (ping best <= ping x)%Z) servers) /\
  forall io i (c : conf state),
    let c' := event_step page io (HandleServerSelect i) c in
    selectedServer (st c') = i /\
    pend c' = (pend c ++ [(next c, Timer false 300 (navigate "/home"))])%list /\ log c' = log c.
Proof.
  split; [|done]. eexists _, (Server "nl-ams" "🇳🇱" "Netherlands" "Amsterdam" 45).
  split; [reflexivity|]. split; [reflexivity|]. split; [by left|].
  repeat constructor; cbn; lia.
Qed.
