(* ===== verification/SettingsScreen.v ===== *)
(** * The settings of the client prototype ([components/SettingsScreen.tsx]) *)
From S2P Require Import Prelude JsStr JsNum JsVal React Effects Logic SplashScreen.
Local Open Scope string_scope.
Local Open Scope js_scope.

Inductive theme_t : Type := Light | Dark | System.
Definition theme_str (t : theme_t) : string :=
  match t with Light => "light" | Dark => "dark" | System => "system" end.

Record state := State {
  killSwitch : bool;
  netShield : bool;
  language : val;
  theme : theme_t;
}.
Definition set_killSwitch (v : bool) (s : state) : state :=
  State v (netShield s) (language s) (theme s).
Definition set_netShield (v : bool) (s : state) : state :=
  State (killSwitch s) v (language s) (theme s).
Definition set_language (v : val) (s : state) : state :=
  State (killSwitch s) (netShield s) v (theme s).
Definition set_theme (v : theme_t) (s : state) : state :=
  State (killSwitch s) (netShield s) (language s) v.

Definition init_state : state := State true true (VStr "Русский") Dark.

Inductive action : Type :=
| HandleChangeKey
| HandleInvite
| HandleFeedback
| SetKillSwitch (b : bool)
| SetNetShield (b : bool)
| NextLanguage
| SetTheme (t : theme_t)
| GoHome
| GoSplitTunneling.

Definition handleChangeKey : prog state unit :=
  do! do_ (CRemoveItem SplashScreen.key_item) in
  do_ (CNavigate "/onboarding" true).
Definition handleInvite : prog state unit :=
  alert "Открывается реферальная ссылка в Telegram-бот".
Definition handleFeedback : prog state unit :=
  alert "Форма обратной связи будет отправлена в Telegram-бот".

(** [langs.indexOf(x)], -1 when absent; [langs[i]], [undefined] out of range. *)
Fixpoint indexOf_from (i : Z) (l : list val) (x : val) : Z :=
  match l with
  | [] => -1
  | y :: l' => if strict_eq y x then i else indexOf_from (i + 1) l' x
  end.
Definition index_val (l : list val) (i : Z) : val :=
  if (i <? 0)%Z then VUndef else default VUndef (l !! Z.to_nat i).

Definition langs : list val := ["Русский"; "English"; "Deutsch"].
Definition next_language (language : val) : val :=
  let currentIndex := indexOf_from 0 langs language in
  index_val langs (Z.rem (currentIndex + 1) (Z.of_nat (length langs))).

Definition handle (s : state) (a : action) : prog state unit :=
  match a with
  | HandleChangeKey => handleChangeKey
  | HandleInvite => handleInvite
  | HandleFeedback => handleFeedback
  | SetKillSwitch b => upd (set_killSwitch b)
  | SetNetShield b => upd (set_netShield b)
  | NextLanguage => upd (set_language (next_language (language s)))
  | SetTheme t => upd (set_theme t)
  | GoHome => navigate "/home"
  | GoSplitTunneling => navigate "/split-tunneling"
  end.

Definition page : component state action :=
  Component init_state skip handle (fun _ _ => skip).

(** ** The view *)

Definition connection_section (s : state) : jsx action :=
  el "div" ["className" =: "space-y-3"] [
    el "h2" ["className" =: "text-[#8B8F9A] text-sm font-semibold uppercase tracking-wider"] [
      txt "Соединение"];
    el "div" ["className" =: "bg-[#1A1D26] rounded-xl p-4 flex items-center justify-between"] [
      el "div" ["className" =: "flex items-center gap-3"] [
        el "Shield" ["className" =: "text-[#00E5FF]"; "size" =: (int 20)] [];
        el "div" [] [
          el "p" ["className" =: "text-[#F0F2F5] font-medium"] [txt "Kill Switch"];
          el "p" ["className" =: "text-[#8B8F9A] text-sm"] [
            txt "Блокировать интернет при обрыве VPN"]]];
      el "button" ["onClick" =! SetKillSwitch (negb (killSwitch s));
         "className" =: tpl ["relative w-14 h-8 rounded-full transition-all "; jcond (killSwitch s) "bg-[#00E5FF]" "bg-[#252830]"]] [
        el "motion.div" ["className" =: "absolute top-1 w-6 h-6 bg-white rounded-full shadow-lg";
           "animate" =: jobj [("x", jcond (killSwitch s) (int 30) (int 4))];
           "transition" =: jobj [("type", "spring"); ("stiffness", (int 500)); ("damping", (int 30))]] []]];
    el "div" ["className" =: "bg-[#1A1D26] rounded-xl p-4 flex items-center justify-between"] [
      el "div" ["className" =: "flex items-center gap-3"] [
        el "ShieldOff" ["className" =: "text-[#00E5FF]"; "size" =: (int 20)] [];
        el "div" [] [
          el "p" ["className" =: "text-[#F0F2F5] font-medium"] [txt "NetShield"];
          el "p" ["className" =: "text-[#8B8F9A] text-sm"] [txt "Блокировка рекламы и трекеров"]]];
      el "button" ["onClick" =! SetNetShield (negb (netShield s));
         "className" =: tpl ["relative w-14 h-8 rounded-full transition-all "; jcond (netShield s) "bg-[#00E5FF]" "bg-[#252830]"]] [
        el "motion.div" ["className" =: "absolute top-1 w-6 h-6 bg-white rounded-full shadow-lg";
           "animate" =: jobj [("x", jcond (netShield s) (int 30) (int 4))];
           "transition" =: jobj [("type", "spring"); ("stiffness", (int 500)); ("damping", (int 30))]] []]];
    el "button" ["onClick" =! GoSplitTunneling;
       "className" =: "w-full bg-[#1A1D26] hover:bg-[#252830] rounded-xl p-4 flex items-center justify-between transition-all"] [
      el "div" ["className" =: "flex items-center gap-3"] [
        el "Globe" ["className" =: "text-[#00E5FF]"; "size" =: (int 20)] [];
        el "div" ["className" =: "text-left"] [
          el "p" ["className" =: "text-[#F0F2F5] font-medium"] [txt "Split Tunneling"];
          el "p" ["className" =: "text-[#8B8F9A] text-sm"] [txt "Раздельное туннелирование"]]];
      el "ChevronRight" ["className" =: "text-[#8B8F9A]"; "size" =: (int 20)] []]].

Definition theme_block (s : state) : jsx action :=
  el "div" ["className" =: "bg-[#1A1D26] rounded-xl p-4"] [
    el "div" ["className" =: "flex items-center gap-3 mb-3"] [
      el "Palette" ["className" =: "text-[#00E5FF]"; "size" =: (int 20)] [];
      el "p" ["className" =: "text-[#F0F2F5] font-medium"] [txt "Тема оформления"]];
    el "div" ["className" =: "flex gap-2"] [
      each_in [Light; Dark; System] (fun _ t =>
        el "button" ["key" =: (theme_str t);
           "onClick" =! SetTheme t;
           "className" =: tpl ["flex-1 py-2 rounded-lg text-sm font-medium transition-all "; jcond ((theme_str (theme s)) === (theme_str t)) "bg-[#00E5FF] text-[#0D0F14]" "bg-[#252830] text-[#8B8F9A] hover:text-[#F0F2F5]"]] [
          put (jcond ((theme_str t) === "light") "Светлая" (jcond ((theme_str t) === "dark") "Тёмная" "Системная"))])]].

Definition interface_section (s : state) : jsx action :=
  el "div" ["className" =: "space-y-3"] [
    el "h2" ["className" =: "text-[#8B8F9A] text-sm font-semibold uppercase tracking-wider"] [
      txt "Интерфейс"];
    el "button" ["onClick" =! NextLanguage;
       "className" =: "w-full bg-[#1A1D26] hover:bg-[#252830] rounded-xl p-4 flex items-center justify-between transition-all"] [
      el "div" ["className" =: "flex items-center gap-3"] [
        el "Globe" ["className" =: "text-[#00E5FF]"; "size" =: (int 20)] [];
        el "p" ["className" =: "text-[#F0F2F5] font-medium"] [txt "Язык"]];
      el "div" ["className" =: "flex items-center gap-2"] [
        el "span" ["className" =: "text-[#8B8F9A]"] [put (language s)];
        el "ChevronRight" ["className" =: "text-[#8B8F9A]"; "size" =: (int 20)] []]];
    theme_block s].

Definition account_section : jsx action :=
  el "div" ["className" =: "space-y-3"] [
    el "h2" ["className" =: "text-[#8B8F9A] text-sm font-semibold uppercase tracking-wider"] [
      txt "Аккаунт"];
    el "div" ["className" =: "bg-[#1A1D26] rounded-xl p-4"] [
      el "div" ["className" =: "flex items-center gap-3 mb-3"] [
        el "Key" ["className" =: "text-[#00E5FF]"; "size" =: (int 20)] [];
        el "div" ["className" =: "flex-1"] [
          el "p" ["className" =: "text-[#F0F2F5] font-medium"] [txt "Текущий ключ"];
          el "p" ["className" =: "text-[#8B8F9A] text-xs font-mono"] [txt "shade://eyJ...7a3F"]]];
      el "button" ["onClick" =! HandleChangeKey;
         "className" =: "w-full py-2 bg-[#252830] hover:bg-[#FF3D57] text-[#F0F2F5] rounded-lg transition-all text-sm font-medium"] [
        txt "Сменить ключ"]];
    el "button" ["onClick" =! HandleInvite;
       "className" =: "w-full bg-[#1A1D26] hover:bg-[#252830] rounded-xl p-4 flex items-center justify-between transition-all"] [
      el "div" ["className" =: "flex items-center gap-3"] [
        el "UserPlus" ["className" =: "text-[#00E5FF]"; "size" =: (int 20)] [];
        el "p" ["className" =: "text-[#F0F2F5] font-medium"] [txt "Пригласить друга"]];
      el "ChevronRight" ["className" =: "text-[#8B8F9A]"; "size" =: (int 20)] []]].

Definition support_section : jsx action :=
  el "div" ["className" =: "space-y-3"] [
    el "h2" ["className" =: "text-[#8B8F9A] text-sm font-semibold uppercase tracking-wider"] [
      txt "Поддержка"];
    el "button" ["onClick" =! HandleFeedback;
       "className" =: "w-full bg-[#1A1D26] hover:bg-[#252830] rounded-xl p-4 flex items-center justify-between transition-all"] [
      el "div" ["className" =: "flex items-center gap-3"] [
        el "MessageSquare" ["className" =: "text-[#00E5FF]"; "size" =: (int 20)] [];
        el "p" ["className" =: "text-[#F0F2F5] font-medium"] [txt "Помогите нам стать лучше"]];
      el "ChevronRight" ["className" =: "text-[#8B8F9A]"; "size" =: (int 20)] []];
    el "button" ["className" =: "w-full bg-[#1A1D26] hover:bg-[#252830] rounded-xl p-4 flex items-center justify-between transition-all"] [
      el "div" ["className" =: "flex items-center gap-3"] [
        el "Info" ["className" =: "text-[#00E5FF]"; "size" =: (int 20)] [];
        el "div" ["className" =: "text-left"] [
          el "p" ["className" =: "text-[#F0F2F5] font-medium"] [txt "О приложении"];
          el "p" ["className" =: "text-[#8B8F9A] text-xs"] [txt "Версия 1.0.0"]]];
      el "ChevronRight" ["className" =: "text-[#8B8F9A]"; "size" =: (int 20)] []]].

Definition view (s : state) : jsx action :=
  el "div" ["className" =: "min-h-screen w-full bg-[#0D0F14] flex flex-col"] [
    el "div" ["className" =: "p-6"] [
      el "div" ["className" =: "flex items-center gap-4 mb-6"] [
        el "button" ["onClick" =! GoHome;
           "className" =: "p-2 hover:bg-[#1A1D26] rounded-lg transition-colors"] [
          el "ArrowLeft" ["className" =: "text-[#F0F2F5]"; "size" =: (int 24)] []];
        el "h1" ["className" =: "text-2xl font-semibold text-[#F0F2F5]"] [txt "Настройки"]]];
    el "div" ["className" =: "flex-1 overflow-y-auto px-6 pb-6 space-y-6"] [
      connection_section s;
      interface_section s;
      account_section;
      support_section]].

(** ** The language cycle *)

Lemma next_language_in l : l ∈ langs -> next_language l ∈ langs.
Proof.
  rewrite !list_elem_of_In. cbn. intros [<-|[<-|[<-|[]]]]; vm_compute; auto.
Qed.

(** The language shown is always one of the three offered (the index
    never runs off the list, whatever is tapped in whatever order), every
    language is reached, and three taps come back to the first. *)
Theorem language_cycles c :
  reachable page c ->
  language (st c) ∈ langs /\
  next_language (next_language (next_language (language (st c)))) = language (st c) /\
  (forall l, l ∈ langs -> l = language (st c) \/ l = next_language (language (st c)) \/
                          l = next_language (next_language (language (st c)))).
Proof.
  intros Hr. assert (language (st c) ∈ langs) as Hin.
  { apply (reachable_within page (fun s => language s ∈ langs) (fun _ => True)); [|done].
    split; [by left|done| |done]. intros s a Hs.
    destruct a; cbn [page c_handle handle]; unfold handleChangeKey, handleInvite, handleFeedback;
      repeat within_step; try done.
    intros s' _. cbn. by apply next_language_in. }
  split; [done|]. revert Hin. generalize (language (st c)). intros l Hl.
  rewrite list_elem_of_In in Hl. cbn in Hl.
  destruct Hl as [<-|[<-|[<-|[]]]]; (split; [vm_compute; reflexivity|]);
    intros l'; rewrite list_elem_of_In; cbn;
    intros [<-|[<-|[<-|[]]]]; vm_compute; auto.
Qed.

Lemma language_cycles_witness :
  reachable page (boot page quiet_browser ∅) /\
  next_language (next_language (next_language "Русский")) = "Русский".
Proof.
  split; [apply reach_boot|].
  apply (language_cycles (boot page quiet_browser ∅) (reach_boot page quiet_browser ∅)).
Defined.
