(* ===== verification/SplitTunnelingScreen.v ===== *)
(** * Split tunneling in the client prototype
    ([components/SplitTunnelingScreen.tsx]) *)
From S2P Require Import Prelude JsStr JsNum JsVal React Effects Logic.
Local Open Scope string_scope.
Local Open Scope js_scope.

Record app := App { id : string; name : string; icon : string; enabled : bool }.

Definition mockApps : list app :=
  [App "chrome" "Chrome" "🌐" false;
   App "telegram" "Telegram" "✈️" true;
   App "whatsapp" "WhatsApp" "💬" false;
   App "instagram" "Instagram" "📷" true;
   App "youtube" "YouTube" "📺" false;
   App "spotify" "Spotify" "🎵" false;
   App "netflix" "Netflix" "🎬" false;
   App "gmail" "Gmail" "📧" false;
   App "maps" "Google Maps" "🗺️" false;
   App "twitter" "Twitter" "🐦" false].

Record state := State {
  searchQuery : string;
  apps : list app;
}.
Definition set_searchQuery (v : string) (s : state) : state :=
  State v (apps s).
Definition set_apps (v : list app) (s : state) : state :=
  State (searchQuery s) v.

Definition init_state : state := State "" mockApps.

Inductive action : Type :=
| SetSearchQuery (value : string)
| ToggleApp (appId : string)
| GoSettings.

Definition flip (appId : string) (a : app) : app :=
  if String.eqb (id a) appId then App (id a) (name a) (icon a) (negb (enabled a)) else a.
Definition toggleApp (appId : string) : prog state unit :=
  upd (fun s => set_apps (map (flip appId) (apps s)) s).

Definition handle (s : state) (a : action) : prog state unit :=
  match a with
  | SetSearchQuery v => upd (set_searchQuery v)
  | ToggleApp i => toggleApp i
  | GoSettings => navigate "/settings"
  end.

Definition page : component state action :=
  Component init_state skip handle (fun _ _ => skip).

Section SplitTunnelingScreen.
Context `{Unicode}.

Definition filteredApps (s : state) : list app :=
  List.filter (fun app =>
    includes (toLowerCase (name app)) (toLowerCase (searchQuery s))) (apps s).

(** ** The view *)

Definition app_row (index : nat) (app : app) : jsx action :=
  el "motion.div" ["key" =: (id app);
     "initial" =: jobj [("opacity", (int 0)); ("y", (int 20))];
     "animate" =: jobj [("opacity", (int 1)); ("y", (int 0))];
     "transition" =: jobj [("delay", (int (Z.of_nat index)) .* (dec "0.03"))];
     "className" =: "bg-[#1A1D26] rounded-xl p-4 flex items-center justify-between"] [
    el "div" ["className" =: "flex items-center gap-3"] [
      el "div" ["className" =: "w-12 h-12 bg-[#252830] rounded-xl flex items-center justify-center text-2xl"] [
        put (icon app)];
      el "p" ["className" =: "text-[#F0F2F5] font-medium"] [put (name app)]];
    el "button" ["onClick" =! ToggleApp (id app);
       "className" =: tpl ["relative w-14 h-8 rounded-full transition-all "; jcond (enabled app) "bg-[#00E5FF]" "bg-[#252830]"]] [
      el "motion.div" ["className" =: "absolute top-1 w-6 h-6 bg-white rounded-full shadow-lg";
         "animate" =: jobj [("x", jcond (enabled app) (int 30) (int 4))];
         "transition" =: jobj [("type", "spring"); ("stiffness", (int 500)); ("damping", (int 30))]] []]].

Definition view (s : state) : jsx action :=
  el "div" ["className" =: "min-h-screen w-full bg-[#0D0F14] flex flex-col"] [
    el "div" ["className" =: "p-6 space-y-4"] [
      el "div" ["className" =: "flex items-center gap-4"] [
        el "button" ["onClick" =! GoSettings;
           "className" =: "p-2 hover:bg-[#1A1D26] rounded-lg transition-colors"] [
          el "ArrowLeft" ["className" =: "text-[#F0F2F5]"; "size" =: (int 24)] []];
        el "div" [] [
          el "h1" ["className" =: "text-2xl font-semibold text-[#F0F2F5]"] [
            txt "Выберите приложения"];
          el "p" ["className" =: "text-[#8B8F9A] text-sm"] [
            txt "Эти приложения будут работать в обход VPN"]]];
      el "div" ["className" =: "relative"] [
        el "Search" ["className" =: "absolute left-4 top-1/2 -translate-y-1/2 text-[#8B8F9A]";
           "size" =: (int 18)] [];
        el "input" ["type" =: "text";
           "value" =: (searchQuery s);
           onE "onChange" (fun e => SetSearchQuery (ev_value e));
           "placeholder" =: "Поиск приложений...";
           "className" =: "w-full bg-[#252830] text-[#F0F2F5] pl-12 pr-4 py-3 rounded-xl border-2 border-transparent focus:border-[#00E5FF] focus:shadow-[0_0_20px_rgba(0,229,255,0.2)] transition-all outline-none"] []]];
    el "div" ["className" =: "flex-1 overflow-y-auto px-6 pb-6 space-y-2"] [
      each_in (filteredApps s) (fun index app =>
        app_row index app)];
    el "div" ["className" =: "p-6 pt-0"] [
      el "div" ["className" =: "bg-[#1A1D26] rounded-xl p-4 border border-[#00E5FF]/30"] [
        el "p" ["className" =: "text-[#8B8F9A] text-sm text-center"] [
          txt "Включенные приложения будут обходить VPN и использовать прямое подключение к интернету"]]]].

End SplitTunnelingScreen.

(** ** Toggling *)

Lemma flip_id i a : id (flip i a) = id a.
Proof. unfold flip. by destruct (String.eqb (id a) i). Qed.

Lemma flip_twice i a : flip i (flip i a) = a.
Proof.
  unfold flip at 1. rewrite flip_id. destruct (String.eqb (id a) i) eqn:E.
  - unfold flip. rewrite E. cbn. rewrite negb_involutive. by destruct a.
  - unfold flip. by rewrite E.
Qed.

(** In every reachable state the list holds the same apps in the same
    order; toggling one changes the [enabled] flag of exactly the app with that
    id, and toggling it again restores the list. *)
Theorem toggles_are_local c io i :
  reachable page c ->
  let c' := event_step page io (ToggleApp i) c in
  map id (apps (st c)) = map id mockApps /\
  (forall n a, apps (st c) !! n = Some a ->
     exists a', apps (st c') !! n = Some a' /\ id a' = id a /\ name a' = name a /\
       icon a' = icon a /\
       enabled a' = if String.eqb (id a) i then negb (enabled a) else enabled a) /\
  apps (st (event_step page io (ToggleApp i) c')) = apps (st c) /\
  searchQuery (st c') = searchQuery (st c) /\ log c' = log c.
Proof.
  intros Hr. cbn zeta.
  assert (map id (apps (st c)) = map id mockApps) as Hids.
  { apply (reachable_within page (fun s => map id (apps s) = map id mockApps) (fun _ => True)); [|done].
    split; [done|done| |done]. intros s a Hs.
    destruct a; cbn [page c_handle handle]; unfold toggleApp; repeat within_step; try done.
    intros s' Hs'. cbn [set_apps apps]. rewrite map_map. transitivity (map id (apps s')); [|done].
    apply map_ext, flip_id. }
  split; [done|]. unfold event_step, commit_after. cbn. split; [|split; [|done]].
  - intros n a Ha. exists (flip i a). split.
    + change (map (flip i) (apps (st c))) with (flip i <$> apps (st c)).
      by rewrite list_lookup_fmap, Ha.
    + unfold flip. by destruct (String.eqb (id a) i).
  - rewrite map_map. transitivity (map (fun a => a) (apps (st c))); [|apply map_id].
    apply map_ext, flip_twice.
Qed.

Lemma toggles_are_local_witness :
  reachable page (boot page quiet_browser ∅) /\
  map enabled (apps (st (event_step page quiet_browser (ToggleApp "chrome") (boot page quiet_browser ∅))))
    = [true; true; false; true; false; false; false; false; false; false] /\
  map id (apps (st (boot page quiet_browser ∅))) = map id mockApps.
Proof.
  split; [apply reach_boot|]. split; [reflexivity|].
  apply (toggles_are_local (boot page quiet_browser ∅) quiet_browser "chrome"
           (reach_boot page quiet_browser ∅)).
Defined.
