(* ===== verification/ClientApp.v ===== *)
(** * The routes of the client prototype ([App.tsx]) *)
From S2P Require Import Prelude JsStr JsNum JsVal React Effects Logic RouterMachine.
From S2P Require SplashScreen OnboardingScreen HomeScreen ServerListScreen SettingsScreen SplitTunnelingScreen.
Local Open Scope string_scope.
Local Open Scope js_scope.

Inductive screen : Type :=
| SplashScreen | OnboardingScreen | HomeScreen | ServerListScreen | SettingsScreen
| SplitTunnelingScreen.
#[export] Instance screen_eq_dec : EqDecision screen.
Proof. solve_decision. Defined.

Definition routes : list (string * route_element screen) :=
  [("/", Screen SplashScreen);
   ("/onboarding", Screen OnboardingScreen);
   ("/home", Screen HomeScreen);
   ("/servers", Screen ServerListScreen);
   ("/settings", Screen SettingsScreen);
   ("/split-tunneling", Screen SplitTunnelingScreen);
   ("*", NavigateTo "/" true)].

(** The route the router mounts: a path of its own, otherwise the wildcard. *)
Definition wildcard (r : string * route_element screen) : bool := String.eqb (fst r) "*".
Definition match_route `{Matcher} (path : string) : option (route_element screen) :=
  match first_match fst (List.filter (fun r => negb (wildcard r)) routes) path with
  | Some r => Some (snd r)
  | None => option_map snd (List.find wildcard routes)
  end.

(** A path of the table is its screen's. *)
Lemma match_path `{MatcherLaws} p s : (p, Screen s) ∈ routes -> match_route p = Some (Screen s).
Proof.
  intros Hr. unfold match_route.
  assert ((p, Screen s) ∈ List.filter (fun r => negb (wildcard r)) routes) as Hin.
  { apply list_elem_of_In, List.filter_In. split; [by apply list_elem_of_In|]. unfold routes in Hr.
    by repeat (apply elem_of_cons in Hr as [Hr|Hr]; [by simplify_eq|]); apply elem_of_nil in Hr. }
  rewrite (first_match_is fst _ (p, Screen s)); [done|by apply (bool_decide_unpack _)|done|].
  apply matches_same. clear Hin. unfold routes in Hr.
  by repeat (apply elem_of_cons in Hr as [Hr|Hr]; [by simplify_eq|]); apply elem_of_nil in Hr.
Qed.

Lemma match_start `{MatcherLaws} : match_route "/" = Some (Screen SplashScreen).
Proof. apply match_path, list_elem_of_here. Qed.

Lemma match_home `{MatcherLaws} : match_route "/home" = Some (Screen HomeScreen).
Proof. apply match_path. unfold routes. do 2 apply list_elem_of_further. apply list_elem_of_here. Qed.
Lemma match_servers `{MatcherLaws} : match_route "/servers" = Some (Screen ServerListScreen).
Proof. apply match_path. unfold routes. do 3 apply list_elem_of_further. apply list_elem_of_here. Qed.
Lemma match_settings `{MatcherLaws} : match_route "/settings" = Some (Screen SettingsScreen).
Proof. apply match_path. unfold routes. do 4 apply list_elem_of_further. apply list_elem_of_here. Qed.

(** Following [<Navigate>] elements, at most [fuel] of them. *)
Fixpoint resolve `{Matcher} (fuel : nat) (path : string) : option screen :=
  match match_route path with
  | Some (Screen s) => Some s
  | Some (NavigateTo p _) => match fuel with O => None | Datatypes.S n => resolve n p end
  | None => None
  end.

Definition view (current : jsx Empty_set) : jsx Empty_set :=
  el "BrowserRouter" [] [
    el "div" ["className" =: "size-full flex items-center justify-center bg-[#0D0F14]"] [
      el "div" ["className" =: "w-full max-w-md h-full relative overflow-hidden shadow-2xl"] [
        current]]].

(** ** Where the screens lead *)

(** A path with a screen of its own. *)
Definition named `{Matcher} (path : string) : Prop := exists s, match_route path = Some (Screen s).

Lemma match_route_cases `{Matcher} path :
  named path \/ match_route path = Some (NavigateTo "/" true).
Proof.
  unfold named, match_route. destruct (first_match _ _ path) as [[k e]|] eqn:E; [|by right].
  apply first_match_in in E as [Hin _]. cbn in Hin.
  by repeat (apply elem_of_cons in Hin as [[= -> ->]|Hin]; [left; by eexists|]); apply elem_of_nil in Hin.
Qed.

Ltac named_path :=
  eexists; apply match_path; unfold routes; repeat first [apply list_elem_of_here|apply list_elem_of_further].

Section Leads.
Context `{MatcherLaws}.

Definition client_obs (o : obs) : Prop :=
  match o with OCall (CNavigate p _) => named p | OSend _ => False | _ => True end.

Local Abbreviation stays C := (behaves C (fun _ => True) client_obs).

Ltac head_of p := lazymatch p with ?f _ => head_of f | _ => p end.

(** Unfold a handler and apply the structural rules; each navigation leaves the
    obligation that its target is named. *)
Ltac screen_step :=
  repeat lazymatch goal with
  | |- within _ _ ?p => first [within_step | let h := head_of p in unfold h]
  end;
  first [done | named_path].

Lemma splash_stays : stays SplashScreen.page.
Proof.
  unfold SplashScreen.page. split; [done| | |done].
  - unfold SplashScreen.mount, SplashScreen.on_timer. cbn [c_mount]. repeat within_step; try done.
    destruct (truthy _); named_path.
  - intros s [] _. cbn [c_handle SplashScreen.handle]. unfold SplashScreen.cleanup.
    repeat within_step.
Qed.

Lemma onboarding_stays : stays OnboardingScreen.page.
Proof.
  unfold OnboardingScreen.page. split; [done|done| |done].
  intros s a _. cbn [c_handle]. destruct a; screen_step.
Qed.

Lemma home_stays : stays HomeScreen.page.
Proof.
  unfold HomeScreen.page. split; [done|done| |].
  - intros s a _. cbn [c_handle]. destruct a; screen_step.
  - intros s s' _ _. cbn [c_commit]. screen_step.
Qed.

Lemma servers_stays : stays ServerListScreen.page.
Proof.
  unfold ServerListScreen.page. split; [done|done| |done].
  intros s a _. cbn [c_handle]. destruct a; screen_step.
Qed.

Lemma settings_stays : stays SettingsScreen.page.
Proof.
  unfold SettingsScreen.page. split; [done|done| |done].
  intros s a _. cbn [c_handle]. destruct a; screen_step.
Qed.

Lemma split_stays : stays SplitTunnelingScreen.page.
Proof.
  unfold SplitTunnelingScreen.page. split; [done|done| |done].
  intros s a _. cbn [c_handle]. destruct a; screen_step.
Qed.

Definition stays_in_app {S A} (C : component S A) : Prop :=
  forall c, reachable C c ->
    sent (log c) = [] /\ (forall p replace, OCall (CNavigate p replace) ∈ log c -> named p).

Lemma stays_app {S A} (C : component S A) : stays C -> stays_in_app C.
Proof.
  intros HC c Hr. destruct (reachable_within C _ _ HC c Hr) as [_ _ Hlog].
  split.
  - clear Hr. induction Hlog as [|o l Ho _ IH]; [done|]. by destruct o.
  - rewrite Forall_forall in Hlog. intros p b Hin. by apply Hlog in Hin.
Qed.

(** In every reachable state of every screen of the prototype, each
    navigation so far went to a path that has a screen of its own, so the
    wildcard redirect is never taken by the app itself; nothing is ever sent
    to a server; and any other path redirects to the splash screen in one
    step. *)
Theorem client_stays_in_app :
  (stays_in_app SplashScreen.page /\ stays_in_app OnboardingScreen.page /\
   stays_in_app HomeScreen.page /\ stays_in_app ServerListScreen.page /\
   stays_in_app SettingsScreen.page /\ stays_in_app SplitTunnelingScreen.page) /\
  forall path, exists s, resolve 1 path = Some s /\ (named path \/ s = SplashScreen).
Proof.
  split.
  - repeat match goal with |- _ /\ _ => split end; apply stays_app;
      auto using splash_stays, onboarding_stays, home_stays, servers_stays, settings_stays, split_stays.
  - intros path. cbn [resolve]. destruct (match_route_cases path) as [[s E]|E]; rewrite E.
    + exists s. split; [done|]. left. by exists s.
    + exists SplashScreen. split; [|by right]. by rewrite match_start.
Qed.
End Leads.
