(* ===== verification/ClientKey.v ===== *)
(** * The connection key, from its activation to its removal

    Three screens of the prototype share the stored key: the onboarding screen
    writes it, the splash screen reads it at the next start, the settings
    screen removes it.  They meet in the local storage only. *)
From S2P Require Import Prelude JsStr JsNum JsVal React Effects Logic Storage.
From S2P Require SplashScreen OnboardingScreen HomeScreen ServerListScreen SettingsScreen SplitTunnelingScreen ClientApp.
Local Open Scope string_scope.
Import SplashScreen(key_item).

(** Where the application goes when it is started on a storage: the splash
    screen is mounted and its timer expires. *)
Definition start_log (io io' : inputs) (s : gmap string string) : list obs :=
  log (timer_step SplashScreen.page io' 0 false SplashScreen.on_timer (boot SplashScreen.page io s)).
Definition starts_at (s : gmap string string) (path : string) : Prop :=
  forall io io', SplashScreen.navs (start_log io io' s) = [OCall (CNavigate path true)].

Lemma starts_at_destination s : starts_at s (SplashScreen.destination s).
Proof.
  intros io io'. unfold start_log, timer_step, commit_after. cbn [SplashScreen.page c_commit run skip].
  rewrite SplashScreen.run_on_timer. done.
Qed.

Lemma acceptable_truthy k : OnboardingScreen.acceptable k = true -> str_truthy k = true.
Proof. by destruct k. Qed.

(** What the screens may do to the storage. *)
Definition leaves_storage (o : obs) : Prop :=
  match o with OCall (CSetItem _ _) | OCall (CRemoveItem _) => False | _ => True end.
Definition removes_key (o : obs) : Prop :=
  match o with OCall (CSetItem _ _) => False | OCall (CRemoveItem k) => k = key_item | _ => True end.
Definition stores_key (o : obs) : Prop :=
  match o with
  | OCall (CSetItem k v) => k = key_item /\ OnboardingScreen.acceptable v = true
  | OCall (CRemoveItem _) => False
  | _ => True
  end.

Local Abbreviation does C R := (behaves C (fun _ => True) R).
Ltac head_of p := lazymatch p with ?f _ => head_of f | _ => p end.
Ltac storage_step :=
  repeat lazymatch goal with
  | |- within _ _ ?p => first [within_step | let h := head_of p in unfold h]
  end; try done.
Ltac screen_storage :=
  match goal with |- behaves ?C _ _ => unfold C end; split;
  [done|cbn [c_mount]; storage_step
  |intros s a _; cbn [c_handle]; destruct a; storage_step
  |intros s s' _ _; cbn [c_commit]; storage_step].

Lemma splash_storage : does SplashScreen.page leaves_storage.
Proof. screen_storage. Qed.
Lemma home_storage : does HomeScreen.page leaves_storage.
Proof. screen_storage. Qed.
Lemma servers_storage : does ServerListScreen.page leaves_storage.
Proof. screen_storage. Qed.
Lemma split_storage : does SplitTunnelingScreen.page leaves_storage.
Proof. screen_storage. Qed.
Lemma settings_storage : does SettingsScreen.page removes_key.
Proof. screen_storage. Qed.
Lemma onboarding_storage : does OnboardingScreen.page stores_key.
Proof.
  unfold OnboardingScreen.page. split; [done|done| |done].
  intros s a _. cbn [c_handle]. destruct a; [storage_step| |storage_step..].
  cbn [OnboardingScreen.handle]. unfold OnboardingScreen.handleActivate.
  destruct (str_truthy (trim (OnboardingScreen.keyInput s))) eqn:E1; [|done].
  destruct (startsWith (OnboardingScreen.keyInput s) "shade://") eqn:E2; [|done].
  cbn [negb]. repeat within_step; try done. cbn. unfold OnboardingScreen.acceptable. by rewrite E1, E2.
Qed.

Lemma store_left {S A} (C : component S A) io s0 c :
  does C leaves_storage -> rtc (step C) (boot C io s0) c -> store c = s0.
Proof.
  intros HC. apply (store_invariant C (fun s => s = s0) leaves_storage); [done| |done].
  by intros [[]| |] sto Ho ->.
Qed.

(** C28. The life of the connection key.  Activating an acceptable key stores
    it, and the next start of the application on that storage goes to the home
    screen; changing the key in the settings removes it, and the next start
    goes to onboarding.  Nothing else in the application touches the storage:
    whatever happens on the other screens it is left as it was, onboarding only
    ever replaces the key by an acceptable one, the settings only remove it. *)
Theorem key_lifecycle :
  (forall io (c : conf OnboardingScreen.state),
     let key := OnboardingScreen.keyInput (st c) in
     let s := store (event_step OnboardingScreen.page io OnboardingScreen.HandleActivate c) in
     OnboardingScreen.acceptable key = true -> s !! key_item = Some key /\ starts_at s "/home") /\
  (forall io (c : conf SettingsScreen.state),
     let s := store (event_step SettingsScreen.page io SettingsScreen.HandleChangeKey c) in
     s !! key_item = None /\ starts_at s "/onboarding") /\
  (forall io s0,
     (forall c, rtc (step SplashScreen.page) (boot SplashScreen.page io s0) c -> store c = s0) /\
     (forall c, rtc (step HomeScreen.page) (boot HomeScreen.page io s0) c -> store c = s0) /\
     (forall c, rtc (step ServerListScreen.page) (boot ServerListScreen.page io s0) c -> store c = s0) /\
     (forall c, rtc (step SplitTunnelingScreen.page) (boot SplitTunnelingScreen.page io s0) c -> store c = s0) /\
     (forall c, rtc (step OnboardingScreen.page) (boot OnboardingScreen.page io s0) c ->
        store c = s0 \/ exists k, OnboardingScreen.acceptable k = true /\ store c = <[key_item := k]> s0) /\
     (forall c, rtc (step SettingsScreen.page) (boot SettingsScreen.page io s0) c ->
        store c = s0 \/ store c = delete key_item s0)).
Proof.
  split; [|split; [|intros io s0; split_and!]].
  - intros io c. cbn zeta. intros Hk.
    assert (store (event_step OnboardingScreen.page io OnboardingScreen.HandleActivate c) =
            <[key_item := OnboardingScreen.keyInput (st c)]> (store c)) as ->.
    { unfold event_step, commit_after. cbn [OnboardingScreen.page c_handle c_commit OnboardingScreen.handle].
      unfold OnboardingScreen.handleActivate. unfold OnboardingScreen.acceptable in Hk.
      apply andb_true_iff in Hk as [-> ->]. done. }
    rewrite lookup_insert_eq. split; [done|].
    replace "/home" with (SplashScreen.destination (<[key_item := OnboardingScreen.keyInput (st c)]> (store c)));
      [apply starts_at_destination|].
    unfold SplashScreen.destination. rewrite lookup_insert_eq. cbn. by rewrite (acceptable_truthy _ Hk).
  - intros io c. cbn zeta.
    change (store (event_step SettingsScreen.page io SettingsScreen.HandleChangeKey c))
      with (delete key_item (store c)).
    rewrite lookup_delete_eq. split; [done|].
    replace "/onboarding" with (SplashScreen.destination (delete key_item (store c)));
      [apply starts_at_destination|].
    unfold SplashScreen.destination. by rewrite lookup_delete_eq.
  - intros c. apply store_left, splash_storage.
  - intros c. apply store_left, home_storage.
  - intros c. apply store_left, servers_storage.
  - intros c. apply store_left, split_storage.
  - intros c. apply (store_invariant _ (fun s => s = s0 \/ exists k, OnboardingScreen.acceptable k = true /\
      s = <[key_item := k]> s0) stores_key); [apply onboarding_storage| |by left].
    intros [[]| |] sto Ho Hs; try done. cbn in Ho. destruct Ho as [-> Hk]. right. exists v.
    split; [done|]. destruct Hs as [->|(k' & _ & ->)]; [done|]. cbn. by rewrite insert_insert_eq.
  - intros c. apply (store_invariant _ (fun s => s = s0 \/ s = delete key_item s0) removes_key);
      [apply settings_storage| |by left].
    intros [[]| |] sto Ho Hs; try done. cbn in Ho. subst k. right. cbn.
    destruct Hs as [->| ->]; [done|]. apply delete_delete_eq.
Qed.

Lemma key_lifecycle_witness :
  let c := event_step OnboardingScreen.page quiet_browser (OnboardingScreen.ChangeKey "shade://k")
             (boot OnboardingScreen.page quiet_browser ∅) in
  starts_at (store (event_step OnboardingScreen.page quiet_browser OnboardingScreen.HandleActivate c)) "/home".
Proof.
  cbn zeta. destruct key_lifecycle as [Hact _].
  apply (Hact quiet_browser (event_step OnboardingScreen.page quiet_browser
           (OnboardingScreen.ChangeKey "shade://k") (boot OnboardingScreen.page quiet_browser ∅)) eq_refl).
Defined.
