(* ===== verification/ClientMachine.v ===== *)
(** * The client prototype as one machine ([App.tsx])

    The screens of the prototype run one at a time, behind a router.  A move of
    the application is a move of the screen on display, a promise or timer of a
    screen that was left, or the user going back and forth in the history; each
    navigation unmounts one screen and mounts another on the same storage.  The
    router is a library: the application is proved against what it promises.  It
    is the machine of [RouterMachine] over the table of [ClientApp]. *)
From S2P Require Import Prelude JsStr JsNum JsVal React Effects Logic Storage Typed RouterMachine.
From S2P Require SplashScreen OnboardingScreen HomeScreen ServerListScreen SettingsScreen SplitTunnelingScreen ClientApp ClientKey.
Import ClientApp(screen, match_route, named).
Local Open Scope string_scope.
Local Open Scope js_scope.

(** ** The screens, uniformly *)

Definition state_of (s : screen) : Type :=
  match s with
  | ClientApp.SplashScreen => SplashScreen.state
  | ClientApp.OnboardingScreen => OnboardingScreen.state
  | ClientApp.HomeScreen => HomeScreen.state
  | ClientApp.ServerListScreen => ServerListScreen.state
  | ClientApp.SettingsScreen => SettingsScreen.state
  | ClientApp.SplitTunnelingScreen => SplitTunnelingScreen.state
  end.
Definition action_of (s : screen) : Type :=
  match s with
  | ClientApp.SplashScreen => Empty_set
  | ClientApp.OnboardingScreen => OnboardingScreen.action
  | ClientApp.HomeScreen => HomeScreen.action
  | ClientApp.ServerListScreen => ServerListScreen.action
  | ClientApp.SettingsScreen => SettingsScreen.action
  | ClientApp.SplitTunnelingScreen => SplitTunnelingScreen.action
  end.

(** The splash screen on display: unmounting is the router's doing. *)
Definition splash : component SplashScreen.state Empty_set :=
  Component SplashScreen.init_state SplashScreen.mount (fun _ (a : Empty_set) => match a with end) (fun _ _ => skip).
Definition component_of (s : screen) : component (state_of s) (action_of s) :=
  match s with
  | ClientApp.SplashScreen => splash
  | ClientApp.OnboardingScreen => OnboardingScreen.page
  | ClientApp.HomeScreen => HomeScreen.page
  | ClientApp.ServerListScreen => ServerListScreen.page
  | ClientApp.SettingsScreen => SettingsScreen.page
  | ClientApp.SplitTunnelingScreen => SplitTunnelingScreen.page
  end.
(** What unmounting runs: the cleanups of the two screens with effects. *)
Definition unmount_of (s : screen) : state_of s -> prog (state_of s) unit :=
  match s with
  | ClientApp.SplashScreen => SplashScreen.cleanup
  | ClientApp.HomeScreen => HomeScreen.cleanup
  | _ => fun _ => skip
  end.

(** ** The application *)

#[export] Instance client_screens (H : Type) `{Matcher} : Screens H screen := {
  screen_dec := ClientApp.screen_eq_dec;
  screen_state := state_of;
  screen_action := action_of;
  screen_component _ := component_of;
  screen_unmount := unmount_of;
  screen_route := match_route;
}.

(** The server is not asked anything, and every tap is possible. *)
Abbreviation app H := (RouterMachine.app H screen).
Abbreviation Shown := (@App _ screen (client_screens _)).
Abbreviation Was := (@Gone _ screen (client_screens _)).
Abbreviation any_reply := (fun _ _ => True).
Abbreviation any_tap := (fun _ _ _ => True).
Abbreviation move := (RouterMachine.move any_reply any_tap).
Abbreviation ran := (RouterMachine.ran any_reply any_tap).

(** ** What a screen leaves behind *)

Definition pasting (o : res string) : prog OnboardingScreen.state unit :=
  try_catch
    (let! text := lift o in
     do! upd (OnboardingScreen.set_keyInput text) in
     upd (OnboardingScreen.set_error ""))
    (fun _ => do_ (CConsoleError "Failed to read clipboard")).

Definition left_task (s : screen) : task (state_of s) -> Prop :=
  match s with
  | ClientApp.OnboardingScreen => fun t =>
      match t with
      | Waiting q k =>
          match q return (res (reply q) -> _) -> Prop with
          | QClipboardRead => fun k => k = pasting
          | _ => fun _ => False
          end k
      | Timer b ms p => Timer b ms p = Timer false 600 (do_ (CNavigate "/home" true))
      end
  | ClientApp.HomeScreen => fun t => t = Timer false 2000 (upd (HomeScreen.set_status HomeScreen.Connected))
  | ClientApp.ServerListScreen => fun t => t = Timer false 300 (navigate "/home")
  | _ => fun _ => False
  end.
Definition only_left {s : screen} (c : conf (state_of s)) : Prop :=
  Forall (fun t => left_task s (snd t)) (pend c).

(** A screen without dependent effects, each of whose handlers only adds tasks
    that satisfy [L], where the tasks of [L] add none. *)
Section Adds.
Context {S A : Type} (C : component S A) (L : task S -> Prop).
Definition adds_only (p : prog S unit) : Prop :=
  forall io c, Forall (fun t => L (snd t)) (pend c) -> Forall (fun t => L (snd t)) (pend (run io p c)).
Hypothesis no_effects : forall s s', c_commit C s s' = skip.
Hypothesis no_mount : c_mount C = skip.
Hypothesis handlers_add : forall s a, adds_only (c_handle C s a).
Hypothesis timers_add : forall b ms p, L (Timer b ms p) -> adds_only p.
Hypothesis promises_add : forall q k o, L (Waiting q k) -> adds_only (k o).

Lemma adds_reachable c : reachable C c -> Forall (fun t => L (snd t)) (pend c).
Proof.
  induction 1 as [io s0|c c' _ IH Hs].
  - unfold boot. rewrite no_mount. constructor.
  - assert (forall i, Forall (fun t => L (snd t)) (delete i (pend c))) as Hdel.
    { intros i. by apply Forall_delete. }
    assert (forall i x, pend c !! i = Some x -> L (snd x)) as Hin.
    { intros i x Hx. eapply (Forall_lookup_1 _ _ _ _ IH Hx). }
    destruct Hs as [io a c|io i id q k o c Hi|io i id b ms p c Hi];
      unfold event_step, settle_step, timer_step, commit_after; rewrite no_effects; cbn [run skip].
    + by apply handlers_add.
    + apply Hin in Hi. by apply promises_add; [|apply Hdel].
    + apply Hin in Hi. apply (timers_add _ _ _ Hi). destruct b; [done|apply Hdel].
Qed.
End Adds.

Ltac adds := let io := fresh "io" in let c := fresh "c" in let Hc := fresh "Hc" in intros io c Hc; cbn; try case_match; cbn; rewrite ?Forall_app, ?Forall_singleton; cbn; auto 10.

Lemma onboarding_left c : reachable OnboardingScreen.page c ->
  @only_left ClientApp.OnboardingScreen c.
Proof.
  apply adds_reachable; [done|done| | |].
  - intros s a. destruct a; cbn [c_handle OnboardingScreen.page OnboardingScreen.handle];
      unfold OnboardingScreen.handleActivate; repeat case_match; adds.
  - intros b ms p E. injection E as -> -> ->. adds.
  - intros [] k o E; try done. cbn in E. subst k. destruct o; adds.
Qed.

Lemma servers_left c : reachable ServerListScreen.page c ->
  @only_left ClientApp.ServerListScreen c.
Proof.
  apply adds_reachable; [done|done| | |done].
  - intros s []; adds.
  - intros b ms p E. injection E as -> -> ->. adds.
Qed.

Lemma settings_left c : reachable SettingsScreen.page c -> @only_left ClientApp.SettingsScreen c.
Proof. apply adds_reachable; [done|done|intros s []; adds|done|done]. Qed.

Lemma split_left c : reachable SplitTunnelingScreen.page c ->
  @only_left ClientApp.SplitTunnelingScreen c.
Proof. apply adds_reachable; [done|done|intros s []; adds|done|done]. Qed.

(** The splash screen on display does nothing its page does not do. *)
Lemma splash_page_step c c' : step splash c c' -> step SplashScreen.page c c'.
Proof.
  intros [io [] c1|io i id q k o c1 Hi|io i id b ms p c1 Hi].
  - by apply (step_settle SplashScreen.page io i id q k o c1).
  - by apply (step_timer SplashScreen.page io i id b ms p c1).
Qed.
Lemma splash_page_reachable c : reachable splash c -> reachable SplashScreen.page c.
Proof.
  induction 1 as [io s0|c c' _ IH Hs]; [apply (reach_boot SplashScreen.page io s0)|].
  eapply reach_step; [done|]. by apply splash_page_step.
Qed.
Lemma reachable_boot {S A} (C : component S A) c :
  reachable C c -> exists io s0, rtc (step C) (boot C io s0) c.
Proof.
  induction 1 as [io s0|c c' _ (io & s0 & IH) Hs]; [by exists io, s0|].
  exists io, s0. by eapply rtc_r.
Qed.

(** Unmounting in any reachable state leaves at most a pasting promise, the
    timer of a dialing home screen and the timers that go home. *)
Lemma unmount_leaves io s (c : conf (state_of s)) :
  reachable (component_of s) c -> only_left (run io (unmount_of s (st c)) c).
Proof.
  destruct s; cbn [component_of unmount_of]; intros Hr.
  - apply splash_page_reachable, reachable_boot in Hr as (io' & s0 & Hr).
    apply SplashScreen.splash_reachable in Hr as (_ & Hst & Hp). unfold only_left. cbn in Hst.
    cbn [state_of] in *. rewrite Hst. cbn. destruct Hp as [[-> _]|[-> _]]; constructor.
  - by apply onboarding_left.
  - apply HomeScreen.machine_reachable, HomeScreen.machine_represents in Hr as ([| |n] & _ & _ & Hr);
      unfold only_left, HomeScreen.cleanup; cbn [state_of] in *.
    + destruct Hr as (Hp & Hi & _). rewrite Hi. cbn. rewrite Hp. constructor.
    + destruct Hr as ((id & Hp) & Hi & _). rewrite Hi. cbn. rewrite Hp. by constructor.
    + destruct Hr as (_ & id & i & Hp & Hi & _). rewrite Hi. cbn. rewrite Hp. cbn.
      rewrite Nat.eqb_refl. constructor.
  - by apply servers_left.
  - by apply settings_left.
  - by apply split_left.
Qed.

(** Unmounting neither navigates nor touches the storage. *)
Lemma unmount_store io s (c : conf (state_of s)) : store (run io (unmount_of s (st c)) c) = store c.
Proof.
  destruct s; cbn [unmount_of state_of] in *; try done.
  - unfold SplashScreen.cleanup. by destruct (st c).
  - unfold HomeScreen.cleanup. by destruct (HomeScreen.interval (st c)).
Qed.

(** ** The invariant *)

(** All the application ever does to the storage it was started on. *)
Definition key_ok (s0 s : gmap string string) : Prop :=
  s = s0 \/ s = delete SplashScreen.key_item s0 \/
  exists k, OnboardingScreen.acceptable k = true /\ s = <[SplashScreen.key_item := k]> s0.
Definition key_calls (o : obs) : Prop :=
  match o with
  | OCall (CSetItem k v) => k = SplashScreen.key_item /\ OnboardingScreen.acceptable v = true
  | OCall (CRemoveItem k) => k = SplashScreen.key_item
  | _ => True
  end.

Lemma key_ok_after s0 o s : observed key_calls o -> key_ok s0 s -> key_ok s0 (store_after o s).
Proof.
  destruct o as [[]| |]; try done; cbn.
  - intros [-> Hk] Hs. right. right. exists v. split; [done|].
    destruct Hs as [->|[->|(k' & _ & ->)]]; [done|apply insert_delete_eq|apply insert_insert_eq].
  - intros -> Hs. right. left.
    destruct Hs as [->|[->|(k' & _ & ->)]]; [done|apply delete_delete_eq|apply delete_insert_eq].
Qed.

Lemma splash_behaves R :
  behaves SplashScreen.page (fun _ => True) R -> behaves splash (fun _ => True) R.
Proof. intros [H1 H2 H3 H4]. split; [done|done|by intros _ []|done]. Qed.

Lemma screens_navigate `{MatcherLaws} s : behaves (component_of s) (fun _ => True) ClientApp.client_obs.
Proof.
  destruct s; cbn [component_of].
  - apply splash_behaves, ClientApp.splash_stays.
  - apply ClientApp.onboarding_stays.
  - apply ClientApp.home_stays.
  - apply ClientApp.servers_stays.
  - apply ClientApp.settings_stays.
  - apply ClientApp.split_stays.
Qed.

Lemma screens_store s : behaves (component_of s) (fun _ => True) key_calls.
Proof.
  assert (forall o, ClientKey.leaves_storage o -> key_calls o) as Hl by by intros [[]| |].
  destruct s; cbn [component_of].
  - eapply splash_behaves, behaves_weaken, ClientKey.splash_storage; done.
  - eapply behaves_weaken, ClientKey.onboarding_storage. by intros [[]| |].
  - eapply behaves_weaken, ClientKey.home_storage; done.
  - eapply behaves_weaken, ClientKey.servers_storage; done.
  - eapply behaves_weaken, ClientKey.settings_storage. by intros [[]| |].
  - eapply behaves_weaken, ClientKey.split_storage; done.
Qed.

(** The environment that may do anything. *)
Lemma any_step {S A} (C : component S A) c c' :
  kept_step any_reply C (fun _ _ => True) c c' -> step C c c'.
Proof. intros [io a d|io i id q k o d|io i id b ms p d]; econstructor; done. Qed.

Section Invariant.
Context {H : Type} `{RouterLaws H} `{ML : MatcherLaws} (s0 : gmap string string).
Local Abbreviation R := (observed ClientApp.client_obs).

Definition shown (s : screen) (c : conf (state_of s)) : Prop :=
  exists io s1, key_ok s0 s1 /\ rtc (step (component_of s)) (boot (component_of s) io s1) c.

Lemma shown_reachable s c : shown s c -> reachable (component_of s) c.
Proof. intros (io & s1 & _ & Hr). by eapply boot_reachable. Qed.
Lemma shown_store s c : shown s c -> key_ok s0 (store c).
Proof.
  intros (io & s1 & Hs & Hr).
  eapply (store_invariant _ (key_ok s0) key_calls); [apply screens_store| |exact Hs|exact Hr].
  intros o s'. apply key_ok_after.
Qed.

(** A leftover that runs leaves only leftovers, navigates at most, and leaves
    the storage alone. *)
Definition harmless {s} (c c' : conf (state_of s)) : Prop :=
  only_left c' /\ store c' = store c /\ exists l, log c' = (log c ++ l)%list /\ Forall R l.

Lemma harmless_leftover s1 s c1 (c c' : conf (state_of s)) :
  shown s1 c1 -> harmless (set_store (store c1) c) c' ->
  leftover_runs (H:=H) shown (@only_left) R c1 c c'.
Proof.
  intros Hs (Hc & Hst & l & Hl & Hobs). cbn [store log set_store] in Hst, Hl.
  assert (set_store (store c') c1 = c1) as E1 by (rewrite Hst; by destruct c1).
  assert (since c c' = l) as E2 by (unfold since; by rewrite Hl, drop_app_length).
  rewrite <- E1 in Hs. rewrite <- E2 in Hobs. by split.
Qed.

Lemma leftover_timer io s (c : conf (state_of s)) i id b ms p :
  only_left c -> pend c !! i = Some (id, Timer b ms p) ->
  b = false /\ harmless c (run io p (take_task i c)).
Proof.
  intros Hc Hi. pose proof (Forall_lookup_1 _ _ _ _ Hc Hi) as Ht.
  assert (only_left (take_task i c)) as Hd by by apply Forall_delete.
  assert (named "/home") as Hn by ClientApp.named_path.
  destruct s; cbn in Ht; try done; injection Ht as -> -> ->; (split; [done|]); split; try done;
    cbn; (split; [done|]).
  - eexists [_]. split; [done|]. by repeat constructor.
  - exists []. by rewrite app_nil_r.
  - eexists [_]. split; [done|]. by repeat constructor.
Qed.

Lemma leftover_settles io s (c : conf (state_of s)) i id q k o :
  only_left c -> pend c !! i = Some (id, Waiting q k) ->
  harmless c (run io (k o) (take_task i c)).
Proof.
  intros Hc Hi. pose proof (Forall_lookup_1 _ _ _ _ Hc Hi) as Ht.
  assert (only_left (take_task i c)) as Hd by by apply Forall_delete.
  destruct s; cbn in Ht; try done. destruct q; try done. subst k.
  destruct o; (split; [done|]); (split; [done|]).
  - exists []. by rewrite app_nil_r.
  - eexists [_]. split; [done|]. by repeat constructor.
Qed.

Lemma client_tame :
  tame (H:=H) any_reply any_tap shown (@only_left) (key_ok s0) R named.
Proof.
  split.
  - done.
  - done.
  - intros s h io s1 Hs. by exists io, s1.
  - intros s h c c' Hc Hs. apply any_step in Hs. pose proof (shown_reachable _ _ Hc) as Hr.
    eapply reach_step in Hr; [|exact Hs]. split.
    + destruct Hc as (io & s1 & Hk & Hc). exists io, s1. split; [done|]. by eapply rtc_r.
    + apply Forall_drop. by apply (reachable_within _ _ _ (screens_navigate s)).
  - intros s io c Hc. split; [by apply unmount_leaves, shown_reachable|].
    rewrite unmount_store. by apply shown_store.
  - intros s1 s io c1 c i id b ms p Hs Hc Hi c2.
    destruct (leftover_timer io s c2 i id b ms p Hc Hi) as [-> Hrun]. by apply harmless_leftover.
  - intros s1 s io c1 c i id q k o Hs Hc Hi _. apply harmless_leftover; [done|].
    by eapply leftover_settles.
Qed.

Local Abbreviation well := (RouterMachine.well (H:=H) shown (@only_left) named).

Lemma start_well io path a : start io path s0 = Some a -> well a.
Proof.
  unfold start, open_at, settle. rewrite here_fresh.
  assert (key_ok s0 s0) as Hk by by left.
  change (screen_route path) with (match_route path).
  destruct (ClientApp.match_route_cases path) as [[s E]|E]; rewrite E; cbn.
  - intros [= <-]. split; cbn [hist cur live left]; [by rewrite here_fresh|by exists io, s0|done|].
    rewrite trail_fresh. constructor; [by eexists|done].
  - rewrite here_go. change (screen_route "/") with (match_route "/"). rewrite ClientApp.match_start. cbn. intros [= <-].
    split; cbn [hist cur live left]; [rewrite here_go; apply ClientApp.match_start|by exists io, s0|done|].
    rewrite trail_replace. constructor; [eexists; apply ClientApp.match_start|done].
Qed.

Lemma ran_well path a : ran path s0 a -> well a.
Proof.
  induction 1 as [io a Ha|a a' _ IH [b l Hm]]; [by eapply start_well|].
  exact (proj1 (moves_well _ _ _ _ _ _ _ client_tame _ _ _ IH Hm)).
Qed.
End Invariant.

(** ** The theorems *)

Section Moves.
Context {H : Type} `{RouterLaws H} `{ML : MatcherLaws}.

(** C16. The application as a whole.  Opened at any path, on any storage, it
    comes up: at the path if the router matches it to a screen, otherwise on the
    splash screen with the bad path gone from the history.  In every configuration it can
    reach from there, by taps, answers, timers of present and of past screens,
    back and forward: the screen mounted is the one of the current location,
    and it is in a configuration its own machine reaches, so that everything
    shown of the single screens holds of it; the screens that were left have
    nothing pending but a clipboard read, a dialing timer and timers that go
    home; the storage is the one it was opened on, up to the key, which is
    unchanged, gone, or an acceptable one; and the router matches every path in
    the history to a screen. *)
Theorem app_composes (path : string) (s0 : gmap string string) :
  (forall io, exists a : app H, start io path s0 = Some a /\
     ((named path /\ here (hist a) = path) \/
      (cur a = ClientApp.SplashScreen /\ trail (hist a) = ["/"]))) /\
  forall a : app H, ran path s0 a ->
    match_route (here (hist a)) = Some (Screen (cur a)) /\
    reachable (component_of (cur a)) (live a) /\
    Forall (fun g => only_left (gone_conf g)) (left a) /\
    key_ok s0 (store (live a)) /\
    Forall named (trail (hist a)).
Proof.
  split.
  - intros io. unfold start, open_at, settle. rewrite here_fresh.
    change (screen_route path) with (match_route path).
    destruct (ClientApp.match_route_cases path) as [[s E]|E]; rewrite E; cbn.
    + eexists. split; [done|]. left. split; [by exists s|apply here_fresh].
    + rewrite here_go. change (screen_route "/") with (match_route "/"). rewrite ClientApp.match_start. cbn.
      eexists. split; [done|]. right. split; [done|apply trail_replace].
  - intros a Ha. apply ran_well in Ha. destruct Ha as [W1 W2 W3 W4].
    split; [done|]. split; [exact (shown_reachable _ _ _ W2)|]. split; [done|].
    split; [exact (shown_store _ _ _ W2)|done].
Qed.

(** C36. The timer of the server list is not cancelled when the screen is left.
    From any configuration on the server list, picking a server, going back by
    the arrow and on to the settings within the 300 ms of the timer leads to
    the settings screen with the timer still pending; when it expires the
    application is taken from the settings to the home screen. *)
Theorem stray_navigation (io : inputs) (a : app H) (i : string) :
  cur a = ClientApp.ServerListScreen ->
  exists a1 a2 a3 a4 n,
    tap io ClientApp.ServerListScreen (ServerListScreen.HandleServerSelect i) a a1 /\
    tap io ClientApp.ServerListScreen ServerListScreen.GoHome a1 a2 /\
    tap io ClientApp.HomeScreen HomeScreen.GoSettings a2 a3 /\
    left_expires io 1 n a3 a4 /\
    map cur [a1; a2; a3; a4] =
      [ClientApp.ServerListScreen; ClientApp.HomeScreen; ClientApp.SettingsScreen; ClientApp.HomeScreen] /\
    map (fun x => here (hist x)) [a2; a3; a4] = ["/home"; "/settings"; "/home"].
Proof.
  destruct a as [h s c lf]. cbn [cur]. intros ->.
  set (c1 := event_step ServerListScreen.page io (ServerListScreen.HandleServerSelect i) c).
  set (c2 := event_step ServerListScreen.page io ServerListScreen.GoHome c1).
  set (b2 := boot HomeScreen.page io (store c2)).
  set (c3 := event_step HomeScreen.page io HomeScreen.GoSettings b2).
  pose proof (live_move_quiet io h ClientApp.ServerListScreen c c1 lf eq_refl) as E1.
  pose proof (live_move_navigates io h ClientApp.ServerListScreen c1 c2 lf "/home" false
                ClientApp.HomeScreen eq_refl ClientApp.match_home ltac:(done)) as E2.
  pose proof (live_move_navigates io (go false "/home" h) ClientApp.HomeScreen b2 c3
                (Was ClientApp.ServerListScreen c2 :: lf) "/settings" false
                ClientApp.SettingsScreen eq_refl ClientApp.match_settings ltac:(done)) as E3.
  cbv zeta in E2, E3. cbn [unmount_of run skip] in E2.
  eexists (Shown h ClientApp.ServerListScreen c1 lf), _, _, _, (length (pend c)).
  split; [by exists h, c, lf|].
  split; [exists h, c1, lf; split; [done|symmetry; exact E2]|].
  split; [exists (go false "/home" h), b2, (Was ClientApp.ServerListScreen c2 :: lf);
          split; [done|symmetry; exact E3]|].
  split; [exists ClientApp.ServerListScreen, c2, (next c), false, 300%Z, (navigate "/home");
          split; [done|split; [by apply list_lookup_middle|reflexivity]]|].
  cbn [map]. cbn [cur hist].
  edestruct left_move_navigates as [-> ->]; [reflexivity|exact ClientApp.match_home|done|].
  split; [done|]. cbn [hist]. by rewrite !here_go.
Qed.

(** C35. Choosing a server.  From the home screen in any session, going to the
    server list, picking any server and waiting for its timer leads back to a
    home screen that has just been mounted: disconnected, with its counters at
    zero and the same server on its card, whichever was picked.  A running
    session is over, with nothing of it left pending; a dialing timer stays
    behind, on a screen that is no longer there. *)
Theorem server_choice (io : inputs) h (c : conf HomeScreen.state) lf x (i : string) :
  HomeScreen.represents c x ->
  exists a1 a2 a3 c1 c2 c3 h3,
    tap io ClientApp.HomeScreen HomeScreen.GoServers (Shown h ClientApp.HomeScreen c lf) a1 /\
    tap io ClientApp.ServerListScreen (ServerListScreen.HandleServerSelect i) a1 a2 /\
    expires io 0 a2 a3 /\
    a3 = Shown h3 ClientApp.HomeScreen c3
           (Was ClientApp.ServerListScreen c2 :: Was ClientApp.HomeScreen c1 :: lf) /\
    here h3 = "/home" /\
    ServerListScreen.selectedServer (st c2) = i /\
    HomeScreen.represents c3 HomeScreen.Off /\ st c3 = HomeScreen.init_state /\
    pend c1 = match x with HomeScreen.Online _ => [] | _ => pend c end.
Proof.
  intros Hx.
  set (d1 := event_step HomeScreen.page io HomeScreen.GoServers c).
  set (c1 := run io (HomeScreen.cleanup (st d1)) d1).
  set (b2 := boot ServerListScreen.page io (store c1)).
  set (d2 := event_step ServerListScreen.page io (ServerListScreen.HandleServerSelect i) b2).
  set (c2 := timer_step ServerListScreen.page io 0 false (navigate "/home") d2).
  set (h2 := go false "/servers" h).
  assert (log d1 = (log c ++ [OCall (CNavigate "/servers" false)])%list /\ st d1 = st c /\ pend d1 = pend c)
    as (L1 & S1 & P1).
  { destruct c as [[s xs cs iv] sto pn nx lg]. unfold d1, event_step, commit_after. cbn.
    unfold HomeScreen.effect. cbn. by rewrite String.eqb_refl. }
  assert (pend c1 = match x with HomeScreen.Online _ => [] | _ => pend c end) as Pc1.
  { unfold c1, HomeScreen.cleanup. rewrite S1. clearbody d1.
    destruct x as [| |n], Hx as (_ & _ & Hx).
    - destruct Hx as (Hp & -> & _). by cbn.
    - destruct Hx as (_ & -> & _). by cbn.
    - destruct Hx as (_ & id & j & Hp & -> & _). cbn. rewrite P1, Hp. cbn. by rewrite Nat.eqb_refl. }
  pose proof (live_move_navigates io h ClientApp.HomeScreen c d1 lf "/servers" false
                ClientApp.ServerListScreen L1 ClientApp.match_servers ltac:(done)) as E1.
  pose proof (live_move_quiet io h2 ClientApp.ServerListScreen b2 d2
                (Was ClientApp.HomeScreen c1 :: lf) eq_refl) as E2.
  pose proof (live_move_navigates io h2 ClientApp.ServerListScreen d2 c2
                (Was ClientApp.HomeScreen c1 :: lf) "/home" false
                ClientApp.HomeScreen eq_refl ClientApp.match_home ltac:(done)) as E3.
  cbv zeta in E1, E3. cbn [unmount_of run skip] in E3.
  eexists _, (Shown h2 ClientApp.ServerListScreen d2 _), _, c1, c2, _, _.
  split; [exists h, c, lf; split; [done|symmetry; exact E1]|].
  split; [exists h2, b2, (Was ClientApp.HomeScreen c1 :: lf); split; [done|symmetry; exact E2]|].
  split; [exists 0, false, 300%Z, (navigate "/home"); split; [done|symmetry; exact E3]|].
  split; [done|]. split; [apply here_go|]. split; [done|]. split; [done|]. split; [done|exact Pc1].
Qed.
End Moves.

#[local] Existing Instances path_matcher path_laws.

(** Opened at an unknown path without a key, the application ends up on the
    onboarding screen, the only entry of its history. *)
Lemma app_composes_witness :
  let a0 := Shown (Stack [] "/" []) ClientApp.SplashScreen (boot splash quiet_browser ∅) [] in
  let a := live_move quiet_browser a0 (timer_step splash quiet_browser 0 false SplashScreen.on_timer (live a0)) in
  ran "/nowhere" ∅ a /\
  cur a = ClientApp.OnboardingScreen /\ hist a = Stack [] "/onboarding" [] /\
  key_ok ∅ (store (live a)) /\ Forall named (trail (hist a)).
Proof.
  intros a0 a. assert (ran "/nowhere" ∅ a) as Hr.
  { eapply ran_move; [apply (ran_start _ _ "/nowhere" ∅ quiet_browser a0); reflexivity|].
    apply (expires_move _ _ quiet_browser 0). do 4 eexists. split; reflexivity. }
  split; [exact Hr|]. split; [reflexivity|]. split; [reflexivity|].
  apply (proj2 (app_composes "/nowhere" ∅) a) in Hr as (_ & _ & _ & Hk & Ht). by split.
Defined.

Lemma stray_navigation_witness :
  let a := Shown (Stack ["/home"] "/servers" []) ClientApp.ServerListScreen
             (boot ServerListScreen.page quiet_browser ∅) [] in
  exists a1 a2 a3 a4 n,
    tap quiet_browser ClientApp.ServerListScreen (ServerListScreen.HandleServerSelect "jp-tok") a a1 /\
    tap quiet_browser ClientApp.ServerListScreen ServerListScreen.GoHome a1 a2 /\
    tap quiet_browser ClientApp.HomeScreen HomeScreen.GoSettings a2 a3 /\
    left_expires quiet_browser 1 n a3 a4 /\
    map cur [a1; a2; a3; a4] =
      [ClientApp.ServerListScreen; ClientApp.HomeScreen; ClientApp.SettingsScreen; ClientApp.HomeScreen] /\
    map (fun x => here (hist x)) [a2; a3; a4] = ["/home"; "/settings"; "/home"].
Proof. intros a. by apply stray_navigation. Defined.

(** A session of zero seconds. *)
Lemma server_choice_witness :
  let c := timer_step HomeScreen.page quiet_browser 0 false (upd (HomeScreen.set_status HomeScreen.Connected))
             (event_step HomeScreen.page quiet_browser HomeScreen.HandleConnect
                (boot HomeScreen.page quiet_browser ∅)) in
  HomeScreen.represents c (HomeScreen.Online 0) /\
  exists (a1 a2 a3 : app stack) c3 lf,
    tap quiet_browser ClientApp.HomeScreen HomeScreen.GoServers
      (Shown (Stack [] "/home" []) ClientApp.HomeScreen c []) a1 /\
    tap quiet_browser ClientApp.ServerListScreen (ServerListScreen.HandleServerSelect "jp-tok") a1 a2 /\
    expires quiet_browser 0 a2 a3 /\
    a3 = Shown (hist a3) ClientApp.HomeScreen c3 lf /\ HomeScreen.represents c3 HomeScreen.Off.
Proof.
  intros c. assert (HomeScreen.represents c (HomeScreen.Online 0)) as Hc.
  { split; [done|]. split; [done|]. split; [done|]. exists 1, 0. by split. }
  split; [exact Hc|].
  destruct (server_choice quiet_browser (Stack [] "/home" []) c [] (HomeScreen.Online 0) "jp-tok" Hc)
    as (a1 & a2 & a3 & c1 & c2 & c3 & h3 & H1 & H2 & H3 & -> & _ & _ & H4 & _).
  eexists a1, a2, _, c3, _. cbn [hist]. eauto 10.
Defined.
