(* ===== verification/ClientViews.v ===== *)
(** * What the screens of the prototype show

    Every screen renders in every state it can reach, and its clickable
    elements are exactly the listed ones, in document order, each wired to the
    listed handler. *)
From S2P Require Import Prelude JsStr JsNum JsVal React Effects Logic.
From S2P Require SplashScreen OnboardingScreen HomeScreen ServerListScreen SettingsScreen SplitTunnelingScreen.
Local Open Scope string_scope.

Section Clicks.
Context (e : event).
Local Abbreviation found :=
  (finds clickable (fun n => (attr_val "title" n, fire "onClick" e n))).
(** Elements without a title that do [l]. *)
Local Abbreviation untitled l := (map (fun a => (@None val, Some a)) l).

Ltac view_found := eapply finds_eq; [render|cbn; repeat case_match; done].

Lemma splash_found : found SplashScreen.view [].
Proof. unfold SplashScreen.view. view_found. Qed.

Lemma onboarding_found s :
  found (OnboardingScreen.view s)
    (untitled [OnboardingScreen.HandlePaste; OnboardingScreen.HandleActivate;
               OnboardingScreen.HandleScanQR; OnboardingScreen.HandleUploadQR]).
Proof.
  unfold OnboardingScreen.view, OnboardingScreen.key_field, OnboardingScreen.qr_options. view_found.
Qed.

Lemma home_found s :
  found (HomeScreen.view s)
    [(None, Some HomeScreen.GoSettings);
     (None, match HomeScreen.status s with
            | HomeScreen.Connecting => None
            | _ => Some HomeScreen.HandleConnect
            end);
     (None, Some HomeScreen.GoServers)].
Proof.
  unfold HomeScreen.view, HomeScreen.connection_button, HomeScreen.stats_panel, HomeScreen.server_card.
  destruct s as [[] x cs iv]; view_found.
Qed.

Lemma server_row_found s i x :
  found (ServerListScreen.server_row s i x)
    (untitled [ServerListScreen.HandleServerSelect (ServerListScreen.id x)]).
Proof. unfold ServerListScreen.server_row. view_found. Qed.

Lemma untitled_rows {A X} (h : X -> A) (l : list X) :
  concat (map (fun x => untitled [h x]) l) = untitled (map h l).
Proof. induction l as [|x l IH]; cbn; [done|]. by f_equal. Qed.

Lemma servers_found `{Unicode} s :
  found (ServerListScreen.view s)
    (untitled (ServerListScreen.GoHome :: ServerListScreen.HandleServerSelect "nl-ams" ::
       map (fun x => ServerListScreen.HandleServerSelect (ServerListScreen.id x))
           (ServerListScreen.filteredServers s))).
Proof.
  pose proof (finds_each_in clickable _ (ServerListScreen.filteredServers s) _ _ (server_row_found s)) as Hr.
  rewrite untitled_rows in Hr. unfold ServerListScreen.view, ServerListScreen.quick_connect.
  revert Hr. generalize (ServerListScreen.filteredServers s). intros l Hr.
  eapply finds_eq; [render|]. cbn. by rewrite !app_nil_r.
Qed.

Lemma app_row_found i x :
  found (SplitTunnelingScreen.app_row i x)
    (untitled [SplitTunnelingScreen.ToggleApp (SplitTunnelingScreen.id x)]).
Proof. unfold SplitTunnelingScreen.app_row. view_found. Qed.

Lemma apps_found `{Unicode} s :
  found (SplitTunnelingScreen.view s)
    (untitled (SplitTunnelingScreen.GoSettings ::
       map (fun x => SplitTunnelingScreen.ToggleApp (SplitTunnelingScreen.id x))
           (SplitTunnelingScreen.filteredApps s))).
Proof.
  pose proof (finds_each_in _ _ (SplitTunnelingScreen.filteredApps s) _ _ app_row_found) as Hr.
  rewrite untitled_rows in Hr. unfold SplitTunnelingScreen.view.
  revert Hr. generalize (SplitTunnelingScreen.filteredApps s). intros l Hr.
  eapply finds_eq; [render|]. cbn. by rewrite !app_nil_r.
Qed.

Lemma theme_found s :
  found (SettingsScreen.theme_block s)
    (untitled (map SettingsScreen.SetTheme
       [SettingsScreen.Light; SettingsScreen.Dark; SettingsScreen.System])).
Proof.
  unfold SettingsScreen.theme_block. view_found.
Qed.

Lemma screen_settings_found s :
  scalar (SettingsScreen.language s) = true ->
  found (SettingsScreen.view s)
    (untitled ([SettingsScreen.GoHome;
                SettingsScreen.SetKillSwitch (negb (SettingsScreen.killSwitch s));
                SettingsScreen.SetNetShield (negb (SettingsScreen.netShield s));
                SettingsScreen.GoSplitTunneling; SettingsScreen.NextLanguage] ++
               map SettingsScreen.SetTheme
                 [SettingsScreen.Light; SettingsScreen.Dark; SettingsScreen.System] ++
               [SettingsScreen.HandleChangeKey; SettingsScreen.HandleInvite;
                SettingsScreen.HandleFeedback])).
Proof.
  intros Hl. pose proof (theme_found s) as Ht.
  unfold SettingsScreen.view, SettingsScreen.connection_section, SettingsScreen.interface_section,
    SettingsScreen.account_section, SettingsScreen.support_section.
  destruct s as [[] [] l t]; cbn [SettingsScreen.language] in Hl; (eapply finds_eq; [render|]).
  all: done.
Qed.
End Clicks.

(** [j] renders with these elements to click, none of which has a title. *)
Definition offers {A} (j : jsx A) (l : list (option A)) : Prop :=
  forall e, exists ns, j = Ok ns /\ clicks e ns = map (fun a => (None, a)) l.

Lemma found_offers {A} (j : jsx A) (l : list (option A)) :
  (forall e, finds clickable (fun n => (attr_val "title" n, fire "onClick" e n)) j
               (map (fun a => (None, a)) l)) -> offers j l.
Proof. intros Hj e. apply finds_clicks, Hj. Qed.

Lemma language_scalar c : reachable SettingsScreen.page c -> scalar (SettingsScreen.language (st c)) = true.
Proof.
  intros Hr. apply SettingsScreen.language_cycles in Hr as [Hin _].
  rewrite list_elem_of_In in Hin. by destruct Hin as [<-|[<-|[<-|[]]]].
Qed.

(** C29. Every screen of the prototype renders in every state it can reach, and
    offers exactly these clicks, in order.  The connection button is dead while
    connecting; the server list offers the first server as the quick choice and
    each server the search leaves; the settings always offer the opposite of
    each switch; the buttons "about" and "no key?" do nothing. *)
Theorem screens_render `{Unicode} :
  offers SplashScreen.view [] /\
  (forall s, offers (OnboardingScreen.view s)
     (map Some [OnboardingScreen.HandlePaste; OnboardingScreen.HandleActivate;
                OnboardingScreen.HandleScanQR; OnboardingScreen.HandleUploadQR])) /\
  (forall s, offers (HomeScreen.view s)
     [Some HomeScreen.GoSettings;
      match HomeScreen.status s with
      | HomeScreen.Connecting => None
      | _ => Some HomeScreen.HandleConnect
      end;
      Some HomeScreen.GoServers]) /\
  (forall s, offers (ServerListScreen.view s)
     (map Some (ServerListScreen.GoHome :: ServerListScreen.HandleServerSelect "nl-ams" ::
        map (fun x => ServerListScreen.HandleServerSelect (ServerListScreen.id x))
            (ServerListScreen.filteredServers s)))) /\
  (forall s, offers (SplitTunnelingScreen.view s)
     (map Some (SplitTunnelingScreen.GoSettings ::
        map (fun x => SplitTunnelingScreen.ToggleApp (SplitTunnelingScreen.id x))
            (SplitTunnelingScreen.filteredApps s)))) /\
  (forall c, reachable SettingsScreen.page c ->
     offers (SettingsScreen.view (st c))
       (map Some ([SettingsScreen.GoHome;
                   SettingsScreen.SetKillSwitch (negb (SettingsScreen.killSwitch (st c)));
                   SettingsScreen.SetNetShield (negb (SettingsScreen.netShield (st c)));
                   SettingsScreen.GoSplitTunneling; SettingsScreen.NextLanguage] ++
                  map SettingsScreen.SetTheme
                    [SettingsScreen.Light; SettingsScreen.Dark; SettingsScreen.System] ++
                  [SettingsScreen.HandleChangeKey; SettingsScreen.HandleInvite;
                   SettingsScreen.HandleFeedback])%list)).
Proof.
  split_and!; intros; apply found_offers; intros e; rewrite ?map_map.
  - apply splash_found.
  - apply onboarding_found.
  - apply home_found.
  - apply servers_found.
  - apply apps_found.
  - by apply screen_settings_found, language_scalar.
Qed.

Lemma screens_render_witness :
  offers (SettingsScreen.view SettingsScreen.init_state)
    (map Some [SettingsScreen.GoHome; SettingsScreen.SetKillSwitch false; SettingsScreen.SetNetShield false;
               SettingsScreen.GoSplitTunneling; SettingsScreen.NextLanguage;
               SettingsScreen.SetTheme SettingsScreen.Light; SettingsScreen.SetTheme SettingsScreen.Dark;
               SettingsScreen.SetTheme SettingsScreen.System; SettingsScreen.HandleChangeKey;
               SettingsScreen.HandleInvite; SettingsScreen.HandleFeedback]).
Proof.
  destruct (@screens_render ServerListScreen.ascii_unicode) as (_ & _ & _ & _ & _ & Hs).
  apply (Hs (boot SettingsScreen.page quiet_browser ∅)), reach_boot.
Defined.
