(* ===== verification/Quiescence.v ===== *)
(** * Both programs come to rest

    No screen starts an endless chain of requests or timers: once the user
    stops, finitely many answers and expiring timers later nothing is pending
    but the polling intervals, and each expiration of those is itself finite. *)
From S2P Require Import Prelude JsStr JsNum JsVal React Effects Logic Api Work.
From S2P Require Users Groups Templates Nodes ResponseRules Settings ConfigProfiles HWIDInspector ConnectionLogs Home Login AdminApp Shell.
From S2P Require SplashScreen OnboardingScreen HomeScreen ServerListScreen SettingsScreen SplitTunnelingScreen.
Local Open Scope string_scope.

(** A bound that covers every handler without a loop. *)
Ltac work_tac := bounded_tac; done.
Ltac page_work :=
  match goal with |- bounded_work ?C => let h := head_of C in unfold h end; split;
  [cbn [c_mount]; work_tac
  |intros s a; cbn [c_handle]; destruct a; first [work_tac|idtac]
  |intros s s'; cbn [c_commit]; work_tac].

Section Panel.
Context `{BuildEnv}.

Lemma users_work filter : bounded_work (Users.page filter).
Proof.
  page_work. cbn [Users.handle]. unfold Users.handleBulkDelete.
  exists (length (Users.selectedUsers s) * 1 + 2).
  apply bounded_free; [apply bounded_confirm|]. intros ok. case_match; [done|].
  apply bounded_bind; [|intros _; bounded_tac].
  apply bounded_for_each. intros id. bounded_tac.
Qed.
Lemma groups_work : bounded_work Groups.page.
Proof. page_work. Qed.
Lemma templates_work : bounded_work Templates.page.
Proof. page_work. Qed.
Lemma nodes_work : bounded_work Nodes.page.
Proof. page_work. Qed.
Lemma rules_work : bounded_work ResponseRules.page.
Proof. page_work. Qed.
Lemma settings_work : bounded_work Settings.page.
Proof. page_work. Qed.
Lemma keys_work : bounded_work ConfigProfiles.page.
Proof. page_work. Qed.
Lemma devices_work : bounded_work HWIDInspector.page.
Proof. page_work. Qed.
Lemma logs_work toLocaleString : bounded_work (ConnectionLogs.page toLocaleString).
Proof. page_work. Qed.
Lemma home_work : bounded_work Home.page.
Proof. page_work. Qed.
Lemma login_work : bounded_work AdminApp.page.
Proof.
  unfold AdminApp.page. split; [cbn [c_mount]; work_tac| |done].
  intros s [[|v]]; cbn [c_handle]; unfold AdminApp.handle, Login.handle, Login.handleSubmit, Login.set;
    cbv beta iota delta [Login.onLogin Login.modify_login AdminApp.app_login_host]; work_tac.
Qed.
End Panel.

Lemma layout_work : bounded_work Shell.layout.
Proof. page_work. Qed.

Lemma splash_work : bounded_work SplashScreen.page.
Proof. page_work. Qed.
Lemma onboarding_work : bounded_work OnboardingScreen.page.
Proof. page_work. Qed.
Lemma session_work : bounded_work HomeScreen.page.
Proof. page_work. Qed.
Lemma servers_work : bounded_work ServerListScreen.page.
Proof. page_work. Qed.
Lemma options_work : bounded_work SettingsScreen.page.
Proof. page_work. Qed.
Lemma apps_work : bounded_work SplitTunnelingScreen.page.
Proof. page_work. Qed.

(** Every screen of both programs comes to rest: from any reachable state
    there is a number of promises and one-shot timers after which, whatever
    their answers and in whatever order, nothing is pending but the polling
    intervals; until then some of them can always settle. *)
Theorem everything_rests `{BuildEnv} (filter : val) (toLocaleString : Z -> string) :
  (comes_to_rest (Users.page filter) /\ comes_to_rest Groups.page /\
   comes_to_rest Templates.page /\ comes_to_rest Nodes.page /\
   comes_to_rest ResponseRules.page /\ comes_to_rest Settings.page /\
   comes_to_rest ConfigProfiles.page /\ comes_to_rest HWIDInspector.page /\
   comes_to_rest (ConnectionLogs.page toLocaleString) /\ comes_to_rest Home.page /\
   comes_to_rest AdminApp.page /\ comes_to_rest Shell.layout) /\
  comes_to_rest SplashScreen.page /\ comes_to_rest OnboardingScreen.page /\
  comes_to_rest HomeScreen.page /\ comes_to_rest ServerListScreen.page /\
  comes_to_rest SettingsScreen.page /\ comes_to_rest SplitTunnelingScreen.page.
Proof.
  pose proof (users_work filter). pose proof (logs_work toLocaleString).
  repeat match goal with |- _ /\ _ => split end; apply work_rests;
    auto using groups_work, templates_work, nodes_work, rules_work, settings_work, keys_work,
      devices_work, home_work, login_work, layout_work, splash_work, onboarding_work,
      session_work, servers_work, options_work, apps_work.
Qed.
