(* ===== verification/PanelScreens.v ===== *)
(** * The pages of the panel behind its router ([routes.tsx])

    The table of pages for [RouterMachine], and what every page promises the
    panel: it keeps its state well formed as long as the server keeps its word,
    talks to the API only and navigates to pages only, drops the token at most,
    and leaves nothing behind that repeats. *)
From S2P Require Import Prelude JsStr JsNum JsVal React Effects Logic Storage Api Typed Promises PanelViews Orderly Work RouterMachine.
From S2P Require Users UsersView UsersTyped Groups Templates Nodes ResponseRules Settings ConfigProfiles HWIDInspector ConnectionLogs Home AdminApp Safety Token PanelTyped Quiescence.
Local Open Scope string_scope.
Local Open Scope js_scope.

Inductive screen : Type :=
| HomePage | UsersPage | GroupsPage | ConfigProfilesPage | NodesPage | TemplatesPage
| ResponseRulesPage | HWIDInspectorPage | ConnectionLogsPage | SettingsPage.
#[export] Instance screen_eq_dec : EqDecision screen.
Proof. solve_decision. Defined.

(** The components the route table names. *)
Definition components : list (string * screen) :=
  [("Home", HomePage); ("Users", UsersPage); ("Groups", GroupsPage);
   ("ConfigProfiles", ConfigProfilesPage); ("Nodes", NodesPage); ("Templates", TemplatesPage);
   ("ResponseRules", ResponseRulesPage); ("HWIDInspector", HWIDInspectorPage);
   ("ConnectionLogs", ConnectionLogsPage); ("Settings", SettingsPage)].
Definition match_route `{Matcher} (location : string) : option (route_element screen) :=
  Screen <$> (AdminApp.resolve location ≫= fun c => assoc c components).

Lemma declared_route `{Matcher} p : Safety.declared p -> exists s, match_route p = Some (Screen s).
Proof.
  unfold Safety.declared, match_route, AdminApp.resolve. intros [c Hc].
  destruct (first_match _ AdminApp.children p) as [r|] eqn:E; [|done].
  apply first_match_in in E as [Hin _]. cbn. unfold AdminApp.children in Hin.
  by repeat (apply elem_of_cons in Hin as [->|Hin]; [by eexists|]); apply elem_of_nil in Hin.
Qed.
Lemma route_declared `{Matcher} p s : match_route p = Some (Screen s) -> Safety.declared p.
Proof.
  unfold match_route, Safety.declared. destruct (AdminApp.resolve p); [by eexists|done].
Qed.

(** The page of a path of the table, and of the clients of a group. *)
Lemma match_child `{MatcherLaws} r : r ∈ AdminApp.children ->
  match_route (AdminApp.full_path r) = Screen <$> assoc (AdminApp.r_component r) components.
Proof. intros Hr. unfold match_route. by rewrite AdminApp.resolve_path. Qed.
Lemma match_users `{MatcherLaws} : match_route "/users" = Some (Screen UsersPage).
Proof.
  apply (match_child (AdminApp.Route (Some "users") "Users")). unfold AdminApp.children.
  apply list_elem_of_further, list_elem_of_here.
Qed.
Lemma match_group `{MatcherLaws} q : match_route ("/users?group=" +:+ q) = Some (Screen UsersPage).
Proof.
  unfold match_route. rewrite (AdminApp.resolve_child (AdminApp.Route (Some "users") "Users")); [done| |].
  - unfold AdminApp.children. apply list_elem_of_further, list_elem_of_here.
  - by apply (matches_query "/users" ("group=" +:+ q)).
Qed.

(** [Date.prototype.toLocaleString] of the browser. *)
Class Locale := locale_string : Z -> string.

Section Table.
Context `{BuildEnv} `{Locale} {Hist : Type} `{RouterLaws Hist} `{ML : MatcherLaws}.

Definition state_of (s : screen) : Type :=
  match s with
  | HomePage => Home.state | UsersPage => Users.state | GroupsPage => Groups.state
  | ConfigProfilesPage => ConfigProfiles.state | NodesPage => Nodes.state
  | TemplatesPage => Templates.state | ResponseRulesPage => ResponseRules.state
  | HWIDInspectorPage => HWIDInspector.state | ConnectionLogsPage => ConnectionLogs.state
  | SettingsPage => Settings.state
  end.
Definition action_of (s : screen) : Type :=
  match s with
  | HomePage => Home.action | UsersPage => Users.action | GroupsPage => Groups.action
  | ConfigProfilesPage => ConfigProfiles.action | NodesPage => Nodes.action
  | TemplatesPage => Templates.action | ResponseRulesPage => ResponseRules.action
  | HWIDInspectorPage => HWIDInspector.action | ConnectionLogsPage => ConnectionLogs.action
  | SettingsPage => Settings.action
  end.
(** The clients page filters by the [group] of the location. *)
Definition component_of (h : Hist) (s : screen) : component (state_of s) (action_of s) :=
  match s with
  | HomePage => Home.page
  | UsersPage => Users.page (query h "group")
  | GroupsPage => Groups.page
  | ConfigProfilesPage => ConfigProfiles.page
  | NodesPage => Nodes.page
  | TemplatesPage => Templates.page
  | ResponseRulesPage => ResponseRules.page
  | HWIDInspectorPage => HWIDInspector.page
  | ConnectionLogsPage => ConnectionLogs.page locale_string
  | SettingsPage => Settings.page
  end.
Definition view_of (h : Hist) (s : screen) : state_of s -> jsx (action_of s) :=
  match s with
  | HomePage => Home.view
  | UsersPage => UsersView.view (query h "group")
  | GroupsPage => Groups.view
  | ConfigProfilesPage => ConfigProfiles.view
  | NodesPage => Nodes.view
  | TemplatesPage => Templates.view
  | ResponseRulesPage => ResponseRules.view
  | HWIDInspectorPage => HWIDInspector.view
  | ConnectionLogsPage => ConnectionLogs.view
  | SettingsPage => Settings.view
  end.
(** The cleanups of the two effects that poll. *)
Definition unmount_of (s : screen) : state_of s -> prog (state_of s) unit :=
  match s with
  | HomePage => fun _ => Home.cleanup
  | UsersPage => fun _ => Users.cleanup
  | _ => fun _ => skip
  end.

#[export] Instance panel_screens : Screens Hist screen := {
  screen_dec := screen_eq_dec;
  screen_state := state_of;
  screen_action := action_of;
  screen_component := component_of;
  screen_unmount := unmount_of;
  screen_route := match_route;
}.

(** ** What the pages promise *)

Definition typed_of (s : screen) : state_of s -> Prop :=
  match s with
  | HomePage => @page_typed _ _ _ _ _ PanelTyped.dashboard_page
  | UsersPage => UsersTyped.typed
  | GroupsPage => @page_typed _ _ _ _ _ PanelTyped.groups_page
  | ConfigProfilesPage => @page_typed _ _ _ _ _ PanelTyped.keys_page
  | NodesPage => @page_typed _ _ _ _ _ PanelTyped.nodes_page
  | TemplatesPage => @page_typed _ _ _ _ _ PanelTyped.tariffs_page
  | ResponseRulesPage => @page_typed _ _ _ _ _ PanelTyped.rules_page
  | HWIDInspectorPage => @page_typed _ _ _ _ _ PanelTyped.devices_page
  | ConnectionLogsPage => @page_typed _ _ _ _ _ (PanelTyped.logs_page locale_string)
  | SettingsPage => @page_typed _ _ _ _ _ PanelTyped.settings_page
  end.
(** What the elements of a page let the user fire. *)
Definition offers_of (s : screen) : state_of s -> action_of s -> Prop :=
  match s with
  | UsersPage => UsersTyped.offered
  | GroupsPage => PanelTyped.groups_offer
  | ConfigProfilesPage => PanelTyped.keys_offer
  | NodesPage => PanelTyped.nodes_offer
  | TemplatesPage => PanelTyped.tariffs_offer
  | ResponseRulesPage => PanelTyped.rules_offer
  | _ => PanelTyped.anything
  end.
Definition poll_of (s : screen) : option nat :=
  match s with HomePage => Some Home.interval | UsersPage => Some Users.interval | _ => None end.

Definition page_of (h : Hist) (s : screen) : Page (component_of h s) (view_of h s) :=
  match s with
  | HomePage => PanelTyped.dashboard_page
  | UsersPage => UsersTyped.users_page _ (query_string h "group")
  | GroupsPage => PanelTyped.groups_page
  | ConfigProfilesPage => PanelTyped.keys_page
  | NodesPage => PanelTyped.nodes_page
  | TemplatesPage => PanelTyped.tariffs_page
  | ResponseRulesPage => PanelTyped.rules_page
  | HWIDInspectorPage => PanelTyped.devices_page
  | ConnectionLogsPage => PanelTyped.logs_page locale_string
  | SettingsPage => PanelTyped.settings_page
  end.

Lemma pages_kept h s : kept_component documented (component_of h s) (offers_of s) (typed_of s).
Proof. destruct s; [..|]; exact (@page_kept _ _ _ _ _ (page_of h _)). Qed.

Lemma pages_show h s (x : state_of s) e : typed_of s x ->
  exists ns, view_of h s x = Ok ns /\ forall t a, (t, Some a) ∈ clicks e ns -> offers_of s x a.
Proof. destruct s; exact (@page_shows _ _ _ _ _ (page_of h _) x e). Qed.

Lemma pages_commit h s x y : c_commit (component_of h s) x y = skip.
Proof. by destruct s. Qed.

(** Everything a page, present or past, is observed to do. *)
Definition panel_does (o : obs) : Prop := panel_obs Safety.declared o /\ Token.drops_token o.

Lemma pages_do h s : behaves (component_of h s) (fun _ => True) panel_does.
Proof.
  apply behaves_both.
  - destruct s; eauto using Safety.users_safe, Safety.groups_safe, Safety.templates_safe,
      Safety.nodes_safe, Safety.rules_safe, Safety.settings_safe, Safety.keys_safe,
      Safety.devices_safe, Safety.logs_safe, Safety.home_safe.
  - destruct s; eauto using Token.users_token, Token.groups_token, Token.templates_token,
      Token.nodes_token, Token.rules_token, Token.settings_token, Token.keys_token,
      Token.devices_token, Token.logs_token, Token.dashboard_token.
Qed.

Lemma boot_polls h s io s0 : Forall (polls (poll_of s)) (pend (boot (component_of h s) io s0)).
Proof.
  unfold boot. destruct s; cbn [component_of c_mount c_init poll_of Users.page Groups.page Templates.page
    Nodes.page ResponseRules.page Settings.page ConfigProfiles.page HWIDInspector.page ConnectionLogs.page Home.page];
    try solve [apply run_polls; [orderly_tac|constructor]].
  - set (c0 := Conf _ _ _ _ _).
    change (run io Home.mount c0) with
      (run io (let! _ := setInterval Home.fetchData 5000 in skip) (run io Home.fetchData c0)).
    apply run_interval; [orderly_tac| |].
    + unfold Home.fetchData. by rewrite !run_fetch_into_bind, !run_fetch_into.
    + apply run_polls; [orderly_tac|constructor].
  - set (c0 := Conf _ _ _ _ _).
    change (run io Users.mount c0) with
      (run io (let! _ := setInterval Users.fetchData 5000 in skip) (run io Users.fetchData c0)).
    apply run_interval; [orderly_tac| |].
    + unfold Users.fetchData, Users.fetchUsers, Users.fetchGroups, Users.fetchTemplates.
      by rewrite !run_fetch_into_bind, !run_fetch_into.
    + apply run_polls; [orderly_tac|constructor].
Qed.

Lemma pages_orderly h s x a : orderly (c_handle (component_of h s) x a).
Proof.
  destruct s; cbn [component_of c_handle Users.page Groups.page Templates.page Nodes.page ResponseRules.page
    Settings.page ConfigProfiles.page HWIDInspector.page ConnectionLogs.page Home.page]; destruct a; orderly_tac.
Qed.

(** No page navigates but at once, in a click: nothing it leaves pending does. *)
Definition never_navigates (o : obs) : Prop := match o with OCall (CNavigate _ _) => False | _ => True end.
#[local] Instance never_navigates_wrapper : Token.AllowsWrapper never_navigates.
Proof. by split. Qed.
Definition leaves_quiet {S} (p : prog S unit) : Prop :=
  within (fun _ => True) never_navigates p \/ forall io c, pend (run io p c) = pend c.

Lemma mount_quiet h s : within (fun _ => True) never_navigates (c_mount (component_of h s)).
Proof.
  destruct s; cbn [component_of c_mount Users.page Groups.page Templates.page Nodes.page ResponseRules.page
    Settings.page ConfigProfiles.page HWIDInspector.page ConnectionLogs.page Home.page]; Token.token_step.
Qed.
Lemma pages_quiet h s x a : leaves_quiet (c_handle (component_of h s) x a).
Proof.
  destruct s; cbn [component_of c_handle Users.page Groups.page Templates.page Nodes.page ResponseRules.page
    Settings.page ConfigProfiles.page HWIDInspector.page ConnectionLogs.page Home.page]; destruct a;
    first [left; solve [Token.token_step]|right; intros io c].
  - done.
  - cbn [Groups.handle]. by destruct groupId.
Qed.

(** What a page runs never sets an interval, lets the wrapper handle a 401,
    talks to the API only, navigates at once or not at all, and leaves bounded
    work. *)
Record good {S} (p : prog S unit) : Prop := Good {
  good_does : within (fun _ => True) panel_does p;
  good_orderly : orderly p;
  good_quiet : leaves_quiet p;
  good_work : Bounded p;
}.
Lemma pages_work h s : bounded_work (component_of h s).
Proof.
  destruct s; eauto using Quiescence.users_work, Quiescence.groups_work, Quiescence.templates_work,
    Quiescence.nodes_work, Quiescence.rules_work, Quiescence.settings_work, Quiescence.keys_work,
    Quiescence.devices_work, Quiescence.logs_work, Quiescence.home_work.
Qed.
Lemma pages_good h s x a : good (c_handle (component_of h s) x a).
Proof.
  split; [by apply (behaves_handle _ _ _ (pages_do h s))|apply pages_orderly|apply pages_quiet|].
  apply (work_handle _ (pages_work h s)).
Qed.

(** A configuration whose past and pending programs are such, but for the
    interval [poll]. *)
Record tended (poll : option nat) {S} (c : conf S) : Prop := Tended {
  tended_within : conf_within (fun _ => True) panel_does c;
  tended_polls : Forall (polls poll) (pend c);
  tended_quiet : Forall (task_within (fun _ => True) never_navigates) (pend c);
  tended_work : exists w, work c w;
}.

Section Tended.
Context {S : Type} (poll : option nat).
Implicit Types (c : conf S).

Lemma run_tended io p c : good p -> tended poll c -> tended poll (run io p c).
Proof.
  intros [G1 G2 G3 [n G4]] [T1 T2 T3 [w T4]]. split.
  - by apply run_within.
  - by apply run_polls.
  - destruct G3 as [G3|G3]; [by apply run_tasks_within|by rewrite G3].
  - exists (w + n). by apply work_run.
Qed.
Lemma take_tended i c : tended poll c -> tended poll (take_task i c).
Proof.
  intros [T1 T2 T3 (w & ws & T4 & _)].
  split; [by apply take_task_within|by apply Forall_delete..|].
  exists (sum_list (delete i ws)), (delete i ws). split; [by apply Forall2_delete|done].
Qed.
Lemma store_tended sto c : tended poll c -> tended poll (set_store sto c).
Proof. intros [[T1 T1' T1''] T2 T3 T4]. by repeat split. Qed.

Lemma tended_waiting i id q (k : res (reply q) -> prog S unit) c o :
  tended poll c -> pend c !! i = Some (id, Waiting q k) -> gate q k /\ good (k o).
Proof.
  intros [[_ T1 _] T2 T3 (w & ws & T4 & _)] Hi.
  destruct (Forall_lookup_1 _ _ _ _ T2 Hi) as [Hg Ho]. split; [done|]. split.
  - apply (Forall_lookup_1 _ _ _ _ T1 Hi).
  - apply Ho.
  - left. apply (Forall_lookup_1 _ _ _ _ T3 Hi).
  - destruct (Forall2_lookup_l _ _ _ _ _ T4 Hi) as (n & _ & m & _ & Hm). by exists m.
Qed.
Lemma tended_timer i id b ms p c :
  tended poll c -> pend c !! i = Some (id, Timer b ms p) -> (b = true -> poll = Some id) /\ good p.
Proof.
  intros [[_ T1 _] T2 T3 (w & ws & T4 & _)] Hi.
  destruct (Forall_lookup_1 _ _ _ _ T2 Hi) as [Ho Hb]. split; [done|]. split.
  - apply (Forall_lookup_1 _ _ _ _ T1 Hi).
  - done.
  - left. apply (Forall_lookup_1 _ _ _ _ T3 Hi).
  - destruct (Forall2_lookup_l _ _ _ _ _ T4 Hi) as (n & _ & Hn). destruct b; [apply Hn|].
    destruct Hn as (m & _ & Hm). by exists m.
Qed.
End Tended.

Lemma boot_tended h s io s0 : tended (poll_of s) (boot (component_of h s) io s0).
Proof.
  split.
  - apply run_within; [apply (behaves_mount _ _ _ (pages_do h s))|]. by split.
  - apply boot_polls.
  - apply run_tasks_within; [apply mount_quiet|constructor].
  - destruct (work_mount _ (pages_work h s)) as [n Hn]. exists (0 + n). apply work_run; [done|]. by exists [].
Qed.

(** Mounting a page sends requests only. *)
Lemma boot_storage h s io s0 : store (boot (component_of h s) io s0) = s0.
Proof.
  unfold boot. destruct s; cbn; destruct (s0 !! token_key) as [[|x t]|] eqn:E; cbn;
    repeat (rewrite E; cbn); reflexivity.
Qed.

Lemma unmount_storage s io (c : conf (state_of s)) : store (run io (unmount_of s (st c)) c) = store c.
Proof. by destruct s. Qed.

(** Leaving a page clears its interval. *)
Lemma page_tended s io (c : conf (state_of s)) :
  tended (poll_of s) c -> tended None (run io (unmount_of s (st c)) c).
Proof.
  intros [T1 T2 T3 [w T4]]. split.
  - destruct s; by apply run_within.
  - destruct s; first [by apply cleared_polls|exact T2].
  - destruct s; by apply run_tasks_within.
  - exists (w + 0). destruct s; by apply work_run.
Qed.

(** ** The pages under the machine of [RouterMachine] *)

(** What holds of a page on display and of one that was left: of the former
    against any server [Q] and for any well-formedness [typed] of its state the
    server's answers keep, and for any property [P] of the storage that dropping
    the token keeps. *)
Record lives (Q : request -> response -> Prop) (typed : forall s : screen, state_of s -> Prop)
    (P : gmap string string -> Prop) (s : screen) (c : conf (state_of s)) : Prop := Lives {
  lives_store : P (store c);
  lives_typed : conf_keeps Q (typed s) c;
  lives_tended : tended (poll_of s) c;
}.
Definition leaves (s : screen) (c : conf (state_of s)) : Prop := tended None c.

Section Invariant.
Context (Q : request -> response -> Prop) (offers : forall s : screen, state_of s -> action_of s -> Prop).
Context (typed : forall s : screen, state_of s -> Prop).
Context (kept : forall h s, kept_component Q (component_of h s) (offers s) (typed s)).
Context (P : gmap string string -> Prop) (P_drop : forall s, P s -> P (delete token_key s)).
Local Abbreviation lives := (lives Q typed P).

Lemma does_store o s : panel_does o -> P s -> P (store_after o s).
Proof. intros [_ Ho]. destruct o as [[]| |]; try done. cbn in Ho. subst k. apply P_drop. Qed.
Lemma good_store {S} io p (c : conf S) : good p -> P (store c) -> P (store (run io p c)).
Proof. intros [Hp _ _ _]. eapply (run_store_kept P); [apply does_store|exact Hp]. Qed.

Lemma run_lives {s} io p (c : conf (state_of s)) :
  good p -> keeps Q (typed s) p -> lives s c -> lives s (run io p c).
Proof.
  intros Hp Hk [L1 L2 L3]. split; [by apply good_store|by apply run_keeps|by apply run_tended].
Qed.
Lemma take_lives {s} i (c : conf (state_of s)) : lives s c -> lives s (take_task i c).
Proof. intros [L1 L2 L3]. split; [done|by apply take_keeps|by apply take_tended]. Qed.
Lemma store_lives {s} sto (c : conf (state_of s)) : P sto -> lives s c -> lives s (set_store sto c).
Proof. intros Hs [L1 [L2 L2'] L3]. split; [done|done|by apply store_tended]. Qed.

Lemma boot_lives h s io s0 : P s0 -> lives s (boot (component_of h s) io s0).
Proof.
  intros L0. pose proof (kept h s) as HK. split.
  - eapply (run_store_kept P); [apply does_store|apply (behaves_mount _ _ _ (pages_do h s))|done].
  - apply run_keeps; [apply HK|]. split; [apply HK|constructor].
  - apply boot_tended.
Qed.

Lemma step_lives h s c c' : lives s c -> kept_step Q (component_of h s) (offers s) c c' ->
  lives s c'.
Proof.
  intros Hc Hs. pose proof Hc as [L1 [L2 L2'] L3].
  destruct Hs as [io a c Ha|io i id q k o c Hi Ho|io i id b ms p c Hi];
    unfold event_step, settle_step, timer_step, commit_after; rewrite pages_commit; cbn [run skip].
  - apply run_lives; [apply pages_good| |done]. by apply (kept_handle _ _ _ _ (kept h s)).
  - apply run_lives; [by eapply tended_waiting| |by apply take_lives].
    by apply (Forall_lookup_1 _ _ _ _ L2' Hi).
  - apply run_lives; [by eapply tended_timer|apply (Forall_lookup_1 _ _ _ _ L2' Hi)|].
    destruct b; [done|by apply take_lives].
Qed.

Local Abbreviation tame := (RouterMachine.tame (H:=Hist) Q offers).

Lemma leftover_runs_of s1 s (c1 : conf (state_of s1)) io p (c c' : conf (state_of s)) :
  lives s1 c1 -> leaves s c' -> good p -> store c' = store c1 ->
  leftover_runs (H:=Hist) lives leaves (observed panel_does) c1 c (run io p c').
Proof.
  intros Hs Hc Hp Est. pose proof (run_tended _ io p c' Hp Hc) as Hr. split; [done|]. split.
  - apply (store_lives (store (run io p c'))); [|done]. apply good_store; [done|]. rewrite Est. apply Hs.
  - apply Forall_drop, Hr.
Qed.

Lemma pages_tame : tame lives leaves P (observed panel_does) Safety.declared.
Proof.
  split.
  - apply declared_route.
  - intros p b [Hp _]. exact Hp.
  - intros s h. apply (boot_lives h s).
  - intros s h c c' Hc Hs. pose proof (step_lives h s c c' Hc Hs) as Hc'. split; [done|].
    apply Forall_drop, Hc'.
  - intros s io c [L1 _ L3]. split; [by apply (page_tended s io c)|by destruct s].
  - intros s1 s io c1 c i id b ms p Hs Hc Hi c2. destruct (tended_timer _ _ _ _ _ _ _ Hc Hi) as [Hb Hp].
    destruct b; [by specialize (Hb eq_refl)|].
    apply (leftover_runs_of s1 s c1 io p c); [done| |done|done]. by apply take_tended, store_tended.
  - intros s1 s io c1 c i id q k o Hs Hc Hi _. destruct (tended_waiting _ _ _ _ _ _ o Hc Hi) as [_ Hp].
    apply (leftover_runs_of s1 s c1 io (k o) c); [done| |done|done]. by apply take_tended, store_tended.
Qed.
End Invariant.

(** Any server and any actions keep the trivial well-formedness. *)
Lemma pages_any h s :
  kept_component (fun _ _ => True) (component_of h s) (fun _ _ => True) (fun _ => True).
Proof.
  destruct (pages_do h s) as [B1 B2 B3 B4].
  split; [done|by eapply keeps_within|intros x a _ _; by eapply keeps_within, B3|intros; by eapply keeps_within, B4].
Qed.
End Table.
