(* ===== verification/PanelMachine.v ===== *)
(** * The admin panel as one machine ([App.tsx], [routes.tsx], [Layout.tsx])

    The entry shows the login form or the router; behind the router the layout
    stays mounted around one page at a time, the one of the current location.
    A move is a move of the entry, of the layout, of the page on display or of
    one that was left, a click on a link of the sidebar, or the user going back
    and forth; reloading the document starts everything over from the storage
    and the history.  The router is a library: see [RouterMachine]. *)
From S2P Require Import Prelude JsStr JsNum JsVal React Effects Logic Storage Api Typed Promises Orderly Work RouterMachine PanelScreens.
From S2P Require Login AdminApp Safety Shell Token Quiescence.
Local Open Scope string_scope.
Local Open Scope js_scope.

(** Any server and any user. *)
Abbreviation any_server := (fun _ _ => True).
Abbreviation any_action := (fun _ _ _ => True).
Abbreviation any_state := (fun _ _ => True).

Section Panel.
Context `{BE : BuildEnv} `{LC : Locale} {Hist : Type} `{RT : Router Hist} `{RM : Matcher}.
Local Abbreviation pages := (app Hist screen).

(** What the entry renders: no router, or one on a known location; on an
    unknown one the router has no page to show. *)
Inductive display : Type :=
| NoPage (h : Hist)
| Shown (frame : conf Shell.state) (a : pages).
Record panel := Panel { entry : conf AdminApp.state; shown : display }.

Definition history (p : panel) : Hist :=
  match shown p with NoPage h => h | Shown _ a => hist a end.
Definition storage (p : panel) : gmap string string :=
  match shown p with NoPage _ => store (entry p) | Shown _ a => store (live a) end.

(** [App]: the router is mounted once the user is authenticated. *)
Definition render_app (io : inputs) (authenticated : bool) (h : Hist) (s : gmap string string) : display :=
  if negb authenticated then NoPage h
  else match open_at io h s with
       | Some a => Shown (boot Shell.layout io s) a
       | None => NoPage h
       end.
(** Loading the document. *)
Definition load (io : inputs) (h : Hist) (s : gmap string string) : panel :=
  let e := boot AdminApp.page io s in
  Panel e (render_app io (AdminApp.isAuthenticated (st e)) h (store e)).

(** The entry has moved to [e], on the storage it shares with the page. *)
Definition entry_moved (io : inputs) (e : conf AdminApp.state) (p : panel) : panel :=
  Panel e (match shown p with
    | NoPage h => render_app io (AdminApp.isAuthenticated (st e)) h (store e)
    | Shown fr a => Shown fr (App (hist a) (cur a) (set_store (store e) (live a)) (left a))
    end).
(** A link of the sidebar leads to its path; whether the location replaces the
    current one is the router's business. *)
Definition follow_link (io : inputs) (replace : bool) (item : Shell.nav_item) (a : pages) : pages :=
  arrive io (go replace (Shell.to item) (hist a)) a.
Definition links : list Shell.nav_item := concat (map Shell.items Shell.sections).

Section Moves.
Context (Q : request -> response -> Prop) (offers : forall s : screen, state_of s -> action_of s -> Prop).

(** The moves within one document.  The login form is there to be used as long
    as the user is not authenticated. *)
Inductive moves_in (p : panel) : panel -> list obs -> Prop :=
| in_entry io e :
    kept_step Q AdminApp.page (fun s _ => AdminApp.isAuthenticated s = false)
      (set_store (storage p) (entry p)) e ->
    moves_in p (entry_moved io e p) (since (entry p) e)
| in_page fr a a' l : shown p = Shown fr a -> moves Q offers a a' l ->
    moves_in p (Panel (entry p) (Shown fr a')) l
| in_frame fr fr' a : shown p = Shown fr a -> step Shell.layout fr fr' ->
    moves_in p (Panel (entry p) (Shown fr' a)) (since fr fr')
| in_link io replace item fr a : shown p = Shown fr a -> item ∈ links ->
    moves_in p (Panel (entry p) (Shown fr (follow_link io replace item a))) []
| in_travel io h h' : shown p = NoPage h -> travel h h' ->
    moves_in p (Panel (entry p)
      (render_app io (AdminApp.isAuthenticated (st (entry p))) h' (store (entry p)))) [].
Definition stays_in (p p' : panel) : Prop := exists l, moves_in p p' l.

(** The configurations of the panel opened at [path] on [s0]. *)
Inductive panel_ran (path : string) (s0 : gmap string string) : panel -> Prop :=
| panel_start io : panel_ran path s0 (load io (fresh path) s0)
| panel_in p p' l : panel_ran path s0 p -> moves_in p p' l -> panel_ran path s0 p'
| panel_reload io p : panel_ran path s0 p -> panel_ran path s0 (load io (history p) (storage p)).
End Moves.

(** A request of a page, on display or left, is answered by a 401 outside a
    login address. *)
Inductive refused (io : inputs) (p : panel) : panel -> list obs -> Prop :=
| refused_live fr a i id rq (k : res response -> prog (state_of (cur a)) unit) r :
    shown p = Shown fr a -> pend (live a) !! i = Some (id, Waiting (QFetch rq) k) ->
    r_status r = 401%Z -> includes (in_href io) "login" = false ->
    let c := settle_step (screen_component (hist a) (cur a)) io i (q:=QFetch rq) k (Ok r) (live a) in
    refused io p (Panel (entry p) (Shown fr (live_move io a c))) (since (live a) c)
| refused_left fr a j s c i id rq (k : res response -> prog (state_of s) unit) r :
    shown p = Shown fr a -> left a !! j = Some (Gone s c) ->
    pend c !! i = Some (id, Waiting (QFetch rq) k) ->
    r_status r = 401%Z -> includes (in_href io) "login" = false ->
    refused io p (Panel (entry p) (Shown fr (left_move io j c i false (k (Ok r)) a)))
      (since c (left_run io c i false (k (Ok r)) a)).

(** ** The entry *)

(** Everything the entry is observed to do; once the user is authenticated
    only a reload takes that back. *)
Definition entry_does (o : obs) : Prop := panel_obs Safety.declared o /\ Token.token_only o.
Definition in_session (s : AdminApp.state) : Prop := AdminApp.isAuthenticated s = true.
Record entry_ok (e : conf AdminApp.state) : Prop := EntryOk {
  entry_within : conf_within (fun _ => True) entry_does e;
  entry_tasks : Forall (task_within in_session entry_does) (pend e);
  entry_work : exists w, work e w;
}.

Lemma entry_behaves : behaves AdminApp.page (fun _ => True) entry_does.
Proof. apply behaves_both; [apply Safety.login_safe|apply Token.login_token]. Qed.

#[local] Existing Instance Token.token_only_wrapper.
Lemma entry_handles s a : within in_session entry_does (c_handle AdminApp.page s a).
Proof.
  destruct a as [[|v]]; cbn [c_handle AdminApp.page];
    unfold AdminApp.handle, Login.handle, Login.handleSubmit, Login.set;
    cbv beta iota delta [Login.onLogin Login.modify_login AdminApp.app_login_host];
    (apply within_both; [within_api; done|Token.token_step]).
Qed.

Lemma entry_boots io s : entry_ok (boot AdminApp.page io s).
Proof.
  split; [|constructor|].
  - apply run_within; [apply entry_behaves|]. by split.
  - destruct (work_mount _ Quiescence.login_work) as [n Hn]. exists (0 + n). apply work_run; [done|]. by exists [].
Qed.

Lemma entry_runs io p e :
  within (fun _ => True) entry_does p -> within in_session entry_does p -> Bounded p -> entry_ok e ->
  entry_ok (run io p e) /\ (in_session (st e) -> in_session (st (run io p e))).
Proof.
  intros H1 H2 [n H3] [E1 E2 [w E3]]. split.
  - split; [by apply run_within|by apply run_tasks_within|]. exists (w + n). by apply work_run.
  - intros Hs. assert (conf_within in_session entry_does e) as He by (split; [done|done|apply E1]).
    apply (run_within _ _ io p e H2 He).
Qed.
Lemma take_entry i e : entry_ok e -> entry_ok (take_task i e).
Proof.
  intros [E1 E2 (w & ws & E3 & _)]. split; [by apply take_task_within|by apply Forall_delete|].
  exists (sum_list (delete i ws)), (delete i ws). split; [by apply Forall2_delete|done].
Qed.

Lemma entry_steps Q P' e e' : entry_ok e -> kept_step Q AdminApp.page P' e e' ->
  entry_ok e' /\ (in_session (st e) -> in_session (st e')).
Proof.
  intros He Hs. pose proof He as [[_ H1 _] H2 (w & ws & H3 & _)].
  destruct Hs as [io a e _|io i id q k o e Hi _|io i id b ms p e Hi];
    unfold event_step, settle_step, timer_step, commit_after; cbn [c_commit AdminApp.page run skip].
  - apply entry_runs; [by apply (behaves_handle _ _ _ entry_behaves)|apply entry_handles| |done].
    apply (work_handle _ Quiescence.login_work).
  - destruct (Forall2_lookup_l _ _ _ _ _ H3 Hi) as (n & _ & m & _ & Hm).
    apply (entry_runs io (k o) (take_task i e)); [apply (Forall_lookup_1 _ _ _ _ H1 Hi)
      |apply (Forall_lookup_1 _ _ _ _ H2 Hi)|by exists m|by apply take_entry].
  - destruct (Forall2_lookup_l _ _ _ _ _ H3 Hi) as (n & _ & Hn).
    assert (Bounded p) as Hp by (destruct b; [apply Hn|destruct Hn as (m & _ & Hm); by exists m]).
    pose proof (Forall_lookup_1 _ _ _ _ H1 Hi) as W1. pose proof (Forall_lookup_1 _ _ _ _ H2 Hi) as W2.
    destruct b; [by apply (entry_runs io p e)|]. apply (entry_runs io p (take_task i e)); by auto using take_entry.
Qed.

Context `{RL : !RouterLaws Hist} `{ML : !MatcherLaws}.

Lemma links_declared item : item ∈ links -> Safety.declared (Shell.to item).
Proof.
  intros Hi. apply Shell.link_resolved. by apply list_elem_of_fmap_2.
Qed.

(** The layout has nothing pending, and at most keeps the browser from its own search. *)
Lemma frame_steps fr fr' : pend fr = [] -> step Shell.layout fr fr' ->
  pend fr' = [] /\ (since fr fr' = [] \/ since fr fr' = [OCall CPreventDefault]).
Proof.
  intros Hp Hs. destruct Hs as [io x fr|io i id q k o fr Hi|io i id b ms q fr Hi];
    [|rewrite Hp in Hi; discriminate..].
  unfold event_step, commit_after, since. cbn [c_commit Shell.layout run skip c_handle].
  destruct x as [[]|[open|ev]]; cbn; [rewrite drop_all; by auto..|].
  unfold Shell.down. case_match; cbn; [rewrite drop_app_length|rewrite drop_all]; by auto.
Qed.

(** ** Invariants

    For a server and a user as in [moves_in], a well-formedness of the pages'
    states they keep, and a property [P] of the storage that dropping the token
    keeps. *)
Section Invariant.
Context (Q : request -> response -> Prop) (offers : forall s : screen, state_of s -> action_of s -> Prop).
Context (typed : forall s : screen, state_of s -> Prop).
Context (kept : forall h s, kept_component Q (component_of h s) (offers s) (typed s)).
Context (P : gmap string string -> Prop) (P_drop : forall s, P s -> P (delete token_key s)).
Local Abbreviation pages_well := (RouterMachine.well (H:=Hist) (lives Q typed P) leaves Safety.declared).
Local Abbreviation tamed := (pages_tame Q offers typed kept P P_drop).

Definition display_ok (authenticated : bool) (s : gmap string string) (d : display) : Prop :=
  match d with
  | NoPage h => authenticated = false /\ P s /\ Forall Safety.declared (trail h)
  | Shown fr a => authenticated = true /\ pend fr = [] /\ pages_well a
  end.
Definition panel_ok (p : panel) : Prop :=
  entry_ok (entry p) /\ display_ok (AdminApp.isAuthenticated (st (entry p))) (store (entry p)) (shown p).

Lemma render_ok io b h s :
  P s -> Forall Safety.declared (trail h) -> display_ok b s (render_app io b h s).
Proof.
  intros Hs Hh. unfold render_app. destruct b; [|by split]. cbn [negb].
  assert (Safety.declared (here h)) as Hn by (rewrite Forall_forall in Hh; apply Hh, here_trail).
  destruct (declared_route _ Hn) as [x Hx]. unfold open_at, settle.
  change (screen_route (here h)) with (match_route (here h)). rewrite Hx. cbn [option_map fst snd].
  split; [done|]. split; [done|]. split; cbn [hist cur live left]; [done| |done|done].
  by apply (tame_boot _ _ _ _ _ _ _ tamed).
Qed.

Lemma page_moves_ok p fr a a' l :
  panel_ok p -> shown p = Shown fr a -> moves Q offers a a' l ->
  panel_ok (Panel (entry p) (Shown fr a')) /\ Forall (observed panel_does) l.
Proof.
  intros [He Hd] E Hm. rewrite E in Hd. destruct Hd as (Ha & Hf & Hw).
  destruct (moves_well _ _ _ _ _ _ _ tamed _ _ _ Hw Hm) as [Hw' Hl]. by split.
Qed.

Lemma link_ok p fr a io b item :
  panel_ok p -> shown p = Shown fr a -> item ∈ links ->
  panel_ok (Panel (entry p) (Shown fr (follow_link io b item a))).
Proof.
  intros [He Hd] E Hi. rewrite E in Hd. destruct Hd as (Ha & Hf & Hw). split; [done|]. split; [done|]. split; [done|].
  apply (arrive_well _ _ _ _ _ _ _ tamed); [done|]. apply Forall_forall. intros q Hq.
  apply trail_go in Hq as [->|Hq].
  - by apply links_declared.
  - destruct Hw as [_ _ _ Hw]. rewrite Forall_forall in Hw. by apply Hw.
Qed.

Lemma panel_trail p : panel_ok p -> Forall Safety.declared (trail (history p)).
Proof. intros [_ Hd]. unfold history. destruct (shown p); apply Hd. Qed.
Lemma panel_storage p : panel_ok p -> P (storage p).
Proof. intros [_ Hd]. unfold storage. destruct (shown p) as [h|fr a]; [apply Hd|apply Hd]. Qed.

Lemma load_ok io h s : P s -> Forall Safety.declared (trail h) -> panel_ok (load io h s).
Proof.
  intros Hs Hh. split; [apply entry_boots|]. apply render_ok; [|done].
  exact Hs.
Qed.

(** The entry may also store a token. *)
Section Entry.
Context (P_set : forall v s, P s -> P (<[token_key := v]> s)).

Lemma entry_does_store o s : entry_does o -> P s -> P (store_after o s).
Proof. intros [_ Ho]. destruct o as [[]| |]; try done; cbn in *; subst; auto. Qed.

Lemma entry_store P' e e' :
  entry_ok e -> kept_step Q AdminApp.page P' e e' -> P (store e) -> P (store e').
Proof.
  intros [[_ H1 _] _] Hs. rewrite Forall_forall in H1.
  destruct Hs as [io a e _|io i id q k o e Hi _|io i id b ms p e Hi];
    unfold event_step, settle_step, timer_step, commit_after; cbn [c_commit AdminApp.page run skip];
    intros He.
  - eapply (run_store_kept P); [apply entry_does_store| |done].
    by apply (behaves_handle _ _ _ entry_behaves).
  - apply list_elem_of_lookup_2 in Hi. specialize (H1 _ Hi).
    eapply (run_store_kept P); [apply entry_does_store|apply H1|done].
  - apply list_elem_of_lookup_2 in Hi. specialize (H1 _ Hi).
    eapply (run_store_kept P); [apply entry_does_store|apply H1|by destruct b].
Qed.

Lemma entry_moved_ok io e p P' :
  panel_ok p -> kept_step Q AdminApp.page P' (set_store (storage p) (entry p)) e ->
  panel_ok (entry_moved io e p) /\ Forall (observed entry_does) (since (entry p) e).
Proof.
  intros Hp Hs. pose proof (panel_storage _ Hp) as HP. pose proof (panel_trail _ Hp) as HT.
  destruct Hp as [He Hd].
  assert (entry_ok (set_store (storage p) (entry p))) as He0 by (destruct He as [[]]; by repeat split).
  destruct (entry_steps _ _ _ _ He0 Hs) as [He' Hauth].
  pose proof (entry_store _ _ _ He0 Hs HP) as HP'. split; [|apply Forall_drop, He'].
  split; [done|]. cbn [entry shown entry_moved]. unfold history in HT.
  destruct (shown p) as [h|fr a]; [by apply render_ok|].
  destruct Hd as (Ha & Hf & [W1 W2 W3 W4]). split; [by apply Hauth|]. split; [done|]. split; try done.
  by apply store_lives.
Qed.

(** Any move, and what it does. *)
Lemma panel_moves_ok p p' l :
  panel_ok p -> moves_in Q offers p p' l -> panel_ok p' /\ Forall api_request (sent l).
Proof.
  intros Hp Hm.
  assert (forall (R : obs -> Prop) t, (forall r, R (OSend r) -> api_request r) -> Forall (observed R) t ->
    Forall api_request (sent t)) as Hsent.
  { intros R t HR Ht. apply Forall_forall. unfold sent. intros r Hin.
    apply list_elem_of_omap in Hin as ([cm|rq|x] & Hin & [= <-]).
    rewrite Forall_forall in Ht. by apply HR, (Ht (OSend rq)). }
  destruct Hm as [io e Hs|fr a a' l E Hm|fr fr' a E Hm|io b item fr a E Hi|io h h' E Ht].
  - destruct (entry_moved_ok io _ _ _ Hp Hs) as [Hp' Hl]. split; [done|].
    apply (Hsent entry_does); [by intros r [? _]|done].
  - destruct (page_moves_ok _ _ _ _ _ Hp E Hm) as [Hp' Hl]. split; [done|].
    apply (Hsent panel_does); [by intros r [? _]|done].
  - destruct Hp as [He Hd]. rewrite E in Hd. destruct Hd as (Ha & Hf & Hw).
    destruct (frame_steps _ _ Hf Hm) as [Hf' Hl]. split; [by split|]. by destruct Hl as [->| ->].
  - split; [|constructor]. by eapply link_ok.
  - split; [|constructor]. destruct Hp as [He Hd]. rewrite E in Hd. destruct Hd as (Ha & HP & Hh).
    split; [done|]. apply render_ok; [done|]. by rewrite (trail_travel _ _ Ht).
Qed.

Lemma panel_ran_ok path s0 p :
  Safety.declared path -> P s0 -> panel_ran Q offers path s0 p -> panel_ok p.
Proof.
  intros Hpath H0. induction 1 as [io|p p' l _ IH Hm|io p _ IH].
  - apply load_ok; [done|]. rewrite trail_fresh. by constructor.
  - by eapply panel_moves_ok.
  - apply load_ok; [by apply panel_storage|by apply panel_trail].
Qed.
End Entry.
End Invariant.
End Panel.
