(* ===== verification/PanelRuns.v ===== *)
(** * What holds of the admin panel as a whole

    The theorems on the machine of [PanelMachine]: what is shown, that it never
    breaks, how a session starts and ends, that the pages the user has left
    never interfere, and how a group leads to its clients. *)
From S2P Require Import Prelude JsStr JsNum JsVal React Effects Logic Storage Api Typed Promises Orderly RouterMachine PanelScreens PanelMachine.
From S2P Require Login AdminApp Safety Shell Token PanelTyped Users UsersView UsersSpec Groups.
Local Open Scope string_scope.
Local Open Scope js_scope.

Section Panel.
Context `{BE : BuildEnv} `{LC : Locale} {Hist : Type} `{RT : Router Hist} `{RL : !RouterLaws Hist} `{RM : Matcher} `{ML : !MatcherLaws}.
Local Abbreviation pages := (app Hist screen).

(** Nothing pending repeats. *)
Definition no_interval {S} (c : conf S) : Prop :=
  forall id b ms p, (id, Timer b ms p) ∈ pend c -> b = false.

Lemma polls_none {S} (c : conf S) : Forall (polls None) (pend c) -> no_interval c.
Proof.
  intros Hc id b ms p Hin. rewrite Forall_forall in Hc. destruct (Hc _ Hin) as [_ Hb].
  destruct b; [by specialize (Hb eq_refl)|done].
Qed.

(** At an address without a page, nothing but the entry is ever shown. *)
Lemma nowhere Q offers path s0 p : ~ Safety.declared path -> panel_ran Q offers path s0 p ->
  exists h, shown p = NoPage h /\ trail h = [path].
Proof.
  intros Hpath.
  assert (forall io b h s, trail h = [path] -> exists h', render_app io b h s = NoPage h' /\ trail h' = [path]) as Hr.
  { intros io b h s Hh. exists h. split; [|done]. unfold render_app. destruct b; [|done]. cbn [negb].
    assert (here h = path) as E by (pose proof (here_trail h) as Hin; rewrite Hh in Hin; by apply list_elem_of_singleton in Hin).
    unfold open_at, settle. change (screen_route (here h)) with (match_route (here h)). rewrite E.
    destruct (match_route path) as [[x|q b]|] eqn:Em; [by apply route_declared in Em| |done].
    unfold match_route in Em. by destruct (_ ≫= _). }
  induction 1 as [io|p p' l _ (h & Eh & Hh) Hm|io p _ (h & Eh & Hh)].
  - apply Hr. apply trail_fresh.
  - destruct Hm as [io e Hs|fr a a' l E Hm|fr fr' a E Hm|io b item fr a E Hi|io h1 h' E Ht];
      try by rewrite Eh in E.
    + cbn [shown entry_moved]. rewrite Eh. by apply Hr.
    + cbn [shown]. apply Hr. rewrite Eh in E. injection E as <-. by rewrite (trail_travel _ _ Ht).
  - apply Hr. unfold history. by rewrite Eh.
Qed.

(** C1. The panel as a whole.  Opened at an address that the router matches to
    a page, it shows that page if a token is stored and the login form otherwise.  In every
    configuration it can reach from there, whatever the server answers and the
    user does (handlers, links, timers, answers to requests of present and past
    pages, back and forward, reloads): a page is mounted iff the user is
    authenticated, and it is the one of the current location; the pages that
    were left have no interval pending; the storage is the one the panel was
    opened on, up to the token; the router matches every address in the history
    to a page; and every request it then makes goes through the wrapper to the
    API.  Opened at an address that the router matches to no page it never shows
    one. *)
Theorem panel_composes (path : string) (s0 : gmap string string) :
  (Safety.declared path ->
   (forall io, match shown (load io (fresh path) s0) with
               | NoPage _ => stored_token s0 = ""
               | Shown _ a => stored_token s0 <> "" /\ here (hist a) = path
               end) /\
   forall p, panel_ran any_server any_action path s0 p ->
     match shown p with
     | NoPage _ => AdminApp.isAuthenticated (st (entry p)) = false
     | Shown _ a =>
         AdminApp.isAuthenticated (st (entry p)) = true /\
         match_route (here (hist a)) = Some (Screen (cur a)) /\
         Forall (fun g => no_interval (gone_conf g)) (left a)
     end /\
     delete token_key (storage p) = delete token_key s0 /\
     Forall Safety.declared (trail (history p)) /\
     (forall p' l, moves_in any_server any_action p p' l -> Forall api_request (sent l))) /\
  (~ Safety.declared path -> forall p, panel_ran any_server any_action path s0 p ->
     exists h, shown p = NoPage h /\ here h = path).
Proof.
  split.
  - intros Hpath.
    set (P := fun s : gmap string string => delete token_key s = delete token_key s0).
    assert (forall s, P s -> P (delete token_key s)) as P_drop by (intros s Hs; unfold P; by rewrite delete_delete_eq).
    assert (forall v s, P s -> P (<[token_key := v]> s)) as P_set by (intros v s Hs; unfold P; by rewrite delete_insert_eq).
    split.
    + intros io. unfold load. cbn [shown]. pose proof (Token.opens_token s0 io) as Ho. rewrite Ho.
      unfold render_app. destruct (stored_token s0) as [|c0 t0]; [done|]. cbn [str_truthy negb].
      unfold open_at, settle. rewrite here_fresh. destruct (declared_route _ Hpath) as [x Hx].
      change (screen_route path) with (match_route path). rewrite Hx. cbn. by rewrite here_fresh.
    + intros p Hp. apply (panel_ran_ok _ _ any_state pages_any P P_drop P_set) in Hp; [|done|done].
      pose proof (panel_storage _ _ _ _ Hp) as HP. pose proof (panel_trail _ _ _ _ Hp) as HT.
      split; [|split; [exact HP|split; [exact HT|]]].
      * destruct Hp as [_ Hd]. destruct (shown p) as [h|fr a]; [apply Hd|].
        destruct Hd as (Ha & _ & [W1 _ W3 _]). split; [done|]. split; [done|].
        eapply Forall_impl; [exact W3|]. intros g [_ Hg _ _]. by apply polls_none.
      * intros p' l Hm. eapply (panel_moves_ok _ _ any_state pages_any P P_drop P_set); [exact Hp|exact Hm].
  - intros Hpath p Hp. destruct (nowhere _ _ _ _ _ Hpath Hp) as (h & E & Hh). exists h. split; [done|].
    pose proof (here_trail h) as Hin. rewrite Hh in Hin. by apply list_elem_of_singleton in Hin.
Qed.

(** C2. The panel never breaks on a server that keeps its word.  Opened at the
    address of a page, against a server whose answers have the promised shapes
    and a user who clicks on what is displayed, in every configuration the
    entry, the frame and the page on display render; so do the pages the user
    comes back to, on whatever the server answered meanwhile; and every click
    the page offers finds what its handler reads. *)
Theorem panel_never_breaks (path : string) (s0 : gmap string string) (p : panel) (e : event) :
  Safety.declared path -> panel_ran documented offers_of path s0 p ->
  match shown p with
  | NoPage _ => exists ns, AdminApp.view (st (entry p)) = Ok ns
  | Shown fr a =>
      (exists ns, Shell.Layout (st fr) = Ok ns) /\
      exists ns, view_of (hist a) (cur a) (st (live a)) = Ok ns /\
        forall t x, (t, Some x) ∈ clicks e ns -> offers_of (cur a) (st (live a)) x
  end.
Proof.
  intros Hpath Hp.
  apply (panel_ran_ok _ _ typed_of pages_kept (fun _ => True)) in Hp; [|done..].
  destruct Hp as [_ Hd]. destruct (shown p) as [h|fr a].
  - destruct (page_shows (Page:=PanelTyped.entry_page) (st (entry p)) e I) as (ns & Hn & _). by exists ns.
  - destruct Hd as (_ & _ & [_ [_ [Ht _] _] _ _]). split.
    + destruct (st fr) as [[]]; by eexists.
    + by apply pages_show.
Qed.

(** *** The end of a session *)

Definition no_token (s : gmap string string) : Prop := s !! token_key = None.
Lemma no_token_drop s : no_token s -> no_token (delete token_key s).
Proof. intros _. apply lookup_delete_eq. Qed.
Local Abbreviation tokenless := (pages_tame any_server any_action any_state pages_any no_token no_token_drop).
Local Abbreviation pages_well P :=
  (RouterMachine.well (H:=Hist) (lives any_server any_state P) leaves Safety.declared).

Lemma does_no_token o s : panel_does o -> no_token s -> no_token (store_after o s).
Proof. apply does_store, no_token_drop. Qed.

Lemma lives_weaken P s (c : conf (state_of s)) :
  P (store c) -> lives any_server any_state (fun _ => True) s c -> lives any_server any_state P s c.
Proof. intros HP []. by split. Qed.

(** The page on display, or one that was left, gets a 401. *)
Lemma refused_live_ok io (a : pages) i id rq (k : res response -> prog (state_of (cur a)) unit) r :
  pages_well (fun _ => True) a -> pend (live a) !! i = Some (id, Waiting (QFetch rq) k) ->
  r_status r = 401%Z -> includes (in_href io) "login" = false ->
  let c := settle_step (screen_component (hist a) (cur a)) io i (q:=QFetch rq) k (Ok r) (live a) in
  pages_well no_token (live_move io a c) /\ OCall CReload ∈ since (live a) c.
Proof.
  intros Ha Hi Hr Hl c. pose proof Ha as [W1 W2 W3 W4]. pose proof W2 as [_ _ Ht].
  destruct (tended_waiting _ i id (QFetch rq) k _ (Ok r) Ht Hi) as [Hg [Hw' _ _ _]].
  assert (kept_step any_server (component_of (hist a) (cur a)) any_state (live a) c) as Hs by (by econstructor).
  destruct (run_forgets _ _ io _ (take_task i (live a)) does_no_token Hw' (Hg r Hr) Hl) as (Hn & l & El & Hin).
  assert (c = run io (k (Ok r)) (take_task i (live a))) as Ec.
  { unfold c, settle_step, commit_after. change (screen_component (hist a) (cur a)) with (component_of (hist a) (cur a)).
    by rewrite pages_commit. }
  pose proof (step_lives _ _ _ pages_any (fun _ => True) (fun _ _ => I) _ _ _ _ W2 Hs) as W2'. split.
  - apply (react_well _ _ _ _ _ _ _ tokenless).
    + split; cbn [hist cur live left]; try done. apply lives_weaken; [by rewrite Ec|done].
    + apply Forall_drop, W2'.
  - refine (eq_ind_r (fun t => _ ∈ t) Hin (since_app _ _ _ _)). rewrite Ec. exact El.
Qed.

Lemma refused_left_ok io (a : pages) j s (c : conf (state_of s)) i id rq
    (k : res response -> prog (state_of s) unit) r :
  pages_well (fun _ => True) a -> left a !! j = Some (Gone s c) ->
  pend c !! i = Some (id, Waiting (QFetch rq) k) ->
  r_status r = 401%Z -> includes (in_href io) "login" = false ->
  pages_well no_token (left_move io j c i false (k (Ok r)) a) /\
  OCall CReload ∈ since c (left_run io c i false (k (Ok r)) a).
Proof.
  intros Ha Hj Hi Hr Hl. pose proof Ha as [W1 W2 W3 W4].
  pose proof (Forall_lookup_1 _ _ _ _ W3 Hj) as Hc.
  destruct (tended_waiting _ i id (QFetch rq) k _ (Ok r) Hc Hi) as [Hg Hgood]. pose proof Hgood as [Hw' _ _ _].
  set (c0 := take_task i (set_store (store (live a)) c)).
  destruct (run_forgets _ _ io _ c0 does_no_token Hw' (Hg r Hr) Hl) as (Hn & l & El & Hin).
  assert (leaves s (run io (k (Ok r)) c0)) as Hc'.
  { apply run_tended; [done|]. by apply take_tended, store_tended. }
  split.
  - apply (react_well _ _ _ _ _ _ _ tokenless).
    + split; cbn [hist cur live left]; try done.
      * apply lives_weaken; [exact Hn|]. by apply store_lives.
      * by apply Forall_insert.
    + apply Forall_drop, Hc'.
  - exact (eq_ind_r (fun t => _ ∈ t) Hin (since_app _ _ _ El)).
Qed.

(** The token is gone, nobody is logging in, and the pages are still there. *)
Definition expired (p : panel) : Prop :=
  pend (entry p) = [] /\ panel_ok any_server any_state no_token p /\ exists fr a, shown p = Shown fr a.

Lemma expired_stays p p' : expired p -> stays_in any_server any_action p p' -> expired p'.
Proof.
  intros (He & Hp & fr0 & a0 & E0) [l Hm]. pose proof Hp as [_ Hd]. rewrite E0 in Hd. destruct Hd as (Ha & Hf & Hw).
  destruct Hm as [io e Hs|fr a a' l E Hm|fr fr' a E Hm|io b item fr a E Hi|io h h' E Ht].
  - exfalso. inversion Hs as [? ? ? Hna|? ? ? ? ? ? ? Hi|? ? ? ? ? ? ? Hi]; subst;
      [cbn [st set_store] in Hna; congruence|cbn in Hi; by rewrite He in Hi..].
  - destruct (page_moves_ok _ _ _ pages_any no_token no_token_drop _ _ _ _ _ Hp E Hm) as [Hp' _].
    split; [done|]. split; [done|]. by eexists _, _.
  - split; [done|]. rewrite E in E0. injection E0 as <- <-. split; [|by eexists _, _].
    destruct (frame_steps _ _ Hf Hm) as [Hf' _]. split; [apply Hp|]. by split.
  - split; [done|]. split; [|by eexists _, _]. by apply (link_ok _ any_action _ pages_any no_token no_token_drop _ fr).
  - by rewrite E0 in E.
Qed.

Lemma expired_rtc p p' : rtc (stays_in any_server any_action) p p' -> expired p -> expired p'.
Proof. induction 1; eauto using expired_stays. Qed.

Lemma expired_load io h s : no_token s ->
  shown (load io h s) = NoPage h /\ AdminApp.isAuthenticated (st (entry (load io h s))) = false /\
  pend (entry (load io h s)) = [].
Proof.
  intros Hs. assert (AdminApp.isAuthenticated (st (boot AdminApp.page io s)) = false) as Ha.
  { rewrite (Token.opens_token s io). unfold stored_token. by rewrite Hs. }
  unfold load. cbn [shown entry]. rewrite Ha. split; [done|]. split; [done|].
  cbn. by destruct (s !! token_key).
Qed.

(** C12. The end of a session.  Whenever a request of the page on display, or of
    one the user has left, is answered by a 401 outside a login address, and no
    login is under way, the reload is asked for and the token is gone for good:
    whatever the pages, the user and the server do until the reload comes, it
    stays out of the storage, and the reload then leads to the login form at
    the same place of the history, with nothing pending. *)
Theorem session_expires (path : string) (s0 : gmap string string) (p : panel) (io : inputs) (p1 : panel) (l : list obs) :
  Safety.declared path -> panel_ran any_server any_action path s0 p -> pend (entry p) = [] ->
  refused io p p1 l ->
  stays_in any_server any_action p p1 /\ OCall CReload ∈ l /\
  forall p2, rtc (stays_in any_server any_action) p1 p2 ->
    no_token (storage p2) /\
    forall io2, let q := load io2 (history p2) (storage p2) in
      shown q = NoPage (history p2) /\ AdminApp.isAuthenticated (st (entry q)) = false /\ pend (entry q) = [].
Proof.
  intros Hpath Hp He Hr.
  apply (panel_ran_ok _ _ any_state pages_any (fun _ => True)) in Hp; [|done..]. destruct Hp as [Hok Hd].
  assert (stays_in any_server any_action p p1 /\ OCall CReload ∈ l /\ expired p1) as (Hs & Hl & Hx).
  { destruct Hr as [fr a i id rq k r E Hi Hr Hl c|fr a j s c i id rq k r E Hj Hi Hr Hl];
      rewrite E in Hd; destruct Hd as (Ha & Hf & Hw).
    - destruct (refused_live_ok io a i id rq k r Hw Hi Hr Hl) as [Hw' Hin]. split; [|split; [exact Hin|]].
      + eexists. eapply in_page; [exact E|]. apply moves_live. by econstructor.
      + split; [done|]. split; [|by eexists _, _]. split; [done|]. by split.
    - destruct (refused_left_ok io a j s c i id rq k r Hw Hj Hi Hr Hl) as [Hw' Hin]. split; [|split; [exact Hin|]].
      + eexists. eapply in_page; [exact E|].
        by apply (moves_settle _ _ a io j s c i id (QFetch rq) k (Ok r) Hj Hi).
      + split; [done|]. split; [|by eexists _, _]. split; [done|]. by split. }
  split; [done|]. split; [done|]. intros p2 H2.
  pose proof (expired_rtc _ _ H2 Hx) as (_ & Hx2 & _). pose proof (panel_storage _ _ _ _ Hx2) as Hn.
  split; [done|]. intros io2. by apply expired_load.
Qed.

(** *** The pages that were left *)

(** All a move did to what is on display and to the location. *)
Definition only_token (a a' : pages) : Prop :=
  exists sto lf, a' = App (hist a) (cur a) (set_store sto (live a)) lf /\
    (sto = store (live a) \/ sto = delete token_key (store (live a))).

Lemma left_move_harmless io j s (c : conf (state_of s)) i b q (a : pages) :
  good q -> within (fun _ => True) never_navigates q -> only_token a (left_move io j c i b q a).
Proof.
  intros Hg Hn. set (c0 := if b then set_store (store (live a)) c else take_task i (set_store (store (live a)) c)).
  assert (log c0 = log c /\ store c0 = store (live a)) as [Hlog Hst] by (unfold c0; by destruct b).
  destruct (run_observes _ _ io q c0 Hn) as (l & El' & Hl & _).
  assert (log (run io q c0) = (log c ++ l)%list) as El by (etrans; [exact El'|by f_equal]).
  assert (omap nav_of l = []) as Enav.
  { clear El El'. induction Hl as [|o l Ho _ IH]; [done|]. by destruct o as [[]| |]. }
  eexists _, _. split.
  - apply left_move_silent. exact (eq_ind_r (fun t => omap nav_of t = []) Enav (since_app _ _ _ El)).
  - apply (good_store (fun x => x = store (live a) \/ x = delete token_key (store (live a)))); [|done|by left].
    intros y [->| ->]; right; [done|apply delete_delete_eq].
Qed.

(** C15. A page that was left never interferes.  In every configuration of the
    panel, whatever a request or timer of a page the user has left comes back
    with: the location, the page on display and its state stay as they are, and
    the storage stays or loses the token. *)
Theorem left_pages_harmless (path : string) (s0 : gmap string string) (p : panel) fr (a : pages) j s (c : conf (state_of s)) :
  Safety.declared path -> panel_ran any_server any_action path s0 p ->
  shown p = Shown fr a -> left a !! j = Some (Gone s c) ->
  (forall io i id b ms q, pend c !! i = Some (id, Timer b ms q) -> only_token a (left_move io j c i b q a)) /\
  (forall io i id q k o, pend c !! i = Some (id, Waiting q k) -> only_token a (left_move io j c i false (k o) a)).
Proof.
  intros Hpath Hp E Hj.
  apply (panel_ran_ok _ _ any_state pages_any (fun _ => True)) in Hp; [|done..].
  destruct Hp as [_ Hd]. rewrite E in Hd. destruct Hd as (_ & _ & [_ _ W3 _]).
  pose proof (Forall_lookup_1 _ _ _ _ W3 Hj) as Hc. pose proof (tended_quiet _ _ Hc) as Hq. split.
  - intros io i id b ms q Hi.
    apply left_move_harmless; [exact (proj2 (tended_timer _ _ _ _ _ _ _ Hc Hi))|apply (Forall_lookup_1 _ _ _ _ Hq Hi)].
  - intros io i id q k o Hi.
    apply left_move_harmless; [exact (proj2 (tended_waiting _ _ _ _ _ _ o Hc Hi))|apply (Forall_lookup_1 _ _ _ _ Hq Hi)].
Qed.

(** *** From a group to its clients *)

Local Abbreviation OnPage := (@App Hist screen panel_screens).
Local Abbreviation LeftPage := (@Gone Hist screen panel_screens).

(** C21. Opening a group.  From the groups page, in any state and wherever the
    user came from, a click on a group whose identifier needs no escaping leads
    to a fresh clients page, on the same storage, with the location of the
    group in front of the history and the groups page behind it; the page reads
    the identifier back from the location, and on any list of clients the
    server then answers it displays exactly those of the group, in order. *)
Theorem group_opens (io : inputs) (h : Hist) (c : conf Groups.state) lf (id : string) :
  plain id = true -> id <> "" ->
  exists a h2 c2,
    tap io GroupsPage (Groups.OpenGroup (Ok (VStr id))) (OnPage h GroupsPage c lf) a /\
    a = OnPage h2 UsersPage (boot (Users.page (VStr id)) io (store c))
          (LeftPage GroupsPage c2 :: lf) /\
    here h2 = "/users?group=" +:+ id /\
    (forall q, q ∈ trail h2 -> q = here h2 \/ q ∈ trail h) /\
    screen_component h2 UsersPage = Users.page (VStr id) /\
    (forall s us, Users.users s = VArr us -> forallb is_obj us = true ->
       Users.displayedUsers (query h2 "group") s =
       Ok (VArr (List.filter (fun u => strict_eq (field "groupId" u) (VStr id)) us))).
Proof.
  intros Hid Hne. set (c2 := event_step Groups.page io (Groups.OpenGroup (Ok (VStr id))) c).
  set (h2 := go false ("/users?group=" +:+ id) h).
  assert (query h2 "group" = VStr id) as Hq by (by apply (query_go false "/users" "group" id h)).
  pose proof (live_move_navigates io h GroupsPage c c2 lf ("/users?group=" +:+ id) false UsersPage
                eq_refl (match_group id) ltac:(done)) as E.
  cbv zeta in E. exists (OnPage h2 UsersPage (boot (Users.page (VStr id)) io (store c))
          (LeftPage GroupsPage c2 :: lf)), h2, c2.
  assert (screen_component h2 UsersPage = Users.page (VStr id)) as Hc.
  { change (Users.page (query h2 "group") = Users.page (VStr id)). by rewrite Hq. }
  split.
  - exists h, c, lf. split; [done|]. etrans; [|symmetry; exact E]. fold h2. rewrite Hc. reflexivity.
  - split; [done|]. split; [apply here_go|]. split.
    + intros q Hin. apply trail_go in Hin as [->|Hin]; [left; symmetry; apply here_go|by right].
    + split; [done|]. intros s us Hu Ho. rewrite Hq, (UsersSpec.displayedUsers_eq _ _ us Hu Ho).
      unfold UsersSpec.displayed. destruct id; done.
Qed.

(** *** From the login form to the page *)

Lemma login_pushes io (e : conf AdminApp.state) :
  let e1 := event_step AdminApp.page io (AdminApp.LoginAction Login.HandleSubmit) e in
  (exists t, pend e1 = (pend e ++ [(next e, t)])%list) /\
  AdminApp.isAuthenticated (st e1) = AdminApp.isAuthenticated (st e).
Proof.
  unfold event_step, commit_after. cbn. by destruct (store e !! token_key) as [[|x t]|]; split; [eexists| |eexists| |eexists|].
Qed.

Lemma entry_stays io e e1 h : kept_step any_server AdminApp.page (fun s _ => AdminApp.isAuthenticated s = false) e e1 ->
  stays_in any_server any_action (Panel e (NoPage h)) (entry_moved io e1 (Panel e (NoPage h))).
Proof.
  intros Hs. eexists. apply in_entry. cbn [storage shown entry]. by destruct e.
Qed.

(** C20. Logging in.  On the login form at the address of a page, submitting a
    password posts it; when the server accepts it, whatever else has happened
    to the form, the panel shows the page of the address the user had opened,
    freshly mounted, with the history as it was and the password as the stored
    token. *)
Theorem login_opens_page (io : inputs) (h : Hist) (e : conf AdminApp.state) :
  let p := Panel e (NoPage h) in
  let pw := Login.password (AdminApp.login (st e)) in
  Safety.declared (here h) -> AdminApp.isAuthenticated (st e) = false ->
  exists e1 K, stays_in any_server any_action p (Panel e1 (NoPage h)) /\
    pend e1 = (pend e ++ [(next e, Waiting (QFetch (AdminApp.login_request (stored_token (store e)) pw)) K)])%list /\
    forall io2 r e2 i, r_ok r = true ->
      pend e2 !! i = Some (next e, Waiting (QFetch (AdminApp.login_request (stored_token (store e)) pw)) K) ->
      let p2 := entry_moved io2 (settle_step AdminApp.page io2 i K (Ok r) e2) (Panel e2 (NoPage h)) in
      stays_in any_server any_action (Panel e2 (NoPage h)) p2 /\
      storage p2 !! token_key = Some pw /\
      exists fr a, shown p2 = Shown fr a /\ hist a = h /\ left a = [] /\
        match_route (here h) = Some (Screen (cur a)) /\
        live a = boot (component_of h (cur a)) io2 (<[token_key := pw]> (store e2)).
Proof.
  intros p pw Hh Hauth. destruct (AdminApp.login_submits io e) as (K & c1 & He & _ & _ & Hok & _).
  destruct (login_pushes io e) as [[t Ht] Ha]. cbn zeta in He, Hok. fold pw in He, Hok.
  set (e1 := event_step _ io _ e) in *. exists e1, K.
  assert (pend e1 = (pend c1 ++ [(next c1, Waiting (QFetch (AdminApp.login_request (stored_token (store e)) pw)) K)])%list)
    as Hpush by (by rewrite He).
  assert (pend e1 = (pend e ++ [(next e, Waiting (QFetch (AdminApp.login_request (stored_token (store e)) pw)) K)])%list)
    as Hpend.
  { rewrite Ht in Hpush |- *. apply app_inj_tail in Hpush as [_ Et]. congruence. }
  split; [|split; [exact Hpend|]].
  - assert (entry_moved io e1 p = Panel e1 (NoPage h)) as <-.
    { unfold entry_moved, render_app. cbn [shown p]. by rewrite Ha, Hauth. }
    apply entry_stays. by constructor.
  - intros io2 r e2 i Hr Hi p2. split; [apply entry_stays; by econstructor|].
    assert (settle_step AdminApp.page io2 i K (Ok r) e2 = AdminApp.logged_in pw (take_task i e2)) as Es.
    { unfold settle_step, commit_after. cbn [c_commit AdminApp.page run skip]. by apply Hok. }
    destruct (declared_route _ Hh) as [x Hx].
    assert (shown p2 = Shown (boot Shell.layout io2 (<[token_key := pw]> (store e2)))
      (@App Hist screen panel_screens h x (boot (component_of h x) io2 (<[token_key := pw]> (store e2))) [])) as E2.
    { assert (p2 = entry_moved io2 (AdminApp.logged_in pw (take_task i e2)) (Panel e2 (NoPage h))) as ->
        by (unfold p2; f_equal; exact Es).
      unfold entry_moved, render_app. cbn [shown]. cbn.
      unfold open_at, settle. change (screen_route (here h)) with (match_route (here h)). by rewrite Hx. }
    unfold storage. rewrite E2. cbn [live]. split; [|by eexists _, _].
    etrans; [apply (f_equal (fun s : gmap string string => s !! token_key)), boot_storage|]. apply lookup_insert_eq.
Qed.
End Panel.

(** ** A panel opened on the clients page with a token *)

#[local] Instance production : BuildEnv := false.
#[local] Instance no_locale : Locale := fun _ => "".
#[local] Existing Instances path_matcher path_laws.
Definition token_stored : gmap string string := <[token_key := "secret"]> ∅.
Definition opened : panel (Hist:=stack) := load quiet_browser (fresh "/users") token_stored.

Lemma users_declared : Safety.declared "/users".
Proof. by eexists. Qed.

Lemma panel_composes_witness :
  panel_ran any_server any_action "/users" token_stored opened /\
  AdminApp.isAuthenticated (st (entry opened)) = true /\
  delete token_key (storage opened) = delete token_key token_stored /\
  Forall Safety.declared (trail (history opened)).
Proof.
  assert (panel_ran any_server any_action "/users" token_stored opened) as Hr by apply panel_start.
  split; [exact Hr|].
  destruct (panel_composes (Hist:=stack) "/users" token_stored) as [Hd _].
  destruct (Hd users_declared) as [_ Hp]. destruct (Hp _ Hr) as (Hs & Hst & Ht & _).
  split; [|by split]. exact (proj1 Hs).
Defined.

Lemma panel_never_breaks_witness :
  exists fr a ns, shown opened = Shown fr a /\ view_of (hist a) (cur a) (st (live a)) = Ok ns.
Proof.
  assert (panel_ran documented offers_of "/users" token_stored opened) as Hr by apply panel_start.
  pose proof (panel_never_breaks (Hist:=stack) "/users" token_stored opened (Event "" "" false false)
    users_declared Hr) as (_ & ns & Hn & _).
  eexists _, _, ns. split; [reflexivity|exact Hn].
Defined.

(** The request for the clients is refused. *)
Lemma session_expires_witness :
  exists p1 l, refused quiet_browser opened p1 l /\ OCall CReload ∈ l /\ no_token (storage p1) /\
    shown (load quiet_browser (history p1) (storage p1)) = NoPage (history p1).
Proof.
  assert (exists p1 l, refused quiet_browser opened p1 l) as (p1 & l & Hr).
  { eexists _, _. eapply (refused_live quiet_browser opened _ _ 0 0 _ _ (Response 401 (Ok VNull)));
      reflexivity. }
  exists p1, l. split; [exact Hr|].
  destruct (session_expires (Hist:=stack) "/users" token_stored opened quiet_browser _ _
    users_declared (panel_start _ _ _ _ _) eq_refl Hr) as (_ & Hl & Hs).
  split; [exact Hl|]. destruct (Hs _ (rtc_refl _ _)) as [Hn Hq]. split; [exact Hn|]. apply Hq.
Defined.

(** On to the dashboard, with the clients' requests still out. *)
Lemma left_pages_harmless_witness :
  exists fr (a : app stack screen) (c : conf (@screen_state stack screen panel_screens UsersPage)) rq k, panel_ran any_server any_action "/users" token_stored (Panel (entry opened) (Shown fr a)) /\
    left a !! 0 = Some (@Gone stack screen panel_screens UsersPage c) /\
    pend c !! 0 = Some (0, Waiting (QFetch rq) k) /\
    only_token a (left_move quiet_browser 0 (s:=UsersPage) c 0 false (k (Ok (Response 401 (Ok VNull)))) a).
Proof.
  assert (exists fr (a : app stack screen) (c : conf (@screen_state stack screen panel_screens UsersPage)) rq k, panel_ran any_server any_action "/users" token_stored (Panel (entry opened) (Shown fr a)) /\
    left a !! 0 = Some (@Gone stack screen panel_screens UsersPage c) /\
    pend c !! 0 = Some (0, Waiting (QFetch rq) k)) as (fr & a & c & rq & k & Hr & Hj & Hi).
  { eexists _, _, _, _, _. split.
    - eapply panel_in; [apply (panel_start _ _ "/users" token_stored quiet_browser)|].
      apply (in_link _ _ _ quiet_browser false (Shell.NavItem "Home" "Главная" "/")); [reflexivity|].
      apply list_elem_of_here.
    - split; reflexivity. }
  exists fr, a, c, rq, k. split; [exact Hr|]. split; [exact Hj|]. split; [exact Hi|].
  exact (proj2 (left_pages_harmless (Hist:=stack) "/users" token_stored _ fr a 0 UsersPage c
    users_declared Hr eq_refl Hj) quiet_browser 0 0 _ k _ Hi).
Defined.

Lemma group_opens_witness :
  plain "vip" = true /\
  exists a h2 c2,
    tap quiet_browser GroupsPage (Groups.OpenGroup (Ok (VStr "vip")))
      (@App stack screen panel_screens (fresh "/groups") GroupsPage (boot Groups.page quiet_browser token_stored) []) a /\
    a = @App stack screen panel_screens h2 UsersPage (boot (Users.page (VStr "vip")) quiet_browser token_stored)
          [@Gone stack screen panel_screens GroupsPage c2].
Proof.
  split; [reflexivity|].
  destruct (group_opens (Hist:=stack) quiet_browser (fresh "/groups") (boot Groups.page quiet_browser token_stored) []
    "vip" eq_refl ltac:(done)) as (a & h2 & c2 & Ht & Ha & _).
  exists a, h2, c2. split; [exact Ht|exact Ha].
Defined.

(** The right password, at the address of the groups. *)
Lemma login_opens_page_witness :
  exists e e1 (K : res response -> prog AdminApp.state unit) p2 fr a,
    stays_in any_server any_action (Panel (Hist:=stack) e (NoPage (fresh "/groups"))) (Panel e1 (NoPage (fresh "/groups"))) /\
    p2 = entry_moved quiet_browser (settle_step AdminApp.page quiet_browser 0
             (q:=QFetch (AdminApp.login_request "" "pw")) K (Ok (Response 200 (Ok VNull))) e1)
           (Panel e1 (NoPage (fresh "/groups"))) /\
    shown p2 = Shown fr a /\ match_route "/groups" = Some (Screen (cur a)).
Proof.
  set (e := event_step AdminApp.page quiet_browser (AdminApp.LoginAction (Login.SetPassword "pw"))
              (boot AdminApp.page quiet_browser ∅)).
  destruct (login_opens_page (Hist:=stack) quiet_browser (fresh "/groups") e) as (e1 & K & Hs & Hp & Hok);
    [by eexists|reflexivity|].
  destruct (Hok quiet_browser (Response 200 (Ok VNull)) e1 0 eq_refl) as (_ & _ & fr & a & E & _ & _ & Hm & _);
    [by rewrite Hp|].
  exists e, e1, K. eexists. exists fr, a. split; [exact Hs|]. split; [reflexivity|]. split; [exact E|exact Hm].
Defined.
