(* ===== verification/PanelSession.v ===== *)
(** * The session the panel implements

    What the panel is about, apart from its pages: whether the user is signed
    in, the token, the place in the history and the passwords the server has
    not answered yet.  [happens] is the specification of such a session; the
    machine of [PanelMachine] implements it. *)
From S2P Require Import Prelude JsStr JsNum JsVal React Effects Logic Storage Api Typed Orderly RouterMachine PanelScreens PanelMachine.
From S2P Require Login AdminApp Safety Shell Token PanelRuns.
Local Open Scope string_scope.
Local Open Scope js_scope.

Section Session.
Context `{BE : BuildEnv} `{LC : Locale} {Hist : Type} `{RT : Router Hist} `{RL : !RouterLaws Hist} `{RM : Matcher} `{ML : !MatcherLaws}.
Local Abbreviation pages := (app Hist screen).

(** ** The specification *)

Record session := Session {
  signed_in : bool;
  token : option string;
  place : Hist;
  submissions : list string;
}.

Inductive happening : Type :=
| Submits (pw : string)
| Answered (i : nat) (pw : string) (o : res response)   (* the [i]-th submission, or it failed *)
| Expires                              (* a 401 *)
| Goes (path : string) (replace : bool)
| Follows (item : Shell.nav_item) (replace : bool)
| Travels (h : Hist)
| Reloads.

(** A password is accepted by an answer whose status is a success. *)
Definition accepted (o : res response) : bool := match o with Ok r => r_ok r | Err _ => false end.

(** Only a signed-out user submits; only an accepted submission signs in, and
    its password is the token; a token expires on an answer to a page or to a
    submission; only a signed-in user goes from page to page; a reload keeps
    token and place, and the token decides. *)
Inductive happens (s : session) : happening -> session -> Prop :=
| happens_submits pw : signed_in s = false ->
    happens s (Submits pw) (Session false (token s) (place s) (submissions s ++ [pw]))
| happens_accepted i pw o : submissions s !! i = Some pw -> accepted o = true ->
    happens s (Answered i pw o) (Session true (Some pw) (place s) (delete i (submissions s)))
| happens_rejected i pw o : submissions s !! i = Some pw -> accepted o = false ->
    happens s (Answered i pw o) (Session (signed_in s) (token s) (place s) (delete i (submissions s)))
| happens_expires : signed_in s = true \/ submissions s <> [] ->
    happens s Expires (Session (signed_in s) None (place s) (submissions s))
| happens_goes p b : signed_in s = true -> Safety.declared p ->
    happens s (Goes p b) (Session true (token s) (go b p (place s)) (submissions s))
| happens_follows item b : signed_in s = true -> item ∈ links ->
    happens s (Follows item b) (Session true (token s) (go b (Shell.to item) (place s)) (submissions s))
| happens_travels h : travel (place s) h ->
    happens s (Travels h) (Session (signed_in s) (token s) h (submissions s))
| happens_reloads :
    happens s Reloads (Session (str_truthy (default "" (token s))) (token s) (place s) []).

(** What becomes of the answer [o] to a submission: that, and nothing else, but
    that a 401 may first take the token. *)
Definition answers (i : nat) (pw : string) (o : res response) (xs : list happening) : Prop :=
  xs = [Answered i pw o] \/
  xs = [Expires; Answered i pw o] /\ exists r, o = Ok r /\ r_status r = 401%Z.

Inductive happen (s : session) : list happening -> session -> Prop :=
| happen_nil : happen s [] s
| happen_cons x s1 xs s2 : happens s x s1 -> happen s1 xs s2 -> happen s (x :: xs) s2.

Lemma happen_one s x s' : happens s x s' -> happen s [x] s'.
Proof. intros Hx. econstructor; [exact Hx|constructor]. Qed.

Lemma happen_app s xs s1 ys s2 : happen s xs s1 -> happen s1 ys s2 -> happen s (xs ++ ys) s2.
Proof. induction 1; [done|]. intros Hy. econstructor; [done|]. auto. Qed.

(** What an observer of the browser sees of a session. *)
Inductive change : Type := Stores (pw : string) | Forgets | Turns (path : string) (replace : bool).
Definition obs_change (o : obs) : option change :=
  match o with
  | OCall (CSetItem _ v) => Some (Stores v)
  | OCall (CRemoveItem _) => Some Forgets
  | OCall (CNavigate p b) => Some (Turns p b)
  | _ => None
  end.
Definition happening_change (x : happening) : option change :=
  match x with
  | Answered _ pw o => if accepted o then Some (Stores pw) else None
  | Expires => Some Forgets
  | Goes p b => Some (Turns p b)
  | _ => None
  end.

(** ** The session of a configuration *)

Definition posted (t : nat * task AdminApp.state) : string :=
  match snd t with
  | Waiting (QFetch rq) _ =>
      match rq_body rq with
      | Some b => match field "password" b with VStr pw => pw | _ => "" end
      | None => ""
      end
  | _ => ""
  end.
Definition session_at (e : conf AdminApp.state) (h : Hist) : session :=
  Session (AdminApp.isAuthenticated (st e)) (store e !! token_key) h (posted <$> pend e).
Definition session_of (p : panel) : session :=
  Session (AdminApp.isAuthenticated (st (entry p))) (storage p !! token_key) (history p) (posted <$> pend (entry p)).

(** ** The entry *)

(** All the entry ever waits for is the answer to a submission. *)
Definition submission (t : nat * task AdminApp.state) : Prop :=
  match snd t with
  | Waiting (QFetch rq) k =>
      exists tok pw, rq = AdminApp.login_request tok pw /\ k = AdminApp.login_answer pw
  | _ => False
  end.

Definition entry_happens (e e' : conf AdminApp.state) : Prop :=
  Forall submission (pend e') /\
  exists l, log e' = (log e ++ l)%list /\
  forall h, exists xs, omap happening_change xs = omap obs_change l /\ happen (session_at e h) xs (session_at e' h).

Lemma submit_happens io e : Forall submission (pend e) -> AdminApp.isAuthenticated (st e) = false ->
  entry_happens e (event_step AdminApp.page io (AdminApp.LoginAction Login.HandleSubmit) e).
Proof.
  intros He Ha. rewrite AdminApp.submit_runs. set (pw := Login.password _). split.
  - apply Forall_app_2; [exact He|]. apply Forall_singleton. by eexists _, _.
  - eexists. split; [cbn; rewrite <- !app_assoc; reflexivity|]. intros h. exists [Submits pw]. split; [done|].
    apply happen_one. unfold session_at. cbn [push AdminApp.submitted pend store st emit set_st].
    rewrite fmap_app. cbn. rewrite Ha.
    exact (happens_submits (Session false (store e !! token_key) h (posted <$> pend e)) pw eq_refl).
Qed.

(** The answer [o] to a submission is settled. *)
Definition answer_happens (i : nat) (pw : string) (o : res response) (e e' : conf AdminApp.state) : Prop :=
  Forall submission (pend e') /\
  exists l, log e' = (log e ++ l)%list /\
  forall h, exists xs, answers i pw o xs /\ omap happening_change xs = omap obs_change l /\
    happen (session_at e h) xs (session_at e' h).

Lemma submission_answered io i id tok pw (o : res response) e : Forall submission (pend e) ->
  pend e !! i = Some (id, Waiting (QFetch (AdminApp.login_request tok pw)) (AdminApp.login_answer pw)) ->
  answer_happens i pw o e (settle_step AdminApp.page io i (q:=QFetch (AdminApp.login_request tok pw))
    (AdminApp.login_answer pw) o e).
Proof.
  intros He Hi. unfold settle_step, commit_after. cbn [c_commit AdminApp.page run skip].
  assert (forall h, submissions (session_at e h) !! i = Some pw) as Hs.
  { intros h. cbn [session_at submissions]. by rewrite list_lookup_fmap, Hi. }
  assert (Forall submission (delete i (pend e))) as Hd by by apply Forall_delete.
  assert (forall h, submissions (session_at e h) <> []) as Hne by (intros h E; specialize (Hs h); by rewrite E in Hs).
  assert (accepted o = false -> forall h, happens (session_at e h) (Answered i pw o)
    (Session (AdminApp.isAuthenticated (st e)) (store e !! token_key) h (posted <$> delete i (pend e)))) as Hr.
  { intros Ho h. rewrite list_fmap_delete. by apply (happens_rejected (session_at e h) i pw o). }
  assert (accepted o = false -> forall h, omap happening_change [Answered i pw o] = []) as Hc by (intros Ho h; cbn; by rewrite Ho).
  destruct o as [r|err]; [destruct (r_ok r) eqn:Hok|].
  - rewrite AdminApp.answer_accepted by done. split; [done|]. eexists. split; [reflexivity|].
    intros h. exists [Answered i pw (Ok r)]. split; [by left|]. split; [cbn; by rewrite Hok|]. apply happen_one.
    unfold session_at. cbn. rewrite lookup_insert_eq, list_fmap_delete. by apply (happens_accepted (session_at e h)).
  - rewrite AdminApp.answer_refused by done. unfold after_401.
    destruct (Z.eqb_spec (r_status r) 401) as [E|_]; [destruct (includes (in_href io) "login")|].
    + split; [done|]. eexists. split; [reflexivity|]. intros h. exists [Answered i pw (Ok r)].
      split; [by left|]. split; [cbn; by rewrite Hok|]. apply happen_one. by apply Hr.
    + split; [done|]. eexists. split; [cbn; rewrite <- !app_assoc; reflexivity|].
      intros h. exists [Expires; Answered i pw (Ok r)]. split; [right; split; [done|by exists r]|].
      split; [cbn; by rewrite Hok|].
      econstructor; [apply happens_expires; by right|]. apply happen_one.
      unfold session_at. cbn. rewrite lookup_delete_eq, list_fmap_delete.
      by apply (happens_rejected (Session _ None h _) i pw (Ok r) (Hs h)).
    + split; [done|]. exists []. split; [by rewrite app_nil_r|]. intros h. exists [Answered i pw (Ok r)].
      split; [by left|]. split; [cbn; by rewrite Hok|]. apply happen_one. by apply Hr.
  - rewrite AdminApp.answer_lost. split; [done|]. exists []. split; [by rewrite app_nil_r|].
    intros h. exists [Answered i pw (Err err)]. split; [by left|]. split; [done|]. apply happen_one.
    unfold session_at. cbn. by apply (Hr eq_refl h).
Qed.

Lemma entry_step_happens Q e e' : Forall submission (pend e) ->
  kept_step Q AdminApp.page (fun s _ => AdminApp.isAuthenticated s = false) e e' -> entry_happens e e'.
Proof.
  intros He Hs. destruct Hs as [io [[|v]] e Ha|io i id q k o e Hi _|io i id b ms p e Hi].
  - by apply submit_happens.
  - split; [done|]. exists []. split; [by rewrite app_nil_r|]. intros h. exists []. split; [done|]. constructor.
  - pose proof (Forall_lookup_1 _ _ _ _ He Hi) as Ht. destruct q as [rq| |]; [|done..].
    destruct Ht as (tok & pw & -> & ->).
    destruct (submission_answered io i id tok pw o e He Hi) as (Hp & l & El & Hx). split; [done|].
    exists l. split; [done|]. intros h. destruct (Hx h) as (xs & _ & Hxs). by exists xs.
  - by pose proof (Forall_lookup_1 _ _ _ _ He Hi).
Qed.

(** ** The pages *)

Definition page_happening (o : obs) : option happening :=
  match o with
  | OCall (CRemoveItem _) => Some Expires
  | OCall (CNavigate p b) => Some (Goes p b)
  | _ => None
  end.

(** What a page is observed to do is what happens to the session. *)
Lemma page_happens subs l sto (h : Hist) : Forall (observed panel_does) l ->
  omap happening_change (omap page_happening l) = omap obs_change l /\
  happen (Session true (sto !! token_key) h subs) (omap page_happening l)
    (Session true (replay l sto !! token_key) (follow l h) subs).
Proof.
  intros Hl. revert sto h. induction Hl as [|o l Ho _ IH]; intros sto h; [by split; [|constructor]|].
  destruct o as [cm|r|e]; [|apply IH..]. destruct Ho as [Hp Ht].
  destruct cm as [| | | | | | | |k| | |q b| | | | | | | | | | |]; try apply IH; [done| |].
  - cbn in Ht. subst k. destruct (IH (delete token_key sto) h) as [E Hh].
    split; [exact (f_equal (cons Forgets) E)|]. cbn [omap list_omap page_happening]. econstructor; [|exact Hh].
    rewrite lookup_delete_eq. apply (happens_expires (Session true (sto !! token_key) h subs)). by left.
  - destruct (IH sto (go b q h)) as [E Hh].
    split; [exact (f_equal (cons (Turns q b)) E)|]. cbn [omap list_omap page_happening]. econstructor; [|exact Hh].
    exact (happens_goes (Session true (sto !! token_key) h subs) q b eq_refl Hp).
Qed.

(** A new location mounts and unmounts pages, and that changes nothing else. *)
Lemma arrive_place io h (a : pages) : Forall Safety.declared (trail h) ->
  hist (arrive io h a) = h /\ store (live (arrive io h a)) = store (live a).
Proof.
  intros Hh. assert (Safety.declared (here h)) as Hn by (rewrite Forall_forall in Hh; apply Hh, here_trail).
  destruct (declared_route _ Hn) as [x Hx]. unfold arrive, settle.
  change (screen_route (here h)) with (match_route (here h)). rewrite Hx. cbn [negb]. rewrite andb_true_r.
  case_bool_decide; [done|]. split; [done|]. cbn [live].
  etrans; [apply boot_storage|]. apply unmount_storage.
Qed.
Lemma react_place io l (a : pages) : Forall (observed panel_does) l -> Forall Safety.declared (trail (hist a)) ->
  hist (react io l a) = follow l (hist a) /\ store (live (react io l a)) = store (live a).
Proof.
  intros Hl Ha. assert (Forall Safety.declared (trail (follow l (hist a)))) as Hf.
  { exact (follow_trail _ _ _ _ _ _ _ (pages_tame any_server any_action any_state pages_any (fun _ => True) (fun _ _ => I)) _ _ Hl Ha). }
  unfold react. unfold follow in *. destruct (omap nav_of l); [done|]. by apply arrive_place.
Qed.

(** A program of a page, on display or left. *)
Lemma run_session io {s} (p : prog (state_of s) unit) (c0 c : conf (state_of s)) : good p -> log c0 = log c ->
  Forall (observed panel_does) (since c (run io p c0)) /\
  store (run io p c0) = replay (since c (run io p c0)) (store c0).
Proof.
  intros Hg E. destruct (run_observes _ _ io p c0 (good_does _ Hg)) as (l & El & Hl & Hs).
  rewrite E in El. by rewrite (since_app _ _ _ El).
Qed.

Lemma step_session h s (c c' : conf (state_of s)) : tended (poll_of s) c ->
  kept_step any_server (component_of h s) (any_action s) c c' ->
  Forall (observed panel_does) (since c c') /\ store c' = replay (since c c') (store c).
Proof.
  intros Hc Hs. destruct Hs as [io x c _|io i id q k o c Hi _|io i id b ms p c Hi];
    unfold event_step, settle_step, timer_step, commit_after; rewrite pages_commit; cbn [run skip].
  - apply run_session; [apply pages_good|done].
  - apply (run_session io (k o) (take_task i c)); [by eapply tended_waiting|done].
  - destruct (tended_timer _ _ _ _ _ _ _ Hc Hi) as [_ Hp].
    destruct b; [by apply run_session|by apply (run_session io p (take_task i c))].
Qed.

(** Where a move of the pages takes the panel. *)
Local Abbreviation pages_well :=
  (RouterMachine.well (H:=Hist) (lives any_server any_state (fun _ => True)) leaves Safety.declared).
Lemma moves_session (a a' : pages) l : pages_well a -> moves any_server any_action a a' l ->
  (Forall (observed panel_does) l /\ hist a' = follow l (hist a) /\ store (live a') = replay l (store (live a))) \/
  (l = [] /\ travel (hist a) (hist a') /\ store (live a') = store (live a)).
Proof.
  intros [_ [_ _ W2] W3 W4] Hm.
  assert (forall j s (c : conf (state_of s)) io i b p, left a !! j = Some (Gone s c) -> good p ->
    let c' := left_run io c i b p a in
    Forall (observed panel_does) (since c c') /\
    hist (left_move io j c i b p a) = follow (since c c') (hist a) /\
    store (live (left_move io j c i b p a)) = replay (since c c') (store (live a))) as Hleft.
  { intros j s c io i b p Hj Hp c'.
    assert (Forall (observed panel_does) (since c c') /\ store c' = replay (since c c') (store (live a))) as [Hl Hst].
    { unfold c', left_run. destruct b; [by apply (run_session io p (set_store (store (live a)) c) c)|].
      by apply (run_session io p (take_task i (set_store (store (live a)) c)) c). }
    destruct (react_place io (since c c')
      (App (hist a) (cur a) (set_store (store c') (live a)) (<[j := Gone s c']> (left a))) Hl W4) as [Eh Es].
    split; [done|]. split; [exact Eh|]. etrans; [exact Es|exact Hst]. }
  destruct Hm as [io c' Hs|io j s c i id b ms p Hj Hi|io j s c i id q k o Hj Hi _|io h Ht].
  - left. destruct (step_session _ _ _ _ W2 Hs) as [Hl Hst]. split; [exact Hl|].
    destruct (react_place io (since (live a) c') (App (hist a) (cur a) c' (left a)) Hl W4) as [Eh Es].
    split; [exact Eh|]. etrans; [exact Es|exact Hst].
  - left. apply (Hleft j s c io i b p Hj).
    apply (tended_timer _ _ _ _ _ _ _ (Forall_lookup_1 _ _ _ _ W3 Hj) Hi).
  - left. apply (Hleft j s c io i false (k o) Hj).
    apply (tended_waiting _ _ _ _ _ _ o (Forall_lookup_1 _ _ _ _ W3 Hj) Hi).
  - right. split; [done|]. rewrite <- (trail_travel _ _ Ht) in W4.
    destruct (arrive_place io h a W4) as [-> ->]. by split.
Qed.

(** ** The panel *)

Local Abbreviation reaches := (panel_ran any_server any_action).
Definition implements (p : panel) : Prop :=
  panel_ok any_server any_state (fun _ => True) p /\ Forall submission (pend (entry p)).

Lemma session_of_at (e : conf AdminApp.state) d h :
  history (Panel e d) = h -> storage (Panel e d) = store e -> session_of (Panel e d) = session_at e h.
Proof. intros Eh Es. unfold session_of. by rewrite Eh, Es. Qed.

Lemma render_session io e b h : Forall Safety.declared (trail h) ->
  session_of (Panel e (render_app io b h (store e))) = session_at e h.
Proof.
  intros Hh. assert (Safety.declared (here h)) as Hn by (rewrite Forall_forall in Hh; apply Hh, here_trail).
  destruct (declared_route _ Hn) as [x Hx]. unfold render_app. destruct b; [|by apply session_of_at].
  unfold open_at, settle. change (screen_route (here h)) with (match_route (here h)). rewrite Hx.
  apply session_of_at; [done|]. apply boot_storage.
Qed.
Lemma load_session io h s : Forall Safety.declared (trail h) ->
  session_of (load io h s) = Session (str_truthy (stored_token s)) (s !! token_key) h [].
Proof.
  intros Hh. unfold load. rewrite render_session by done. unfold session_at.
  rewrite (Token.opens_token s io). unfold stored_token. f_equal; cbn; by destruct (s !! token_key).
Qed.

Lemma entry_session io e p : implements p -> Forall submission (pend e) ->
  session_of (entry_moved io e p) = session_at e (history p).
Proof.
  intros [Hp _] He. pose proof (panel_trail _ _ _ _ Hp) as HT. unfold entry_moved.
  unfold history in *. destruct (shown p) as [h|fr a]; [by apply render_session|by apply session_of_at].
Qed.

Lemma load_implements io h s : Forall Safety.declared (trail h) -> implements (load io h s).
Proof.
  intros Hh. split; [by apply (load_ok _ _ _ pages_any)|]. cbn. by destruct (s !! token_key).
Qed.

Lemma moves_implement p p' l : implements p -> moves_in any_server any_action p p' l ->
  implements p' /\
  exists xs, omap happening_change xs = omap obs_change l /\ happen (session_of p) xs (session_of p').
Proof.
  intros [Hp He] Hm.
  assert (panel_ok any_server any_state (fun _ => True) p') as Hp'
    by (eapply (panel_moves_ok _ _ any_state pages_any (fun _ => True)); eauto).
  pose proof (panel_trail _ _ _ _ Hp) as HT. pose proof Hp as [_ Hd].
  destruct Hm as [io e Hs|fr a a' l E Hm|fr fr' a E Hm|io b item fr a E Hi|io h h' E Ht].
  - destruct (entry_step_happens _ (set_store (storage p) (entry p)) _ He Hs) as (He' & l & El & Hx). split; [by split|].
    destruct (Hx (history p)) as (xs & Ex & Hxs). exists xs.
    rewrite (since_app (entry p) _ _ El). split; [done|].
    by rewrite (entry_session io e p) by done.
  - split; [done|]. rewrite E in Hd. destruct Hd as (Ha & _ & Hw).
    unfold session_of, storage, history. cbn [entry shown]. rewrite E, Ha.
    destruct (moves_session _ _ _ Hw Hm) as [(Hl & -> & ->)|(-> & Ht & ->)].
    + eexists. apply page_happens, Hl.
    + exists [Travels (hist a')]. split; [done|]. apply happen_one. by constructor.
  - split; [done|]. rewrite E in Hd. destruct Hd as (_ & Hf & _). exists []. split.
    + by destruct (frame_steps _ _ Hf Hm) as [_ [->| ->]].
    + unfold session_of, storage, history. rewrite E. constructor.
  - split; [done|]. exists [Follows item b]. split; [done|]. apply happen_one.
    rewrite E in Hd. destruct Hd as (Ha & _ & Hw). destruct Hp' as [_ Hp'].
    assert (Forall Safety.declared (trail (go b (Shell.to item) (hist a)))) as Hg.
    { apply Forall_forall. intros q Hq. apply trail_go in Hq as [->|Hq].
      - by apply links_declared.
      - destruct Hw as [_ _ _ Hw]. rewrite Forall_forall in Hw. by apply Hw. }
    destruct (arrive_place io _ a Hg) as [Eh Es].
    unfold session_of, storage, history. cbn [entry shown]. rewrite E. unfold follow_link. rewrite Eh, Es, Ha.
    exact (happens_follows (Session true (store (live a) !! token_key) (hist a) _) item b eq_refl Hi).
  - split; [done|]. exists [Travels h']. split; [done|]. apply happen_one.
    unfold history in HT. rewrite E in HT. rewrite <- (trail_travel _ _ Ht) in HT.
    rewrite render_session by done. unfold session_of, storage, history. rewrite E.
    exact (happens_travels (session_at (entry p) h) h' Ht).
Qed.

Lemma answer_implements io i id rq k (o : res response) p :
  implements p -> pend (entry p) !! i = Some (id, Waiting (QFetch rq) k) ->
  exists tok pw xs, rq = AdminApp.login_request tok pw /\ answers i pw o xs /\
    happen (session_of p) xs (session_of (entry_moved io
      (settle_step AdminApp.page io i (q:=QFetch rq) k o (set_store (storage p) (entry p))) p)).
Proof.
  intros Hp Hk. pose proof Hp as [_ He]. destruct (Forall_lookup_1 _ _ _ _ He Hk) as (tok & pw & -> & ->).
  destruct (submission_answered io i id tok pw o (set_store (storage p) (entry p)) He Hk) as (He' & l & _ & Hx).
  destruct (Hx (history p)) as (xs & Ha & _ & Hxs). exists tok, pw, xs. split; [done|]. split; [done|].
  by rewrite (entry_session io _ p).
Qed.

Lemma reload_happens io p : implements p ->
  happens (session_of p) Reloads (session_of (load io (history p) (storage p))).
Proof.
  intros [Hp _]. rewrite (load_session io _ _ (panel_trail _ _ _ _ Hp)).
  exact (happens_reloads (session_of p)).
Qed.

Lemma ran_implements path s0 p : Safety.declared path -> reaches path s0 p ->
  implements p /\
  exists xs, happen (Session (str_truthy (stored_token s0)) (s0 !! token_key) (fresh path) []) xs (session_of p).
Proof.
  intros Hpath. induction 1 as [io|p p' l _ [Hi (xs & Hxs)] Hm|io p _ [Hi (xs & Hxs)]].
  - assert (Forall Safety.declared (trail (fresh (H:=Hist) path))) as Hh by (rewrite trail_fresh; by constructor).
    split; [by apply load_implements|]. exists []. rewrite load_session by done. constructor.
  - destruct (moves_implement _ _ _ Hi Hm) as [Hi' (ys & _ & Hys)]. split; [done|].
    exists (xs ++ ys)%list. by eapply happen_app.
  - split; [apply load_implements, (panel_trail _ _ _ _ (proj1 Hi))|].
    exists (xs ++ [Reloads])%list. eapply happen_app; [exact Hxs|]. by apply happen_one, reload_happens.
Qed.

(** C4. The panel implements the session.  Whatever the server answers and the
    user does, every run of the panel opened at the address of a page is a run
    of the session that starts signed in iff a token is stored.  Each move of
    the panel is a sequence of happenings of the session which store and drop
    the token and turn the history exactly as the browser observes the move
    do: only a signed-out user submits a password, only a signed-in user goes
    from page to page.  The answer to a submission, whichever comes, is that
    answer to that submission in the session: one with a status of success, and
    no other, signs in and makes the submitted password the token; after any
    other the user is signed in or out as before, and a 401 at most takes the
    token.  Reloading the document keeps the token and the place, forgets what
    was submitted, and lets the token decide. *)
Theorem panel_implements_session (path : string) (s0 : gmap string string) (p : panel) :
  Safety.declared path -> reaches path s0 p ->
  (exists xs, happen (Session (str_truthy (stored_token s0)) (s0 !! token_key) (fresh path) []) xs (session_of p)) /\
  (forall p' l, moves_in any_server any_action p p' l ->
     exists xs, omap happening_change xs = omap obs_change l /\ happen (session_of p) xs (session_of p')) /\
  (forall io i id rq k (o : res response), pend (entry p) !! i = Some (id, Waiting (QFetch rq) k) ->
     let p' := entry_moved io (settle_step AdminApp.page io i (q:=QFetch rq) k o (set_store (storage p) (entry p))) p in
     exists tok pw xs, rq = AdminApp.login_request tok pw /\ answers i pw o xs /\
       happen (session_of p) xs (session_of p')) /\
  (forall io, happens (session_of p) Reloads (session_of (load io (history p) (storage p)))).
Proof.
  intros Hpath Hp. destruct (ran_implements _ _ _ Hpath Hp) as [Hi Hx].
  split; [exact Hx|]. split; [intros p' l Hm; by apply moves_implement|].
  split; [|intros io; by apply reload_happens].
  intros io i id rq k o Hk. by apply answer_implements with (id := id).
Qed.
End Session.

#[local] Existing Instances path_matcher path_laws.

Lemma panel_implements_session_witness :
  exists xs, happen
    (Session (Hist:=stack) true (Some "secret") (fresh "/users") []) xs (session_of PanelRuns.opened).
Proof.
  assert (panel_ran (Hist:=stack) any_server any_action "/users" PanelRuns.token_stored PanelRuns.opened) as Hr
    by apply panel_start.
  exact (proj1 (panel_implements_session (Hist:=stack) "/users" PanelRuns.token_stored _ PanelRuns.users_declared Hr)).
Defined.
