(* ===== verification/PanelLoads.v ===== *)
(** * What the pages of the panel have loaded

    Nine of the ten pages read their lists when they are mounted, two of them
    again and again; the log page makes up its rows from the list it
    reads. *)
From S2P Require Import Prelude JsStr JsNum JsVal React Effects Logic Api Work RouterMachine PanelScreens.
From S2P Require Users Groups Templates Nodes ResponseRules Settings ConfigProfiles HWIDInspector ConnectionLogs Home.
Local Open Scope string_scope.

(** ** Lists that are loaded in any order

    A page reads its lists with [fetch_into]: each answer is stored in the field
    of its list when it arrives.  [loads] names the addresses and the fields.
    Whatever the order the answers and their bodies come in, and however often
    the page polls meanwhile, once nothing is out every field holds an answer of
    the server to its address, and nothing else has changed. *)

Section Fields.
Context {S : Type} (loads : list (string * (val -> S -> S))).

(** The fields are distinct and the addresses too. *)
Class Fields : Prop := {
  fields_distinct : NoDup (map fst loads);
  fields_overwrite ld v w s : ld ∈ loads -> snd ld v (snd ld w s) = snd ld v s;
  fields_commute ld ld' v w s : ld ∈ loads -> ld' ∈ loads -> fst ld <> fst ld' ->
    snd ld v (snd ld' w s) = snd ld' w (snd ld v s);
}.

(** The state with the fields that [f] has a value for filled in. *)
Definition fill_in (f : string -> option val) (ld : string * (val -> S -> S)) (s : S) : S :=
  match f (fst ld) with Some v => snd ld v s | None => s end.
Definition filled (f : string -> option val) (s : S) : S := foldr (fill_in f) s loads.

(** The effect that reads them all. *)
Definition refresh : prog S unit :=
  foldr (fun ld p => bind (fetch_into (fst ld) (snd ld)) (fun _ => p)) skip loads.
End Fields.
Arguments fields_distinct {S loads} _.
Arguments fields_overwrite {S loads} _.
Arguments fields_commute {S loads} _.

Definition with_value (u : string) (v : val) (f : string -> option val) : string -> option val :=
  fun u' => if String.eqb u' u then Some v else f u'.

Section Filled.
Context {S : Type} (loads : list (string * (val -> S -> S))) (F : Fields loads).
Implicit Types (l : list (string * (val -> S -> S))) (s : S).

Lemma filled_none l s : filled l (fun _ => None) s = s.
Proof. by induction l. Qed.
Lemma filled_other l u v f s : u ∉ map fst l -> filled l (with_value u v f) s = filled l f s.
Proof.
  induction l as [|ld l IH]; cbn [map filled foldr]; [done|].
  intros [Hne Hni]%not_elem_of_cons. specialize (IH Hni). unfold filled in IH. rewrite IH.
  unfold fill_in, with_value. by rewrite (proj2 (String.eqb_neq (fst ld) u)) by done.
Qed.

Lemma filled_after l ld v f s : l ⊆ loads -> ld ∈ loads -> fst ld ∉ map fst l ->
  snd ld v (filled l f s) = filled l f (snd ld v s).
Proof.
  intros Hl Hld. induction l as [|ld' l IH]; [done|]. cbn [map filled foldr].
  intros [Hne Hni]%not_elem_of_cons.
  assert (ld' ∈ loads) as Hld' by (apply Hl; by left).
  specialize (IH (fun x Hx => Hl x (list_elem_of_further _ _ _ Hx)) Hni). unfold filled in IH. rewrite <- IH.
  unfold fill_in. destruct (f (fst ld')); [|done]. by apply (fields_commute F).
Qed.

Lemma filled_set l ld v f s : l ⊆ loads -> NoDup (map fst l) -> ld ∈ l ->
  snd ld v (filled l f s) = filled l (with_value (fst ld) v f) s.
Proof.
  intros Hl. induction l as [|ld' l IH]; [by intros _ ?%not_elem_of_nil|]. cbn [map].
  intros [Hni Hnd]%NoDup_cons Hin.
  assert (ld' ∈ loads) as Hld' by (apply Hl; by left).
  assert (l ⊆ loads) as Hl' by (intros x Hx; apply Hl; by right).
  apply elem_of_cons in Hin as [->|Hin].
  - change (filled (ld' :: l) (with_value (fst ld') v f) s) with
      (fill_in (with_value (fst ld') v f) ld' (filled l (with_value (fst ld') v f) s)).
    rewrite filled_other by done. cbn [filled foldr]. unfold fill_in, with_value. rewrite String.eqb_refl.
    destruct (f (fst ld')); [|done]. by apply (fields_overwrite F).
  - assert (fst ld <> fst ld') as Hne by (intros E; apply Hni; rewrite <- E; by apply list_elem_of_fmap_2).
    specialize (IH Hl' Hnd Hin). unfold filled in *. cbn [foldr]. rewrite <- IH.
    unfold fill_in, with_value. rewrite (proj2 (String.eqb_neq (fst ld') (fst ld))) by done.
    destruct (f (fst ld')); [|done]. by apply (fields_commute F); [apply Hl'| |].
Qed.
End Filled.

(** ** Loading *)

Section Loading.
Context {S A : Type} (C : component S A) (loads : list (string * (val -> S -> S))).

(** The server: what it may answer to a GET of an address, and the addresses
    a request to which may fail. *)
Context (holds : string -> val -> Prop) (fails : string -> Prop).

Definition body_ok (u : string) (b : res val) : Prop :=
  match b with Ok v => holds u v | Err _ => fails u end.
Definition answer_ok (u : string) (o : res response) : Prop :=
  match o with Ok r => body_ok u (r_json r) | Err _ => fails u end.

(** A promise settles, with what the server answers, or the page polls. *)
Inductive served (c : conf S) : conf S -> Prop :=
| served_answer io i id rq k o :
    pend c !! i = Some (id, Waiting (QFetch rq) k) -> answer_ok (rq_url rq) o ->
    served c (settle_step C io i (q:=QFetch rq) k o c)
| served_body io i id k :
    pend c !! i = Some (id, Waiting QTick k) -> served c (settle_step C io i (q:=QTick) k (Ok tt) c)
| served_poll io i id ms p :
    pend c !! i = Some (id, Timer true ms p) -> served c (timer_step C io i true p c).

(** What is out for a list: its request, or its body. *)
Definition out_for (ld : string * (val -> S -> S)) (t : nat * task S) : Prop :=
  match snd t with
  | Waiting (QFetch rq) k => (exists token, rq = wrapped token (fst ld) GET) /\ k = after_response (snd ld)
  | Waiting QTick k => exists b, k = after_body (snd ld) b /\ body_ok (fst ld) b
  | _ => False
  end.
Definition poll (t : nat * task S) : Prop :=
  match snd t with Timer true _ p => p = refresh loads | _ => False end.


(** Which list each pending task stands for, if any. *)
Definition stands_for (t : nat * task S) (o : option (string * (val -> S -> S))) : Prop :=
  match o with Some ld => ld ∈ loads /\ out_for ld t | None => poll t end.

(** Some values are in, and what has none failed or is still out. *)
Definition loading (s0 : S) (c : conf S) : Prop :=
  exists f labels, Forall2 stands_for (pend c) labels /\ st c = filled loads f s0 /\
    (forall u v, f u = Some v -> holds u v) /\
    (forall ld, ld ∈ loads -> f (fst ld) = None -> fails (fst ld) \/ Some ld ∈ labels).

(** Every list that has a value holds one of the server's; the others failed. *)
Definition loaded (s0 s : S) : Prop :=
  exists f, s = filled loads f s0 /\ (forall u v, f u = Some v -> holds u v) /\
    forall ld, ld ∈ loads -> f (fst ld) = None -> fails (fst ld).

Lemma loading_rest s0 c : loading s0 c -> at_rest c -> loaded s0 (st c).
Proof.
  intros (f & labels & Ht & Hf & Hh & Hn) Hr. exists f. split; [done|]. split; [done|]. intros ld Hld Hu.
  destruct (Hn ld Hld Hu) as [|Hin]; [done|]. exfalso.
  apply list_elem_of_lookup in Hin as [i Hi].
  destruct (Forall2_lookup_r _ _ _ _ _ Ht Hi) as ([id t] & Hp & _ & Ho).
  pose proof (Forall_lookup_1 _ _ _ _ Hr Hp) as (ms & p & E). cbn in E. by subst t.
Qed.

(** *** Steps *)

Hypothesis no_effects : forall s s', c_commit C s s' = skip.
Context (F : Fields loads).

Lemma run_refresh io l c : l ⊆ loads ->
  let c' := run io (refresh l) c in
  st c' = st c /\ exists new, pend c' = (pend c ++ new)%list /\ Forall2 stands_for new (Some <$> l).
Proof.
  revert c. induction l as [|ld l IH]; intros c Hl; [by split; [|exists []; rewrite app_nil_r]|].
  cbn [refresh foldr]. rewrite run_fetch_into_bind, run_fetch_into. set (c1 := push _ _).
  destruct (IH c1) as (Es & new & Ep & Hnew); [intros x Hx; apply Hl; by right|].
  split; [exact Es|]. eexists (_ :: new).
  split; [etrans; [exact Ep|]; cbn; by rewrite <- app_assoc|]. cbn. constructor; [|done]. split; [apply Hl; by left|]. split; [by eexists|done].
Qed.

(** Reading all lists, while nothing is out or others are. *)
Lemma refresh_loading io c labels : Forall2 stands_for (pend c) labels ->
  loading (st c) (run io (refresh loads) c).
Proof.
  intros Hl. destruct (run_refresh io loads c) as (Es & new & Ep & Hnew); [done|].
  exists (fun _ => None), (labels ++ (Some <$> loads))%list. split; [rewrite Ep; by apply Forall2_app|]. split.
  - by rewrite Es, filled_none.
  - split; [done|]. intros ld Hld _. right. apply elem_of_app. right. by apply list_elem_of_fmap_2.
Qed.

(** The interval is set. *)
Lemma poll_loading s0 ms c : loading s0 c -> loading s0 (push (Timer true ms (refresh loads)) c).
Proof.
  intros (f & labels & Hl & Hf & Hh & Hn). exists f, (labels ++ [None])%list.
  split; [by apply Forall2_app; [|constructor]|]. split; [done|]. split; [done|]. intros ld Hld Hu.
  destruct (Hn ld Hld Hu); [by left|]. right. apply elem_of_app. by left.
Qed.

(** Polling again: more requests are out. *)
Lemma refresh_again s0 io c : loading s0 c -> loading s0 (run io (refresh loads) c).
Proof.
  intros (f & labels & Hl & Hf & Hh & Hn). destruct (run_refresh io loads c) as (Es & new & Ep & Hnew); [done|].
  exists f, (labels ++ (Some <$> loads))%list. split; [rewrite Ep; by apply Forall2_app|].
  split; [by rewrite Es|]. split; [done|]. intros ld Hld Hu. destruct (Hn ld Hld Hu); [by left|].
  right. apply elem_of_app. by left.
Qed.

Lemma label_kept (labels : list (option (string * (val -> S -> S)))) i o x :
  labels !! i = Some o -> x ∈ labels -> x = o \/ x ∈ delete i labels.
Proof.
  intros Hi Hx. apply elem_of_cons. by rewrite <- (delete_Permutation labels i o Hi).
Qed.

(** The three things a pending task of a list can lead to. *)
Lemma run_answered set io r (c : conf S) :
  run io (after_response set (Ok r)) c = push (Waiting QTick (after_body set (r_json r))) (after_401 io r c).
Proof.
  unfold after_401. destruct (r_status r =? 401)%Z eqn:E.
  - cbn. unfold on_response. rewrite E. cbn. destruct (includes (in_href io) "login"); cbn; by destruct c.
  - apply run_after_response. by apply Z.eqb_neq.
Qed.
Lemma after_401_quiet io r (c : conf S) :
  st (after_401 io r c) = st c /\ pend (after_401 io r c) = pend c.
Proof. unfold after_401. destruct (_ =? _)%Z; [|done]. by destruct (includes (in_href io) "login"). Qed.

Lemma loading_step s0 c c' : loading s0 c -> served c c' -> loading s0 c'.
Proof.
  intros Hc Hs. pose proof Hc as (f & labels & Hl & Hf & Hh & Hn).
  destruct Hs as [io i id rq k o Hi Ho|io i id k Hi|io i id ms p Hi];
    destruct (Forall2_lookup_l _ _ _ _ _ Hl Hi) as ([ld|] & Hlab & Hst); try done; try (by destruct Hst);
    unfold settle_step, timer_step, commit_after; rewrite no_effects; cbn [run skip].
  - destruct Hst as (Hld & [token ->] & ->). destruct o as [r|e].
    + rewrite run_answered. destruct (after_401_quiet io r (take_task i c)) as [E1 E2].
      exists f, (delete i labels ++ [Some ld])%list. split; [|split; [|split; [done|]]].
      * cbn [push pend]. rewrite E2. apply Forall2_app; [by apply Forall2_delete|].
        constructor; [|done]. split; [done|]. by exists (r_json r).
      * cbn [push st]. by rewrite E1.
      * intros ld' Hld' Hu. destruct (Hn ld' Hld' Hu) as [|Hin]; [by left|right]. apply elem_of_app.
        destruct (label_kept _ _ _ _ Hlab Hin) as [->|]; [right; by left|by left].
    + exists f, (delete i labels). split; [by apply Forall2_delete|]. split; [done|]. split; [done|].
      intros ld' Hld' Hu. destruct (Hn ld' Hld' Hu) as [|Hin]; [by left|].
      destruct (label_kept _ _ _ _ Hlab Hin) as [[= ->]|]; [by left|by right].
  - destruct Hst as (Hld & b & -> & Hb). destruct b as [v|e].
    + exists (with_value (fst ld) v f), (delete i labels). split; [by apply Forall2_delete|]. split; [|split].
      * cbn. rewrite Hf. by apply (filled_set loads F); [|apply (fields_distinct F)|].
      * intros u w. unfold with_value. destruct (String.eqb_spec u (fst ld)) as [->|]; [by intros [= ->]|by apply Hh].
      * intros ld' Hld' Hu. unfold with_value in Hu.
        destruct (String.eqb_spec (fst ld') (fst ld)) as [|Hne]; [done|].
        destruct (Hn ld' Hld' Hu) as [|Hin]; [by left|].
        destruct (label_kept _ _ _ _ Hlab Hin) as [[= ->]|]; [done|by right].
    + exists f, (delete i labels). split; [by apply Forall2_delete|]. split; [done|]. split; [done|].
      intros ld' Hld' Hu. destruct (Hn ld' Hld' Hu) as [|Hin]; [by left|].
      destruct (label_kept _ _ _ _ Hlab Hin) as [[= ->]|]; [by left|by right].
  - change (p = refresh loads) in Hst. rewrite Hst. by apply refresh_again.
Qed.

Lemma loading_steps s0 c c' : loading s0 c -> rtc served c c' -> loading s0 c'.
Proof. induction 2; eauto using loading_step. Qed.

(** *** An end *)

(** The answers and bodies that are out. *)
Definition cost (t : nat * task S) : nat :=
  match snd t with Waiting (QFetch _) _ => 2 | Waiting _ _ => 1 | Timer _ _ _ => 0 end.
Definition outstanding (c : conf S) : nat := sum_list (cost <$> pend c).

(** The server always has something to say. *)
Definition responsive : Prop := forall u, fails u \/ exists v, holds u v.

Lemma loading_goes_on s0 c : responsive -> loading s0 c -> at_rest c \/ exists c', served c c'.
Proof.
  intros HR (f & labels & Hl & _).
  destruct (rest_or_settles C c) as [|[c' Hs]]; [by left|right].
  destruct Hs as [io i id q k o c Hi|io i id ms p c Hi];
    destruct (Forall2_lookup_l _ _ _ _ _ Hl Hi) as ([ld|] & Hlab & Hst); try done; [|by destruct Hst].
  destruct q as [rq| |]; [| |by destruct Hst].
  - destruct (HR (rq_url rq)) as [Hf|[v Hv]].
    + eexists. by apply (served_answer _ io i id rq k (Err (UserError ""))).
    + eexists. by apply (served_answer _ io i id rq k (Ok (Response 200 (Ok v)))).
  - eexists. by apply (served_body _ io i id).
Qed.

(** A step that is no poll brings the end nearer. *)
Lemma served_costs s0 c c' : loading s0 c -> served c c' ->
  outstanding c' < outstanding c \/ exists io, c' = run io (refresh loads) c.
Proof.
  intros (f & labels & Hl & _) Hs. unfold outstanding.
  assert (forall i t, pend c !! i = Some t ->
    sum_list (cost <$> pend c) = cost t + sum_list (cost <$> delete i (pend c))) as Hsum.
  { intros i t Hi. exact (sum_list_with_Permutation_proper id _ _ (fmap_Permutation cost _ _ (delete_Permutation _ _ _ Hi))). }
  destruct Hs as [io i id rq k o Hi Ho|io i id k Hi|io i id ms p Hi];
    destruct (Forall2_lookup_l _ _ _ _ _ Hl Hi) as ([ld|] & Hlab & Hst); try done; try (by destruct Hst);
    unfold settle_step, timer_step, commit_after; rewrite no_effects; cbn [run skip]; rewrite ?(Hsum _ _ Hi).
  - left. destruct Hst as (Hld & _ & ->). destruct o as [r|e]; [|cbn; lia].
    rewrite run_answered. destruct (after_401_quiet io r (take_task i c)) as [_ E2].
    cbn [push pend]. rewrite E2, fmap_app, sum_list_with_app. cbn. lia.
  - left. destruct Hst as (Hld & b & -> & _). destruct b; cbn; lia.
  - right. change (p = refresh loads) in Hst. rewrite Hst. by exists io.
Qed.
End Loading.

(** ** The pages *)

Section Pages.
Context `{BE : BuildEnv} `{LC : Locale} {Hist : Type} `{RT : Router Hist}.

(** The addresses a page reads when it is mounted, and where it puts them. *)
Definition loads_of (s : screen) : list (string * (val -> state_of s -> state_of s)) :=
  match s with
  | HomePage => [(API +:+ "/dashboard", Home.set_dash); (API +:+ "/system", Home.set_sys);
                 (API +:+ "/clients", Home.set_clients); (API +:+ "/traffic/summary", Home.set_trafficSummary);
                 (API +:+ "/traffic/chart24h", Home.set_chartData)]
  | UsersPage => [(API +:+ "/clients", Users.set_users); (API +:+ "/groups", Users.set_groups);
                  (API +:+ "/templates", Users.set_templates)]
  | GroupsPage => [(API +:+ "/groups", Groups.set_groups); (API +:+ "/clients", Groups.set_clients)]
  | ConfigProfilesPage => [(API +:+ "/clients", ConfigProfiles.set_clients)]
  | NodesPage => [(API +:+ "/nodes", Nodes.set_nodes)]
  | TemplatesPage => [(API +:+ "/templates", Templates.set_templates)]
  | ResponseRulesPage => [(API +:+ "/rules", ResponseRules.set_rules)]
  | HWIDInspectorPage => [(API +:+ "/clients", HWIDInspector.set_clients)]
  | ConnectionLogsPage => []
  | SettingsPage => [(API +:+ "/settings", Settings.set_settings)]
  end.

Lemma under_api_inj p q : API +:+ p = API +:+ q -> p = q.
Proof. intros H. apply (f_equal (str_drop (String.length API))) in H. by rewrite !str_drop_app in H. Qed.

Lemma pages_fields s : Fields (loads_of s).
Proof.
  split.
  - destruct s; cbn; repeat constructor; rewrite ?elem_of_cons, ?elem_of_nil; intros H;
      repeat destruct H as [H|H]; try done; by apply under_api_inj in H.
  - intros ld v w x Hin. destruct s; cbn in Hin; repeat (apply elem_of_cons in Hin as [->|Hin]; [done|]);
      by apply elem_of_nil in Hin.
  - intros ld ld' v w x Hin Hin' Hne. destruct s; cbn in Hin, Hin';
      repeat (apply elem_of_cons in Hin as [->|Hin];
        [repeat (apply elem_of_cons in Hin' as [->|Hin']; [first [reflexivity|by exfalso; apply Hne]|]); by apply elem_of_nil in Hin'|]);
      by apply elem_of_nil in Hin.
Qed.

Section Server.
Context (holds : string -> val -> Prop) (fails : string -> Prop).

Lemma boot_loading h s io s0 : s <> ConnectionLogsPage ->
  loading (loads_of s) holds fails (c_init (component_of (Hist:=Hist) h s)) (boot (component_of h s) io s0).
Proof.
  intros Hs.
  assert (forall (s1 : screen) c, pend c = [] ->
    loading (loads_of s1) holds fails (st c) (run io (refresh (loads_of s1)) c)) as Hr.
  { intros s1 c Hc. apply (refresh_loading _ holds fails io c []). rewrite Hc. constructor. }
  destruct s; try done; try (exact (Hr _ (Conf _ s0 [] 0 []) eq_refl)).
  - refine (poll_loading _ holds fails _ 5000 _ _). exact (Hr HomePage (Conf _ s0 [] 0 []) eq_refl).
  - refine (poll_loading _ holds fails _ 5000 _ _). exact (Hr UsersPage (Conf _ s0 [] 0 []) eq_refl).
Qed.

(** C22. What a page has loaded.  Every page of the panel but the log reads its
    lists when it is mounted, the clients page and the dashboard every five
    seconds again, while nobody touches it.  Whatever the order in which the
    requests are answered and the bodies arrive, and however often it polls
    meanwhile: as long as something is out it can come in, each step that is no
    poll brings the end nearer, and when nothing is out, every list is one the
    server answered to a request for it, a list that could not be read keeps
    its initial value, and the rest of the state is as it was. *)
Theorem pages_load (h : Hist) (s : screen) io s0 c :
  s <> ConnectionLogsPage ->
  rtc (served (component_of h s) holds fails) (boot (component_of h s) io s0) c ->
  (at_rest c -> loaded (loads_of s) holds fails (c_init (component_of h s)) (st c)) /\
  (responsive holds fails -> at_rest c \/ exists c', served (component_of h s) holds fails c c') /\
  (forall c', served (component_of h s) holds fails c c' ->
     outstanding c' < outstanding c \/ exists io', c' = run io' (refresh (loads_of s)) c).
Proof.
  intros Hs Hc. pose proof (pages_fields s) as F.
  assert (loading (loads_of s) holds fails (c_init (component_of h s)) c) as Hl.
  { eapply loading_steps; [apply pages_commit|exact F| |exact Hc]. by apply boot_loading. }
  split; [by apply loading_rest|]. split.
  - intros HR. by eapply loading_goes_on.
  - intros c' Hs'. by eapply served_costs; [apply pages_commit|..].
Qed.
End Server.
End Pages.

(** The servers page, whose list comes in. *)
#[local] Instance production : BuildEnv := false.
#[local] Instance no_locale : Locale := fun _ => "".
Definition no_servers (u : string) (v : val) : Prop := u = "/api/nodes" /\ v = VArr [].
Lemma pages_load_witness :
  exists c, rtc (served (component_of (Hist:=stack) (fresh "/nodes") NodesPage) no_servers (fun _ => False))
      (boot (component_of (Hist:=stack) (fresh "/nodes") NodesPage) quiet_browser ∅) c /\
    at_rest c /\ loaded (loads_of NodesPage) no_servers (fun _ => False) Nodes.init_state (st c).
Proof.
  assert (exists c, rtc (served (component_of (Hist:=stack) (fresh "/nodes") NodesPage) no_servers (fun _ => False))
      (boot (component_of (Hist:=stack) (fresh "/nodes") NodesPage) quiet_browser ∅) c /\ pend c = []) as (c & Hc & Hp).
  { eexists. split.
    - eapply rtc_l; [eapply (served_answer _ _ _ _ quiet_browser 0 0 _ _ (Ok (Response 200 (Ok (VArr []))))); [reflexivity|by split]|].
      eapply rtc_l; [eapply (served_body _ _ _ _ quiet_browser 0 1); reflexivity|]. apply rtc_refl.
    - reflexivity. }
  assert (at_rest c) as Hr by (unfold at_rest; rewrite Hp; constructor).
  exists c. split; [exact Hc|]. split; [exact Hr|].
  exact (proj1 (pages_load no_servers (fun _ => False) (fresh "/nodes") NodesPage quiet_browser ∅ c ltac:(done) Hc) Hr).
Defined.
