(* ===== verification/BackendData.v ===== *)
(** * The admin backend: platform, tables, requests ([database.py], [main.py])

    The backend is a FastAPI application over one database.  What it takes from
    its libraries is an interface: [Platform] (dates, rounding, validation of
    values that do not have the declared type, the answer to an address that
    has no handler) and [moment], what the operating system, the VPN core and
    the database answer during one request.  A table is a finite map by its
    primary key; the rows of a query come in an order the database chooses. *)
From Stdlib Require Import Ascii.
From S2P Require Import Prelude JsStr JsNum JsVal Effects Api.
Local Open Scope string_scope.

(** ** Libraries *)

Class Platform := {
  datetime : Type;
  strftime : string -> datetime -> string;
  strptime_day : string -> option datetime;       (* None: ValueError *)
  datetime_le : datetime -> datetime -> bool;
  datetime_replace : list (string * Z) -> datetime -> datetime;
  timedelta_days : Z -> datetime -> datetime;
  timedelta_hours : Z -> datetime -> datetime;
  add_days : Z -> datetime -> option datetime;    (* of any number; None: OverflowError *)
  py_round : num -> nat -> num;
  py_str : val -> string;
  column_text : val -> option string;             (* what a String column stores *)
  (* pydantic, on a value of another type than the declared one *)
  lax_str : val -> option string;
  lax_float : val -> option num;
  lax_int : val -> option Z;
  lax_bool : val -> option bool;
  validation_error : request -> val;              (* the detail of a 422 *)
  unrouted : request -> response;                 (* no such address or method *)
  unquote : string -> string;                     (* percent-decoding *)
  py_lower : string -> string;                    (* str.lower *)
  word_in : string -> string -> bool;             (* re.search of \bword\b in a text *)
  urlsafe_b64decode : string -> option string;    (* and decoded as UTF-8; None: an exception *)
  json_loads : string -> option val;              (* None: an exception *)
  json_dumps : val -> string;                     (* with separators=(',', ':') *)
}.

(** What the backend relies on. *)
Class PlatformLaws `{Platform} := {
  py_str_str s : py_str (VStr s) = s;
  column_text_str s : column_text (VStr s) = Some s;
  unrouted_status rq : r_status (unrouted rq) <> 401%Z;
  unquote_nil : unquote "" = "";
  unquote_char c s : c <> "%"%char -> unquote (String c s) = String c (unquote s);
}.

Record metrics := Metrics {
  cpu_percent : num;
  memory_total : num; memory_used : num; memory_percent : num;
  disk_total : num; disk_used : num; disk_free : num; disk_percent : num;
  uptime : Z;
}.

Record moment `{Platform} := Moment {
  utcnow : datetime;
  token_hex : string;                             (* secrets.token_hex(4) *)
  uuid4 : string;
  psutil : option metrics;                        (* None: not installed *)
  live_status : gmap string bool;                 (* LIVE_CLIENT_STATUS *)
  live_traffic : gmap string num;                 (* LIVE_CLIENT_TRAFFIC *)
  qrcode : option (string -> bool);               (* None: not installed; else whether it draws a text *)
  (* aivpn-server --add-client: the lines it prints, or its output when it
     fails, None when it cannot be run or prints no UTF-8; and clients.json
     afterwards *)
  add_client : string -> val -> option (string + list string) * val;
  row_order : forall {A}, gmap string A -> list A;
  row_order_ok : forall {A} (m : gmap string A), row_order m ≡ₚ (map_to_list m).*2;
}.
Arguments row_order {_} _ {A} _.

(** A handler returns, raises an [HTTPException], or raises anything else. *)
Inductive outcome (A : Type) : Type :=
| Done (a : A)
| HTTPException (status : Z) (detail : string)
| Raised.
Arguments Done {A} a.
Arguments HTTPException {A} status detail.
Arguments Raised {A}.

(** ** Tables *)

Section Tables.
Context `{Platform}.

Record ClientDB := Client {
  c_id : string;
  c_name : string;
  c_telegram_id : option string;
  c_psk : string;
  c_vpn_ip : string;
  c_protocol : string;
  c_data_usage : num;
  c_data_limit : num;
  c_created_at : option datetime;
  c_subscription_end : option datetime;
  c_enabled : bool;
  c_group_id : option string;
  c_sub_token : option string;
}.
Record GroupDB := Group { g_id : string; g_name : string; g_description : string; g_data_limit : string }.
Record TemplateDB := Template {
  t_id : string; t_name : string; t_duration_days : Z; t_data_limit_gb : num; t_price : string }.
Record NodeDB := Node {
  n_id : string; n_name : string; n_location : string; n_ip_address : string; n_port : Z; n_is_online : bool }.
Record RuleDB := Rule {
  r_id : string; r_name : string; r_trigger : string; r_action : string; r_enabled : bool }.
Record TrafficSnapshotDB := Snapshot {
  s_client_id : string; s_bytes_in : num; s_bytes_out : num; s_timestamp : datetime }.
Record SettingsDB := Setting { key : string; value : string }.

Record database := Database {
  clients : gmap string ClientDB;
  groups : gmap string GroupDB;
  templates : gmap string TemplateDB;
  nodes : gmap string NodeDB;
  rules : gmap string RuleDB;
  settings : gmap string SettingsDB;
  snapshots : list TrafficSnapshotDB;
}.

Definition set_clients (v : gmap string ClientDB) (d : database) : database :=
  Database v (groups d) (templates d) (nodes d) (rules d) (settings d) (snapshots d).
Definition set_groups (v : gmap string GroupDB) (d : database) : database :=
  Database (clients d) v (templates d) (nodes d) (rules d) (settings d) (snapshots d).
Definition set_templates (v : gmap string TemplateDB) (d : database) : database :=
  Database (clients d) (groups d) v (nodes d) (rules d) (settings d) (snapshots d).
Definition set_nodes (v : gmap string NodeDB) (d : database) : database :=
  Database (clients d) (groups d) (templates d) v (rules d) (settings d) (snapshots d).
Definition set_rules (v : gmap string RuleDB) (d : database) : database :=
  Database (clients d) (groups d) (templates d) (nodes d) v (settings d) (snapshots d).
Definition set_settings (v : gmap string SettingsDB) (d : database) : database :=
  Database (clients d) (groups d) (templates d) (nodes d) (rules d) v (snapshots d).

Definition set_name (v : string) (c : ClientDB) : ClientDB :=
  Client (c_id c) v (c_telegram_id c) (c_psk c) (c_vpn_ip c) (c_protocol c) (c_data_usage c)
    (c_data_limit c) (c_created_at c) (c_subscription_end c) (c_enabled c) (c_group_id c) (c_sub_token c).
Definition set_telegram_id (v : option string) (c : ClientDB) : ClientDB :=
  Client (c_id c) (c_name c) v (c_psk c) (c_vpn_ip c) (c_protocol c) (c_data_usage c)
    (c_data_limit c) (c_created_at c) (c_subscription_end c) (c_enabled c) (c_group_id c) (c_sub_token c).
Definition set_data_limit (v : num) (c : ClientDB) : ClientDB :=
  Client (c_id c) (c_name c) (c_telegram_id c) (c_psk c) (c_vpn_ip c) (c_protocol c) (c_data_usage c)
    v (c_created_at c) (c_subscription_end c) (c_enabled c) (c_group_id c) (c_sub_token c).
Definition set_subscription_end (v : option datetime) (c : ClientDB) : ClientDB :=
  Client (c_id c) (c_name c) (c_telegram_id c) (c_psk c) (c_vpn_ip c) (c_protocol c) (c_data_usage c)
    (c_data_limit c) (c_created_at c) v (c_enabled c) (c_group_id c) (c_sub_token c).
Definition set_enabled (v : bool) (c : ClientDB) : ClientDB :=
  Client (c_id c) (c_name c) (c_telegram_id c) (c_psk c) (c_vpn_ip c) (c_protocol c) (c_data_usage c)
    (c_data_limit c) (c_created_at c) (c_subscription_end c) v (c_group_id c) (c_sub_token c).
Definition set_group_id (v : option string) (c : ClientDB) : ClientDB :=
  Client (c_id c) (c_name c) (c_telegram_id c) (c_psk c) (c_vpn_ip c) (c_protocol c) (c_data_usage c)
    (c_data_limit c) (c_created_at c) (c_subscription_end c) (c_enabled c) v (c_sub_token c).

(** The [unique=True] columns, and the integers that fit an INTEGER column. *)
Definition distinct {A B} `{EqDecision B} (col : A -> option B) (m : gmap string A) : Prop :=
  NoDup (omap col (map_to_list m).*2).
Definition int64 (z : Z) : Prop := (- 2 ^ 63 <= z < 2 ^ 63)%Z.
Definition constraints (d : database) : Prop :=
  map_Forall (fun _ t => int64 (t_duration_days t)) (templates d) /\
  map_Forall (fun _ n => int64 (n_port n)) (nodes d) /\
  distinct (fun c => Some (c_name c)) (clients d) /\ distinct c_sub_token (clients d) /\
  distinct (fun g => Some (g_name g)) (groups d) /\ distinct (fun t => Some (t_name t)) (templates d).
#[export] Instance constraints_dec d : Decision (constraints d).
Proof. unfold constraints, distinct, int64. apply _. Defined.

(** ** The server process: the database, clients.json, and how often it has
    asked the VPN core to restart *)
Record backend := Backend { db : database; core : val; restarts : nat }.

Definition handler (A : Type) : Type := backend -> outcome A * backend.
Definition ret {A} (a : A) : handler A := fun b => (Done a, b).
Definition raise {A} (o : outcome A) : handler A := fun b => (o, b).
Definition hbind {A B} (h : handler A) (k : A -> handler B) : handler B := fun b =>
  match h b with
  | (Done a, b') => k a b'
  | (HTTPException n d, b') => (HTTPException n d, b')
  | (Raised, b') => (Raised, b')
  end.
(** The database as the session reads it, and [db.commit()] of its changes:
    all of them, or none and an exception. *)
Definition query {A} (f : database -> A) : handler A := fun b => (Done (f (db b)), b).
Definition commit (d : database) : handler unit := fun b =>
  if bool_decide (constraints d) then (Done tt, Backend d (core b) (restarts b)) else (Raised, b).
(** [db.add(row)] of a new row: its key must be free when it is committed. *)
Definition new_key {A} (k : string) (m : gmap string A) : handler unit :=
  match m !! k with None => ret tt | Some _ => raise Raised end.
(** [.first()], and the 404 when there is none. *)
Definition first_or_404 {A} (detail : string) (o : option A) : handler A :=
  match o with Some a => ret a | None => raise (HTTPException 404 detail) end.

Definition read_clients_db : handler val := fun b => (Done (core b), b).
Definition write_clients_db (v : val) : handler unit := fun b => (Done tt, Backend (db b) v (restarts b)).
(** [os.system("systemctl restart shadevpn && ... push_nodes.py")]. *)
Definition restart_core : handler unit := fun b => (Done tt, Backend (db b) (core b) (S (restarts b))).
End Tables.

Declare Scope py_scope.
Delimit Scope py_scope with py.
Notation "'let?' x ':=' p 'in' q" := (hbind p (fun x => q))
  (at level 10, x name, p at level 100, q at level 200) : py_scope.
Notation "'do?' p 'in' q" := (hbind p (fun _ => q))
  (at level 10, p at level 100, q at level 200) : py_scope.

(** ** Bodies *)

Section Bodies.
Context `{Platform}.

Definition as_str (v : val) : option string := match v with VStr s => Some s | _ => lax_str v end.
Definition as_bool (v : val) : option bool := match v with VBool b => Some b | _ => lax_bool v end.
Definition as_float (v : val) : option num := match v with VNum n => Some n | _ => lax_float v end.
(** A JSON number that is a whole one is an [int]. *)
Definition as_int (v : val) : option Z :=
  match v with
  | VNum n => if num_finite n && num_eq n (math_floor n) then Some (num_floor_Z n) else lax_int v
  | _ => lax_int v
  end.
Definition as_strs (v : val) : option (list string) :=
  match v with VArr l => mapM as_str l | _ => None end.
Definition as_dict (v : val) : option (list (string * val)) :=
  match v with VObj fs => Some fs | _ => None end.

(** A required field, one with a default, and an optional one. *)
Definition required {A} (conv : val -> option A) (f : string) (fs : list (string * val)) : option A :=
  v ← assoc f fs; conv v.
Definition defaulting {A} (conv : val -> option A) (d : A) (f : string) (fs : list (string * val)) : option A :=
  match assoc f fs with Some v => conv v | None => Some d end.
Definition optional {A} (conv : val -> option A) (f : string) (fs : list (string * val)) : option (option A) :=
  match assoc f fs with
  | None | Some VNull => Some None
  | Some v => Some <$> conv v
  end.

Record ClientCreate := ClientCreateBody {
  cc_username : string; cc_telegram_id : option string; cc_data_limit : num;
  cc_group_id : option string; cc_subscription_days : option Z }.
Definition parse_ClientCreate (fs : list (string * val)) : option ClientCreate :=
  u ← required as_str "username" fs; t ← optional as_str "telegram_id" fs;
  l ← defaulting as_float (num_of_Z 100) "data_limit" fs; g ← optional as_str "group_id" fs;
  s ← optional as_int "subscription_days" fs; Some (ClientCreateBody u t l g s).

Record ClientUpdate := ClientUpdateBody {
  cu_username : option string; cu_telegram_id : option string; cu_data_limit : option num;
  cu_group_id : option string; cu_subscription_end : option string }.
Definition parse_ClientUpdate (fs : list (string * val)) : option ClientUpdate :=
  u ← optional as_str "username" fs; t ← optional as_str "telegram_id" fs;
  l ← optional as_float "data_limit" fs; g ← optional as_str "group_id" fs;
  s ← optional as_str "subscription_end" fs; Some (ClientUpdateBody u t l g s).

Record GroupCreate := GroupCreateBody { gc_name : string; gc_description : string; gc_data_limit : string }.
Definition parse_GroupCreate (fs : list (string * val)) : option GroupCreate :=
  n ← required as_str "name" fs; d ← defaulting as_str "" "description" fs;
  l ← defaulting as_str "100 ГБ/юзер" "data_limit" fs; Some (GroupCreateBody n d l).

Record GroupUpdate := GroupUpdateBody {
  gu_name : option string; gu_description : option string; gu_data_limit : option string }.
Definition parse_GroupUpdate (fs : list (string * val)) : option GroupUpdate :=
  n ← optional as_str "name" fs; d ← optional as_str "description" fs;
  l ← optional as_str "data_limit" fs; Some (GroupUpdateBody n d l).

Record TemplateCreate := TemplateCreateBody {
  tc_name : string; tc_duration_days : Z; tc_data_limit_gb : num; tc_price : string }.
Definition parse_TemplateCreate (fs : list (string * val)) : option TemplateCreate :=
  n ← required as_str "name" fs; d ← defaulting as_int 30%Z "duration_days" fs;
  l ← defaulting as_float (num_of_Z 50) "data_limit_gb" fs; p ← defaulting as_str "0" "price" fs;
  Some (TemplateCreateBody n d l p).

Record NodeCreate := NodeCreateBody {
  nc_name : string; nc_location : string; nc_ip_address : string; nc_port : Z }.
Definition parse_NodeCreate (fs : list (string * val)) : option NodeCreate :=
  n ← required as_str "name" fs; l ← defaulting as_str "" "location" fs;
  i ← defaulting as_str "" "ip_address" fs; p ← defaulting as_int 443%Z "port" fs;
  Some (NodeCreateBody n l i p).

Record RuleCreate := RuleCreateBody {
  rc_name : string; rc_trigger : string; rc_action : string; rc_enabled : bool }.
Definition parse_RuleCreate (fs : list (string * val)) : option RuleCreate :=
  n ← required as_str "name" fs; t ← required as_str "trigger" fs; a ← required as_str "action" fs;
  e ← defaulting as_bool true "enabled" fs; Some (RuleCreateBody n t a e).

Record AssignGroup := AssignGroupBody { ag_client_ids : list string; ag_group_id : string }.
Definition parse_AssignGroup (fs : list (string * val)) : option AssignGroup :=
  c ← required as_strs "client_ids" fs; g ← required as_str "group_id" fs; Some (AssignGroupBody c g).

(** The bodies of one field: [LoginRequest], [ClientToggle] and [RuleToggle],
    [SettingsUpdate]. *)
Definition parse_LoginRequest (fs : list (string * val)) : option string := required as_str "password" fs.
Definition parse_Toggle (fs : list (string * val)) : option bool := required as_bool "enabled" fs.
Definition parse_SettingsUpdate (fs : list (string * val)) : option (list (string * val)) :=
  required as_dict "settings" fs.
End Bodies.
