(* ===== verification/Backend.v ===== *)
(** * The admin backend: handlers, authentication, routes ([main.py])

    One definition per handler, on the server process [backend]; [serve] is the
    application: the middleware, the route table, the validation of the body and
    the handler. *)
From Stdlib Require Import Ascii.
From S2P Require Import Prelude JsStr JsNum JsVal Effects Api BackendData.
Local Open Scope string_scope.
Local Open Scope py_scope.

Definition ADMIN_PASSWORD : string := "admin".

(** ** Helpers of the standard library *)

Definition quote : string := String (ascii_of_nat 34) "".
Definition b64_char (n : nat) : string :=
  match String.get (n mod 64) "ABCDEFGHIJKLMNOPQRSTUVWXYZabcdefghijklmnopqrstuvwxyz0123456789-_" with
  | Some c => String c ""
  | None => ""
  end.
(** [base64.urlsafe_b64encode(..).rstrip("=")]. *)
Fixpoint urlsafe_b64 (l : list nat) : string :=
  match l with
  | a :: b :: c :: l' =>
      b64_char (a / 4) +:+ b64_char (a mod 4 * 16 + b / 16) +:+ b64_char (b mod 16 * 4 + c / 64)
        +:+ b64_char c +:+ urlsafe_b64 l'
  | [a; b] => b64_char (a / 4) +:+ b64_char (a mod 4 * 16 + b / 16) +:+ b64_char (b mod 16 * 4)
  | [a] => b64_char (a / 4) +:+ b64_char (a mod 4 * 16)
  | [] => ""
  end.
Definition utf8_bytes (s : string) : list nat := map nat_of_ascii (String.list_ascii_of_string s).

(** [s.split(sep)[1]]: what is between the first two occurrences of [sep]. *)
Fixpoint until (sep s : string) : string :=
  if String.prefix sep s then ""
  else match s with EmptyString => "" | String c s' => String c (until sep s') end.
Fixpoint from (sep s : string) : string :=
  if String.prefix sep s then str_drop (String.length sep) s
  else match s with EmptyString => "" | String _ s' => from sep s' end.
Definition split_1 (sep s : string) : string := until sep (from sep s).

(** [d.get(k, default)] and [d[k] = v] on JSON documents. *)
Definition py_get (v : val) (k : string) (default : val) : option val :=
  match v with VObj fs => Some (match assoc k fs with Some w => w | None => default end) | _ => None end.
Definition py_set (k : string) (w v : val) : val :=
  match v with VObj fs => VObj (set_key k w fs) | _ => v end.
Definition as_list (v : val) : option (list val) := match v with VArr l => Some l | _ => None end.

Section Backend.
Context `{Platform}.
Implicit Types (m : moment) (b : backend).

Definition raise_if_none {A} (o : option A) : handler A :=
  match o with Some a => ret a | None => raise Raised end.
(** [core.get("clients", [])]. *)
Definition core_clients (core : val) : handler (list val) :=
  raise_if_none (py_get core "clients" (VArr []) ≫= as_list).
(** [[.. for cc in l]] of a function of the entries that may raise. *)
Definition each_client (f : val -> option val) (l : list val) : handler (list val) :=
  raise_if_none (mapM f l).
Definition entry_id (cc : val) : option val := py_get cc "id" VNull.

Definition status (s : string) : val := VObj [("status", VStr s)].
Definition sum_of (l : list num) : num := foldl num_add (num_of_Z 0) l.
Definition gib : num := num_of_Z (1024 ^ 3).
Definition int_json (z : Z) : val := VNum (num_of_Z z).
Definition or_str (o : option string) (d : string) : string :=
  match o with Some s => if str_truthy s then s else d | None => d end.
Definition opt_json (o : option string) : val := match o with Some s => VStr s | None => VNull end.

(** ** Login, health, metrics *)

Definition login (password : string) : handler val :=
  if String.eqb password ADMIN_PASSWORD then ret (status "ok")
  else raise (HTTPException 401 "Wrong password").

Definition health m : val :=
  VObj [("status", VStr "ok"); ("service", VStr "ShadeVPN Admin API");
        ("psutil", VBool (match psutil m with Some _ => true | None => false end))].

Definition system_metrics m : val :=
  match psutil m with
  | None =>
      VObj [("cpu_percent", int_json 0); ("memory_total_gb", int_json 0); ("memory_used_gb", int_json 0);
            ("memory_percent", int_json 0); ("disk_total_gb", int_json 0); ("disk_used_gb", int_json 0);
            ("disk_free_gb", int_json 0); ("disk_percent", int_json 0); ("uptime_seconds", int_json 0);
            ("uptime_human", VStr "psutil не установлен")]
  | Some x =>
      let days := (uptime x / 86400)%Z in
      let hours := (uptime x mod 86400 / 3600)%Z in
      VObj [("cpu_percent", VNum (cpu_percent x));
            ("memory_total_gb", VNum (py_round (num_div (memory_total x) gib) 1));
            ("memory_used_gb", VNum (py_round (num_div (memory_used x) gib) 1));
            ("memory_percent", VNum (memory_percent x));
            ("disk_total_gb", VNum (py_round (num_div (disk_total x) gib) 0));
            ("disk_used_gb", VNum (py_round (num_div (disk_used x) gib) 0));
            ("disk_free_gb", VNum (py_round (num_div (disk_free x) gib) 0));
            ("disk_percent", VNum (disk_percent x));
            ("uptime_seconds", int_json (uptime x));
            ("uptime_human", VStr (string_of_Z days +:+ "d " +:+ string_of_Z hours +:+ "h"))]
  end.

(** ** Dashboard and traffic *)

Definition get_dashboard m (d : database) : val :=
  let total := Z.of_nat (size (clients d)) in
  let enabled := Z.of_nat (size (filter (fun p => c_enabled p.2 = true) (clients d))) in
  let online := Z.of_nat (size (filter (fun p => p.2 = true) (live_status m))) in
  let yesterday := timedelta_days (-1) (utcnow m) in
  let active_24h := Z.of_nat (length (remove_dups (map s_client_id
    (List.filter (fun s => datetime_le yesterday (s_timestamp s)) (snapshots d))))) in
  let ti := sum_of (map s_bytes_in (snapshots d)) in
  let to := sum_of (map s_bytes_out (snapshots d)) in
  VObj [("totalClients", int_json total);
        ("enabledClients", int_json enabled);
        ("disabledClients", int_json (total - enabled));
        ("onlineClients", int_json online);
        ("offlineClients", int_json (total - online));
        ("active24h", int_json active_24h);
        ("inactive24h", int_json (total - active_24h));
        ("totalTrafficGB", VNum (py_round (num_div (num_add ti to) gib) 2));
        ("downloadGB", VNum (py_round (num_div ti gib) 2));
        ("uploadGB", VNum (py_round (num_div to gib) 2));
        ("totalGroups", int_json (Z.of_nat (size (groups d))));
        ("totalNodes", int_json (Z.of_nat (size (nodes d))))].

(** The gigabytes of the snapshots that [p] selects; SUM of no rows is NULL. *)
Definition traffic_gb (p : TrafficSnapshotDB -> bool) (digits : nat) (d : database) : val :=
  let rows := List.filter p (snapshots d) in
  VNum (py_round (num_div (num_add (sum_of (map s_bytes_in rows)) (sum_of (map s_bytes_out rows))) gib) digits).
Definition midnight : list (string * Z) := [("hour", 0); ("minute", 0); ("second", 0); ("microsecond", 0)]%Z.

Definition traffic_summary m (d : database) : val :=
  let now := utcnow m in
  let sum_period since := traffic_gb (fun s => datetime_le since (s_timestamp s)) 2 d in
  VObj [("todayGB", sum_period (datetime_replace midnight now));
        ("last7daysGB", sum_period (timedelta_days (-7) now));
        ("last30daysGB", sum_period (timedelta_days (-30) now));
        ("currentMonthGB", sum_period (datetime_replace (("day", 1%Z) :: midnight) now));
        ("currentYearGB", sum_period (datetime_replace (("month", 1%Z) :: ("day", 1%Z) :: midnight) now))].

Definition traffic_chart_24h m (d : database) : val :=
  VArr (map (fun i =>
    let h_start := datetime_replace [("minute", 0%Z); ("second", 0%Z); ("microsecond", 0%Z)]
                     (timedelta_hours (- (23 - Z.of_nat i)) (utcnow m)) in
    let h_end := timedelta_hours 1 h_start in
    VObj [("time", VStr (strftime "%H:%M" (timedelta_hours 3 h_start)));
          ("traffic", traffic_gb (fun s => datetime_le h_start (s_timestamp s)
                                           && negb (datetime_le h_end (s_timestamp s))) 3 d)])
    (seq 0 24)).

(** ** Clients *)

Definition sub_link (sub_token : string) : string :=
  let sub_url := "http://185.204.52.135/api/sub/" +:+ sub_token in
  "shade://" +:+ urlsafe_b64 (utf8_bytes
    ("{" +:+ quote +:+ "sub" +:+ quote +:+ ":" +:+ quote +:+ sub_url +:+ quote +:+ "}")).

Definition client_json m (d : database) (c : ClientDB) : val :=
  let group := (match c_group_id c with
                | Some g => if str_truthy g then groups d !! g else None
                | None => None
                end) in
  let is_online := default false (live_status m !! c_id c) in
  let live_usage := default (c_data_usage c) (live_traffic m !! c_id c) in
  let shade_link := match c_sub_token c with
                    | Some t => if str_truthy t then sub_link t else c_psk c
                    | None => c_psk c
                    end in
  VObj [("id", VStr (c_id c)); ("username", VStr (c_name c));
        ("telegramId", VStr (or_str (c_telegram_id c) "—"));
        ("protocol", VStr (c_protocol c));
        ("dataUsage", VNum (py_round live_usage 6)); ("dataLimit", VNum (c_data_limit c));
        ("subscriptionEnd", VStr (match c_subscription_end c with
                                  | Some e => strftime "%Y-%m-%d" e | None => "Безлимит" end));
        ("status", VStr (if c_enabled c then "online" else "offline"));
        ("isOnline", VBool is_online);
        ("shadeLink", VStr shade_link);
        ("vpnIp", VStr (c_vpn_ip c));
        ("createdAt", VStr (match c_created_at c with
                            | Some t => strftime "%Y-%m-%d %H:%M" t | None => "" end));
        ("groupName", VStr (match group with Some g => g_name g | None => "—" end));
        ("groupId", VStr (or_str (c_group_id c) ""))].
Definition list_clients m (d : database) : val :=
  VArr (map (client_json m d) (row_order m (clients d))).

(** The identifier and the key among the lines the core prints. *)
Definition read_id (lines : list string) : option string :=
  foldl (fun acc line => if startsWith (trim line) "ID:" then Some (trim (split_1 "ID:" line)) else acc) None lines.
Definition read_link (lines : list string) : option string :=
  foldl (fun acc line => if startsWith (trim line) "shade://" then Some (trim line) else acc) None lines.

(** [for c in core_db.get("clients", [])], up to the entry of [c_id]. *)
Fixpoint core_ip (c_id : string) (cs : list val) : option string :=
  match cs with
  | [] => Some "10.0.0.x"
  | c :: cs' =>
      i ← entry_id c;
      if strict_eq i (VStr c_id) then v ← py_get c "vpn_ip" (VStr "10.0.0.x"); column_text v
      else core_ip c_id cs'
  end.

Definition create_client m (body : ClientCreate) : handler val :=
  if negb (str_truthy (cc_username body)) then raise (HTTPException 400 "Username required") else
  let? core0 := read_clients_db in
  let '(out, core1) := add_client m (cc_username body) core0 in
  do? write_clients_db core1 in
  match out with
  | None => raise Raised
  | Some (inl output) => raise (HTTPException 500 ("Core generation failed: " +:+ output))
  | Some (inr lines) =>
      match read_id lines with
      | None => raise (HTTPException 500 "Could not parse client ID from Core")
      | Some c_id =>
          if negb (str_truthy c_id) then raise (HTTPException 500 "Could not parse client ID from Core") else
          let? cs := core_clients core1 in
          let? vpn_ip := raise_if_none (core_ip c_id cs) in
          let? d := query id in
          do? new_key c_id (clients d) in
          let? link := raise_if_none (read_link lines) in
          let? subscription_end :=
            match cc_subscription_days body with
            | Some n => if (n =? 0)%Z then ret None else raise_if_none (Some <$> add_days n (utcnow m))
            | None => ret None
            end in
          let new := Client c_id (cc_username body) (cc_telegram_id body) link vpn_ip "ShadeVPN"
                       (num_of_Z 0) (cc_data_limit body) (Some (utcnow m)) subscription_end true
                       (cc_group_id body) (Some (uuid4 m)) in
          do? commit (set_clients (<[c_id := new]> (clients d)) d) in
          do? restart_core in
          ret (VObj [("status", VStr "created"); ("shadeLink", VStr (sub_link (uuid4 m)));
                     ("directLink", VStr link); ("subToken", VStr (uuid4 m))])
      end
  end.

Definition delete_client (cid : string) : handler val :=
  let? d := query id in
  let? c := first_or_404 "Клиент не найден" (clients d !! cid) in
  do? commit (set_clients (delete cid (clients d)) d) in
  let? core := read_clients_db in
  let? cs := core_clients core in
  let? ids := each_client entry_id cs in
  let kept := map fst (List.filter (fun p => negb (strict_eq (snd p) (VStr cid))) (zip cs ids)) in
  do? write_clients_db (py_set "clients" (VArr kept) core) in
  do? restart_core in
  ret (status "deleted").

(** [for cc in core.get("clients", []): if cc.get("id") == cid: cc[k] = v]:
    the new document, and whether an entry was found. *)
Definition set_entry (cid k : string) (v : val) (core : val) : handler (val * bool) :=
  let? cs := core_clients core in
  let? ids := each_client entry_id cs in
  let cs' := map (fun p => if strict_eq (snd p) (VStr cid) then py_set k v (fst p) else fst p) (zip cs ids) in
  ret (match py_get core "clients" VNull with
       | Some VNull | None => core
       | Some _ => py_set "clients" (VArr cs') core
       end, existsb (fun i => strict_eq i (VStr cid)) ids).

Definition when_some {A} (o : option A) (f : A -> ClientDB -> ClientDB) (c : ClientDB) : ClientDB :=
  match o with Some a => f a c | None => c end.
Definition new_end (s : string) (c : ClientDB) : ClientDB :=
  if String.eqb s "" then set_subscription_end None c
  else match strptime_day s with Some e => set_subscription_end (Some e) c | None => c end.

Definition update_client (cid : string) (body : ClientUpdate) : handler val :=
  let? d := query id in
  let? c := first_or_404 "Клиент не найден" (clients d !! cid) in
  let renamed := match cu_username body with
                 | Some u => if String.eqb u (c_name c) then None else Some u
                 | None => None
                 end in
  let? needs_core_restart :=
    (match renamed with
     | Some u =>
         let? core := read_clients_db in
         let? r := set_entry cid "name" (VStr u) core in
         do? (if snd r then write_clients_db (fst r) else ret tt) in
         ret (snd r)
     | None => ret false
     end) in
  let c' := when_some (cu_subscription_end body) new_end
             (when_some (cu_group_id body) (fun g => set_group_id (Some g))
               (when_some (cu_data_limit body) set_data_limit
                 (when_some (cu_telegram_id body) (fun t => set_telegram_id (Some t))
                   (when_some renamed set_name c)))) in
  do? commit (set_clients (<[cid := c']> (clients d)) d) in
  do? (if needs_core_restart then restart_core else ret tt) in
  ret (status "updated").

Definition toggle_client (cid : string) (enabled : bool) : handler val :=
  let? d := query id in
  let? c := first_or_404 "Not Found" (clients d !! cid) in
  do? commit (set_clients (<[cid := set_enabled enabled c]> (clients d)) d) in
  let? core := read_clients_db in
  let? r := set_entry cid "enabled" (VBool enabled) core in
  do? write_clients_db (fst r) in
  do? restart_core in
  ret (VObj [("status", VStr "updated"); ("enabled", VBool enabled)]).

(** The image of the subscription link, or of the key when there is none. *)
Definition get_client_qr m (cid : string) : handler unit :=
  let not_found := HTTPException 404 "Ключ не найден для данного клиента" in
  let? d := query id in
  match clients d !! cid with
  | Some c =>
      if negb (str_truthy (c_psk c) && startsWith (c_psk c) "shade://") then raise not_found else
      match qrcode m with
      | None => raise (HTTPException 500 "Библиотека qrcode не установлена (pip install qrcode[pil])")
      | Some draws =>
          let qr_content := match c_sub_token c with
                            | Some t => if str_truthy t then sub_link t else c_psk c
                            | None => c_psk c
                            end in
          if draws qr_content then ret tt else raise Raised
      end
  | None => raise not_found
  end.

(** ** Groups *)

Definition members (gid : string) (d : database) : Z :=
  Z.of_nat (size (filter (fun p => c_group_id p.2 = Some gid) (clients d))).
Definition group_json (d : database) (g : GroupDB) : val :=
  VObj [("id", VStr (g_id g)); ("name", VStr (g_name g)); ("description", VStr (g_description g));
        ("dataLimit", VStr (g_data_limit g)); ("members", int_json (members (g_id g) d))].
Definition list_groups m (d : database) : val :=
  VArr (map (group_json d) (row_order m (groups d))).

Definition created (i : string) : val := VObj [("status", VStr "created"); ("id", VStr i)].
Definition create_group m (data : GroupCreate) : handler val :=
  let gid := token_hex m in
  let? d := query id in
  do? new_key gid (groups d) in
  do? commit (set_groups (<[gid := Group gid (gc_name data) (gc_description data) (gc_data_limit data)]> (groups d)) d) in
  ret (created gid).

Definition update_group (gid : string) (data : GroupUpdate) : handler val :=
  let? d := query id in
  let? g := first_or_404 "Not Found" (groups d !! gid) in
  let g' := Group (g_id g) (default (g_name g) (gu_name data))
              (default (g_description g) (gu_description data)) (default (g_data_limit g) (gu_data_limit data)) in
  do? commit (set_groups (<[gid := g']> (groups d)) d) in
  ret (status "updated").

(** Its clients are detached. *)
Definition detach (gid : string) (c : ClientDB) : ClientDB :=
  if bool_decide (c_group_id c = Some gid) then set_group_id None c else c.
Definition delete_group (gid : string) : handler val :=
  let? d := query id in
  let? g := first_or_404 "Not Found" (groups d !! gid) in
  do? commit (set_groups (delete gid (groups d)) (set_clients (detach gid <$> clients d) d)) in
  ret (status "deleted").

Definition assign_all (gid : string) (cids : list string) (cs : gmap string ClientDB) : gmap string ClientDB :=
  foldl (fun cs cid => alter (set_group_id (Some gid)) cid cs) cs cids.
Definition assign_clients_to_group (gid : string) (body : AssignGroup) : handler val :=
  let? d := query id in
  let? g := first_or_404 "Not Found" (groups d !! gid) in
  do? commit (set_clients (assign_all gid (ag_client_ids body) (clients d)) d) in
  ret (status "assigned").

(** ** Tariffs, servers, rules *)

Definition template_json (t : TemplateDB) : val :=
  VObj [("id", VStr (t_id t)); ("name", VStr (t_name t)); ("durationDays", int_json (t_duration_days t));
        ("dataLimitGb", VNum (t_data_limit_gb t)); ("price", VStr (t_price t))].
Definition list_templates m (d : database) : val := VArr (map template_json (row_order m (templates d))).
Definition create_template m (data : TemplateCreate) : handler val :=
  let tid := token_hex m in
  let? d := query id in
  do? new_key tid (templates d) in
  do? commit (set_templates (<[tid := Template tid (tc_name data) (tc_duration_days data)
                                        (tc_data_limit_gb data) (tc_price data)]> (templates d)) d) in
  ret (created tid).
Definition delete_template (tid : string) : handler val :=
  let? d := query id in
  let? t := first_or_404 "Not Found" (templates d !! tid) in
  do? commit (set_templates (delete tid (templates d)) d) in
  ret (status "deleted").

Definition node_json (n : NodeDB) : val :=
  VObj [("id", VStr (n_id n)); ("name", VStr (n_name n)); ("location", VStr (n_location n));
        ("ipAddress", VStr (n_ip_address n)); ("port", int_json (n_port n)); ("isOnline", VBool (n_is_online n))].
Definition list_nodes m (d : database) : val := VArr (map node_json (row_order m (nodes d))).
Definition create_node m (data : NodeCreate) : handler val :=
  let nid := token_hex m in
  let? d := query id in
  do? new_key nid (nodes d) in
  do? commit (set_nodes (<[nid := Node nid (nc_name data) (nc_location data) (nc_ip_address data)
                                    (nc_port data) true]> (nodes d)) d) in
  ret (created nid).
Definition delete_node (nid : string) : handler val :=
  let? d := query id in
  let? n := first_or_404 "Not Found" (nodes d !! nid) in
  do? commit (set_nodes (delete nid (nodes d)) d) in
  ret (status "deleted").

Definition rule_json (r : RuleDB) : val :=
  VObj [("id", VStr (r_id r)); ("name", VStr (r_name r)); ("trigger", VStr (r_trigger r));
        ("action", VStr (r_action r)); ("enabled", VBool (r_enabled r))].
Definition list_rules m (d : database) : val := VArr (map rule_json (row_order m (rules d))).
Definition create_rule m (data : RuleCreate) : handler val :=
  let rid := token_hex m in
  let? d := query id in
  do? new_key rid (rules d) in
  do? commit (set_rules (<[rid := Rule rid (rc_name data) (rc_trigger data) (rc_action data)
                                    (rc_enabled data)]> (rules d)) d) in
  ret (created rid).
Definition toggle_rule (rid : string) (enabled : bool) : handler val :=
  let? d := query id in
  let? r := first_or_404 "Not Found" (rules d !! rid) in
  do? commit (set_rules (<[rid := Rule (r_id r) (r_name r) (r_trigger r) (r_action r) enabled]> (rules d)) d) in
  ret (status "toggled").
Definition delete_rule (rid : string) : handler val :=
  let? d := query id in
  let? r := first_or_404 "Not Found" (rules d !! rid) in
  do? commit (set_rules (delete rid (rules d)) d) in
  ret (status "deleted").

(** ** The subscription of the mobile applications *)

Definition COUNTRY_FLAGS : list (string * string) :=
  [("NL", "🇳🇱"); ("NLD", "🇳🇱"); ("Netherlands", "🇳🇱"); ("Нидерланды", "🇳🇱");
   ("TR", "🇹🇷"); ("TUR", "🇹🇷"); ("Turkey", "🇹🇷"); ("Турция", "🇹🇷");
   ("DE", "🇩🇪"); ("DEU", "🇩🇪"); ("Germany", "🇩🇪"); ("Германия", "🇩🇪");
   ("US", "🇺🇸"); ("USA", "🇺🇸"); ("United States", "🇺🇸"); ("США", "🇺🇸");
   ("RU", "🇷🇺"); ("RUS", "🇷🇺"); ("Russia", "🇷🇺"); ("Россия", "🇷🇺");
   ("GB", "🇬🇧"); ("GBR", "🇬🇧"); ("UK", "🇬🇧"); ("Великобритания", "🇬🇧");
   ("FR", "🇫🇷"); ("FRA", "🇫🇷"); ("France", "🇫🇷"); ("Франция", "🇫🇷");
   ("JP", "🇯🇵"); ("JPN", "🇯🇵"); ("Japan", "🇯🇵"); ("Япония", "🇯🇵");
   ("ES", "🇪🇸"); ("ESP", "🇪🇸"); ("Spain", "🇪🇸"); ("Испания", "🇪🇸");
   ("EE", "🇪🇪"); ("EST", "🇪🇪"); ("Estonia", "🇪🇪"); ("Эстония", "🇪🇪");
   ("FI", "🇫🇮"); ("FIN", "🇫🇮"); ("Finland", "🇫🇮"); ("Финляндия", "🇫🇮");
   ("SE", "🇸🇪"); ("SWE", "🇸🇪"); ("Sweden", "🇸🇪"); ("Швеция", "🇸🇪");
   ("CA", "🇨🇦"); ("CAN", "🇨🇦"); ("Canada", "🇨🇦"); ("Канада", "🇨🇦");
   ("SG", "🇸🇬"); ("SGP", "🇸🇬"); ("Singapore", "🇸🇬"); ("Сингапур", "🇸🇬");
   ("IN", "🇮🇳"); ("IND", "🇮🇳"); ("India", "🇮🇳"); ("Индия", "🇮🇳")].
(** The first entry whose key is a word of the location. *)
Definition get_flag (location : string) : string :=
  match find (fun kf => word_in (py_lower kf.1) (py_lower location)) COUNTRY_FLAGS with
  | Some kf => kf.2
  | None => "🌐"
  end.

Definition code_map : list (string * string) :=
  [("Netherlands", "NL"); ("Нидерланды", "NL"); ("NL", "NL");
   ("Turkey", "TR"); ("Турция", "TR"); ("TR", "TR");
   ("Germany", "DE"); ("Германия", "DE"); ("DE", "DE");
   ("Russia", "RU"); ("Россия", "RU"); ("RU", "RU");
   ("United States", "US"); ("США", "US"); ("US", "US");
   ("France", "FR"); ("Франция", "FR"); ("FR", "FR");
   ("UK", "GB"); ("Великобритания", "GB"); ("GB", "GB");
   ("Japan", "JP"); ("Япония", "JP"); ("JP", "JP");
   ("Spain", "ES"); ("Испания", "ES"); ("ES", "ES");
   ("Estonia", "EE"); ("Эстония", "EE"); ("EE", "EE");
   ("Finland", "FI"); ("Финляндия", "FI"); ("FI", "FI");
   ("Sweden", "SE"); ("Швеция", "SE"); ("SE", "SE");
   ("Canada", "CA"); ("Канада", "CA"); ("CA", "CA");
   ("Singapore", "SG"); ("Сингапур", "SG"); ("SG", "SG");
   ("India", "IN"); ("Индия", "IN"); ("IN", "IN")].
(** The first entry whose key occurs in the location. *)
Definition get_country_code (location : string) : string :=
  match find (fun kc => includes (py_lower location) (py_lower kc.1)) code_map with
  | Some kc => kc.2
  | None => "XX"
  end.

Definition primary_ip : string := "185.204.52.135".
(** [b64 + "=" * (-len(b64) % 4)]. *)
Definition padded (b64 : string) : string :=
  b64 +:+ String.concat "" (repeat "=" (Z.to_nat (- Z.of_nat (String.length b64) mod 4))).
(** [payload["s"] = v], which raises on what is no object. *)
Definition set_item (k : string) (v payload : val) : option val :=
  match payload with VObj fs => Some (VObj (set_key k v fs)) | _ => None end.
Definition rewrite_key_for_node (shade_key new_ip : string) (new_port : Z) : string :=
  let b64 := if startsWith shade_key "shade://" then str_drop 8 shade_key else shade_key in
  match (text ← urlsafe_b64decode (padded b64); payload ← json_loads text;
         set_item "s" (VStr (new_ip +:+ ":" +:+ string_of_Z new_port)) payload) with
  | Some payload => "shade://" +:+ urlsafe_b64 (utf8_bytes (json_dumps payload))
  | None => shade_key
  end.

Definition server_json (id name country flag key : string) : val :=
  VObj [("id", VStr id); ("name", VStr name); ("country", VStr country); ("flag", VStr flag); ("key", VStr key)].
Definition primary_server (c : ClientDB) : list val :=
  if str_truthy (c_psk c) && startsWith (c_psk c) "shade://"
  then [server_json "primary" "Netherlands 🇳🇱" "NL" "🇳🇱" (c_psk c)] else [].
Definition node_server (c : ClientDB) (n : NodeDB) : val :=
  let place := if str_truthy (n_location n) then n_location n else n_name n in
  let flag := get_flag place in
  server_json (n_id n) (n_name n +:+ " " +:+ flag) (get_country_code place) flag
    (if str_truthy (c_psk c) then rewrite_key_for_node (c_psk c) (n_ip_address n) (n_port n) else "").
(** The nodes that are online, but for the primary server. *)
Definition other_nodes m (d : database) : list NodeDB :=
  List.filter (fun n => negb (String.eqb (n_ip_address n) primary_ip))
    (List.filter n_is_online (row_order m (nodes d))).
Definition sub_servers m (d : database) (c : ClientDB) : list val :=
  (primary_server c ++ map (node_server c) (other_nodes m d))%list.

Definition subscriber m (sub_token : string) (d : database) : option ClientDB :=
  head (List.filter (fun c => bool_decide (c_sub_token c = Some sub_token)) (row_order m (clients d))).
Definition expired m (c : ClientDB) : bool :=
  match c_subscription_end c with Some e => negb (datetime_le (utcnow m) e) | None => false end.
Definition refused_subscription (state message : string) : val :=
  VObj [("status", VStr state); ("servers", VArr []); ("message", VStr message)].
Definition get_subscription m (sub_token : string) : handler val :=
  let? d := query id in
  let? c := first_or_404 "Subscription not found" (subscriber m sub_token d) in
  if negb (c_enabled c) then ret (refused_subscription "disabled" "Подписка отключена") else
  if expired m c then ret (refused_subscription "expired" "Подписка истекла") else
  ret (VObj [("status", VStr "active"); ("username", VStr (c_name c));
             ("expires", VStr (match c_subscription_end c with
                               | Some e => strftime "%Y-%m-%d" e | None => "unlimited" end));
             ("dataUsage", VNum (py_round (c_data_usage c) 2)); ("dataLimit", VNum (c_data_limit c));
             ("servers", VArr (sub_servers m d c))]).

(** ** Settings *)

Definition get_settings m (d : database) : val :=
  VObj (map (fun r => (key r, VStr (value r))) (row_order m (settings d))).
(** An existing row keeps its key, a new one gets the key of the body. *)
Definition set_setting (ss : gmap string SettingsDB) (kv : string * val) : gmap string SettingsDB :=
  <[kv.1 := Setting kv.1 (py_str kv.2)]> ss.
Definition update_settings (body : list (string * val)) : handler val :=
  let? d := query id in
  do? commit (set_settings (foldl set_setting (settings d) body) d) in
  ret (status "saved").

(** ** The application *)

(** A response can only hold finite numbers; what is raised is a 500 whose
    body is no JSON. *)
Fixpoint finite_json (v : val) : bool :=
  match v with
  | VNum n => num_finite n
  | VArr l => forallb finite_json l
  | VObj fs => forallb (fun kv => finite_json kv.2) fs
  | _ => true
  end.
Definition internal_error : response := Response 500 (Err SyntaxError).
Definition respond (o : outcome val) : response :=
  match o with
  | Done v => if finite_json v then Response 200 (Ok v) else internal_error
  | HTTPException n detail => Response n (Ok (VObj [("detail", VStr detail)]))
  | Raised => internal_error
  end.

(** An image is a body that is no JSON. *)
Definition respond_image (o : outcome unit) : response :=
  match o with
  | Done _ => Response 200 (Err SyntaxError)
  | HTTPException n detail => Response n (Ok (VObj [("detail", VStr detail)]))
  | Raised => internal_error
  end.

(** What a route does with the parameters of its path and the body. *)
Inductive endpoint : Type :=
| Handle (h : handler val)
| Image (h : handler unit)
| Invalid.                   (* 422 *)
Definition body_as {A} (parse : list (string * val) -> option A) (body : option val) (k : A -> handler val) : endpoint :=
  match body with
  | Some (VObj fs) => match parse fs with Some a => Handle (k a) | None => Invalid end
  | _ => Invalid
  end.
Definition returns (f : database -> val) : endpoint := Handle (let? d := query id in ret (f d)).

(** A segment of a path, [None] for a parameter; no route has two. *)
Definition pattern := list (option string).
Definition under (l : list string) : pattern := Some <$> ("" :: "api" :: l).
Definition item (l : list string) : pattern := (under l ++ [None])%list.
Fixpoint matches (p : pattern) (segments : list string) : option (list string) :=
  match p, segments with
  | [], [] => Some []
  | Some s :: p', x :: l => if String.eqb s x then matches p' l else None
  | None :: p', x :: l =>
      if String.eqb x "" then None else params ← matches p' l; Some (x :: params)
  | _, _ => None
  end.
Definition param (k : string -> endpoint) (params : list string) : endpoint :=
  match params with [i] => k i | _ => Invalid end.

Definition routes m (body : option val) : list (string * pattern * (list string -> endpoint)) :=
  [("POST", under ["login"], fun _ => body_as parse_LoginRequest body login);
   ("GET", under ["health"], fun _ => returns (fun _ => health m));
   ("GET", under ["system"], fun _ => returns (fun _ => system_metrics m));
   ("GET", under ["dashboard"], fun _ => returns (get_dashboard m));
   ("GET", under ["traffic"; "summary"], fun _ => returns (traffic_summary m));
   ("GET", under ["traffic"; "chart24h"], fun _ => returns (traffic_chart_24h m));
   ("GET", under ["clients"], fun _ => returns (list_clients m));
   ("POST", under ["clients"], fun _ => body_as parse_ClientCreate body (create_client m));
   ("DELETE", item ["clients"], param (fun i => Handle (delete_client i)));
   ("PATCH", item ["clients"], param (fun i => body_as parse_ClientUpdate body (update_client i)));
   ("GET", item ["clients"] ++ [Some "qr"], param (fun i => Image (get_client_qr m i)));
   ("PATCH", item ["clients"] ++ [Some "toggle"], param (fun i => body_as parse_Toggle body (toggle_client i)));
   ("GET", under ["groups"], fun _ => returns (list_groups m));
   ("POST", under ["groups"], fun _ => body_as parse_GroupCreate body (create_group m));
   ("PATCH", item ["groups"], param (fun i => body_as parse_GroupUpdate body (update_group i)));
   ("DELETE", item ["groups"], param (fun i => Handle (delete_group i)));
   ("POST", item ["groups"] ++ [Some "assign"],
      param (fun i => body_as parse_AssignGroup body (assign_clients_to_group i)));
   ("GET", under ["templates"], fun _ => returns (list_templates m));
   ("POST", under ["templates"], fun _ => body_as parse_TemplateCreate body (create_template m));
   ("DELETE", item ["templates"], param (fun i => Handle (delete_template i)));
   ("GET", under ["nodes"], fun _ => returns (list_nodes m));
   ("POST", under ["nodes"], fun _ => body_as parse_NodeCreate body (create_node m));
   ("DELETE", item ["nodes"], param (fun i => Handle (delete_node i)));
   ("GET", item ["sub"], param (fun t => Handle (get_subscription m t)));
   ("GET", under ["rules"], fun _ => returns (list_rules m));
   ("POST", under ["rules"], fun _ => body_as parse_RuleCreate body (create_rule m));
   ("PATCH", item ["rules"] ++ [Some "toggle"], param (fun i => body_as parse_Toggle body (toggle_rule i)));
   ("DELETE", item ["rules"], param (fun i => Handle (delete_rule i)));
   ("GET", under ["settings"], fun _ => returns (get_settings m));
   ("POST", under ["settings"], fun _ => body_as parse_SettingsUpdate body update_settings)]%list.

(** The first route of the method whose pattern the path matches. *)
Fixpoint find_route (method : string) (segments : list string)
    (rs : list (string * pattern * (list string -> endpoint))) : option endpoint :=
  match rs with
  | [] => None
  | (me, p, k) :: rs' =>
      match (if String.eqb me method then matches p segments else None) with
      | Some params => Some (k params)
      | None => find_route method segments rs'
      end
  end.

(** [s.split("/")]. *)
Fixpoint split_slash (s : string) : list string :=
  match s with
  | EmptyString => [""]
  | String c s' =>
      if Ascii.eqb c "/"%char then "" :: split_slash s'
      else match split_slash s' with x :: l => String c x :: l | [] => [String c ""] end
  end.
Fixpoint before_query (s : string) : string :=
  match s with
  | EmptyString => ""
  | String c s' => if Ascii.eqb c "?"%char || Ascii.eqb c "#"%char then "" else String c (before_query s')
  end.

(** [verify_admin]. *)
Definition exempt (method path : string) : bool :=
  startsWith path "/api/login" || startsWith path "/api/sub/" || String.eqb method "OPTIONS"
  || negb (startsWith path "/api").
Definition has_password (rq : request) : bool :=
  match assoc token_header (rq_headers rq) with Some t => String.eqb t ADMIN_PASSWORD | None => false end.
Definition unauthorized : response := Response 401 (Ok (VObj [("detail", VStr "Unauthorized")])).

Definition dispatch m (rq : request) (path : string) (b : backend) : response * backend :=
  match find_route (rq_method rq) (split_slash path) (routes m (rq_body rq)) with
  | None => (unrouted rq, b)
  | Some Invalid => (Response 422 (Ok (VObj [("detail", validation_error rq)])), b)
  | Some (Handle h) => let '(o, b') := h b in (respond o, b')
  | Some (Image h) => let '(o, b') := h b in (respond_image o, b')
  end.

(** The answer to a request of the panel, and the server afterwards; [None] for
    an address that is not the backend's. *)
Definition serve `{BuildEnv} m (rq : request) (b : backend) : option (response * backend) :=
  if negb (startsWith (rq_url rq) API) then None
  else
    let path := unquote (before_query ("/api" +:+ str_drop (String.length API) (rq_url rq))) in
    if exempt (rq_method rq) path || has_password rq then Some (dispatch m rq path b)
    else Some (unauthorized, b).
End Backend.
