(* ===== verification/Signed.v ===== *)
(** * Programs of a session that nobody interrupts

    While the stored token is [tok], every request a program sends carries it.
    If the server grants such requests, no answer is a 401; then the wrapper
    never drops the token and never reloads.  [signed p]: whatever the answers
    but a 401, [p] sends granted requests only, keeps the token and does not
    reload. *)
From S2P Require Import Prelude JsStr JsNum JsVal React Effects Logic Api.
Local Open Scope string_scope.
Local Open Scope js_scope.

Definition admitted_answer (q : query) : res (reply q) -> Prop :=
  match q return res (reply q) -> Prop with
  | QFetch _ => fun o => match o with Ok r => r_status r <> 401%Z | Err _ => True end
  | _ => fun _ => True
  end.

Section Signed.
Context (tok : string) (granted : request -> Prop).

(** What a call answers while the token is stored. *)
Definition call_answer (c : cmd) (v : res val) : Prop :=
  match c with CGetItem k => k = token_key -> v = Ok (VStr tok) | _ => True end.
Definition session_call (c : cmd) : Prop :=
  match c with CSetItem k _ | CRemoveItem k => k <> token_key | CReload => False | _ => True end.

Fixpoint signed {S A : Type} (p : prog S A) : Prop :=
  match p with
  | Ret _ | Throw _ => True
  | Upd _ k => signed k
  | Call c k => session_call c /\ forall v, call_answer c v -> signed (k v)
  | Await q k =>
      match q with QFetch rq => granted rq | _ => True end /\
      forall o, admitted_answer q o -> signed (k o)
  | Spawn q k => signed q /\ signed k
  | SetTimer _ _ q k => signed q /\ forall id, signed (k id)
  | ClearTimer _ k => signed k
  end.
Definition signed_task {S} (t : nat * task S) : Prop :=
  match snd t with
  | Waiting q k =>
      match q with QFetch rq => granted rq | _ => True end /\
      forall o, admitted_answer q o -> signed (k o)
  | Timer _ _ p => signed p
  end.

(** What a session is observed to do. *)
Definition session_obs (o : obs) : Prop :=
  match o with OCall c => session_call c | OSend r => granted r | OUncaught _ => True end.
Definition has_token (s : gmap string string) : Prop := s !! token_key = Some tok.

Section Rules.
Context {S : Type}.

Lemma signed_bind {A B} (p : prog S A) (f : A -> prog S B) :
  signed p -> (forall a, signed (f a)) -> signed (bind p f).
Proof. intros Hp Hf. induction p; cbn in *; intuition eauto. Qed.
Lemma signed_try_catch {A} (p : prog S A) h :
  signed p -> (forall e, signed (h e)) -> signed (try_catch p h).
Proof. intros Hp Hh. induction p; cbn in *; intuition eauto. Qed.
Lemma signed_try_finally {A} (p : prog S A) f : signed p -> signed f -> signed (try_finally p f).
Proof. intros Hp Hf. induction p; cbn in *; intuition eauto; apply signed_bind; cbn; eauto. Qed.
Lemma signed_for_each {A} (l : list A) body :
  (forall a, signed (body a)) -> signed (S:=S) (for_each l body).
Proof. intros Hb. induction l; cbn; [done|]. by apply signed_bind. Qed.
Lemma signed_lift {A} (r : res A) : signed (lift (S:=S) r).
Proof. by destruct r. Qed.
Lemma signed_call c : session_call c -> signed (call (S:=S) c).
Proof. split; [done|]. intros v _. apply signed_lift. Qed.
Lemma signed_do c : session_call c -> signed (do_ (S:=S) c).
Proof. split; [done|]. by intros [?|?]. Qed.
Lemma signed_tick : signed (await (S:=S) QTick).
Proof. split; [done|]. intros v _. apply signed_lift. Qed.
Lemma signed_confirm m : signed (confirm (S:=S) m).
Proof. split; [done|]. by intros [?|?]. Qed.
Lemma signed_json r : signed (response_json (S:=S) r).
Proof. apply signed_bind; [apply signed_tick|]. intros _. apply signed_lift. Qed.
Lemma signed_timeout p ms : signed p -> signed (setTimeout (S:=S) p ms).
Proof. by split. Qed.
Lemma signed_forget p : signed p -> signed (forget (S:=S) p).
Proof. intros Hp. split; [|done]. by apply signed_try_catch. Qed.

(** The wrapper reads the token, signs the request with it, and has nothing to
    do on an answer that is no 401. *)
Lemma signed_fetch url i :
  tok <> "" -> granted (wrapped tok url i) -> signed (fetch (S:=S) url i).
Proof.
  intros Hne Hg. split; [done|]. intros v Hv. rewrite (Hv eq_refl). cbn.
  destruct tok as [|c t]; [done|]. cbn. split; [done|]. intros [r|e] Ho; [|done]. cbn.
  unfold on_response. cbn in Ho. rewrite (proj2 (Z.eqb_neq _ _) Ho). done.
Qed.
Lemma signed_fetch_into url set :
  tok <> "" -> granted (wrapped tok url GET) -> signed (fetch_into (S:=S) url set).
Proof.
  intros Hne Hg. apply signed_forget, signed_bind; [by apply signed_fetch|intros r].
  by apply signed_bind; [apply signed_json|].
Qed.

(** *** Runs *)

Record in_session (c : conf S) : Prop := InSession {
  session_token : has_token (store c);
  session_tasks : Forall signed_task (pend c);
}.

Lemma exec_session io s c : has_token s -> session_call c ->
  call_answer c (fst (exec io s c)) /\ has_token (snd (exec io s c)).
Proof.
  intros Hs Hc. destruct c; try done; cbn in *; unfold has_token in *.
  - split; [|done]. intros ->. by rewrite Hs.
  - split; [done|]. by rewrite lookup_insert_ne.
  - split; [done|]. by rewrite lookup_delete_ne.
Qed.

Lemma run_signed io p (c : conf S) : signed p -> in_session c ->
  in_session (run io p c) /\
  exists l, log (run io p c) = (log c ++ l)%list /\ Forall session_obs l.
Proof.
  revert c. induction p as [a|e|f k IH|cm k IH|q k IH|q k IHq IH|b ms q k IHq IH|id k IH]
    using prog_unit_ind; cbn [signed run]; intros c Hp [C1 C2].
  - split; [done|]. exists []. by rewrite app_nil_r.
  - split; [done|]. exists [OUncaught e]. split; [done|]. by constructor.
  - apply (IH (set_st f c) Hp). by split.
  - destruct Hp as [Hc Hk]. destruct (exec_session io (store c) cm C1 Hc) as [Ha Ht].
    destruct (exec io (store c) cm) as [r s]. cbn in Ha, Ht.
    destruct (IH r (set_store s (emit (OCall cm) c)) (Hk _ Ha)) as (H1 & l & El & Hl); [done|].
    split; [done|]. exists (OCall cm :: l). split; [rewrite El; cbn; by rewrite <- app_assoc|by constructor].
  - assert (signed_task (next c, Waiting q k)) as Ht by done.
    destruct q as [r| |]; (split; [split; [done|by apply Forall_app_2; [|apply Forall_singleton]]|]).
    + exists [OSend r]. split; [done|]. constructor; [apply Hp|done].
    + exists []. cbn. by rewrite app_nil_r.
    + exists []. cbn. by rewrite app_nil_r.
  - destruct Hp as [Hq Hk]. destruct (IHq c Hq) as (H1 & l1 & E1 & L1); [done|].
    destruct (IH _ Hk H1) as (H2 & l2 & E2 & L2). split; [done|]. exists (l1 ++ l2)%list.
    split; [by rewrite E2, E1, app_assoc|by apply Forall_app].
  - destruct Hp as [Hq Hk]. apply (IH (next c) (push (Timer b ms q) c) (Hk _)).
    split; [done|]. apply Forall_app_2; [done|]. by apply Forall_singleton.
  - apply (IH (drop_timer id c) Hp). split; [done|]. by apply Forall_list_filter.
Qed.

Lemma take_session i (c : conf S) : in_session c -> in_session (take_task i c).
Proof. intros [C1 C2]. split; [done|]. by apply Forall_delete. Qed.
Lemma store_session s (c : conf S) : has_token s -> in_session c -> in_session (set_store s c).
Proof. intros Hs [C1 C2]. by split. Qed.
End Rules.
End Signed.

(** The structural rules; an operation of the code is unfolded. *)
Ltac signed_step :=
  cbv beta;
  lazymatch goal with
  | |- signed _ _ (bind _ _) => apply signed_bind; [|intros]
  | |- signed _ _ (try_catch _ _) => apply signed_try_catch; [|intros]
  | |- signed _ _ (try_finally _ _) => apply signed_try_finally
  | |- signed _ _ (for_each _ _) => apply signed_for_each; intros
  | |- signed _ _ (lift _) => apply signed_lift
  | |- signed _ _ (call _) => apply signed_call; exact I
  | |- signed _ _ (ref_value _) => apply signed_call; exact I
  | |- signed _ _ (do_ _) => apply signed_do; exact I
  | |- signed _ _ (alert _) => apply signed_do; exact I
  | |- signed _ _ (navigate _) => apply signed_do; exact I
  | |- signed _ _ (await QTick) => apply signed_tick
  | |- signed _ _ (confirm _) => apply signed_confirm
  | |- signed _ _ (response_json _) => apply signed_json
  | |- signed _ _ (fetch _ _) => apply signed_fetch; [done|]
  | |- signed _ _ (fetch_into _ _) => apply signed_fetch_into; [done|]
  | |- signed _ _ (forget _) => apply signed_forget
  | |- signed _ _ (spawn _) => split; [|exact I]
  | |- signed _ _ (setTimeout _ _) => apply signed_timeout
  | |- signed _ _ (setInterval _ _) => split; [|intros; exact I]
  | |- signed _ _ (upd _) => exact I
  | |- signed _ _ skip => exact I
  | |- signed _ _ (Ret _) => exact I
  | |- signed _ _ (Throw _) => exact I
  | |- signed _ _ (clearTimer _) => exact I
  | |- signed _ _ (when ?b _) => destruct b; cbn [when]
  | |- signed _ _ (if ?b then _ else _) => destruct b
  | |- signed _ _ (match ?x with _ => _ end) => destruct x
  | |- signed _ _ ?p => let h := head_of p in progress unfold h
  end.
Ltac signed_tac := repeat signed_step.
