(* ===== verification/BackendSpec.v ===== *)
(** * What the backend promises

    Which handler serves which request of the panel; who may ask for what; the
    shapes of the answers; what stays true of the tables. *)
From Stdlib Require Import Ascii.
From S2P Require Import Prelude JsStr JsNum JsVal Effects Logic Api Promises BackendData Backend.
Local Open Scope string_scope.

(** ** Paths *)

Lemma str_app_nil_r (s : string) : s +:+ "" = s.
Proof. induction s as [|c s IH]; [done|]. change (String c (s +:+ "") = String c s). by rewrite IH. Qed.

Lemma split_slash_plain s t : plain s = true ->
  split_slash (s +:+ "/" +:+ t) = s :: split_slash t /\ split_slash s = [s].
Proof.
  induction s as [|c s IH]; [by intros _|].
  change (plain (String c s)) with ((let n := nat_of_ascii c in
    ((48 <=? n) && (n <=? 57)) || ((65 <=? n) && (n <=? 90)) || ((97 <=? n) && (n <=? 122))
    || (n =? 45) || (n =? 95))%nat && plain s).
  intros [Hc Hs]%andb_true_iff. destruct (IH Hs) as [E1 E2].
  change (split_slash (String c s +:+ "/" +:+ t)) with
    (if Ascii.eqb c "/"%char then "" :: split_slash (s +:+ "/" +:+ t)
     else match split_slash (s +:+ "/" +:+ t) with x :: l => String c x :: l | [] => [String c ""] end).
  change (split_slash (String c s)) with
    (if Ascii.eqb c "/"%char then "" :: split_slash s
     else match split_slash s with x :: l => String c x :: l | [] => [String c ""] end).
  assert (Ascii.eqb c "/"%char = false) as ->.
  { destruct (Ascii.eqb_spec c "/"%char) as [->|]; [by vm_compute in Hc|done]. }
  by rewrite E1, E2.
Qed.

(** A path of plain segments. *)
Definition slashes (segments : list string) : string := foldr (fun s t => "/" +:+ s +:+ t) "" segments.

Lemma slashes_split l : Forall (fun s => plain s = true) l -> split_slash (slashes l) = "" :: l.
Proof.
  induction 1 as [|s l Hs _ IH]; [done|].
  change (split_slash (slashes (s :: l))) with ("" :: split_slash (s +:+ slashes l)). f_equal.
  destruct l as [|s' l].
  - change (slashes []) with "". rewrite str_app_nil_r. apply (split_slash_plain s "" Hs).
  - change (slashes (s' :: l)) with ("/" +:+ (s' +:+ slashes l)).
    rewrite (proj1 (split_slash_plain s _ Hs)). f_equal.
    change (split_slash (slashes (s' :: l))) with ("" :: split_slash (s' +:+ slashes l)) in IH. congruence.
Qed.

Lemma before_query_app s t : plain s = true -> before_query (s +:+ t) = s +:+ before_query t.
Proof.
  induction s as [|c s IH]; [done|].
  change (plain (String c s)) with ((let n := nat_of_ascii c in
    ((48 <=? n) && (n <=? 57)) || ((65 <=? n) && (n <=? 90)) || ((97 <=? n) && (n <=? 122))
    || (n =? 45) || (n =? 95))%nat && plain s).
  intros [Hc Hs]%andb_true_iff.
  change (before_query (String c s +:+ t)) with
    (if Ascii.eqb c "?"%char || Ascii.eqb c "#"%char then "" else String c (before_query (s +:+ t))).
  destruct (Ascii.eqb_spec c "?"%char) as [->|]; [by vm_compute in Hc|].
  destruct (Ascii.eqb_spec c "#"%char) as [->|]; [by vm_compute in Hc|].
  cbn [orb]. by rewrite IH.
Qed.
Lemma before_query_slashes l : Forall (fun s => plain s = true) l -> before_query (slashes l) = slashes l.
Proof.
  induction 1 as [|s l Hs _ IH]; [done|].
  change (before_query (slashes (s :: l))) with (String "/" (before_query (s +:+ slashes l))).
  by rewrite before_query_app, IH.
Qed.

(** ** Which handler serves a request *)

Section Routes.
Context `{PL : PlatformLaws} `{BE : BuildEnv}.

Lemma unquote_app s t : plain s = true -> unquote (s +:+ t) = s +:+ unquote t.
Proof.
  induction s as [|c s IH]; [done|].
  change (plain (String c s)) with ((let n := nat_of_ascii c in
    ((48 <=? n) && (n <=? 57)) || ((65 <=? n) && (n <=? 90)) || ((97 <=? n) && (n <=? 122))
    || (n =? 45) || (n =? 95))%nat && plain s).
  intros [Hc Hs]%andb_true_iff. change (unquote (String c (s +:+ t)) = String c (s +:+ unquote t)).
  rewrite unquote_char, IH by first [done|intros ->; by vm_compute in Hc]. done.
Qed.
Lemma unquote_slashes l : Forall (fun s => plain s = true) l -> unquote (slashes l) = slashes l.
Proof.
  induction 1 as [|s l Hs _ IH]; [apply unquote_nil|].
  change (slashes (s :: l)) with (String "/" (s +:+ slashes l)). by rewrite unquote_char, unquote_app, IH.
Qed.

Definition reply_of (e : option endpoint) (rq : request) (b : backend) : response * backend :=
  match e with
  | None => (unrouted rq, b)
  | Some Invalid => (Response 422 (Ok (VObj [("detail", validation_error rq)])), b)
  | Some (Handle h) => let '(o, b') := h b in (respond o, b')
  | Some (Image h) => let '(o, b') := h b in (respond_image o, b')
  end.

Lemma serve_at m rq b rest segments :
  rq_url rq = API +:+ rest -> "/api" +:+ rest = slashes segments ->
  Forall (fun s => plain s = true) segments -> has_password rq = true ->
  serve m rq b = Some (reply_of (find_route (rq_method rq) ("" :: segments) (routes m (rq_body rq))) rq b).
Proof.
  intros Hu Hr Hs Hp. unfold serve, startsWith. rewrite Hu, (proj2 (prefix_app_iff _ _)) by by eexists.
  cbn [negb]. rewrite str_drop_app, Hr, before_query_slashes, unquote_slashes by done. rewrite Hp, orb_true_r.
  unfold dispatch. by rewrite slashes_split.
Qed.

Lemma serve_refused m rq b rest segments :
  rq_url rq = API +:+ rest -> "/api" +:+ rest = slashes segments ->
  Forall (fun s => plain s = true) segments -> has_password rq = false ->
  exempt (rq_method rq) (slashes segments) = false -> serve m rq b = Some (unauthorized, b).
Proof.
  intros Hu Hr Hs Hp He. unfold serve, startsWith. rewrite Hu, (proj2 (prefix_app_iff _ _)) by by eexists.
  cbn [negb]. rewrite str_drop_app, Hr, before_query_slashes, unquote_slashes by done. by rewrite Hp, He.
Qed.

(** ** The lists the panel reads *)

(** The readable addresses, with the segments of their path and what they
    return. *)
Definition lists m : list (string * list string * (database -> val)) :=
  [("/clients", ["api"; "clients"], list_clients m);
   ("/groups", ["api"; "groups"], list_groups m);
   ("/templates", ["api"; "templates"], list_templates m);
   ("/nodes", ["api"; "nodes"], list_nodes m);
   ("/rules", ["api"; "rules"], list_rules m);
   ("/settings", ["api"; "settings"], get_settings m);
   ("/dashboard", ["api"; "dashboard"], get_dashboard m);
   ("/system", ["api"; "system"], fun _ => system_metrics m);
   ("/traffic/summary", ["api"; "traffic"; "summary"], traffic_summary m);
   ("/traffic/chart24h", ["api"; "traffic"; "chart24h"], traffic_chart_24h m)].

Lemma lists_routed m path segments f : (path, segments, f) ∈ lists m ->
  "/api" +:+ path = slashes segments /\ Forall (fun s => plain s = true) segments /\
  exempt "GET" (slashes segments) = false /\
  forall body, find_route "GET" ("" :: segments) (routes m body) = Some (returns f).
Proof.
  intros Hin. unfold lists in Hin.
  repeat (apply elem_of_cons in Hin as [[= -> -> ->]|Hin];
    [split; [done|split; [by repeat constructor|split; [by vm_compute|done]]]|]).
  by apply elem_of_nil in Hin.
Qed.

(** Reading changes nothing; the answer is the list, an error without a body,
    or the refusal of a request without the password. *)
Lemma serve_list m rq b r b' path segments f : (path, segments, f) ∈ lists m ->
  rq_method rq = "GET" -> rq_url rq = API +:+ path -> serve m rq b = Some (r, b') ->
  b' = b /\
  r = (if has_password rq then respond (Done (f (db b))) else unauthorized).
Proof.
  intros Hin Hg Hu Hs. destruct (lists_routed _ _ _ _ Hin) as (E1 & E2 & E3 & E4).
  destruct (has_password rq) eqn:Hp.
  - rewrite (serve_at _ _ _ _ _ Hu E1 E2 Hp), Hg, E4 in Hs. by injection Hs as <- <-.
  - rewrite (serve_refused _ _ _ _ _ Hu E1 E2 Hp) in Hs by by rewrite Hg. by injection Hs as <- <-.
Qed.

(** ** Shapes *)

Lemma rows_ok {A} (ok : val -> bool) (j : A -> val) (l : list A) :
  (forall a, ok (j a) = true) -> list_of ok (VArr (map j l)) = true.
Proof. intros Hj. cbn. induction l as [|a l IH]; [done|]. cbn. by rewrite Hj, IH. Qed.

Lemma client_json_ok m d c : client_ok (client_json m d c) = true.
Proof. done. Qed.

Lemma shaped (ok : val -> bool) m rq b r b' path segments f :
  (forall d, ok (f d) = true) -> (path, segments, f) ∈ lists m ->
  rq_method rq = "GET" -> serve m rq b = Some (r, b') -> r_status r <> 401%Z ->
  rq_url rq = API +:+ path -> forall v, r_json r = Ok v -> ok v = true.
Proof.
  intros Hok Hin Hg Hs Hn Hu v Hv. destruct (serve_list _ _ _ _ _ _ _ _ Hin Hg Hu Hs) as [-> Hr].
  destruct (has_password rq); [|by subst r]. subst r. unfold respond in Hv.
  destruct (finite_json (f (db b))); [|done]. injection Hv as <-. apply Hok.
Qed.

Ltac in_lists := unfold lists; repeat first [apply list_elem_of_here|apply list_elem_of_further].

(** Every answer but a refusal is one the panel is promised. *)
Lemma serve_documented m rq b r b' :
  serve m rq b = Some (r, b') -> r_status r <> 401%Z -> documented rq r.
Proof.
  intros Hs Hn Hg. unfold promises.
  repeat (apply Forall_cons; split; [eapply (shaped _ m); [|in_lists|exact Hg|exact Hs|exact Hn]|]); [..|constructor].
  - intros d. apply rows_ok. by intros c.
  - intros d. apply rows_ok. by intros c.
  - intros d. apply rows_ok. by intros c.
  - intros d. apply rows_ok. by intros c.
  - intros d. apply rows_ok. by intros c.
  - done.
  - done.
  - intros d. cbn. unfold system_metrics. by destruct (psutil m).
  - done.
  - intros d. by apply rows_ok.
Qed.

(** ** Who may ask for what *)

(** A handler that refuses nobody. *)
Definition mild {A} (h : handler A) : Prop := forall b n d, fst (h b) = HTTPException n d -> n <> 401%Z.

Lemma mild_ret {A} (a : A) : mild (ret a).
Proof. done. Qed.
Lemma mild_bind {A B} (h : handler A) (k : A -> handler B) : mild h -> (forall a, mild (k a)) -> mild (hbind h k).
Proof.
  intros Hh Hk b n d. unfold hbind. specialize (Hh b). destruct (h b) as [[a|n' d'|] b']; cbn; [apply Hk| |done].
  intros [= -> ->]. by eapply Hh.
Qed.
Lemma mild_query {A} (f : database -> A) : mild (query f).
Proof. done. Qed.
Lemma mild_commit d : mild (commit d).
Proof. intros b n e. unfold commit. by case_bool_decide. Qed.
Lemma mild_new_key {A} k (m : gmap string A) : mild (new_key k m).
Proof. unfold new_key. by destruct (m !! k). Qed.
Lemma mild_first {A} e (o : option A) : mild (first_or_404 e o).
Proof. destruct o; [done|]. by intros b n d [= <- _]. Qed.
Lemma mild_if_none {A} (o : option A) : mild (raise_if_none o).
Proof. by destruct o. Qed.
Lemma mild_raise {A} n d : n <> 401%Z -> mild (raise (A:=A) (HTTPException n d)).
Proof. intros Hn b n' d' [= <- _]. done. Qed.

Ltac mild_step :=
  cbv beta zeta;
  lazymatch goal with
  | |- mild (hbind _ _) => apply mild_bind; [|intros]
  | |- mild (ret _) => apply mild_ret
  | |- mild (query _) => apply mild_query
  | |- mild (commit _) => apply mild_commit
  | |- mild (new_key _ _) => apply mild_new_key
  | |- mild (first_or_404 _ _) => apply mild_first
  | |- mild (raise_if_none _) => apply mild_if_none
  | |- mild (raise _) => first [by apply mild_raise|done]
  | |- mild read_clients_db => done
  | |- mild (write_clients_db _) => done
  | |- mild restart_core => done
  | |- mild (if ?b then _ else _) => destruct b
  | |- mild (match ?x with _ => _ end) => destruct x
  | |- mild ?h => let h' := head_of h in progress unfold h'
  end.

Definition mild_endpoint (e : endpoint) : Prop := match e with Handle h => mild h | Image h => mild h | Invalid => True end.
Lemma mild_body {A} (parse : list (string * val) -> option A) body k :
  (forall a, mild (k a)) -> mild_endpoint (body_as parse body k).
Proof. intros Hk. unfold body_as. destruct body as [[| | | | | |fs|]|]; try done. destruct (parse fs); [apply Hk|done]. Qed.

Lemma routes_mild m body :
  Forall (fun r => r.1 = ("POST", under ["login"]) \/ forall params, mild_endpoint (r.2 params)) (routes m body).
Proof.
  unfold routes. constructor; [by left|].
  repeat (constructor; [right; intros params; cbn [snd]|]).
  all: try (exact (List.Forall_nil _)); try exact I.
  all: unfold param; lazymatch goal with |- mild_endpoint (match ?p with _ => _ end) => destruct p as [|i [|? ?]] | _ => idtac end;
    try exact I.
  all: unfold returns; first [apply mild_body; intros|cbn [mild_endpoint]]; repeat mild_step.
Qed.

Lemma find_route_in method segments rs e : find_route method segments rs = Some e ->
  exists p k params, (method, p, k) ∈ rs /\ matches p segments = Some params /\ e = k params.
Proof.
  induction rs as [|[[me p] k] rs IH]; [done|]. cbn [find_route].
  assert (find_route method segments rs = Some e ->
    exists p' k' params, (method, p', k') ∈ (me, p, k) :: rs /\ matches p' segments = Some params /\ e = k' params) as Hr.
  { intros Hf. destruct (IH Hf) as (p' & k' & ps & Hin & Hm & He). exists p', k', ps. split; [by right|done]. }
  destruct (String.eqb_spec me method) as [->|]; [|exact Hr].
  destruct (matches p segments) as [params|] eqn:Hm; [|exact Hr].
  intros [= <-]. exists p, k, params. split; [by left|done].
Qed.

Lemma split_slash_nonempty s : split_slash s <> [].
Proof. destruct s as [|c s]; cbn; [done|]. destruct (Ascii.eqb c "/"); [done|]. by destruct (split_slash s). Qed.
Lemma split_slash_concat s : String.concat "/" (split_slash s) = s.
Proof.
  induction s as [|c s IH]; [done|]. cbn [split_slash].
  destruct (Ascii.eqb_spec c "/"%char) as [->|].
  - destruct (split_slash s) as [|x l] eqn:E; [by destruct (split_slash_nonempty s)|].
    change (String.concat "/" ("" :: x :: l)) with ("/" +:+ String.concat "/" (x :: l)). by rewrite IH.
  - destruct (split_slash s) as [|x [|y l]] eqn:E.
    + by destruct (split_slash_nonempty s).
    + cbn in IH |- *. by rewrite IH.
    + change (String.concat "/" (String c x :: y :: l)) with (String c (String.concat "/" (x :: y :: l))). by rewrite IH.
Qed.
Lemma before_query_prefix s : exists t, s = before_query s +:+ t.
Proof.
  induction s as [|c s [t IH]]; [by exists ""|]. cbn [before_query].
  destruct (_ || _); [by exists (String c s)|]. exists t. change (String c s = String c (before_query s +:+ t)). by rewrite <- IH.
Qed.

Lemma matches_literal l segments ps : matches (Some <$> l) segments = Some ps -> segments = l.
Proof.
  revert segments ps. induction l as [|x l IH]; intros [|y segments] ps; try done. cbn.
  destruct (String.eqb_spec x y) as [->|]; [|done]. intros Hm. by rewrite (IH _ _ Hm).
Qed.

(** A request that carries the password and is no login. *)
Definition granted (rq : request) : Prop :=
  has_password rq = true /\
  exists rest, rq_url rq = API +:+ rest /\ startsWith (unquote (before_query rest)) "/login" = false.

Lemma api_path rest : unquote (before_query ("/api" +:+ rest)) = "/api" +:+ unquote (before_query rest).
Proof.
  change (before_query ("/api" +:+ rest)) with ("/api" +:+ before_query rest).
  change (unquote (String "/" ("api" +:+ before_query rest)) = String "/" ("api" +:+ unquote (before_query rest))).
  by rewrite unquote_char, unquote_app.
Qed.

Lemma granted_admitted m rq b r b' :
  granted rq -> serve m rq b = Some (r, b') -> r_status r <> 401%Z.
Proof.
  intros [Hp (rest & Hrest & Hl)] Hs. unfold serve, startsWith in Hs, Hl.
  rewrite Hrest, (proj2 (prefix_app_iff _ _)), str_drop_app, Hp, orb_true_r, api_path in Hs by by eexists.
  cbn [negb] in Hs. unfold dispatch in Hs.
  set (path := unquote (before_query rest)) in *.
  destruct (find_route (rq_method rq) (split_slash ("/api" +:+ path)) (routes m (rq_body rq))) as [e|] eqn:Hf;
    [|injection Hs as <- _; apply unrouted_status].
  destruct (find_route_in _ _ _ _ Hf) as (p & k & params & Hin & Hm & ->).
  pose proof (routes_mild m (rq_body rq)) as Hmild. rewrite Forall_forall in Hmild.
  destruct (Hmild _ Hin) as [[= Hme ->]|Hk].
  - exfalso. apply matches_literal in Hm.
    pose proof (split_slash_concat ("/api" +:+ path)) as Ec. rewrite Hm in Ec.
    assert (path = "/login") as E by (by injection Ec). by rewrite E in Hl.
  - specialize (Hk params). cbn in Hk. destruct (k params) as [h|h|]; [| |by injection Hs as <- _];
    cbn in Hk; specialize (Hk b); destruct (h b) as [o b1]; injection Hs as <- _; cbn in Hk.
    + destruct o as [v|n d|]; cbn; [by destruct (finite_json v)|by eapply Hk|done].
    + destruct o as [[]|n d|]; cbn; [done|by eapply Hk|done].
Qed.
End Routes.

(** ** A platform

    Dates in seconds, numbers left unrounded; enough to run the handlers. *)
Definition sample_text : string :=
  "{" +:+ quote +:+ "s" +:+ quote +:+ ":" +:+ quote +:+ "10.0.0.1:443" +:+ quote +:+ "}".
Definition sample_platform : Platform := {|
  datetime := Z;
  strftime _ _ := "01.01.2026";
  strptime_day _ := Some 0%Z;
  datetime_le := Z.leb;
  datetime_replace _ t := t;
  timedelta_days n t := (t + 86400 * n)%Z;
  timedelta_hours n t := (t + 3600 * n)%Z;
  add_days n t := Some (t + 86400 * n)%Z;
  py_round n _ := n;
  py_str v := match v with VStr s => s | _ => "" end;
  column_text v := match v with VStr s => Some s | _ => None end;
  lax_str _ := None; lax_float _ := None; lax_int _ := None; lax_bool _ := None;
  validation_error := fun _ => VNull;
  unrouted _ := Response 404 (Ok (VObj [("detail", VStr "Not Found")]));
  unquote s := s;
  py_lower s := s;
  word_in w s := includes s w;
  urlsafe_b64decode s :=
    find (fun text => String.eqb s (padded (urlsafe_b64 (utf8_bytes text)))) ["{}"; sample_text];
  json_loads s :=
    if String.eqb s "{}" then Some (VObj [])
    else if String.eqb s sample_text then Some (VObj [("s", VStr "10.0.0.1:443")]) else None;
  json_dumps v := match v with VObj [] => "{}" | _ => sample_text end;
|}.
Lemma sample_laws : PlatformLaws (H:=sample_platform).
Proof. by split. Qed.
#[local] Existing Instance sample_platform.
Definition sample_moment : moment :=
  Moment _ 0%Z "c0ffee00" "7d444840-9dc0-11d1-b245-5ffdce74fad2" None ∅ ∅ (Some (fun _ => true))
    (fun _ core => (Some (inl ""), core)) (fun _ m => (map_to_list m).*2) (fun _ _ => reflexivity _).
Definition empty_database : database := Database ∅ ∅ ∅ ∅ ∅ ∅ [].
Definition empty_backend : backend := Backend empty_database (VObj [("clients", VArr [])]) 0.
