(* ===== verification/BackendTables.v ===== *)
(** * The backend's tables

    Nothing without the password; rows under their own keys; what deleting a
    group and saving settings do. *)
From Stdlib Require Import Ascii.
From S2P Require Import Prelude JsStr JsNum JsVal Effects Logic Api Promises BackendData Backend BackendSpec.
Local Open Scope string_scope.

Section Tables.
Context `{PL : PlatformLaws} `{BE : BuildEnv}.

(** ** Without the password *)

(** A route outside [/api/login] and [/api/sub/], for another method than
    OPTIONS. *)
Definition guarded (r : string * pattern * (list string -> endpoint)) : Prop :=
  r.1.1 <> "OPTIONS" /\
  exists x p, r.1.2 = Some "" :: Some "api" :: Some x :: p /\
    forall t, startsWith ("/api/" +:+ x +:+ t) "/api/login" = false /\
              startsWith ("/api/" +:+ x +:+ t) "/api/sub/" = false.

Lemma routes_guarded m body :
  Forall (fun r => r = ("POST", under ["login"], fun _ => body_as parse_LoginRequest body login) \/
                   r = ("GET", item ["sub"], param (fun t => Handle (get_subscription m t))) \/ guarded r) (routes m body).
Proof.
  unfold routes. constructor; [by left|].
  repeat (constructor; [first [right; left; reflexivity
    |right; right; split; [done|eexists _, _; split; [reflexivity|by intros t]]]|]).
  constructor.
Qed.

Lemma concat_three x l : exists t, String.concat "/" ("" :: "api" :: x :: l) = "/api/" +:+ x +:+ t.
Proof.
  destruct l as [|y l]; [exists ""; cbn; by rewrite str_app_nil_r|].
  exists ("/" +:+ String.concat "/" (y :: l)). reflexivity.
Qed.

Lemma matches_sub segments params : matches (item ["sub"]) segments = Some params ->
  exists t, t <> "" /\ segments = [""; "api"; "sub"; t] /\ params = [t].
Proof.
  destruct segments as [|s1 [|s2 [|s3 [|t [|? ?]]]]]; cbn [item under fmap list_fmap app matches]; try (by repeat case_match).
  destruct (String.eqb_spec "" s1) as [<-|]; [|done]. destruct (String.eqb_spec "api" s2) as [<-|]; [|done].
  destruct (String.eqb_spec "sub" s3) as [<-|]; [|done].
  destruct (String.eqb_spec t ""); [done|]. cbn. intros [= <-]. by exists t.
Qed.

Lemma guarded_path m body method path p k params :
  (method, p, k) ∈ routes m body -> matches p (split_slash path) = Some params -> exempt method path = true ->
  startsWith path "/api" = true ->
  (forall ps, k ps = body_as parse_LoginRequest body login) \/
  (method = "GET" /\ exists t, split_slash path = [""; "api"; "sub"; t] /\ k params = Handle (get_subscription m t)).
Proof.
  intros Hin Hm He Ha. pose proof (routes_guarded m body) as Hg. rewrite Forall_forall in Hg.
  destruct (Hg _ Hin) as [[= -> -> ->]|[[= -> -> ->]|(Hop & x & p' & Ep & Hx)]]; [by left| |exfalso].
  { right. split; [done|]. destruct (matches_sub _ _ Hm) as (t & _ & Es & ->). by exists t. }
  cbn in Hop, Ep. subst p. unfold exempt in He. rewrite Ha, (proj2 (String.eqb_neq _ _) Hop) in He.
  rewrite <- (split_slash_concat path) in He.
  destruct (split_slash path) as [|s1 [|s2 [|s3 l]]]; cbn [matches] in Hm; try (by repeat case_match).
  destruct (String.eqb_spec "" s1) as [<-|]; [|done]. destruct (String.eqb_spec "api" s2) as [<-|]; [|done].
  destruct (String.eqb_spec x s3) as [<-|]; [|done].
  destruct (concat_three x l) as [t Et]. rewrite Et in He. destruct (Hx t) as [H1 H2]. by rewrite H1, H2 in He.
Qed.

(** What anybody is told. *)
Definition public_answer (rq : request) (r : response) : Prop :=
  r = unauthorized \/ r = unrouted rq \/ r = Response 422 (Ok (VObj [("detail", validation_error rq)])) \/
  r = Response 401 (Ok (VObj [("detail", VStr "Wrong password")])) \/
  exists fs, rq_body rq = Some (VObj fs) /\ parse_LoginRequest fs = Some ADMIN_PASSWORD /\
    r = Response 200 (Ok (status "ok")).

Lemma login_public body b o b' h rq : rq_body rq = body ->
  body_as parse_LoginRequest body login = Handle h -> h b = (o, b') -> b' = b /\ public_answer rq (respond o).
Proof.
  unfold body_as. intros Hb. destruct body as [[| | | | | |fs|]|]; try done.
  destruct (parse_LoginRequest fs) as [pw|] eqn:Ep; [|done]. intros [= <-]. unfold login.
  destruct (String.eqb_spec pw ADMIN_PASSWORD) as [->|]; intros [= <- <-]; (split; [done|]).
  - right; right; right; right. by exists fs.
  - by right; right; right; left.
Qed.

Lemma login_same body b o b' h : body_as parse_LoginRequest body login = Handle h -> h b = (o, b') ->
  forall b2, h b2 = (o, b2).
Proof.
  unfold body_as. destruct body as [[| | | | | |fs|]|]; try done. destruct (parse_LoginRequest fs) as [pw|]; [|done].
  intros [= <-]. unfold login. by destruct (String.eqb pw ADMIN_PASSWORD); intros [= <- _].
Qed.

(** What a subscription tells of its client; the nodes it tells too, when it
    is neither blocked nor expired. *)
Definition told (c : ClientDB) : string * string * bool * option datetime * num * num :=
  (c_name c, c_psk c, c_enabled c, c_subscription_end c, c_data_usage c, c_data_limit c).
Definition active m (c : ClientDB) : bool := c_enabled c && negb (expired m c).

Lemma subscription_reads m t b : snd (get_subscription m t b) = b.
Proof.
  unfold get_subscription, hbind, query, first_or_404. cbn [id]. destruct (subscriber m t (db b)) as [c|]; [|done].
  cbn [ret]. by repeat case_match.
Qed.
Lemma subscription_told m t b b2 :
  told <$> subscriber m t (db b2) = told <$> subscriber m t (db b) ->
  (forall c, subscriber m t (db b) = Some c -> active m c = true -> nodes (db b2) = nodes (db b)) ->
  fst (get_subscription m t b2) = fst (get_subscription m t b).
Proof.
  unfold get_subscription, hbind, query, first_or_404. cbn [id].
  destruct (subscriber m t (db b)) as [c|], (subscriber m t (db b2)) as [c2|]; try done.
  cbn [fmap option_fmap option_map ret]. intros [= E1 E2 E3 E4 E5 E6] Hn. specialize (Hn c eq_refl). unfold active in Hn.
  assert (expired m c2 = expired m c) as Ee by (unfold expired; by rewrite E4).
  rewrite E1, E3, E4, E5, E6, Ee. destruct (c_enabled c); [|done]. destruct (expired m c); [done|]. cbn [negb ret fst].
  assert (sub_servers m (db b2) c2 = sub_servers m (db b) c) as ->; [|done].
  unfold sub_servers, primary_server, other_nodes. rewrite Hn, E2 by done. f_equal. apply List.map_ext. intros n.
  unfold node_server. by rewrite E2.
Qed.

(** The path of a request. *)
Definition path_of (rq : request) : string := unquote (before_query ("/api" +:+ str_drop (String.length API) (rq_url rq))).

(** C6. Nothing without the password.  A request that does not carry the
    administrator's password changes neither the tables nor the clients of the
    VPN core.  Unless it asks for a subscription it learns nothing from them
    either: it is refused, or told that there is no such address or that its
    body is not what is expected, or it is a login, which succeeds exactly with
    the password in its body, and whatever the tables hold the answer is the
    same.  The answer to a subscription is the same for all tables that agree on
    six columns of the client whose token is in the address (none of them its
    identifier, address, group or contact) and, when that client is neither
    blocked nor expired, on the nodes. *)
Theorem password_required m rq b r b' :
  has_password rq = false -> serve m rq b = Some (r, b') ->
  b' = b /\
  ((public_answer rq r /\ forall b2, serve m rq b2 = Some (r, b2)) \/
   exists t, rq_method rq = "GET" /\ split_slash (path_of rq) = [""; "api"; "sub"; t] /\
     r = respond (fst (get_subscription m t b)) /\
     forall b2, told <$> subscriber m t (db b2) = told <$> subscriber m t (db b) ->
       (forall c, subscriber m t (db b) = Some c -> active m c = true -> nodes (db b2) = nodes (db b)) ->
       serve m rq b2 = Some (r, b2)).
Proof.
  intros Hp. unfold serve. destruct (startsWith (rq_url rq) API); [|done]. cbn [negb].
  change (unquote _) with (path_of rq). rewrite Hp, orb_false_r.
  assert (startsWith (path_of rq) "/api" = true) as Ha.
  { unfold path_of. rewrite api_path. apply prefix_app_iff. by eexists. }
  destruct (exempt (rq_method rq) (path_of rq)) eqn:He;
    [|intros [= <- <-]; split; [done|left; split; [by left|done]]].
  unfold dispatch. destruct (find_route _ _ _) as [e|] eqn:Hf;
    [|intros [= <- <-]; split; [done|left; split; [by right; left|done]]].
  destruct (find_route_in _ _ _ _ Hf) as (p & k & params & Hin & Hm & ->).
  destruct (guarded_path _ _ _ _ _ _ _ Hin Hm He Ha) as [Hk|(Hg & t & Et & Hk)]; rewrite Hk.
  - destruct (body_as parse_LoginRequest (rq_body rq) login) as [h|h|] eqn:Eb.
    + destruct (h b) as [o b1] eqn:Eh. intros [= <- <-]. destruct (login_public _ _ _ _ _ rq eq_refl Eb Eh) as [-> Hr].
      split; [done|]. left. split; [done|]. intros b2. by rewrite (login_same _ _ _ _ _ Eb Eh b2).
    + unfold body_as in Eb. by repeat case_match.
    + intros [= <- <-]. split; [done|left; split; [by right; right; left|done]].
  - intros E. pose proof (subscription_reads m t b) as Hb. destruct (get_subscription m t b) as [o b1] eqn:Eo.
    cbn in Hb. subst b1. injection E as <- <-. split; [done|right]. exists t. split; [done|]. split; [done|].
    split; [by rewrite Eo|]. intros b2 Ht Hn. pose proof (subscription_reads m t b2) as Hb2.
    pose proof (subscription_told m t b b2 Ht Hn) as Ho. rewrite Eo in Ho.
    destruct (get_subscription m t b2) as [o2 b3]. cbn in Hb2, Ho. by subst b3 o2.
Qed.

(** ** Rows under their own keys *)

Definition keyed (d : database) : Prop :=
  map_Forall (fun k c => c_id c = k) (clients d) /\ map_Forall (fun k g => g_id g = k) (groups d) /\
  map_Forall (fun k t => t_id t = k) (templates d) /\ map_Forall (fun k n => n_id n = k) (nodes d) /\
  map_Forall (fun k r => r_id r = k) (rules d) /\ map_Forall (fun k r => key r = k) (settings d).
Definition sound (d : database) : Prop := constraints d /\ keyed d.

Definition keeps {A} (h : handler A) : Prop := forall b, sound (db b) -> sound (db (snd (h b))).

Lemma keeps_ret {A} (a : A) : keeps (ret a).
Proof. by intros b. Qed.
Lemma keeps_raise {A} (o : outcome A) : keeps (raise o).
Proof. by intros b. Qed.
Lemma keeps_hbind {A B} (h : handler A) (k : A -> handler B) : keeps h -> (forall a, keeps (k a)) -> keeps (hbind h k).
Proof.
  intros Hh Hk b Hb. unfold hbind. specialize (Hh b Hb). destruct (h b) as [[a|n d|] b']; cbn in Hh |- *; [|done..].
  by apply Hk.
Qed.
Lemma keeps_query {B} (k : database -> handler B) : (forall d, sound d -> keeps (k d)) -> keeps (hbind (query id) k).
Proof. intros Hk b Hb. by apply (Hk (db b) Hb b). Qed.
Lemma keeps_first {A B} e (o : option A) (k : A -> handler B) :
  (forall a, o = Some a -> keeps (k a)) -> keeps (hbind (first_or_404 e o) k).
Proof. intros Hk b Hb. destruct o as [a|]; [by apply (Hk a eq_refl b)|done]. Qed.
Lemma keeps_commit d : keyed d -> keeps (commit d).
Proof. intros Hd b Hb. unfold commit. case_bool_decide; [by split|done]. Qed.
Lemma keeps_new_key {A} k (m : gmap string A) : keeps (new_key k m).
Proof. unfold new_key. destruct (m !! k); [apply keeps_raise|apply keeps_ret]. Qed.
Lemma keeps_if_none {A} (o : option A) : keeps (raise_if_none o).
Proof. destruct o; [apply keeps_ret|apply keeps_raise]. Qed.

Ltac keeps_step :=
  cbv beta zeta;
  lazymatch goal with
  | |- keeps (hbind (query id) _) => apply keeps_query; intros ? ?
  | |- keeps (hbind (first_or_404 _ _) _) => apply keeps_first; intros ? ?
  | |- keeps (hbind _ _) => apply keeps_hbind; [|intros]
  | |- keeps (ret _) => apply keeps_ret
  | |- keeps (raise _) => apply keeps_raise
  | |- keeps (query _) => by intros ?
  | |- keeps (commit _) => apply keeps_commit
  | |- keeps (new_key _ _) => apply keeps_new_key
  | |- keeps (raise_if_none _) => apply keeps_if_none
  | |- keeps read_clients_db => by intros ?
  | |- keeps (write_clients_db _) => by intros ?
  | |- keeps restart_core => by intros ?
  | |- keeps (if ?b then _ else _) => destruct b
  | |- keeps (match ?x with _ => _ end) => destruct x
  | |- keeps ?h => let h' := head_of h in progress unfold h'
  end.

(** Each table by itself. *)
Lemma keyed_clients v d : keyed d -> map_Forall (fun k c => c_id c = k) v -> keyed (set_clients v d).
Proof. by intros (H1 & H2 & H3 & H4 & H5 & H6) Hv. Qed.
Lemma keyed_groups v d : keyed d -> map_Forall (fun k g => g_id g = k) v -> keyed (set_groups v d).
Proof. by intros (H1 & H2 & H3 & H4 & H5 & H6) Hv. Qed.
Lemma keyed_templates v d : keyed d -> map_Forall (fun k t => t_id t = k) v -> keyed (set_templates v d).
Proof. by intros (H1 & H2 & H3 & H4 & H5 & H6) Hv. Qed.
Lemma keyed_nodes v d : keyed d -> map_Forall (fun k n => n_id n = k) v -> keyed (set_nodes v d).
Proof. by intros (H1 & H2 & H3 & H4 & H5 & H6) Hv. Qed.
Lemma keyed_rules v d : keyed d -> map_Forall (fun k r => r_id r = k) v -> keyed (set_rules v d).
Proof. by intros (H1 & H2 & H3 & H4 & H5 & H6) Hv. Qed.
Lemma keyed_settings v d : keyed d -> map_Forall (fun k r => key r = k) v -> keyed (set_settings v d).
Proof. by intros (H1 & H2 & H3 & H4 & H5 & H6) Hv. Qed.

Lemma when_some_id {A} (o : option A) f c : (forall a c, c_id (f a c) = c_id c) -> c_id (when_some o f c) = c_id c.
Proof. intros Hf. by destruct o; cbn. Qed.
Lemma new_end_id s c : c_id (new_end s c) = c_id c.
Proof. unfold new_end. destruct (String.eqb s ""); [done|]. by destruct (strptime_day s). Qed.
Lemma detach_id gid c : c_id (detach gid c) = c_id c.
Proof. unfold detach. by case_bool_decide. Qed.
Lemma assign_all_keyed gid cids (m : gmap string ClientDB) :
  map_Forall (fun k c => c_id c = k) m -> map_Forall (fun k c => c_id c = k) (assign_all gid cids m).
Proof.
  unfold assign_all. revert m. induction cids as [|i cids IH]; intros m Hm; [done|]. apply IH.
  intros k c Hk. apply lookup_alter_Some in Hk as [(<- & c' & Hc & ->)|[_ Hk]]; [exact (Hm _ _ Hc)|exact (Hm _ _ Hk)].
Qed.
Lemma settings_keyed fs m : map_Forall (fun k r => key r = k) m -> map_Forall (fun k r => key r = k) (foldl set_setting m fs).
Proof.
  revert m. induction fs as [|kv fs IH]; intros m Hm; [done|]. apply IH. by apply map_Forall_insert_2.
Qed.

Ltac keyed_step :=
  match goal with
  | Hd : sound ?d |- keyed (set_clients _ ?d) => apply keyed_clients; [apply Hd|]
  | Hd : sound ?d |- keyed (set_groups _ (set_clients _ ?d)) => apply keyed_groups; [apply keyed_clients; [apply Hd|]|]
  | Hd : sound ?d |- keyed (set_groups _ ?d) => apply keyed_groups; [apply Hd|]
  | Hd : sound ?d |- keyed (set_templates _ ?d) => apply keyed_templates; [apply Hd|]
  | Hd : sound ?d |- keyed (set_nodes _ ?d) => apply keyed_nodes; [apply Hd|]
  | Hd : sound ?d |- keyed (set_rules _ ?d) => apply keyed_rules; [apply Hd|]
  | Hd : sound ?d |- keyed (set_settings _ ?d) => apply keyed_settings; [apply Hd|]
  | |- map_Forall _ (<[_ := _]> _) => apply map_Forall_insert_2
  | |- map_Forall _ (delete _ _) => apply map_Forall_delete
  | |- map_Forall _ (assign_all _ _ _) => apply assign_all_keyed
  | |- map_Forall _ (foldl set_setting _ _) => apply settings_keyed
  | Hd : sound ?d |- map_Forall _ (_ ?d) => apply Hd
  | Hd : sound ?d, Hl : clients ?d !! ?k = Some ?a |- c_id _ = ?k =>
      rewrite ?when_some_id by (intros; first [apply new_end_id|done]); exact (proj1 (proj2 Hd) _ _ Hl)
  | Hd : sound ?d |- _ _ = _ => first [done|cbn; by apply Hd]
  end.

Definition keeps_endpoint (e : endpoint) : Prop := match e with Handle h => keeps h | Image h => keeps h | Invalid => True end.
Lemma keeps_body {A} (parse : list (string * val) -> option A) body k :
  (forall a, keeps (k a)) -> keeps_endpoint (body_as parse body k).
Proof. intros Hk. unfold body_as. destruct body as [[| | | | | |fs|]|]; try done. destruct (parse fs); [apply Hk|done]. Qed.

Lemma detach_keyed gid (m : gmap string ClientDB) : map_Forall (fun k c => c_id c = k) m -> map_Forall (fun k c => c_id c = k) (detach gid <$> m).
Proof. intros Hm k c Hk. rewrite lookup_fmap in Hk. apply fmap_Some in Hk as (c' & Hc & ->). rewrite detach_id. by apply Hm. Qed.

Lemma routes_keep m body : Forall (fun r => forall params, keeps_endpoint (r.2 params)) (routes m body).
Proof.
  unfold routes. repeat (constructor; [intros params; cbn [snd]|]).
  all: try (exact (List.Forall_nil _)); try exact I.
  all: unfold param; lazymatch goal with |- keeps_endpoint (match ?p with _ => _ end) => destruct p as [|i [|? ?]] | _ => idtac end;
    try exact I.
  all: unfold returns; first [apply keeps_body; intros|cbn [keeps_endpoint]]; repeat keeps_step.
  all: repeat keyed_step.
  all: by apply detach_keyed; keyed_step.
Qed.

(** What SQLite enforces stays true: whatever is requested, with or without the
    password, and whatever the VPN core and the clock answer: unique names
    and tokens stay unique, integers fit their columns, and every row stays
    under its own key, in whatever order the requests come. *)
Theorem tables_sound m rq b r b' : sound (db b) -> serve m rq b = Some (r, b') -> sound (db b').
Proof.
  intros Hb. unfold serve. destruct (negb (startsWith (rq_url rq) API)); [done|].
  destruct (_ || _); [|by intros [= <- <-]]. unfold dispatch.
  destruct (find_route _ _ _) as [e|] eqn:Hf; [|by intros [= <- <-]].
  destruct (find_route_in _ _ _ _ Hf) as (p & k & params & Hin & _ & ->).
  pose proof (routes_keep m (rq_body rq)) as Hk. rewrite Forall_forall in Hk. specialize (Hk _ Hin params). cbn in Hk.
  destruct (k params) as [h|h|]; [..|by intros [= <- <-]];
    specialize (Hk b Hb); destruct (h b) as [o b1]; by intros [= <- <-].
Qed.

(** ** Rows as JSON *)

Lemma assoc_in {A} k (v : A) fs : NoDup (map fst fs) -> assoc k fs = Some v <-> (k, v) ∈ fs.
Proof.
  induction fs as [|[k' w] fs IH]; cbn; [by rewrite elem_of_nil|]. intros [Hni Hnd]%NoDup_cons.
  rewrite elem_of_cons. destruct (String.eqb_spec k k') as [->|Hne].
  - split; [intros [= ->]; by left|]. intros [[= ->]|Hin]; [done|]. exfalso. apply Hni.
    by apply (list_elem_of_fmap_2 fst _ (k', v)).
  - rewrite IH by done. split; [by right|]. intros [[= -> _]|Hin]; done.
Qed.

(** The rows of a table whose keys are theirs. *)
Lemma rows_in {A} (col : A -> string) (m : gmap string A) l : map_Forall (fun k a => col a = k) m ->
  l ≡ₚ (map_to_list m).*2 -> forall a, a ∈ l <-> m !! col a = Some a.
Proof.
  intros Hm Hl a. rewrite Hl, list_elem_of_fmap. split.
  - intros ([k a'] & -> & Hin). apply elem_of_map_to_list in Hin. cbn. by rewrite (Hm _ _ Hin).
  - intros Ha. exists (col a, a). split; [done|]. by apply elem_of_map_to_list.
Qed.
Lemma rows_distinct {A} (col : A -> string) (m : gmap string A) l : map_Forall (fun k a => col a = k) m ->
  l ≡ₚ (map_to_list m).*2 -> NoDup (map col l).
Proof.
  intros Hm Hl. change (map col l) with (col <$> l). rewrite Hl, <- list_fmap_compose.
  assert ((col ∘ snd) <$> map_to_list m = (map_to_list m).*1) as ->; [|apply NoDup_fst_map_to_list].
  apply list_fmap_ext. intros i [k a] Hi. apply (Hm k a). apply elem_of_map_to_list. by eapply list_elem_of_lookup_2.
Qed.
Lemma rows_assoc {A} (col : A -> string) (g : A -> val) (m : gmap string A) l k : map_Forall (fun k a => col a = k) m ->
  l ≡ₚ (map_to_list m).*2 -> assoc k (map (fun a => (col a, g a)) l) = g <$> m !! k.
Proof.
  intros Hm Hl.
  assert (NoDup (map fst (map (fun a => (col a, g a)) l))) as Hnd.
  { rewrite map_map. cbn. change (NoDup (map col l)). by eapply rows_distinct. }
  apply option_eq. intros v. rewrite assoc_in by done. rewrite list_elem_of_fmap, fmap_Some. split.
  - intros (a & [= -> ->] & Ha). apply (rows_in col m l Hm Hl) in Ha. by exists a.
  - intros (a & Ha & ->). exists a. rewrite (Hm _ _ Ha). split; [done|]. apply (rows_in col m l Hm Hl). by rewrite (Hm _ _ Ha).
Qed.

(** ** Settings *)

Definition texts (kvs : list (string * string)) : list (string * val) := map (fun kv => (kv.1, VStr kv.2)) kvs.

Lemma saved_lookup kvs (m : gmap string SettingsDB) k : NoDup (map fst kvs) ->
  value <$> foldl set_setting m (texts kvs) !! k =
  match assoc k kvs with Some v => Some v | None => value <$> m !! k end.
Proof.
  revert m. induction kvs as [|[k' v] kvs IH]; intros m; cbn; [done|]. intros [Hni Hnd]%NoDup_cons.
  rewrite IH by done. cbn in Hni |- *. unfold set_setting. cbn. rewrite py_str_str.
  destruct (String.eqb_spec k k') as [->|Hne]; [|by rewrite lookup_insert_ne].
  assert (assoc k' kvs = None) as ->; [|by rewrite lookup_insert_eq].
  destruct (assoc k' kvs) as [w|] eqn:E; [|done]. apply assoc_in in E; [|done].
  destruct Hni. by apply (list_elem_of_fmap_2 fst _ (k', w)).
Qed.

Lemma text_fields_finite {A} (f : A -> string) (g : A -> string) l :
  finite_json (VObj (map (fun a => (f a, VStr (g a))) l)) = true.
Proof. cbn. by induction l. Qed.

(** ** The subscription *)

Lemma omap_NoDup_inj {A B} (col : A -> option B) (l : list A) a a' v :
  NoDup (omap col l) -> a ∈ l -> a' ∈ l -> col a = Some v -> col a' = Some v -> a = a'.
Proof.
  intros Hl Ha Ha' Hv Hv'. induction l as [|x l IH]; [by apply elem_of_nil in Ha|]. cbn in Hl.
  assert (forall y, y ∈ l -> col y = Some v -> col x = Some v -> False) as Hx.
  { intros y Hy Hyv Hxv. rewrite Hxv in Hl. apply NoDup_cons in Hl as [Hni _]. apply Hni, list_elem_of_omap. by exists y. }
  assert (NoDup (omap col l)) as Hnd by (destruct (col x); [by apply NoDup_cons in Hl as [_ Hl]|done]).
  apply elem_of_cons in Ha as [->|Ha], Ha' as [->|Ha']; [done|by destruct (Hx _ Ha')|by destruct (Hx _ Ha)|by apply IH].
Qed.
Lemma rows_elem {A} m (t : gmap string A) a : a ∈ row_order m t <-> exists k, t !! k = Some a.
Proof.
  rewrite (row_order_ok m t), list_elem_of_fmap. split.
  - intros ([k a'] & -> & Hin). exists k. by apply elem_of_map_to_list.
  - intros [k Hk]. exists (k, a). split; [done|]. by apply elem_of_map_to_list.
Qed.

(** The row of the token, which is unique. *)
Lemma subscriber_found m t d k c : constraints d -> clients d !! k = Some c -> c_sub_token c = Some t ->
  subscriber m t d = Some c.
Proof.
  intros (_ & _ & _ & Hd & _) Hk Ht. unfold subscriber. unfold distinct in Hd.
  assert (omap c_sub_token (row_order m (clients d)) ≡ₚ omap c_sub_token (map_to_list (clients d)).*2) as Hp
    by (by rewrite (row_order_ok m (clients d))).
  rewrite <- Hp in Hd.
  set (P := fun c => bool_decide (c_sub_token c = Some t)).
  assert (c ∈ List.filter P (row_order m (clients d))) as Hc.
  { apply list_elem_of_In, List.filter_In. split; [apply list_elem_of_In, rows_elem; by exists k|by apply bool_decide_true]. }
  destruct (List.filter P _) as [|c0 l] eqn:El; [by apply elem_of_nil in Hc|]. cbn. f_equal.
  assert (c0 ∈ List.filter P (row_order m (clients d))) as H0 by (rewrite El; by left).
  apply list_elem_of_In, List.filter_In in H0 as [H0 Hp0]. apply bool_decide_eq_true_1 in Hp0.
  eapply (omap_NoDup_inj c_sub_token); [exact Hd|by apply list_elem_of_In|apply rows_elem; by exists k|done..].
Qed.
Lemma subscriber_none m t d : (forall k c, clients d !! k = Some c -> c_sub_token c <> Some t) -> subscriber m t d = None.
Proof.
  intros Hn. unfold subscriber. destruct (List.filter _ _) as [|c0 l] eqn:El; [done|exfalso].
  assert (In c0 (List.filter (fun c => bool_decide (c_sub_token c = Some t)) (row_order m (clients d)))) as H0 by (rewrite El; by left).
  apply List.filter_In in H0 as [H0 Hp%bool_decide_eq_true_1]. apply list_elem_of_In, rows_elem in H0 as [k Hk].
  by eapply Hn.
Qed.

(** A connection key, and its fields as an application reads them. *)
Definition shade_key (fs : list (string * val)) : string := "shade://" +:+ urlsafe_b64 (utf8_bytes (json_dumps (VObj fs))).
Definition key_document (k : string) : option val := text ← urlsafe_b64decode (padded (str_drop 8 k)); json_loads text.
(** What the libraries print of these fields they read back. *)
Definition readable (fs : list (string * val)) : Prop := key_document (shade_key fs) = Some (VObj fs).
Definition address (n : NodeDB) : val := VStr (n_ip_address n +:+ ":" +:+ string_of_Z (n_port n)).

Lemma rewrite_key fs n : readable fs ->
  rewrite_key_for_node (shade_key fs) (n_ip_address n) (n_port n) = shade_key (set_key "s" (address n) fs).
Proof.
  unfold readable, key_document, rewrite_key_for_node. set (k := shade_key fs).
  assert (startsWith k "shade://" = true) as -> by (apply prefix_app_iff; by eexists).
  destruct (urlsafe_b64decode _) as [text|]; [|done]. cbn. by intros ->.
Qed.

(** The entry of a node: its name and the client's key, for that node. *)
Definition opens (fs : list (string * val)) (n : NodeDB) (e : val) : Prop :=
  field "id" e = VStr (n_id n) /\
  exists k fs', field "key" e = VStr k /\ key_document k = Some (VObj fs') /\
    assoc "s" fs' = Some (address n) /\ forall f, f <> "s" -> assoc f fs' = assoc f fs.

Lemma node_opens c n fs : c_psk c = shade_key fs -> readable fs -> readable (set_key "s" (address n) fs) ->
  opens fs n (node_server c n).
Proof.
  intros Hk Hf Hn. split; [done|]. exists (shade_key (set_key "s" (address n) fs)), (set_key "s" (address n) fs).
  split; [|split; [done|split]].
  - change (field "key" (node_server c n)) with
      (VStr (if str_truthy (c_psk c) then rewrite_key_for_node (c_psk c) (n_ip_address n) (n_port n) else "")).
    by rewrite Hk, rewrite_key.
  - by rewrite assoc_set_key, String.eqb_refl.
  - intros f Hf'. rewrite assoc_set_key. by destruct (String.eqb_spec f "s").
Qed.

(** The nodes a subscription offers beside the primary server. *)
Definition offered (n : NodeDB) (d : database) : Prop :=
  nodes d !! n_id n = Some n /\ n_is_online n = true /\ n_ip_address n <> primary_ip.
Lemma other_nodes_offered m d n : map_Forall (fun k n => n_id n = k) (nodes d) -> n ∈ other_nodes m d <-> offered n d.
Proof.
  intros Hk. unfold other_nodes. rewrite list_elem_of_In, !List.filter_In, <- list_elem_of_In.
  rewrite (rows_in n_id (nodes d) _ Hk (row_order_ok m (nodes d))), negb_true_iff, String.eqb_neq. unfold offered. tauto.
Qed.

Lemma serve_subscription m rq b t : plain t = true -> t <> "" -> rq_method rq = "GET" ->
  rq_url rq = API +:+ "/sub/" +:+ t ->
  serve m rq b = Some (let '(o, b') := get_subscription m t b in (respond o, b')).
Proof.
  intros Hp Ht Hg Hu. unfold serve, startsWith. rewrite Hu, (proj2 (prefix_app_iff _ _)) by by eexists.
  cbn [negb]. rewrite str_drop_app.
  assert ("/api" +:+ "/sub/" +:+ t = slashes ["api"; "sub"; t]) as E.
  { change (slashes ["api"; "sub"; t]) with ("/api" +:+ "/sub/" +:+ (t +:+ "")). by rewrite str_app_nil_r. }
  assert (Forall (fun s => plain s = true) ["api"; "sub"; t]) as Hs by (by repeat constructor).
  rewrite E, before_query_slashes, unquote_slashes by done.
  assert (exempt (rq_method rq) (slashes ["api"; "sub"; t]) = true) as ->.
  { rewrite <- E. unfold exempt, startsWith.
    assert (String.prefix "/api/sub/" ("/api" +:+ "/sub/" +:+ t) = true) as -> by (apply prefix_app_iff; by exists t).
    by rewrite orb_true_r. }
  cbn [orb]. unfold dispatch. rewrite slashes_split, Hg by done.
  assert (find_route "GET" ("" :: ["api"; "sub"; t]) (routes m (rq_body rq)) = Some (Handle (get_subscription m t))) as ->; [|done].
  cbn. by rewrite (proj2 (String.eqb_neq t "") Ht).
Qed.

Lemma servers_finite m d c : forallb finite_json (sub_servers m d c) = true.
Proof.
  unfold sub_servers. rewrite forallb_app. apply andb_true_iff. split; [unfold primary_server; by case_match|].
  generalize (other_nodes m d) as l. intros l. by induction l as [|n l IH].
Qed.

Lemma servers_own m d c fs : c_psk c = shade_key fs ->
  sub_servers m d c = server_json "primary" "Netherlands 🇳🇱" "NL" "🇳🇱" (c_psk c) :: map (node_server c) (other_nodes m d).
Proof.
  intros Hps. unfold sub_servers, primary_server.
  assert (startsWith (c_psk c) "shade://" = true) as -> by (rewrite Hps; apply prefix_app_iff; by eexists).
  assert (str_truthy (c_psk c) = true) as -> by (by rewrite Hps). done.
Qed.

(** C3. The subscription of the mobile applications.  The address of a token
    answers, to anybody, and changes nothing: 404 when no client has the token;
    no servers when its client is blocked or expired; otherwise the client's own
    key first, and then one entry for each node that is online and is not the
    primary server, and for no other.  The key of such an entry can be read
    back: it is the client's key with the address and port of the node in its
    field "s" and every other field as it was.  The hypotheses: the client's key
    is one the libraries printed, and what they print they read back; an answer
    can only hold finite numbers. *)
Theorem subscription_served m t rq b :
  plain t = true -> t <> "" -> rq_method rq = "GET" -> rq_url rq = API +:+ "/sub/" +:+ t ->
  constraints (db b) -> keyed (db b) ->
  exists r, serve m rq b = Some (r, b) /\
    ((forall k c, clients (db b) !! k = Some c -> c_sub_token c <> Some t) ->
     r = Response 404 (Ok (VObj [("detail", VStr "Subscription not found")]))) /\
    forall k c, clients (db b) !! k = Some c -> c_sub_token c = Some t ->
      (active m c = false -> exists v, r = Response 200 (Ok v) /\ field "servers" v = VArr []) /\
      forall fs, active m c = true ->
        num_finite (py_round (c_data_usage c) 2) = true -> num_finite (c_data_limit c) = true ->
        c_psk c = shade_key fs -> readable fs ->
        (forall n, offered n (db b) -> readable (set_key "s" (address n) fs)) ->
        exists v own others, r = Response 200 (Ok v) /\ field "username" v = VStr (c_name c) /\
          field "servers" v = VArr (own :: others) /\ field "key" own = VStr (c_psk c) /\
          (forall n, offered n (db b) -> exists e, e ∈ others /\ opens fs n e) /\
          (forall e, e ∈ others -> exists n, offered n (db b) /\ opens fs n e).
Proof.
  intros Hp Ht Hg Hu Hc Hk. exists (respond (fst (get_subscription m t b))).
  assert (serve m rq b = Some (respond (fst (get_subscription m t b)), b)) as Hs.
  { rewrite (serve_subscription m rq b t Hp Ht Hg Hu). pose proof (subscription_reads m t b).
    destruct (get_subscription m t b) as [o b1]. cbn in *. by subst b1. }
  split; [exact Hs|]. unfold get_subscription, hbind, query, first_or_404. cbn [id]. split.
  - intros Hn. by rewrite (subscriber_none m t _ Hn).
  - intros k c Hkc Htc. rewrite (subscriber_found m t _ k c Hc Hkc Htc). cbn [ret]. unfold active. split.
    + intros Ha. destruct (c_enabled c); [|by eexists]. cbn in Ha |- *. destruct (expired m c); [by eexists|done].
    + intros fs [-> Hx%negb_true_iff]%andb_true_iff Hu1 Hu2 Hps Hr Hrn. rewrite Hx. cbn [negb ret fst].
      pose proof (servers_finite m (db b) c) as Hfin. rewrite (servers_own _ _ _ _ Hps) in Hfin |- *.
      eexists _, _, _. split; [|split; [|split; [|split; [|split]]]].
      * unfold respond. cbn [finite_json forallb snd] in Hfin |- *. rewrite Hu1, Hu2, Hfin. reflexivity.
      * reflexivity.
      * reflexivity.
      * reflexivity.
      * intros n Hn. exists (node_server c n). split; [|apply node_opens; [done|done|by apply Hrn]].
        apply list_elem_of_fmap. exists n. split; [done|]. by apply other_nodes_offered; [apply Hk|].
      * intros e He. apply list_elem_of_fmap in He as (n & -> & Hn). apply other_nodes_offered in Hn; [|apply Hk].
        exists n. split; [done|]. apply node_opens; [done|done|by apply Hrn].
Qed.

(** ** Deleting a group *)

Lemma distinct_delete {A B} `{EqDecision B} (col : A -> option B) (m : gmap string A) k :
  distinct col m -> distinct col (delete k m).
Proof.
  unfold distinct. intros Hd. destruct (m !! k) as [a|] eqn:E; [|by rewrite delete_id].
  pose proof (map_to_list_delete m k a E) as Hp.
  assert (((k, a) :: map_to_list (delete k m)).*2 ≡ₚ (map_to_list m).*2) as Hp2 by (by rewrite Hp).
  assert (omap col (((k, a) :: map_to_list (delete k m)).*2) ≡ₚ omap col (map_to_list m).*2) as Hp3 by (by rewrite Hp2).
  rewrite <- Hp3 in Hd. cbn in Hd. destruct (col a); [by apply NoDup_cons in Hd as [_ Hd]|done].
Qed.
Lemma distinct_fmap {A B} `{EqDecision B} (col : A -> option B) (f : A -> A) (m : gmap string A) :
  (forall a, col (f a) = col a) -> distinct col m -> distinct col (f <$> m).
Proof.
  unfold distinct. intros Hf Hd. rewrite map_to_list_fmap, <- list_fmap_compose.
  assert (omap col (snd ∘ prod_map id f <$> map_to_list m) = omap col (map_to_list m).*2) as ->; [|done].
  clear Hd. induction (map_to_list m) as [|[k a] l IH]; [done|]. cbn. rewrite Hf. destruct (col a); [by f_equal|done].
Qed.

(** The group is gone, and its clients have none. *)
Definition without_group (gid : string) (d : database) : database :=
  set_groups (delete gid (groups d))
    (set_clients ((fun c => if bool_decide (c_group_id c = Some gid) then set_group_id None c else c) <$> clients d) d).

Lemma delete_group_done gid b g : constraints (db b) -> groups (db b) !! gid = Some g ->
  delete_group gid b = (Done (status "deleted"), Backend (without_group gid (db b)) (core b) (restarts b)).
Proof.
  intros (C1 & C2 & C3 & C4 & C5 & C6) Hg. unfold delete_group, hbind, query, first_or_404. cbn [id]. rewrite Hg.
  cbn. unfold commit. rewrite bool_decide_true; [done|].
  split; [done|]. split; [done|]. split; [|split; [|split; [|done]]].
  - apply distinct_fmap; [|done]. intros c. unfold detach. by case_bool_decide.
  - apply distinct_fmap; [|done]. intros c. unfold detach. by case_bool_decide.
  - by apply distinct_delete.
Qed.

(** No client of the list is in it. *)
Lemma detached m gid d v : gid <> "" -> v ∈ map (client_json m (without_group gid d)) (row_order m (clients (without_group gid d))) ->
  strict_eq (field "groupId" v) (VStr gid) = false.
Proof.
  intros Hne Hv. apply list_elem_of_fmap in Hv as (c & -> & Hc).
  rewrite (row_order_ok m (clients (without_group gid d))) in Hc. cbn in Hc.
  apply list_elem_of_fmap in Hc as ([k c'] & -> & Hk). apply elem_of_map_to_list in Hk.
  rewrite lookup_fmap in Hk. apply fmap_Some in Hk as (c0 & _ & ->).
  change (field "groupId" _) with (VStr (or_str (c_group_id (detach gid c0)) "")).
  apply not_true_iff_false. cbn. intros E%String.eqb_eq. revert E. unfold detach, or_str.
  case_bool_decide as Hb; cbn; [congruence|]. destruct (c_group_id c0) as [s|]; [|congruence].
  destruct (str_truthy s); congruence.
Qed.

(** ** Creating a group *)

Lemma distinct_insert {A B} `{EqDecision B} (col : A -> option B) (m : gmap string A) k a v :
  m !! k = None -> col a = Some v -> distinct col m ->
  distinct col (<[k := a]> m) <-> ~ exists k' a', m !! k' = Some a' /\ col a' = Some v.
Proof.
  unfold distinct. intros Hk Ha Hd. pose proof (map_to_list_insert m k a Hk) as Hp.
  assert (omap col ((map_to_list (<[k:=a]> m)).*2) ≡ₚ omap col (((k, a) :: map_to_list m).*2)) as -> by (by rewrite Hp).
  cbn. rewrite Ha, NoDup_cons, list_elem_of_omap. split.
  - intros [Hni _] (k' & a' & Hk' & Hv). apply Hni. exists a'. split; [|done].
    apply list_elem_of_fmap. exists (k', a'). split; [done|]. by apply elem_of_map_to_list.
  - intros Hni. split; [|done]. intros (a' & Hin & Hv). apply Hni.
    apply list_elem_of_fmap in Hin as ([k' a2] & -> & Hin). apply elem_of_map_to_list in Hin. by exists k', a2.
Qed.

Lemma distinct_update {A B} `{EqDecision B} (col : A -> option B) (m : gmap string A) k a a' :
  m !! k = Some a -> col a' = col a -> distinct col m -> distinct col (<[k := a']> m).
Proof.
  unfold distinct. intros Hk Ha Hd. rewrite <- insert_delete_eq.
  pose proof (map_to_list_insert (delete k m) k a' (lookup_delete_eq _ _)) as Hp.
  pose proof (map_to_list_delete m k a Hk) as Hq.
  assert (omap col ((map_to_list (<[k:=a']> (delete k m))).*2) ≡ₚ omap col (((k, a') :: map_to_list (delete k m)).*2)) as -> by (by rewrite Hp).
  assert (omap col ((map_to_list m).*2) ≡ₚ omap col (((k, a) :: map_to_list (delete k m)).*2)) as E by (by rewrite Hq).
  rewrite E in Hd. cbn in Hd |- *. by rewrite Ha.
Qed.

Definition name_taken (name : string) (d : database) : Prop :=
  exists k g, groups d !! k = Some g /\ g_name g = name.
Definition with_group (g : GroupDB) (d : database) : database := set_groups (<[g_id g := g]> (groups d)) d.

Lemma create_group_done m data b : constraints (db b) ->
  let g := Group (token_hex m) (gc_name data) (gc_description data) (gc_data_limit data) in
  (groups (db b) !! token_hex m = None -> ~ name_taken (gc_name data) (db b) ->
   create_group m data b = (Done (created (token_hex m)), Backend (with_group g (db b)) (core b) (restarts b))) /\
  (name_taken (gc_name data) (db b) -> create_group m data b = (Raised, b)).
Proof.
  intros (C1 & C2 & C3 & C4 & C5 & C6) g. unfold create_group, hbind, query, new_key. cbn [id].
  destruct (groups (db b) !! token_hex m) as [g0|] eqn:Eg; [by split|]. cbn.
  pose proof (distinct_insert (fun g => Some (g_name g)) _ _ g _ Eg eq_refl C5) as Hd. unfold commit.
  assert ((exists k' a', groups (db b) !! k' = Some a' /\ Some (g_name a') = Some (g_name g)) <-> name_taken (gc_name data) (db b)) as Ht.
  { split; intros (k & a & Hk & Hn); exists k, a; (split; [done|]); [by injection Hn|cbn; congruence]. }
  rewrite Ht in Hd. split; intros Hn.
  - intros Hnt. rewrite bool_decide_true; [done|]. split; [done|]. split; [done|]. split; [done|]. split; [done|].
    split; [by apply Hd|done].
  - rewrite bool_decide_false; [done|]. intros (_ & _ & _ & _ & H5 & _). by apply Hd in H5.
Qed.

(** ** Updating a client *)

Lemma same_name_constraints d k c c' : clients d !! k = Some c -> c_name c' = c_name c -> c_sub_token c' = c_sub_token c ->
  constraints d -> constraints (set_clients (<[k := c']> (clients d)) d).
Proof.
  intros Hk Hn Ht (C1 & C2 & C3 & C4 & C5). split; [done|]. split; [done|]. split; [|split; [|done]].
  - apply (distinct_update _ _ _ c); [done|by rewrite Hn|done].
  - by apply (distinct_update _ _ _ c).
Qed.

Lemma new_end_set s c : exists e, new_end s c = set_subscription_end e c.
Proof.
  unfold new_end. destruct (String.eqb s ""); [by eexists|]. destruct (strptime_day s) as [e|]; [by eexists|].
  exists (c_subscription_end c). by destruct c.
Qed.
Lemma limit_set o c : exists l, when_some o set_data_limit c = set_data_limit l c.
Proof. destruct o as [l|]; [by exists l|]. exists (c_data_limit c). by destruct c. Qed.

(** The same name, or none: the VPN core is left alone. *)
Lemma update_client_done cid body b c tg g e : constraints (db b) -> clients (db b) !! cid = Some c ->
  (cu_username body = None \/ cu_username body = Some (c_name c)) ->
  cu_telegram_id body = Some tg -> cu_group_id body = Some g -> cu_subscription_end body = Some e ->
  exists l e', update_client cid body b =
    (Done (status "updated"),
     Backend (set_clients (<[cid := set_subscription_end e' (set_group_id (Some g) (set_data_limit l (set_telegram_id (Some tg) c)))]>
                (clients (db b))) (db b)) (core b) (restarts b)).
Proof.
  intros Hcon Hc Hu Ht Hg He. unfold update_client, hbind, query, first_or_404. cbn [id]. rewrite Hc. cbn [ret].
  assert (match cu_username body with Some u => if String.eqb u (c_name c) then None else Some u | None => None end = None) as ->
    by (destruct Hu as [->| ->]; [done|by rewrite String.eqb_refl]).
  rewrite Ht, Hg, He. cbn [ret when_some].
  destruct (limit_set (cu_data_limit body) (set_telegram_id (Some tg) c)) as [l ->].
  destruct (new_end_set e (set_group_id (Some g) (set_data_limit l (set_telegram_id (Some tg) c)))) as [e' ->].
  exists l, e'. unfold commit. rewrite bool_decide_true; [done|]. by apply (same_name_constraints _ _ c).
Qed.

(** Renaming a client to a name that is taken: the new name is written to the
    VPN core's clients before the table refuses it, so the answer is an error,
    the table keeps the old name and the core has the new one. *)
Lemma distinct_names {A} (col : A -> string) (m : gmap string A) k k' a a' :
  distinct (fun a => Some (col a)) m -> m !! k = Some a -> m !! k' = Some a' -> col a = col a' -> k = k'.
Proof.
  intros Hd Hk Hk' E. destruct (decide (k = k')) as [|Hne]; [done|exfalso]. unfold distinct in Hd.
  pose proof (map_to_list_delete m k a Hk) as Hq.
  assert (omap (fun a => Some (col a)) ((map_to_list m).*2) ≡ₚ
          omap (fun a => Some (col a)) (((k, a) :: map_to_list (delete k m)).*2)) as Ep by (by rewrite Hq).
  rewrite Ep in Hd. cbn in Hd. apply NoDup_cons in Hd as [Hni _]. apply Hni, list_elem_of_omap.
  exists a'. split; [|by rewrite E]. apply list_elem_of_fmap. exists (k', a'). split; [done|].
  apply elem_of_map_to_list. by rewrite lookup_delete_ne.
Qed.

Theorem rename_diverges cid other body b c c2 u core' : clients (db b) !! cid = Some c ->
  clients (db b) !! other = Some c2 -> other <> cid -> c_name c2 = u -> u <> c_name c -> cu_username body = Some u ->
  set_entry cid "name" (VStr u) (core b) b = (Done (core', true), b) ->
  update_client cid body b = (Raised, Backend (db b) core' (restarts b)).
Proof.
  intros Hc H2 Hne Hn Hu Hb He. unfold update_client, hbind, query, first_or_404, read_clients_db. cbn [id]. rewrite Hc. cbn [ret].
  rewrite Hb, (proj2 (String.eqb_neq u (c_name c)) Hu), He. cbn [fst snd write_clients_db ret].
  unfold commit. rewrite bool_decide_false; [done|]. intros (_ & _ & Hd & _). apply Hne. symmetry.
  eapply (distinct_names c_name); [exact Hd|apply lookup_insert_eq|by refine (eq_trans (lookup_insert_ne _ _ _ _ _) H2)|].
  cbn. rewrite Hn. clear.
  assert (forall A (o : option A) f x, (forall a x, c_name (f a x) = c_name x) -> c_name (when_some o f x) = c_name x) as Hw
    by (intros A [a|] f x Hf; [apply Hf|done]).
  rewrite !Hw; try done. intros e x. unfold new_end. destruct (String.eqb e ""); [done|]. by destruct (strptime_day e).
Qed.
End Tables.

(** ** Requests *)

#[local] Instance production : BuildEnv := false.
#[local] Existing Instance sample_platform.
#[local] Existing Instance sample_laws.

(** A subscriber, and the same one at another address of the VPN. *)
Definition subscribed (ip : string) : ClientDB :=
  Client "c1" "alice" None "shade://e30" ip "ShadeVPN" (num_of_Z 0) (num_of_Z 100) None None true (Some "g1") (Some "token").
Definition abroad : NodeDB := Node "n1" "Berlin" "Germany" "10.0.0.1" 443 true.
Definition with_subscriber (ip : string) : backend :=
  Backend (Database {["c1" := subscribed ip]} {["g1" := Group "g1" "VIP" "" ""]} ∅ {["n1" := abroad]} ∅ ∅ [])
    (VObj [("clients", VArr [VObj [("id", VStr "c1")]])]) 0.
Definition asks_subscription : request := wrapped "guess" (API +:+ "/sub/token") GET.

Lemma password_required_witness :
  exists r, serve sample_moment asks_subscription (with_subscriber "10.0.0.2") = Some (r, with_subscriber "10.0.0.2") /\
    serve sample_moment asks_subscription (with_subscriber "10.0.0.3") = Some (r, with_subscriber "10.0.0.3").
Proof.
  assert (exists r, serve sample_moment asks_subscription (with_subscriber "10.0.0.2") = Some (r, with_subscriber "10.0.0.2")) as [r E]
    by (eexists; vm_compute; reflexivity).
  exists r. split; [exact E|].
  destruct (password_required sample_moment asks_subscription _ _ _ eq_refl E) as [_ [[_ Hs]|(t & _ & Et & _ & Hs)]];
    [exact (Hs (with_subscriber "10.0.0.3"))|].
  assert (t = "token") as -> by (vm_compute in Et; congruence).
  apply (Hs (with_subscriber "10.0.0.3")); [vm_compute; reflexivity|intros c _ _; reflexivity].
Defined.

Lemma subscription_served_witness : exists r v own others,
  serve sample_moment asks_subscription (with_subscriber "10.0.0.2") = Some (r, with_subscriber "10.0.0.2") /\
  r = Response 200 (Ok v) /\ field "servers" v = VArr (own :: others) /\ exists e, e ∈ others /\ opens [] abroad e.
Proof.
  assert (constraints (db (with_subscriber "10.0.0.2"))) as Hc by (apply (bool_decide_unpack _); by vm_compute).
  assert (keyed (db (with_subscriber "10.0.0.2"))) as Hk
    by (split_and!; try apply map_Forall_empty; by apply map_Forall_singleton).
  assert (forall n, offered n (db (with_subscriber "10.0.0.2")) -> n = abroad) as Hn
    by (intros n [Hn _]; change (({["n1" := abroad]} : gmap string NodeDB) !! n_id n = Some n) in Hn;
        by apply lookup_singleton_Some in Hn as [_ <-]).
  destruct (subscription_served sample_moment "token" asks_subscription (with_subscriber "10.0.0.2")
    eq_refl ltac:(discriminate) eq_refl eq_refl Hc Hk) as (r & E & _ & Hr).
  destruct (Hr "c1" (subscribed "10.0.0.2") ltac:(by vm_compute) eq_refl) as [_ Ha].
  destruct (Ha [] ltac:(by vm_compute) ltac:(by vm_compute) ltac:(by vm_compute) ltac:(by vm_compute) ltac:(by vm_compute)
    ltac:(intros n Hof; rewrite (Hn n Hof); by vm_compute)) as (v & own & others & Ev & _ & Es & _ & Hall & _).
  exists r, v, own, others. split; [exact E|]. split; [exact Ev|]. split; [exact Es|]. apply Hall.
  by split; [vm_compute|].
Defined.

Definition vip_body : val := VObj [("name", VStr "VIP")].
Lemma tables_sound_witness :
  exists b, serve sample_moment (wrapped ADMIN_PASSWORD (API +:+ "/groups") (JSON "POST" vip_body)) empty_backend
    = Some (Response 200 (Ok (created "c0ffee00")), b) /\ sound (db b).
Proof.
  assert (exists b, serve sample_moment (wrapped ADMIN_PASSWORD (API +:+ "/groups") (JSON "POST" vip_body)) empty_backend
    = Some (Response 200 (Ok (created "c0ffee00")), b)) as [b E] by (eexists; vm_compute; reflexivity).
  exists b. split; [exact E|]. refine (tables_sound _ _ empty_backend _ b _ E).
  split; [apply (bool_decide_unpack _); by vm_compute|]. split_and!; apply map_Forall_empty.
Defined.
