(* ===== verification/BackendRequests.v ===== *)
(** * What the requests leave as it was

    An invariant of the tables proved handler by handler: what a client was
    issued with never changes, rows only disappear by DELETE, groups stay
    resolved, and a request that fails has changed no row. *)
From Stdlib Require Import Ascii.
From S2P Require Import Prelude JsStr JsNum JsVal Effects Logic Api Promises BackendData Backend BackendSpec BackendTables.
Local Open Scope string_scope.

Section Requests.
Context `{PL : PlatformLaws} `{BE : BuildEnv}.

(** What a client was issued with, and the traffic it is charged with. *)
Definition credentials (c : ClientDB) : string * string * string * string * num * option datetime * option string :=
  (c_id c, c_psk c, c_vpn_ip c, c_protocol c, c_data_usage c, c_created_at c, c_sub_token c).
Definition issued (d d' : database) : Prop :=
  snapshots d' = snapshots d /\
  forall k c c', clients d !! k = Some c -> clients d' !! k = Some c' -> credentials c' = credentials c.
Definition grows {A} (t t' : gmap string A) : Prop := forall k, is_Some (t !! k) -> is_Some (t' !! k).
Definition grown (d d' : database) : Prop :=
  grows (clients d) (clients d') /\ grows (groups d) (groups d') /\ grows (templates d) (templates d') /\
  grows (nodes d) (nodes d') /\ grows (rules d) (rules d') /\ grows (settings d) (settings d').
(** The group of a client is one of the table. *)
Definition resolves (gs : gmap string GroupDB) (c : ClientDB) : Prop :=
  forall g, c_group_id c = Some g -> g <> "" -> is_Some (gs !! g).
Definition linked (d : database) : Prop := map_Forall (fun _ => resolves (groups d)) (clients d).
(** A body that names a group names one of the table. *)
Definition names_known (d : database) (body : option val) : Prop :=
  forall fs v g, body = Some (VObj fs) -> assoc "group_id" fs = Some v -> as_str v = Some g -> g <> "" ->
    is_Some (groups d !! g).
(** What the VPN core keeps in clients.json. *)
Definition core_ok (core : val) : Prop :=
  exists fs cs, core = VObj fs /\ default (VArr []) (assoc "clients" fs) = VArr cs /\
    Forall (fun c => exists cfs, c = VObj cfs) cs.

Section Kept.
Context (deletes : bool) (known : Prop).

Definition kept (d d' : database) : Prop :=
  issued d d' /\ (deletes = false -> grown d d') /\ (known -> linked d -> linked d').

Lemma grows_refl {A} (t : gmap string A) : grows t t.
Proof. by intros k. Qed.
Lemma grows_insert {A} (t : gmap string A) k a : grows t (<[k := a]> t).
Proof. intros k' Hk. destruct (decide (k = k')) as [->|Hne]; [by rewrite lookup_insert_eq|by rewrite lookup_insert_ne]. Qed.
Lemma issued_same d d' : clients d' = clients d -> snapshots d' = snapshots d -> issued d d'.
Proof. intros Hc Hs. split; [done|]. intros k c c'. rewrite Hc. intros -> [= ->]. done. Qed.
Lemma kept_refl d : kept d d.
Proof. split; [by apply issued_same|]. split; [by intros _; repeat split; apply grows_refl|done]. Qed.

(** The tables of the clients and the groups left alone. *)
Lemma kept_templates v d : (deletes = false -> grows (templates d) v) -> kept d (set_templates v d).
Proof. intros Hv. split; [by apply issued_same|]. split; [|done]. intros E. by repeat split; try apply grows_refl; apply Hv. Qed.
Lemma kept_nodes v d : (deletes = false -> grows (nodes d) v) -> kept d (set_nodes v d).
Proof. intros Hv. split; [by apply issued_same|]. split; [|done]. intros E. by repeat split; try apply grows_refl; apply Hv. Qed.
Lemma kept_rules v d : (deletes = false -> grows (rules d) v) -> kept d (set_rules v d).
Proof. intros Hv. split; [by apply issued_same|]. split; [|done]. intros E. by repeat split; try apply grows_refl; apply Hv. Qed.
Lemma kept_settings v d : grows (settings d) v -> kept d (set_settings v d).
Proof. intros Hv. split; [by apply issued_same|]. split; [|done]. by repeat split; try apply grows_refl. Qed.

Lemma kept_groups v d : grows (groups d) v -> kept d (set_groups v d).
Proof.
  intros Hv. split; [by apply issued_same|]. split; [by repeat split; try apply grows_refl|].
  intros _ Hl k c Hc g Hg Hne. by apply Hv, (Hl k c Hc g).
Qed.
Lemma kept_clients v d :
  (forall k c c', clients d !! k = Some c -> v !! k = Some c' -> credentials c' = credentials c) ->
  (deletes = false -> grows (clients d) v) ->
  (known -> linked d -> map_Forall (fun _ => resolves (groups d)) v) -> kept d (set_clients v d).
Proof.
  intros H1 H2 H3. split; [by split|]. split; [|done]. intros E. by repeat split; try apply grows_refl; apply H2.
Qed.

Lemma kept_row k c c' d : clients d !! k = Some c -> credentials c' = credentials c ->
  (known -> resolves (groups d) c -> resolves (groups d) c') -> kept d (set_clients (<[k := c']> (clients d)) d).
Proof.
  intros Hk Hc Hg. apply kept_clients; [|intros _; apply grows_insert|].
  - intros k' c1 c2 H1 H2. destruct (decide (k = k')) as [<-|Hne].
    + rewrite lookup_insert_eq in H2. injection H2 as <-. rewrite Hk in H1. by injection H1 as <-.
    + rewrite lookup_insert_ne in H2 by done. rewrite H1 in H2. by injection H2 as <-.
  - intros K Hl. apply map_Forall_insert_2; [|done]. by apply Hg, (Hl k).
Qed.
Lemma kept_new_row k c d : clients d !! k = None -> (known -> resolves (groups d) c) ->
  kept d (set_clients (<[k := c]> (clients d)) d).
Proof.
  intros Hk Hg. apply kept_clients; [|intros _; apply grows_insert|].
  - intros k' c1 c2 H1 H2. rewrite lookup_insert_ne in H2 by (by intros <-; rewrite Hk in H1). rewrite H1 in H2. by injection H2 as <-.
  - intros K Hl. by apply map_Forall_insert_2; [apply Hg|].
Qed.
Lemma kept_without_row k d : deletes = true -> kept d (set_clients (delete k (clients d)) d).
Proof.
  intros E. apply kept_clients; [|by rewrite E|intros _ Hl; by apply map_Forall_delete].
  intros k' c1 c2 H1 H2. apply lookup_delete_Some in H2 as [_ H2]. rewrite H1 in H2. by injection H2 as <-.
Qed.

Lemma assign_all_row gid cids (t : gmap string ClientDB) k :
  exists f, assign_all gid cids t !! k = f <$> t !! k /\
    forall c, f c = c \/ f c = set_group_id (Some gid) c.
Proof.
  unfold assign_all. revert t. induction cids as [|i cids IH]; intros t.
  { exists id. split; [by cbn; destruct (t !! k)|]. by left. }
  cbn. destruct (IH (alter (set_group_id (Some gid)) i t)) as (f & -> & Hf). destruct (decide (i = k)) as [->|Hne].
  - exists (f ∘ set_group_id (Some gid)). split; [by rewrite lookup_alter_eq; destruct (t !! k)|].
    intros c. right. by destruct (Hf (set_group_id (Some gid) c)) as [E|E]; cbn in E |- *; rewrite E.
  - exists f. by rewrite lookup_alter_ne.
Qed.
Lemma kept_assigned gid g cids d : groups d !! gid = Some g ->
  kept d (set_clients (assign_all gid cids (clients d)) d).
Proof.
  intros Hg. apply kept_clients.
  - intros k c c' Hc Hc'. destruct (assign_all_row gid cids (clients d) k) as (f & E & Hf).
    rewrite E, Hc in Hc'. injection Hc' as <-. by destruct (Hf c) as [->| ->].
  - intros _ k [c Hc]. destruct (assign_all_row gid cids (clients d) k) as (f & E & _). rewrite E, Hc. by eexists.
  - intros _ Hl k c' Hc'. destruct (assign_all_row gid cids (clients d) k) as (f & E & Hf).
    rewrite E in Hc'. apply fmap_Some in Hc' as (c & Hc & ->). destruct (Hf c) as [->| ->]; [by apply (Hl k)|].
    intros g' [= <-] _. by eexists.
Qed.
Lemma kept_without_group gid d : deletes = true -> kept d (without_group gid d).
Proof.
  intros Ed. unfold without_group. split; [split; [done|]|split; [by rewrite Ed|]].
  - intros k c c' Hc Hc'. cbn in Hc'. rewrite lookup_fmap, Hc in Hc'. injection Hc' as <-. by case_bool_decide.
  - intros _ Hl k c' Hc'. cbn in Hc' |- *. rewrite lookup_fmap in Hc'. apply fmap_Some in Hc' as (c & Hc & ->).
    intros g Hg Hne. case_bool_decide as E; [done|]. rewrite lookup_delete_ne by congruence. by apply (Hl k c Hc).
Qed.

(** ** One transaction

    A handler that commits once: what it commits keeps what [kept] says, and
    when it fails, with clients.json in a state [C], nothing was committed. *)
Context (C : val -> Prop).

Definition transacts (d : database) (h : handler val) : Prop := forall b, db b = d ->
  kept d (db (snd (h b))) /\
  (C (core b) -> match fst (h b) with Done v => finite_json v = true | _ => db (snd (h b)) = d end).
(** After the commit. *)
Definition completes (d : database) (h : handler val) : Prop := forall b, db b = d ->
  db (snd (h b)) = d /\ (C (core b) -> exists v, fst (h b) = Done v /\ finite_json v = true).
(** The tables left alone, whatever the outcome. *)
Definition still {A} (h : handler A) : Prop := forall b, db (snd (h b)) = db b.
Definition steady {A} (h : handler A) : Prop := still h /\ forall b, C (core b) -> C (core (snd (h b))).

Lemma transacts_query k d : transacts d (k d) -> transacts d (hbind (query id) k).
Proof. intros Hk b Hb. specialize (Hk b Hb). unfold hbind, query. cbn [id]. by rewrite Hb. Qed.
Lemma transacts_fails o d : (forall v, o <> Done v) -> transacts d (raise o).
Proof.
  intros Ho b Hb. cbn. rewrite Hb. split; [apply kept_refl|]. intros _. by destruct o as [v| |]; [destruct (Ho v)|..].
Qed.
Lemma transacts_first e {A} (o : option A) k d : (forall a, o = Some a -> transacts d (k a)) ->
  transacts d (hbind (first_or_404 e o) k).
Proof.
  intros Hk. destruct o as [a|]; [exact (Hk a eq_refl)|]. intros b Hb. cbn. rewrite Hb. split; [apply kept_refl|done].
Qed.
Lemma transacts_new_key {A} i (t : gmap string A) k d : (t !! i = None -> transacts d (k tt)) ->
  transacts d (hbind (new_key i t) k).
Proof.
  intros Hk. unfold new_key. destruct (t !! i); [|exact (Hk eq_refl)].
  intros b Hb. cbn. rewrite Hb. split; [apply kept_refl|done].
Qed.
Lemma transacts_commit d' k d : kept d d' -> completes d' (k tt) -> transacts d (hbind (commit d') k).
Proof.
  intros Hd Hk b Hb. unfold hbind, commit. case_bool_decide; [|cbn; rewrite Hb; split; [apply kept_refl|done]].
  destruct (Hk (Backend d' (core b) (restarts b)) eq_refl) as [E Hf]. cbn in Hf.
  destruct (k tt _) as [o b']. cbn in E, Hf |- *. rewrite E. split; [done|]. intros Hc.
  by destruct (Hf Hc) as (v & -> & Hv).
Qed.
Lemma transacts_steady {A} (h : handler A) k d : steady h -> (forall a, transacts d (k a)) -> transacts d (hbind h k).
Proof.
  intros [Hs Hc] Hk b Hb. unfold hbind. specialize (Hs b). specialize (Hc b). destruct (h b) as [[a|n e|] b']; cbn in Hs, Hc |- *.
  - rewrite Hb in Hs. destruct (Hk a b' Hs) as [H1 H2]. split; [done|]. intros Hco. by apply H2, Hc.
  - rewrite Hs, Hb. split; [apply kept_refl|done].
  - rewrite Hs, Hb. split; [apply kept_refl|done].
Qed.

Lemma completes_ret v d : finite_json v = true -> completes d (ret v).
Proof. intros Hv b Hb. split; [done|]. intros _. by exists v. Qed.
Lemma completes_restart k d : completes d (k tt) -> completes d (hbind restart_core k).
Proof. intros Hk b Hb. exact (Hk (Backend (db b) (core b) (S (restarts b))) Hb). Qed.

Lemma steady_ret {A} (a : A) : steady (ret a).
Proof. by split; intros b. Qed.
Lemma steady_raise {A} (o : outcome A) : steady (raise o).
Proof. by split; intros b. Qed.
Lemma steady_if_none {A} (o : option A) : steady (raise_if_none o).
Proof. destruct o; [apply steady_ret|apply steady_raise]. Qed.
Lemma steady_bind {A B} (h : handler A) (k : A -> handler B) : steady h -> (forall a, steady (k a)) -> steady (hbind h k).
Proof.
  intros [H1 H2] Hk. split; intros b; unfold hbind; specialize (H1 b); specialize (H2 b);
    destruct (h b) as [[a|n e|] b']; cbn in H1, H2 |- *; try done; destruct (Hk a) as [H3 H4].
  - by rewrite H3.
  - intros Hc. by apply H4, H2.
Qed.
Lemma steady_read : steady read_clients_db.
Proof. by split; intros b. Qed.
Lemma steady_set_entry cid f v c : steady (set_entry cid f v c).
Proof.
  unfold set_entry, core_clients, each_client. apply steady_bind; [apply steady_if_none|intros cs].
  apply steady_bind; [apply steady_if_none|intros ids]. apply steady_ret.
Qed.
End Kept.

(** ** clients.json *)

Lemma core_clients_ok core b : core_ok core -> exists cs ids,
  core_clients core b = (Done cs, b) /\ each_client entry_id cs b = (Done ids, b).
Proof.
  intros (fs & cs & -> & Hcs & Hall). unfold core_clients, py_get.
  assert ((match assoc "clients" fs with Some w => w | None => VArr [] end) = VArr cs) as -> by done.
  exists cs. cbn. assert (exists ids, mapM entry_id cs = Some ids) as [ids E].
  { clear Hcs. induction Hall as [|c cs [cfs ->] _ [ids IH]]; [by exists []|].
    exists (match assoc "id" cfs with Some w => w | None => VNull end :: ids). cbn. by rewrite IH. }
  exists ids. split; [done|]. unfold each_client. by rewrite E.
Qed.
Lemma set_entry_ok cid f v core b : core_ok core -> exists r, set_entry cid f v core b = (Done r, b).
Proof.
  intros Hc. destruct (core_clients_ok core b Hc) as (cs & ids & E1 & E2). unfold set_entry, hbind. rewrite E1, E2. by eexists.
Qed.

(** ** The handlers *)

Lemma saved_grows fs t : grows t (foldl set_setting t fs).
Proof.
  revert t. induction fs as [|kv fs IH]; intros t k Hk; [done|]. apply IH. by apply grows_insert.
Qed.

(** A handler, for every state of the tables. *)
Definition dutiful (deletes : bool) (known : database -> Prop) (h : handler val) : Prop :=
  forall d, transacts deletes (known d) core_ok d h.

Lemma dutiful_any deletes known h d : transacts deletes (known d) (fun _ => True) d h ->
  transacts deletes (known d) core_ok d h.
Proof. intros Ht b Hb. destruct (Ht b Hb) as [H1 H2]. split; [done|]. intros _. by apply H2. Qed.

Ltac transacts_step :=
  cbv beta zeta;
  lazymatch goal with
  | |- transacts _ _ _ _ (hbind (query id) _) => apply transacts_query
  | |- transacts _ _ _ _ (hbind (first_or_404 _ _) _) => apply transacts_first; intros ? ?
  | |- transacts _ _ _ _ (hbind (new_key _ _) _) => apply transacts_new_key; intros ?
  | |- transacts _ _ _ _ (hbind (commit _) _) => apply transacts_commit
  | |- transacts _ _ _ _ (raise _) => by apply transacts_fails
  | |- completes _ _ (ret _) => by apply completes_ret
  | |- completes _ _ (hbind restart_core _) => apply completes_restart
  end.
Ltac table_step :=
  first [apply kept_templates|apply kept_nodes|apply kept_rules];
  intros E; first [discriminate E|apply grows_insert].

Section Handlers.
Context (known : database -> Prop).

Lemma create_group_dutiful m body : dutiful false known (create_group m body).
Proof. intros d. unfold create_group. repeat transacts_step. apply kept_groups, grows_insert. Qed.
Lemma update_group_dutiful gid body : dutiful false known (update_group gid body).
Proof. intros d. unfold update_group. repeat transacts_step. apply kept_groups, grows_insert. Qed.
Lemma delete_group_dutiful gid : dutiful true known (delete_group gid).
Proof. intros d. unfold delete_group. repeat transacts_step. by apply (kept_without_group _ _ gid). Qed.
Lemma assign_dutiful gid body : dutiful false known (assign_clients_to_group gid body).
Proof. intros d. unfold assign_clients_to_group. repeat transacts_step. by eapply kept_assigned. Qed.

Lemma create_template_dutiful m body : dutiful false known (create_template m body).
Proof. intros d. unfold create_template. repeat transacts_step. table_step. Qed.
Lemma delete_template_dutiful i : dutiful true known (delete_template i).
Proof. intros d. unfold delete_template. repeat transacts_step. table_step. Qed.
Lemma create_node_dutiful m body : dutiful false known (create_node m body).
Proof. intros d. unfold create_node. repeat transacts_step. table_step. Qed.
Lemma delete_node_dutiful i : dutiful true known (delete_node i).
Proof. intros d. unfold delete_node. repeat transacts_step. table_step. Qed.
Lemma create_rule_dutiful m body : dutiful false known (create_rule m body).
Proof. intros d. unfold create_rule. repeat transacts_step. table_step. Qed.
Lemma toggle_rule_dutiful i e : dutiful false known (toggle_rule i e).
Proof. intros d. unfold toggle_rule. repeat transacts_step. table_step. Qed.
Lemma delete_rule_dutiful i : dutiful true known (delete_rule i).
Proof. intros d. unfold delete_rule. repeat transacts_step. table_step. Qed.
Lemma update_settings_dutiful body : dutiful false known (update_settings body).
Proof. intros d. unfold update_settings. repeat transacts_step. apply kept_settings, saved_grows. Qed.
Lemma login_dutiful pw : dutiful false known (login pw).
Proof.
  intros d. unfold login. destruct (String.eqb _ _); [|by apply transacts_fails].
  intros b Hb. cbn. rewrite Hb. split; [apply kept_refl|done].
Qed.

(** Blocking and deleting commit before clients.json is read. *)
Lemma delete_client_dutiful cid : dutiful true known (delete_client cid).
Proof.
  intros d. unfold delete_client. repeat transacts_step; [by apply kept_without_row|].
  intros b Hb. unfold hbind, read_clients_db. split.
  - pose proof (proj1 (steady_if_none (fun _ => True) (py_get (core b) "clients" (VArr []) ≫= as_list)) b) as H1.
    unfold core_clients. destruct (raise_if_none _ b) as [[cs|n e|] b']; cbn in H1 |- *; try by rewrite H1.
    pose proof (proj1 (steady_if_none (fun _ => True) (mapM entry_id cs)) b') as H2.
    unfold each_client. destruct (raise_if_none _ b') as [[ids|n e|] b2]; cbn in H2 |- *; by rewrite H2, H1.
  - intros Hc. destruct (core_clients_ok _ b Hc) as (cs & ids & E1 & E2). rewrite E1, E2. by eexists.
Qed.
Lemma toggle_client_dutiful cid e : dutiful false known (toggle_client cid e).
Proof.
  intros d. unfold toggle_client. repeat transacts_step.
  - eapply kept_row; [done|done|]. by intros _ Hr.
  - intros b Hb. unfold hbind, read_clients_db. pose proof (proj1 (steady_set_entry (fun _ => True) cid "enabled" (VBool e) (core b)) b) as Hs.
    split.
    + destruct (set_entry _ _ _ _ b) as [[r|n x|] b']; cbn in Hs |- *; by rewrite Hs.
    + intros Hc. destruct (set_entry_ok cid "enabled" (VBool e) _ b Hc) as [r ->]. by eexists.
Qed.

(** Creating and updating a client may name a group. *)
Definition known_group (o : option string) : Prop :=
  forall d g, known d -> o = Some g -> g <> "" -> is_Some (groups d !! g).

Ltac calm_step :=
  cbv beta zeta;
  lazymatch goal with
  | |- transacts _ _ _ _ (if ?x then _ else _) => destruct x
  | |- transacts _ _ _ _ (match ?x with _ => _ end) => destruct x
  | |- transacts _ _ _ _ (hbind read_clients_db _) => apply transacts_steady; [apply steady_read|intros ?]
  | |- transacts _ _ _ _ (hbind (write_clients_db _) _) => apply transacts_steady; [by split; intros ?|intros ?]
  | |- transacts _ _ _ _ (hbind (core_clients _) _) => apply transacts_steady; [apply steady_if_none|intros ?]
  | |- transacts _ _ _ _ (hbind (raise_if_none _) _) => apply transacts_steady; [apply steady_if_none|intros ?]
  | _ => transacts_step
  end.

Lemma create_client_dutiful m body : known_group (cc_group_id body) -> dutiful false known (create_client m body).
Proof.
  intros Hg d. apply dutiful_any. unfold create_client.
  destruct (negb (str_truthy (cc_username body))); [by apply transacts_fails|].
  apply transacts_steady; [apply steady_read|intros core0]. destruct (add_client m _ core0) as [out core1].
  repeat calm_step.
  apply transacts_steady.
  { destruct (cc_subscription_days body) as [n|]; [|apply steady_ret]. destruct (n =? 0)%Z; [apply steady_ret|apply steady_if_none]. }
  intros e. repeat calm_step. apply kept_new_row; [done|]. intros K g E. by apply (Hg d g K).
Qed.

Lemma when_some_fixed {A B} (col : ClientDB -> B) (o : option A) f c :
  (forall a c, col (f a c) = col c) -> col (when_some o f c) = col c.
Proof. intros Hf. by destruct o; cbn. Qed.
Lemma new_end_fixed {B} (col : ClientDB -> B) s c : (forall e c, col (set_subscription_end e c) = col c) -> col (new_end s c) = col c.
Proof. intros Hc. destruct (new_end_set s c) as [e ->]. apply Hc. Qed.

Lemma update_client_dutiful cid body : known_group (cu_group_id body) -> dutiful false known (update_client cid body).
Proof.
  intros Hg d. apply dutiful_any. unfold update_client. apply transacts_query, transacts_first. intros c Hc. cbv zeta.
  set (renamed := match cu_username body with Some _ => _ | None => _ end).
  apply transacts_steady.
  { destruct renamed as [u|]; [|apply steady_ret]. apply steady_bind; [apply steady_read|intros core0].
    apply steady_bind; [apply steady_set_entry|intros [c' found]]. apply steady_bind; [|intros ?; apply steady_ret].
    destruct found; [by split; intros ?|apply steady_ret]. }
  intros needs. apply transacts_commit; [|by destruct needs; [apply completes_restart|]; apply completes_ret].
  eapply kept_row; [exact Hc| |].
  - by repeat first [rewrite (when_some_fixed credentials) by (intros; first [by apply (new_end_fixed credentials)|done])].
  - intros K Hr g. rewrite (when_some_fixed c_group_id) by (intros; by apply (new_end_fixed c_group_id)).
    destruct (cu_group_id body) as [g'|] eqn:E; cbn [when_some].
    + intros [= <-]. by apply (Hg d g').
    + rewrite !(when_some_fixed c_group_id) by done. apply Hr.
Qed.
End Handlers.

(** ** The routes *)

Definition dutiful_endpoint (deletes : bool) (known : database -> Prop) (e : endpoint) : Prop :=
  match e with Handle h => dutiful deletes known h | Image _ => False | Invalid => True end.
Definition reads_endpoint (e : endpoint) : Prop :=
  match e with Handle h => forall b, snd (h b) = b | Image h => forall b, snd (h b) = b | Invalid => True end.

Lemma dutiful_body {A} deletes known (parse : list (string * val) -> option A) body k :
  (forall fs a, body = Some (VObj fs) -> parse fs = Some a -> dutiful deletes known (k a)) ->
  dutiful_endpoint deletes known (body_as parse body k).
Proof.
  intros Hk. unfold body_as. destruct body as [[| | | | | |fs|]|]; try done. destruct (parse fs) as [a|] eqn:E; [|done].
  by apply (Hk fs).
Qed.

Lemma optional_group body fs o : body = Some (VObj fs) -> optional as_str "group_id" fs = Some o ->
  known_group (fun d => names_known d body) o.
Proof.
  intros Hb Ho d g Hd -> Hne. unfold optional in Ho. destruct (assoc "group_id" fs) as [v|] eqn:E; [|done].
  apply (Hd fs v g Hb E); [|done]. by destruct v; try discriminate Ho; apply fmap_Some in Ho as (g' & Eg & [= ->]).
Qed.
Lemma created_group fs a : parse_ClientCreate fs = Some a -> optional as_str "group_id" fs = Some (cc_group_id a).
Proof.
  unfold parse_ClientCreate. destruct (required _ _ _); [|done]. cbn [mbind option_bind]. destruct (optional as_str "telegram_id" fs); [|done].
  cbn [mbind option_bind]. destruct (defaulting _ _ _ _); [|done]. cbn [mbind option_bind].
  destruct (optional as_str "group_id" fs); [|done]. cbn [mbind option_bind]. by destruct (optional as_int _ _); [intros [= <-]|].
Qed.
Lemma updated_group fs a : parse_ClientUpdate fs = Some a -> optional as_str "group_id" fs = Some (cu_group_id a).
Proof.
  unfold parse_ClientUpdate. destruct (optional as_str "username" fs); [|done]. cbn [mbind option_bind].
  destruct (optional as_str "telegram_id" fs); [|done]. cbn [mbind option_bind]. destruct (optional as_float _ _); [|done].
  cbn [mbind option_bind]. destruct (optional as_str "group_id" fs); [|done]. cbn [mbind option_bind].
  by destruct (optional as_str "subscription_end" _); [intros [= <-]|].
Qed.

Lemma qr_reads m cid b : snd (get_client_qr m cid b) = b.
Proof. unfold get_client_qr, hbind, query. cbn [id]. by repeat case_match. Qed.

Create HintDb duties.
#[local] Hint Resolve create_group_dutiful update_group_dutiful delete_group_dutiful assign_dutiful
  create_template_dutiful delete_template_dutiful create_node_dutiful delete_node_dutiful create_rule_dutiful
  toggle_rule_dutiful delete_rule_dutiful update_settings_dutiful login_dutiful delete_client_dutiful
  toggle_client_dutiful subscription_reads qr_reads : duties.

Lemma routes_dutiful m body : Forall (fun r =>
    (r.1.1 = "GET" /\ forall params, reads_endpoint (r.2 params)) \/
    (r.1.1 <> "GET" /\ forall params,
       dutiful_endpoint (bool_decide (r.1.1 = "DELETE")) (fun d => names_known d body) (r.2 params))) (routes m body).
Proof.
  unfold routes.
  repeat (constructor; [first [left; split; [reflexivity|]|right; split; [discriminate|]]; intros params; cbn [fst snd];
    unfold param; try (destruct params as [|? [|? ?]]; try exact I; [])|]); [..|exact (List.Forall_nil _)].
  all: try (cbn [reads_endpoint returns]; intros; solve [auto with duties|reflexivity]).
  all: try (cbn [dutiful_endpoint]; solve [auto with duties]).
  all: apply dutiful_body; intros fs a Hb Ha; try solve [auto with duties].
  - apply create_client_dutiful. eapply optional_group; [exact Hb|by apply created_group].
  - apply update_client_dutiful. eapply optional_group; [exact Hb|by apply updated_group].
Qed.

(** C11. What every request keeps, handler by handler.  Reading changes nothing
    at all; nothing but DELETE makes a row of any table disappear; the
    identifier, the keys, the address, the protocol, the token, the date and the
    traffic of a client never change, and no snapshot of the traffic is touched;
    the groups the clients refer to exist (deleting a group detaches its
    members, assigning asks for the group first), unless the body of the request
    names a group that does not; and a request that is not answered 200 has
    changed no row of the tables, provided clients.json is well formed (blocking
    and deleting a client commit before they read it). *)
Theorem requests_keep m rq b r b' : serve m rq b = Some (r, b') ->
  (rq_method rq = "GET" -> b' = b) /\
  (rq_method rq <> "DELETE" -> grown (db b) (db b')) /\
  issued (db b) (db b') /\
  (names_known (db b) (rq_body rq) -> linked (db b) -> linked (db b')) /\
  (core_ok (core b) -> r_status r <> 200%Z -> db b' = db b).
Proof.
  unfold serve. destruct (negb (startsWith (rq_url rq) API)); [done|]. set (path := unquote _).
  assert (forall r0, Some (r0, b) = Some (r, b') -> b' = b) as Hsame by (by intros r0 [= _ <-]).
  intros Hs. cut (b' = b \/ rq_method rq <> "GET" /\
    kept (bool_decide (rq_method rq = "DELETE")) (names_known (db b) (rq_body rq)) (db b) (db b') /\
    (core_ok (core b) -> r_status r <> 200%Z -> db b' = db b)).
  { intros [->|(Hm & (H1 & H2 & H3) & H4)].
    - destruct (kept_refl false (names_known (db b) (rq_body rq)) (db b)) as (H1 & H2 & H3). repeat split; try apply H1; try by apply H2. done.
    - split; [done|]. split; [intros Hd; apply H2; by apply bool_decide_false|done]. }
  destruct (_ || _); [|left; by apply (Hsame unauthorized)]. unfold dispatch in Hs.
  destruct (find_route _ _ _) as [e|] eqn:Hf; [|left; by apply (Hsame (unrouted rq))].
  destruct (find_route_in _ _ _ _ Hf) as (p & k & params & Hin & _ & ->).
  pose proof (routes_dutiful m (rq_body rq)) as Hr. rewrite Forall_forall in Hr.
  destruct (Hr _ Hin) as [[Hg Hk]|[Hg Hk]]; specialize (Hk params); cbn in Hg, Hk.
  - left. destruct (k params) as [h|h|]; [..|by eapply Hsame]; cbn in Hk; specialize (Hk b);
      destruct (h b) as [o b1]; cbn in Hk; subst b1; by eapply Hsame.
  - destruct (k params) as [h|h|]; [|done|left; by eapply Hsame]. right. split; [done|].
    destruct (Hk (db b) b eq_refl) as [H1 H2]. destruct (h b) as [o b1]. injection Hs as <- <-. split; [exact H1|].
    intros Hc Hst. specialize (H2 Hc). destruct o as [v|n e|]; [|exact H2..]. cbn in H2, Hst. by rewrite H2 in Hst.
Qed.
End Requests.

#[local] Instance production : BuildEnv := false.
#[local] Existing Instance sample_platform.
#[local] Existing Instance sample_laws.

Definition deletes_group : request := wrapped ADMIN_PASSWORD (API +:+ "/groups/g1") (Init "DELETE" [] None).

Lemma requests_keep_witness :
  exists r b, serve sample_moment deletes_group (with_subscriber "10.0.0.2") = Some (r, b) /\
    linked (db b) /\ issued (db (with_subscriber "10.0.0.2")) (db b).
Proof.
  assert (exists r b, serve sample_moment deletes_group (with_subscriber "10.0.0.2") = Some (r, b)) as (r & b & E)
    by (eexists _, _; vm_compute; reflexivity).
  exists r, b. split; [exact E|]. destruct (requests_keep _ _ _ _ _ E) as (_ & _ & H1 & H2 & _).
  split; [|exact H1]. apply H2; [by intros fs v g|].
  apply map_Forall_singleton. intros g [= <-] _. by eexists.
Defined.
