(* ===== verification/FullStack.v ===== *)
(** * The panel against its backend: sessions

    A session of the panel whose token is the administrator's password, against
    a server that answers as the backend does, in whatever state it is. *)
From Stdlib Require Import Ascii.
From S2P Require Import Prelude JsStr JsNum JsVal React Effects Logic Storage Api Typed Promises Orderly Work RouterMachine PanelScreens PanelMachine Signed BackendData.
From S2P Require Import Backend BackendSpec.
From S2P Require Users Groups Templates Nodes ResponseRules Settings ConfigProfiles HWIDInspector ConnectionLogs Home Login AdminApp Safety Shell Token PanelRuns.
Local Open Scope string_scope.
Local Open Scope js_scope.

Section Stack.
Context `{PL : PlatformLaws} `{BE : BuildEnv} `{LC : Locale} {Hist : Type} `{RT : Router Hist} `{RL : !RouterLaws Hist} `{RM : Matcher} `{ML : !MatcherLaws}.
Local Abbreviation pages := (app Hist screen).

(** The answers of the backend. *)
Definition backend_answers (rq : request) (r : response) : Prop :=
  exists m b b', serve m rq b = Some (r, b').

(** ** Every page signs what it sends *)

Lemma wrapped_password url i : has_password (wrapped ADMIN_PASSWORD url i) = true.
Proof.
  unfold has_password. cbn [wrapped rq_headers]. rewrite assoc_merge by apply NoDup_singleton. done.
Qed.
Lemma not_login c s : c <> "l"%char -> startsWith (String "/" (String c s)) "/login" = false.
Proof.
  intros Hn. apply not_true_iff_false. unfold startsWith. rewrite prefix_app_iff. intros [u Hu].
  injection Hu as Hc _. by apply Hn.
Qed.
Lemma wrapped_granted path c t i : path = String "/" (String c t) -> c ∉ ["l"; "%"; "?"; "#"]%char ->
  granted (wrapped ADMIN_PASSWORD (API +:+ path) i).
Proof.
  intros -> Hc. rewrite !not_elem_of_cons in Hc. destruct Hc as (H1 & H2 & H3 & H4 & _).
  split; [apply wrapped_password|]. eexists. split; [done|].
  change (before_query (String "/" (String c t))) with
    (String "/" (if Ascii.eqb c "?"%char || Ascii.eqb c "#"%char then "" else String c (before_query t))).
  rewrite (proj2 (Ascii.eqb_neq _ _) H3), (proj2 (Ascii.eqb_neq _ _) H4). cbn [orb].
  rewrite !unquote_char by done. by apply not_login.
Qed.

Local Abbreviation signed := (Signed.signed ADMIN_PASSWORD granted).
Ltac page_signed :=
  signed_tac;
  unfold Users.client_url, Groups.group_url, Templates.template_url, Nodes.node_url, ResponseRules.rule_url;
  rewrite ?str_app_assoc; (eapply wrapped_granted; [reflexivity|by apply (bool_decide_unpack _)]).

Lemma mount_signed h s : signed (c_mount (component_of (Hist:=Hist) h s)).
Proof.
  destruct s; cbn [component_of c_mount Users.page Groups.page Templates.page Nodes.page ResponseRules.page
    Settings.page ConfigProfiles.page HWIDInspector.page ConnectionLogs.page Home.page]; page_signed.
Qed.
Lemma handle_signed h s x a : signed (c_handle (component_of (Hist:=Hist) h s) x a).
Proof.
  destruct s; cbn [component_of c_handle Users.page Groups.page Templates.page Nodes.page ResponseRules.page
    Settings.page ConfigProfiles.page HWIDInspector.page ConnectionLogs.page Home.page]; destruct a; page_signed.
Qed.
Lemma unmount_signed s x : signed (unmount_of s x).
Proof. by destruct s. Qed.

(** ** The session is never interrupted *)

Local Abbreviation holds_token := (has_token ADMIN_PASSWORD).
Local Abbreviation session := (in_session ADMIN_PASSWORD granted).
Local Abbreviation task_signed := (signed_task ADMIN_PASSWORD granted).
Local Abbreviation does := (session_obs granted).

Lemma kept_step_mono (Q Q' : request -> response -> Prop) {S A} (C : component S A) (P P' : S -> A -> Prop) c c' :
  (forall i id rq k r, pend c !! i = Some (id, Waiting (QFetch rq) k) -> Q rq r -> Q' rq r) ->
  (forall s a, P s a -> P' s a) -> kept_step Q C P c c' -> kept_step Q' C P' c c'.
Proof.
  intros HQ HP Hs. destruct Hs as [io a c Ha|io i id q k o c Hi Ho|io i id b ms p c Hi].
  - constructor. by apply HP.
  - econstructor; [exact Hi|]. destruct q as [rq| |]; [|done..]. destruct o as [r|e]; [|done]. by eapply HQ.
  - by econstructor.
Qed.

Section Granted.
Context (Q : request -> response -> Prop) (offers : forall s : screen, state_of s -> action_of s -> Prop).
Context (Q_admits : forall rq r, granted rq -> Q rq r -> r_status r <> 401%Z).

(** A page on display and one that was left, during a session. *)
Definition on_display (s : screen) (c : conf (state_of s)) : Prop :=
  lives any_server any_state (fun _ => True) s c /\ session c.
Definition behind (s : screen) (c : conf (state_of s)) : Prop :=
  leaves s c /\ Forall task_signed (pend c).
Definition seen (o : obs) : Prop := observed panel_does o /\ does o.

Lemma answer_signed {S} (c : conf S) i id q (k : res (reply q) -> prog S unit) o :
  Forall task_signed (pend c) -> pend c !! i = Some (id, Waiting q k) -> outcome_ok Q q o -> signed (k o).
Proof.
  intros Ht Hi Ho. destruct (Forall_lookup_1 _ _ _ _ Ht Hi) as [Hg Hk]. apply Hk.
  destruct q as [rq| |]; [|done..]. destruct o as [r|e]; [|done]. by eapply Q_admits.
Qed.

Lemma seen_both l : Forall (observed panel_does) l -> Forall does l -> Forall seen l.
Proof. intros H1 H2. rewrite Forall_forall in H1, H2. apply Forall_forall. by split; [apply H1|apply H2]. Qed.

Lemma run_seen {S} io (p : prog S unit) (c c0 : conf S) : signed p -> session c0 -> log c0 = log c ->
  session (run io p c0) /\ Forall does (since c (run io p c0)).
Proof.
  intros Hp Hc El. destruct (run_signed _ _ io p c0 Hp Hc) as (Hc' & l & E & Hl). split; [done|].
  rewrite El in E. by rewrite (since_app _ _ _ E).
Qed.

Local Abbreviation base := (pages_tame (Hist:=Hist) any_server any_action any_state pages_any (fun _ => True) (fun _ _ => I)).

Lemma step_seen h s c c' : on_display s c -> kept_step Q (component_of (Hist:=Hist) h s) (offers s) c c' ->
  on_display s c' /\ Forall seen (since c c').
Proof.
  intros [Hl Hc] Hs.
  assert (kept_step any_server (component_of h s) any_state c c') as Hs' by (by eapply kept_step_mono).
  destruct (tame_step _ _ _ _ _ _ _ base _ _ _ _ Hl Hs') as [Hl' Ho].
  assert (session c' /\ Forall does (since c c')) as [Hc' Hd]; [|split; [by split|by apply seen_both]].
  destruct Hs as [io a c Ha|io i id q k o c Hi Hq|io i id b ms p c Hi];
    unfold event_step, settle_step, timer_step, commit_after; rewrite pages_commit; cbn [run skip].
  - apply run_seen; [apply handle_signed|done..].
  - apply run_seen; [by eapply answer_signed, Hq; [apply Hc|]|by apply take_session|done].
  - apply run_seen; [|by destruct b; [|apply take_session]|by destruct b].
    exact (Forall_lookup_1 _ _ _ _ (session_tasks _ _ _ Hc) Hi).
Qed.

Lemma leftover_seen s0 s io (c0 : conf (state_of s0)) (c c1 : conf (state_of s)) (p : prog (state_of s) unit) :
  on_display s0 c0 -> signed p -> session c1 -> log c1 = log c ->
  leftover_runs (H:=Hist) (lives any_server any_state (fun _ => True)) leaves (observed panel_does) c0 c (run io p c1) ->
  leftover_runs (H:=Hist) on_display behind seen c0 c (run io p c1).
Proof.
  intros [H0 Hc0] Hp Hc1 El (H1 & H2 & H3). destruct (run_seen io p c c1 Hp Hc1 El) as [Hs Hd].
  split; [split; [done|apply Hs]|]. split; [|by apply seen_both].
  split; [done|]. split; [apply Hs|apply Hc0].
Qed.

Lemma stack_tame : tame (H:=Hist) Q offers on_display behind holds_token seen Safety.declared.
Proof.
  split.
  - apply declared_route.
  - intros p b [[Hp _] _]. exact Hp.
  - intros s h io s0 Hs. split; [by apply (tame_boot _ _ _ _ _ _ _ base)|].
    unfold boot. apply run_signed; [apply mount_signed|]. by split; [|constructor].
  - intros s h c c'. apply (step_seen h).
  - intros s io c [Hl Hc]. destruct (tame_unmount _ _ _ _ _ _ _ base s io c Hl) as [H1 _].
    assert (session (run io (unmount_of s (st c)) c)) as [H2 H3] by (by apply run_signed; [apply unmount_signed|]).
    by split; [split|].
  - intros s1 s io c1 c i id b ms p H1 [Hc Ht] Hi c2.
    apply leftover_seen; [done| | | |].
    + exact (Forall_lookup_1 _ _ _ _ Ht Hi).
    + assert (session c2) as Hc2 by (split; [apply H1|done]). destruct b; [done|by apply take_session].
    + by destruct b.
    + exact (tame_timer _ _ _ _ _ _ _ base s1 s io c1 c i id b ms p (proj1 H1) Hc Hi).
  - intros s1 s io c1 c i id q k o H1 [Hc Ht] Hi Ho.
    apply leftover_seen; [done| | |done|].
    + by eapply answer_signed.
    + apply take_session. split; [apply H1|done].
    + apply (tame_settle _ _ _ _ _ _ _ base s1 s io c1 c i id q k o (proj1 H1) Hc Hi). by destruct q, o.
Qed.

(** *** The panel *)

Local Abbreviation pages_steady := (RouterMachine.well (H:=Hist) on_display behind Safety.declared).

(** Nobody is logging in, and a page is on display. *)
Definition steady (p : panel) : Prop :=
  pend (entry p) = [] /\ AdminApp.isAuthenticated (st (entry p)) = true /\
  exists fr a, shown p = Shown fr a /\ pend fr = [] /\ pages_steady a.

Lemma steady_storage p : steady p -> holds_token (storage p).
Proof. intros (_ & _ & fr & a & E & _ & Hw). unfold storage. rewrite E. apply Hw. Qed.
Lemma steady_trail p : steady p -> Forall Safety.declared (trail (history p)).
Proof. intros (_ & _ & fr & a & E & _ & Hw). unfold history. rewrite E. apply Hw. Qed.

Lemma steady_load io h s : holds_token s -> Forall Safety.declared (trail h) -> steady (load io h s).
Proof.
  intros Hs Hh. unfold load, steady. cbn [entry shown].
  assert (pend (boot AdminApp.page io s) = []) as -> by (cbn; by destruct (s !! token_key)).
  assert (AdminApp.isAuthenticated (st (boot AdminApp.page io s)) = true) as Ha.
  { rewrite (Token.opens_token s io). unfold stored_token. by rewrite Hs. }
  split; [done|]. split; [done|]. rewrite Ha. unfold render_app. cbn [negb].
  assert (Safety.declared (here h)) as Hn by (rewrite Forall_forall in Hh; apply Hh, here_trail).
  destruct (declared_route _ Hn) as [x Hx]. unfold open_at, settle.
  change (screen_route (here h)) with (match_route (here h)). rewrite Hx. cbn [option_map fst snd].
  eexists _, _. split; [reflexivity|]. split; [done|].
  split; cbn [hist cur live left]; [done| |done|done]. by apply (tame_boot _ _ _ _ _ _ _ stack_tame).
Qed.

Lemma steady_moves p p' l : steady p -> moves_in Q offers p p' l -> steady p' /\ Forall seen l.
Proof.
  intros (He & Ha & fr0 & a0 & E0 & Hf & Hw) Hm.
  destruct Hm as [io e Hs|fr a a' l E Hm|fr fr' a E Hm|io b item fr a E Hi|io h h' E Ht];
    [|rewrite E0 in E; first [injection E as <- <-|done]..].
  - exfalso. inversion Hs as [? ? ? Hna|? ? ? ? ? ? ? Hi|? ? ? ? ? ? ? Hi]; subst;
      [cbn [st set_store] in Hna; congruence|cbn in Hi; by rewrite He in Hi..].
  - destruct (moves_well _ _ _ _ _ _ _ stack_tame _ _ _ Hw Hm) as [Hw' Hl]. split; [|done].
    split; [done|]. split; [done|]. by eexists _, _.
  - destruct (frame_steps _ _ Hf Hm) as [Hf' Hl]. split.
    + split; [done|]. split; [done|]. by eexists _, _.
    + by destruct Hl as [->| ->]; repeat constructor.
  - split; [|constructor]. split; [done|]. split; [done|]. eexists _, _. split; [reflexivity|]. split; [done|].
    apply (arrive_well _ _ _ _ _ _ _ stack_tame); [done|]. apply Forall_forall. intros q Hq.
    apply trail_go in Hq as [->|Hq]; [by apply links_declared|].
    destruct Hw as [_ _ _ Hw]. rewrite Forall_forall in Hw. by apply Hw.
Qed.
End Granted.

(** ** Every answer of the backend is one the panel is promised *)

Lemma backend_admits rq r : granted rq -> backend_answers rq r -> r_status r <> 401%Z.
Proof. intros Hg (m & b & b' & Hs). by eapply granted_admitted. Qed.
Lemma backend_documented rq r : granted rq -> backend_answers rq r -> documented rq r.
Proof. intros Hg (m & b & b' & Hs). eapply serve_documented; [exact Hs|]. by eapply granted_admitted. Qed.

Lemma outcome_documented q o (rq_ok : match q with QFetch rq => granted rq | _ => True end) :
  outcome_ok backend_answers q o -> outcome_ok documented q o.
Proof. destruct q as [rq| |]; [|done..]. destruct o as [r|e]; [|done]. by apply backend_documented. Qed.

Lemma steady_documented p p' l :
  steady p -> moves_in backend_answers offers_of p p' l -> moves_in documented offers_of p p' l.
Proof.
  intros (He & Ha & fr0 & a0 & E0 & Hf & [_ [_ Hlive] Hleft _]) Hm.
  destruct Hm as [io e Hs|fr a a' l E Hm|fr fr' a E Hm|io b item fr a E Hi|io h h' E Ht];
    [|rewrite E0 in E; first [injection E as <- <-|done]..]; [| |by eapply in_frame|by eapply in_link].
  - exfalso. inversion Hs as [? ? ? Hna|? ? ? ? ? ? ? Hi|? ? ? ? ? ? ? Hi]; subst;
      [cbn [st set_store] in Hna; congruence|cbn in Hi; by rewrite He in Hi..].
  - eapply in_page; [exact E0|].
    destruct Hm as [io c' Hs|io j s c i id b ms q Hj Hi|io j s c i id q k o Hj Hi Ho|io h Ht].
    + constructor. eapply kept_step_mono; [|done|exact Hs]. intros i id rq k r Hi Hr.
      apply backend_documented; [|done].
      apply (Forall_lookup_1 _ _ _ _ (session_tasks _ _ _ Hlive) Hi).
    + by apply (moves_timer _ _ _ io j s c i id b ms).
    + apply (moves_settle _ _ _ io j s c i id q k o); [done..|]. apply outcome_documented; [|done].
      destruct (Forall_lookup_1 _ _ _ _ Hleft Hj) as [_ Ht]. apply (Forall_lookup_1 _ _ _ _ Ht Hi).
    + by constructor.
Qed.

Lemma session_ran path s0 p : Safety.declared path -> holds_token s0 ->
  panel_ran backend_answers offers_of path s0 p -> steady p /\ panel_ran documented offers_of path s0 p.
Proof.
  intros Hpath Hs0. induction 1 as [io|p p' l _ [Hst Hr] Hm|io p _ [Hst Hr]].
  - split; [|constructor]. apply (steady_load _ offers_of backend_admits); [done|]. rewrite trail_fresh. by constructor.
  - split; [by apply (steady_moves _ _ backend_admits _ _ _ Hst Hm)|].
    eapply panel_in; [exact Hr|]. by apply steady_documented.
  - split; [|by constructor]. apply (steady_load _ offers_of backend_admits); [by apply steady_storage|by apply steady_trail].
Qed.

(** C5. A session against the backend itself.  Opened at the address of a page
    with the administrator's password as the stored token, the panel only ever
    sees answers the backend gives in some state: these keep the promise that
    the pages rely on, so the run is one on a server that keeps its word; a page
    is always on display, the token stays, every request made carries the
    password and is no login, and no reload is ever asked for. *)
Theorem session_uninterrupted (path : string) (s0 : gmap string string) (p : panel) :
  Safety.declared path -> s0 !! token_key = Some ADMIN_PASSWORD ->
  panel_ran backend_answers offers_of path s0 p ->
  panel_ran documented offers_of path s0 p /\
  (exists fr a, shown p = Shown fr a) /\ storage p !! token_key = Some ADMIN_PASSWORD /\
  forall p' l, moves_in backend_answers offers_of p p' l -> Forall granted (sent l) /\ OCall CReload ∉ l.
Proof.
  intros Hpath Hs0 Hp. destruct (session_ran _ _ _ Hpath Hs0 Hp) as [Hst Hr].
  split; [exact Hr|]. split; [|split; [by apply steady_storage|]].
  - destruct Hst as (_ & _ & fr & a & E & _). by exists fr, a.
  - intros p' l Hm. destruct (steady_moves _ _ backend_admits _ _ _ Hst Hm) as [_ Hl].
    rewrite Forall_forall in Hl. split.
    + apply Forall_forall. intros rq Hin. unfold sent in Hin.
      apply list_elem_of_omap in Hin as ([cm|rq'|x] & Hin & [= ->]). apply (Hl _ Hin).
    + intros Hin. apply (Hl _ Hin).
Qed.
End Stack.

#[local] Instance production : BuildEnv := false.
#[local] Instance no_locale : Locale := fun _ => "".
#[local] Existing Instances path_matcher path_laws.
#[local] Existing Instance sample_platform.
#[local] Existing Instance sample_laws.
Definition password_stored : gmap string string := <[token_key := ADMIN_PASSWORD]> ∅.

(** On the clients page, the backend, which knows no clients, has answered the
    first request. *)
Definition clients_request : request := wrapped ADMIN_PASSWORD (API +:+ "/clients") GET.
Lemma clients_answered : backend_answers clients_request (Response 200 (Ok (VArr []))).
Proof. exists sample_moment, empty_backend, empty_backend. reflexivity. Qed.

Lemma session_uninterrupted_witness :
  exists p, panel_ran backend_answers offers_of "/users" password_stored p /\
    panel_ran (Hist:=stack) documented offers_of "/users" password_stored p /\
    storage p !! token_key = Some ADMIN_PASSWORD.
Proof.
  assert (exists p l, moves_in backend_answers offers_of
    (load (Hist:=stack) quiet_browser (fresh "/users") password_stored) p l) as (p & l & Hm).
  { eexists _, _. eapply in_page; [reflexivity|]. apply (moves_live _ _ _ quiet_browser).
    eapply (kept_settle _ _ _ quiet_browser 0 0 (QFetch clients_request) _ (Ok (Response 200 (Ok (VArr []))) : res (reply (QFetch clients_request)))); [reflexivity|exact clients_answered]. }
  assert (panel_ran backend_answers offers_of "/users" password_stored p) as Hr
    by (eapply panel_in; [apply panel_start|exact Hm]).
  exists p. split; [exact Hr|].
  destruct (session_uninterrupted (Hist:=stack) "/users" password_stored p PanelRuns.users_declared eq_refl Hr)
    as (Hd & _ & Ht & _).
  split; [exact Hd|exact Ht].
Defined.
