(* ===== verification/WriteThrough.v ===== *)
(** * A page and the backend, side by side

    The page in the browser, the server process, and the answers that are on
    their way.  The server handles the requests that are out in any order, each
    once; an answer arrives at any time later.  When a form has been sent and
    nothing else is out, everything ends, and then the page shows the lists of
    the tables as the form left them. *)
From S2P Require Import Prelude JsStr JsNum JsVal React Effects Logic Api Work PanelLoads Signed BackendData.
From S2P Require Import Backend BackendSpec.
Local Open Scope string_scope.
Local Open Scope js_scope.

(** ** Identifiers of what is pending *)

Section Ids.
Context {S : Type}.
Implicit Types c : conf S.

Definition ids_ok c : Prop := NoDup (map fst (pend c)) /\ Forall (fun t => fst t < next c) (pend c).
(** What is new has a new identifier. *)
Definition newer c c' : Prop :=
  next c <= next c' /\ forall t, t ∈ pend c' -> t ∈ pend c \/ next c <= fst t.

Lemma newer_refl c : newer c c.
Proof. split; [done|]. by left. Qed.
Lemma newer_trans c1 c2 c3 : newer c1 c2 -> newer c2 c3 -> newer c1 c3.
Proof.
  intros [H1 H2] [H3 H4]. split; [lia|]. intros t Ht. destruct (H4 t Ht) as [H|H]; [by apply H2|right; lia].
Qed.
Lemma push_ids t c : ids_ok c -> ids_ok (push t c) /\ newer c (push t c).
Proof.
  intros [H1 H2]. split; [split|split].
  - cbn. rewrite map_app. apply NoDup_app. split; [done|]. split; [|apply NoDup_singleton].
    intros i Hi ->%list_elem_of_singleton. apply list_elem_of_fmap in Hi as (u & E & Hu).
    rewrite Forall_forall in H2. specialize (H2 u Hu). cbn in E. lia.
  - cbn. apply Forall_app_2; [|by repeat constructor]. eapply Forall_impl; [exact H2|]. cbn. lia.
  - cbn. lia.
  - cbn. intros u [Hu|Hu]%elem_of_app; [by left|]. apply list_elem_of_singleton in Hu as ->. right. cbn. lia.
Qed.
Lemma sub_ids c l : sublist l (pend c) -> ids_ok c ->
  let c' := Conf (st c) (store c) l (next c) (log c) in ids_ok c' /\ newer c c'.
Proof.
  intros Hl [H1 H2]. assert (forall t, t ∈ l -> t ∈ pend c) as Hin by (intros t Ht; by eapply elem_of_sublist).
  split; [split|split; [done|]]; cbn.
  - eapply sublist_NoDup; [exact H1|]. by apply fmap_sublist.
  - apply Forall_forall. intros t Ht. rewrite Forall_forall in H2. by apply H2, Hin.
  - intros t Ht. left. by apply Hin.
Qed.
Lemma filter_sublist {A} (P : A -> bool) (l : list A) : sublist (List.filter P l) l.
Proof. induction l as [|a l IH]; cbn; [constructor|]. destruct (P a); by constructor. Qed.

Lemma run_ids io p c : ids_ok c -> ids_ok (run io p c) /\ newer c (run io p c).
Proof.
  assert (forall c c1 c2, newer c c1 -> ids_ok c2 /\ newer c1 c2 -> ids_ok c2 /\ newer c c2) as Hseq
    by (intros c0 c1 c2 H1 [H2 H3]; split; [done|by eapply newer_trans]).
  revert c. induction p as [a|e|f k IH|cm k IH|q k IH|q k IHq IH|b ms q k IHq IH|id k IH]
    using prog_unit_ind; cbn [run]; intros c Hc.
  - by split; [|apply newer_refl].
  - by split; [|exact (newer_refl c)].
  - by apply (Hseq c (set_st f c)); [exact (newer_refl c)|apply IH].
  - destruct (exec io (store c) cm) as [r s]. by apply (Hseq c (set_store s (emit (OCall cm) c))); [exact (newer_refl c)|apply IH].
  - destruct q as [r| |]; [exact (push_ids _ (emit (OSend r) c) Hc)|by apply push_ids..].
  - destruct (IHq c Hc) as [H1 H2]. apply (Hseq c (run io q c)); [done|]. by apply IH.
  - destruct (push_ids (Timer b ms q) c Hc) as [H1 H2]. apply (Hseq c (push (Timer b ms q) c)); [done|]. by apply IH.
  - destruct (sub_ids c (pend (drop_timer id c)) (filter_sublist _ _) Hc) as [H1 H2].
    apply (Hseq c (drop_timer id c)); [done|]. by apply IH.
Qed.

Lemma take_ids i c : ids_ok c -> ids_ok (take_task i c) /\ newer c (take_task i c).
Proof. apply sub_ids. apply sublist_delete. Qed.

Lemma ids_unique c i j t u : ids_ok c -> pend c !! i = Some t -> pend c !! j = Some u -> fst t = fst u -> t = u.
Proof.
  intros [H1 _] Hi Hj E.
  assert (map fst (pend c) !! i = Some (fst t)) as Ei by (change (map fst (pend c)) with (fst <$> pend c); by rewrite list_lookup_fmap, Hi).
  assert (map fst (pend c) !! j = Some (fst u)) as Ej by (change (map fst (pend c)) with (fst <$> pend c); by rewrite list_lookup_fmap, Hj).
  rewrite <- E in Ej. pose proof (NoDup_lookup _ _ _ _ H1 Ei Ej) as ->. congruence.
Qed.
End Ids.

(** ** Turns *)

Section Turns.
Context `{PL : PlatformLaws} `{BE : BuildEnv} {S A : Type} (C : component S A).
(** The moments requests may be handled in: clocks, identifiers drawn, orders of
    rows. *)
Context (M : moment -> Prop).
Hypothesis no_effects : forall s s', c_commit C s s' = skip.

Record system := System {
  browser : conf S;
  server : backend;
  answers : list (nat * response);        (* by the request's identifier *)
}.

(** The server handles a request, the answer to one arrives, a body arrives. *)
Inductive turn (y : system) : system -> Prop :=
| turn_serves m i id rq k r b :
    pend (browser y) !! i = Some (id, Waiting (QFetch rq) k) -> id ∉ map fst (answers y) ->
    M m -> serve m rq (server y) = Some (r, b) ->
    turn y (System (browser y) b ((id, r) :: answers y))
| turn_answers io i id rq k r :
    pend (browser y) !! i = Some (id, Waiting (QFetch rq) k) -> (id, r) ∈ answers y ->
    turn y (System (settle_step C io i (q:=QFetch rq) k (Ok r) (browser y)) (server y) (answers y))
| turn_body io i id k :
    pend (browser y) !! i = Some (id, Waiting QTick k) ->
    turn y (System (settle_step C io i (q:=QTick) k (Ok tt) (browser y)) (server y) (answers y)).

(** One of the orders: the first task first. *)
Definition schedule (m : moment) (io : inputs) (y : system) : option system :=
  match pend (browser y) with
  | (id, Waiting (QFetch rq) k) :: _ =>
      match list_find (fun a => fst a = id) (answers y) with
      | Some (_, (_, r)) => Some (System (settle_step C io 0 (q:=QFetch rq) k (Ok r) (browser y)) (server y) (answers y))
      | None =>
          match serve m rq (server y) with
          | Some (r, b) => Some (System (browser y) b ((id, r) :: answers y))
          | None => None
          end
      end
  | (id, Waiting QTick k) :: _ =>
      Some (System (settle_step C io 0 (q:=QTick) k (Ok tt) (browser y)) (server y) (answers y))
  | _ => None
  end.
Fixpoint schedules (n : nat) (m : moment) (io : inputs) (y : system) : option system :=
  match n with
  | O => Some y
  | Datatypes.S n' => match schedule m io y with Some y' => schedules n' m io y' | None => None end
  end.

Lemma schedule_turn m io y y' : M m -> schedule m io y = Some y' -> turn y y'.
Proof.
  intros HM. unfold schedule. destruct (pend (browser y)) as [|[id [[rq| |] k|]] ts] eqn:Ep; try done.
  - destruct (list_find _ _) as [[j [id' r]]|] eqn:Ef.
    + intros [= <-]. apply list_find_Some in Ef as (Hj & E & _). cbn in E. subst id'.
      apply (turn_answers _ io 0 id rq k r); [by rewrite Ep|by eapply list_elem_of_lookup_2].
    + destruct (serve m rq (server y)) as [[r b]|] eqn:Es; [|done]. intros [= <-].
      apply (turn_serves _ m 0 id rq k r b); [by rewrite Ep| |done..].
      intros ((id' & r') & -> & Hin)%list_elem_of_fmap. apply list_find_None in Ef. rewrite Forall_forall in Ef. by apply (Ef _ Hin).
  - intros [= <-]. apply (turn_body _ io 0 id k). by rewrite Ep.
Qed.
Lemma schedules_turns n m io y y' : M m -> schedules n m io y = Some y' -> nsteps turn n y y'.
Proof.
  intros HM. revert y. induction n as [|n IH]; intros y; cbn; [intros [= <-]; constructor|].
  destruct (schedule m io y) as [y1|] eqn:E; [|done]. intros Hn. econstructor; [by eapply schedule_turn|by apply IH].
Qed.
Lemma schedules_rest n m io y : M m -> (fun y' => pend (browser y')) <$> schedules n m io y = Some [] ->
  exists y', nsteps turn n y y' /\ pend (browser y') = [].
Proof.
  intros HM (y' & Hp & E)%fmap_Some. exists y'. split; [by eapply schedules_turns|done].
Qed.
Lemma no_turn y : pend (browser y) = [] -> ~ exists y', turn y y'.
Proof. intros E [y' Ht]. destruct Ht as [m i id rq k r b Hi _ _ _|io i id rq k r Hi|io i id k Hi]; by rewrite E in Hi. Qed.

(** What the tables say, and the lists that cannot be written as JSON. *)
Definition says (d : database) (u : string) (v : val) : Prop :=
  exists m path segments f, (path, segments, f) ∈ lists m /\ u = API +:+ path /\ v = f d.
Definition unspeakable (d : database) (u : string) : Prop :=
  exists m path segments f, (path, segments, f) ∈ lists m /\ u = API +:+ path /\ finite_json (f d) = false.
(** An address the panel reads. *)
Definition readable (u : string) : Prop :=
  exists path, u = API +:+ path /\ forall m, exists segments f, (path, segments, f) ∈ lists m.

Local Abbreviation session := (in_session ADMIN_PASSWORD granted).

Lemma serve_reads m rq b r b' u : readable u -> rq_method rq = "GET" -> rq_url rq = u -> has_password rq = true ->
  serve m rq b = Some (r, b') ->
  b' = b /\ body_ok (says (db b)) (unspeakable (db b)) u (r_json r) /\ r_status r <> 401%Z.
Proof.
  intros (path & -> & Hl) Hg Hu Hp Hs. destruct (Hl m) as (segments & f & Hin).
  destruct (serve_list _ _ _ _ _ _ _ _ Hin Hg Hu Hs) as [-> ->]. split; [done|]. rewrite Hp. unfold respond.
  destruct (finite_json (f (db b))) eqn:E; (split; [|done]); by exists m, path, segments, f.
Qed.
Lemma serve_read (m : moment) rq b u : readable u -> rq_method rq = "GET" -> rq_url rq = u -> has_password rq = true ->
  is_Some (serve m rq b).
Proof.
  intros (path & -> & Hl) Hg Hu Hp. destruct (Hl m) as (segments & f & Hin).
  destruct (lists_routed _ _ _ _ Hin) as (E1 & E2 & E3 & E4).
  rewrite (serve_at _ _ _ _ _ Hu E1 E2 Hp), Hg, E4. by eexists.
Qed.

(** *** Reading the lists back *)

Section Reading.
Context (ls : list (string * (val -> S -> S))) (F : Fields ls).
Context (ls_readable : forall ld, ld ∈ ls -> readable (fst ld)).
Context (b : backend) (s0 : S).
Local Abbreviation holds := (says (db b)).
Local Abbreviation fails := (unspeakable (db b)).

Definition waits (t : nat * task S) : Prop :=
  match snd t with Waiting _ _ => True | Timer _ _ _ => False end.
(** An answer that is on its way. *)
Definition answer_fits (y : system) : Prop :=
  forall i id rq k r, pend (browser y) !! i = Some (id, Waiting (QFetch rq) k) -> (id, r) ∈ answers y ->
    body_ok holds fails (rq_url rq) (r_json r) /\ r_status r <> 401%Z.
Record reading (y : system) : Prop := Reading {
  reading_lists : loading ls holds fails s0 (browser y);
  reading_session : session (browser y);
  reading_ids : ids_ok (browser y);
  reading_waits : Forall waits (pend (browser y));
  reading_server : server y = b;
  reading_old : Forall (fun a => fst a < next (browser y)) (answers y);
  reading_fits : answer_fits y;
}.

(** What is still to be done for a task. *)
Definition task_turns (l : list (nat * response)) (t : nat * task S) : nat :=
  match snd t with
  | Waiting (QFetch _) _ => if bool_decide (fst t ∈ map fst l) then 2 else 3
  | Waiting _ _ => 1
  | Timer _ _ _ => 0
  end.
Definition turns_left (y : system) : nat := sum_list (task_turns (answers y) <$> pend (browser y)).

Lemma reading_task y i t : reading y -> pend (browser y) !! i = Some t ->
  exists ld, ld ∈ ls /\ out_for holds fails ld t.
Proof.
  intros [(f & labels & Hl & _) _ _ Hw _ _ _] Hi.
  destruct (Forall2_lookup_l _ _ _ _ _ Hl Hi) as ([ld|] & _ & Hs); [by exists ld|].
  pose proof (Forall_lookup_1 _ _ _ _ Hw Hi) as Ht. destruct t as [id [q k|rep ms p]]; [by destruct q|done].
Qed.
Lemma reading_request y i id rq k : reading y -> pend (browser y) !! i = Some (id, Waiting (QFetch rq) k) ->
  exists ld, ld ∈ ls /\ k = after_response (snd ld) /\ rq_method rq = "GET" /\ rq_url rq = fst ld /\
    has_password rq = true.
Proof.
  intros Hy Hi. destruct (reading_task _ _ _ Hy Hi) as (ld & Hld & [token ->] & ->). exists ld.
  split; [done|]. split; [done|]. split; [done|]. split; [done|].
  apply (Forall_lookup_1 _ _ _ _ (session_tasks _ _ _ (reading_session _ Hy)) Hi).
Qed.

(** What the two kinds of settling lead to. *)
Lemma settle_response io i id rq k r y : reading y ->
  pend (browser y) !! i = Some (id, Waiting (QFetch rq) k) -> (id, r) ∈ answers y ->
  exists k', settle_step C io i (q:=QFetch rq) k (Ok r) (browser y) = push (Waiting QTick k') (take_task i (browser y)).
Proof.
  intros Hy Hi Ha. destruct (reading_request _ _ _ _ _ Hy Hi) as (ld & _ & -> & _).
  destruct (reading_fits _ Hy _ _ _ _ _ Hi Ha) as [_ Hr].
  unfold settle_step, commit_after. rewrite no_effects. cbn [run skip].
  eexists. by apply (run_after_response (snd ld) io r).
Qed.
Lemma settle_body io i id k y : reading y -> pend (browser y) !! i = Some (id, Waiting QTick k) ->
  exists f, settle_step C io i (q:=QTick) k (Ok tt) (browser y) = set_st f (take_task i (browser y)).
Proof.
  intros Hy Hi. destruct (reading_task _ _ _ Hy Hi) as (ld & _ & x & -> & _).
  unfold settle_step, commit_after. rewrite no_effects. destruct x as [v|e]; [by exists (snd ld v)|].
  exists (fun s => s). by destruct y as [[]].
Qed.

Lemma fits_kept y c' l :
  (forall i t, pend c' !! i = Some t -> t ∈ pend (browser y) \/ next (browser y) <= fst t) ->
  l = answers y -> reading y -> answer_fits (System c' (server y) l).
Proof.
  intros Hp -> Hy i id rq k r Hi Ha. cbn in Hi, Ha. destruct (Hp _ _ Hi) as [Hin|Hid].
  - apply list_elem_of_lookup in Hin as [j Hj]. by eapply (reading_fits _ Hy).
  - pose proof (reading_old _ Hy) as Ho. rewrite Forall_forall in Ho. specialize (Ho _ Ha). cbn in Ho, Hid. lia.
Qed.

(** The page moved on: what is pending has been taken, or is new and waits. *)
Lemma reading_moved y c' : reading y -> loading ls holds fails s0 c' -> session c' ->
  ids_ok c' /\ newer (browser y) c' -> Forall waits (pend c') -> reading (System c' (server y) (answers y)).
Proof.
  intros Hy Hl Hs [Hi [Hn Hnew]] Hw. split; cbn; try done; [apply Hy| |].
  - eapply Forall_impl; [apply (reading_old _ Hy)|]. cbn. lia.
  - apply fits_kept; [|done|done]. intros j t Hj. apply Hnew. by eapply list_elem_of_lookup_2.
Qed.

Lemma turns_of l i t (ts : list (nat * task S)) : ts !! i = Some t ->
  sum_list (task_turns l <$> ts) = task_turns l t + sum_list (task_turns l <$> delete i ts).
Proof.
  intros Hi. exact (sum_list_with_Permutation_proper id _ _ (fmap_Permutation _ _ _ (delete_Permutation _ _ _ Hi))).
Qed.
Lemma turns_answered a l (ts : list (nat * task S)) :
  sum_list (task_turns (a :: l) <$> ts) <= sum_list (task_turns l <$> ts).
Proof.
  induction ts as [|[id [[rq| |] k|rep ms p]] ts IH]; cbn in *; [lia| |lia..].
  do 2 case_bool_decide; try lia. exfalso. by eapply H0, list_elem_of_further.
Qed.

Lemma reading_turn y y' : reading y -> turn y y' -> reading y' /\ turns_left y' < turns_left y.
Proof.
  intros Hy Ht. pose proof Hy as [R1 R2 R3 R4 R5 R6 R7].
  destruct Ht as [m i id rq k r b' Hi Hid _ Hs|io i id rq k r Hi Ha|io i id k Hi];
    unfold turns_left; cbn [browser answers]; rewrite (turns_of (answers y) _ _ _ Hi).
  - destruct (reading_request _ _ _ _ _ Hy Hi) as (ld & Hld & Hk & Hm & Hu & Hp).
    destruct (serve_reads _ _ _ _ _ _ (ls_readable _ Hld) Hm Hu Hp Hs) as (E & Hb & H4). subst b'.
    rewrite R5 in Hb. split.
    + split; cbn; try done; [constructor; [|done]|].
      * cbn. apply (Forall_lookup_1 _ _ _ _ (proj2 R3) Hi).
      * intros j id2 rq2 k2 r2 Hj [[= -> ->]|Ha]%elem_of_cons; [|by eapply R7].
        pose proof (ids_unique _ _ _ _ _ R3 Hi Hj eq_refl) as E. injection E as E _. subst rq2. by rewrite Hu.
    + rewrite (turns_of _ _ _ _ Hi).
      pose proof (turns_answered (id, r) (answers y) (delete i (pend (browser y)))). cbn [task_turns snd fst map].
      rewrite (bool_decide_false (id ∈ map fst (answers y))), bool_decide_true by (try done; by left). lia.
  - destruct (reading_request _ _ _ _ _ Hy Hi) as (ld & Hld & Hk & Hm & Hu & Hp).
    destruct (settle_response io _ _ _ _ _ _ Hy Hi Ha) as [k' E]. destruct (R7 _ _ _ _ _ Hi Ha) as [Hb H4]. split.
    + apply reading_moved; [done| | | |].
      * eapply loading_step; [done|done|exact R1|]. by eapply served_answer.
      * unfold settle_step, commit_after. rewrite no_effects. cbn [run skip].
        apply (run_signed ADMIN_PASSWORD granted); [|by apply take_session].
        by apply (Forall_lookup_1 _ _ _ _ (session_tasks _ _ _ R2) Hi).
      * unfold settle_step, commit_after. rewrite no_effects. cbn [run skip].
        destruct (take_ids i _ R3) as [T1 T2]. destruct (run_ids io (k (Ok r)) _ T1) as [U1 U2].
        split; [done|by eapply newer_trans].
      * rewrite E. cbn. apply Forall_app_2; [by apply Forall_delete|by repeat constructor].
    + rewrite E. cbn [push take_task pend]. rewrite fmap_app, sum_list_with_app. cbn. case_bool_decide; lia.
  - destruct (settle_body io _ _ _ _ Hy Hi) as [f E]. split.
    + apply reading_moved; [done| | | |].
      * eapply loading_step; [done|done|exact R1|]. by eapply served_body.
      * rewrite E. destruct (take_session _ _ i _ R2). by split.
      * rewrite E. exact (take_ids i _ R3).
      * rewrite E. by apply Forall_delete.
    + rewrite E. cbn. lia.
Qed.

Lemma reading_goes_on (m : moment) y : M m -> reading y -> pend (browser y) = [] \/ exists y', turn y y'.
Proof.
  intros HM Hy. destruct (pend (browser y)) as [|[id t] ts] eqn:Ep; [by left|right].
  assert (pend (browser y) !! 0 = Some (id, t)) as Hi by by rewrite Ep.
  destruct (reading_task _ _ _ Hy Hi) as (ld & Hld & Ho). destruct t as [[rq| |] k|rep ms p]; [| |by destruct Ho..].
  - destruct (decide (id ∈ map fst (answers y))) as [Hin|Hni].
    + apply list_elem_of_fmap in Hin as ([id' r] & -> & Ha). eexists. by apply (turn_answers _ quiet_browser 0 id' rq k r).
    + destruct (reading_request _ _ _ _ _ Hy Hi) as (ld' & Hld' & _ & Hm & Hu & Hp).
      destruct (serve_read m rq (server y) _ (ls_readable _ Hld') Hm Hu Hp) as [[r b'] Hs].
      eexists. by apply (turn_serves _ m 0 id rq k r b').
  - eexists. by apply (turn_body _ quiet_browser 0 id k).
Qed.
End Reading.

(** *** A form *)

Section Write.
Context (ls : list (string * (val -> S -> S))) (F : Fields ls).
Context (ls_readable : forall ld, ld ∈ ls -> readable (fst ld)).
Context (wr : request) (f : S -> S).

(** The request that is out, and what its answer leads to: the form is closed,
    the lists are read again. *)
Definition sent_form (t : nat * task S) : Prop :=
  match snd t with
  | Waiting (QFetch rq) k =>
      rq = wr /\ forall io r c, r_status r <> 401%Z -> run io (k (Ok r)) c = run io (refresh ls) (set_st f c)
  | _ => False
  end.
(** The form has just been sent. *)
Record form_sent (c : conf S) : Prop := FormSent {
  sent_pend : exists t, pend c = [t] /\ sent_form t;
  sent_session : session c;
  sent_ids : ids_ok c;
}.

(** In at most [2 + 3 * length ls] turns everything has come in; what the
    server is then is what handling the form made of it, and the page shows
    the lists as the tables say them. *)
Definition writes_through (c : conf S) (b : backend) : Prop :=
  forall n y, nsteps turn n (System c b []) y ->
    n <= 2 + 3 * length ls /\
    ((exists y', turn y y') \/
     (pend (browser y) = [] /\ session (browser y) /\
      exists m r, M m /\ serve m wr b = Some (r, server y) /\
        loaded ls (says (db (server y))) (unspeakable (db (server y))) (f (st c)) (st (browser y)))).

Context (c : conf S) (b : backend) (Hc : form_sent c).

(** Nobody has handled it yet, or its answer is on its way, or it is in. *)
Inductive stage : nat -> system -> Prop :=
| stage_out : stage (2 + 3 * length ls) (System c b [])
| stage_handled t m r b' : pend c = [t] -> M m -> serve m wr b = Some (r, b') ->
    stage (1 + 3 * length ls) (System c b' [(fst t, r)])
| stage_reading n m r b' y : M m -> serve m wr b = Some (r, b') -> reading ls b' (f (st c)) y -> turns_left y <= n ->
    stage n y.

Lemma form_out : exists t, pend c = [t] /\ sent_form t /\ granted wr /\ fst t < next c.
Proof.
  destruct Hc as [(t & Ep & Hs) [_ Ht] [_ Hi]]. rewrite Ep in Ht, Hi.
  exists t. split; [done|]. split; [done|]. pose proof (List.Forall_inv Ht) as Hg. split; [|exact (List.Forall_inv Hi)].
  destruct t as [id [[rq| |] k|]]; try (by destruct Hs). destruct Hs as [-> _]. apply Hg.
Qed.
Lemma only_task t i u : pend c = [t] -> pend c !! i = Some u -> u = t /\ i = 0.
Proof. intros ->. destruct i; [|done]. by intros [= ->]. Qed.

(** The lists are asked for. *)
Lemma form_answered io id k r b' : pend c = [(id, Waiting (QFetch wr) k)] -> sent_form (id, Waiting (QFetch wr) k) ->
  r_status r <> 401%Z ->
  let y := System (settle_step C io 0 (q:=QFetch wr) k (Ok r) c) b' [(id, r)] in
  reading ls b' (f (st c)) y /\ turns_left y <= 3 * length ls.
Proof.
  intros Ep [_ Hk] Hr. destruct Hc as [_ Hs Hids].
  set (c0 := set_st f (take_task 0 c)).
  assert (pend c0 = []) as E0 by (cbn; by rewrite Ep).
  assert (settle_step C io 0 (q:=QFetch wr) k (Ok r) c = run io (refresh ls) c0) as ->.
  { unfold settle_step, commit_after. rewrite no_effects. cbn [run skip]. by apply Hk. }
  destruct (run_refresh ls (says (db b')) (unspeakable (db b')) io ls c0) as (_ & new & En & Hnew); [done|].
  rewrite E0 in En. cbn [app] in En.
  destruct (take_ids 0 c Hids) as [T1 [T2 T3]].
  assert (ids_ok c0 /\ next c <= next c0) as [I1 I2] by done.
  destruct (run_ids io (refresh ls) c0 I1) as [U1 [U2 U3]].
  assert (fst (id, Waiting (QFetch wr) k) < next c) as Hid.
  { destruct Hids as [_ Hi]. rewrite Ep in Hi. exact (List.Forall_inv Hi). }
  assert (Forall waits new) as Hw.
  { apply Forall_forall. intros t Ht. apply list_elem_of_lookup in Ht as [j Hj].
    destruct (Forall2_lookup_l _ _ _ _ _ Hnew Hj) as (o & Ho & Hst).
    apply list_lookup_fmap_Some in Ho as (ld & -> & _). destruct Hst as [_ Hst].
    destruct t as [id2 [[rq| |] k2|rep ms p]]; by try destruct Hst. }
  split.
  - split; cbn [browser server answers].
    + apply (refresh_loading ls _ _ io c0 []). rewrite E0. constructor.
    + rewrite <- (Hk io r (take_task 0 c) Hr : _ = run io (refresh ls) c0).
      apply (run_signed ADMIN_PASSWORD granted); [|by apply take_session].
      destruct Hs as [_ Ht]. rewrite Ep in Ht. by apply (proj2 (List.Forall_inv Ht)).
    + exact U1.
    + by rewrite En.
    + done.
    + constructor; [|constructor]. cbn in *. lia.
    + intros j id2 rq k2 r2 Hj [= -> ->]%list_elem_of_singleton. cbn in Hj. apply list_elem_of_lookup_2 in Hj.
      destruct (U3 _ Hj) as [Hin|Hge]; [|cbn in *; lia]. rewrite E0 in Hin. by apply elem_of_nil in Hin.
  - unfold turns_left. cbn [browser answers]. rewrite En. apply Forall2_length in Hnew. rewrite length_fmap in Hnew.
    rewrite <- Hnew. clear. induction new as [|t new IH]; [cbn; lia|]. cbn [fmap list_fmap sum_list length].
    assert (task_turns [(id, r)] t <= 3) by (destruct t as [id2 [[rq| |] k2|rep ms p]]; cbn; try case_bool_decide; lia).
    cbn in *. lia.
Qed.

Lemma stage_turn n y y' : stage n y -> turn y y' -> exists n', n' < n /\ stage n' y'.
Proof.
  destruct form_out as (t & Ep & Hf & Hg & Hid). intros Hs.
  destruct Hs as [|t' m r b' Ep' HM Hs|n m r b' y HM Hs Hy Hn]; [| |intros Ht].
  - inversion 1 as [m i id rq k r b1 Hi Hni HM Hs|io i id rq k r Hi Ha|io i id k Hi]; subst; cbn [browser server answers] in *.
    + destruct (only_task _ _ _ Ep Hi) as [<- _]. destruct Hf as [-> _].
      eexists. split; [|eapply (stage_handled (id, Waiting (QFetch wr) k)); done]. lia.
    + by apply not_elem_of_nil in Ha.
    + destruct (only_task _ _ _ Ep Hi) as [<- _]. by destruct Hf.
  - assert (t' = t) as -> by congruence.
    inversion 1 as [m1 i id rq k r1 b1 Hi Hni _ Hs1|io i id rq k r1 Hi Ha|io i id k Hi]; subst; cbn [browser server answers] in *;
      destruct (only_task _ _ _ Ep Hi) as [<- ->].
    + exfalso. apply Hni. by left.
    + apply list_elem_of_singleton in Ha as [= ->]. pose proof Hf as [-> _].
      destruct (form_answered io id k r b' Ep Hf ltac:(by eapply granted_admitted)) as [Hy Hn].
      exists (3 * length ls). split; [lia|]. by eapply stage_reading.
    + by destruct Hf.
  - destruct (reading_turn ls F ls_readable _ _ _ _ Hy Ht) as [Hy' Hlt].
    exists (turns_left y'). split; [lia|]. by eapply stage_reading.
Qed.

Lemma stage_goes_on m0 n y : M m0 -> is_Some (serve m0 wr b) -> stage n y ->
  (exists y', turn y y') \/
  (pend (browser y) = [] /\ session (browser y) /\
   exists m r, M m /\ serve m wr b = Some (r, server y) /\
     loaded ls (says (db (server y))) (unspeakable (db (server y))) (f (st c)) (st (browser y))).
Proof.
  intros HM0 [[r0 b0] H0]. destruct form_out as (t & Ep & Hf & Hg & Hid).
  assert (forall y, browser y = c -> exists id k, t = (id, Waiting (QFetch wr) k) /\
    pend (browser y) !! 0 = Some (id, Waiting (QFetch wr) k)) as Hlook.
  { intros y0 ->. destruct t as [id [[rq| |] k|]]; try (by destruct Hf). destruct Hf as [-> _].
    exists id, k. by rewrite Ep. }
  intros Hs. destruct Hs as [|t' m r b' Ep' HM Hs|n m r b' y HM Hs Hy Hn].
  - left. destruct (Hlook (System c b []) eq_refl) as (id & k & -> & Hi). eexists.
    by eapply (turn_serves _ m0 0); [exact Hi|apply not_elem_of_nil|exact HM0|exact H0].
  - assert (t' = t) as -> by congruence. left. destruct (Hlook (System c b' [(fst t, r)]) eq_refl) as (id & k & -> & Hi).
    eexists. eapply (turn_answers _ quiet_browser 0); [exact Hi|]. by left.
  - destruct (reading_goes_on ls ls_readable _ _ m0 _ HM0 Hy) as [He|Ht]; [right|by left].
    split; [done|]. split; [apply Hy|]. exists m, r. pose proof (reading_server _ _ _ _ Hy) as E. subst b'.
    split; [done|]. split; [done|]. eapply loading_rest; [apply Hy|]. unfold at_rest. rewrite He. constructor.
Qed.

Lemma form_writes_through m0 : M m0 -> is_Some (serve m0 wr b) -> writes_through c b.
Proof.
  intros HM H0 n y Hn.
  assert (forall k y1 y2, nsteps turn k y1 y2 -> forall n1, stage n1 y1 -> exists n2, k + n2 <= n1 /\ stage n2 y2) as Hrun.
  { induction 1 as [y1|k y1 y2 y3 Ht _ IH]; intros n1 Hs; [by exists n1|].
    destruct (stage_turn _ _ _ Hs Ht) as (n2 & Hlt & Hs2). destruct (IH _ Hs2) as (n3 & Hle & Hs3).
    exists n3. split; [lia|done]. }
  destruct (Hrun _ _ _ Hn _ stage_out) as (n2 & Hle & Hs). split; [lia|]. by eapply stage_goes_on.
Qed.
End Write.
End Turns.

(** ** Handlers that send a form *)

Section Issues.
Context {S : Type}.

(** Only the log differs. *)
Definition quietly (c c0 : conf S) : Prop :=
  st c0 = st c /\ store c0 = store c /\ pend c0 = pend c /\ next c0 = next c.

(** One request, and when it is answered the updates [f] and the lists [ls]. *)
Definition issues (io : inputs) (p : prog S unit) (url : string) (i : init) (f : S -> S)
    (ls : list (string * (val -> S -> S))) : Prop :=
  forall c, exists c0 (K : res response -> prog S unit), quietly c c0 /\
    run io p c = push (Waiting (QFetch (wrapped (stored_token (store c)) url i)) K) c0 /\
    forall io' r c', r_status r <> 401%Z -> run io' (K (Ok r)) c' = run io' (refresh ls) (set_st f c').

Lemma issues_fetch io url i k f ls :
  (forall r io' c', run io' (k r) c' = run io' (refresh ls) (set_st f c')) ->
  issues io (let! r := fetch url i in k r) url i f ls.
Proof.
  intros Hk c. exists (emit (OSend (wrapped (stored_token (store c)) url i)) (emit (OCall (CGetItem token_key)) c)), (after_fetch k).
  split; [done|]. split; [apply run_fetch_bind|]. intros io' r c' Hr. rewrite run_after_fetch, Hk.
  unfold after_401. by rewrite (proj2 (Z.eqb_neq _ _) Hr).
Qed.
Lemma issues_ref io r k url i f ls :
  issues io (k (opt_str (in_ref io r))) url i f ls -> issues io (let! v := ref_value r in k v) url i f ls.
Proof.
  intros Hk c. destruct (Hk (emit (OCall (CRefValue r)) c)) as (c0 & K & Hq & Hr & HK). exists c0, K.
  split; [exact Hq|]. split; [|done]. etrans; [|exact Hr]. by destruct c.
Qed.
(** In the middle of a longer program. *)
Lemma issues_call io r (k : res val -> prog S unit) url i f ls :
  issues io (k (Ok (opt_str (in_ref io r)))) url i f ls -> issues io (Call (CRefValue r) k) url i f ls.
Proof.
  intros Hk c. destruct (Hk (emit (OCall (CRefValue r)) c)) as (c0 & K & Hq & Hr & HK). exists c0, K.
  split; [exact Hq|]. split; [|done]. etrans; [|exact Hr]. by destruct c.
Qed.
Lemma issues_confirm io m k url i f ls :
  issues io (k (in_confirm io m)) url i f ls -> issues io (let! ok := confirm m in k ok) url i f ls.
Proof.
  intros Hk c. destruct (Hk (emit (OCall (CConfirm m)) c)) as (c0 & K & Hq & Hr & HK). exists c0, K.
  split; [exact Hq|]. split; [|done]. etrans; [|exact Hr]. by destruct c.
Qed.
End Issues.

Section Forms.
Context `{PL : PlatformLaws} `{BE : BuildEnv} {S A : Type} (C : component S A).
Hypothesis no_effects : forall s s', c_commit C s s' = skip.
Hypothesis handles_signed : forall s a, Signed.signed ADMIN_PASSWORD granted (c_handle C s a).

(** A page in a session, with nothing out. *)
Definition settled (c : conf S) : Prop := pend c = [] /\ store c !! token_key = Some ADMIN_PASSWORD.

Lemma issues_sent io a c url i f ls : settled c -> issues io (c_handle C (st c) a) url i f ls ->
  form_sent ls (wrapped ADMIN_PASSWORD url i) f (event_step C io a c) /\ st (event_step C io a c) = st c.
Proof.
  intros [Hp Ht] Hi. destruct (Hi c) as (c0 & K & (Q1 & Q2 & Q3 & Q4) & Hr & HK).
  assert (stored_token (store c) = ADMIN_PASSWORD) as E by (unfold stored_token; by rewrite Ht). rewrite E in Hr.
  assert (event_step C io a c = run io (c_handle C (st c) a) c) as Ee.
  { unfold event_step, commit_after. by rewrite no_effects. }
  split; [split|].
  - rewrite Ee, Hr. eexists. cbn. rewrite Q3, Hp. split; [done|]. by split.
  - rewrite Ee. apply (run_signed ADMIN_PASSWORD granted); [apply handles_signed|]. split; [done|]. rewrite Hp. constructor.
  - rewrite Ee. apply run_ids. split; rewrite Hp; constructor.
  - by rewrite Ee, Hr.
Qed.
End Forms.

Section Stores.
Context `{PL : PlatformLaws} `{BE : BuildEnv} {S A : Type} (C : component S A) (M : moment -> Prop).
Hypothesis no_effects : forall s s', c_commit C s s' = skip.
Hypothesis handles_signed : forall s a, Signed.signed ADMIN_PASSWORD granted (c_handle C s a).

(** Firing [a] on a page with nothing out: in at most [2 + 3 * length ls] turns
    everything has come in; then the server is what handling the request made
    of it in one of the moments [M], and the page shows the lists [ls] as its tables say them, the rest of
    its state being as [f] leaves it. *)
Definition stores (io : inputs) (a : A) (c : conf S) (handled : moment -> handler val)
    (f : S -> S) (ls : list (string * (val -> S -> S))) : Prop :=
  forall b n y, nsteps (turn C M) n (System (event_step C io a c) b []) y ->
    n <= 2 + 3 * length ls /\
    ((exists y', turn C M y y') \/
     (settled (browser y) /\
      exists m, M m /\ server y = snd (handled m b) /\
        loaded ls (says (db (server y))) (unspeakable (db (server y))) (f (st c)) (st (browser y)))).

Lemma stores_intro (m0 : moment) (Hm0 : M m0) io a c handled url i f ls :
  Fields ls -> (forall ld, ld ∈ ls -> readable (fst ld)) -> settled c ->
  issues io (c_handle C (st c) a) url i f ls ->
  (forall m b, exists r, serve m (wrapped ADMIN_PASSWORD url i) b = Some (r, snd (handled m b))) ->
  stores io a c handled f ls.
Proof.
  intros F Hl Hc Hi Hh b n y Hn.
  destruct (issues_sent C no_effects handles_signed _ _ _ _ _ _ _ Hc Hi) as [Hs E].
  assert (is_Some (serve m0 (wrapped ADMIN_PASSWORD url i) b)) as H0 by (destruct (Hh m0 b) as [r Hr]; by eexists).
  destruct (form_writes_through C M no_effects ls F Hl _ f _ b Hs m0 Hm0 H0 n y Hn) as [Hle [Ht|(Hp & Hy & m & r & HM & Hm & Hld)]];
    (split; [done|]); [by left|right].
  split; [by split; [|apply Hy]|]. exists m. split; [done|]. destruct (Hh m b) as [r' Hr']. rewrite Hm in Hr'.
  split; [congruence|]. by rewrite E in Hld.
Qed.
End Stores.

Lemma fields_sub {S} (loads ls : list (string * (val -> S -> S))) : Fields loads -> sublist ls loads -> Fields ls.
Proof.
  intros F Hs. assert (forall ld, ld ∈ ls -> ld ∈ loads) as Hin by (intros ld Hld; by eapply elem_of_sublist).
  split; [|intros; by apply (fields_overwrite F), Hin|intros; by apply (fields_commute F); [apply Hin..|]].
  eapply sublist_NoDup; [apply (fields_distinct F)|]. by apply fmap_sublist.
Qed.
