(* ===== verification/PagesStored.v ===== *)
(** * What the forms of the panel make of the tables

    Each form and button of the groups, tariffs, servers and rules pages, from
    the click to the lists the page shows when everything has come in: which
    handler of the backend it reaches, and with what. *)
From S2P Require Import Prelude JsStr JsNum JsVal React Effects Logic Api Forms PanelLoads RouterMachine PanelScreens Signed BackendData.
From S2P Require Import Backend BackendSpec FullStack WriteThrough.
From S2P Require Groups Templates Nodes ResponseRules Catalog GroupsSpec.
Local Open Scope string_scope.
Local Open Scope js_scope.

Section Forms.
Context `{PL : PlatformLaws} `{BE : BuildEnv} `{LC : Locale} {Hist : Type} `{RT : Router Hist}.

(** ** Requests of the pages, served *)

(** A body that is not what the handler declares changes nothing. *)
Definition parsed {A} (parse : list (string * val) -> option A) (k : A -> handler val) (body : val) : handler val :=
  match body with
  | VObj fs => match parse fs with Some a => k a | None => ret VNull end
  | _ => ret VNull
  end.

Lemma handled_as m b method rest segments i (h : handler val) e :
  "/api" +:+ rest = slashes segments -> Forall (fun s => plain s = true) segments ->
  i_method i = method ->
  find_route method ("" :: segments) (routes m (i_body i)) = Some e ->
  (e = Handle h \/ e = Invalid /\ forall b, snd (h b) = b) ->
  exists r, serve m (wrapped ADMIN_PASSWORD (API +:+ rest) i) b = Some (r, snd (h b)).
Proof.
  intros Hr Hs Hi Hf He.
  rewrite (serve_at m (wrapped ADMIN_PASSWORD (API +:+ rest) i) b rest segments eq_refl Hr Hs (wrapped_password _ _)).
  cbn [wrapped rq_method rq_body]. rewrite Hi, Hf. destruct He as [->|[-> Hh]]; cbn [reply_of].
  - destruct (h b) as [o b']. by eexists.
  - rewrite Hh. by eexists.
Qed.

Lemma body_parsed {A} (parse : list (string * val) -> option A) k v :
  body_as parse (Some v) k = Handle (parsed parse k v) \/
  body_as parse (Some v) k = Invalid /\ forall b, snd (parsed parse k v b) = b.
Proof. destruct v as [| | | | | |fs|]; try (by right). cbn. destruct (parse fs); [by left|by right]. Qed.

(** The address of an entity whose identifier needs no escaping. *)
Lemma item_segments dir id : plain dir = true -> plain id = true ->
  "/api" +:+ ("/" +:+ dir +:+ "/" +:+ id) = slashes ["api"; dir; id] /\
  Forall (fun s => plain s = true) ["api"; dir; id].
Proof.
  intros Hd Hi. split; [|by repeat constructor]. cbn. by rewrite str_app_nil_r.
Qed.

(** ** Creating *)

(** What the pages read again. *)
Definition read_templates : list (string * (val -> Templates.state -> Templates.state)) :=
  [(API +:+ "/templates", Templates.set_templates)].
Definition read_nodes : list (string * (val -> Nodes.state -> Nodes.state)) := [(API +:+ "/nodes", Nodes.set_nodes)].
Definition read_rules : list (string * (val -> ResponseRules.state -> ResponseRules.state)) :=
  [(API +:+ "/rules", ResponseRules.set_rules)].
Definition read_groups : list (string * (val -> Groups.state -> Groups.state)) := [(API +:+ "/groups", Groups.set_groups)].
Definition read_both : list (string * (val -> Groups.state -> Groups.state)) :=
  [(API +:+ "/groups", Groups.set_groups); (API +:+ "/clients", Groups.set_clients)].

Lemma api_readable path : (forall m, exists segments f, (path, segments, f) ∈ lists m) -> readable (API +:+ path).
Proof. intros Hl. by exists path. Qed.
Ltac readable_tac :=
  let ld := fresh in let Hin := fresh in
  intros ld Hin; repeat (apply elem_of_cons in Hin as [->|Hin];
    [apply api_readable; intros m; eexists _, _; unfold lists;
     repeat first [apply list_elem_of_here|apply list_elem_of_further]|]);
  by apply elem_of_nil in Hin.
Ltac fields_tac s :=
  apply (fields_sub _ _ (pages_fields s)); repeat constructor.

Context (h : Hist) (M : moment -> Prop) (m0 : moment) (Hm0 : M m0) (io : inputs) (refs : string -> option string) (Hio : fields_are refs io).

Lemma page_stores (s : screen) a c handled url i f ls :
  sublist ls (loads_of s) -> (forall ld, ld ∈ ls -> readable (fst ld)) -> settled c ->
  issues io (c_handle (component_of h s) (st c) a) url i f ls ->
  (forall m b, exists r, serve m (wrapped ADMIN_PASSWORD url i) b = Some (r, snd (handled m b))) ->
  stores (component_of h s) M io a c handled f ls.
Proof.
  intros Hs. apply stores_intro with (m0 := m0); [by apply pages_commit|apply handle_signed|exact Hm0|].
  by eapply fields_sub, Hs; apply pages_fields.
Qed.

(** The text of an input, or what stands for an empty one. *)
Definition text_or (r d : string) : string :=
  match refs r with Some v => if str_truthy v then v else d | None => d end.
Lemma field_text r d : field_or refs r (VStr d) = VStr (text_or r d).
Proof. unfold field_or, text_or. by repeat case_match. Qed.

Ltac stored s a c url i ls :=
  refine (page_stores s a c _ url i _ ls _ _ _ _ _); [by repeat constructor|readable_tac|done| |intros m b].
(** The name is checked, the other inputs are read. *)
Ltac form_fields Ht1 Ht2 :=
  apply issues_ref; rewrite !Hio; cbv zeta; rewrite !Ht1, Ht2; cbn [negb];
  repeat (apply issues_ref; rewrite !Hio).
Lemma checked r v : trimmed refs r = Some v ->
  jtrim (opt_str (refs r)) = VStr v /\ truthy (VStr v) = true.
Proof. intros Hv. pose proof (trimmed_field refs r) as Ht. by rewrite Hv in Ht. Qed.

Lemma tariff_stored c name : trimmed refs "nameRef" = Some name -> settled c ->
  stores Templates.page M io Templates.HandleCreate c
    (fun m => parsed parse_TemplateCreate (create_template m) (Catalog.tariff_body refs name))
    (Templates.set_showForm false) read_templates.
Proof.
  intros Hn Hc. destruct (checked _ _ Hn) as [Ht1 Ht2].
  stored TemplatesPage Templates.HandleCreate c (API +:+ "/templates") (Catalog.post (Catalog.tariff_body refs name)) read_templates.
  - cbn [component_of c_handle Templates.page Templates.handle]. unfold Templates.handleCreate.
    form_fields Ht1 Ht2. unfold jparseInt, jparseFloat. rewrite !or_field.
    cbn [jobj map snd fst sequence mbind res_bind lift bind zip zip_with lit].
    replace (Catalog.post _) with (JSON "POST" (VObj [("name", VStr name);
      ("duration_days", VNum (parseInt (to_string (field_or refs "daysRef" "30"))));
      ("data_limit_gb", VNum (parseFloat (to_string (field_or refs "limitRef" "50"))));
      ("price", field_or refs "priceRef" "0")])).
    + by apply issues_fetch.
    + unfold JSON. cbn -[parseInt parseFloat]. by rewrite json_field_or.
  - eapply (handled_as m b "POST" "/templates" ["api"; "templates"]);
      [done|by repeat constructor|done|reflexivity|apply body_parsed].
Qed.

Lemma server_stored c name : trimmed refs "nameRef" = Some name -> settled c ->
  stores Nodes.page M io Nodes.HandleCreate c
    (fun m => parsed parse_NodeCreate (create_node m) (Catalog.server_body refs name))
    (Nodes.set_showForm false) read_nodes.
Proof.
  intros Hn Hc. destruct (checked _ _ Hn) as [Ht1 Ht2].
  stored NodesPage Nodes.HandleCreate c (API +:+ "/nodes") (Catalog.post (Catalog.server_body refs name)) read_nodes.
  - cbn [component_of c_handle Nodes.page Nodes.handle]. unfold Nodes.handleCreate.
    form_fields Ht1 Ht2. unfold jparseInt. rewrite !or_field.
    cbn [jobj map snd fst sequence mbind res_bind lift bind zip zip_with lit].
    replace (Catalog.post _) with (JSON "POST" (VObj [("name", VStr name); ("location", field_or refs "locRef" "");
      ("ip_address", field_or refs "ipRef" ""); ("port", VNum (parseInt (to_string (field_or refs "portRef" "443"))))])).
    + by apply issues_fetch.
    + unfold JSON. cbn -[parseInt]. by rewrite !json_field_or.
  - eapply (handled_as m b "POST" "/nodes" ["api"; "nodes"]);
      [done|by repeat constructor|done|reflexivity|apply body_parsed].
Qed.

Lemma rule_stored c name trigger action :
  trimmed refs "nameRef" = Some name -> trimmed refs "triggerRef" = Some trigger ->
  trimmed refs "actionRef" = Some action -> settled c ->
  stores ResponseRules.page M io ResponseRules.HandleCreate c
    (fun m => create_rule m (RuleCreateBody name trigger action true))
    (ResponseRules.set_showForm false) read_rules.
Proof.
  intros Hn Ht Ha Hc. destruct (checked _ _ Hn) as [N1 N2], (checked _ _ Ht) as [T1 T2], (checked _ _ Ha) as [A1 A2].
  stored ResponseRulesPage ResponseRules.HandleCreate c (API +:+ "/rules")
    (Catalog.post (Catalog.rule_body name trigger action)) read_rules.
  - cbn [component_of c_handle ResponseRules.page ResponseRules.handle]. unfold ResponseRules.handleCreate.
    do 3 (apply issues_ref; rewrite !Hio). cbv zeta. rewrite !N1, !T1, !A1, N2, T2, A2. by apply issues_fetch.
  - eapply (handled_as m b "POST" "/rules" ["api"; "rules"]);
      [done|by repeat constructor|done|reflexivity|by left].
Qed.

(** The group form, to either address. *)
Lemma group_issues method url (name : string) :
  issues io (let! _ := (let! body := Groups.group_body (VStr name) in fetch url (JSON method body)) in
             do! upd (Groups.set_showForm false) in do! upd (Groups.set_editId VNull) in Groups.loadGroups)
    url (Init method [("Content-Type", "application/json")] (Some (GroupsSpec.group_payload refs name)))
    (fun s => Groups.set_editId VNull (Groups.set_showForm false s)) read_groups.
Proof.
  unfold Groups.group_body. cbn [bind ref_value call]. do 2 (apply issues_call; rewrite !Hio; cbn [bind ref_value call lift]).
  rewrite !or_field. cbn [jobj map snd fst sequence mbind res_bind lift bind zip zip_with lit].
  replace (Init method _ _) with (JSON method (VObj [("name", VStr name); ("description", field_or refs "descRef" "");
    ("data_limit", field_or refs "limitRef" "100 ГБ/юзер")])).
  - by apply issues_fetch.
  - unfold JSON. cbn. by rewrite !json_field_or.
Qed.

Lemma group_stored c name : trimmed refs "nameRef" = Some name -> truthy (Groups.editId (st c)) = false -> settled c ->
  stores Groups.page M io Groups.HandleCreate c
    (fun m => create_group m (GroupCreateBody name (text_or "descRef" "") (text_or "limitRef" "100 ГБ/юзер")))
    (fun s => Groups.set_editId VNull (Groups.set_showForm false s)) read_groups.
Proof.
  intros Hn He Hc. destruct (checked _ _ Hn) as [Ht1 Ht2].
  stored GroupsPage Groups.HandleCreate c (API +:+ "/groups") (Catalog.post (GroupsSpec.group_payload refs name)) read_groups.
  - cbn [component_of c_handle Groups.page Groups.handle]. unfold Groups.handleCreate.
    form_fields Ht1 Ht2. rewrite (He : truthy (Groups.editId (@st (state_of GroupsPage) c)) = false).
    apply group_issues.
  - eapply (handled_as m b "POST" "/groups" ["api"; "groups"]);
      [done|by repeat constructor|done|reflexivity|left]. cbn.
    unfold GroupsSpec.group_payload. by rewrite !field_text.
Qed.

Lemma item_routed dir id (k : string -> endpoint) method m body :
  plain id = true -> id <> "" ->
  (forall x, x <> "" -> find_route method ["" ; "api"; dir; x] (routes m body) = Some (k x)) ->
  find_route method ["" ; "api"; dir; id] (routes m body) = Some (k id).
Proof. intros Hp Hne Hk. by apply Hk. Qed.

Ltac routed k :=
  apply (item_routed _ _ k); [done..|];
  let x := fresh in let Hx := fresh in
  intros x Hx; cbn; rewrite (proj2 (String.eqb_neq x "") Hx); reflexivity.

Lemma group_updated c name gid : trimmed refs "nameRef" = Some name -> Groups.editId (st c) = VStr gid ->
  plain gid = true -> gid <> "" -> settled c ->
  stores Groups.page M io Groups.HandleCreate c
    (fun _ => update_group gid (GroupUpdateBody (Some name) (Some (text_or "descRef" "")) (Some (text_or "limitRef" "100 ГБ/юзер"))))
    (fun s => Groups.set_editId VNull (Groups.set_showForm false s)) read_groups.
Proof.
  intros Hn He Hp Hne Hc. destruct (checked _ _ Hn) as [Ht1 Ht2].
  stored GroupsPage Groups.HandleCreate c (API +:+ ("/groups/" +:+ gid))
    (Init "PATCH" [("Content-Type", "application/json")] (Some (GroupsSpec.group_payload refs name))) read_groups.
  - cbn [component_of c_handle Groups.page Groups.handle]. unfold Groups.handleCreate.
    form_fields Ht1 Ht2. rewrite (He : Groups.editId (@st (state_of GroupsPage) c) = VStr gid).
    assert (truthy (VStr gid) = true) as -> by (by destruct gid).
    apply group_issues.
  - destruct (item_segments "groups" gid eq_refl Hp) as [E1 E2].
    eapply (handled_as m b "PATCH" ("/groups/" +:+ gid) ["api"; "groups"; gid]); [exact E1|exact E2|done| |].
    + routed (fun i => body_as parse_GroupUpdate (Some (GroupsSpec.group_payload refs name)) (update_group i)).
    + left. cbn. unfold GroupsSpec.group_payload. by rewrite !field_text.
Qed.

(** ** Deleting *)

Ltac deletion sc ac c ls Hok Hp dir i k :=
  let E1 := fresh in let E2 := fresh in
  destruct (item_segments dir i eq_refl Hp) as [E1 E2];
  refine (page_stores sc ac c _ (API +:+ ("/" +:+ dir +:+ "/" +:+ i)) DELETE _ ls _ _ _ _ _);
    [by repeat constructor|readable_tac|done|apply issues_confirm; rewrite Hok; by apply issues_fetch|];
  let m := fresh in let b := fresh in intros m b;
  eapply (handled_as m b "DELETE" _ ["api"; dir; i] DELETE _ _ E1 E2); [done|routed k|by left].

Lemma group_deletion_stored c gid : in_confirm io "Удалить группу? Клиенты будут отвязаны от неё." = true ->
  plain gid = true -> gid <> "" -> settled c ->
  stores Groups.page M io (Groups.HandleDelete (Ok (VStr gid))) c (fun _ => delete_group gid) (fun s => s) read_both.
Proof.
  intros Hok Hp Hne Hc.
  deletion GroupsPage (Groups.HandleDelete (Ok (VStr gid))) c read_both Hok Hp "groups" gid (fun i => Handle (delete_group i)).
Qed.
Lemma tariff_deletion_stored c tid : in_confirm io "Удалить этот тариф?" = true ->
  plain tid = true -> tid <> "" -> settled c ->
  stores Templates.page M io (Templates.HandleDelete (Ok (VStr tid))) c (fun _ => delete_template tid) (fun s => s) read_templates.
Proof.
  intros Hok Hp Hne Hc.
  deletion TemplatesPage (Templates.HandleDelete (Ok (VStr tid))) c read_templates Hok Hp "templates" tid (fun i => Handle (delete_template i)).
Qed.
Lemma server_deletion_stored c nid : in_confirm io "Удалить этот сервер?" = true ->
  plain nid = true -> nid <> "" -> settled c ->
  stores Nodes.page M io (Nodes.HandleDelete (Ok (VStr nid))) c (fun _ => delete_node nid) (fun s => s) read_nodes.
Proof.
  intros Hok Hp Hne Hc.
  deletion NodesPage (Nodes.HandleDelete (Ok (VStr nid))) c read_nodes Hok Hp "nodes" nid (fun i => Handle (delete_node i)).
Qed.
Lemma rule_deletion_stored c rid : in_confirm io "Удалить это правило?" = true ->
  plain rid = true -> rid <> "" -> settled c ->
  stores ResponseRules.page M io (ResponseRules.DeleteRule (Ok (VStr rid))) c (fun _ => delete_rule rid) (fun s => s) read_rules.
Proof.
  intros Hok Hp Hne Hc.
  deletion ResponseRulesPage (ResponseRules.DeleteRule (Ok (VStr rid))) c read_rules Hok Hp "rules" rid (fun i => Handle (delete_rule i)).
Qed.

(** ** Switches and assignments *)

Lemma item_op_segments dir id op : plain dir = true -> plain id = true -> plain op = true ->
  "/api" +:+ ("/" +:+ dir +:+ "/" +:+ id +:+ "/" +:+ op) = slashes ["api"; dir; id; op] /\
  Forall (fun s => plain s = true) ["api"; dir; id; op].
Proof.
  intros Hd Hi Ho. split; [|by repeat constructor]. cbn. by rewrite str_app_nil_r.
Qed.
Lemma op_routed dir id op (k : string -> endpoint) method m body :
  plain id = true -> id <> "" ->
  (forall x, x <> "" -> find_route method ["" ; "api"; dir; x; op] (routes m body) = Some (k x)) ->
  find_route method ["" ; "api"; dir; id; op] (routes m body) = Some (k id).
Proof. intros Hp Hne Hk. by apply Hk. Qed.
Ltac op_routed_tac k :=
  apply (op_routed _ _ _ k); [done..|];
  let x := fresh in let Hx := fresh in
  intros x Hx; cbn; rewrite (proj2 (String.eqb_neq x "") Hx); reflexivity.

Lemma rule_toggle_stored c rid cur : plain rid = true -> rid <> "" -> settled c ->
  stores ResponseRules.page M io (ResponseRules.ToggleRule (Ok (VStr rid)) (Ok cur)) c
    (fun _ => toggle_rule rid (negb (truthy cur))) (fun s => s) read_rules.
Proof.
  intros Hp Hne Hc.
  stored ResponseRulesPage (ResponseRules.ToggleRule (Ok (VStr rid)) (Ok cur)) c
    (API +:+ ("/rules/" +:+ rid +:+ "/toggle"))
    (Init "PATCH" [("Content-Type", "application/json")] (Some (VObj [("enabled", VBool (negb (truthy cur)))]))) read_rules.
  - rewrite <- (str_app_assoc "/rules/" rid "/toggle"), <- str_app_assoc. by apply issues_fetch.
  - destruct (item_op_segments "rules" rid "toggle" eq_refl Hp eq_refl) as [E1 E2].
    eapply (handled_as _ _ "PATCH" _ ["api"; "rules"; rid; "toggle"] _ _ _ E1 E2); [done| |by left].
    op_routed_tac (fun i => body_as parse_Toggle (Some (VObj [("enabled", VBool (negb (truthy cur)))])) (toggle_rule i)).
Qed.

Lemma json_texts ids : map (fun w => default VNull (json w)) (map VStr ids) = map VStr ids.
Proof. by induction ids as [|i ids IH]; [|cbn; f_equal]. Qed.
Lemma strs_texts ids : mapM as_str (map VStr ids) = Some ids.
Proof. by induction ids as [|i ids IH]; [|cbn; rewrite IH]. Qed.

Lemma assignment_stored c gid ids : Groups.assignGroupId (st c) = VStr gid -> Groups.selectedClients (st c) = map VStr ids ->
  ids <> [] -> plain gid = true -> gid <> "" -> settled c ->
  stores Groups.page M io Groups.HandleAssign c
    (fun _ => assign_clients_to_group gid (AssignGroupBody ids gid))
    (fun s => Groups.set_selectedClients [] (Groups.set_assignGroupId VNull s)) read_both.
Proof.
  intros Hg Hs Hids Hp Hne Hc.
  set (body := VObj [("client_ids", VArr (map VStr ids)); ("group_id", VStr gid)]).
  stored GroupsPage Groups.HandleAssign c (API +:+ ("/groups/" +:+ gid +:+ "/assign"))
    (Init "POST" [("Content-Type", "application/json")] (Some body)) read_both.
  - cbn [component_of c_handle Groups.page Groups.handle]. unfold Groups.handleAssign.
    rewrite (Hg : Groups.assignGroupId (@st (state_of GroupsPage) c) = VStr gid).
    rewrite (Hs : Groups.selectedClients (@st (state_of GroupsPage) c) = map VStr ids).
    assert (truthy (VStr gid) = true) as -> by (by destruct gid).
    assert (Nat.eqb (length (map VStr ids)) 0 = false) as -> by (by destruct ids). cbn [negb orb].
    replace (Init "POST" _ (Some body)) with (JSON "POST" (VObj [("client_ids", VArr (map VStr ids)); ("group_id", VStr gid)])).
    + rewrite <- (str_app_assoc "/groups/" gid "/assign"), <- str_app_assoc. by apply issues_fetch.
    + unfold JSON, body. cbn. by rewrite json_texts.
  - destruct (item_op_segments "groups" gid "assign" eq_refl Hp eq_refl) as [E1 E2].
    eapply (handled_as _ _ "POST" _ ["api"; "groups"; gid; "assign"] _ _ _ E1 E2); [done| |].
    + op_routed_tac (fun i => body_as parse_AssignGroup (Some body) (assign_clients_to_group i)).
    + left. cbn. unfold required. cbn. by rewrite strs_texts.
Qed.
End Forms.
