(* ===== verification/PanelTables.v ===== *)
(** * From the click to the tables and back

    What the buttons and forms of the panel do to the tables of the backend, and
    what the page shows afterwards: the panel and the backend together. *)
From S2P Require Import Prelude JsStr JsNum JsVal React Effects Logic Api Forms PanelLoads RouterMachine PanelScreens Signed BackendData.
From S2P Require Import Backend BackendSpec BackendTables FullStack WriteThrough PagesStored.
From S2P Require Users UsersSpec Groups Templates Nodes ResponseRules Settings Catalog GroupsSpec PagesSpec.
Local Open Scope string_scope.
Local Open Scope js_scope.

Section Tables.
Context `{PL : PlatformLaws} `{BE : BuildEnv}.

(** ** What is loaded is what the tables say *)

Lemma says_at d path v : says d (API +:+ path) v ->
  exists m segments f, (path, segments, f) ∈ lists m /\ v = f d.
Proof. intros (m & p & segments & f & Hin & E & ->). apply under_api_inj in E as ->. by exists m, segments, f. Qed.
Ltac says_tac :=
  let m := fresh "m" in let Hin := fresh in
  intros (m & ? & ? & Hin & ->)%says_at; exists m; unfold lists in Hin;
  repeat (apply elem_of_cons in Hin as [Hin|Hin]; [first [discriminate Hin|injection Hin; by intros; subst]|]);
  by apply elem_of_nil in Hin.
Lemma says_clients d v : says d (API +:+ "/clients") v -> exists m, v = list_clients m d.
Proof. says_tac. Qed.
Lemma says_groups d v : says d (API +:+ "/groups") v -> exists m, v = list_groups m d.
Proof. says_tac. Qed.

Lemma loaded_both d (s0 s : Groups.state) : loaded read_both (says d) (unspeakable d) s0 s ->
  (unspeakable d (API +:+ "/groups") \/ exists m, Groups.groups s = list_groups m d) /\
  (unspeakable d (API +:+ "/clients") \/ exists m, Groups.clients s = list_clients m d) /\
  Groups.showForm s = Groups.showForm s0 /\ Groups.editId s = Groups.editId s0 /\
  Groups.assignGroupId s = Groups.assignGroupId s0 /\ Groups.selectedClients s = Groups.selectedClients s0.
Proof.
  intros (f & -> & Hs & Hn). unfold read_both in *. unfold filled, fill_in. cbn [foldr fst snd].
  pose proof (Hn (API +:+ "/groups", Groups.set_groups) ltac:(left)) as Hg.
  pose proof (Hn (API +:+ "/clients", Groups.set_clients) ltac:(right; left)) as Hc. cbn [fst] in Hg, Hc.
  destruct (f (API +:+ "/groups")) as [v|] eqn:Eg, (f (API +:+ "/clients")) as [w|] eqn:Ec; cbn;
    (split; [first [right; by apply says_groups, Hs|left; by apply Hg]|]);
    (split; [first [right; by apply says_clients, Hs|left; by apply Hc]|done]).
Qed.

(** ** Deleting a group *)

(** C7. Deleting a group, from the click to the tables and back.  On the groups
    page of a session with nothing out, once the question is confirmed: in at
    most eight turns of the page and the server everything has come in; the
    group is gone from the table, its clients are detached and nothing else of
    the tables, of the VPN core's clients or of its service has changed; and the
    page shows no such group any more and no client in it, unless the answer
    with the list cannot be written as JSON. *)
Theorem group_deletion_detaches (M : moment -> Prop) (m0 : moment) io (c : conf Groups.state) (b : backend) gid g n y :
  M m0 -> in_confirm io "Удалить группу? Клиенты будут отвязаны от неё." = true ->
  plain gid = true -> gid <> "" -> settled c -> constraints (db b) -> groups (db b) !! gid = Some g ->
  nsteps (turn Groups.page M) n (System (event_step Groups.page io (Groups.HandleDelete (Ok (VStr gid))) c) b []) y ->
  n <= 8 /\
  ((exists y', turn Groups.page M y y') \/
   (settled (browser y) /\ server y = Backend (without_group gid (db b)) (core b) (restarts b) /\
    (unspeakable (db (server y)) (API +:+ "/clients") \/
     Groups.groupMembers (st (browser y)) (VStr gid) = Ok (VArr [])) /\
    (unspeakable (db (server y)) (API +:+ "/groups") \/
     exists m, Groups.groups (st (browser y)) =
       VArr (map (group_json (db (server y))) (row_order m (delete gid (groups (db b)))))))).
Proof.
  intros Hm0 Hok Hp Hne Hc Hcon Hg Hn.
  pose proof (group_deletion_stored (LC:=fun _ => "") (Hist:=stack) (fresh "") M m0 Hm0 io c gid Hok Hp Hne Hc b n y Hn)
    as [Hle [Ht|(Hy & m & _ & E & Hl)]]; (split; [done|]); [by left|right].
  rewrite (delete_group_done gid b g Hcon Hg) in E. cbn [snd] in E.
  destruct (loaded_both _ _ _ Hl) as (Hgs & Hcs & _). split; [done|]. split; [done|]. rewrite E in *. cbn [db] in *. split.
  - destruct Hcs as [Hu|[m2 Hm]]; [by left|right]. unfold Groups.groupMembers. rewrite Hm. unfold list_clients.
    rewrite (jfilter_eq _ _ (fun _ => false)).
    + by induction (map _ _).
    + apply Forall_forall. intros v Hv. pose proof (detached m2 gid (db b) v Hne Hv) as Hd.
      apply list_elem_of_fmap in Hv as (cl & -> & _). unfold jeq, jtruthy. rewrite jget_field by done.
      cbn [lit mbind res_bind]. by rewrite Hd.
  - destruct Hgs as [Hu|[m2 Hm]]; [by left|right]. by exists m2.
Qed.

(** ** Creating a group *)

Lemma loaded_groups d (s0 s : Groups.state) : loaded read_groups (says d) (unspeakable d) s0 s ->
  (unspeakable d (API +:+ "/groups") \/ exists m, Groups.groups s = list_groups m d) /\
  Groups.showForm s = Groups.showForm s0 /\ Groups.editId s = Groups.editId s0.
Proof.
  intros (f & -> & Hs & Hn). unfold read_groups in *. unfold filled, fill_in. cbn [foldr fst snd].
  pose proof (Hn (API +:+ "/groups", Groups.set_groups) ltac:(left)) as Hg. cbn [fst] in Hg.
  destruct (f (API +:+ "/groups")) as [v|] eqn:Eg; cbn;
    (split; [first [right; by apply says_groups, Hs|left; by apply Hg]|done]).
Qed.

(** C8. Creating a group, from the click to the table and back.  On the groups
    page of a session with nothing out, a name in the form and no group being
    edited: in at most five turns everything has come in and the form is closed.
    If no group has the name, and the identifiers the backend may draw are free,
    the table has one more group, with one of these identifiers, the trimmed
    name, the description and the limit of the form ("100 ГБ/юзер" when empty),
    and nothing else has changed; if a group has the name, nothing is stored, and
    the form closes all the same.  The page then shows the groups of the table,
    unless their list cannot be written as JSON. *)
Theorem group_creation (M : moment -> Prop) (m0 : moment) io refs (c : conf Groups.state) (b : backend) name n y :
  M m0 -> fields_are refs io -> trimmed refs "nameRef" = Some name -> truthy (Groups.editId (st c)) = false ->
  settled c -> constraints (db b) ->
  nsteps (turn Groups.page M) n (System (event_step Groups.page io Groups.HandleCreate c) b []) y ->
  n <= 5 /\
  ((exists y', turn Groups.page M y y') \/
   (settled (browser y) /\ Groups.showForm (st (browser y)) = false /\
    (name_taken name (db b) -> server y = b) /\
    (~ name_taken name (db b) -> (forall m, M m -> groups (db b) !! token_hex m = None) ->
     exists m, M m /\
       server y = Backend (with_group (Group (token_hex m) name (text_or refs "descRef" "")
                                         (text_or refs "limitRef" "100 ГБ/юзер")) (db b)) (core b) (restarts b)) /\
    (unspeakable (db (server y)) (API +:+ "/groups") \/
     exists m, Groups.groups (st (browser y)) = list_groups m (db (server y))))).
Proof.
  intros Hm0 Hio Hname He Hc Hcon Hn.
  pose proof (group_stored (LC:=fun _ => "") (Hist:=stack) (fresh "") M m0 Hm0 io refs Hio c name Hname He Hc b n y Hn)
    as [Hle [Ht|(Hy & m & HM & E & Hl)]]; (split; [done|]); [by left|right].
  destruct (loaded_groups _ _ _ Hl) as (Hgs & Hf & _). split; [done|]. split; [exact Hf|].
  destruct (create_group_done m (GroupCreateBody name (text_or refs "descRef" "") (text_or refs "limitRef" "100 ГБ/юзер")) b Hcon)
    as [Hfree Htaken]. cbn [gc_name gc_description gc_data_limit] in *. split; [|split; [|done]].
  - intros H0. rewrite (Htaken H0) in E. exact E.
  - intros H0 H1. exists m. split; [done|]. rewrite (Hfree (H1 m HM) H0) in E. exact E.
Qed.

(** ** Settings *)

(** What a section of the settings page saves. *)
Definition section_texts (refs : string -> option string) (checked : bool) (a : Settings.action) : list (string * string) :=
  match a with
  | Settings.SaveBot => [("telegram_bot_token", text_or refs "botTokenRef" "");
                         ("telegram_admin_chat_id", text_or refs "chatIdRef" "")]
  | Settings.SaveServer => [("server_port", text_or refs "portRef" "443"); ("stealth_domain", text_or refs "stealthRef" "");
                            ("logging_enabled", if checked then "true" else "false")]
  end.
Lemma section_data refs checked a : texts (section_texts refs checked a) =
  match a with Settings.SaveBot => PagesSpec.bot_data refs | Settings.SaveServer => PagesSpec.server_data refs checked end.
Proof. destruct a; cbn; unfold PagesSpec.bot_data, PagesSpec.server_data; by rewrite !field_text. Qed.

Lemma section_distinct refs checked a : NoDup (map fst (section_texts refs checked a)).
Proof. destruct a; apply (bool_decide_unpack _); by vm_compute. Qed.

Lemma update_settings_done kvs b : constraints (db b) ->
  update_settings (texts kvs) b =
    (Done (status "saved"), Backend (set_settings (foldl set_setting (settings (db b)) (texts kvs)) (db b)) (core b) (restarts b)).
Proof.
  intros Hc. unfold update_settings, hbind, query. cbn [id]. unfold commit.
  rewrite bool_decide_true; [done|exact Hc].
Qed.

Lemma save_served m b data : exists r,
  serve m (wrapped ADMIN_PASSWORD (API +:+ "/settings") (PagesSpec.settings_post data)) b = Some (r, snd (update_settings data b)) /\
  r = respond (fst (update_settings data b)).
Proof.
  rewrite (serve_at m (wrapped ADMIN_PASSWORD (API +:+ "/settings") (PagesSpec.settings_post data)) b "/settings"
    ["api"; "settings"] eq_refl eq_refl ltac:(by repeat constructor) (wrapped_password _ _)).
  assert (find_route "POST" ["" ; "api"; "settings"] (routes m (i_body (PagesSpec.settings_post data)))
          = Some (Handle (update_settings data))) as E by reflexivity.
  cbn [wrapped rq_method rq_body PagesSpec.settings_post i_method] in E |- *. rewrite E. cbn [reply_of].
  destruct (update_settings data b) as [o b']. by eexists.
Qed.

(** C10. Settings come back.  Saving a section of the settings page stores
    exactly what its inputs held (443 for an empty port): the next time the
    settings are read, every key of the section has
    the text of its input, every other key the value it had, and nothing else of
    the tables has changed. *)
Theorem settings_roundtrip m m' b refs checked a r b' r2 b2 :
  sound (db b) ->
  serve m (wrapped ADMIN_PASSWORD (API +:+ "/settings") (PagesSpec.settings_post
    (match a with Settings.SaveBot => PagesSpec.bot_data refs | Settings.SaveServer => PagesSpec.server_data refs checked end))) b
    = Some (r, b') ->
  serve m' (wrapped ADMIN_PASSWORD (API +:+ "/settings") GET) b' = Some (r2, b2) ->
  r_ok r = true /\ set_settings (settings (db b)) (db b') = db b /\ b2 = b' /\
  exists fs, r_json r2 = Ok (VObj fs) /\
    forall k, assoc k fs = VStr <$> match assoc k (section_texts refs checked a) with
                                    | Some v => Some v
                                    | None => value <$> settings (db b) !! k
                                    end.
Proof.
  intros [Hc (_ & _ & _ & _ & _ & Hk)]. rewrite <- section_data.
  destruct (save_served m b (texts (section_texts refs checked a))) as (r0 & -> & ->).
  rewrite update_settings_done by done. cbn [fst snd]. intros [= <- <-] H2.
  set (ss := foldl set_setting (settings (db b)) (texts (section_texts refs checked a))) in *.
  assert (("/settings", ["api"; "settings"], get_settings m') ∈ lists m') as Hin
    by (unfold lists; repeat first [apply list_elem_of_here|apply list_elem_of_further]).
  destruct (serve_list m' (wrapped ADMIN_PASSWORD (API +:+ "/settings") GET) _ _ _ _ _ _ Hin eq_refl eq_refl H2) as [-> ->].
  rewrite wrapped_password. cbn [db]. split; [done|]. split; [by destruct (db b)|]. split; [done|].
  unfold respond, get_settings. rewrite (text_fields_finite key value).
  eexists. split; [reflexivity|]. intros k. cbn [settings set_settings].
  rewrite (rows_assoc key (fun r => VStr (value r)) ss _ k (settings_keyed _ _ Hk) (row_order_ok m' ss)).
  unfold ss. rewrite <- saved_lookup by apply section_distinct.
  by destruct (foldl set_setting (settings (db b)) (texts (section_texts refs checked a)) !! k).
Qed.

(** ** Every form *)

(** C9. What the forms and buttons of the catalogue pages do.  On a page of a
    session with nothing out, each of these leads, in a bounded number of turns,
    to rest, with the tables as the one handler named leaves them on the data
    named, and the page's lists read back from them: a new tariff, server or
    billing rule, with what its form holds; the changes to a group that is being
    edited; the deletion of a tariff, a server, a rule once it is confirmed; the
    switch of a rule; the assignment of the selected clients to a group. *)
Theorem forms_stored (M : moment -> Prop) (m0 : moment) io refs : M m0 -> fields_are refs io ->
  (forall c name, trimmed refs "nameRef" = Some name -> settled c ->
     stores Templates.page M io Templates.HandleCreate c
       (fun m => parsed parse_TemplateCreate (create_template m) (Catalog.tariff_body refs name))
       (Templates.set_showForm false) read_templates) /\
  (forall c name, trimmed refs "nameRef" = Some name -> settled c ->
     stores Nodes.page M io Nodes.HandleCreate c
       (fun m => parsed parse_NodeCreate (create_node m) (Catalog.server_body refs name))
       (Nodes.set_showForm false) read_nodes) /\
  (forall c name trigger action, trimmed refs "nameRef" = Some name -> trimmed refs "triggerRef" = Some trigger ->
     trimmed refs "actionRef" = Some action -> settled c ->
     stores ResponseRules.page M io ResponseRules.HandleCreate c
       (fun m => create_rule m (RuleCreateBody name trigger action true))
       (ResponseRules.set_showForm false) read_rules) /\
  (forall c name gid, trimmed refs "nameRef" = Some name -> Groups.editId (st c) = VStr gid ->
     plain gid = true -> gid <> "" -> settled c ->
     stores Groups.page M io Groups.HandleCreate c
       (fun _ => update_group gid (GroupUpdateBody (Some name) (Some (text_or refs "descRef" ""))
                                     (Some (text_or refs "limitRef" "100 ГБ/юзер"))))
       (fun s => Groups.set_editId VNull (Groups.set_showForm false s)) read_groups) /\
  (forall id, plain id = true -> id <> "" ->
     (forall c, in_confirm io "Удалить этот тариф?" = true -> settled c ->
        stores Templates.page M io (Templates.HandleDelete (Ok (VStr id))) c
          (fun _ => delete_template id) (fun s => s) read_templates) /\
     (forall c, in_confirm io "Удалить этот сервер?" = true -> settled c ->
        stores Nodes.page M io (Nodes.HandleDelete (Ok (VStr id))) c (fun _ => delete_node id) (fun s => s) read_nodes) /\
     (forall c, in_confirm io "Удалить это правило?" = true -> settled c ->
        stores ResponseRules.page M io (ResponseRules.DeleteRule (Ok (VStr id))) c
          (fun _ => delete_rule id) (fun s => s) read_rules) /\
     (forall c cur, settled c ->
        stores ResponseRules.page M io (ResponseRules.ToggleRule (Ok (VStr id)) (Ok cur)) c
          (fun _ => toggle_rule id (negb (truthy cur))) (fun s => s) read_rules) /\
     (forall c ids, Groups.assignGroupId (st c) = VStr id -> Groups.selectedClients (st c) = map VStr ids ->
        ids <> [] -> settled c ->
        stores Groups.page M io Groups.HandleAssign c
          (fun _ => assign_clients_to_group id (AssignGroupBody ids id))
          (fun s => Groups.set_selectedClients [] (Groups.set_assignGroupId VNull s)) read_both)).
Proof.
  intros Hm0 Hio. pose (LC := (fun _ => "") : Locale). pose (h := fresh "" : stack).
  split; [intros; by apply (tariff_stored h M m0 Hm0 io refs Hio)|].
  split; [intros; by apply (server_stored h M m0 Hm0 io refs Hio)|].
  split; [intros; by apply (rule_stored h M m0 Hm0 io refs Hio)|].
  split; [intros; by apply (group_updated h M m0 Hm0 io refs Hio)|].
  intros id Hp Hne.
  split; [intros; by apply (tariff_deletion_stored h M m0 Hm0 io)|].
  split; [intros; by apply (server_deletion_stored h M m0 Hm0 io)|].
  split; [intros; by apply (rule_deletion_stored h M m0 Hm0 io)|].
  split; [intros; by apply (rule_toggle_stored h M m0 Hm0 io)|].
  intros; by apply (assignment_stored h M m0 Hm0 io).
Qed.

(** ** Editing a client *)

(** The text of an input that holds one. *)
Definition text_in (refs : string -> option string) (r : string) : option string :=
  match refs r with Some v => if str_truthy v then Some v else None | None => None end.
Lemma given_text refs f r : UsersSpec.given refs f r = match text_in refs r with Some v => [(f, VStr v)] | None => [] end.
Proof. unfold UsersSpec.given, field_or, text_in. destruct (refs r) as [v|]; [|done]. by destruct (str_truthy v). Qed.

Lemma update_parsed refs s : exists fs body, UsersSpec.update_body refs s = VObj fs /\ parse_ClientUpdate fs = Some body /\
  cu_username body = text_in refs "nameRef" /\ cu_telegram_id body = text_in refs "tgRef" /\
  cu_group_id body = Some (Users.selectedGroupId s) /\ cu_subscription_end body = Some (text_or refs "dateRef" "").
Proof.
  unfold UsersSpec.update_body. rewrite !given_text, (field_text refs "dateRef" "").
  destruct (text_in refs "nameRef") as [n|], (text_in refs "tgRef") as [tg|],
    (field_or_cases refs "limitRef" VUndef) as [->|(l & _ & _ & ->)]; cbn -[parseFloat];
    unfold json_num; try destruct (num_finite _); eexists _, _; (split; [reflexivity|]); (split; [reflexivity|]); done.
Qed.

Lemma update_served m b cid i s refs :
  plain cid = true -> cid <> "" -> i = Init "PATCH" [("Content-Type", "application/json")] (Some (UsersSpec.update_body refs s)) ->
  exists fs body r, parse_ClientUpdate fs = Some body /\ UsersSpec.update_body refs s = VObj fs /\
    serve m (wrapped ADMIN_PASSWORD (Users.client_url (VStr cid)) i) b = Some (r, snd (update_client cid body b)).
Proof.
  intros Hp Hne ->. destruct (update_parsed refs s) as (fs & body & Ef & Eb & _). exists fs, body.
  destruct (item_segments "clients" cid eq_refl Hp) as [E1 E2].
  destruct (handled_as m b "PATCH" ("/" +:+ "clients" +:+ "/" +:+ cid) ["api"; "clients"; cid]
    (Init "PATCH" [("Content-Type", "application/json")] (Some (UsersSpec.update_body refs s))) (update_client cid body)
    (Handle (update_client cid body)) E1 E2 eq_refl) as [r Hr].
  - assert (find_route "PATCH" ["" ; "api"; "clients"; cid] (routes m (Some (UsersSpec.update_body refs s))) =
      Some (body_as parse_ClientUpdate (Some (UsersSpec.update_body refs s)) (update_client cid))) as Hk.
    { apply (item_routed _ _ (fun i => body_as parse_ClientUpdate (Some (UsersSpec.update_body refs s)) (update_client i)));
        [done..|]. intros x Hx. cbn. by rewrite (proj2 (String.eqb_neq x "") Hx). }
    refine (eq_trans Hk _). rewrite Ef. cbn. by rewrite Eb.
  - by left.
  - exists r. split; [done|]. split; [done|]. exact Hr.
Qed.

(** C39. Saving a client nobody has edited changes it.  The clients page shows a
    client as the backend lists it, and its form is filled with what is shown;
    when the form is saved with its name and telegram inputs untouched, and the
    group select where a fresh page has it, the one request that is sent makes
    the backend store the placeholder of the list as the telegram identifier of
    a client that had none, and take the client out of its group, whatever group
    that was; nothing else but its limit and its end date is written. *)
Theorem untouched_edit_loses m0 m filter io (c : conf Users.state) refs t x (b : backend) cid row :
  constraints (db b) -> clients (db b) !! cid = Some row -> c_id row = cid -> plain cid = true -> cid <> "" ->
  Users.selectedGroupId (st c) = "" ->
  refs "nameRef" = Some (c_name row) -> refs "tgRef" = Some (or_str (c_telegram_id row) "—") ->
  let user := client_json m0 (db b) row in
  path (fields_are refs) (Users.handleUpdate (st (event_step (Users.page filter) io (Users.OpenUserDetails user) c))) t x ->
  exists rq rest, sent t = rq :: rest /\
    (has_password rq = true -> exists r l e, serve m rq b =
       Some (r, Backend (set_clients (<[cid := set_subscription_end e (set_group_id (Some "") (set_data_limit l
          (set_telegram_id (Some (or_str (c_telegram_id row) "—")) row)))]> (clients (db b))) (db b)) (core b) (restarts b))).
Proof.
  intros Hcon Hrow Hid Hp Hne Hfresh Hname Htg user Hrun.
  apply UsersSpec.update_patches in Hrun as [_ (token & id & rest & Hget & -> & _)]; [|done].
  cbn in Hget. injection Hget as <-. rewrite Hid.
  set (s := st (event_step (Users.page filter) io (Users.OpenUserDetails user) c)) in *.
  eexists _, rest. split; [done|]. intros Hpw.
  assert (token = ADMIN_PASSWORD) as ->.
  { unfold has_password in Hpw. cbn [wrapped rq_headers] in Hpw. rewrite assoc_merge in Hpw by apply NoDup_singleton.
    by apply String.eqb_eq in Hpw. }
  destruct (update_served m b cid _ s refs Hp Hne eq_refl) as (fs & body & r & Eb & Ef & Hs).
  destruct (update_parsed refs s) as (fs' & body' & Ef' & Eb' & H1 & H2 & H3 & H4).
  assert (fs' = fs) as -> by congruence. assert (body' = body) as -> by congruence.
  destruct (update_client_done cid body b row (or_str (c_telegram_id row) "—") "" (text_or refs "dateRef" "")) as (l & e & E);
    [done|done| | |rewrite H3; f_equal; exact Hfresh|done|].
  - rewrite H1. unfold text_in. rewrite Hname. destruct (str_truthy _); [by right|by left].
  - rewrite H2. unfold text_in. rewrite Htg. unfold or_str. destruct (c_telegram_id row) as [tg|]; [|done].
    by destruct (str_truthy tg) eqn:Et; [rewrite Et|].
  - exists r, l, e. rewrite E in Hs. exact Hs.
Qed.
End Tables.

(** ** A panel beside its backend *)

#[local] Instance production : BuildEnv := false.
#[local] Existing Instance sample_platform.
#[local] Existing Instance sample_laws.

(** The groups page at rest; a group with one client. *)
Definition on_groups : conf Groups.state := Conf Groups.init_state password_stored [] 0 [].
Definition bob : ClientDB :=
  Client "c1" "bob" None "shade://k" "10.0.0.2" "ShadeVPN" (num_of_Z 0) (num_of_Z 100) None None true (Some "vip") None.
Definition one_group : backend :=
  Backend (set_clients {["c1" := bob]} (set_groups {["vip" := Group "vip" "VIP" "" ""]} empty_database))
    (VObj [("clients", VArr [])]) 0.

Definition deletion_sent : system :=
  System (event_step Groups.page quiet_browser (Groups.HandleDelete (Ok (VStr "vip"))) on_groups) one_group [].

Definition any_moment (m : moment) : Prop := True.
Definition this_moment (m : moment) : Prop := m = sample_moment.

(** The eight turns. *)
Lemma group_deletion_detaches_witness :
  exists y, nsteps (turn Groups.page any_moment) 8 deletion_sent y /\ db (server y) = without_group "vip" (db one_group) /\
    (unspeakable (db (server y)) (API +:+ "/clients") \/
     Groups.groupMembers (st (browser y)) (VStr "vip") = Ok (VArr [])).
Proof.
  destruct (schedules_rest Groups.page any_moment 8 sample_moment quiet_browser deletion_sent I) as (y & Hn & Hp); [by vm_compute|].
  exists y. split; [exact Hn|].
  destruct (group_deletion_detaches any_moment sample_moment quiet_browser on_groups one_group "vip" _ 8 y
    I eq_refl eq_refl ltac:(done) (conj eq_refl eq_refl) ltac:(apply (bool_decide_unpack _); by vm_compute) eq_refl Hn)
    as [_ [Ht|(_ & E & Hc & _)]]; [by destruct (no_turn _ _ _ Hp Ht)|].
  split; [by rewrite E|exact Hc].
Defined.

(** The form holds the name of the group there is. *)
Definition name_vip : string -> option string := fun r => if String.eqb r "nameRef" then Some " VIP " else Some "".
Definition creation_sent : system :=
  System (event_step Groups.page (with_refs name_vip) Groups.HandleCreate on_groups) one_group [].
Definition creation_at_first : system :=
  System (event_step Groups.page (with_refs name_vip) Groups.HandleCreate on_groups) empty_backend [].
Lemma vip_taken : name_taken "VIP" (db one_group).
Proof. by exists "vip", (Group "vip" "VIP" "" ""). Qed.
Lemma group_creation_witness :
  (exists y, nsteps (turn Groups.page this_moment) 5 creation_sent y /\ name_taken "VIP" (db one_group) /\
     server y = one_group /\ Groups.showForm (st (browser y)) = false) /\
  (exists y, nsteps (turn Groups.page this_moment) 5 creation_at_first y /\ ~ name_taken "VIP" empty_database /\
     groups (db (server y)) !! "c0ffee00" = Some (Group "c0ffee00" "VIP" "" "100 ГБ/юзер")).
Proof.
  split.
  - destruct (schedules_rest Groups.page this_moment 5 sample_moment (with_refs name_vip) creation_sent eq_refl)
      as (y & Hn & Hp); [by vm_compute|].
    exists y. split; [exact Hn|]. split; [exact vip_taken|].
    destruct (group_creation this_moment sample_moment (with_refs name_vip) name_vip on_groups one_group "VIP" 5 y
      eq_refl (fun _ => eq_refl) eq_refl eq_refl (conj eq_refl eq_refl) ltac:(apply (bool_decide_unpack _); by vm_compute) Hn)
      as [_ [Ht|(_ & Hf & Htaken & _)]]; [by destruct (no_turn _ _ _ Hp Ht)|].
    split; [exact (Htaken vip_taken)|exact Hf].
  - destruct (schedules_rest Groups.page this_moment 5 sample_moment (with_refs name_vip) creation_at_first eq_refl)
      as (y & Hn & Hp); [by vm_compute|].
    assert (~ name_taken "VIP" empty_database) as Hfree by (by intros (k & g & Hk & _)).
    exists y. split; [exact Hn|]. split; [exact Hfree|].
    destruct (group_creation this_moment sample_moment (with_refs name_vip) name_vip on_groups empty_backend "VIP" 5 y
      eq_refl (fun _ => eq_refl) eq_refl eq_refl (conj eq_refl eq_refl) ltac:(apply (bool_decide_unpack _); by vm_compute) Hn)
      as [_ [Ht|(_ & _ & _ & Hnew & _)]]; [by destruct (no_turn _ _ _ Hp Ht)|].
    destruct (Hnew Hfree (fun _ _ => lookup_empty _)) as (m & -> & E). by rewrite E.
Defined.

Definition settings_sent : request :=
  wrapped ADMIN_PASSWORD (API +:+ "/settings") (PagesSpec.settings_post (PagesSpec.server_data name_vip true)).
Lemma empty_sound : sound (db empty_backend).
Proof. split; [apply (bool_decide_unpack _); by vm_compute|]. split_and!; apply map_Forall_empty. Qed.
Lemma settings_roundtrip_witness :
  exists r b r2 b2 fs, serve sample_moment settings_sent empty_backend = Some (r, b) /\
    serve sample_moment (wrapped ADMIN_PASSWORD (API +:+ "/settings") GET) b = Some (r2, b2) /\
    r_json r2 = Ok (VObj fs) /\ assoc "server_port" fs = Some (VStr "443").
Proof.
  destruct (serve sample_moment settings_sent empty_backend) as [[r b]|] eqn:E1; [|by vm_compute in E1].
  destruct (serve sample_moment (wrapped ADMIN_PASSWORD (API +:+ "/settings") GET) b) as [[r2 b2]|] eqn:E2.
  2: { pose proof (save_served sample_moment empty_backend (PagesSpec.server_data name_vip true)) as (r0 & E0 & _).
       unfold settings_sent in E1. rewrite E1 in E0. injection E0 as _ ->. by vm_compute in E2. }
  destruct (settings_roundtrip sample_moment sample_moment empty_backend name_vip true Settings.SaveServer r b r2 b2
    empty_sound E1 E2) as (_ & _ & _ & fs & Ef & Hk).
  exists r, b, r2, b2, fs. split; [exact eq_refl|]. split; [exact E2|]. split; [exact Ef|].
  rewrite Hk. reflexivity.
Defined.

Definition on_servers : conf Nodes.state := Conf Nodes.init_state password_stored [] 0 [].
Lemma forms_stored_witness :
  exists y, nsteps (turn Nodes.page any_moment) 5 (System (event_step Nodes.page (with_refs name_vip) Nodes.HandleCreate on_servers) one_group []) y /\
    exists m, server y = snd (parsed parse_NodeCreate (create_node m) (Catalog.server_body name_vip "VIP") one_group).
Proof.
  set (y0 := System (event_step Nodes.page (with_refs name_vip) Nodes.HandleCreate on_servers) one_group []).
  destruct (schedules_rest Nodes.page any_moment 5 sample_moment (with_refs name_vip) y0 I) as (y & Hn & Hp); [by vm_compute|].
  exists y. split; [exact Hn|].
  destruct (forms_stored any_moment sample_moment (with_refs name_vip) name_vip I (fun _ => eq_refl)) as (_ & Hs & _).
  destruct (Hs on_servers "VIP" eq_refl (conj eq_refl eq_refl) one_group 5 y Hn) as [_ [Ht|(_ & m & _ & E & _)]];
    [by destruct (no_turn _ _ _ Hp Ht)|]. exists m. exact E.
Defined.

(** Bob, in the group, without a telegram identifier. *)
Definition bob_form : string -> option string :=
  fun r => if String.eqb r "nameRef" then Some "bob" else if String.eqb r "tgRef" then Some "—" else Some "".
Lemma untouched_edit_loses_witness :
  exists rq rest r b row, rq_method rq = "PATCH" /\ has_password rq = true /\
    (exists t, sent t = rq :: rest) /\
    serve sample_moment rq one_group = Some (r, b) /\ clients (db b) !! "c1" = Some row /\
    c_telegram_id row = Some "—" /\ c_group_id row = Some "".
Proof.
  assert (exists t, path (fields_are bob_form) (Users.handleUpdate (st (event_step (Users.page VNull) quiet_browser
      (Users.OpenUserDetails (client_json sample_moment (db one_group) bob)) (Conf Users.init_state password_stored [] 0 [])))) t (Ok tt) /\
    match sent t with rq :: _ => rq_method rq = "PATCH" /\ has_password rq = true | [] => False end) as (t & Hrun & Hm).
  { eexists. split.
    - by eapply (play_path _ (with_refs bob_form)) with (store := password_stored) (l := [Replied (Response 200 (Ok VNull))]).
    - by vm_compute. }
  destruct (untouched_edit_loses sample_moment sample_moment VNull quiet_browser
    (Conf Users.init_state password_stored [] 0 []) bob_form t (Ok tt) one_group "c1" bob
    ltac:(apply (bool_decide_unpack _); by vm_compute) eq_refl eq_refl eq_refl ltac:(done) eq_refl eq_refl eq_refl Hrun)
    as (rq & rest & E & Hs).
  rewrite E in Hm. destruct Hm as [H1 H2]. destruct (Hs H2) as (r & l & e & Hserve).
  eexists rq, rest, r, _, _. split; [exact H1|]. split; [exact H2|]. split; [by exists t|]. split; [exact Hserve|].
  split; [apply lookup_insert_eq|]. split; reflexivity.
Defined.
