(* ===== verification/PanelRest.v ===== *)
(** * The panel as a whole comes to rest

    Once the user stops, what is still out (requests of the login form, of the
    page on display and of the pages that were left, one-shot timers) settles in
    a number of steps known beforehand, without moving the user, and then only
    the polling interval of the page on display is pending. *)
From S2P Require Import Prelude JsStr JsNum JsVal React Effects Logic Storage Api Typed Promises Orderly Work RouterMachine PanelScreens PanelMachine.
From S2P Require AdminApp Safety Quiescence PanelRuns.
Local Open Scope string_scope.

(** ** Sums and lists *)

Lemma sum_list_update (ws : list nat) j w v :
  ws !! j = Some w -> sum_list (<[j := v]> ws) + w = sum_list ws + v.
Proof.
  revert j. induction ws as [|x ws IH]; intros [|j]; try done.
  - intros [= ->]. change (v + sum_list ws + w = w + sum_list ws + v). lia.
  - intros Hj. change (x + sum_list (<[j := v]> ws) + w = x + sum_list ws + v). specialize (IH j Hj). lia.
Qed.

Section Panel.
Context `{BE : BuildEnv} `{LC : Locale} {Hist : Type} `{RT : Router Hist} `{RL : !RouterLaws Hist} `{RM : Matcher} `{ML : !MatcherLaws}.
Local Abbreviation pages := (app Hist screen).
Local Abbreviation panel := (PanelMachine.panel (Hist:=Hist)).

(** A step nobody asks for. *)
Inductive settles_in (p : panel) : panel -> Prop :=
| rest_entry io e : settles AdminApp.page (set_store (storage p) (entry p)) e ->
    settles_in p (entry_moved io e p)
| rest_live io fr (a : pages) c : shown p = Shown fr a ->
    settles (screen_component (hist a) (cur a)) (live a) c ->
    settles_in p (Panel (entry p) (Shown fr (live_move io a c)))
| rest_promise io fr (a : pages) j s c i id q (k : res (reply q) -> prog (state_of s) unit) o :
    shown p = Shown fr a -> left a !! j = Some (Gone s c) -> pend c !! i = Some (id, Waiting q k) ->
    settles_in p (Panel (entry p) (Shown fr (left_move io j c i false (k o) a)))
| rest_timer io fr (a : pages) j s c i id ms (q : prog (state_of s) unit) :
    shown p = Shown fr a -> left a !! j = Some (Gone s c) -> pend c !! i = Some (id, Timer false ms q) ->
    settles_in p (Panel (entry p) (Shown fr (left_move io j c i false q a))).

(** Nothing is pending but the interval of the page on display. *)
Definition panel_rest (p : panel) : Prop :=
  at_rest (entry p) /\
  match shown p with
  | NoPage _ => True
  | Shown _ a => at_rest (live a) /\ Forall (fun g => pend (gone_conf g) = []) (left a)
  end.

Lemma settles_any {S A} (C : component S A) P' c c' :
  settles C c c' -> kept_step any_server C P' c c'.
Proof. intros [io i id q k o d Hi|io i id ms q d Hi]; econstructor; try done. by destruct q, o. Qed.

Lemma settles_moves p p' : settles_in p p' -> stays_in any_server any_action p p'.
Proof.
  intros [io e Hs|io fr a c E Hs|io fr a j s c i id q k o E Hj Hi|io fr a j s c i id ms q E Hj Hi]; eexists.
  - apply in_entry. by apply settles_any.
  - eapply in_page; [exact E|]. apply moves_live. by apply settles_any.
  - eapply in_page; [exact E|]. eapply moves_settle; [exact Hj|exact Hi|by destruct q, o].
  - eapply in_page; [exact E|]. by apply (moves_timer _ _ a io j s c i id false ms q).
Qed.

Local Abbreviation ok := (panel_ok (Hist:=Hist) any_server any_state (fun _ => True)).
Lemma settles_ok p p' : ok p -> settles_in p p' -> ok p'.
Proof.
  intros Hp Hs. destruct (settles_moves _ _ Hs) as [l Hm].
  by eapply (panel_moves_ok _ _ any_state pages_any (fun _ => True)).
Qed.

(** ** The work still to be done *)

Definition panel_work (p : panel) (n : nat) : Prop :=
  match shown p with
  | NoPage _ => False
  | Shown _ a => exists we wl ws, work (entry p) we /\ work (live a) wl /\
      Forall2 (fun g w => work (gone_conf g) w) (left a) ws /\ we + wl + sum_list ws <= n
  end.

Lemma ok_works p fr a : ok p -> shown p = Shown fr a -> exists n, panel_work p n.
Proof.
  intros [[_ _ [we He]] Hd] E. unfold panel_work. rewrite E in Hd |- *.
  destruct Hd as (_ & _ & [_ [_ _ [_ _ _ [wl Hl]]] W3 _]).
  assert (exists ws, Forall2 (fun g w => work (gone_conf g) w) (left a) ws) as [ws Hws].
  { induction W3 as [|g l [_ _ _ [w Hw]] _ [ws Hws]]; [by exists []|exists (w :: ws); by constructor]. }
  exists (we + wl + sum_list ws), we, wl, ws. by split_and!.
Qed.

(** A task that runs and does not navigate, and does one piece of the work. *)
Lemma run_silent {S} io (q : prog S unit) c0 c : log c0 = log c ->
  within (fun _ => True) never_navigates q -> omap nav_of (since c (run io q c0)) = [].
Proof.
  intros Elog Hq. destruct (run_observes _ _ io q c0 Hq) as (l & El & Hl & _).
  rewrite (since_app c (run io q c0) l) by by rewrite El, Elog.
  clear El. induction Hl as [|o l Ho _ IH]; [done|]. by destruct o as [[]| |].
Qed.
Lemma task_runs {S} io (q : prog S unit) i t (c c0 : conf S) w :
  pend c !! i = Some t -> pend c0 = pend c -> (forall n, task_work t n -> exists m, n = Datatypes.S m /\ bounded m q) ->
  work c w -> exists w', w = Datatypes.S w' /\ work (run io q (take_task i c0)) w'.
Proof.
  intros Hi Ep Hq Hw. assert (work c0 w) as Hw0 by (destruct Hw as (ws & ? & ?); exists ws; by rewrite Ep).
  rewrite <- Ep in Hi. destruct (work_take _ _ _ _ Hi Hw0) as (n & Hn & Hle & Ht).
  destruct (Hq n Hn) as (m & -> & Hm). exists (w - 1). split; [lia|].
  replace (w - 1) with (w - Datatypes.S m + m) by lia. by apply work_run.
Qed.

(** A page on display: one piece of its work, and no navigation. *)
Lemma page_settles h s (c c' : conf (state_of s)) w :
  tended (poll_of s) c -> settles (component_of h s) c c' -> work c w ->
  omap nav_of (since c c') = [] /\ exists w', w = Datatypes.S w' /\ work c' w'.
Proof.
  intros Ht Hs Hw. split; [|by eapply settles_work; [apply pages_work|exact Hs|]].
  pose proof (tended_quiet _ _ Ht) as Hq.
  destruct Hs as [io i id q k o d Hi|io i id ms p d Hi];
    unfold settle_step, timer_step, commit_after; rewrite pages_commit; cbn [run skip];
    (apply run_silent; [done|]); apply (Forall_lookup_1 _ _ _ _ Hq Hi).
Qed.

(** A task of a page that was left. *)
Lemma left_settles p fr (a : pages) j s (c : conf (state_of s)) io i t (q : prog (state_of s) unit) n :
  shown p = Shown fr a -> left a !! j = Some (Gone s c) -> pend c !! i = Some t ->
  (forall m, task_work t m -> exists m', m = Datatypes.S m' /\ bounded m' q) ->
  within (fun _ => True) never_navigates q -> panel_work p n ->
  exists m, n = Datatypes.S m /\
    panel_work (Panel (entry p) (Shown fr (left_move io j c i false q a))) m /\
    hist (left_move io j c i false q a) = hist a /\ cur (left_move io j c i false q a) = cur a.
Proof.
  intros E Hj Hi Hq Hn Hw. unfold panel_work in Hw |- *. rewrite E in Hw. cbn [shown].
  destruct Hw as (we & wl & ws & He & Hl & Hws & Hle).
  destruct (Forall2_lookup_l _ _ _ _ _ Hws Hj) as (w & Ew & Hc).
  destruct (task_runs io q i t c (set_store (store (live a)) c) w Hi eq_refl Hq Hc) as (w' & -> & Hw').
  rewrite left_move_silent by exact (run_silent io q (take_task i (set_store (store (live a)) c)) c eq_refl Hn).
  pose proof (sum_list_update ws j _ w' Ew) as Hsum. exists (n - 1).
  assert (n > 0) by lia. split; [lia|]. split; [|done].
  exists we, wl, (<[j := w']> ws). cbn [entry live left]. split; [done|]. split; [done|]. split; [|lia].
  by apply Forall2_insert.
Qed.

(** Where the user is. *)
Definition place (p : panel) : option (Hist * screen) :=
  match shown p with NoPage _ => None | Shown _ a => Some (hist a, cur a) end.

Lemma settles_in_work p p' n : ok p -> panel_work p n -> settles_in p p' ->
  exists m, n = Datatypes.S m /\ panel_work p' m /\ place p' = place p.
Proof.
  intros [He Hd] Hw Hs. destruct Hs as [io e Hs|io fr a c E Hs|io fr a j s c i id q k o E Hj Hi|io fr a j s c i id ms q E Hj Hi].
  - unfold panel_work, place, entry_moved in *. cbn [shown entry]. destruct (shown p) as [h|fr a]; [done|].
    destruct Hw as (we & wl & ws & We & Wl & Ws & Hle).
    destruct (settles_work _ Quiescence.login_work _ _ _ Hs We) as (w' & -> & We').
    exists (n - 1). split; [lia|]. split; [|done]. exists w', wl, ws. cbn [live left]. split_and!; [done..|lia].
  - rewrite E in Hd. destruct Hd as (_ & _ & [_ [_ _ Ht] _ _]). unfold panel_work, place in *. rewrite E in Hw |- *.
    destruct Hw as (we & wl & ws & We & Wl & Ws & Hle). cbn [shown entry].
    destruct (page_settles (hist a) (cur a) _ _ _ Ht Hs Wl) as (Hn & w' & -> & Wl').
    rewrite live_move_silent by exact Hn. exists (n - 1). split; [lia|]. split; [|done].
    exists we, w', ws. cbn [live left]. split_and!; [done..|lia].
  - rewrite E in Hd. destruct Hd as (_ & _ & [_ _ W3 _]). pose proof (Forall_lookup_1 _ _ _ _ W3 Hj) as Ht.
    destruct (left_settles p fr a j s c io i _ (k o) n E Hj Hi) as (m & -> & Hm & Eh & Ec); [|
      apply (Forall_lookup_1 _ _ _ _ (tended_quiet _ _ Ht) Hi)|done|].
    + intros m (m' & -> & Hm). by exists m'.
    + exists m. unfold place. rewrite E. cbn [shown]. split_and!; [done..|]. by rewrite Eh, Ec.
  - rewrite E in Hd. destruct Hd as (_ & _ & [_ _ W3 _]). pose proof (Forall_lookup_1 _ _ _ _ W3 Hj) as Ht.
    destruct (left_settles p fr a j s c io i _ q n E Hj Hi) as (m & -> & Hm & Eh & Ec); [|
      apply (Forall_lookup_1 _ _ _ _ (tended_quiet _ _ Ht) Hi)|done|].
    + intros m (m' & -> & Hm). by exists m'.
    + exists m. unfold place. rewrite E. cbn [shown]. split_and!; [done..|]. by rewrite Eh, Ec.
Qed.

(** While the panel is not at rest something can settle. *)
Lemma pending_left (l : list (gone Hist screen)) :
  Forall (fun g => pend (gone_conf g) = []) l \/
  exists j g t ts, l !! j = Some g /\ pend (gone_conf g) = t :: ts.
Proof.
  induction l as [|g l [IH|(j & g' & t & ts & Hj & Hp)]]; [by left| |right; by exists (S j), g', t, ts].
  destruct (pend (gone_conf g)) as [|t ts] eqn:E; [left; by constructor|right; by exists 0, g, t, ts].
Qed.

Lemma rest_or_more p fr a : ok p -> shown p = Shown fr a -> panel_rest p \/ exists p', settles_in p p'.
Proof.
  intros [He Hd] E. unfold panel_rest. rewrite E in Hd |- *. destruct Hd as (_ & _ & [_ _ W3 _]).
  destruct (rest_or_settles AdminApp.page (set_store (storage p) (entry p))) as [Hr|[e Hs]];
    [|right; eexists; by apply (rest_entry p quiet_browser)].
  destruct (rest_or_settles (screen_component (hist a) (cur a)) (live a)) as [Hl|[c Hs]];
    [|right; eexists; by apply (rest_live p quiet_browser fr a c)].
  destruct (pending_left (left a)) as [Hg|(j & [s c] & [id t] & ts & Hj & Hp)]; [by left|right].
  assert (pend c !! 0 = Some (id, t)) as Hi by exact (f_equal (fun l => l !! 0) Hp).
  pose proof (Forall_lookup_1 _ _ _ _ W3 Hj) as Ht. destruct t as [q k|b ms q].
  - eexists. by apply (rest_promise p quiet_browser fr a j s c 0 id q k (Err NetworkError)).
  - destruct (tended_timer _ _ _ _ _ _ _ Ht Hi) as [Hb _]. destruct b; [by specialize (Hb eq_refl)|].
    eexists. by apply (rest_timer p quiet_browser fr a j s c 0 id ms q).
Qed.

(** C27. The panel comes to rest.  From every configuration in which a page is
    shown there is a number of steps after which, in whatever order the promises
    and one-shot timers of the login form, of the page on display and of the
    pages that were left settle, and whatever the server answers, nothing is
    pending but the polling interval of the page on display; until then
    something can always settle; and meanwhile the location and the page on
    display do not change. *)
Theorem panel_rests (path : string) (s0 : gmap string string) (p : panel) fr (a : pages) :
  Safety.declared path -> panel_ran any_server any_action path s0 p -> shown p = Shown fr a ->
  exists n, forall k p', nsteps settles_in k p p' ->
    k <= n /\ place p' = Some (hist a, cur a) /\ (k = n -> panel_rest p') /\
    (panel_rest p' \/ exists p2, settles_in p' p2).
Proof.
  intros Hpath Hp E.
  apply (panel_ran_ok _ _ any_state pages_any (fun _ => True)) in Hp; [|done..].
  destruct (ok_works _ _ _ Hp E) as [n Hn]. exists n.
  assert (forall k p', nsteps settles_in k p p' ->
    ok p' /\ place p' = place p /\ exists m, n = k + m /\ panel_work p' m) as Hsteps.
  { intros k p' Hk. clear E. revert n Hn. induction Hk as [p|k p1 p2 p3 H12 _ IH]; intros n Hn; [by eauto|].
    destruct (settles_in_work _ _ _ Hp Hn H12) as (m & -> & Hm & E2).
    destruct (IH (settles_ok _ _ Hp H12) m Hm) as (Hok & E3 & m' & -> & Hm').
    split; [done|]. split; [by rewrite E3|]. by exists m'. }
  intros k p' Hk. destruct (Hsteps k p' Hk) as (Hok & Epl & m & -> & Hm).
  unfold place in Epl at 2. rewrite E in Epl. split; [lia|]. split; [done|].
  assert (exists fr' a', shown p' = Shown fr' a') as (fr' & a' & E').
  { unfold place in Epl. destruct (shown p') as [h|fr' a']; [done|by exists fr', a']. }
  pose proof (rest_or_more _ _ _ Hok E') as Hr. split; [|done].
  intros Heq. destruct Hr as [|[p2 Hs]]; [done|].
  destruct (settles_in_work _ _ _ Hok Hm Hs) as (m' & -> & _). lia.
Qed.
End Panel.

#[local] Existing Instances PanelRuns.production PanelRuns.no_locale path_matcher path_laws.

(** The panel just opened on the clients page. *)
Lemma panel_rests_witness :
  exists fr a n, shown PanelRuns.opened = Shown fr a /\
    forall k p, nsteps settles_in k PanelRuns.opened p -> k <= n.
Proof.
  destruct (panel_rests (Hist:=stack) "/users" PanelRuns.token_stored PanelRuns.opened _ _
    PanelRuns.users_declared (panel_start _ _ _ _ _) eq_refl) as (n & Hn).
  eexists _, _, n. split; [reflexivity|]. intros k p Hk. apply (Hn k p Hk).
Defined.
