(* ===== verification/Ui.v ===== *)
(** * The vocabulary of the UI kit ([components/ui])

    The kit's components are functions of their props.  A component that
    destructures [{ className, size = "md", children, ...props }] is a function
    of the named props (each a [val], [VUndef] when the caller left it out), of
    its children, and of the remaining attributes.  [clsx], [tailwind-merge]
    and [class-variance-authority] are libraries: parameters. *)
From S2P Require Import Prelude JsStr JsNum JsVal React.
Local Open Scope string_scope.
Local Open Scope js_scope.

Class UiLib := {
  clsx : list val -> string;
  twMerge : string -> string;
  (** [cva(base, { variants, defaultVariants })(chosen)] *)
  variance : string -> list (string * list (string * string)) -> list (string * string) ->
             list (string * val) -> string;
}.

Section Kit.
Context `{UiLib}.

(** [cn(...inputs)] of [components/ui/utils.ts]. *)
Definition cn (inputs : list expr) : expr :=
  vs ← sequence inputs; Ok (VStr (twMerge (clsx vs))).

Definition cva (base : string) (variants : list (string * list (string * string)))
    (defaults : list (string * string)) (chosen : list (string * expr)) : expr :=
  vs ← sequence (map snd chosen);
  Ok (VStr (variance base variants defaults (zip (map fst chosen) vs))).
End Kit.

(** [{...a, ...b}] for objects. *)
Definition jspread (a b : expr) : expr :=
  x ← a; y ← b;
  match x, y with
  | VObj fs, VObj gs => Ok (VObj (merge fs gs))
  | _, _ => Ok x
  end.

(** The default value of a destructured prop. *)
Definition dflt (v d : val) : val := match v with VUndef => d | _ => v end.

Abbreviation attrs A := (list (string * attr A)).
(** The [children] prop; [None] when the caller gave none. *)
Abbreviation kids_prop A := (option (list (node A))).

Section Props.
Context {A : Type}.

Definition slot (children : kids_prop A) : jsx A := Ok (default [] children).
(** [{children ?? <x/>}]. *)
Definition given (children : kids_prop A) (j : jsx A) : jsx A :=
  match children with Some ns => Ok ns | None => j end.

Definition del_attr (k : string) (l : attrs A) : attrs A :=
  List.filter (fun p => negb (String.eqb k (fst p))) l.

(** The children an attribute list carries. *)
Definition carried (l : attrs A) : option (jsx A) :=
  match assoc "children" l with
  | Some (AElem ns) => Some (Ok ns)
  | Some (AVal v) => Some (child_of v)
  | _ => None
  end.

(** An element some of whose attributes are spread: the spread may carry
    [children], which are the element's when it has none of its own, and are
    overridden otherwise. *)
Definition elp (tag : string) (items : list (item A)) (own : list (jsx A)) : jsx A :=
  ps ← props_from [] items;
  ks ← sequence own;
  match own, carried ps with
  | [], Some j => ns ← j; Ok [Elem tag (del_attr "children" ps) ns]
  | _ :: _, Some _ => Ok [Elem tag (del_attr "children" ps) (concat ks)]
  | _, None => Ok [Elem tag ps (concat ks)]
  end.

Definition elpV (tag : expr) (items : list (item A)) (own : list (jsx A)) : jsx A :=
  t ← tag;
  match t with
  | VComp name | VStr name => elp name items own
  | _ => Err (UserError "Element type is invalid")
  end.
End Props.
