(* ===== verification/UiBasics.v ===== *)
(** * The UI kit: basic components *)
From S2P Require Import Prelude JsStr JsNum JsVal React Ui.
Local Open Scope string_scope.
Local Open Scope js_scope.

Section Kit.
Context `{UiLib} {A : Type}.

(** ** [accordion.tsx] *)

Definition Accordion (props : attrs A) : jsx A :=
  elp "AccordionPrimitive.Root" ["data-slot" =: "accordion"; Spread (Ok props)] [].

Definition AccordionItem (className : val) (props : attrs A) : jsx A :=
  elp "AccordionPrimitive.Item" ["data-slot" =: "accordion-item";
     "className" =: cn ["border-b last:border-b-0"; className];
     Spread (Ok props)] [].

Definition AccordionTrigger (className : val) (children : kids_prop A) (props : attrs A) : jsx A :=
  el "AccordionPrimitive.Header" ["className" =: "flex"] [
    elp "AccordionPrimitive.Trigger" ["data-slot" =: "accordion-trigger";
       "className" =: cn ["focus-visible:border-ring focus-visible:ring-ring/50 flex flex-1 items-start justify-between gap-4 rounded-md py-4 text-left text-sm font-medium transition-all outline-none hover:underline focus-visible:ring-[3px] disabled:pointer-events-none disabled:opacity-50 [&[data-state=open]>svg]:rotate-180"; className];
       Spread (Ok props)] [
      slot children;
      el "ChevronDownIcon" ["className" =: "text-muted-foreground pointer-events-none size-4 shrink-0 translate-y-0.5 transition-transform duration-200"] []]].

Definition AccordionContent (className : val) (children : kids_prop A) (props : attrs A) : jsx A :=
  elp "AccordionPrimitive.Content" ["data-slot" =: "accordion-content";
     "className" =: "data-[state=closed]:animate-accordion-up data-[state=open]:animate-accordion-down overflow-hidden text-sm";
     Spread (Ok props)] [
    el "div" ["className" =: cn ["pt-0 pb-4"; className]] [slot children]].

(** ** [alert.tsx] *)

Definition alertVariants (chosen : list (string * expr)) : expr :=
  cva "relative w-full rounded-lg border px-4 py-3 text-sm grid has-[>svg]:grid-cols-[calc(var(--spacing)*4)_1fr] grid-cols-[0_1fr] has-[>svg]:gap-x-3 gap-y-0.5 items-start [&>svg]:size-4 [&>svg]:translate-y-0.5 [&>svg]:text-current"
    [("variant", [("default", "bg-card text-card-foreground"); ("destructive", "text-destructive bg-card [&>svg]:text-current *:data-[slot=alert-description]:text-destructive/90")])]
    [("variant", "default")] chosen.

Definition Alert (className variant : val) (props : attrs A) : jsx A :=
  elp "div" ["data-slot" =: "alert";
     "role" =: "alert";
     "className" =: cn [alertVariants [("variant", variant : expr)]; className];
     Spread (Ok props)] [].

Definition AlertTitle (className : val) (props : attrs A) : jsx A :=
  elp "div" ["data-slot" =: "alert-title";
     "className" =: cn ["col-start-2 line-clamp-1 min-h-4 font-medium tracking-tight"; className];
     Spread (Ok props)] [].

Definition AlertDescription (className : val) (props : attrs A) : jsx A :=
  elp "div" ["data-slot" =: "alert-description";
     "className" =: cn ["text-muted-foreground col-start-2 grid justify-items-start gap-1 text-sm [&_p]:leading-relaxed"; className];
     Spread (Ok props)] [].

(** ** [aspect-ratio.tsx] *)

Definition AspectRatio (props : attrs A) : jsx A :=
  elp "AspectRatioPrimitive.Root" ["data-slot" =: "aspect-ratio"; Spread (Ok props)] [].

(** ** [avatar.tsx] *)

Definition Avatar (className : val) (props : attrs A) : jsx A :=
  elp "AvatarPrimitive.Root" ["data-slot" =: "avatar";
     "className" =: cn ["relative flex size-10 shrink-0 overflow-hidden rounded-full"; className];
     Spread (Ok props)] [].

Definition AvatarImage (className : val) (props : attrs A) : jsx A :=
  elp "AvatarPrimitive.Image" ["data-slot" =: "avatar-image";
     "className" =: cn ["aspect-square size-full"; className];
     Spread (Ok props)] [].

Definition AvatarFallback (className : val) (props : attrs A) : jsx A :=
  elp "AvatarPrimitive.Fallback" ["data-slot" =: "avatar-fallback";
     "className" =: cn ["bg-muted flex size-full items-center justify-center rounded-full"; className];
     Spread (Ok props)] [].

(** ** [badge.tsx] *)

Definition badgeVariants (chosen : list (string * expr)) : expr :=
  cva "inline-flex items-center justify-center rounded-md border px-2 py-0.5 text-xs font-medium w-fit whitespace-nowrap shrink-0 [&>svg]:size-3 gap-1 [&>svg]:pointer-events-none focus-visible:border-ring focus-visible:ring-ring/50 focus-visible:ring-[3px] aria-invalid:ring-destructive/20 dark:aria-invalid:ring-destructive/40 aria-invalid:border-destructive transition-[color,box-shadow] overflow-hidden"
    [("variant", [("default", "border-transparent bg-primary text-primary-foreground [a&]:hover:bg-primary/90"); ("secondary", "border-transparent bg-secondary text-secondary-foreground [a&]:hover:bg-secondary/90"); ("destructive", "border-transparent bg-destructive text-white [a&]:hover:bg-destructive/90 focus-visible:ring-destructive/20 dark:focus-visible:ring-destructive/40 dark:bg-destructive/60"); ("outline", "text-foreground [a&]:hover:bg-accent [a&]:hover:text-accent-foreground")])]
    [("variant", "default")] chosen.

Definition Badge (className variant asChild : val) (props : attrs A) : jsx A :=
  let asChild := dflt asChild false in
  elpV (jcond asChild (VComp "Slot") "span") ["data-slot" =: "badge";
     "className" =: cn [badgeVariants [("variant", variant : expr)]; className];
     Spread (Ok props)] [].

(** ** [breadcrumb.tsx] *)

Definition Breadcrumb (props : attrs A) : jsx A :=
  elp "nav" ["aria-label" =: "breadcrumb"; "data-slot" =: "breadcrumb"; Spread (Ok props)] [].

Definition BreadcrumbList (className : val) (props : attrs A) : jsx A :=
  elp "ol" ["data-slot" =: "breadcrumb-list";
     "className" =: cn ["text-muted-foreground flex flex-wrap items-center gap-1.5 text-sm break-words sm:gap-2.5"; className];
     Spread (Ok props)] [].

Definition BreadcrumbItem (className : val) (props : attrs A) : jsx A :=
  elp "li" ["data-slot" =: "breadcrumb-item";
     "className" =: cn ["inline-flex items-center gap-1.5"; className];
     Spread (Ok props)] [].

Definition BreadcrumbLink (asChild className : val) (props : attrs A) : jsx A :=
  elpV (jcond asChild (VComp "Slot") "a") ["data-slot" =: "breadcrumb-link";
     "className" =: cn ["hover:text-foreground transition-colors"; className];
     Spread (Ok props)] [].

Definition BreadcrumbPage (className : val) (props : attrs A) : jsx A :=
  elp "span" ["data-slot" =: "breadcrumb-page";
     "role" =: "link";
     "aria-disabled" =: "true";
     "aria-current" =: "page";
     "className" =: cn ["text-foreground font-normal"; className];
     Spread (Ok props)] [].

Definition BreadcrumbSeparator (children : kids_prop A) (className : val) (props : attrs A) : jsx A :=
  elp "li" ["data-slot" =: "breadcrumb-separator";
     "role" =: "presentation";
     "aria-hidden" =: "true";
     "className" =: cn ["[&>svg]:size-3.5"; className];
     Spread (Ok props)] [
    given children
      (el "ChevronRight" [] [])].

Definition BreadcrumbEllipsis (className : val) (props : attrs A) : jsx A :=
  elp "span" ["data-slot" =: "breadcrumb-ellipsis";
     "role" =: "presentation";
     "aria-hidden" =: "true";
     "className" =: cn ["flex size-9 items-center justify-center"; className];
     Spread (Ok props)] [
    el "MoreHorizontal" ["className" =: "size-4"] [];
    el "span" ["className" =: "sr-only"] [txt "More"]].

(** ** [button.tsx] *)

Definition buttonVariants (chosen : list (string * expr)) : expr :=
  cva "inline-flex items-center justify-center gap-2 whitespace-nowrap rounded-md text-sm font-medium transition-all disabled:pointer-events-none disabled:opacity-50 [&_svg]:pointer-events-none [&_svg:not([class*='size-'])]:size-4 shrink-0 [&_svg]:shrink-0 outline-none focus-visible:border-ring focus-visible:ring-ring/50 focus-visible:ring-[3px] aria-invalid:ring-destructive/20 dark:aria-invalid:ring-destructive/40 aria-invalid:border-destructive"
    [("variant", [("default", "bg-primary text-primary-foreground hover:bg-primary/90"); ("destructive", "bg-destructive text-white hover:bg-destructive/90 focus-visible:ring-destructive/20 dark:focus-visible:ring-destructive/40 dark:bg-destructive/60"); ("outline", "border bg-background text-foreground hover:bg-accent hover:text-accent-foreground dark:bg-input/30 dark:border-input dark:hover:bg-input/50"); ("secondary", "bg-secondary text-secondary-foreground hover:bg-secondary/80"); ("ghost", "hover:bg-accent hover:text-accent-foreground dark:hover:bg-accent/50"); ("link", "text-primary underline-offset-4 hover:underline")]);
     ("size", [("default", "h-9 px-4 py-2 has-[>svg]:px-3"); ("sm", "h-8 rounded-md gap-1.5 px-3 has-[>svg]:px-2.5"); ("lg", "h-10 rounded-md px-6 has-[>svg]:px-4"); ("icon", "size-9 rounded-md")])]
    [("variant", "default"); ("size", "default")] chosen.

Definition Button (className variant size asChild : val) (props : attrs A) : jsx A :=
  let asChild := dflt asChild false in
  elpV (jcond asChild (VComp "Slot") "button") ["data-slot" =: "button";
     "className" =: cn [buttonVariants [("variant", variant : expr); ("size", size : expr); ("className", className : expr)]];
     Spread (Ok props)] [].

(** ** [card.tsx] *)

Definition Card (className : val) (props : attrs A) : jsx A :=
  elp "div" ["data-slot" =: "card";
     "className" =: cn ["bg-card text-card-foreground flex flex-col gap-6 rounded-xl border"; className];
     Spread (Ok props)] [].

Definition CardHeader (className : val) (props : attrs A) : jsx A :=
  elp "div" ["data-slot" =: "card-header";
     "className" =: cn ["@container/card-header grid auto-rows-min grid-rows-[auto_auto] items-start gap-1.5 px-6 pt-6 has-data-[slot=card-action]:grid-cols-[1fr_auto] [.border-b]:pb-6"; className];
     Spread (Ok props)] [].

Definition CardTitle (className : val) (props : attrs A) : jsx A :=
  elp "h4" ["data-slot" =: "card-title";
     "className" =: cn ["leading-none"; className];
     Spread (Ok props)] [].

Definition CardDescription (className : val) (props : attrs A) : jsx A :=
  elp "p" ["data-slot" =: "card-description";
     "className" =: cn ["text-muted-foreground"; className];
     Spread (Ok props)] [].

Definition CardAction (className : val) (props : attrs A) : jsx A :=
  elp "div" ["data-slot" =: "card-action";
     "className" =: cn ["col-start-2 row-span-2 row-start-1 self-start justify-self-end"; className];
     Spread (Ok props)] [].

Definition CardContent (className : val) (props : attrs A) : jsx A :=
  elp "div" ["data-slot" =: "card-content";
     "className" =: cn ["px-6 [&:last-child]:pb-6"; className];
     Spread (Ok props)] [].

Definition CardFooter (className : val) (props : attrs A) : jsx A :=
  elp "div" ["data-slot" =: "card-footer";
     "className" =: cn ["flex items-center px-6 pb-6 [.border-t]:pt-6"; className];
     Spread (Ok props)] [].

(** ** [checkbox.tsx] *)

Definition Checkbox (className : val) (props : attrs A) : jsx A :=
  elp "CheckboxPrimitive.Root" ["data-slot" =: "checkbox";
     "className" =: cn ["peer border bg-input-background dark:bg-input/30 data-[state=checked]:bg-primary data-[state=checked]:text-primary-foreground dark:data-[state=checked]:bg-primary data-[state=checked]:border-primary focus-visible:border-ring focus-visible:ring-ring/50 aria-invalid:ring-destructive/20 dark:aria-invalid:ring-destructive/40 aria-invalid:border-destructive size-4 shrink-0 rounded-[4px] border shadow-xs transition-shadow outline-none focus-visible:ring-[3px] disabled:cursor-not-allowed disabled:opacity-50"; className];
     Spread (Ok props)] [
    el "CheckboxPrimitive.Indicator" ["data-slot" =: "checkbox-indicator";
       "className" =: "flex items-center justify-center text-current transition-none"] [
      el "CheckIcon" ["className" =: "size-3.5"] []]].

(** ** [collapsible.tsx] *)

Definition Collapsible (props : attrs A) : jsx A :=
  elp "CollapsiblePrimitive.Root" ["data-slot" =: "collapsible"; Spread (Ok props)] [].

Definition CollapsibleTrigger (props : attrs A) : jsx A :=
  elp "CollapsiblePrimitive.CollapsibleTrigger" ["data-slot" =: "collapsible-trigger"; Spread (Ok props)] [].

Definition CollapsibleContent (props : attrs A) : jsx A :=
  elp "CollapsiblePrimitive.CollapsibleContent" ["data-slot" =: "collapsible-content"; Spread (Ok props)] [].

(** ** [input.tsx] *)

Definition Input (className type : val) (props : attrs A) : jsx A :=
  elp "input" ["type" =: type;
     "data-slot" =: "input";
     "className" =: cn ["file:text-foreground placeholder:text-muted-foreground selection:bg-primary selection:text-primary-foreground dark:bg-input/30 border-input flex h-9 w-full min-w-0 rounded-md border px-3 py-1 text-base bg-input-background transition-[color,box-shadow] outline-none file:inline-flex file:h-7 file:border-0 file:bg-transparent file:text-sm file:font-medium disabled:pointer-events-none disabled:cursor-not-allowed disabled:opacity-50 md:text-sm"; "focus-visible:border-ring focus-visible:ring-ring/50 focus-visible:ring-[3px]"; "aria-invalid:ring-destructive/20 dark:aria-invalid:ring-destructive/40 aria-invalid:border-destructive"; className];
     Spread (Ok props)] [].

(** ** [label.tsx] *)

Definition Label (className : val) (props : attrs A) : jsx A :=
  elp "LabelPrimitive.Root" ["data-slot" =: "label";
     "className" =: cn ["flex items-center gap-2 text-sm leading-none font-medium select-none group-data-[disabled=true]:pointer-events-none group-data-[disabled=true]:opacity-50 peer-disabled:cursor-not-allowed peer-disabled:opacity-50"; className];
     Spread (Ok props)] [].

(** ** [pagination.tsx] *)

Definition Pagination (className : val) (props : attrs A) : jsx A :=
  elp "nav" ["role" =: "navigation";
     "aria-label" =: "pagination";
     "data-slot" =: "pagination";
     "className" =: cn ["mx-auto flex w-full justify-center"; className];
     Spread (Ok props)] [].

Definition PaginationContent (className : val) (props : attrs A) : jsx A :=
  elp "ul" ["data-slot" =: "pagination-content";
     "className" =: cn ["flex flex-row items-center gap-1"; className];
     Spread (Ok props)] [].

Definition PaginationItem (props : attrs A) : jsx A :=
  elp "li" ["data-slot" =: "pagination-item"; Spread (Ok props)] [].

Definition PaginationLink (className isActive size : val) (props : attrs A) : jsx A :=
  let size := dflt size "icon" in
  elp "a" ["aria-current" =: (jcond isActive "page" VUndef);
     "data-slot" =: "pagination-link";
     "data-active" =: isActive;
     "className" =: cn [buttonVariants [("variant", jcond isActive "outline" "ghost" : expr); ("size", size : expr)]; className];
     Spread (Ok props)] [].

Definition PaginationPrevious (className : val) (props : attrs A) : jsx A :=
  elp "PaginationLink" ["aria-label" =: "Go to previous page";
     "size" =: "default";
     "className" =: cn ["gap-1 px-2.5 sm:pl-2.5"; className];
     Spread (Ok props)] [
    el "ChevronLeftIcon" [] [];
    el "span" ["className" =: "hidden sm:block"] [txt "Previous"]].

Definition PaginationNext (className : val) (props : attrs A) : jsx A :=
  elp "PaginationLink" ["aria-label" =: "Go to next page";
     "size" =: "default";
     "className" =: cn ["gap-1 px-2.5 sm:pr-2.5"; className];
     Spread (Ok props)] [
    el "span" ["className" =: "hidden sm:block"] [txt "Next"];
    el "ChevronRightIcon" [] []].

Definition PaginationEllipsis (className : val) (props : attrs A) : jsx A :=
  elp "span" [flag "aria-hidden";
     "data-slot" =: "pagination-ellipsis";
     "className" =: cn ["flex size-9 items-center justify-center"; className];
     Spread (Ok props)] [
    el "MoreHorizontalIcon" ["className" =: "size-4"] [];
    el "span" ["className" =: "sr-only"] [txt "More pages"]].

(** ** [progress.tsx] *)

Definition Progress (className value : val) (props : attrs A) : jsx A :=
  elp "ProgressPrimitive.Root" ["data-slot" =: "progress";
     "className" =: cn ["bg-primary/20 relative h-2 w-full overflow-hidden rounded-full"; className];
     Spread (Ok props)] [
    el "ProgressPrimitive.Indicator" ["data-slot" =: "progress-indicator";
       "className" =: "bg-primary h-full w-full flex-1 transition-all";
       "style" =: jobj [("transform", tpl ["translateX(-"; jsub (int 100) (value ||| int 0); "%)"])]] []].

(** ** [radio-group.tsx] *)

Definition RadioGroup (className : val) (props : attrs A) : jsx A :=
  elp "RadioGroupPrimitive.Root" ["data-slot" =: "radio-group";
     "className" =: cn ["grid gap-3"; className];
     Spread (Ok props)] [].

Definition RadioGroupItem (className : val) (props : attrs A) : jsx A :=
  elp "RadioGroupPrimitive.Item" ["data-slot" =: "radio-group-item";
     "className" =: cn ["border-input text-primary focus-visible:border-ring focus-visible:ring-ring/50 aria-invalid:ring-destructive/20 dark:aria-invalid:ring-destructive/40 aria-invalid:border-destructive dark:bg-input/30 aspect-square size-4 shrink-0 rounded-full border shadow-xs transition-[color,box-shadow] outline-none focus-visible:ring-[3px] disabled:cursor-not-allowed disabled:opacity-50"; className];
     Spread (Ok props)] [
    el "RadioGroupPrimitive.Indicator" ["data-slot" =: "radio-group-indicator";
       "className" =: "relative flex items-center justify-center"] [
      el "CircleIcon" ["className" =: "fill-primary absolute top-1/2 left-1/2 size-2 -translate-x-1/2 -translate-y-1/2"] []]].

(** ** [resizable.tsx] *)

Definition ResizablePanelGroup (className : val) (props : attrs A) : jsx A :=
  elp "ResizablePrimitive.PanelGroup" ["data-slot" =: "resizable-panel-group";
     "className" =: cn ["flex h-full w-full data-[panel-group-direction=vertical]:flex-col"; className];
     Spread (Ok props)] [].

Definition ResizablePanel (props : attrs A) : jsx A :=
  elp "ResizablePrimitive.Panel" ["data-slot" =: "resizable-panel"; Spread (Ok props)] [].

Definition ResizableHandle (withHandle className : val) (props : attrs A) : jsx A :=
  elp "ResizablePrimitive.PanelResizeHandle" ["data-slot" =: "resizable-handle";
     "className" =: cn ["bg-border focus-visible:ring-ring relative flex w-px items-center justify-center after:absolute after:inset-y-0 after:left-1/2 after:w-1 after:-translate-x-1/2 focus-visible:ring-1 focus-visible:ring-offset-1 focus-visible:outline-hidden data-[panel-group-direction=vertical]:h-px data-[panel-group-direction=vertical]:w-full data-[panel-group-direction=vertical]:after:left-0 data-[panel-group-direction=vertical]:after:h-1 data-[panel-group-direction=vertical]:after:w-full data-[panel-group-direction=vertical]:after:-translate-y-1/2 data-[panel-group-direction=vertical]:after:translate-x-0 [&[data-panel-group-direction=vertical]>div]:rotate-90"; className];
     Spread (Ok props)] [
    show withHandle
      (el "div" ["className" =: "bg-border z-10 flex h-4 w-3 items-center justify-center rounded-xs border"] [
        el "GripVerticalIcon" ["className" =: "size-2.5"] []])].

(** ** [scroll-area.tsx] *)

Definition ScrollArea (className : val) (children : kids_prop A) (props : attrs A) : jsx A :=
  elp "ScrollAreaPrimitive.Root" ["data-slot" =: "scroll-area";
     "className" =: cn ["relative"; className];
     Spread (Ok props)] [
    el "ScrollAreaPrimitive.Viewport" ["data-slot" =: "scroll-area-viewport";
       "className" =: "focus-visible:ring-ring/50 size-full rounded-[inherit] transition-[color,box-shadow] outline-none focus-visible:ring-[3px] focus-visible:outline-1"] [
      slot children];
    el "ScrollBar" [] [];
    el "ScrollAreaPrimitive.Corner" [] []].

Definition ScrollBar (className orientation : val) (props : attrs A) : jsx A :=
  let orientation := dflt orientation "vertical" in
  elp "ScrollAreaPrimitive.ScrollAreaScrollbar" ["data-slot" =: "scroll-area-scrollbar";
     "orientation" =: orientation;
     "className" =: cn ["flex touch-none p-px transition-colors select-none"; (orientation === "vertical") &&& "h-full w-2.5 border-l border-l-transparent"; (orientation === "horizontal") &&& "h-2.5 flex-col border-t border-t-transparent"; className];
     Spread (Ok props)] [
    el "ScrollAreaPrimitive.ScrollAreaThumb" ["data-slot" =: "scroll-area-thumb";
       "className" =: "bg-border relative flex-1 rounded-full"] []].

(** ** [separator.tsx] *)

Definition Separator (className orientation decorative : val) (props : attrs A) : jsx A :=
  let orientation := dflt orientation "horizontal" in
  let decorative := dflt decorative true in
  elp "SeparatorPrimitive.Root" ["data-slot" =: "separator-root";
     "decorative" =: decorative;
     "orientation" =: orientation;
     "className" =: cn ["bg-border shrink-0 data-[orientation=horizontal]:h-px data-[orientation=horizontal]:w-full data-[orientation=vertical]:h-full data-[orientation=vertical]:w-px"; className];
     Spread (Ok props)] [].

(** ** [skeleton.tsx] *)

Definition Skeleton (className : val) (props : attrs A) : jsx A :=
  elp "div" ["data-slot" =: "skeleton";
     "className" =: cn ["bg-accent animate-pulse rounded-md"; className];
     Spread (Ok props)] [].

(** ** [slider.tsx] *)

(** [_values]: the array the caller controls, else its default, else the ends
    of the range. *)
Definition slider_values (value defaultValue min max : val) : list val :=
  match value, defaultValue with
  | VArr l, _ => l
  | _, VArr l => l
  | _, _ => [min; max]
  end.

Definition Slider (className defaultValue value min max : val) (props : attrs A) : jsx A :=
  let min := dflt min (int 0) in
  let max := dflt max (int 100) in
  elp "SliderPrimitive.Root" ["data-slot" =: "slider";
     "defaultValue" =: defaultValue;
     "value" =: value;
     "min" =: min;
     "max" =: max;
     "className" =: cn ["relative flex w-full touch-none items-center select-none data-[disabled]:opacity-50 data-[orientation=vertical]:h-full data-[orientation=vertical]:min-h-44 data-[orientation=vertical]:w-auto data-[orientation=vertical]:flex-col"; className];
     Spread (Ok props)] [
    el "SliderPrimitive.Track" ["data-slot" =: "slider-track";
       "className" =: cn ["bg-muted relative grow overflow-hidden rounded-full data-[orientation=horizontal]:h-4 data-[orientation=horizontal]:w-full data-[orientation=vertical]:h-full data-[orientation=vertical]:w-1.5"]] [
      el "SliderPrimitive.Range" ["data-slot" =: "slider-range";
         "className" =: cn ["bg-primary absolute data-[orientation=horizontal]:h-full data-[orientation=vertical]:w-full"]] []];
    each_in (slider_values value defaultValue min max) (fun index _ =>
      el "SliderPrimitive.Thumb" ["data-slot" =: "slider-thumb";
         "key" =: int (Z.of_nat index);
         "className" =: "border-primary bg-background ring-ring/50 block size-4 shrink-0 rounded-full border shadow-sm transition-[color,box-shadow] hover:ring-4 focus-visible:ring-4 focus-visible:outline-hidden disabled:pointer-events-none disabled:opacity-50"] [])].

(** ** [sonner.tsx] *)

(** [theme] is what [useTheme()] of next-themes answers. *)
Definition Toaster (theme : val) (props : attrs A) : jsx A :=
  let theme := dflt theme "system" in
  elp "Sonner" ["theme" =: theme;
     "className" =: "toaster group";
     "style" =: jobj [("--normal-bg", "var(--popover)" : expr);
                      ("--normal-text", "var(--popover-foreground)" : expr);
                      ("--normal-border", "var(--border)" : expr)];
     Spread (Ok props)] [].

(** ** [switch.tsx] *)

Definition Switch (className : val) (props : attrs A) : jsx A :=
  elp "SwitchPrimitive.Root" ["data-slot" =: "switch";
     "className" =: cn ["peer data-[state=checked]:bg-primary data-[state=unchecked]:bg-switch-background focus-visible:border-ring focus-visible:ring-ring/50 dark:data-[state=unchecked]:bg-input/80 inline-flex h-[1.15rem] w-8 shrink-0 items-center rounded-full border border-transparent transition-all outline-none focus-visible:ring-[3px] disabled:cursor-not-allowed disabled:opacity-50"; className];
     Spread (Ok props)] [
    el "SwitchPrimitive.Thumb" ["data-slot" =: "switch-thumb";
       "className" =: cn ["bg-card dark:data-[state=unchecked]:bg-card-foreground dark:data-[state=checked]:bg-primary-foreground pointer-events-none block size-4 rounded-full ring-0 transition-transform data-[state=checked]:translate-x-[calc(100%-2px)] data-[state=unchecked]:translate-x-0"]] []].

(** ** [table.tsx] *)

Definition Table (className : val) (props : attrs A) : jsx A :=
  el "div" ["data-slot" =: "table-container"; "className" =: "relative w-full overflow-x-auto"] [
    elp "table" ["data-slot" =: "table";
       "className" =: cn ["w-full caption-bottom text-sm"; className];
       Spread (Ok props)] []].

Definition TableHeader (className : val) (props : attrs A) : jsx A :=
  elp "thead" ["data-slot" =: "table-header";
     "className" =: cn ["[&_tr]:border-b"; className];
     Spread (Ok props)] [].

Definition TableBody (className : val) (props : attrs A) : jsx A :=
  elp "tbody" ["data-slot" =: "table-body";
     "className" =: cn ["[&_tr:last-child]:border-0"; className];
     Spread (Ok props)] [].

Definition TableFooter (className : val) (props : attrs A) : jsx A :=
  elp "tfoot" ["data-slot" =: "table-footer";
     "className" =: cn ["bg-muted/50 border-t font-medium [&>tr]:last:border-b-0"; className];
     Spread (Ok props)] [].

Definition TableRow (className : val) (props : attrs A) : jsx A :=
  elp "tr" ["data-slot" =: "table-row";
     "className" =: cn ["hover:bg-muted/50 data-[state=selected]:bg-muted border-b transition-colors"; className];
     Spread (Ok props)] [].

Definition TableHead (className : val) (props : attrs A) : jsx A :=
  elp "th" ["data-slot" =: "table-head";
     "className" =: cn ["text-foreground h-10 px-2 text-left align-middle font-medium whitespace-nowrap [&:has([role=checkbox])]:pr-0 [&>[role=checkbox]]:translate-y-[2px]"; className];
     Spread (Ok props)] [].

Definition TableCell (className : val) (props : attrs A) : jsx A :=
  elp "td" ["data-slot" =: "table-cell";
     "className" =: cn ["p-2 align-middle whitespace-nowrap [&:has([role=checkbox])]:pr-0 [&>[role=checkbox]]:translate-y-[2px]"; className];
     Spread (Ok props)] [].

Definition TableCaption (className : val) (props : attrs A) : jsx A :=
  elp "caption" ["data-slot" =: "table-caption";
     "className" =: cn ["text-muted-foreground mt-4 text-sm"; className];
     Spread (Ok props)] [].

(** ** [tabs.tsx] *)

Definition Tabs (className : val) (props : attrs A) : jsx A :=
  elp "TabsPrimitive.Root" ["data-slot" =: "tabs";
     "className" =: cn ["flex flex-col gap-2"; className];
     Spread (Ok props)] [].

Definition TabsList (className : val) (props : attrs A) : jsx A :=
  elp "TabsPrimitive.List" ["data-slot" =: "tabs-list";
     "className" =: cn ["bg-muted text-muted-foreground inline-flex h-9 w-fit items-center justify-center rounded-xl p-[3px] flex"; className];
     Spread (Ok props)] [].

Definition TabsTrigger (className : val) (props : attrs A) : jsx A :=
  elp "TabsPrimitive.Trigger" ["data-slot" =: "tabs-trigger";
     "className" =: cn ["data-[state=active]:bg-card dark:data-[state=active]:text-foreground focus-visible:border-ring focus-visible:ring-ring/50 focus-visible:outline-ring dark:data-[state=active]:border-input dark:data-[state=active]:bg-input/30 text-foreground dark:text-muted-foreground inline-flex h-[calc(100%-1px)] flex-1 items-center justify-center gap-1.5 rounded-xl border border-transparent px-2 py-1 text-sm font-medium whitespace-nowrap transition-[color,box-shadow] focus-visible:ring-[3px] focus-visible:outline-1 disabled:pointer-events-none disabled:opacity-50 [&_svg]:pointer-events-none [&_svg]:shrink-0 [&_svg:not([class*='size-'])]:size-4"; className];
     Spread (Ok props)] [].

Definition TabsContent (className : val) (props : attrs A) : jsx A :=
  elp "TabsPrimitive.Content" ["data-slot" =: "tabs-content";
     "className" =: cn ["flex-1 outline-none"; className];
     Spread (Ok props)] [].

(** ** [textarea.tsx] *)

Definition Textarea (className : val) (props : attrs A) : jsx A :=
  elp "textarea" ["data-slot" =: "textarea";
     "className" =: cn ["resize-none border-input placeholder:text-muted-foreground focus-visible:border-ring focus-visible:ring-ring/50 aria-invalid:ring-destructive/20 dark:aria-invalid:ring-destructive/40 aria-invalid:border-destructive dark:bg-input/30 flex field-sizing-content min-h-16 w-full rounded-md border bg-input-background px-3 py-2 text-base transition-[color,box-shadow] outline-none focus-visible:ring-[3px] disabled:cursor-not-allowed disabled:opacity-50 md:text-sm"; className];
     Spread (Ok props)] [].

(** ** [toggle.tsx] *)

Definition toggleVariants (chosen : list (string * expr)) : expr :=
  cva "inline-flex items-center justify-center gap-2 rounded-md text-sm font-medium hover:bg-muted hover:text-muted-foreground disabled:pointer-events-none disabled:opacity-50 data-[state=on]:bg-accent data-[state=on]:text-accent-foreground [&_svg]:pointer-events-none [&_svg:not([class*='size-'])]:size-4 [&_svg]:shrink-0 focus-visible:border-ring focus-visible:ring-ring/50 focus-visible:ring-[3px] outline-none transition-[color,box-shadow] aria-invalid:ring-destructive/20 dark:aria-invalid:ring-destructive/40 aria-invalid:border-destructive whitespace-nowrap"
    [("variant", [("default", "bg-transparent"); ("outline", "border border-input bg-transparent hover:bg-accent hover:text-accent-foreground")]);
     ("size", [("default", "h-9 px-2 min-w-9"); ("sm", "h-8 px-1.5 min-w-8"); ("lg", "h-10 px-2.5 min-w-10")])]
    [("variant", "default"); ("size", "default")] chosen.

Definition Toggle (className variant size : val) (props : attrs A) : jsx A :=
  elp "TogglePrimitive.Root" ["data-slot" =: "toggle";
     "className" =: cn [toggleVariants [("variant", variant : expr); ("size", size : expr); ("className", className : expr)]];
     Spread (Ok props)] [].

(** ** [toggle-group.tsx] *)

Definition ToggleGroup (className variant size : val) (children : kids_prop A) (props : attrs A) : jsx A :=
  elp "ToggleGroupPrimitive.Root" ["data-slot" =: "toggle-group";
     "data-variant" =: variant;
     "data-size" =: size;
     "className" =: cn ["group/toggle-group flex w-fit items-center rounded-md data-[variant=outline]:shadow-xs"; className];
     Spread (Ok props)] [
    el "ToggleGroupContext.Provider" ["value" =: jobj [("variant", variant); ("size", size)]] [
      slot children]].

(** [context] is the value of the nearest [ToggleGroupContext.Provider]. *)
Definition ToggleGroupItem (context className : val) (children : kids_prop A) (variant size : val)
    (props : attrs A) : jsx A :=
  elp "ToggleGroupPrimitive.Item" ["data-slot" =: "toggle-group-item";
     "data-variant" =: ((context ~> "variant") ||| variant);
     "data-size" =: ((context ~> "size") ||| size);
     "className" =: cn [toggleVariants [("variant", (context ~> "variant") ||| variant);
                                        ("size", (context ~> "size") ||| size)];
                        "min-w-0 flex-1 shrink-0 rounded-none shadow-none first:rounded-l-md last:rounded-r-md focus:z-10 focus-visible:z-10 data-[variant=outline]:border-l-0 data-[variant=outline]:first:border-l";
                        className];
     Spread (Ok props)] [slot children].

(** ** [input-otp.tsx] *)

Definition InputOTP (className containerClassName : val) (props : attrs A) : jsx A :=
  elp "OTPInput" ["data-slot" =: "input-otp";
     "containerClassName" =: cn ["flex items-center gap-2 has-disabled:opacity-50"; containerClassName];
     "className" =: cn ["disabled:cursor-not-allowed"; className];
     Spread (Ok props)] [].

Definition InputOTPGroup (className : val) (props : attrs A) : jsx A :=
  elp "div" ["data-slot" =: "input-otp-group";
     "className" =: cn ["flex items-center gap-1"; className];
     Spread (Ok props)] [].

Definition InputOTPSeparator (props : attrs A) : jsx A :=
  elp "div" ["data-slot" =: "input-otp-separator"; "role" =: "separator"; Spread (Ok props)] [
    el "MinusIcon" [] []].

(** [inputOTPContext?.slots[index] ?? {}]. *)
Definition slot_at (context : val) (index : nat) : expr :=
  if nullish context then Ok (VObj [])
  else
    slots ← get context "slots";
    match slots with
    | VArr l => match l !! index with
                | Some v => Ok (if nullish v then VObj [] else v)
                | None => Ok (VObj [])
                end
    | VUndef | VNull => Err (TypeError "Cannot read properties of undefined")
    | _ => Ok (VObj [])
    end.

Definition InputOTPSlot (context : val) (index : nat) (className : val) (props : attrs A) : jsx A :=
  let cell := slot_at context index in
  elp "div" ["data-slot" =: "input-otp-slot";
     "data-active" =: cell ~> "isActive";
     "className" =: cn ["data-[active=true]:border-ring data-[active=true]:ring-ring/50 data-[active=true]:aria-invalid:ring-destructive/20 dark:data-[active=true]:aria-invalid:ring-destructive/40 aria-invalid:border-destructive data-[active=true]:aria-invalid:border-destructive dark:bg-input/30 border-input relative flex h-9 w-9 items-center justify-center border-y border-r text-sm bg-input-background transition-all outline-none first:rounded-l-md first:border-l last:rounded-r-md data-[active=true]:z-10 data-[active=true]:ring-[3px]"; className];
     Spread (Ok props)] [
    put (cell ~> "char");
    show (cell ~> "hasFakeCaret")
      (el "div" ["className" =: "pointer-events-none absolute inset-0 flex items-center justify-center"] [
        el "div" ["className" =: "animate-caret-blink bg-foreground h-4 w-px duration-1000"] []])].

End Kit.
