(* ===== verification/UiOverlays.v ===== *)
(** * The UI kit: dialogs, drawers, sheets, popovers, tooltips *)
From S2P Require Import Prelude JsStr JsNum JsVal React Ui UiBasics.
Local Open Scope string_scope.
Local Open Scope js_scope.

Section Kit.
Context `{UiLib} {A : Type}.

(** ** [dialog.tsx] *)

Definition Dialog (props : attrs A) : jsx A :=
  elp "DialogPrimitive.Root" ["data-slot" =: "dialog"; Spread (Ok props)] [].

Definition DialogTrigger (props : attrs A) : jsx A :=
  elp "DialogPrimitive.Trigger" ["data-slot" =: "dialog-trigger"; Spread (Ok props)] [].

Definition DialogPortal (props : attrs A) : jsx A :=
  elp "DialogPrimitive.Portal" ["data-slot" =: "dialog-portal"; Spread (Ok props)] [].

Definition DialogClose (props : attrs A) : jsx A :=
  elp "DialogPrimitive.Close" ["data-slot" =: "dialog-close"; Spread (Ok props)] [].

Definition DialogOverlay (className : val) (props : attrs A) : jsx A :=
  elp "DialogPrimitive.Overlay" ["data-slot" =: "dialog-overlay";
     "className" =: cn ["data-[state=open]:animate-in data-[state=closed]:animate-out data-[state=closed]:fade-out-0 data-[state=open]:fade-in-0 fixed inset-0 z-50 bg-black/50"; className];
     Spread (Ok props)] [].

Definition DialogContent (className : val) (children : kids_prop A) (props : attrs A) : jsx A :=
  el "DialogPortal" ["data-slot" =: "dialog-portal"] [
    el "DialogOverlay" [] [];
    elp "DialogPrimitive.Content" ["data-slot" =: "dialog-content";
       "className" =: cn ["bg-background data-[state=open]:animate-in data-[state=closed]:animate-out data-[state=closed]:fade-out-0 data-[state=open]:fade-in-0 data-[state=closed]:zoom-out-95 data-[state=open]:zoom-in-95 fixed top-[50%] left-[50%] z-50 grid w-full max-w-[calc(100%-2rem)] translate-x-[-50%] translate-y-[-50%] gap-4 rounded-lg border p-6 shadow-lg duration-200 sm:max-w-lg"; className];
       Spread (Ok props)] [
      slot children;
      el "DialogPrimitive.Close" ["className" =: "ring-offset-background focus:ring-ring data-[state=open]:bg-accent data-[state=open]:text-muted-foreground absolute top-4 right-4 rounded-xs opacity-70 transition-opacity hover:opacity-100 focus:ring-2 focus:ring-offset-2 focus:outline-hidden disabled:pointer-events-none [&_svg]:pointer-events-none [&_svg]:shrink-0 [&_svg:not([class*='size-'])]:size-4"] [
        el "XIcon" [] [];
        el "span" ["className" =: "sr-only"] [txt "Close"]]]].

Definition DialogHeader (className : val) (props : attrs A) : jsx A :=
  elp "div" ["data-slot" =: "dialog-header";
     "className" =: cn ["flex flex-col gap-2 text-center sm:text-left"; className];
     Spread (Ok props)] [].

Definition DialogFooter (className : val) (props : attrs A) : jsx A :=
  elp "div" ["data-slot" =: "dialog-footer";
     "className" =: cn ["flex flex-col-reverse gap-2 sm:flex-row sm:justify-end"; className];
     Spread (Ok props)] [].

Definition DialogTitle (className : val) (props : attrs A) : jsx A :=
  elp "DialogPrimitive.Title" ["data-slot" =: "dialog-title";
     "className" =: cn ["text-lg leading-none font-semibold"; className];
     Spread (Ok props)] [].

Definition DialogDescription (className : val) (props : attrs A) : jsx A :=
  elp "DialogPrimitive.Description" ["data-slot" =: "dialog-description";
     "className" =: cn ["text-muted-foreground text-sm"; className];
     Spread (Ok props)] [].

(** ** [alert-dialog.tsx] *)

Definition AlertDialog (props : attrs A) : jsx A :=
  elp "AlertDialogPrimitive.Root" ["data-slot" =: "alert-dialog"; Spread (Ok props)] [].

Definition AlertDialogTrigger (props : attrs A) : jsx A :=
  elp "AlertDialogPrimitive.Trigger" ["data-slot" =: "alert-dialog-trigger"; Spread (Ok props)] [].

Definition AlertDialogPortal (props : attrs A) : jsx A :=
  elp "AlertDialogPrimitive.Portal" ["data-slot" =: "alert-dialog-portal"; Spread (Ok props)] [].

Definition AlertDialogOverlay (className : val) (props : attrs A) : jsx A :=
  elp "AlertDialogPrimitive.Overlay" ["data-slot" =: "alert-dialog-overlay";
     "className" =: cn ["data-[state=open]:animate-in data-[state=closed]:animate-out data-[state=closed]:fade-out-0 data-[state=open]:fade-in-0 fixed inset-0 z-50 bg-black/50"; className];
     Spread (Ok props)] [].

Definition AlertDialogContent (className : val) (props : attrs A) : jsx A :=
  el "AlertDialogPortal" [] [
    el "AlertDialogOverlay" [] [];
    elp "AlertDialogPrimitive.Content" ["data-slot" =: "alert-dialog-content";
       "className" =: cn ["bg-background data-[state=open]:animate-in data-[state=closed]:animate-out data-[state=closed]:fade-out-0 data-[state=open]:fade-in-0 data-[state=closed]:zoom-out-95 data-[state=open]:zoom-in-95 fixed top-[50%] left-[50%] z-50 grid w-full max-w-[calc(100%-2rem)] translate-x-[-50%] translate-y-[-50%] gap-4 rounded-lg border p-6 shadow-lg duration-200 sm:max-w-lg"; className];
       Spread (Ok props)] []].

Definition AlertDialogHeader (className : val) (props : attrs A) : jsx A :=
  elp "div" ["data-slot" =: "alert-dialog-header";
     "className" =: cn ["flex flex-col gap-2 text-center sm:text-left"; className];
     Spread (Ok props)] [].

Definition AlertDialogFooter (className : val) (props : attrs A) : jsx A :=
  elp "div" ["data-slot" =: "alert-dialog-footer";
     "className" =: cn ["flex flex-col-reverse gap-2 sm:flex-row sm:justify-end"; className];
     Spread (Ok props)] [].

Definition AlertDialogTitle (className : val) (props : attrs A) : jsx A :=
  elp "AlertDialogPrimitive.Title" ["data-slot" =: "alert-dialog-title";
     "className" =: cn ["text-lg font-semibold"; className];
     Spread (Ok props)] [].

Definition AlertDialogDescription (className : val) (props : attrs A) : jsx A :=
  elp "AlertDialogPrimitive.Description" ["data-slot" =: "alert-dialog-description";
     "className" =: cn ["text-muted-foreground text-sm"; className];
     Spread (Ok props)] [].

Definition AlertDialogAction (className : val) (props : attrs A) : jsx A :=
  elp "AlertDialogPrimitive.Action" ["className" =: cn [buttonVariants []; className]; Spread (Ok props)] [].

Definition AlertDialogCancel (className : val) (props : attrs A) : jsx A :=
  elp "AlertDialogPrimitive.Cancel" ["className" =: cn [buttonVariants [("variant", "outline" : expr)]; className];
     Spread (Ok props)] [].

(** ** [drawer.tsx] *)

Definition Drawer (props : attrs A) : jsx A :=
  elp "DrawerPrimitive.Root" ["data-slot" =: "drawer"; Spread (Ok props)] [].

Definition DrawerTrigger (props : attrs A) : jsx A :=
  elp "DrawerPrimitive.Trigger" ["data-slot" =: "drawer-trigger"; Spread (Ok props)] [].

Definition DrawerPortal (props : attrs A) : jsx A :=
  elp "DrawerPrimitive.Portal" ["data-slot" =: "drawer-portal"; Spread (Ok props)] [].

Definition DrawerClose (props : attrs A) : jsx A :=
  elp "DrawerPrimitive.Close" ["data-slot" =: "drawer-close"; Spread (Ok props)] [].

Definition DrawerOverlay (className : val) (props : attrs A) : jsx A :=
  elp "DrawerPrimitive.Overlay" ["data-slot" =: "drawer-overlay";
     "className" =: cn ["data-[state=open]:animate-in data-[state=closed]:animate-out data-[state=closed]:fade-out-0 data-[state=open]:fade-in-0 fixed inset-0 z-50 bg-black/50"; className];
     Spread (Ok props)] [].

Definition DrawerContent (className : val) (children : kids_prop A) (props : attrs A) : jsx A :=
  el "DrawerPortal" ["data-slot" =: "drawer-portal"] [
    el "DrawerOverlay" [] [];
    elp "DrawerPrimitive.Content" ["data-slot" =: "drawer-content";
       "className" =: cn ["group/drawer-content bg-background fixed z-50 flex h-auto flex-col"; "data-[vaul-drawer-direction=top]:inset-x-0 data-[vaul-drawer-direction=top]:top-0 data-[vaul-drawer-direction=top]:mb-24 data-[vaul-drawer-direction=top]:max-h-[80vh] data-[vaul-drawer-direction=top]:rounded-b-lg data-[vaul-drawer-direction=top]:border-b"; "data-[vaul-drawer-direction=bottom]:inset-x-0 data-[vaul-drawer-direction=bottom]:bottom-0 data-[vaul-drawer-direction=bottom]:mt-24 data-[vaul-drawer-direction=bottom]:max-h-[80vh] data-[vaul-drawer-direction=bottom]:rounded-t-lg data-[vaul-drawer-direction=bottom]:border-t"; "data-[vaul-drawer-direction=right]:inset-y-0 data-[vaul-drawer-direction=right]:right-0 data-[vaul-drawer-direction=right]:w-3/4 data-[vaul-drawer-direction=right]:border-l data-[vaul-drawer-direction=right]:sm:max-w-sm"; "data-[vaul-drawer-direction=left]:inset-y-0 data-[vaul-drawer-direction=left]:left-0 data-[vaul-drawer-direction=left]:w-3/4 data-[vaul-drawer-direction=left]:border-r data-[vaul-drawer-direction=left]:sm:max-w-sm"; className];
       Spread (Ok props)] [
      el "div" ["className" =: "bg-muted mx-auto mt-4 hidden h-2 w-[100px] shrink-0 rounded-full group-data-[vaul-drawer-direction=bottom]/drawer-content:block"] [];
      slot children]].

Definition DrawerHeader (className : val) (props : attrs A) : jsx A :=
  elp "div" ["data-slot" =: "drawer-header";
     "className" =: cn ["flex flex-col gap-1.5 p-4"; className];
     Spread (Ok props)] [].

Definition DrawerFooter (className : val) (props : attrs A) : jsx A :=
  elp "div" ["data-slot" =: "drawer-footer";
     "className" =: cn ["mt-auto flex flex-col gap-2 p-4"; className];
     Spread (Ok props)] [].

Definition DrawerTitle (className : val) (props : attrs A) : jsx A :=
  elp "DrawerPrimitive.Title" ["data-slot" =: "drawer-title";
     "className" =: cn ["text-foreground font-semibold"; className];
     Spread (Ok props)] [].

Definition DrawerDescription (className : val) (props : attrs A) : jsx A :=
  elp "DrawerPrimitive.Description" ["data-slot" =: "drawer-description";
     "className" =: cn ["text-muted-foreground text-sm"; className];
     Spread (Ok props)] [].

(** ** [sheet.tsx] *)

Definition Sheet (props : attrs A) : jsx A :=
  elp "SheetPrimitive.Root" ["data-slot" =: "sheet"; Spread (Ok props)] [].

Definition SheetTrigger (props : attrs A) : jsx A :=
  elp "SheetPrimitive.Trigger" ["data-slot" =: "sheet-trigger"; Spread (Ok props)] [].

Definition SheetClose (props : attrs A) : jsx A :=
  elp "SheetPrimitive.Close" ["data-slot" =: "sheet-close"; Spread (Ok props)] [].

Definition SheetPortal (props : attrs A) : jsx A :=
  elp "SheetPrimitive.Portal" ["data-slot" =: "sheet-portal"; Spread (Ok props)] [].

Definition SheetOverlay (className : val) (props : attrs A) : jsx A :=
  elp "SheetPrimitive.Overlay" ["data-slot" =: "sheet-overlay";
     "className" =: cn ["data-[state=open]:animate-in data-[state=closed]:animate-out data-[state=closed]:fade-out-0 data-[state=open]:fade-in-0 fixed inset-0 z-50 bg-black/50"; className];
     Spread (Ok props)] [].

Definition SheetContent (className : val) (children : kids_prop A) (side : val) (props : attrs A) : jsx A :=
  let side := dflt side "right" in
  el "SheetPortal" [] [
    el "SheetOverlay" [] [];
    elp "SheetPrimitive.Content" ["data-slot" =: "sheet-content";
       "className" =: cn ["bg-background data-[state=open]:animate-in data-[state=closed]:animate-out fixed z-50 flex flex-col gap-4 shadow-lg transition ease-in-out data-[state=closed]:duration-300 data-[state=open]:duration-500"; (side === "right") &&& "data-[state=closed]:slide-out-to-right data-[state=open]:slide-in-from-right inset-y-0 right-0 h-full w-3/4 border-l sm:max-w-sm"; (side === "left") &&& "data-[state=closed]:slide-out-to-left data-[state=open]:slide-in-from-left inset-y-0 left-0 h-full w-3/4 border-r sm:max-w-sm"; (side === "top") &&& "data-[state=closed]:slide-out-to-top data-[state=open]:slide-in-from-top inset-x-0 top-0 h-auto border-b"; (side === "bottom") &&& "data-[state=closed]:slide-out-to-bottom data-[state=open]:slide-in-from-bottom inset-x-0 bottom-0 h-auto border-t"; className];
       Spread (Ok props)] [
      slot children;
      el "SheetPrimitive.Close" ["className" =: "ring-offset-background focus:ring-ring data-[state=open]:bg-secondary absolute top-4 right-4 rounded-xs opacity-70 transition-opacity hover:opacity-100 focus:ring-2 focus:ring-offset-2 focus:outline-hidden disabled:pointer-events-none"] [
        el "XIcon" ["className" =: "size-4"] [];
        el "span" ["className" =: "sr-only"] [txt "Close"]]]].

Definition SheetHeader (className : val) (props : attrs A) : jsx A :=
  elp "div" ["data-slot" =: "sheet-header";
     "className" =: cn ["flex flex-col gap-1.5 p-4"; className];
     Spread (Ok props)] [].

Definition SheetFooter (className : val) (props : attrs A) : jsx A :=
  elp "div" ["data-slot" =: "sheet-footer";
     "className" =: cn ["mt-auto flex flex-col gap-2 p-4"; className];
     Spread (Ok props)] [].

Definition SheetTitle (className : val) (props : attrs A) : jsx A :=
  elp "SheetPrimitive.Title" ["data-slot" =: "sheet-title";
     "className" =: cn ["text-foreground font-semibold"; className];
     Spread (Ok props)] [].

Definition SheetDescription (className : val) (props : attrs A) : jsx A :=
  elp "SheetPrimitive.Description" ["data-slot" =: "sheet-description";
     "className" =: cn ["text-muted-foreground text-sm"; className];
     Spread (Ok props)] [].

(** ** [popover.tsx] *)

Definition Popover (props : attrs A) : jsx A :=
  elp "PopoverPrimitive.Root" ["data-slot" =: "popover"; Spread (Ok props)] [].

Definition PopoverTrigger (props : attrs A) : jsx A :=
  elp "PopoverPrimitive.Trigger" ["data-slot" =: "popover-trigger"; Spread (Ok props)] [].

Definition PopoverContent (className align sideOffset : val) (props : attrs A) : jsx A :=
  let align := dflt align "center" in
  let sideOffset := dflt sideOffset (int 4) in
  el "PopoverPrimitive.Portal" [] [
    elp "PopoverPrimitive.Content" ["data-slot" =: "popover-content";
       "align" =: align;
       "sideOffset" =: sideOffset;
       "className" =: cn ["bg-popover text-popover-foreground data-[state=open]:animate-in data-[state=closed]:animate-out data-[state=closed]:fade-out-0 data-[state=open]:fade-in-0 data-[state=closed]:zoom-out-95 data-[state=open]:zoom-in-95 data-[side=bottom]:slide-in-from-top-2 data-[side=left]:slide-in-from-right-2 data-[side=right]:slide-in-from-left-2 data-[side=top]:slide-in-from-bottom-2 z-50 w-72 origin-(--radix-popover-content-transform-origin) rounded-md border p-4 shadow-md outline-hidden"; className];
       Spread (Ok props)] []].

Definition PopoverAnchor (props : attrs A) : jsx A :=
  elp "PopoverPrimitive.Anchor" ["data-slot" =: "popover-anchor"; Spread (Ok props)] [].

(** ** [hover-card.tsx] *)

Definition HoverCard (props : attrs A) : jsx A :=
  elp "HoverCardPrimitive.Root" ["data-slot" =: "hover-card"; Spread (Ok props)] [].

Definition HoverCardTrigger (props : attrs A) : jsx A :=
  elp "HoverCardPrimitive.Trigger" ["data-slot" =: "hover-card-trigger"; Spread (Ok props)] [].

Definition HoverCardContent (className align sideOffset : val) (props : attrs A) : jsx A :=
  let align := dflt align "center" in
  let sideOffset := dflt sideOffset (int 4) in
  el "HoverCardPrimitive.Portal" ["data-slot" =: "hover-card-portal"] [
    elp "HoverCardPrimitive.Content" ["data-slot" =: "hover-card-content";
       "align" =: align;
       "sideOffset" =: sideOffset;
       "className" =: cn ["bg-popover text-popover-foreground data-[state=open]:animate-in data-[state=closed]:animate-out data-[state=closed]:fade-out-0 data-[state=open]:fade-in-0 data-[state=closed]:zoom-out-95 data-[state=open]:zoom-in-95 data-[side=bottom]:slide-in-from-top-2 data-[side=left]:slide-in-from-right-2 data-[side=right]:slide-in-from-left-2 data-[side=top]:slide-in-from-bottom-2 z-50 w-64 origin-(--radix-hover-card-content-transform-origin) rounded-md border p-4 shadow-md outline-hidden"; className];
       Spread (Ok props)] []].

(** ** [tooltip.tsx] *)

Definition TooltipProvider (delayDuration : val) (props : attrs A) : jsx A :=
  let delayDuration := dflt delayDuration (int 0) in
  elp "TooltipPrimitive.Provider" ["data-slot" =: "tooltip-provider"; "delayDuration" =: delayDuration; Spread (Ok props)] [].

Definition Tooltip (props : attrs A) : jsx A :=
  el "TooltipProvider" [] [
    elp "TooltipPrimitive.Root" ["data-slot" =: "tooltip"; Spread (Ok props)] []].

Definition TooltipTrigger (props : attrs A) : jsx A :=
  elp "TooltipPrimitive.Trigger" ["data-slot" =: "tooltip-trigger"; Spread (Ok props)] [].

Definition TooltipContent (className sideOffset : val) (children : kids_prop A) (props : attrs A) : jsx A :=
  let sideOffset := dflt sideOffset (int 0) in
  el "TooltipPrimitive.Portal" [] [
    elp "TooltipPrimitive.Content" ["data-slot" =: "tooltip-content";
       "sideOffset" =: sideOffset;
       "className" =: cn ["bg-primary text-primary-foreground animate-in fade-in-0 zoom-in-95 data-[state=closed]:animate-out data-[state=closed]:fade-out-0 data-[state=closed]:zoom-out-95 data-[side=bottom]:slide-in-from-top-2 data-[side=left]:slide-in-from-right-2 data-[side=right]:slide-in-from-left-2 data-[side=top]:slide-in-from-bottom-2 z-50 w-fit origin-(--radix-tooltip-content-transform-origin) rounded-md px-3 py-1.5 text-xs text-balance"; className];
       Spread (Ok props)] [
      slot children;
      el "TooltipPrimitive.Arrow" ["className" =: "bg-primary fill-primary z-50 size-2.5 translate-y-[calc(-50%_-_2px)] rotate-45 rounded-[2px]"] []]].

End Kit.
