(* ===== verification/UiMenus.v ===== *)
(** * The UI kit: menus, selects, the command palette *)
From S2P Require Import Prelude JsStr JsNum JsVal React Ui.
Local Open Scope string_scope.
Local Open Scope js_scope.

Section Kit.
Context `{UiLib} {A : Type}.

(** ** [command.tsx] *)

Definition Command (className : val) (props : attrs A) : jsx A :=
  elp "CommandPrimitive" ["data-slot" =: "command";
     "className" =: cn ["bg-popover text-popover-foreground flex h-full w-full flex-col overflow-hidden rounded-md"; className];
     Spread (Ok props)] [].

Definition CommandDialog (title description : val) (children : kids_prop A) (props : attrs A) : jsx A :=
  let title := dflt title "Command Palette" in
  let description := dflt description "Search for a command to run..." in
  elp "Dialog" [Spread (Ok props)] [
    el "DialogHeader" ["className" =: "sr-only"] [
      el "DialogTitle" [] [put title];
      el "DialogDescription" [] [put description]];
    el "DialogContent" ["className" =: "overflow-hidden p-0"] [
      el "Command" ["className" =: "[&_[cmdk-group-heading]]:text-muted-foreground **:data-[slot=command-input-wrapper]:h-12 [&_[cmdk-group-heading]]:px-2 [&_[cmdk-group-heading]]:font-medium [&_[cmdk-group]]:px-2 [&_[cmdk-group]:not([hidden])_~[cmdk-group]]:pt-0 [&_[cmdk-input-wrapper]_svg]:h-5 [&_[cmdk-input-wrapper]_svg]:w-5 [&_[cmdk-input]]:h-12 [&_[cmdk-item]]:px-2 [&_[cmdk-item]]:py-3 [&_[cmdk-item]_svg]:h-5 [&_[cmdk-item]_svg]:w-5"] [
        slot children]]].

Definition CommandInput (className : val) (props : attrs A) : jsx A :=
  el "div" ["data-slot" =: "command-input-wrapper";
     "className" =: "flex h-9 items-center gap-2 border-b px-3"] [
    el "SearchIcon" ["className" =: "size-4 shrink-0 opacity-50"] [];
    elp "CommandPrimitive.Input" ["data-slot" =: "command-input";
       "className" =: cn ["placeholder:text-muted-foreground flex h-10 w-full rounded-md bg-transparent py-3 text-sm outline-hidden disabled:cursor-not-allowed disabled:opacity-50"; className];
       Spread (Ok props)] []].

Definition CommandList (className : val) (props : attrs A) : jsx A :=
  elp "CommandPrimitive.List" ["data-slot" =: "command-list";
     "className" =: cn ["max-h-[300px] scroll-py-1 overflow-x-hidden overflow-y-auto"; className];
     Spread (Ok props)] [].

Definition CommandEmpty (props : attrs A) : jsx A :=
  elp "CommandPrimitive.Empty" ["data-slot" =: "command-empty";
     "className" =: "py-6 text-center text-sm";
     Spread (Ok props)] [].

Definition CommandGroup (className : val) (props : attrs A) : jsx A :=
  elp "CommandPrimitive.Group" ["data-slot" =: "command-group";
     "className" =: cn ["text-foreground [&_[cmdk-group-heading]]:text-muted-foreground overflow-hidden p-1 [&_[cmdk-group-heading]]:px-2 [&_[cmdk-group-heading]]:py-1.5 [&_[cmdk-group-heading]]:text-xs [&_[cmdk-group-heading]]:font-medium"; className];
     Spread (Ok props)] [].

Definition CommandSeparator (className : val) (props : attrs A) : jsx A :=
  elp "CommandPrimitive.Separator" ["data-slot" =: "command-separator";
     "className" =: cn ["bg-border -mx-1 h-px"; className];
     Spread (Ok props)] [].

Definition CommandItem (className : val) (props : attrs A) : jsx A :=
  elp "CommandPrimitive.Item" ["data-slot" =: "command-item";
     "className" =: cn ["data-[selected=true]:bg-accent data-[selected=true]:text-accent-foreground [&_svg:not([class*='text-'])]:text-muted-foreground relative flex cursor-default items-center gap-2 rounded-sm px-2 py-1.5 text-sm outline-hidden select-none data-[disabled=true]:pointer-events-none data-[disabled=true]:opacity-50 [&_svg]:pointer-events-none [&_svg]:shrink-0 [&_svg:not([class*='size-'])]:size-4"; className];
     Spread (Ok props)] [].

Definition CommandShortcut (className : val) (props : attrs A) : jsx A :=
  elp "span" ["data-slot" =: "command-shortcut";
     "className" =: cn ["text-muted-foreground ml-auto text-xs tracking-widest"; className];
     Spread (Ok props)] [].

(** ** [context-menu.tsx] *)

Definition ContextMenu (props : attrs A) : jsx A :=
  elp "ContextMenuPrimitive.Root" ["data-slot" =: "context-menu"; Spread (Ok props)] [].

Definition ContextMenuTrigger (props : attrs A) : jsx A :=
  elp "ContextMenuPrimitive.Trigger" ["data-slot" =: "context-menu-trigger"; Spread (Ok props)] [].

Definition ContextMenuGroup (props : attrs A) : jsx A :=
  elp "ContextMenuPrimitive.Group" ["data-slot" =: "context-menu-group"; Spread (Ok props)] [].

Definition ContextMenuPortal (props : attrs A) : jsx A :=
  elp "ContextMenuPrimitive.Portal" ["data-slot" =: "context-menu-portal"; Spread (Ok props)] [].

Definition ContextMenuSub (props : attrs A) : jsx A :=
  elp "ContextMenuPrimitive.Sub" ["data-slot" =: "context-menu-sub"; Spread (Ok props)] [].

Definition ContextMenuRadioGroup (props : attrs A) : jsx A :=
  elp "ContextMenuPrimitive.RadioGroup" ["data-slot" =: "context-menu-radio-group"; Spread (Ok props)] [].

Definition ContextMenuSubTrigger (className inset : val) (children : kids_prop A) (props : attrs A) : jsx A :=
  elp "ContextMenuPrimitive.SubTrigger" ["data-slot" =: "context-menu-sub-trigger";
     "data-inset" =: inset;
     "className" =: cn ["focus:bg-accent focus:text-accent-foreground data-[state=open]:bg-accent data-[state=open]:text-accent-foreground flex cursor-default items-center rounded-sm px-2 py-1.5 text-sm outline-hidden select-none data-[inset]:pl-8 [&_svg]:pointer-events-none [&_svg]:shrink-0 [&_svg:not([class*='size-'])]:size-4"; className];
     Spread (Ok props)] [
    slot children;
    el "ChevronRightIcon" ["className" =: "ml-auto"] []].

Definition ContextMenuSubContent (className : val) (props : attrs A) : jsx A :=
  elp "ContextMenuPrimitive.SubContent" ["data-slot" =: "context-menu-sub-content";
     "className" =: cn ["bg-popover text-popover-foreground data-[state=open]:animate-in data-[state=closed]:animate-out data-[state=closed]:fade-out-0 data-[state=open]:fade-in-0 data-[state=closed]:zoom-out-95 data-[state=open]:zoom-in-95 data-[side=bottom]:slide-in-from-top-2 data-[side=left]:slide-in-from-right-2 data-[side=right]:slide-in-from-left-2 data-[side=top]:slide-in-from-bottom-2 z-50 min-w-[8rem] origin-(--radix-context-menu-content-transform-origin) overflow-hidden rounded-md border p-1 shadow-lg"; className];
     Spread (Ok props)] [].

Definition ContextMenuContent (className : val) (props : attrs A) : jsx A :=
  el "ContextMenuPrimitive.Portal" [] [
    elp "ContextMenuPrimitive.Content" ["data-slot" =: "context-menu-content";
       "className" =: cn ["bg-popover text-popover-foreground data-[state=open]:animate-in data-[state=closed]:animate-out data-[state=closed]:fade-out-0 data-[state=open]:fade-in-0 data-[state=closed]:zoom-out-95 data-[state=open]:zoom-in-95 data-[side=bottom]:slide-in-from-top-2 data-[side=left]:slide-in-from-right-2 data-[side=right]:slide-in-from-left-2 data-[side=top]:slide-in-from-bottom-2 z-50 max-h-(--radix-context-menu-content-available-height) min-w-[8rem] origin-(--radix-context-menu-content-transform-origin) overflow-x-hidden overflow-y-auto rounded-md border p-1 shadow-md"; className];
       Spread (Ok props)] []].

Definition ContextMenuItem (className inset variant : val) (props : attrs A) : jsx A :=
  let variant := dflt variant "default" in
  elp "ContextMenuPrimitive.Item" ["data-slot" =: "context-menu-item";
     "data-inset" =: inset;
     "data-variant" =: variant;
     "className" =: cn ["focus:bg-accent focus:text-accent-foreground data-[variant=destructive]:text-destructive data-[variant=destructive]:focus:bg-destructive/10 dark:data-[variant=destructive]:focus:bg-destructive/20 data-[variant=destructive]:focus:text-destructive data-[variant=destructive]:*:[svg]:!text-destructive [&_svg:not([class*='text-'])]:text-muted-foreground relative flex cursor-default items-center gap-2 rounded-sm px-2 py-1.5 text-sm outline-hidden select-none data-[disabled]:pointer-events-none data-[disabled]:opacity-50 data-[inset]:pl-8 [&_svg]:pointer-events-none [&_svg]:shrink-0 [&_svg:not([class*='size-'])]:size-4"; className];
     Spread (Ok props)] [].

Definition ContextMenuCheckboxItem (className : val) (children : kids_prop A) (checked : val) (props : attrs A) : jsx A :=
  elp "ContextMenuPrimitive.CheckboxItem" ["data-slot" =: "context-menu-checkbox-item";
     "className" =: cn ["focus:bg-accent focus:text-accent-foreground relative flex cursor-default items-center gap-2 rounded-sm py-1.5 pr-2 pl-8 text-sm outline-hidden select-none data-[disabled]:pointer-events-none data-[disabled]:opacity-50 [&_svg]:pointer-events-none [&_svg]:shrink-0 [&_svg:not([class*='size-'])]:size-4"; className];
     "checked" =: checked;
     Spread (Ok props)] [
    el "span" ["className" =: "pointer-events-none absolute left-2 flex size-3.5 items-center justify-center"] [
      el "ContextMenuPrimitive.ItemIndicator" [] [el "CheckIcon" ["className" =: "size-4"] []]];
    slot children].

Definition ContextMenuRadioItem (className : val) (children : kids_prop A) (props : attrs A) : jsx A :=
  elp "ContextMenuPrimitive.RadioItem" ["data-slot" =: "context-menu-radio-item";
     "className" =: cn ["focus:bg-accent focus:text-accent-foreground relative flex cursor-default items-center gap-2 rounded-sm py-1.5 pr-2 pl-8 text-sm outline-hidden select-none data-[disabled]:pointer-events-none data-[disabled]:opacity-50 [&_svg]:pointer-events-none [&_svg]:shrink-0 [&_svg:not([class*='size-'])]:size-4"; className];
     Spread (Ok props)] [
    el "span" ["className" =: "pointer-events-none absolute left-2 flex size-3.5 items-center justify-center"] [
      el "ContextMenuPrimitive.ItemIndicator" [] [
        el "CircleIcon" ["className" =: "size-2 fill-current"] []]];
    slot children].

Definition ContextMenuLabel (className inset : val) (props : attrs A) : jsx A :=
  elp "ContextMenuPrimitive.Label" ["data-slot" =: "context-menu-label";
     "data-inset" =: inset;
     "className" =: cn ["text-foreground px-2 py-1.5 text-sm font-medium data-[inset]:pl-8"; className];
     Spread (Ok props)] [].

Definition ContextMenuSeparator (className : val) (props : attrs A) : jsx A :=
  elp "ContextMenuPrimitive.Separator" ["data-slot" =: "context-menu-separator";
     "className" =: cn ["bg-border -mx-1 my-1 h-px"; className];
     Spread (Ok props)] [].

Definition ContextMenuShortcut (className : val) (props : attrs A) : jsx A :=
  elp "span" ["data-slot" =: "context-menu-shortcut";
     "className" =: cn ["text-muted-foreground ml-auto text-xs tracking-widest"; className];
     Spread (Ok props)] [].

(** ** [dropdown-menu.tsx] *)

Definition DropdownMenu (props : attrs A) : jsx A :=
  elp "DropdownMenuPrimitive.Root" ["data-slot" =: "dropdown-menu"; Spread (Ok props)] [].

Definition DropdownMenuPortal (props : attrs A) : jsx A :=
  elp "DropdownMenuPrimitive.Portal" ["data-slot" =: "dropdown-menu-portal"; Spread (Ok props)] [].

Definition DropdownMenuTrigger (props : attrs A) : jsx A :=
  elp "DropdownMenuPrimitive.Trigger" ["data-slot" =: "dropdown-menu-trigger"; Spread (Ok props)] [].

Definition DropdownMenuContent (className sideOffset : val) (props : attrs A) : jsx A :=
  let sideOffset := dflt sideOffset (int 4) in
  el "DropdownMenuPrimitive.Portal" [] [
    elp "DropdownMenuPrimitive.Content" ["data-slot" =: "dropdown-menu-content";
       "sideOffset" =: sideOffset;
       "className" =: cn ["bg-popover text-popover-foreground data-[state=open]:animate-in data-[state=closed]:animate-out data-[state=closed]:fade-out-0 data-[state=open]:fade-in-0 data-[state=closed]:zoom-out-95 data-[state=open]:zoom-in-95 data-[side=bottom]:slide-in-from-top-2 data-[side=left]:slide-in-from-right-2 data-[side=right]:slide-in-from-left-2 data-[side=top]:slide-in-from-bottom-2 z-50 max-h-(--radix-dropdown-menu-content-available-height) min-w-[8rem] origin-(--radix-dropdown-menu-content-transform-origin) overflow-x-hidden overflow-y-auto rounded-md border p-1 shadow-md"; className];
       Spread (Ok props)] []].

Definition DropdownMenuGroup (props : attrs A) : jsx A :=
  elp "DropdownMenuPrimitive.Group" ["data-slot" =: "dropdown-menu-group"; Spread (Ok props)] [].

Definition DropdownMenuItem (className inset variant : val) (props : attrs A) : jsx A :=
  let variant := dflt variant "default" in
  elp "DropdownMenuPrimitive.Item" ["data-slot" =: "dropdown-menu-item";
     "data-inset" =: inset;
     "data-variant" =: variant;
     "className" =: cn ["focus:bg-accent focus:text-accent-foreground data-[variant=destructive]:text-destructive data-[variant=destructive]:focus:bg-destructive/10 dark:data-[variant=destructive]:focus:bg-destructive/20 data-[variant=destructive]:focus:text-destructive data-[variant=destructive]:*:[svg]:!text-destructive [&_svg:not([class*='text-'])]:text-muted-foreground relative flex cursor-default items-center gap-2 rounded-sm px-2 py-1.5 text-sm outline-hidden select-none data-[disabled]:pointer-events-none data-[disabled]:opacity-50 data-[inset]:pl-8 [&_svg]:pointer-events-none [&_svg]:shrink-0 [&_svg:not([class*='size-'])]:size-4"; className];
     Spread (Ok props)] [].

Definition DropdownMenuCheckboxItem (className : val) (children : kids_prop A) (checked : val) (props : attrs A) : jsx A :=
  elp "DropdownMenuPrimitive.CheckboxItem" ["data-slot" =: "dropdown-menu-checkbox-item";
     "className" =: cn ["focus:bg-accent focus:text-accent-foreground relative flex cursor-default items-center gap-2 rounded-sm py-1.5 pr-2 pl-8 text-sm outline-hidden select-none data-[disabled]:pointer-events-none data-[disabled]:opacity-50 [&_svg]:pointer-events-none [&_svg]:shrink-0 [&_svg:not([class*='size-'])]:size-4"; className];
     "checked" =: checked;
     Spread (Ok props)] [
    el "span" ["className" =: "pointer-events-none absolute left-2 flex size-3.5 items-center justify-center"] [
      el "DropdownMenuPrimitive.ItemIndicator" [] [el "CheckIcon" ["className" =: "size-4"] []]];
    slot children].

Definition DropdownMenuRadioGroup (props : attrs A) : jsx A :=
  elp "DropdownMenuPrimitive.RadioGroup" ["data-slot" =: "dropdown-menu-radio-group"; Spread (Ok props)] [].

Definition DropdownMenuRadioItem (className : val) (children : kids_prop A) (props : attrs A) : jsx A :=
  elp "DropdownMenuPrimitive.RadioItem" ["data-slot" =: "dropdown-menu-radio-item";
     "className" =: cn ["focus:bg-accent focus:text-accent-foreground relative flex cursor-default items-center gap-2 rounded-sm py-1.5 pr-2 pl-8 text-sm outline-hidden select-none data-[disabled]:pointer-events-none data-[disabled]:opacity-50 [&_svg]:pointer-events-none [&_svg]:shrink-0 [&_svg:not([class*='size-'])]:size-4"; className];
     Spread (Ok props)] [
    el "span" ["className" =: "pointer-events-none absolute left-2 flex size-3.5 items-center justify-center"] [
      el "DropdownMenuPrimitive.ItemIndicator" [] [
        el "CircleIcon" ["className" =: "size-2 fill-current"] []]];
    slot children].

Definition DropdownMenuLabel (className inset : val) (props : attrs A) : jsx A :=
  elp "DropdownMenuPrimitive.Label" ["data-slot" =: "dropdown-menu-label";
     "data-inset" =: inset;
     "className" =: cn ["px-2 py-1.5 text-sm font-medium data-[inset]:pl-8"; className];
     Spread (Ok props)] [].

Definition DropdownMenuSeparator (className : val) (props : attrs A) : jsx A :=
  elp "DropdownMenuPrimitive.Separator" ["data-slot" =: "dropdown-menu-separator";
     "className" =: cn ["bg-border -mx-1 my-1 h-px"; className];
     Spread (Ok props)] [].

Definition DropdownMenuShortcut (className : val) (props : attrs A) : jsx A :=
  elp "span" ["data-slot" =: "dropdown-menu-shortcut";
     "className" =: cn ["text-muted-foreground ml-auto text-xs tracking-widest"; className];
     Spread (Ok props)] [].

Definition DropdownMenuSub (props : attrs A) : jsx A :=
  elp "DropdownMenuPrimitive.Sub" ["data-slot" =: "dropdown-menu-sub"; Spread (Ok props)] [].

Definition DropdownMenuSubTrigger (className inset : val) (children : kids_prop A) (props : attrs A) : jsx A :=
  elp "DropdownMenuPrimitive.SubTrigger" ["data-slot" =: "dropdown-menu-sub-trigger";
     "data-inset" =: inset;
     "className" =: cn ["focus:bg-accent focus:text-accent-foreground data-[state=open]:bg-accent data-[state=open]:text-accent-foreground flex cursor-default items-center rounded-sm px-2 py-1.5 text-sm outline-hidden select-none data-[inset]:pl-8"; className];
     Spread (Ok props)] [
    slot children;
    el "ChevronRightIcon" ["className" =: "ml-auto size-4"] []].

Definition DropdownMenuSubContent (className : val) (props : attrs A) : jsx A :=
  elp "DropdownMenuPrimitive.SubContent" ["data-slot" =: "dropdown-menu-sub-content";
     "className" =: cn ["bg-popover text-popover-foreground data-[state=open]:animate-in data-[state=closed]:animate-out data-[state=closed]:fade-out-0 data-[state=open]:fade-in-0 data-[state=closed]:zoom-out-95 data-[state=open]:zoom-in-95 data-[side=bottom]:slide-in-from-top-2 data-[side=left]:slide-in-from-right-2 data-[side=right]:slide-in-from-left-2 data-[side=top]:slide-in-from-bottom-2 z-50 min-w-[8rem] origin-(--radix-dropdown-menu-content-transform-origin) overflow-hidden rounded-md border p-1 shadow-lg"; className];
     Spread (Ok props)] [].

(** ** [menubar.tsx] *)

Definition Menubar (className : val) (props : attrs A) : jsx A :=
  elp "MenubarPrimitive.Root" ["data-slot" =: "menubar";
     "className" =: cn ["bg-background flex h-9 items-center gap-1 rounded-md border p-1 shadow-xs"; className];
     Spread (Ok props)] [].

Definition MenubarMenu (props : attrs A) : jsx A :=
  elp "MenubarPrimitive.Menu" ["data-slot" =: "menubar-menu"; Spread (Ok props)] [].

Definition MenubarGroup (props : attrs A) : jsx A :=
  elp "MenubarPrimitive.Group" ["data-slot" =: "menubar-group"; Spread (Ok props)] [].

Definition MenubarPortal (props : attrs A) : jsx A :=
  elp "MenubarPrimitive.Portal" ["data-slot" =: "menubar-portal"; Spread (Ok props)] [].

Definition MenubarRadioGroup (props : attrs A) : jsx A :=
  elp "MenubarPrimitive.RadioGroup" ["data-slot" =: "menubar-radio-group"; Spread (Ok props)] [].

Definition MenubarTrigger (className : val) (props : attrs A) : jsx A :=
  elp "MenubarPrimitive.Trigger" ["data-slot" =: "menubar-trigger";
     "className" =: cn ["focus:bg-accent focus:text-accent-foreground data-[state=open]:bg-accent data-[state=open]:text-accent-foreground flex items-center rounded-sm px-2 py-1 text-sm font-medium outline-hidden select-none"; className];
     Spread (Ok props)] [].

Definition MenubarContent (className align alignOffset sideOffset : val) (props : attrs A) : jsx A :=
  let align := dflt align "start" in
  let alignOffset := dflt alignOffset (int (-4)) in
  let sideOffset := dflt sideOffset (int 8) in
  el "MenubarPortal" [] [
    elp "MenubarPrimitive.Content" ["data-slot" =: "menubar-content";
       "align" =: align;
       "alignOffset" =: alignOffset;
       "sideOffset" =: sideOffset;
       "className" =: cn ["bg-popover text-popover-foreground data-[state=open]:animate-in data-[state=closed]:fade-out-0 data-[state=open]:fade-in-0 data-[state=closed]:zoom-out-95 data-[state=open]:zoom-in-95 data-[side=bottom]:slide-in-from-top-2 data-[side=left]:slide-in-from-right-2 data-[side=right]:slide-in-from-left-2 data-[side=top]:slide-in-from-bottom-2 z-50 min-w-[12rem] origin-(--radix-menubar-content-transform-origin) overflow-hidden rounded-md border p-1 shadow-md"; className];
       Spread (Ok props)] []].

Definition MenubarItem (className inset variant : val) (props : attrs A) : jsx A :=
  let variant := dflt variant "default" in
  elp "MenubarPrimitive.Item" ["data-slot" =: "menubar-item";
     "data-inset" =: inset;
     "data-variant" =: variant;
     "className" =: cn ["focus:bg-accent focus:text-accent-foreground data-[variant=destructive]:text-destructive data-[variant=destructive]:focus:bg-destructive/10 dark:data-[variant=destructive]:focus:bg-destructive/20 data-[variant=destructive]:focus:text-destructive data-[variant=destructive]:*:[svg]:!text-destructive [&_svg:not([class*='text-'])]:text-muted-foreground relative flex cursor-default items-center gap-2 rounded-sm px-2 py-1.5 text-sm outline-hidden select-none data-[disabled]:pointer-events-none data-[disabled]:opacity-50 data-[inset]:pl-8 [&_svg]:pointer-events-none [&_svg]:shrink-0 [&_svg:not([class*='size-'])]:size-4"; className];
     Spread (Ok props)] [].

Definition MenubarCheckboxItem (className : val) (children : kids_prop A) (checked : val) (props : attrs A) : jsx A :=
  elp "MenubarPrimitive.CheckboxItem" ["data-slot" =: "menubar-checkbox-item";
     "className" =: cn ["focus:bg-accent focus:text-accent-foreground relative flex cursor-default items-center gap-2 rounded-xs py-1.5 pr-2 pl-8 text-sm outline-hidden select-none data-[disabled]:pointer-events-none data-[disabled]:opacity-50 [&_svg]:pointer-events-none [&_svg]:shrink-0 [&_svg:not([class*='size-'])]:size-4"; className];
     "checked" =: checked;
     Spread (Ok props)] [
    el "span" ["className" =: "pointer-events-none absolute left-2 flex size-3.5 items-center justify-center"] [
      el "MenubarPrimitive.ItemIndicator" [] [el "CheckIcon" ["className" =: "size-4"] []]];
    slot children].

Definition MenubarRadioItem (className : val) (children : kids_prop A) (props : attrs A) : jsx A :=
  elp "MenubarPrimitive.RadioItem" ["data-slot" =: "menubar-radio-item";
     "className" =: cn ["focus:bg-accent focus:text-accent-foreground relative flex cursor-default items-center gap-2 rounded-xs py-1.5 pr-2 pl-8 text-sm outline-hidden select-none data-[disabled]:pointer-events-none data-[disabled]:opacity-50 [&_svg]:pointer-events-none [&_svg]:shrink-0 [&_svg:not([class*='size-'])]:size-4"; className];
     Spread (Ok props)] [
    el "span" ["className" =: "pointer-events-none absolute left-2 flex size-3.5 items-center justify-center"] [
      el "MenubarPrimitive.ItemIndicator" [] [
        el "CircleIcon" ["className" =: "size-2 fill-current"] []]];
    slot children].

Definition MenubarLabel (className inset : val) (props : attrs A) : jsx A :=
  elp "MenubarPrimitive.Label" ["data-slot" =: "menubar-label";
     "data-inset" =: inset;
     "className" =: cn ["px-2 py-1.5 text-sm font-medium data-[inset]:pl-8"; className];
     Spread (Ok props)] [].

Definition MenubarSeparator (className : val) (props : attrs A) : jsx A :=
  elp "MenubarPrimitive.Separator" ["data-slot" =: "menubar-separator";
     "className" =: cn ["bg-border -mx-1 my-1 h-px"; className];
     Spread (Ok props)] [].

Definition MenubarShortcut (className : val) (props : attrs A) : jsx A :=
  elp "span" ["data-slot" =: "menubar-shortcut";
     "className" =: cn ["text-muted-foreground ml-auto text-xs tracking-widest"; className];
     Spread (Ok props)] [].

Definition MenubarSub (props : attrs A) : jsx A :=
  elp "MenubarPrimitive.Sub" ["data-slot" =: "menubar-sub"; Spread (Ok props)] [].

Definition MenubarSubTrigger (className inset : val) (children : kids_prop A) (props : attrs A) : jsx A :=
  elp "MenubarPrimitive.SubTrigger" ["data-slot" =: "menubar-sub-trigger";
     "data-inset" =: inset;
     "className" =: cn ["focus:bg-accent focus:text-accent-foreground data-[state=open]:bg-accent data-[state=open]:text-accent-foreground flex cursor-default items-center rounded-sm px-2 py-1.5 text-sm outline-none select-none data-[inset]:pl-8"; className];
     Spread (Ok props)] [
    slot children;
    el "ChevronRightIcon" ["className" =: "ml-auto h-4 w-4"] []].

Definition MenubarSubContent (className : val) (props : attrs A) : jsx A :=
  elp "MenubarPrimitive.SubContent" ["data-slot" =: "menubar-sub-content";
     "className" =: cn ["bg-popover text-popover-foreground data-[state=open]:animate-in data-[state=closed]:animate-out data-[state=closed]:fade-out-0 data-[state=open]:fade-in-0 data-[state=closed]:zoom-out-95 data-[state=open]:zoom-in-95 data-[side=bottom]:slide-in-from-top-2 data-[side=left]:slide-in-from-right-2 data-[side=right]:slide-in-from-left-2 data-[side=top]:slide-in-from-bottom-2 z-50 min-w-[8rem] origin-(--radix-menubar-content-transform-origin) overflow-hidden rounded-md border p-1 shadow-lg"; className];
     Spread (Ok props)] [].

(** ** [navigation-menu.tsx] *)

Definition NavigationMenu (className : val) (children : kids_prop A) (viewport : val) (props : attrs A) : jsx A :=
  let viewport := dflt viewport true in
  elp "NavigationMenuPrimitive.Root" ["data-slot" =: "navigation-menu";
     "data-viewport" =: viewport;
     "className" =: cn ["group/navigation-menu relative flex max-w-max flex-1 items-center justify-center"; className];
     Spread (Ok props)] [
    slot children;
    show viewport
      (el "NavigationMenuViewport" [] [])].

Definition NavigationMenuList (className : val) (props : attrs A) : jsx A :=
  elp "NavigationMenuPrimitive.List" ["data-slot" =: "navigation-menu-list";
     "className" =: cn ["group flex flex-1 list-none items-center justify-center gap-1"; className];
     Spread (Ok props)] [].

Definition NavigationMenuItem (className : val) (props : attrs A) : jsx A :=
  elp "NavigationMenuPrimitive.Item" ["data-slot" =: "navigation-menu-item";
     "className" =: cn ["relative"; className];
     Spread (Ok props)] [].

Definition NavigationMenuContent (className : val) (props : attrs A) : jsx A :=
  elp "NavigationMenuPrimitive.Content" ["data-slot" =: "navigation-menu-content";
     "className" =: cn ["data-[motion^=from-]:animate-in data-[motion^=to-]:animate-out data-[motion^=from-]:fade-in data-[motion^=to-]:fade-out data-[motion=from-end]:slide-in-from-right-52 data-[motion=from-start]:slide-in-from-left-52 data-[motion=to-end]:slide-out-to-right-52 data-[motion=to-start]:slide-out-to-left-52 top-0 left-0 w-full p-2 pr-2.5 md:absolute md:w-auto"; "group-data-[viewport=false]/navigation-menu:bg-popover group-data-[viewport=false]/navigation-menu:text-popover-foreground group-data-[viewport=false]/navigation-menu:data-[state=open]:animate-in group-data-[viewport=false]/navigation-menu:data-[state=closed]:animate-out group-data-[viewport=false]/navigation-menu:data-[state=closed]:zoom-out-95 group-data-[viewport=false]/navigation-menu:data-[state=open]:zoom-in-95 group-data-[viewport=false]/navigation-menu:data-[state=open]:fade-in-0 group-data-[viewport=false]/navigation-menu:data-[state=closed]:fade-out-0 group-data-[viewport=false]/navigation-menu:top-full group-data-[viewport=false]/navigation-menu:mt-1.5 group-data-[viewport=false]/navigation-menu:overflow-hidden group-data-[viewport=false]/navigation-menu:rounded-md group-data-[viewport=false]/navigation-menu:border group-data-[viewport=false]/navigation-menu:shadow group-data-[viewport=false]/navigation-menu:duration-200 **:data-[slot=navigation-menu-link]:focus:ring-0 **:data-[slot=navigation-menu-link]:focus:outline-none"; className];
     Spread (Ok props)] [].

Definition NavigationMenuViewport (className : val) (props : attrs A) : jsx A :=
  el "div" ["className" =: cn ["absolute top-full left-0 isolate z-50 flex justify-center"]] [
    elp "NavigationMenuPrimitive.Viewport" ["data-slot" =: "navigation-menu-viewport";
       "className" =: cn ["origin-top-center bg-popover text-popover-foreground data-[state=open]:animate-in data-[state=closed]:animate-out data-[state=closed]:zoom-out-95 data-[state=open]:zoom-in-90 relative mt-1.5 h-[var(--radix-navigation-menu-viewport-height)] w-full overflow-hidden rounded-md border shadow md:w-[var(--radix-navigation-menu-viewport-width)]"; className];
       Spread (Ok props)] []].

Definition NavigationMenuLink (className : val) (props : attrs A) : jsx A :=
  elp "NavigationMenuPrimitive.Link" ["data-slot" =: "navigation-menu-link";
     "className" =: cn ["data-[active=true]:focus:bg-accent data-[active=true]:hover:bg-accent data-[active=true]:bg-accent/50 data-[active=true]:text-accent-foreground hover:bg-accent hover:text-accent-foreground focus:bg-accent focus:text-accent-foreground focus-visible:ring-ring/50 [&_svg:not([class*='text-'])]:text-muted-foreground flex flex-col gap-1 rounded-sm p-2 text-sm transition-all outline-none focus-visible:ring-[3px] focus-visible:outline-1 [&_svg:not([class*='size-'])]:size-4"; className];
     Spread (Ok props)] [].

Definition NavigationMenuIndicator (className : val) (props : attrs A) : jsx A :=
  elp "NavigationMenuPrimitive.Indicator" ["data-slot" =: "navigation-menu-indicator";
     "className" =: cn ["data-[state=visible]:animate-in data-[state=hidden]:animate-out data-[state=hidden]:fade-out data-[state=visible]:fade-in top-full z-[1] flex h-1.5 items-end justify-center overflow-hidden"; className];
     Spread (Ok props)] [
    el "div" ["className" =: "bg-border relative top-[60%] h-2 w-2 rotate-45 rounded-tl-sm shadow-md"] []].

Definition navigationMenuTriggerStyle : expr :=
  cva "group inline-flex h-9 w-max items-center justify-center rounded-md bg-background px-4 py-2 text-sm font-medium hover:bg-accent hover:text-accent-foreground focus:bg-accent focus:text-accent-foreground disabled:pointer-events-none disabled:opacity-50 data-[state=open]:hover:bg-accent data-[state=open]:text-accent-foreground data-[state=open]:focus:bg-accent data-[state=open]:bg-accent/50 focus-visible:ring-ring/50 outline-none transition-[color,box-shadow] focus-visible:ring-[3px] focus-visible:outline-1"
    [] [] [].

Definition NavigationMenuTrigger (className : val) (children : kids_prop A) (props : attrs A) : jsx A :=
  elp "NavigationMenuPrimitive.Trigger" ["data-slot" =: "navigation-menu-trigger";
     "className" =: cn [navigationMenuTriggerStyle; "group"; className];
     Spread (Ok props)] [
    slot children;
    txt " ";
    el "ChevronDownIcon" ["className" =: "relative top-[1px] ml-1 size-3 transition duration-300 group-data-[state=open]:rotate-180";
       "aria-hidden" =: "true"] []].

(** ** [select.tsx] *)

Definition Select (props : attrs A) : jsx A :=
  elp "SelectPrimitive.Root" ["data-slot" =: "select"; Spread (Ok props)] [].

Definition SelectGroup (props : attrs A) : jsx A :=
  elp "SelectPrimitive.Group" ["data-slot" =: "select-group"; Spread (Ok props)] [].

Definition SelectValue (props : attrs A) : jsx A :=
  elp "SelectPrimitive.Value" ["data-slot" =: "select-value"; Spread (Ok props)] [].

Definition SelectTrigger (className size : val) (children : kids_prop A) (props : attrs A) : jsx A :=
  let size := dflt size "default" in
  elp "SelectPrimitive.Trigger" ["data-slot" =: "select-trigger";
     "data-size" =: size;
     "className" =: cn ["border-input data-[placeholder]:text-muted-foreground [&_svg:not([class*='text-'])]:text-muted-foreground focus-visible:border-ring focus-visible:ring-ring/50 aria-invalid:ring-destructive/20 dark:aria-invalid:ring-destructive/40 aria-invalid:border-destructive dark:bg-input/30 dark:hover:bg-input/50 flex w-full items-center justify-between gap-2 rounded-md border bg-input-background px-3 py-2 text-sm whitespace-nowrap transition-[color,box-shadow] outline-none focus-visible:ring-[3px] disabled:cursor-not-allowed disabled:opacity-50 data-[size=default]:h-9 data-[size=sm]:h-8 *:data-[slot=select-value]:line-clamp-1 *:data-[slot=select-value]:flex *:data-[slot=select-value]:items-center *:data-[slot=select-value]:gap-2 [&_svg]:pointer-events-none [&_svg]:shrink-0 [&_svg:not([class*='size-'])]:size-4"; className];
     Spread (Ok props)] [
    slot children;
    el "SelectPrimitive.Icon" [flag "asChild"] [
      el "ChevronDownIcon" ["className" =: "size-4 opacity-50"] []]].

Definition SelectContent (className : val) (children : kids_prop A) (position : val) (props : attrs A) : jsx A :=
  let position := dflt position "popper" in
  el "SelectPrimitive.Portal" [] [
    elp "SelectPrimitive.Content" ["data-slot" =: "select-content";
       "className" =: cn ["bg-popover text-popover-foreground data-[state=open]:animate-in data-[state=closed]:animate-out data-[state=closed]:fade-out-0 data-[state=open]:fade-in-0 data-[state=closed]:zoom-out-95 data-[state=open]:zoom-in-95 data-[side=bottom]:slide-in-from-top-2 data-[side=left]:slide-in-from-right-2 data-[side=right]:slide-in-from-left-2 data-[side=top]:slide-in-from-bottom-2 relative z-50 max-h-(--radix-select-content-available-height) min-w-[8rem] origin-(--radix-select-content-transform-origin) overflow-x-hidden overflow-y-auto rounded-md border shadow-md"; (position === "popper") &&& "data-[side=bottom]:translate-y-1 data-[side=left]:-translate-x-1 data-[side=right]:translate-x-1 data-[side=top]:-translate-y-1"; className];
       "position" =: position;
       Spread (Ok props)] [
      el "SelectScrollUpButton" [] [];
      el "SelectPrimitive.Viewport" ["className" =: cn ["p-1"; (position === "popper") &&& "h-[var(--radix-select-trigger-height)] w-full min-w-[var(--radix-select-trigger-width)] scroll-my-1"]] [
        slot children];
      el "SelectScrollDownButton" [] []]].

Definition SelectLabel (className : val) (props : attrs A) : jsx A :=
  elp "SelectPrimitive.Label" ["data-slot" =: "select-label";
     "className" =: cn ["text-muted-foreground px-2 py-1.5 text-xs"; className];
     Spread (Ok props)] [].

Definition SelectItem (className : val) (children : kids_prop A) (props : attrs A) : jsx A :=
  elp "SelectPrimitive.Item" ["data-slot" =: "select-item";
     "className" =: cn ["focus:bg-accent focus:text-accent-foreground [&_svg:not([class*='text-'])]:text-muted-foreground relative flex w-full cursor-default items-center gap-2 rounded-sm py-1.5 pr-8 pl-2 text-sm outline-hidden select-none data-[disabled]:pointer-events-none data-[disabled]:opacity-50 [&_svg]:pointer-events-none [&_svg]:shrink-0 [&_svg:not([class*='size-'])]:size-4 *:[span]:last:flex *:[span]:last:items-center *:[span]:last:gap-2"; className];
     Spread (Ok props)] [
    el "span" ["className" =: "absolute right-2 flex size-3.5 items-center justify-center"] [
      el "SelectPrimitive.ItemIndicator" [] [el "CheckIcon" ["className" =: "size-4"] []]];
    el "SelectPrimitive.ItemText" [] [slot children]].

Definition SelectSeparator (className : val) (props : attrs A) : jsx A :=
  elp "SelectPrimitive.Separator" ["data-slot" =: "select-separator";
     "className" =: cn ["bg-border pointer-events-none -mx-1 my-1 h-px"; className];
     Spread (Ok props)] [].

Definition SelectScrollUpButton (className : val) (props : attrs A) : jsx A :=
  elp "SelectPrimitive.ScrollUpButton" ["data-slot" =: "select-scroll-up-button";
     "className" =: cn ["flex cursor-default items-center justify-center py-1"; className];
     Spread (Ok props)] [
    el "ChevronUpIcon" ["className" =: "size-4"] []].

Definition SelectScrollDownButton (className : val) (props : attrs A) : jsx A :=
  elp "SelectPrimitive.ScrollDownButton" ["data-slot" =: "select-scroll-down-button";
     "className" =: cn ["flex cursor-default items-center justify-center py-1"; className];
     Spread (Ok props)] [
    el "ChevronDownIcon" ["className" =: "size-4"] []].

End Kit.
