(* ===== verification/UiSidebar.v ===== *)
(** * The UI kit: the collapsible sidebar ([sidebar.tsx], [use-mobile.ts])

    The provider keeps the open state (its own, or the parent's when the
    parent controls it), the mobile sheet's state and whether the screen is
    narrow; the other components read them from the context. *)
From S2P Require Import Prelude JsStr JsNum JsVal React Effects Ui.
From S2P Require UiBasics.
Local Open Scope string_scope.
Local Open Scope js_scope.

Definition SIDEBAR_COOKIE_NAME : string := "sidebar_state".
Definition SIDEBAR_COOKIE_MAX_AGE : Z := 60 * 60 * 24 * 7.
Definition SIDEBAR_WIDTH : string := "16rem".
Definition SIDEBAR_WIDTH_MOBILE : string := "18rem".
Definition SIDEBAR_WIDTH_ICON : string := "3rem".
Definition SIDEBAR_KEYBOARD_SHORTCUT : string := "b".
Definition MOBILE_BREAKPOINT : Z := 768.

(** ** The provider *)

Record state := State {
  isMobile : option bool;       (* undefined until the first effect *)
  openMobile : bool;
  _open : bool;
}.
Definition set_isMobile (b : bool) (s : state) : state := State (Some b) (openMobile s) (_open s).
Definition set_openMobile (b : bool) (s : state) : state := State (isMobile s) b (_open s).
Definition set__open (b : bool) (s : state) : state := State (isMobile s) (openMobile s) b.

(** [defaultOpen = true]. *)
Definition init_state (defaultOpen : option bool) : state :=
  State None false (default true defaultOpen).

(** The parent of the provider and the state the two live in: the [open] prop
    it passes, what it makes of [onOpenChange] (if it passes one), and what it
    does on its own. *)
Class SidebarHost (S : Type) := {
  provider : S -> state;
  modify : (state -> state) -> S -> S;
  openProp : S -> option bool;
  setOpenProp : option (bool -> S -> S);
  host_action : Type;
  host_acts : host_action -> S -> S;
  provider_modify : forall f s, provider (modify f s) = f (provider s);
  openProp_modify : forall f s, openProp (modify f s) = openProp s;
  provider_setOpenProp : forall g b s, setOpenProp = Some g -> provider (g b s) = provider s;
  provider_host_acts : forall a s, provider (host_acts a s) = provider s;
}.

(** A boolean, or a function of the current one. *)
Inductive open_value : Type :=
| Value (b : bool)
| Updater (f : bool -> bool).

(** The keyboard, the screen, and the elements that use the context. *)
Inductive action : Type :=
| KeyDown (e : event)
| MediaChange
| ToggleSidebar
| SetOpen (value : open_value)
| SetOpenMobile (open : bool).

Section Provider.
Context {S : Type} `{SidebarHost S}.

Definition update (f : state -> state) : prog S unit := upd (modify f).

(** [useIsMobile()]: its [onChange] listener, also called by its effect. *)
Definition onChange : prog S unit :=
  let! w := call CInnerWidth in
  let! b := lift (w .< int MOBILE_BREAKPOINT) in
  update (set_isMobile (truthy b)).
Definition useIsMobile (s : S) : bool := default false (isMobile (provider s)).

Definition open (s : S) : bool := default (_open (provider s)) (openProp s).

(** [state] of the context. *)
Definition state_of (s : S) : string := if open s then "expanded" else "collapsed".

Definition cookie (openState : bool) : string :=
  SIDEBAR_COOKIE_NAME +:+ "=" +:+ (if openState then "true" else "false") +:+
  "; path=/; max-age=" +:+ string_of_Z SIDEBAR_COOKIE_MAX_AGE.

(** [setOpen(value)]; a function is applied to the [open] of the render the
    caller closed over. *)
Definition setOpen (s : S) (value : open_value) : prog S unit :=
  let openState := match value with Updater f => f (open s) | Value b => b end in
  do! match setOpenProp with
      | Some f => upd (f openState)
      | None => update (set__open openState)
      end in
  do_ (CSetCookie (cookie openState)).

Definition toggleSidebar (s : S) : prog S unit :=
  if useIsMobile s then update (fun p => set_openMobile (negb (openMobile p)) p)
  else setOpen s (Updater negb).

Definition is_shortcut (e : event) : bool :=
  String.eqb (ev_key e) SIDEBAR_KEYBOARD_SHORTCUT && (ev_meta e || ev_ctrl e).
Definition handleKeyDown (s : S) (e : event) : prog S unit :=
  if is_shortcut e then do! do_ CPreventDefault in toggleSidebar s else skip.

Definition handle (s : S) (a : action) : prog S unit :=
  match a with
  | KeyDown e => handleKeyDown s e
  | MediaChange => onChange
  | ToggleSidebar => toggleSidebar s
  | SetOpen v => setOpen s v
  | SetOpenMobile b => update (set_openMobile b)
  end.

(** The provider under its parent: the events are its own and its parent's. *)
Definition page (s0 : S) : component S (action + host_action) :=
  Component s0 onChange
    (fun s a => match a with inl a => handle s a | inr p => upd (host_acts p) end) (fun _ _ => skip).
End Provider.

(** ** The context *)

Record sidebar_context := SidebarContextProps {
  ctx_state : string;
  ctx_open : bool;
  ctx_openMobile : bool;
  ctx_isMobile : bool;
}.
Definition contextValue {S} `{SidebarHost S} (s : S) : sidebar_context :=
  SidebarContextProps (state_of s) (open s) (openMobile (provider s)) (useIsMobile s).

(** [useSidebar()]: the context is null outside a provider. *)
Definition useSidebar (context : option sidebar_context) : res sidebar_context :=
  match context with
  | Some c => Ok c
  | None => Err (UserError "useSidebar must be used within a SidebarProvider.")
  end.

(** What the elements below call: the sidebar's own callbacks, or the ones
    ([B]) the caller passed in the props. *)
Inductive act (B : Type) : Type :=
| Caller (b : B)
| Own (a : action)
| ThenToggle (onClick : option (event -> B)) (e : event).
Arguments Caller {B} b.
Arguments Own {B} a.
Arguments ThenToggle {B} onClick e.

Section Kit.
Context `{UiLib} {B : Type}.
Local Abbreviation A := (act B).

(** The provider's element; the functions of the context are the provider's. *)
Definition SidebarProvider (c : sidebar_context) (className style : val) (children : kids_prop A)
    (props : attrs A) : jsx A :=
  el "SidebarContext.Provider"
    ["value" =: jobj [("state", ctx_state c : expr); ("open", ctx_open c : expr);
                      ("setOpen", VComp "setOpen" : expr); ("isMobile", ctx_isMobile c : expr);
                      ("openMobile", ctx_openMobile c : expr);
                      ("setOpenMobile", VComp "setOpenMobile" : expr);
                      ("toggleSidebar", VComp "toggleSidebar" : expr)]] [
    el "TooltipProvider" ["delayDuration" =: int 0] [
      elp "div" ["data-slot" =: "sidebar-wrapper";
         "style" =: jspread (jobj [("--sidebar-width", SIDEBAR_WIDTH : expr);
                                   ("--sidebar-width-icon", SIDEBAR_WIDTH_ICON : expr)]) style;
         "className" =: cn ["group/sidebar-wrapper has-data-[variant=inset]:bg-sidebar flex min-h-svh w-full"; className];
         Spread (Ok props)] [slot children]]].

Definition Sidebar_none (className : val) (children : kids_prop A) (props : attrs A) : jsx A :=
  elp "div" ["data-slot" =: "sidebar";
     "className" =: cn ["bg-sidebar text-sidebar-foreground flex h-full w-(--sidebar-width) flex-col"; className];
     Spread (Ok props)] [slot children].

Definition Sidebar_mobile (c : sidebar_context) (side : val) (children : kids_prop A)
    (props : attrs A) : jsx A :=
  elp "Sheet" ["open" =: ctx_openMobile c;
     onV "onOpenChange" (fun v => Own (SetOpenMobile (truthy v)));
     Spread (Ok props)] [
    el "SheetContent" ["data-sidebar" =: "sidebar"; "data-slot" =: "sidebar"; "data-mobile" =: "true";
       "className" =: "bg-sidebar text-sidebar-foreground w-(--sidebar-width) p-0 [&>button]:hidden";
       "style" =: jobj [("--sidebar-width", SIDEBAR_WIDTH_MOBILE : expr)];
       "side" =: side] [
      el "SheetHeader" ["className" =: "sr-only"] [
        el "SheetTitle" [] [txt "Sidebar"];
        el "SheetDescription" [] [txt "Displays the mobile sidebar."]];
      el "div" ["className" =: "flex h-full w-full flex-col"] [slot children]]].

Definition Sidebar_desktop (c : sidebar_context) (side variant collapsible className : val)
    (children : kids_prop A) (props : attrs A) : jsx A :=
  let padded := (variant === "floating") ||| (variant === "inset") in
  el "div" ["className" =: "group peer text-sidebar-foreground hidden md:block";
     "data-state" =: ctx_state c;
     "data-collapsible" =: jcond ((ctx_state c) === "collapsed") collapsible "";
     "data-variant" =: variant;
     "data-side" =: side;
     "data-slot" =: "sidebar"] [
    el "div" ["data-slot" =: "sidebar-gap";
       "className" =: cn ["relative w-(--sidebar-width) bg-transparent transition-[width] duration-200 ease-linear";
         "group-data-[collapsible=offcanvas]:w-0";
         "group-data-[side=right]:rotate-180";
         jcond padded "group-data-[collapsible=icon]:w-[calc(var(--sidebar-width-icon)+(--spacing(4)))]"
                      "group-data-[collapsible=icon]:w-(--sidebar-width-icon)"]] [];
    elp "div" ["data-slot" =: "sidebar-container";
       "className" =: cn ["fixed inset-y-0 z-10 hidden h-svh w-(--sidebar-width) transition-[left,right,width] duration-200 ease-linear md:flex";
         jcond (side === "left") "left-0 group-data-[collapsible=offcanvas]:left-[calc(var(--sidebar-width)*-1)]"
                                 "right-0 group-data-[collapsible=offcanvas]:right-[calc(var(--sidebar-width)*-1)]";
         jcond padded "p-2 group-data-[collapsible=icon]:w-[calc(var(--sidebar-width-icon)+(--spacing(4))+2px)]"
                      "group-data-[collapsible=icon]:w-(--sidebar-width-icon) group-data-[side=left]:border-r group-data-[side=right]:border-l";
         className];
       Spread (Ok props)] [
      el "div" ["data-sidebar" =: "sidebar"; "data-slot" =: "sidebar-inner";
         "className" =: "bg-sidebar group-data-[variant=floating]:border-sidebar-border flex h-full w-full flex-col group-data-[variant=floating]:rounded-lg group-data-[variant=floating]:border group-data-[variant=floating]:shadow-sm"] [
        slot children]]].

Definition Sidebar (context : option sidebar_context) (side variant collapsible className : val)
    (children : kids_prop A) (props : attrs A) : jsx A :=
  let side := dflt side "left" in
  let variant := dflt variant "sidebar" in
  let collapsible := dflt collapsible "offcanvas" in
  c ← useSidebar context;
  if strict_eq collapsible "none" then Sidebar_none className children props
  else if ctx_isMobile c then Sidebar_mobile c side children props
  else Sidebar_desktop c side variant collapsible className children props.

Definition SidebarTrigger (context : option sidebar_context) (className : val)
    (onClick : option (event -> B)) (props : attrs A) : jsx A :=
  c ← useSidebar context;
  elp "Button" ["data-sidebar" =: "trigger"; "data-slot" =: "sidebar-trigger"; "variant" =: "ghost";
     "size" =: "icon"; "className" =: cn ["size-7"; className];
     onE "onClick" (fun e => ThenToggle onClick e);
     Spread (Ok props)] [
    el "PanelLeftIcon" [] [];
    el "span" ["className" =: "sr-only"] [txt "Toggle Sidebar"]].

Definition SidebarRail (context : option sidebar_context) (className : val) (props : attrs A) : jsx A :=
  c ← useSidebar context;
  elp "button" ["data-sidebar" =: "rail"; "data-slot" =: "sidebar-rail"; "aria-label" =: "Toggle Sidebar";
     "tabIndex" =: int (-1);
     "onClick" =! Own ToggleSidebar;
     "title" =: "Toggle Sidebar";
     "className" =: cn ["hover:after:bg-sidebar-border absolute inset-y-0 z-20 hidden w-4 -translate-x-1/2 transition-all ease-linear group-data-[side=left]:-right-4 group-data-[side=right]:left-0 after:absolute after:inset-y-0 after:left-1/2 after:w-[2px] sm:flex";
       "in-data-[side=left]:cursor-w-resize in-data-[side=right]:cursor-e-resize";
       "[[data-side=left][data-state=collapsed]_&]:cursor-e-resize [[data-side=right][data-state=collapsed]_&]:cursor-w-resize";
       "hover:group-data-[collapsible=offcanvas]:bg-sidebar group-data-[collapsible=offcanvas]:translate-x-0 group-data-[collapsible=offcanvas]:after:left-full";
       "[[data-side=left][data-collapsible=offcanvas]_&]:-right-2";
       "[[data-side=right][data-collapsible=offcanvas]_&]:-left-2";
       className];
     Spread (Ok props)] [].

(** The [tooltip] prop: a text, or the props of the tooltip's content. *)
Inductive tooltip_prop : Type :=
| TooltipText (s : string)
| TooltipProps (l : attrs A).
Definition has_tooltip (t : option tooltip_prop) : bool :=
  match t with None => false | Some (TooltipText s) => str_truthy s | Some (TooltipProps _) => true end.
Definition tooltip_attrs (t : option tooltip_prop) : attrs A :=
  match t with
  | None => []
  | Some (TooltipText s) => [("children", AVal (VStr s))]
  | Some (TooltipProps l) => l
  end.

Definition sidebarMenuButtonVariants (chosen : list (string * expr)) : expr :=
  cva "peer/menu-button flex w-full items-center gap-2 overflow-hidden rounded-md p-2 text-left text-sm outline-hidden ring-sidebar-ring transition-[width,height,padding] hover:bg-sidebar-accent hover:text-sidebar-accent-foreground focus-visible:ring-2 active:bg-sidebar-accent active:text-sidebar-accent-foreground disabled:pointer-events-none disabled:opacity-50 group-has-data-[sidebar=menu-action]/menu-item:pr-8 aria-disabled:pointer-events-none aria-disabled:opacity-50 data-[active=true]:bg-sidebar-accent data-[active=true]:font-medium data-[active=true]:text-sidebar-accent-foreground data-[state=open]:hover:bg-sidebar-accent data-[state=open]:hover:text-sidebar-accent-foreground group-data-[collapsible=icon]:size-8! group-data-[collapsible=icon]:p-2! [&>span:last-child]:truncate [&>svg]:size-4 [&>svg]:shrink-0"
    [("variant", [("default", "hover:bg-sidebar-accent hover:text-sidebar-accent-foreground"); ("outline", "bg-background shadow-[0_0_0_1px_hsl(var(--sidebar-border))] hover:bg-sidebar-accent hover:text-sidebar-accent-foreground hover:shadow-[0_0_0_1px_hsl(var(--sidebar-accent))]")]);
     ("size", [("default", "h-8 text-sm"); ("sm", "h-7 text-xs"); ("lg", "h-12 text-sm group-data-[collapsible=icon]:p-0!")])]
    [("variant", "default"); ("size", "default")] chosen.

Definition SidebarInset (className : val) (props : attrs A) : jsx A :=
  elp "main" ["data-slot" =: "sidebar-inset";
     "className" =: cn ["bg-background relative flex w-full flex-1 flex-col"; "md:peer-data-[variant=inset]:m-2 md:peer-data-[variant=inset]:ml-0 md:peer-data-[variant=inset]:rounded-xl md:peer-data-[variant=inset]:shadow-sm md:peer-data-[variant=inset]:peer-data-[state=collapsed]:ml-2"; className];
     Spread (Ok props)] [].

Definition SidebarInput (className : val) (props : attrs A) : jsx A :=
  elp "Input" ["data-slot" =: "sidebar-input";
     "data-sidebar" =: "input";
     "className" =: cn ["bg-background h-8 w-full shadow-none"; className];
     Spread (Ok props)] [].

Definition SidebarHeader (className : val) (props : attrs A) : jsx A :=
  elp "div" ["data-slot" =: "sidebar-header";
     "data-sidebar" =: "header";
     "className" =: cn ["flex flex-col gap-2 p-2"; className];
     Spread (Ok props)] [].

Definition SidebarFooter (className : val) (props : attrs A) : jsx A :=
  elp "div" ["data-slot" =: "sidebar-footer";
     "data-sidebar" =: "footer";
     "className" =: cn ["flex flex-col gap-2 p-2"; className];
     Spread (Ok props)] [].

Definition SidebarSeparator (className : val) (props : attrs A) : jsx A :=
  elp "Separator" ["data-slot" =: "sidebar-separator";
     "data-sidebar" =: "separator";
     "className" =: cn ["bg-sidebar-border mx-2 w-auto"; className];
     Spread (Ok props)] [].

Definition SidebarContent (className : val) (props : attrs A) : jsx A :=
  elp "div" ["data-slot" =: "sidebar-content";
     "data-sidebar" =: "content";
     "className" =: cn ["flex min-h-0 flex-1 flex-col gap-2 overflow-auto group-data-[collapsible=icon]:overflow-hidden"; className];
     Spread (Ok props)] [].

Definition SidebarGroup (className : val) (props : attrs A) : jsx A :=
  elp "div" ["data-slot" =: "sidebar-group";
     "data-sidebar" =: "group";
     "className" =: cn ["relative flex w-full min-w-0 flex-col p-2"; className];
     Spread (Ok props)] [].

Definition SidebarGroupLabel (className asChild : val) (props : attrs A) : jsx A :=
  let asChild := dflt asChild false in
  elpV (jcond asChild (VComp "Slot") "div") ["data-slot" =: "sidebar-group-label";
     "data-sidebar" =: "group-label";
     "className" =: cn ["text-sidebar-foreground/70 ring-sidebar-ring flex h-8 shrink-0 items-center rounded-md px-2 text-xs font-medium outline-hidden transition-[margin,opacity] duration-200 ease-linear focus-visible:ring-2 [&>svg]:size-4 [&>svg]:shrink-0"; "group-data-[collapsible=icon]:-mt-8 group-data-[collapsible=icon]:opacity-0"; className];
     Spread (Ok props)] [].

Definition SidebarGroupAction (className asChild : val) (props : attrs A) : jsx A :=
  let asChild := dflt asChild false in
  elpV (jcond asChild (VComp "Slot") "button") ["data-slot" =: "sidebar-group-action";
     "data-sidebar" =: "group-action";
     "className" =: cn ["text-sidebar-foreground ring-sidebar-ring hover:bg-sidebar-accent hover:text-sidebar-accent-foreground absolute top-3.5 right-3 flex aspect-square w-5 items-center justify-center rounded-md p-0 outline-hidden transition-transform focus-visible:ring-2 [&>svg]:size-4 [&>svg]:shrink-0"; "after:absolute after:-inset-2 md:after:hidden"; "group-data-[collapsible=icon]:hidden"; className];
     Spread (Ok props)] [].

Definition SidebarGroupContent (className : val) (props : attrs A) : jsx A :=
  elp "div" ["data-slot" =: "sidebar-group-content";
     "data-sidebar" =: "group-content";
     "className" =: cn ["w-full text-sm"; className];
     Spread (Ok props)] [].

Definition SidebarMenu (className : val) (props : attrs A) : jsx A :=
  elp "ul" ["data-slot" =: "sidebar-menu";
     "data-sidebar" =: "menu";
     "className" =: cn ["flex w-full min-w-0 flex-col gap-1"; className];
     Spread (Ok props)] [].

Definition SidebarMenuItem (className : val) (props : attrs A) : jsx A :=
  elp "li" ["data-slot" =: "sidebar-menu-item";
     "data-sidebar" =: "menu-item";
     "className" =: cn ["group/menu-item relative"; className];
     Spread (Ok props)] [].

Definition SidebarMenuAction (className asChild showOnHover : val) (props : attrs A) : jsx A :=
  let asChild := dflt asChild false in
  let showOnHover := dflt showOnHover false in
  elpV (jcond asChild (VComp "Slot") "button") ["data-slot" =: "sidebar-menu-action";
     "data-sidebar" =: "menu-action";
     "className" =: cn ["text-sidebar-foreground ring-sidebar-ring hover:bg-sidebar-accent hover:text-sidebar-accent-foreground peer-hover/menu-button:text-sidebar-accent-foreground absolute top-1.5 right-1 flex aspect-square w-5 items-center justify-center rounded-md p-0 outline-hidden transition-transform focus-visible:ring-2 [&>svg]:size-4 [&>svg]:shrink-0"; "after:absolute after:-inset-2 md:after:hidden"; "peer-data-[size=sm]/menu-button:top-1"; "peer-data-[size=default]/menu-button:top-1.5"; "peer-data-[size=lg]/menu-button:top-2.5"; "group-data-[collapsible=icon]:hidden"; showOnHover &&& "peer-data-[active=true]/menu-button:text-sidebar-accent-foreground group-focus-within/menu-item:opacity-100 group-hover/menu-item:opacity-100 data-[state=open]:opacity-100 md:opacity-0"; className];
     Spread (Ok props)] [].

Definition SidebarMenuBadge (className : val) (props : attrs A) : jsx A :=
  elp "div" ["data-slot" =: "sidebar-menu-badge";
     "data-sidebar" =: "menu-badge";
     "className" =: cn ["text-sidebar-foreground pointer-events-none absolute right-1 flex h-5 min-w-5 items-center justify-center rounded-md px-1 text-xs font-medium tabular-nums select-none"; "peer-hover/menu-button:text-sidebar-accent-foreground peer-data-[active=true]/menu-button:text-sidebar-accent-foreground"; "peer-data-[size=sm]/menu-button:top-1"; "peer-data-[size=default]/menu-button:top-1.5"; "peer-data-[size=lg]/menu-button:top-2.5"; "group-data-[collapsible=icon]:hidden"; className];
     Spread (Ok props)] [].

Definition SidebarMenuSub (className : val) (props : attrs A) : jsx A :=
  elp "ul" ["data-slot" =: "sidebar-menu-sub";
     "data-sidebar" =: "menu-sub";
     "className" =: cn ["border-sidebar-border mx-3.5 flex min-w-0 translate-x-px flex-col gap-1 border-l px-2.5 py-0.5"; "group-data-[collapsible=icon]:hidden"; className];
     Spread (Ok props)] [].

Definition SidebarMenuSubItem (className : val) (props : attrs A) : jsx A :=
  elp "li" ["data-slot" =: "sidebar-menu-sub-item";
     "data-sidebar" =: "menu-sub-item";
     "className" =: cn ["group/menu-sub-item relative"; className];
     Spread (Ok props)] [].

Definition SidebarMenuSubButton (asChild size isActive className : val) (props : attrs A) : jsx A :=
  let asChild := dflt asChild false in
  let size := dflt size "md" in
  let isActive := dflt isActive false in
  elpV (jcond asChild (VComp "Slot") "a") ["data-slot" =: "sidebar-menu-sub-button";
     "data-sidebar" =: "menu-sub-button";
     "data-size" =: size;
     "data-active" =: isActive;
     "className" =: cn ["text-sidebar-foreground ring-sidebar-ring hover:bg-sidebar-accent hover:text-sidebar-accent-foreground active:bg-sidebar-accent active:text-sidebar-accent-foreground [&>svg]:text-sidebar-accent-foreground flex h-7 min-w-0 -translate-x-px items-center gap-2 overflow-hidden rounded-md px-2 outline-hidden focus-visible:ring-2 disabled:pointer-events-none disabled:opacity-50 aria-disabled:pointer-events-none aria-disabled:opacity-50 [&>span:last-child]:truncate [&>svg]:size-4 [&>svg]:shrink-0"; "data-[active=true]:bg-sidebar-accent data-[active=true]:text-sidebar-accent-foreground"; (size === "sm") &&& "text-xs"; (size === "md") &&& "text-sm"; "group-data-[collapsible=icon]:hidden"; className];
     Spread (Ok props)] [].

Definition menu_button (asChild isActive variant size className : val) (props : attrs A) : jsx A :=
  elpV (jcond asChild (VComp "Slot") "button") ["data-slot" =: "sidebar-menu-button";
     "data-sidebar" =: "menu-button"; "data-size" =: size; "data-active" =: isActive;
     "className" =: cn [sidebarMenuButtonVariants [("variant", variant : expr); ("size", size : expr)]; className];
     Spread (Ok props)] [].

Definition SidebarMenuButton (context : option sidebar_context)
    (asChild isActive variant size : val) (tooltip : option tooltip_prop) (className : val)
    (props : attrs A) : jsx A :=
  let asChild := dflt asChild false in
  let isActive := dflt isActive false in
  let variant := dflt variant "default" in
  let size := dflt size "default" in
  c ← useSidebar context;
  let button := menu_button asChild isActive variant size className props in
  if negb (has_tooltip tooltip) then button
  else
    el "Tooltip" [] [
      el "TooltipTrigger" [flag "asChild"] [button];
      elp "TooltipContent" ["side" =: "right"; "align" =: "center";
         "hidden" =: negb (String.eqb (ctx_state c) "collapsed") || ctx_isMobile c;
         Spread (Ok (tooltip_attrs tooltip))] []].

(** [random] is what [Math.random()] answered when the skeleton mounted. *)
Definition skeleton_width (random : num) : expr :=
  tpl [VNum (num_add (math_floor (num_mul random (num_of_Z 40))) (num_of_Z 50)); "%"].

Definition SidebarMenuSkeleton (random : num) (className showIcon : val) (props : attrs A) : jsx A :=
  let showIcon := dflt showIcon false in
  elp "div" ["data-slot" =: "sidebar-menu-skeleton"; "data-sidebar" =: "menu-skeleton";
     "className" =: cn ["flex h-8 items-center gap-2 rounded-md px-2"; className];
     Spread (Ok props)] [
    show showIcon
      (el "Skeleton" ["className" =: "size-4 rounded-md"; "data-sidebar" =: "menu-skeleton-icon"] []);
    el "Skeleton" ["className" =: "h-4 max-w-(--skeleton-width) flex-1";
       "data-sidebar" =: "menu-skeleton-text";
       "style" =: jobj [("--skeleton-width", skeleton_width random)]] []].
End Kit.
