(* ===== verification/UiSpec.v ===== *)
(** * The UI kit: what its wrappers pass through *)
From S2P Require Import Prelude JsStr JsNum JsVal React Effects Logic Ui.
From S2P Require UiBasics UiOverlays UiMenus UiSidebar.
Local Open Scope string_scope.
Local Open Scope js_scope.

(** ** Wrappers *)

Section Wrappers.
Context `{UiLib} {A : Type}.
Implicit Types (own props : attrs A) (ns : list (node A)) (items : list (item A)).

(** The children a caller's attributes stand for, when they render. *)
Definition renders_children (props : attrs A) (ns : list (node A)) : Prop :=
  match carried props with Some j => j = Ok ns | None => ns = [] end.

(** What a caller can rely on, of an element built from the caller's [props]:
    its tag; the kit's [data-slot], unless overridden; every attribute of the
    caller; the caller's children. *)
Record passes (slot tag : string) (props : attrs A) (ns : list (node A)) (j : jsx A)
    (l : attrs A) : Prop := Passes {
  passes_element : j = Ok [Elem tag l ns];
  passes_slot : assoc "data-slot" props = None -> assoc "data-slot" l = Some (AVal (VStr slot));
  passes_props : forall k v, k <> "children" -> assoc k props = Some v -> assoc k l = Some v;
  passes_children : forall c, assoc "children" l = Some c -> carried props = None;
}.

(** A wrapper without a [className] of its own. *)
Definition plain (slot tag : string) (W : attrs A -> jsx A) : Prop :=
  forall props ns, NoDup props.*1 -> renders_children props ns ->
    exists l, passes slot tag props ns (W props) l.

(** A wrapper that merges its own classes with the caller's [className], which
    comes last and so wins in [tailwind-merge]. *)
Definition styled (slot tag : string) (W : val -> attrs A -> jsx A) : Prop :=
  forall className, exists base, forall props ns, NoDup props.*1 -> renders_children props ns ->
    exists l, passes slot tag props ns (W className props) l /\
      (assoc "className" props = None ->
       assoc "className" l = Some (AVal (VStr (twMerge (clsx (base ++ [className])%list))))).

Lemma assoc_del_attr k k' (l : attrs A) :
  assoc k (del_attr k' l) = if String.eqb k k' then None else assoc k l.
Proof.
  unfold del_attr. induction l as [|[k0 v] l IH]; cbn [List.filter fst assoc]; [by case_match|].
  destruct (String.eqb_spec k' k0) as [->|Hne]; cbn [negb].
  - rewrite IH. destruct (String.eqb_spec k k0) as [->|]; [done|]. done.
  - cbn [assoc]. rewrite IH. destruct (String.eqb_spec k k0) as [->|]; [|done].
    by rewrite (proj2 (String.eqb_neq k0 k')) by done.
Qed.

(** The element every such wrapper builds: its own attributes [own], then the
    caller's. *)
Definition spread_over (own props : attrs A) : attrs A :=
  match carried props with
  | Some _ => del_attr "children" (merge own props)
  | None => merge own props
  end.

Lemma carried_merge own props :
  NoDup props.*1 -> assoc "children" own = None -> carried (merge own props) = carried props.
Proof. intros Hnd Hc. unfold carried. rewrite assoc_merge, Hc by done. by destruct (assoc _ props). Qed.

Lemma elp_spread tag items own props ns :
  NoDup props.*1 -> renders_children props ns -> assoc "children" own = None ->
  props_from [] items = Ok (merge own props) ->
  elp tag items [] = Ok [Elem tag (spread_over own props) ns].
Proof.
  intros Hnd Hns Hc Hp. unfold elp, spread_over. rewrite Hp. cbn [mbind res_bind sequence].
  rewrite carried_merge by done. unfold renders_children in Hns.
  destruct (carried props); subst; done.
Qed.

Lemma assoc_spread_over own props k :
  NoDup props.*1 -> k <> "children" ->
  assoc k (spread_over own props) = match assoc k props with Some v => Some v | None => assoc k own end.
Proof.
  intros Hnd Hk. unfold spread_over. destruct (carried props); [rewrite assoc_del_attr|];
    rewrite ?(proj2 (String.eqb_neq k "children")) by done; by apply assoc_merge.
Qed.

Lemma spread_passes slot tag own props ns j :
  NoDup props.*1 -> assoc "children" own = None ->
  assoc "data-slot" own = Some (AVal (VStr slot)) ->
  j = Ok [Elem tag (spread_over own props) ns] ->
  passes slot tag props ns j (spread_over own props).
Proof.
  intros Hnd Hc Hs ->. split.
  - done.
  - intros Hn. by rewrite assoc_spread_over, Hn.
  - intros k v Hk Hv. by rewrite assoc_spread_over, Hv.
  - intros c. unfold spread_over. destruct (carried props) eqn:E; [|done].
    by rewrite assoc_del_attr.
Qed.
End Wrappers.

(** A wrapper is a lookup in its own attributes away from the rule. *)
Ltac plain_wrapper :=
  match goal with |- plain _ _ ?W =>
    let props := fresh "props" in
    intros props ns Hnd Hns; eexists;
    eapply (spread_passes _ _ _ props); [exact Hnd| | |apply (elp_spread _ _ _ props ns Hnd Hns);
      [|reflexivity]]; reflexivity
  end.
Ltac styled_wrapper :=
  match goal with |- styled _ _ ?W =>
    let props := fresh "props" in
    intros className; eexists (removelast _); intros props ns Hnd Hns; eexists; split;
    [eapply (spread_passes _ _ _ props); [exact Hnd| | |apply (elp_spread _ _ _ props ns Hnd Hns);
       [|reflexivity]]; reflexivity
    |intros Hn; rewrite assoc_spread_over, Hn by done; cbn -[removelast app];
     match goal with
     | |- Some (AVal (VStr (twMerge (clsx ?l)))) =
          Some (AVal (VStr (twMerge (clsx (removelast ?e ++ _)%list)))) => unify e l; reflexivity
     end]
  end.

(** The wrappers of the kit: [data-slot], element type, component. *)
Section List.
Context `{UiLib} {B : Type}.
Local Abbreviation A := (UiSidebar.act B).

Definition plain_wrappers : list (string * string * (attrs A -> jsx A)) :=
  [("accordion", "AccordionPrimitive.Root", UiBasics.Accordion);
   ("aspect-ratio", "AspectRatioPrimitive.Root", UiBasics.AspectRatio);
   ("breadcrumb", "nav", UiBasics.Breadcrumb);
   ("collapsible", "CollapsiblePrimitive.Root", UiBasics.Collapsible);
   ("collapsible-trigger", "CollapsiblePrimitive.CollapsibleTrigger", UiBasics.CollapsibleTrigger);
   ("collapsible-content", "CollapsiblePrimitive.CollapsibleContent", UiBasics.CollapsibleContent);
   ("pagination-item", "li", UiBasics.PaginationItem);
   ("resizable-panel", "ResizablePrimitive.Panel", UiBasics.ResizablePanel);
   ("dialog", "DialogPrimitive.Root", UiOverlays.Dialog);
   ("dialog-trigger", "DialogPrimitive.Trigger", UiOverlays.DialogTrigger);
   ("dialog-portal", "DialogPrimitive.Portal", UiOverlays.DialogPortal);
   ("dialog-close", "DialogPrimitive.Close", UiOverlays.DialogClose);
   ("alert-dialog", "AlertDialogPrimitive.Root", UiOverlays.AlertDialog);
   ("alert-dialog-trigger", "AlertDialogPrimitive.Trigger", UiOverlays.AlertDialogTrigger);
   ("alert-dialog-portal", "AlertDialogPrimitive.Portal", UiOverlays.AlertDialogPortal);
   ("drawer", "DrawerPrimitive.Root", UiOverlays.Drawer);
   ("drawer-trigger", "DrawerPrimitive.Trigger", UiOverlays.DrawerTrigger);
   ("drawer-portal", "DrawerPrimitive.Portal", UiOverlays.DrawerPortal);
   ("drawer-close", "DrawerPrimitive.Close", UiOverlays.DrawerClose);
   ("sheet", "SheetPrimitive.Root", UiOverlays.Sheet);
   ("sheet-trigger", "SheetPrimitive.Trigger", UiOverlays.SheetTrigger);
   ("sheet-close", "SheetPrimitive.Close", UiOverlays.SheetClose);
   ("sheet-portal", "SheetPrimitive.Portal", UiOverlays.SheetPortal);
   ("popover", "PopoverPrimitive.Root", UiOverlays.Popover);
   ("popover-trigger", "PopoverPrimitive.Trigger", UiOverlays.PopoverTrigger);
   ("popover-anchor", "PopoverPrimitive.Anchor", UiOverlays.PopoverAnchor);
   ("hover-card", "HoverCardPrimitive.Root", UiOverlays.HoverCard);
   ("hover-card-trigger", "HoverCardPrimitive.Trigger", UiOverlays.HoverCardTrigger);
   ("tooltip-trigger", "TooltipPrimitive.Trigger", UiOverlays.TooltipTrigger);
   ("command-empty", "CommandPrimitive.Empty", UiMenus.CommandEmpty);
   ("context-menu", "ContextMenuPrimitive.Root", UiMenus.ContextMenu);
   ("context-menu-trigger", "ContextMenuPrimitive.Trigger", UiMenus.ContextMenuTrigger);
   ("context-menu-group", "ContextMenuPrimitive.Group", UiMenus.ContextMenuGroup);
   ("context-menu-portal", "ContextMenuPrimitive.Portal", UiMenus.ContextMenuPortal);
   ("context-menu-sub", "ContextMenuPrimitive.Sub", UiMenus.ContextMenuSub);
   ("context-menu-radio-group", "ContextMenuPrimitive.RadioGroup", UiMenus.ContextMenuRadioGroup);
   ("dropdown-menu", "DropdownMenuPrimitive.Root", UiMenus.DropdownMenu);
   ("dropdown-menu-portal", "DropdownMenuPrimitive.Portal", UiMenus.DropdownMenuPortal);
   ("dropdown-menu-trigger", "DropdownMenuPrimitive.Trigger", UiMenus.DropdownMenuTrigger);
   ("dropdown-menu-group", "DropdownMenuPrimitive.Group", UiMenus.DropdownMenuGroup);
   ("dropdown-menu-radio-group", "DropdownMenuPrimitive.RadioGroup", UiMenus.DropdownMenuRadioGroup);
   ("dropdown-menu-sub", "DropdownMenuPrimitive.Sub", UiMenus.DropdownMenuSub);
   ("menubar-menu", "MenubarPrimitive.Menu", UiMenus.MenubarMenu);
   ("menubar-group", "MenubarPrimitive.Group", UiMenus.MenubarGroup);
   ("menubar-portal", "MenubarPrimitive.Portal", UiMenus.MenubarPortal);
   ("menubar-radio-group", "MenubarPrimitive.RadioGroup", UiMenus.MenubarRadioGroup);
   ("menubar-sub", "MenubarPrimitive.Sub", UiMenus.MenubarSub);
   ("select", "SelectPrimitive.Root", UiMenus.Select);
   ("select-group", "SelectPrimitive.Group", UiMenus.SelectGroup);
   ("select-value", "SelectPrimitive.Value", UiMenus.SelectValue)].

Definition styled_wrappers : list (string * string * (val -> attrs A -> jsx A)) :=
  [("accordion-item", "AccordionPrimitive.Item", UiBasics.AccordionItem);
   ("alert-title", "div", UiBasics.AlertTitle);
   ("alert-description", "div", UiBasics.AlertDescription);
   ("avatar", "AvatarPrimitive.Root", UiBasics.Avatar);
   ("avatar-image", "AvatarPrimitive.Image", UiBasics.AvatarImage);
   ("avatar-fallback", "AvatarPrimitive.Fallback", UiBasics.AvatarFallback);
   ("breadcrumb-list", "ol", UiBasics.BreadcrumbList);
   ("breadcrumb-item", "li", UiBasics.BreadcrumbItem);
   ("breadcrumb-page", "span", UiBasics.BreadcrumbPage);
   ("card", "div", UiBasics.Card);
   ("card-header", "div", UiBasics.CardHeader);
   ("card-title", "h4", UiBasics.CardTitle);
   ("card-description", "p", UiBasics.CardDescription);
   ("card-action", "div", UiBasics.CardAction);
   ("card-content", "div", UiBasics.CardContent);
   ("card-footer", "div", UiBasics.CardFooter);
   ("label", "LabelPrimitive.Root", UiBasics.Label);
   ("pagination", "nav", UiBasics.Pagination);
   ("pagination-content", "ul", UiBasics.PaginationContent);
   ("radio-group", "RadioGroupPrimitive.Root", UiBasics.RadioGroup);
   ("resizable-panel-group", "ResizablePrimitive.PanelGroup", UiBasics.ResizablePanelGroup);
   ("skeleton", "div", UiBasics.Skeleton);
   ("table-header", "thead", UiBasics.TableHeader);
   ("table-body", "tbody", UiBasics.TableBody);
   ("table-footer", "tfoot", UiBasics.TableFooter);
   ("table-row", "tr", UiBasics.TableRow);
   ("table-head", "th", UiBasics.TableHead);
   ("table-cell", "td", UiBasics.TableCell);
   ("table-caption", "caption", UiBasics.TableCaption);
   ("tabs", "TabsPrimitive.Root", UiBasics.Tabs);
   ("tabs-list", "TabsPrimitive.List", UiBasics.TabsList);
   ("tabs-trigger", "TabsPrimitive.Trigger", UiBasics.TabsTrigger);
   ("tabs-content", "TabsPrimitive.Content", UiBasics.TabsContent);
   ("textarea", "textarea", UiBasics.Textarea);
   ("input-otp-group", "div", UiBasics.InputOTPGroup);
   ("dialog-overlay", "DialogPrimitive.Overlay", UiOverlays.DialogOverlay);
   ("dialog-header", "div", UiOverlays.DialogHeader);
   ("dialog-footer", "div", UiOverlays.DialogFooter);
   ("dialog-title", "DialogPrimitive.Title", UiOverlays.DialogTitle);
   ("dialog-description", "DialogPrimitive.Description", UiOverlays.DialogDescription);
   ("alert-dialog-overlay", "AlertDialogPrimitive.Overlay", UiOverlays.AlertDialogOverlay);
   ("alert-dialog-header", "div", UiOverlays.AlertDialogHeader);
   ("alert-dialog-footer", "div", UiOverlays.AlertDialogFooter);
   ("alert-dialog-title", "AlertDialogPrimitive.Title", UiOverlays.AlertDialogTitle);
   ("alert-dialog-description", "AlertDialogPrimitive.Description", UiOverlays.AlertDialogDescription);
   ("drawer-overlay", "DrawerPrimitive.Overlay", UiOverlays.DrawerOverlay);
   ("drawer-header", "div", UiOverlays.DrawerHeader);
   ("drawer-footer", "div", UiOverlays.DrawerFooter);
   ("drawer-title", "DrawerPrimitive.Title", UiOverlays.DrawerTitle);
   ("drawer-description", "DrawerPrimitive.Description", UiOverlays.DrawerDescription);
   ("sheet-overlay", "SheetPrimitive.Overlay", UiOverlays.SheetOverlay);
   ("sheet-header", "div", UiOverlays.SheetHeader);
   ("sheet-footer", "div", UiOverlays.SheetFooter);
   ("sheet-title", "SheetPrimitive.Title", UiOverlays.SheetTitle);
   ("sheet-description", "SheetPrimitive.Description", UiOverlays.SheetDescription);
   ("command", "CommandPrimitive", UiMenus.Command);
   ("command-list", "CommandPrimitive.List", UiMenus.CommandList);
   ("command-group", "CommandPrimitive.Group", UiMenus.CommandGroup);
   ("command-separator", "CommandPrimitive.Separator", UiMenus.CommandSeparator);
   ("command-item", "CommandPrimitive.Item", UiMenus.CommandItem);
   ("command-shortcut", "span", UiMenus.CommandShortcut);
   ("context-menu-sub-content", "ContextMenuPrimitive.SubContent", UiMenus.ContextMenuSubContent);
   ("context-menu-separator", "ContextMenuPrimitive.Separator", UiMenus.ContextMenuSeparator);
   ("context-menu-shortcut", "span", UiMenus.ContextMenuShortcut);
   ("dropdown-menu-separator", "DropdownMenuPrimitive.Separator", UiMenus.DropdownMenuSeparator);
   ("dropdown-menu-shortcut", "span", UiMenus.DropdownMenuShortcut);
   ("dropdown-menu-sub-content", "DropdownMenuPrimitive.SubContent", UiMenus.DropdownMenuSubContent);
   ("menubar", "MenubarPrimitive.Root", UiMenus.Menubar);
   ("menubar-trigger", "MenubarPrimitive.Trigger", UiMenus.MenubarTrigger);
   ("menubar-separator", "MenubarPrimitive.Separator", UiMenus.MenubarSeparator);
   ("menubar-shortcut", "span", UiMenus.MenubarShortcut);
   ("menubar-sub-content", "MenubarPrimitive.SubContent", UiMenus.MenubarSubContent);
   ("navigation-menu-list", "NavigationMenuPrimitive.List", UiMenus.NavigationMenuList);
   ("navigation-menu-item", "NavigationMenuPrimitive.Item", UiMenus.NavigationMenuItem);
   ("navigation-menu-content", "NavigationMenuPrimitive.Content", UiMenus.NavigationMenuContent);
   ("navigation-menu-link", "NavigationMenuPrimitive.Link", UiMenus.NavigationMenuLink);
   ("select-label", "SelectPrimitive.Label", UiMenus.SelectLabel);
   ("select-separator", "SelectPrimitive.Separator", UiMenus.SelectSeparator);
   ("sidebar-inset", "main", UiSidebar.SidebarInset);
   ("sidebar-input", "Input", UiSidebar.SidebarInput);
   ("sidebar-header", "div", UiSidebar.SidebarHeader);
   ("sidebar-footer", "div", UiSidebar.SidebarFooter);
   ("sidebar-separator", "Separator", UiSidebar.SidebarSeparator);
   ("sidebar-content", "div", UiSidebar.SidebarContent);
   ("sidebar-group", "div", UiSidebar.SidebarGroup);
   ("sidebar-group-content", "div", UiSidebar.SidebarGroupContent);
   ("sidebar-menu", "ul", UiSidebar.SidebarMenu);
   ("sidebar-menu-item", "li", UiSidebar.SidebarMenuItem);
   ("sidebar-menu-badge", "div", UiSidebar.SidebarMenuBadge);
   ("sidebar-menu-sub", "ul", UiSidebar.SidebarMenuSub);
   ("sidebar-menu-sub-item", "li", UiSidebar.SidebarMenuSubItem)].

(** Every wrapper of the kit is transparent: it renders the element type it
    is named after with its own [data-slot], hands down each attribute the
    caller spreads (which thereby overrides the wrapper's own) and the caller's
    children, and puts the caller's [className] last among its classes.  No
    two wrappers share a [data-slot]. *)
Theorem wrappers_transparent :
  Forall (fun '(slot, tag, W) => plain slot tag W) plain_wrappers /\
  Forall (fun '(slot, tag, W) => styled slot tag W) styled_wrappers /\
  NoDup (map (fun w => fst (fst w)) plain_wrappers ++ map (fun w => fst (fst w)) styled_wrappers)%list.
Proof.
  split; [|split].
  - repeat constructor; plain_wrapper.
  - repeat constructor; styled_wrapper.
  - apply (bool_decide_unpack _). vm_compute. exact I.
Qed.
End List.
