(* ===== verification/UiSidebarSpec.v ===== *)
(** * The sidebar: who owns the open state, what the cookie remembers *)
From S2P Require Import Prelude JsStr JsNum JsVal React Effects Logic Ui UiSidebar.
Local Open Scope string_scope.
Local Open Scope js_scope.

(** The provider that keeps its own state; one whose parent keeps it, takes
    what it is asked for and may change it on its own; and one whose parent
    passes [open] and listens to nothing. *)
#[export] Program Instance uncontrolled : SidebarHost state :=
  {| provider := id; modify := fun f => f; openProp := fun _ => None; setOpenProp := None;
     host_action := Empty_set; host_acts := fun p _ => match p with end |}.
Solve All Obligations with (by intros).
Program Definition controlled : SidebarHost (state * bool) :=
  {| provider := fst; modify := fun f s => (f (fst s), snd s); openProp := fun s => Some (snd s);
     setOpenProp := Some (fun b s => (fst s, b)); host_action := bool; host_acts := fun b s => (fst s, b) |}.
Solve All Obligations with (by intros; simplify_eq).
Program Definition deaf : SidebarHost (state * bool) :=
  {| provider := fst; modify := fun f s => (f (fst s), snd s); openProp := fun s => Some (snd s);
     setOpenProp := None; host_action := Empty_set; host_acts := fun p _ => match p with end |}.
Solve All Obligations with (by intros).

Definition cookies (l : list obs) : list string :=
  omap (fun o => match o with OCall (CSetCookie k) => Some k | _ => None end) l.

Section Toggle.
Context {S : Type} `{SidebarHost S} (s0 : S).
Local Abbreviation C := (page s0).

(** The open state an event asks for: [setOpen] of the context, and on a wide
    screen the toggle and the shortcut. *)
Definition requested (s : S) (a : action) : option bool :=
  let toggled := if useIsMobile s then None else Some (negb (open s)) in
  match a with
  | SetOpen (Value b) => Some b
  | SetOpen (Updater f) => Some (f (open s))
  | ToggleSidebar => toggled
  | KeyDown e => if is_shortcut e then toggled else None
  | MediaChange | SetOpenMobile _ => None
  end.

(** What is on display once [b] is asked for: what the parent makes of it, or
    without a listener the parent's own [open], or else [b]. *)
Definition granted_open (b : bool) (s : S) : bool :=
  match setOpenProp with
  | Some f => open (f b s)
  | None => default b (openProp s)
  end.

Lemma open_modify f (s : S) : _open (f (provider s)) = _open (provider s) -> open (modify f s) = open s.
Proof. intros Hf. unfold open. by rewrite openProp_modify, provider_modify, Hf. Qed.

Lemma run_setOpen io (c : conf S) v s b : b = match v with Updater f => f (open s) | Value b => b end ->
  exists s', run io (setOpen s v) c = emit (OCall (CSetCookie (cookie b))) (set_st (fun _ => s') c) /\
    open s' = granted_open b (st c) /\ openMobile (provider s') = openMobile (provider (st c)) /\
    isMobile (provider s') = isMobile (provider (st c)).
Proof.
  intros ->. set (b := match v with Updater f => f (open s) | Value b => b end).
  unfold setOpen, granted_open. destruct setOpenProp as [g|] eqn:E.
  - exists (g b (st c)). split; [by destruct c|]. by rewrite !(provider_setOpenProp g b _ E).
  - exists (modify (set__open b) (st c)). split; [by destruct c|].
    unfold open. by rewrite openProp_modify, !provider_modify.
Qed.

(** What toggling does to the configuration: on a narrow screen only the sheet
    moves; on a wide one the negated open state is asked for, and the cookie
    records it. *)
Definition toggles (c c' : conf S) : Prop :=
  isMobile (provider (st c')) = isMobile (provider (st c)) /\ pend c' = pend c /\
  if useIsMobile (st c)
  then openMobile (provider (st c')) = negb (openMobile (provider (st c))) /\
       open (st c') = open (st c) /\ log c' = log c
  else openMobile (provider (st c')) = openMobile (provider (st c)) /\
       open (st c') = granted_open (negb (open (st c))) (st c) /\
       log c' = (log c ++ [OCall (CSetCookie (cookie (negb (open (st c)))))])%list.

Lemma toggle_toggles io (c : conf S) : toggles c (run io (toggleSidebar (st c)) c).
Proof.
  unfold toggles, toggleSidebar. destruct (useIsMobile (st c)).
  - cbn. rewrite provider_modify. split; [done|]. split; [done|]. split; [done|].
    split; [by apply open_modify|done].
  - destruct (run_setOpen io c (Updater negb) (st c) _ eq_refl) as (s' & -> & Ho & Hm & Hi). cbn. by rewrite Ho.
Qed.

(** The sidebar's toggle, whoever owns its open state: the context's toggle,
    and Ctrl+B or Cmd+B (which also suppresses the browser's own shortcut),
    flip the sheet on a narrow screen and ask for the negated open state on a
    wide one; any other key does nothing. *)
Theorem sidebar_toggles io (c : conf S) :
  toggles c (event_step C io (inl ToggleSidebar) c) /\
  forall e,
    if is_shortcut e
    then toggles (emit (OCall CPreventDefault) c) (event_step C io (inl (KeyDown e)) c)
    else event_step C io (inl (KeyDown e)) c = c.
Proof.
  unfold event_step, commit_after. cbn [page c_handle c_commit handle run skip].
  split; [apply toggle_toggles|]. intros e. unfold handleKeyDown.
  destruct (is_shortcut e); [|by destruct c].
  apply (toggle_toggles io (emit (OCall CPreventDefault) c)).
Qed.

Lemma run_onChange io (c : conf S) :
  exists b, run io onChange c = set_st (modify (set_isMobile b)) (emit (OCall CInnerWidth) c).
Proof. eexists. reflexivity. Qed.

(** One event: the cookies it writes and the open state it leaves. *)
Definition recorded (c c' : conf S) (r : option bool) : Prop :=
  cookies (log c') = (cookies (log c) ++ match r with Some b => [cookie b] | None => [] end)%list /\
  pend c' = pend c /\
  open (st c') = match r with Some b => granted_open b (st c) | None => open (st c) end.

Lemma toggles_recorded c c0 c' r : toggles c0 c' -> st c0 = st c -> pend c0 = pend c -> cookies (log c0) = cookies (log c) ->
  r = (if useIsMobile (st c) then None else Some (negb (open (st c)))) -> recorded c c' r.
Proof.
  intros (_ & Hp & Ht) Es Ep El ->. unfold recorded. rewrite Es in Ht. rewrite Hp, Ep.
  destruct (useIsMobile (st c)); destruct Ht as (_ & -> & ->).
  - by rewrite app_nil_r, El.
  - unfold cookies. rewrite omap_app. fold (cookies (log c0)). by rewrite El.
Qed.

Lemma event_recorded io a (c : conf S) : recorded c (event_step C io (inl a) c) (requested (st c) a).
Proof.
  destruct (sidebar_toggles io c) as [Ht Hk]. destruct a as [e| | |v|b]; cbn [requested].
  - specialize (Hk e). destruct (is_shortcut e).
    + eapply toggles_recorded; [exact Hk|done|done| |done]. unfold cookies. cbn. rewrite omap_app. cbn. by rewrite app_nil_r.
    + rewrite Hk. by split; [rewrite app_nil_r|].
  - unfold event_step, commit_after. cbn [page c_handle c_commit handle run skip].
    destruct (run_onChange io c) as [b ->]. unfold recorded, cookies. cbn. rewrite omap_app. cbn.
    rewrite !app_nil_r. split; [done|]. split; [done|]. by apply open_modify.
  - by eapply toggles_recorded.
  - unfold event_step, commit_after. cbn [page c_handle c_commit handle run skip].
    assert (match v with Value b => Some b | Updater f => Some (f (open (st c))) end =
            Some (match v with Updater f => f (open (st c)) | Value b => b end)) as -> by by destruct v.
    destruct (run_setOpen io c v (st c) _ eq_refl) as (s' & -> & Ho & _).
    unfold recorded, cookies. cbn. rewrite omap_app. by rewrite Ho.
  - unfold recorded. cbn. rewrite app_nil_r. split; [done|]. split; [done|]. by apply open_modify.
Qed.
End Toggle.

(** The last cookie is the open state on display; before the first, the open
    state is the initial one. *)
Definition remembered (s0 : state) (c : conf state) : Prop :=
  pend c = [] /\
  match last (cookies (log c)) with
  | Some k => k = cookie (open (st c))
  | None => open (st c) = open s0
  end.

Lemma own_remembered s0 c : reachable (page s0) c -> remembered s0 c.
Proof.
  induction 1 as [io sto|c c' _ IH Hs]; [by split|]. destruct IH as [Hp IH].
  destruct Hs as [io [a|[]] c|io i id q k o c Hi|io i id b ms p c Hi].
  2-3: by rewrite Hp in Hi.
  destruct (event_recorded s0 io a c) as (Hl & Hq & Ho). split; [by rewrite Hq|]. rewrite Hl, Ho.
  destruct (requested (st c) a) as [b|]; [by rewrite last_snoc|by rewrite app_nil_r].
Qed.

(** C30. The sidebar's cookie.  Under any parent and in any configuration an
    event of the sidebar (the context's setOpen with a value or a function, its
    toggle, the keyboard shortcut, the sheet, the width of the screen) writes
    one cookie, the value it asks for, exactly when it asks for one, and the
    open state becomes what the parent makes of that request; the parent's own
    changes write no cookie.  Hence, for a provider that keeps its own state, in
    every reachable state the last cookie written is the open state on display,
    and until the first the open state is the initial one; for a parent that
    takes what it is asked for, every request is on display; and for one that
    passes [open] and listens to nothing it is not so: the cookie says closed
    while the sidebar stays open. *)
Theorem cookie_tracks_open :
  (forall {S} `{SidebarHost S} (s0 : S) io a c,
     recorded c (event_step (page s0) io (inl a) c) (requested (st c) a)) /\
  (forall {S} `{SidebarHost S} (s0 : S) io p c, exists s,
     event_step (page s0) io (inr p) c = set_st (fun _ => s) c /\ provider s = provider (st c)) /\
  (forall s0 c, reachable (page s0) c -> remembered s0 c) /\
  (forall s0 c io a b, requested (H:=controlled) (st c) a = Some b ->
     open (H:=controlled) (st (event_step (page (H:=controlled) s0) io (inl a) c)) = b) /\
  exists c, reachable (page (H:=deaf) (init_state None, true)) c /\
    last (cookies (log c)) = Some (cookie false) /\ open (H:=deaf) (st c) = true.
Proof.
  split; [intros; apply event_recorded|]. split.
  { intros S Hs s0 io p c. exists (host_acts p (st c)). split; [by destruct c|apply provider_host_acts]. }
  split; [exact own_remembered|]. split.
  { intros s0 c io a b Hr. destruct (event_recorded (H:=controlled) s0 io a c) as (_ & _ & ->). by rewrite Hr. }
  exists (event_step (page (H:=deaf) (init_state None, true)) quiet_browser (inl ToggleSidebar)
    (boot (page (H:=deaf) (init_state None, true)) quiet_browser ∅)).
  split; [eapply reach_step; [apply reach_boot|apply step_event]|]. by split.
Qed.

(** Controlled by a parent that starts open, on a wide screen. *)
Definition parent : state * bool := (init_state None, true).
Definition ctrl_b : event := Event "" "b" false true.

Example shortcut_closes :
  let c := event_step (page (H:=controlled) parent) quiet_browser (inl (KeyDown ctrl_b))
             (boot (page (H:=controlled) parent) quiet_browser ∅) in
  open (H:=controlled) (st c) = false /\ cookies (log c) = ["sidebar_state=false; path=/; max-age=604800"].
Proof. by split. Qed.
