(* ===== verification/UiForm.v ===== *)
(** * The UI kit: form fields and the calendar ([form.tsx], [calendar.tsx])

    The glue between react-hook-form and the kit's inputs: the ids that tie a
    field's label, control, description and message together.  The field's
    state is what the library's [getFieldState] answers: a parameter. *)
From S2P Require Import Prelude JsStr JsNum JsVal React Ui UiBasics.
Local Open Scope string_scope.
Local Open Scope js_scope.

Section Form.
Context `{UiLib} {A : Type}.

(** The form's context: [getFieldState(name, formState)] of the library, or
    [null] outside a [Form]. *)
Variable useFormContext : option (val -> val).
(** The values of the two contexts; both default to the empty object. *)
Variables (fieldContext itemContext : val).

Definition useFormField : expr :=
  getFieldState ← match useFormContext with
                  | Some f => Ok f
                  | None => Err (TypeError "Cannot destructure property 'getFieldState'")
                  end;
  let getFieldState : val -> val := getFieldState in
  name ← get fieldContext "name";
  let name : val := name in
  let fieldState := getFieldState name in
  if negb (truthy fieldContext)
  then Err (UserError "useFormField should be used within <FormField>")
  else
    id ← get itemContext "id";
    let id : val := id in
    jspread (jobj [("id", id : expr); ("name", name : expr);
                   ("formItemId", tpl [id : expr; "-form-item"]);
                   ("formDescriptionId", tpl [id : expr; "-form-item-description"]);
                   ("formMessageId", tpl [id : expr; "-form-item-message"])])
            fieldState.

Definition FormField (props : attrs A) : jsx A :=
  el "FormFieldContext.Provider"
    ["value" =: jobj [("name", match assoc "name" props with Some (AVal v) => v | _ => VUndef end : expr)]] [
    elp "Controller" [Spread (Ok props)] []].

(** [id] is what [React.useId()] answered. *)
Definition FormItem (id : string) (className : val) (props : attrs A) : jsx A :=
  el "FormItemContext.Provider" ["value" =: jobj [("id", id : expr)]] [
    elp "div" ["data-slot" =: "form-item"; "className" =: cn ["grid gap-2"; className];
       Spread (Ok props)] []].

Definition FormLabel (className : val) (props : attrs A) : jsx A :=
  field ← useFormField;
  let field : val := field in
  elp "Label" ["data-slot" =: "form-label";
     "data-error" =: jnot (jnot (field ~> "error"));
     "className" =: cn ["data-[error=true]:text-destructive"; className];
     "htmlFor" =: field ~> "formItemId";
     Spread (Ok props)] [].

Definition FormControl (props : attrs A) : jsx A :=
  field ← useFormField;
  let field : val := field in
  elp "Slot" ["data-slot" =: "form-control";
     "id" =: field ~> "formItemId";
     "aria-describedby" =: jcond (jnot (field ~> "error"))
        (tpl [field ~> "formDescriptionId"])
        (tpl [field ~> "formDescriptionId"; " "; field ~> "formMessageId"]);
     "aria-invalid" =: jnot (jnot (field ~> "error"));
     Spread (Ok props)] [].

Definition FormDescription (className : val) (props : attrs A) : jsx A :=
  field ← useFormField;
  let field : val := field in
  elp "p" ["data-slot" =: "form-description";
     "id" =: field ~> "formDescriptionId";
     "className" =: cn ["text-muted-foreground text-sm"; className];
     Spread (Ok props)] [].

(** [error ? String(error?.message ?? "") : props.children]: its truth value,
    and what it renders to. *)
Definition message_body (error : val) (props : attrs A) : res (bool * jsx A) :=
  if truthy error then
    s ← tpl [(error ?> "message") ??? ""];
    let s : val := s in
    Ok (truthy s, put s)
  else
    match assoc "children" props with
    | Some (AVal v) => Ok (truthy v, child_of v)
    | Some (AElem ns) => Ok (true, Ok ns)
    | _ => Ok (false, nothing)
    end.

Definition FormMessage (className : val) (props : attrs A) : jsx A :=
  field ← useFormField;
  let field : val := field in
  error ← get field "error";
  body ← message_body error props;
  if negb (fst body) then nothing
  else
    elp "p" ["data-slot" =: "form-message";
       "id" =: field ~> "formMessageId";
       "className" =: cn ["text-destructive text-sm"; className];
       Spread (Ok props)] [snd body].
End Form.

(** ** The ids agree *)

Section Spec.
Context `{UiLib} {A : Type}.

(** A field [name] inside an item [id] whose state holds [error]. *)
Definition field_state (error : val) (name : val) : val :=
  VObj [("invalid", VBool (truthy error)); ("error", error)].
Definition in_field (name : string) : val := VObj [("name", VStr name)].
Definition in_item (id : string) : val := VObj [("id", VStr id)].

(** The element a component renders to, and one attribute of it. *)
Definition shows (k : string) (v : val) (j : jsx A) : Prop :=
  exists n, j = Ok [n] /\ attr_val k n = Some v.

(** One attribute of a part, read off the element it renders to. *)
Ltac read_off := eexists; split; reflexivity.

(** The four parts of a form field refer to each other by the ids they
    carry: the label points at the control, the control names the description
    and, exactly when there is an error, the message; the message is rendered
    exactly when the error has a text or, without an error, the caller gave
    one, and an error replaces the caller's text.  In a form but outside a
    field the guard that should say so never speaks: the label points at an id
    made of "undefined". *)
Theorem form_fields_wired (name id : string) (error : val) (c : val) :
  let st := Some (field_state error) in
  let item := id +:+ "-form-item" in
  let description := id +:+ "-form-item-description" in
  let message := id +:+ "-form-item-message" in
  let text := match error with
              | VObj fs => let m := default VUndef (assoc "message" fs) in
                           if nullish m then "" else to_string m
              | _ => ""
              end in
  (truthy error = true -> is_obj error = true) ->
  shows "htmlFor" (VStr item) (FormLabel st (in_field name) (in_item id) c []) /\
  shows "id" (VStr item) (FormControl st (in_field name) (in_item id) []) /\
  shows "id" (VStr description) (FormDescription st (in_field name) (in_item id) c []) /\
  shows "aria-describedby"
    (VStr (if truthy error then description +:+ " " +:+ message else description))
    (FormControl st (in_field name) (in_item id) []) /\
  (forall given : string,
    let props : attrs A := [("children", AVal (VStr given))] in
    let shown := if truthy error then text else given in
    if str_truthy shown
    then exists l, FormMessage st (in_field name) (in_item id) c props = Ok [Elem "p" l [Text shown]] /\
                   assoc "id" l = Some (AVal (VStr message))
    else FormMessage st (in_field name) (in_item id) c props = Ok []) /\
  shows "htmlFor" (VStr "undefined-form-item") (FormLabel st (VObj []) (VObj []) c []).
Proof.
  cbn zeta. intros Herr. split; [read_off|].
  split; [|split; [read_off|split; [|split; [|read_off]]]].
  - unfold shows, FormControl, useFormField. cbn -[truthy].
    destruct (truthy error) eqn:E; cbn; rewrite ?E; cbn; rewrite ?E; eexists; split; reflexivity.
  - unfold shows, FormControl, useFormField. cbn -[truthy].
    destruct (truthy error) eqn:E; cbn; rewrite ?E; cbn; rewrite ?E; eexists; split; reflexivity.
  - intros given. unfold FormMessage, useFormField, field_state. cbn -[message_body str_truthy].
    unfold message_body. destruct (truthy error) eqn:E.
    + destruct error as [| | | | | |fs|]; try (specialize (Herr eq_refl); discriminate).
      cbn. destruct (nullish (default VUndef (assoc "message" fs))); cbn; [done|].
      destruct (str_truthy _) eqn:Et; cbn; [|done]. eexists. split; reflexivity.
    + cbn. destruct (str_truthy given); cbn; [|done]. eexists. split; reflexivity.
Qed.

End Spec.

(** A class-name library that only joins. *)
Definition joining : UiLib :=
  {| clsx := fun l => join " " (map to_string l); twMerge := fun s => s;
     variance := fun base _ _ _ => base |}.

Lemma form_fields_wired_witness :
  shows (A := unit) "aria-describedby" (VStr "r1-form-item-description r1-form-item-message")
    (FormControl (Some (field_state (VObj [("message", VStr "required")]))) (in_field "email") (in_item "r1") []).
Proof.
  destruct (form_fields_wired (H := joining) (A := unit) "email" "r1"
              (VObj [("message", VStr "required")]) VUndef) as (_ & _ & _ & Hd & _); [done|exact Hd].
Defined.

(** ** The calendar ([calendar.tsx])

    An adapter of react-day-picker: class names and two icons. *)
Section Calendar.
Context `{UiLib} {A : Type}.

(** A plain prop of the rest, [undefined] when the caller left it out. *)
Definition rest_prop (k : string) (props : attrs A) : val :=
  match assoc k props with Some (AVal v) => v | _ => VUndef end.

(** [{ months: .., ...classNames }]. *)
Definition calendar_classes (classNames : val) (props : attrs A) : expr :=
  jspread (jobj [
      ("months", "flex flex-col sm:flex-row gap-2" : expr);
      ("month", "flex flex-col gap-4" : expr);
      ("caption", "flex justify-center pt-1 relative items-center w-full" : expr);
      ("caption_label", "text-sm font-medium" : expr);
      ("nav", "flex items-center gap-1" : expr);
      ("nav_button", cn [buttonVariants [("variant", "outline" : expr)];
         "size-7 bg-transparent p-0 opacity-50 hover:opacity-100"]);
      ("nav_button_previous", "absolute left-1" : expr);
      ("nav_button_next", "absolute right-1" : expr);
      ("table", "w-full border-collapse space-x-1" : expr);
      ("head_row", "flex" : expr);
      ("head_cell", "text-muted-foreground rounded-md w-8 font-normal text-[0.8rem]" : expr);
      ("row", "flex w-full mt-2" : expr);
      ("cell", cn ["relative p-0 text-center text-sm focus-within:relative focus-within:z-20 [&:has([aria-selected])]:bg-accent [&:has([aria-selected].day-range-end)]:rounded-r-md";
         jcond ((rest_prop "mode" props) === "range")
           "[&:has(>.day-range-end)]:rounded-r-md [&:has(>.day-range-start)]:rounded-l-md first:[&:has([aria-selected])]:rounded-l-md last:[&:has([aria-selected])]:rounded-r-md"
           "[&:has([aria-selected])]:rounded-md"]);
      ("day", cn [buttonVariants [("variant", "ghost" : expr)];
         "size-8 p-0 font-normal aria-selected:opacity-100"]);
      ("day_range_start", "day-range-start aria-selected:bg-primary aria-selected:text-primary-foreground" : expr);
      ("day_range_end", "day-range-end aria-selected:bg-primary aria-selected:text-primary-foreground" : expr);
      ("day_selected", "bg-primary text-primary-foreground hover:bg-primary hover:text-primary-foreground focus:bg-primary focus:text-primary-foreground" : expr);
      ("day_today", "bg-accent text-accent-foreground" : expr);
      ("day_outside", "day-outside text-muted-foreground aria-selected:text-muted-foreground" : expr);
      ("day_disabled", "text-muted-foreground opacity-50" : expr);
      ("day_range_middle", "aria-selected:bg-accent aria-selected:text-accent-foreground" : expr);
      ("day_hidden", "invisible" : expr)])
    (match classNames with VObj _ => classNames | _ => VObj [] end).

Definition IconLeft (className : val) (props : attrs A) : jsx A :=
  elp "ChevronLeft" ["className" =: cn ["size-4"; className]; Spread (Ok props)] [].
Definition IconRight (className : val) (props : attrs A) : jsx A :=
  elp "ChevronRight" ["className" =: cn ["size-4"; className]; Spread (Ok props)] [].

Definition Calendar (className classNames showOutsideDays : val) (props : attrs A) : jsx A :=
  let showOutsideDays := dflt showOutsideDays true in
  elp "DayPicker" ["showOutsideDays" =: showOutsideDays;
     "className" =: cn ["p-3"; className];
     "classNames" =: calendar_classes classNames props;
     "components" =: jobj [("IconLeft", VComp "IconLeft" : expr); ("IconRight", VComp "IconRight" : expr)];
     Spread (Ok props)] [].
End Calendar.
