(* ===== verification/UiCarousel.v ===== *)
(** * The UI kit: the carousel ([carousel.tsx])

    A wrapper of the embla library: the library's hook hands over an api object
    (none at first), the carousel subscribes to it, and keeps whether it can
    scroll either way.  Api objects are numbered; what they answer is the
    browser's input. *)
From S2P Require Import Prelude JsStr JsNum JsVal React Effects Logic Ui.
Local Open Scope string_scope.
Local Open Scope js_scope.

Record state := State {
  api : option nat;                      (* what useEmblaCarousel returned *)
  canScrollPrev : bool;
  canScrollNext : bool;
  subs : list (nat * string);            (* the [onSelect] listeners on api objects *)
  given_api : list nat;                  (* the calls of the caller's setApi *)
}.
Definition set_api (v : option nat) (s : state) : state :=
  State v (canScrollPrev s) (canScrollNext s) (subs s) (given_api s).
Definition set_canScrollPrev (v : bool) (s : state) : state :=
  State (api s) v (canScrollNext s) (subs s) (given_api s).
Definition set_canScrollNext (v : bool) (s : state) : state :=
  State (api s) (canScrollPrev s) v (subs s) (given_api s).
Definition set_subs (v : list (nat * string)) (s : state) : state :=
  State (api s) (canScrollPrev s) (canScrollNext s) v (given_api s).
Definition set_given_api (v : list nat) (s : state) : state :=
  State (api s) (canScrollPrev s) (canScrollNext s) (subs s) v.

Definition init_state : state := State None false false [] [].

Inductive action : Type :=
| ApiReady (a : nat)                     (* the hook's own state changes *)
| ApiEvent (a : nat) (name : string)     (* an api object emits an event *)
| ScrollPrev
| ScrollNext
| KeyDown (e : event)
| Unmount.

Section Carousel.
(** Whether the caller passed [setApi]. *)
Variable setApi : bool.

Definition onSelect : prog state unit :=
  let! p := call (CApi "canScrollPrev") in
  do! upd (set_canScrollPrev (truthy p)) in
  let! n := call (CApi "canScrollNext") in
  upd (set_canScrollNext (truthy n)).

(** [api?.scrollPrev()], [api?.scrollNext()]. *)
Definition scrollPrev (s : state) : prog state unit :=
  match api s with Some _ => do_ (CApi "scrollPrev") | None => skip end.
Definition scrollNext (s : state) : prog state unit :=
  match api s with Some _ => do_ (CApi "scrollNext") | None => skip end.

Definition handleKeyDown (s : state) (e : event) : prog state unit :=
  if String.eqb (ev_key e) "ArrowLeft" then do! do_ CPreventDefault in scrollPrev s
  else if String.eqb (ev_key e) "ArrowRight" then do! do_ CPreventDefault in scrollNext s
  else skip.

(** [api.on(name, onSelect)], [api.off(name, onSelect)]. *)
Definition on_ (a : nat) (name : string) : prog state unit :=
  upd (fun s => set_subs (subs s ++ [(a, name)])%list s).
Definition off_ (a : nat) (name : string) : prog state unit :=
  upd (fun s => set_subs (List.filter (fun p => negb (Nat.eqb (fst p) a && String.eqb (snd p) name))
                                      (subs s)) s).

(** The effect that tells the caller, and the one that subscribes. *)
Definition tell (s : state) : prog state unit :=
  match api s with
  | Some a => if setApi then upd (fun s => set_given_api (given_api s ++ [a])%list s) else skip
  | None => skip
  end.
Definition subscribe (s : state) : prog state unit :=
  match api s with
  | None => skip
  | Some a => do! onSelect in do! on_ a "reInit" in on_ a "select"
  end.
(** What it returns. *)
Definition cleanup (s : state) : prog state unit :=
  match api s with Some a => off_ a "select" | None => skip end.

Definition same_api (s s' : state) : bool :=
  match api s, api s' with
  | None, None => true
  | Some a, Some b => Nat.eqb a b
  | _, _ => false
  end.
(** Both effects depend on [api]: on a change the old one is cleaned up first. *)
Definition effect (old new : state) : prog state unit :=
  if same_api old new then skip
  else do! cleanup old in do! tell new in subscribe new.

Definition handle (s : state) (a : action) : prog state unit :=
  match a with
  | ApiReady a => upd (set_api (Some a))
  | ApiEvent a name =>
      when (existsb (fun p => Nat.eqb (fst p) a && String.eqb (snd p) name) (subs s)) onSelect
  | ScrollPrev => scrollPrev s
  | ScrollNext => scrollNext s
  | KeyDown e => handleKeyDown s e
  | Unmount => cleanup s
  end.

Definition page : component state action := Component init_state skip handle effect.
End Carousel.

(** ** The elements *)

Section Kit.
Context `{UiLib}.
Local Abbreviation A := action.

(** The part of the context the elements read; [carouselRef] is the library's
    ref callback. *)
Record context := Context {
  c_orientation : string;
  c_canScrollPrev : bool;
  c_canScrollNext : bool;
}.
Definition useCarousel (c : option context) : res context :=
  match c with
  | Some c => Ok c
  | None => Err (UserError "useCarousel must be used within a <Carousel />")
  end.

(** The options the library's hook is called with. *)
Definition embla_options (orientation opts : val) : expr :=
  jspread (match opts with VObj _ => opts | _ => VObj [] end)
    (jobj [("axis", jcond ((dflt orientation "horizontal") === "horizontal") "x" "y")]).

(** [orientation || (opts?.axis === "y" ? "vertical" : "horizontal")] after the
    default [orientation = "horizontal"]. *)
Definition orientation_of (orientation opts : val) : expr :=
  (dflt orientation "horizontal") ||| jcond ((opts ?> "axis") === "y") "vertical" "horizontal".

Definition Carousel (s : state) (orientation opts className : val) (children : kids_prop A)
    (props : attrs A) : jsx A :=
  el "CarouselContext.Provider"
    ["value" =: jobj [("carouselRef", VComp "carouselRef" : expr);
                      ("api", match api s with Some _ => VComp "api" | None => VUndef end : expr);
                      ("opts", opts : expr); ("orientation", orientation_of orientation opts);
                      ("scrollPrev", VComp "scrollPrev" : expr);
                      ("scrollNext", VComp "scrollNext" : expr);
                      ("canScrollPrev", canScrollPrev s : expr);
                      ("canScrollNext", canScrollNext s : expr)]] [
    elp "div" [onE "onKeyDownCapture" KeyDown;
       "className" =: cn ["relative"; className];
       "role" =: "region"; "aria-roledescription" =: "carousel"; "data-slot" =: "carousel";
       Spread (Ok props)] [slot children]].

Definition CarouselContent (c : option context) (className : val) (props : attrs A) : jsx A :=
  c ← useCarousel c;
  el "div" ["ref" =: VComp "carouselRef"; "className" =: "overflow-hidden"; "data-slot" =: "carousel-content"] [
    elp "div" ["className" =: cn ["flex";
         jcond ((c_orientation c) === "horizontal") "-ml-4" "-mt-4 flex-col"; className];
       Spread (Ok props)] []].

Definition CarouselItem (c : option context) (className : val) (props : attrs A) : jsx A :=
  c ← useCarousel c;
  elp "div" ["role" =: "group"; "aria-roledescription" =: "slide"; "data-slot" =: "carousel-item";
     "className" =: cn ["min-w-0 shrink-0 grow-0 basis-full";
       jcond ((c_orientation c) === "horizontal") "pl-4" "pt-4"; className];
     Spread (Ok props)] [].

Definition CarouselPrevious (c : option context) (className variant size : val) (props : attrs A) : jsx A :=
  let variant := dflt variant "outline" in
  let size := dflt size "icon" in
  c ← useCarousel c;
  elp "Button" ["data-slot" =: "carousel-previous"; "variant" =: variant; "size" =: size;
     "className" =: cn ["absolute size-8 rounded-full";
       jcond ((c_orientation c) === "horizontal") "top-1/2 -left-12 -translate-y-1/2"
         "-top-12 left-1/2 -translate-x-1/2 rotate-90"; className];
     "disabled" =: negb (c_canScrollPrev c);
     "onClick" =! ScrollPrev;
     Spread (Ok props)] [
    el "ArrowLeft" [] [];
    el "span" ["className" =: "sr-only"] [txt "Previous slide"]].

Definition CarouselNext (c : option context) (className variant size : val) (props : attrs A) : jsx A :=
  let variant := dflt variant "outline" in
  let size := dflt size "icon" in
  c ← useCarousel c;
  elp "Button" ["data-slot" =: "carousel-next"; "variant" =: variant; "size" =: size;
     "className" =: cn ["absolute size-8 rounded-full";
       jcond ((c_orientation c) === "horizontal") "top-1/2 -right-12 -translate-y-1/2"
         "-bottom-12 left-1/2 -translate-x-1/2 rotate-90"; className];
     "disabled" =: negb (c_canScrollNext c);
     "onClick" =! ScrollNext;
     Spread (Ok props)] [
    el "ArrowRight" [] [];
    el "span" ["className" =: "sr-only"] [txt "Next slide"]].
End Kit.

(** ** Who drives the buttons *)

Section Listeners.
Local Abbreviation C := (page true).

Definition listens (a : nat) (name : string) (s : state) : Prop := (a, name) ∈ subs s.

Record well_subscribed (s : state) : Prop := WellSubscribed {
  select_current : forall a, listens a "select" s -> api s = Some a;
  reInit_kept : forall a, a ∈ given_api s -> listens a "reInit" s;
  current_given : forall a, api s = Some a -> a ∈ given_api s;
}.

Definition carousel_ok (c : conf state) : Prop := pend c = [] /\ well_subscribed (st c).

(** The subscriptions of the next state. *)
Definition unsubscribed (a : nat) (l : list (nat * string)) : list (nat * string) :=
  List.filter (fun p => negb (Nat.eqb (fst p) a && String.eqb (snd p) "select")) l.

Lemma elem_of_unsubscribed a b name l :
  (b, name) ∈ unsubscribed a l <-> (b, name) ∈ l /\ ~ (b = a /\ name = "select").
Proof.
  unfold unsubscribed. rewrite list_elem_of_In, List.filter_In, <- list_elem_of_In.
  cbn. rewrite negb_true_iff, andb_false_iff, Nat.eqb_neq, String.eqb_neq. split; [tauto|].
  intros [Hin Hn]. split; [done|]. destruct (decide (b = a)); [right|left]; tauto.
Qed.

(** A new api: the old one keeps its [reInit] listener only, the new one gets
    both and is told to the caller. *)
Lemma api_ready io a c :
  let c' := event_step C io (ApiReady a) c in
  api (st c) <> Some a ->
  pend c' = pend c /\ api (st c') = Some a /\ given_api (st c') = (given_api (st c) ++ [a])%list /\
  subs (st c') = (match api (st c) with Some b => unsubscribed b (subs (st c)) | None => subs (st c) end
                  ++ [(a, "reInit"); (a, "select")])%list.
Proof.
  destruct c as [[[b|] cp cn ss gs] sto pn nx lg]; cbn [st api]; intros Hne.
  - unfold event_step, commit_after. cbn. unfold effect, same_api. cbn.
    rewrite (proj2 (Nat.eqb_neq b a)) by congruence. cbn. by rewrite <- app_assoc.
  - unfold event_step, commit_after. cbn. by rewrite <- app_assoc.
Qed.

Lemma onSelect_subs io c :
  let c' := run io onSelect c in
  pend c' = pend c /\ api (st c') = api (st c) /\ subs (st c') = subs (st c) /\
  given_api (st c') = given_api (st c) /\
  canScrollPrev (st c') = in_api io "canScrollPrev" /\ canScrollNext (st c') = in_api io "canScrollNext".
Proof. by destruct c. Qed.

Lemma same_api_refl s s' : api s' = api s -> same_api s s' = true.
Proof. unfold same_api. intros ->. destruct (api s); [apply Nat.eqb_refl|done]. Qed.

Lemma well_subscribed_same s s' :
  well_subscribed s -> api s' = api s -> subs s' = subs s -> given_api s' = given_api s ->
  well_subscribed s'.
Proof. intros [H1 H2 H3] Ha Hs Hg. split; unfold listens; rewrite ?Ha, ?Hs, ?Hg; done. Qed.

(** An event that leaves the api alone runs its handler and nothing else. *)
Lemma event_keeps io a c :
  api (st (run io (handle (st c) a) c)) = api (st c) ->
  event_step C io a c = run io (handle (st c) a) c.
Proof.
  intros Ha. unfold event_step, commit_after. cbn [page c_handle c_commit]. unfold effect.
  by rewrite same_api_refl.
Qed.

(** A handler that leaves the component's state alone. *)
Lemma quiet_event io a c :
  carousel_ok c -> st (run io (handle (st c) a) c) = st c ->
  pend (run io (handle (st c) a) c) = pend c -> carousel_ok (event_step C io a c).
Proof.
  intros [Hp Hw] Hst Hpd. rewrite event_keeps by by rewrite Hst. split; [by rewrite Hpd|by rewrite Hst].
Qed.

Lemma unmounted io c :
  let u := event_step C io Unmount c in
  pend u = pend c /\ api (st u) = api (st c) /\ given_api (st u) = given_api (st c) /\
  subs (st u) = match api (st c) with Some b => unsubscribed b (subs (st c)) | None => subs (st c) end.
Proof.
  cbn zeta. destruct c as [[[b|] cp cn ss gs] sto pn nx lg]; rewrite event_keeps by done; done.
Qed.

Lemma carousel_event io a c : carousel_ok c -> carousel_ok (event_step C io a c).
Proof.
  intros [Hp Hw]. destruct a as [a|a name| | |e|].
  - destruct (decide (api (st c) = Some a)) as [Ha|Hne].
    + rewrite event_keeps by (cbn; by rewrite Ha). split; [done|].
      by apply (well_subscribed_same (st c)).
    + destruct (api_ready io a c Hne) as (Hp' & Ha & Hg & Hs). split; [by rewrite Hp'|].
      destruct Hw as [H1 H2 H3]. split; unfold listens in *; rewrite ?Ha, ?Hg, ?Hs.
      * intros b. rewrite elem_of_app, !elem_of_cons. intros [Hb|[[=]|[[= ->]|Hb]]]; [|done|by apply elem_of_nil in Hb].
        exfalso. destruct (api (st c)) as [b'|] eqn:E.
        -- apply elem_of_unsubscribed in Hb as [Hb Hn]. apply Hn. split; [|done].
           apply H1 in Hb. congruence.
        -- apply H1 in Hb. congruence.
      * intros b. rewrite !elem_of_app, !elem_of_cons, elem_of_nil. intros [Hb|[->|[]]]; [left|right; by left].
        destruct (api (st c)); [|by apply H2]. apply elem_of_unsubscribed. split; [by apply H2|]. by intros [_ [=]].
      * intros b [= <-]. apply elem_of_app. right. by left.
  - assert (api (st (run io (handle (st c) (ApiEvent a name)) c)) = api (st c)) as Ha.
    { cbn [handle]. unfold when. destruct (existsb _ _); [apply (onSelect_subs io c)|done]. }
    rewrite (event_keeps _ _ _ Ha). cbn [handle]. unfold when.
    destruct (existsb _ _); [|done]. destruct (onSelect_subs io c) as (H1 & H2 & H3 & H4 & _).
    split; [by rewrite H1|by apply (well_subscribed_same (st c))].
  - by apply quiet_event; destruct c as [[[b|] cp cn ss gs] sto pn nx lg].
  - by apply quiet_event; destruct c as [[[b|] cp cn ss gs] sto pn nx lg].
  - apply quiet_event; [done| |]; cbn [handle]; unfold handleKeyDown;
      repeat case_match; by destruct c as [[[b|] cp cn ss gs] sto pn nx lg].
  - destruct (unmounted io c) as (Hp' & Ha & Hg & Hs). split; [by rewrite Hp'|].
    destruct Hw as [H1 H2 H3]. split; unfold listens in *; rewrite ?Ha, ?Hg, ?Hs; [| |done].
    + intros b Hb. apply H1. destruct (api (st c)); [|done]. by apply elem_of_unsubscribed in Hb as [Hb _].
    + intros b Hb. destruct (api (st c)); [|by apply H2]. apply elem_of_unsubscribed.
      split; [by apply H2|]. by intros [_ [=]].
Qed.

(** At most the current api's [select] events move the carousel's buttons, and
    unmounting (or a new api) removes that listener; but no cleanup removes the
    [reInit] listener of any api the carousel ever had. *)
Theorem carousel_listeners c :
  reachable C c ->
  (forall a, listens a "select" (st c) -> api (st c) = Some a) /\
  (forall a, a ∈ given_api (st c) -> listens a "reInit" (st c)) /\
  (forall io a, api (st c) = Some a ->
    let u := event_step C io Unmount c in
    (forall b, ~ listens b "select" (st u)) /\ forall b, b ∈ given_api (st u) -> listens b "reInit" (st u)).
Proof.
  intros Hr. assert (carousel_ok c) as [_ [H1 H2 H3]].
  { induction Hr as [io s0|c c' _ IH Hs]; [by split; [|split; intros ? Hb; inversion Hb]|].
    destruct Hs as [io a c|io i id q k o c Hi|io i id b ms p c Hi]; [by apply carousel_event| |];
      destruct IH as [Hp _]; by rewrite Hp in Hi. }
  split; [done|]. split; [done|]. intros io a Ha. cbn zeta.
  destruct (unmounted io c) as (_ & _ & Hug & Hus). rewrite Ha in Hus.
  set (u := event_step C io Unmount c) in *. unfold listens in *. rewrite Hus, Hug. split.
  - intros b Hb. apply elem_of_unsubscribed in Hb as [Hb Hn]. apply Hn.
    split; [|done]. apply H1 in Hb. congruence.
  - intros b Hb. apply elem_of_unsubscribed. split; [by apply H2|]. by intros [_ [=]].
Qed.
End Listeners.

Lemma carousel_listeners_witness :
  let c := event_step (page true) quiet_browser (ApiReady 7) (boot (page true) quiet_browser ∅) in
  reachable (page true) c /\ listens 7 "select" (st c) /\
  listens 7 "reInit" (st (event_step (page true) quiet_browser Unmount c)).
Proof.
  cbn zeta. assert (reachable (page true)
    (event_step (page true) quiet_browser (ApiReady 7) (boot (page true) quiet_browser ∅))) as R.
  { eapply reach_step; [apply reach_boot|apply step_event]. }
  split; [exact R|]. split; [right; by left|].
  destruct (carousel_listeners _ R) as (_ & _ & Hu).
  destruct (Hu quiet_browser 7 eq_refl) as [_ Hk]. apply Hk. by left.
Defined.
