(* ===== verification/UiChart.v ===== *)
(** * The UI kit: charts ([chart.tsx])

    The theme colours of a chart as a style sheet, and the tooltip and legend
    that look up an entry of the chart's configuration for each item the
    charting library hands over. *)
From Stdlib Require Import Ascii.
From S2P Require Import Prelude JsStr JsNum JsVal React Ui.
Local Open Scope string_scope.
Local Open Scope js_scope.

(** [THEMES]: theme name and CSS prefix. *)
Definition THEMES : list (string * string) := [("light", ""); ("dark", ".dark")].

(** A chart's configuration: an object, as its entries in order.  (JavaScript
    would move keys that are integers to the front; the names of data series
    are not.) *)
Abbreviation ChartConfig := (list (string * val)).

(** A value of an object under a computed key, [o[k]], and the test [k in o];
    prototypes and array indices aside. *)
Definition at_key (k : string) (o : val) : val :=
  match o with VObj fs => default VUndef (assoc k fs) | _ => VUndef end.
Definition in_obj (k : string) (o : val) : bool :=
  match o with VObj fs => has_key k fs | VArr _ => String.eqb k "length" | _ => false end.
Definition is_object (o : val) : bool :=
  match o with VObj _ | VArr _ => true | _ => false end.
Definition is_string (v : val) : option string :=
  match v with VStr s => Some s | _ => None end.

Definition newline : string := String (ascii_of_nat 10) "".

(** [getPayloadConfigFromPayload(config, payload, key)]. *)
Definition config_label_key (payload : val) (key : string) : string :=
  let payloadPayload :=
    if in_obj "payload" payload && is_object (at_key "payload" payload)
    then Some (at_key "payload" payload) else None in
  match is_string (at_key key payload) with
  | Some s => s
  | None =>
      match payloadPayload with
      | Some pp => match is_string (at_key key pp) with Some s => s | None => key end
      | None => key
      end
  end.
Definition getPayloadConfigFromPayload (config : ChartConfig) (payload : val) (key : string) : val :=
  if negb (is_object payload) then VUndef
  else
    let configLabelKey := config_label_key payload key in
    if has_key configLabelKey config then default VUndef (assoc configLabelKey config)
    else default VUndef (assoc key config).

(** The context's value; [None] is its default, [null]. *)
Definition useChart (context : option ChartConfig) : res ChartConfig :=
  match context with
  | Some config => Ok config
  | None => Err (UserError "useChart must be used within a <ChartContainer />")
  end.

Section Chart.
Context `{UiLib} {A : Type}.

(** [value.toLocaleString()], which depends on the browser's locale. *)
Variable toLocaleString : val -> string.

(** ** The style sheet *)

(** [Object.entries(config).filter(([, c]) => c.theme || c.color)]. *)
Definition colorConfig (config : ChartConfig) : res (list (string * val)) :=
  filterM (fun kv : string * val =>
             truthy <$> ((lit (snd kv)) ~> "theme" ||| (lit (snd kv)) ~> "color")) config.

(** One entry under one theme: [null] joins as the empty text. *)
Definition color_line (theme : string) (kv : string * val) : res string :=
  color ← (t ← (lit (snd kv)) ~> "theme"; if nullish t then Ok VUndef else get t theme)
            ||| (lit (snd kv)) ~> "color";
  let color : val := color in
  Ok (if truthy color then "  --color-" +:+ fst kv +:+ ": " +:+ to_string color +:+ ";" else "").

Definition theme_block (id : string) (entries : list (string * val)) (tp : string * string) : res string :=
  ls ← sequence (map (color_line (fst tp)) entries);
  Ok (newline +:+ snd tp +:+ " [data-chart=" +:+ id +:+ "] {" +:+ newline +:+
      join newline ls +:+ newline +:+ "}" +:+ newline).

Definition ChartStyle (id : string) (config : ChartConfig) : jsx A :=
  entries ← colorConfig config;
  match entries with
  | [] => nothing
  | _ =>
      bs ← sequence (map (theme_block id entries) THEMES);
      el "style" ["dangerouslySetInnerHTML" =: jobj [("__html", VStr (join newline bs) : expr)]] []
  end.

(** [`chart-${id || uniqueId.replace(/:/g, "")}`]. *)
Fixpoint without_colons (s : string) : string :=
  match s with
  | EmptyString => ""
  | String c s' => if Ascii.eqb c ":"%char then without_colons s' else String c (without_colons s')
  end.
Definition chart_id (id : val) (uniqueId : string) : expr :=
  tpl ["chart-"; id ||| without_colons uniqueId].

Definition ChartContainer (uniqueId : string) (id className : val) (children : kids_prop A)
    (config : ChartConfig) (props : attrs A) : jsx A :=
  chartId ← chart_id id uniqueId;
  let chartId : val := chartId in
  el "ChartContext.Provider" ["value" =: jobj [("config", VObj config : expr)]] [
    elp "div" ["data-slot" =: "chart"; "data-chart" =: chartId;
       "className" =: cn ["[&_.recharts-cartesian-axis-tick_text]:fill-muted-foreground [&_.recharts-cartesian-grid_line[stroke='#ccc']]:stroke-border/50 [&_.recharts-curve.recharts-tooltip-cursor]:stroke-border [&_.recharts-polar-grid_[stroke='#ccc']]:stroke-border [&_.recharts-radial-bar-background-sector]:fill-muted [&_.recharts-rectangle.recharts-tooltip-cursor]:fill-muted [&_.recharts-reference-line_[stroke='#ccc']]:stroke-border flex aspect-video justify-center text-xs [&_.recharts-dot[stroke='#fff']]:stroke-transparent [&_.recharts-layer]:outline-hidden [&_.recharts-sector]:outline-hidden [&_.recharts-sector[stroke='#fff']]:stroke-transparent [&_.recharts-surface]:outline-hidden"; className];
       Spread (Ok props)] [
      el "ChartStyle" ["id" =: chartId; "config" =: VObj config] [];
      el "RechartsPrimitive.ResponsiveContainer" [] [slot children]]].

(** ** The tooltip *)

(** [!payload?.length]. *)
Definition no_items (payload : val) : res bool := v ← payload ?> "length"; Ok (negb (truthy v)).

(** [`${a || b || "value"}`]. *)
Definition key_of (l : list expr) : res string :=
  v ← fold_right jor (lit "value") l; Ok (to_string v).

Section Tooltip.
(** The props after their defaults. *)
Variables (config : ChartConfig)
          (payload indicator hideLabel hideIndicator label labelClassName color nameKey labelKey : val)
          (labelFormatter : option (val -> val -> jsx A))
          (formatter : option (val -> val -> val -> nat -> val -> jsx A)).

Definition label_value (item : val) : expr :=
  key ← key_of [lit labelKey; item ?> "dataKey"; item ?> "name"];
  let itemConfig := getPayloadConfigFromPayload config item key in
  match is_string label with
  | Some s => if negb (truthy labelKey) then (lit (default VUndef (assoc s config))) ?> "label" ||| label
              else itemConfig ?> "label"
  | None => itemConfig ?> "label"
  end.

(** The memo: computed on every render, shown or not. *)
Definition tooltipLabel : jsx A :=
  empty ← no_items payload;
  if truthy hideLabel || (empty : bool) then nothing
  else
    items ← jarr payload;
    value ← label_value (default VUndef (head (items : list val)));
    let value : val := value in
    match labelFormatter with
    | Some f => el "div" ["className" =: cn ["font-medium"; labelClassName]] [f value payload]
    | None =>
        if negb (truthy value) then nothing
        else el "div" ["className" =: cn ["font-medium"; labelClassName]] [put value]
    end.

Definition indicator_mark (nestLabel : bool) (indicatorColor : expr) : jsx A :=
  el "div" ["className" =: cn ["shrink-0 rounded-[2px] border-(--color-border) bg-(--color-bg)";
       jobj [("h-2.5 w-2.5", indicator === "dot");
             ("w-1", indicator === "line");
             ("w-0 border-[1.5px] border-dashed bg-transparent", indicator === "dashed");
             ("my-0.5", nestLabel &&& (indicator === "dashed"))]];
     "style" =: jobj [("--color-bg", indicatorColor); ("--color-border", indicatorColor)]] [].

(** The number at the end of a line: [item.value && <span>..</span>]. *)
Definition item_value (item : val) : jsx A :=
  show (item ~> "value")
    (el "span" ["className" =: "text-foreground font-mono font-medium tabular-nums"] [
      v ← item ~> "value"; txt (toLocaleString v)]).

Definition item_body (nestLabel : bool) (tooltipLabel : jsx A) (itemConfig item : val)
    (indicatorColor : expr) : jsx A :=
  frag [
    jif (itemConfig ?> "icon")
      (elV (itemConfig ~> "icon") [] [])
      (show (jnot hideIndicator) (indicator_mark nestLabel indicatorColor));
    el "div" ["className" =: cn ["flex flex-1 justify-between leading-none";
         jcond nestLabel "items-end" "items-center"]] [
      el "div" ["className" =: "grid gap-1.5"] [
        if nestLabel then tooltipLabel else nothing;
        el "span" ["className" =: "text-muted-foreground"] [
          put (itemConfig ?> "label" ||| item ~> "name")]];
      item_value item]].

Definition tooltip_item (nestLabel : bool) (tooltipLabel : jsx A) (index : nat) (item : val) : jsx A :=
  key ← key_of [lit nameKey; item ~> "name"; item ~> "dataKey"];
  let itemConfig := getPayloadConfigFromPayload config item key in
  indicatorColor ← color ||| item ~> "payload" ~> "fill" ||| item ~> "color";
  let indicatorColor : val := indicatorColor in
  el "div" ["key" =: item ~> "dataKey";
     "className" =: cn ["[&>svg]:text-muted-foreground flex w-full flex-wrap items-stretch gap-2 [&>svg]:h-2.5 [&>svg]:w-2.5";
       (indicator === "dot") &&& "items-center"]] [
    match formatter with
    | Some f =>
        jif ((item ?> "value" !== VUndef) &&& item ~> "name")
          (value ← item ~> "value"; name ← item ~> "name"; p ← item ~> "payload";
           f value name item index p)
          (item_body nestLabel tooltipLabel itemConfig item indicatorColor)
    | None => item_body nestLabel tooltipLabel itemConfig item indicatorColor
    end].

Definition tooltip_box (active className : val) : jsx A :=
  label ← tooltipLabel;
  let label : jsx A := Ok label in
  empty ← no_items payload;
  if negb (truthy active) || (empty : bool) then nothing
  else
    items ← jarr payload;
    let nestLabel := Nat.eqb (length (items : list val)) 1 && negb (strict_eq indicator "dot") in
    el "div" ["className" =: cn ["border-border/50 bg-background grid min-w-[8rem] items-start gap-1.5 rounded-lg border px-2.5 py-1.5 text-xs shadow-xl"; className]] [
      if negb nestLabel then label else nothing;
      el "div" ["className" =: "grid gap-1.5"] [
        each payload (fun index item => tooltip_item nestLabel label index item)]].
End Tooltip.

Definition ChartTooltipContent (context : option ChartConfig)
    (active payload className indicator hideLabel hideIndicator label : val)
    (labelFormatter : option (val -> val -> jsx A)) (labelClassName : val)
    (formatter : option (val -> val -> val -> nat -> val -> jsx A))
    (color nameKey labelKey : val) : jsx A :=
  config ← useChart context;
  tooltip_box config payload (dflt indicator "dot") (dflt hideLabel false) (dflt hideIndicator false)
    label labelClassName color nameKey labelKey labelFormatter formatter active className.

(** ** The legend *)

Definition legend_item (config : ChartConfig) (hideIcon nameKey item : val) : jsx A :=
  key ← key_of [lit nameKey; (item ~> "dataKey")];
  let itemConfig := getPayloadConfigFromPayload config item key in
  el "div" ["key" =: item ~> "value";
     "className" =: cn ["[&>svg]:text-muted-foreground flex items-center gap-1.5 [&>svg]:h-3 [&>svg]:w-3"]] [
    jif ((itemConfig ?> "icon") &&& jnot hideIcon)
      (elV (itemConfig ~> "icon") [] [])
      (el "div" ["className" =: "h-2 w-2 shrink-0 rounded-[2px]";
         "style" =: jobj [("backgroundColor", item ~> "color")]] []);
    put (itemConfig ?> "label")].

Definition ChartLegendContent (context : option ChartConfig) (className hideIcon payload verticalAlign nameKey : val)
  : jsx A :=
  let hideIcon := dflt hideIcon false in
  let verticalAlign := dflt verticalAlign "bottom" in
  config ← useChart context;
  empty ← no_items payload;
  if (empty : bool) then nothing
  else
    el "div" ["className" =: cn ["flex items-center justify-center gap-4";
         jcond (verticalAlign === "top") "pb-3" "pt-3"; className]] [
      each payload (fun _ item => legend_item config hideIcon nameKey item)].
End Chart.

(** ** Zero in a tooltip *)

Section Zero.
Context `{UiLib} {A : Type} (toLocaleString : val -> string).

(** A line of the tooltip prints its number in the caller's locale, inside the
    number's own span, unless the number is zero or [NaN]: [item.value && ..]
    then leaves the bare number as a text of the row. *)
Theorem tooltip_number (n : num) (fs : list (string * val)) :
  let item := VObj (("value", VNum n) :: fs) in
  item_value (A := A) toLocaleString item =
  Ok (if num_is_nan n || num_is_zero n then [Text (num_to_string n)]
      else [Elem "span" [("className", AVal "text-foreground font-mono font-medium tabular-nums")]
              [Text (toLocaleString (VNum n))]]).
Proof. cbn zeta. unfold item_value. cbn. by destruct (num_is_nan n || num_is_zero n). Qed.

(** So a data point of value zero shows a plain "0". *)
Corollary tooltip_zero (fs : list (string * val)) :
  item_value (A := A) toLocaleString (VObj (("value", int 0) :: fs)) = Ok [Text "0"].
Proof. exact (tooltip_number (num_of_Z 0) fs). Qed.
End Zero.
